(* ===== verification/_CoqProject ===== *)
-Q . S2P
Prelude.v
Error.v
Utils.v
Crates.v
Crypto.v
Curve.v
Proto.v
IdentityKey.v
Instances.v
Protocol.v
RatchetKeys.v
SessionState.v
SessionInvariant.v
Ratchet.v
PreKeys.v
SenderKeys.v
Storage.v
StoreAccess.v
Session.v
SessionCipher.v
GroupCipher.v
SenderChain.v
Fingerprint.v
ReceiveChain.v
Conversation.v
EndToEnd.v
SessionRecordFacts.v
Replay.v
StoreProofs.v
Loops.v
GroupProofs.v
FirstContact.v
Gf2.v
Simd.v
SivCommon.v
Polyval.v
Aes256.v
AesGcmSiv.v
SivInstances.v
BridgeMemory.v
FfiUtil.v
FfiStores.v
FfiLaws.v
FfiEntry.v
FfiSession.v
FfiFrame.v
FfiSpec.v
FfiApi.v
FfiProofs.v
FfiInstances.v
StoreSimulation.v
JniUtil.v
JniStores.v
JniEntry.v
JniSession.v
JniSpec.v
JniFrame.v
JniApi.v
JniProgram.v
JniRecords.v
JniNoted.v
JniWorld.v
JniCalls.v
JniProofs.v
JniInstances.v
NodeBridge.v
Witnesses.v
FfiWitnesses.v
JniWitnesses.v
