(* ===== verification/Prelude.v ===== *)
(** * libsignal-client: the Signal protocol, modelled and verified

    The development models the protocol crate (src/rust/protocol/src) and the
    AES-GCM-SIV crate (src/rust/aes-gcm-siv/src). The protocol crate holds the
    whole protocol logic: X3DH session building, the double ratchet, group
    messaging with sender keys, the message formats, the session and key
    records, the stores, and the safety numbers. The AES-GCM-SIV crate, which
    the protocol crate does not call, is an authenticated cipher with vector
    code for x86 and AArch64. On top of the protocol crate, the development
    models its C interface (src/rust/bridge/ffi/src) and its Java interface
    (src/rust/bridge/jni/src).

    ** How code becomes definitions

    - A fallible call returns an [outcome]: [Ok], [Err] with an error of
      [SignalProtocolError] ([Error.v], error.rs), or [Panic] for a failed
      assertion, slice, [unwrap] or checked overflow. [let?] is the question
      mark operator; [let!] sequences computations over a mutable state ([ST]),
      whose state after an error is the one the code leaves behind.
    - Whether overflow checks and debug assertions are compiled in is the class
      [BuildConfig]; a theorem that does not fix it holds for every build.
    - Integers are [Z] with their width written out where the code computes with
      them ([u32_add], [u8_add], [wrapping_sub], [wrap_u32]); bytes are
      [Byte.byte], byte strings lists of bytes.
    - [async] adds no interleaving: every call is awaited where it is made, and
      the stores are borrowed for the whole function.
    - Cryptographic crates (aes, hmac, sha2, x25519-dalek, curve25519-dalek,
      subtle, rand) are the class [Crates] ([Crates.v]), with the documented
      behaviour used in proofs as law classes ([CbcLaws], [HashLaws],
      [X25519Laws], [EdwardsLaws], [SubtleLaws], [RngLaws]). The code prost
      generates from the .proto files is the class [ProtoCodecs] ([Proto.v]),
      with round-trip laws. [Instances.v] gives concrete functions that satisfy
      all these laws at once, and every witness in [Witnesses.v] uses them.
    - The AES-GCM-SIV crate's own dependencies (polyval, aes-soft, aesni) are
      the classes [PolyvalCrate] and [AesCrates] with their laws, the processor
      and its features the class [Machine]; [SivInstances.v] instantiates them.
      The x86 and AArch64 instructions the crate uses are definitions on 128-bit
      numbers ([Simd.v], [Aes256.v]), after the manuals of the architectures.

    ** Components

    - [Error.v]: address.rs, error.rs, the key type of curve.rs.
    - [Utils.v]: utils.rs, constant-time comparison with masks; equal to the
      length-first lexicographic order.
    - [Crypto.v]: crypto.rs and kdf.rs; HKDF equals RFC 5869, with the overflow
      of its counter byte.
    - [Curve.v], [IdentityKey.v]: curve.rs, curve/curve25519.rs,
      identity_key.rs; XEdDSA and the byte forms of keys.
    - [Protocol.v]: protocol.rs, the four message types.
    - [RatchetKeys.v], [Ratchet.v]: ratchet/keys.rs, ratchet/params.rs,
      ratchet.rs; chain keys, root keys, X3DH.
    - [SessionState.v]: state/session.rs and consts.rs, one definition per
      method; [SessionInvariant.v] has the invariant [session_wf] and what each
      method does to the chains, the skipped keys and the root key.
    - [PreKeys.v]: state/prekey.rs, state/signed_prekey.rs, state/bundle.rs.
    - [SenderKeys.v], [GroupCipher.v]: sender_keys.rs, group_cipher.rs.
    - [Storage.v]: storage/traits.rs as type classes, their contracts as law
      classes, and the in-memory stores of storage/inmem.rs.
    - [StoreAccess.v]: the stores and the generator as operations on a state that
      a caller chooses ([Stores]), which the functions of the protocol crate are
      proved against; a [World] keeps each in a field of its own.
      [StoreSimulation.v]: those functions see their stores only through these
      operations, so relations that the operations keep, they keep, as long as
      one of the two sides stays in good states.
    - [Session.v], [SessionCipher.v]: session.rs, session_cipher.rs.
    - [Fingerprint.v]: fingerprint.rs.
    - [Gf2.v], [Simd.v]: polynomials over GF(2) as numbers (a ring with [ring]),
      bytes as little-endian numbers, the vector instructions.
    - [SivCommon.v]: error.rs and cpuid.rs of the AES-GCM-SIV crate, [chunks],
      loops over ranges, [copy_from_slice].
    - [Polyval.v]: polyval.rs and polyval/*.rs; [Aes256.v]: aes.rs and
      aes/aarch64.rs; [AesGcmSiv.v]: aes_gcm_siv.rs, whose buffer, changed in
      place, is the state of [ST].

    The C interface (src/rust/bridge/ffi/src):
    - [BridgeMemory.v]: the memory shared with the C program. A pointer is an
      address, a cell holds one typed thing (a boxed Rust object, a slice, a
      string, an array or a variable of the C program), and a computation is
      [ST] over the memory and the rest of the world, which ends with a value,
      an error, a panic or [Undefined], undefined behaviour, which a bad
      dereference is. The model stops there, the code does not, so nothing is
      claimed of a call that ends so. The allocator and the payload of panics are the class
      [Platform].
    - [FfiUtil.v]: util.rs, with a macro a definition that takes the function it
      wraps. [FfiEntry.v], [FfiSession.v]: the entry points of lib.rs.
    - [FfiStores.v]: the tables of callbacks and the stores made of them. A
      callback of the C program is a parameter that reads and, behind [&mut self],
      changes the store of the C program; [FfiLaws.v] shows that callbacks which
      keep their laws make a store that keeps the laws of the store traits.

    The Java interface (src/rust/bridge/jni/src):
    - [JniUtil.v]: util.rs. The virtual machine and the crate jni are the class
      [JNIEnv], whose operations run on the native memory of [BridgeMemory.v] and
      on the state of the machine, since Java code that is called back may call
      native methods. Integers of Java are signed, the casts between machine
      integers definitions.
    - [JniStores.v]: the store objects. The stores share the state of one machine;
      a flag beside it ([CallState]) tells undefined behaviour in a store from a
      panic, which the protocol crate would pass on alike.
    - [JniEntry.v], [JniSession.v]: the native methods, without the prefix
      Java_org_signal_client_internal_Native_ of their names.
    - [JniProgram.v]: what a theorem needs of the machine ([JavaLaws]) and of the
      stores of a Java program ([JavaStoreLaws]). The machine finds the classes that
      the program has ([program_classes]) and a method of a store by its name and the
      signature that its interface in src/java declares ([method_sig]), so the class
      names and signatures in the code have to be right. The stores are maps: new records for addresses without
      a session and names without sender keys, null for addresses without an
      identity, trust on first use, pre-keys and sender keys behind handles, and no
      address with a negative device id. [JniInstances.v] has a machine and stores
      that satisfy it.
    - [JniNoted.v]: stores that are maps, for what a Java program keeps. What a
      program cannot keep, or may answer in its own way, is asked of it along a run
      and noted ([Demand], [Noted]); a run is [fine] when all of that is within the
      program's bounds, which is decidable. [JniWorld.v]: a Java program keeps what
      a [World] and a map of sender keys keep ([mirrors]), and each operation of
      the stores keeps it so.

    The Node module (src/rust/bridge/node/src/lib.rs) is [NodeBridge.v]: a class of
    private keys, over the crate neon as the class [Neon].

    ** Theorems

    - [ReceiveChain.v], [Conversation.v], [EndToEnd.v]: the double ratchet. A
      message key is derived, stored and given out once
      ([get_or_create_message_key_correct]); the relation [ahead] says that one
      end is ahead of the other by numbers of sent and lost messages, each
      message keeps it, and so any script of delivered and lost messages
      decrypts ([conversation_delivers]), starting from X3DH
      ([x3dh_agreement]).
    - [Replay.v], [SessionRecordFacts.v]: arbitrary, also forged, messages: no
      panic, no replay, the record's invariant, archiving and promotion. The one
      exception is stated with each theorem it concerns: the message with number
      2^32 - 1 for a chain at most 2000 before its end ([exhausted], [exhausts],
      [stored_exhausts]) adds 1 to the last index, which panics in a build with
      overflow checks and wraps to 0 in one without. Where a theorem is on sequences
      of messages, the numbers stay below 2^32 - 1.
    - [StoreProofs.v], [FirstContact.v]: the functions on the stores, against
      any stores that keep their laws: what each branch returns and changes, and
      the first contact from a published bundle to a decrypted message.
    - [SenderChain.v], [GroupProofs.v]: [get_sender_key] refines the abstract
      receiver [Receiver]; group conversations deliver each message once,
      whatever the network does.
    - [FfiSpec.v]: what the guard reports ([errors_are_reported]).
    - [FfiFrame.v], [FfiApi.v]: an entry point under the guard, unless its behaviour is
      undefined, lets no panic out and touches only what it is given to write through;
      of the five calls outside of the guard only [signal_error_get_message] can panic,
      on an error whose text has a NUL byte. So a handle stays good until it is
      destroyed, whatever is called in between ([handles_survive]); a program's
      calls are a step relation.
    - [FfiProofs.v]:
      the entry points on sessions and groups do what the protocol crate does
      ([calls_implement_operations]), an object comes back from its bytes
      ([objects_survive_as_bytes]), and two C programs establish a session
      through the interface ([first_contact_through_c]).
    - [JniSpec.v]: the exception for each error ([exceptions_are_thrown]) and what
      becomes of integers, those that are cast included ([java_integers_correct]).
      [JniFrame.v], [JniApi.v]: a native method returns a value, unless its behaviour
      is undefined, and never lets a panic into the virtual machine; a handle stays good
      along every trace of a Java program until it is destroyed
      ([java_handles_survive]). [JniRecords.v]: stores of a Java program that are
      maps are maps for the protocol crate ([java_stores_keep_records]), with the
      new records that Java makes, and where no address is made every operation
      fails. [JniCalls.v], [JniProofs.v]: the eight native methods on sessions and
      groups show the result that the protocol crate has on maps as a Java object,
      or throw its error, and leave what the maps keep
      ([java_calls_implement_operations]); two Java programs establish a session
      ([first_contact_through_java]) and hold a conversation in a group, in which
      each message is read once ([group_conversation_through_java]).
    - [Loops.v]: the skipping loops terminate ([skip_loops_terminate]).
    - [Polyval.v], [Aes256.v], [AesGcmSiv.v]: every implementation computes the
      function of its standard: POLYVAL ([polyval_is_rfc8452], where the portable
      implementation takes one block at a time and panics for more), AES-256
      ([aes256_is_fips197]) and AES-256-GCM-SIV ([aes_gcm_siv_is_rfc8452], with
      the errors and what is left in the buffer); decryption accepts exactly
      what encryption makes ([aes_gcm_siv_roundtrip]). The standards are the
      reference definitions [Fips197], [Rfc8452] and [polyval_blocks], run
      on published test vectors.

    ** Fuel

    The two loops that advance a chain ([skip_message_keys],
    [skip_sender_keys]) take the number of iterations their condition allows as
    fuel, at most [MAX_FORWARD_JUMPS]. [Loops.v] has the loops as relations
    without fuel and proves that they terminate from every state and that the
    definitions compute their results, so running out of fuel is not a
    behaviour of the model. [pop_back_while] and [chunks] have the length of
    their list as fuel ([pop_back_while_spec], [chunks_step]). The other loops
    of the code are folds over a range or a list.

    ** Not modelled

    The iOS variant of [has_armv8_crypto], which does not type-check. Timing:
    that the comparisons and the table-free code run in constant time is not a
    property of results. Of the C interface: [signal_print_ptr], which prints;
    pointers into the middle of a buffer; a callback that changes the memory the
    entry points see, or a store behind a [&self] method; two tables with the same
    context; calls from several threads. Of the Java interface: the virtual
    machine itself, which is a parameter; the Java classes of src/java, whose
    documented behaviour the laws of [JniProgram.v] state. The half of the theorem on handles that follows an object
    asks that Java code that a method calls back does not destroy the object, the one
    on stores that no exception is pending. Of the Node module, its registration. The protobuf encodings are
    generated at build time. [Debug] formatting and logging have no effect on
    results. *)

From Stdlib Require Export ZArith Lia.
From Stdlib Require Import Strings.Byte.
From stdpp Require Export base list numbers option strings gmap countable.

#[export] Set Default Goal Selector "!".

(** * Outcomes of Rust code

    [Ok] and [Err] are the two constructors of [std::result::Result]; [Panic]
    is the third way a Rust call can end (a failed [assert!], an out-of-range
    slice, an arithmetic overflow in a build with overflow checks). *)

Inductive outcome (E A : Type) : Type :=
  | Ok (a : A)
  | Err (e : E)
  | Panic.
Arguments Ok {E A} a.
Arguments Err {E A} e.
Arguments Panic {E A}.

#[export] Instance outcome_eq_dec `{EqDecision E, EqDecision A} : EqDecision (outcome E A).
Proof. solve_decision. Defined.

(** The [?] operator: continue on [Ok], leave the function otherwise. *)
Definition obind {E A B : Type} (m : outcome E A) (k : A -> outcome E B) : outcome E B :=
  match m with
  | Ok a => k a
  | Err e => Err e
  | Panic => Panic
  end.

(** [Option::ok_or]. *)
Definition ok_or {E A : Type} (o : option A) (e : E) : outcome E A :=
  match o with Some a => Ok a | None => Err e end.

(** [Option::unwrap], [Option::expect] and indexing: a missing value panics. *)
Definition unwrap {E A : Type} (o : option A) : outcome E A :=
  match o with Some a => Ok a | None => Panic end.

(** [assert!]. *)
Definition rust_assert {E : Type} (b : bool) : outcome E unit :=
  if b then Ok tt else Panic.

Definition is_ok {E A : Type} (m : outcome E A) : bool :=
  match m with Ok _ => true | _ => false end.

Declare Scope rust_scope.
Delimit Scope rust_scope with rust.
Notation "'let?' x ':=' m 'in' k" := (obind m (fun x => k))
  (at level 10, x binder, m at level 100, k at level 200, only parsing) : rust_scope.
#[global] Open Scope rust_scope.

(** * Computations over a mutable state

    [ST E S A] is a computation with access to a state [S] ([&mut self], or the
    stores a function is given).  The state that comes back with an [Err] is the
    one the code leaves behind: a mutation made before the error stays. *)

Definition ST (E S A : Type) : Type := S -> outcome E A * S.

Definition st_ret {E S A : Type} (a : A) : ST E S A := fun s => (Ok a, s).

Definition st_lift {E S A : Type} (m : outcome E A) : ST E S A := fun s => (m, s).

Definition st_bind {E S A B : Type} (m : ST E S A) (k : A -> ST E S B) : ST E S B :=
  fun s => match m s with
           | (Ok a, s') => k a s'
           | (Err e, s') => (Err e, s')
           | (Panic, s') => (Panic, s')
           end.

(** A fallible read of the state. *)
Definition st_gets {E S A : Type} (f : S -> outcome E A) : ST E S A := fun s => (f s, s).

(** A fallible update which, when it fails, has not touched the state. *)
Definition st_update {E S : Type} (f : S -> outcome E S) : ST E S unit :=
  fun s => match f s with
           | Ok s' => (Ok tt, s')
           | Err e => (Err e, s)
           | Panic => (Panic, s)
           end.

(** The same with a result beside the new state. *)
Definition st_step {E S A : Type} (f : S -> outcome E (A * S)) : ST E S A :=
  fun s => match f s with
           | Ok (a, s') => (Ok a, s')
           | Err e => (Err e, s)
           | Panic => (Panic, s)
           end.

(** A computation on a component of the state ([&mut] to a field). *)
Definition st_focus {E S T A : Type} (get : S -> T) (set : T -> S -> S) (m : ST E T A) : ST E S A :=
  fun s => let '(r, t) := m (get s) in (r, set t s).

Notation "'let!' x ':=' m 'in' k" := (st_bind m (fun x => k))
  (at level 10, x binder, m at level 100, k at level 200, only parsing) : rust_scope.

(** ** Inversion lemmas, one per combinator *)

Section Inversion.
Context {E S : Type}.

Lemma obind_ok {A B} (m : outcome E A) (k : A -> outcome E B) b :
  obind m k = Ok b <-> exists a, m = Ok a /\ k a = Ok b.
Proof. destruct m; simpl; split; [by eauto|by intros (?&[= <-]&?)|..]; first [discriminate | by intros (?&?&?)]. Qed.

Lemma obind_no_panic {A B} (m : outcome E A) (k : A -> outcome E B) :
  m <> Panic -> (forall a, m = Ok a -> k a <> Panic) -> obind m k <> Panic.
Proof. intros Hm Hk. destruct m; simpl; auto; done. Qed.

Lemma obind_assoc {A B C} (m : outcome E A) (k : A -> outcome E B) (h : B -> outcome E C) :
  obind (obind m k) h = obind m (fun a => obind (k a) h).
Proof. by destruct m. Qed.

Lemma ok_or_ok {A} (o : option A) (e : E) a : ok_or o e = Ok a <-> o = Some a.
Proof. destruct o; simpl; split; congruence. Qed.

Lemma ok_or_no_panic {A} (o : option A) (e : E) : ok_or o e <> Panic.
Proof. by destruct o. Qed.

Lemma unwrap_ok {A} (o : option A) a : unwrap (E:=E) o = Ok a <-> o = Some a.
Proof. destruct o; simpl; split; congruence. Qed.

Lemma unwrap_no_panic {A} (o : option A) : o <> None -> unwrap (E:=E) o <> Panic.
Proof. by destruct o. Qed.

Lemma rust_assert_ok b u : rust_assert (E:=E) b = Ok u <-> b = true.
Proof. destruct b, u; by split. Qed.

Lemma st_bind_ok {A B} (m : ST E S A) (k : A -> ST E S B) s b s' :
  st_bind m k s = (Ok b, s') <-> exists a s1, m s = (Ok a, s1) /\ k a s1 = (Ok b, s').
Proof.
  unfold st_bind. destruct (m s) as [[] ?]; split; [by eauto|by intros (?&?&[= <- <-]&?)|..];
    first [discriminate | by intros (?&?&?&?)].
Qed.

Lemma st_bind_eq {A B} (m : ST E S A) (k : A -> ST E S B) s a s1 :
  m s = (Ok a, s1) -> st_bind m k s = k a s1.
Proof. unfold st_bind. by intros ->. Qed.

Lemma st_bind_err_eq {A B} (m : ST E S A) (k : A -> ST E S B) s e s1 :
  m s = (Err e, s1) -> st_bind m k s = (Err e, s1).
Proof. unfold st_bind. by intros ->. Qed.

Lemma st_bind_assoc_eq {A B C} (m : ST E S A) (k : A -> ST E S B) (h : B -> ST E S C) s :
  st_bind (st_bind m k) h s = st_bind m (fun a => st_bind (k a) h) s.
Proof. unfold st_bind. by destruct (m s) as [[] ?]. Qed.

Lemma st_ret_ok {A} (a b : A) (s s' : S) :
  st_ret (E:=E) a s = (Ok b, s') <-> a = b /\ s = s'.
Proof. unfold st_ret. split; [by intros [= -> ->]|by intros [-> ->]]. Qed.

Lemma st_lift_ok {A} (m : outcome E A) a (s s' : S) :
  st_lift m s = (Ok a, s') <-> m = Ok a /\ s = s'.
Proof. unfold st_lift. split; [by intros [= -> ->]|by intros [-> ->]]. Qed.

Lemma st_gets_ok {A} (f : S -> outcome E A) a s s' :
  st_gets f s = (Ok a, s') <-> f s = Ok a /\ s = s'.
Proof. unfold st_gets. split; [by intros [= -> ->]|by intros [-> ->]]. Qed.

Lemma st_update_ok (f : S -> outcome E S) u s s' :
  st_update f s = (Ok u, s') <-> f s = Ok s'.
Proof. unfold st_update. destruct u. destruct (f s); split; congruence. Qed.

Lemma st_step_ok {A} (f : S -> outcome E (A * S)) a s s' :
  st_step f s = (Ok a, s') <-> f s = Ok (a, s').
Proof. unfold st_step. destruct (f s) as [[]| |]; split; congruence. Qed.

Lemma st_focus_ok {T A} (get : S -> T) (set : T -> S -> S) (m : ST E T A) s a s' :
  st_focus get set m s = (Ok a, s') <-> exists t, m (get s) = (Ok a, t) /\ s' = set t s.
Proof.
  unfold st_focus. destruct (m (get s)) as [r t]. split.
  - intros [= -> <-]. eauto.
  - by intros (? & [= -> ->] & ->).
Qed.
End Inversion.

(** [inv_ok] takes a hypothesis [f = Ok x] (or a computation that ends in [Ok])
    apart along the combinators above, and closes impossible branches. *)
Ltac inv_ok_step :=
  match goal with
  | H : obind _ _ = Ok _ |- _ => apply obind_ok in H as (? & ? & H)
  | H : ok_or _ _ = Ok _ |- _ => apply ok_or_ok in H
  | H : unwrap _ = Ok _ |- _ => apply unwrap_ok in H
  | H : rust_assert _ = Ok _ |- _ => apply rust_assert_ok in H
  | H : st_bind _ _ _ = (Ok _, _) |- _ => apply st_bind_ok in H as (? & ? & ? & H)
  | H : st_ret _ _ = (Ok _, _) |- _ => apply st_ret_ok in H as [? ?]
  | H : st_lift _ _ = (Ok _, _) |- _ => apply st_lift_ok in H as [? ?]
  | H : st_gets _ _ = (Ok _, _) |- _ => apply st_gets_ok in H as [? ?]
  | H : st_update _ _ = (Ok _, _) |- _ => apply st_update_ok in H
  | H : st_step _ _ = (Ok _, _) |- _ => apply st_step_ok in H
  | H : Ok _ = Ok _ |- _ => injection H as H
  | H : (Ok _, _) = (Ok _, _) |- _ => injection H as H
  | H : Err _ = Ok _ |- _ => discriminate H
  | H : Panic = Ok _ |- _ => discriminate H
  | H : (Err _, _) = (Ok _, _) |- _ => discriminate H
  | H : (Panic, _) = (Ok _, _) |- _ => discriminate H
  | H : (if ?b then _ else _) = Ok _ |- _ => destruct b eqn:?
  end.
Ltac inv_ok := repeat inv_ok_step; simplify_eq/=.

(** [no_panic] splits a goal [m <> Panic] along the same combinators. *)
Ltac no_panic_step :=
  match goal with
  | |- obind _ _ <> Panic => apply obind_no_panic; [|intros ? ?]
  | |- ok_or _ _ <> Panic => apply ok_or_no_panic
  | |- Ok _ <> Panic => discriminate
  | |- Err _ <> Panic => discriminate
  | |- (if ?b then _ else _) <> Panic => destruct b eqn:?
  | |- (match ?o with Some _ => _ | None => _ end) <> Panic => destruct o eqn:?
  end.
Ltac no_panic := repeat no_panic_step; try done.

(** ** What a computation does to the state when it does not succeed *)

(** [preserves I m]: whatever the outcome, [m] leads from a state that satisfies
    [I] to a state that satisfies [I]. *)
Definition preserves {E S A : Type} (I : S -> Prop) (m : ST E S A) : Prop :=
  forall s, I s -> I (m s).2.

Create HintDb preserves discriminated.

Section Preserves.
Context {E S : Type} (I : S -> Prop).

Lemma preserves_ret {A} (a : A) : preserves (E:=E) I (st_ret a).
Proof. by intros s. Qed.

Lemma preserves_lift {A} (m : outcome E A) : preserves I (st_lift m).
Proof. by intros s. Qed.

Lemma preserves_gets {A} (f : S -> outcome E A) : preserves I (st_gets f).
Proof. by intros s. Qed.

Lemma preserves_bind {A B} (m : ST E S A) (k : A -> ST E S B) :
  preserves I m -> (forall a, preserves I (k a)) -> preserves I (st_bind m k).
Proof.
  intros Hm Hk s Hs. unfold st_bind. specialize (Hm s Hs).
  destruct (m s) as [[] ?]; simpl in *; [by apply Hk|done|done].
Qed.

Lemma preserves_update (f : S -> outcome E S) :
  (forall s s', I s -> f s = Ok s' -> I s') -> preserves I (st_update f).
Proof. intros Hf s Hs. unfold st_update. destruct (f s) eqn:?; simpl; eauto. Qed.

Lemma preserves_step {A} (f : S -> outcome E (A * S)) :
  (forall s a s', I s -> f s = Ok (a, s') -> I s') -> preserves I (st_step f).
Proof. intros Hf s Hs. unfold st_step. destruct (f s) as [[]| |] eqn:?; simpl; eauto. Qed.

Lemma preserves_if {A} (b : bool) (m1 m2 : ST E S A) :
  preserves I m1 -> preserves I m2 -> preserves I (if b then m1 else m2).
Proof. by destruct b. Qed.

Lemma preserves_option {A B} (o : option B) (m1 : B -> ST E S A) (m2 : ST E S A) :
  (forall b, preserves I (m1 b)) -> preserves I m2 ->
  preserves I (match o with Some b => m1 b | None => m2 end).
Proof. destruct o; auto. Qed.
End Preserves.

#[export] Hint Resolve preserves_ret preserves_lift preserves_gets preserves_bind
  preserves_if preserves_option : preserves.

(** [crates]: lengths of and failure conditions on calls into other crates. *)
Create HintDb crates discriminated.

(** * Bytes and machine integers *)

Abbreviation bytes := (list Byte.byte).

#[export] Instance byte_eq_dec : EqDecision Byte.byte := Byte.byte_eq_dec.

#[export] Program Instance byte_countable : Countable Byte.byte :=
  inj_countable Byte.to_N Byte.of_N _.
Next Obligation. intros. apply Byte.of_to_N. Qed.

(** The numeric value of a [u8], and the [u8] of a number ([as u8], modulo 256). *)
Definition u8_val (b : Byte.byte) : Z := Z.of_N (Byte.to_N b).
Definition u8_of (z : Z) : Byte.byte :=
  match Byte.of_N (Z.to_N (z mod 256)) with Some b => b | None => Byte.x00 end.

Lemma u8_val_range b : (0 <= u8_val b < 256)%Z.
Proof. unfold u8_val. pose proof (Byte.to_N_bounded b). lia. Qed.

Lemma u8_of_val b : u8_of (u8_val b) = b.
Proof.
  unfold u8_of. rewrite Z.mod_small by apply u8_val_range.
  unfold u8_val. by rewrite N2Z.id, Byte.of_to_N.
Qed.

Lemma u8_val_of z : u8_val (u8_of z) = (z mod 256)%Z.
Proof.
  pose proof (Z.mod_pos_bound z 256). unfold u8_of, u8_val.
  destruct (Byte.of_N _) as [b|] eqn:Hb.
  - apply Byte.to_of_N in Hb. rewrite Hb. lia.
  - apply Byte.of_N_None_iff in Hb. lia.
Qed.

Lemma u8_val_inj b c : u8_val b = u8_val c -> b = c.
Proof. intros H. by rewrite <-(u8_of_val b), <-(u8_of_val c), H. Qed.

(** Whether arithmetic overflow panics (a debug build) or wraps (a release
    build), and whether [debug_assert!] is compiled in; the theorems hold for
    every configuration unless they name one. *)
Class BuildConfig := { overflow_checks : bool; debug_assertions : bool }.

(** [debug_assert!]. *)
Definition debug_assert `{BuildConfig} {E} (b : bool) : outcome E unit :=
  if debug_assertions && negb b then Panic else Ok tt.

Definition u32_max : Z := 4294967295.
Definition is_u32 (z : Z) : Prop := (0 <= z <= u32_max)%Z.
Definition wrap_u32 (z : Z) : Z := (z mod 4294967296)%Z.

(** [a + b] on [u32]. *)
Definition u32_add `{BuildConfig} {E} (a b : Z) : outcome E Z :=
  if (a + b <=? u32_max)%Z then Ok (a + b)%Z
  else if overflow_checks then Panic else Ok (wrap_u32 (a + b)).

(** [a + b] on [u8]. *)
Definition u8_add `{BuildConfig} {E} (a b : Z) : outcome E Z :=
  if (a + b <=? 255)%Z then Ok (a + b)%Z
  else if overflow_checks then Panic else Ok ((a + b) mod 256)%Z.

(** [u32 as i32] and [i32 as u32]: the same bits. *)
Definition i32_of_u32 (z : Z) : Z := if (z <? 2147483648)%Z then z else (z - 4294967296)%Z.
Definition u32_of_i32 (z : Z) : Z := wrap_u32 z.

Lemma u32_of_i32_of_u32 z : is_u32 z -> u32_of_i32 (i32_of_u32 z) = z.
Proof.
  unfold is_u32, u32_max, u32_of_i32, i32_of_u32, wrap_u32. intros.
  destruct (Z.ltb_spec z 2147483648); [by apply Z.mod_small; lia|].
  replace (z - 4294967296)%Z with (z + (-1) * 4294967296)%Z by lia.
  rewrite Z.mod_add by lia. apply Z.mod_small. lia.
Qed.

Lemma u32_add_small `{BuildConfig} {E} a b :
  (a + b <= u32_max)%Z -> u32_add (E:=E) a b = Ok (a + b)%Z.
Proof. unfold u32_add. by intros ->%Z.leb_le. Qed.

(** * Slices *)

(** [&l[i..j]]: panics unless [i <= j <= l.len()]. *)
Definition slice {E A} (i j : nat) (l : list A) : outcome E (list A) :=
  if (i <=? j) && (j <=? length l) then Ok (take (j - i) (drop i l)) else Panic.

(** [a - b] on [usize], used for slice bounds only: where the subtraction
    underflows the code panics in either build, at the subtraction or, with a
    wrapped bound, at the slice. *)
Definition usize_sub {E} (a b : nat) : outcome E nat :=
  if b <=? a then Ok (a - b) else Panic.

Lemma slice_ok {E A} i j (l : list A) :
  i <= j -> j <= length l -> slice (E:=E) i j l = Ok (take (j - i) (drop i l)).
Proof.
  intros ??. unfold slice.
  by rewrite (proj2 (Nat.leb_le i j)), (proj2 (Nat.leb_le j (length l))).
Qed.

Lemma slice_length {E A} i j (l l' : list A) :
  slice (E:=E) i j l = Ok l' -> length l' = j - i.
Proof.
  unfold slice. intros. inv_ok.
  match goal with H : _ && _ = true |- _ => apply andb_prop in H as [?%Nat.leb_le ?%Nat.leb_le] end.
  rewrite length_take, length_drop. lia.
Qed.

Lemma slice_app_l {E A} (l1 l2 : list A) : slice (E:=E) 0 (length l1) (l1 ++ l2) = Ok l1.
Proof. rewrite slice_ok by (rewrite ?length_app; lia). by rewrite drop_0, Nat.sub_0_r, take_app_length. Qed.

Lemma slice_app_r {E A} (l1 l2 : list A) n :
  n = length (l1 ++ l2) -> slice (E:=E) (length l1) n (l1 ++ l2) = Ok l2.
Proof.
  intros ->. rewrite slice_ok by (rewrite ?length_app; lia).
  rewrite drop_app_length, length_app. f_equal. apply take_ge. lia.
Qed.

(** * Bounded queues

    [while q.len() > max { q.remove(0) }] and
    [while q.len() > max { q.pop_back() }]. *)

Fixpoint remove_front_while {A} (max : nat) (l : list A) : list A :=
  if max <? length l then
    match l with [] => [] | _ :: l' => remove_front_while max l' end
  else l.

Fixpoint pop_back_while {A} (fuel max : nat) (l : list A) : list A :=
  match fuel with
  | O => l
  | S fuel' => if max <? length l then pop_back_while fuel' max (removelast l) else l
  end.

Lemma remove_front_while_spec {A} max (l : list A) :
  remove_front_while max l = drop (length l - max) l.
Proof.
  induction l as [|x l IH]; simpl; [by destruct (max <? 0)|].
  destruct (Nat.ltb_spec max (S (length l))).
  - rewrite IH. replace (S (length l) - max) with (S (length l - max)) by lia. done.
  - by replace (S (length l) - max) with 0 by lia.
Qed.

Lemma pop_back_while_spec {A} fuel max (l : list A) :
  length l <= fuel + max -> pop_back_while fuel max l = take max l.
Proof.
  revert l. induction fuel as [|fuel IH]; intros l Hl; simpl.
  - symmetry. apply take_ge. lia.
  - destruct (Nat.ltb_spec max (length l)) as [Hlt|]; [|symmetry; apply take_ge; lia].
    destruct l as [|x l' _] using rev_ind; [simpl in *; lia|].
    rewrite length_app in *. simpl in *. rewrite removelast_last, IH by lia.
    rewrite take_app_le; [done|lia].
Qed.

Lemma length_remove_front_while {A} max (l : list A) :
  length (remove_front_while max l) <= max.
Proof. rewrite remove_front_while_spec, length_drop. lia. Qed.

(** [l\[i\] = x]: a panic when [i] is out of range. *)
Definition vec_set {E A} (l : list A) (i : nat) (x : A) : outcome E (list A) :=
  if i <? length l then Ok (<[i := x]> l) else Panic.

Lemma vec_set_ok {E A} (l : list A) i x y :
  l !! i = Some y -> vec_set (E:=E) l i x = Ok (<[i := x]> l).
Proof. intros Hl%lookup_lt_Some. unfold vec_set. by rewrite (proj2 (Nat.ltb_lt _ _) Hl). Qed.

(** * Searching and updating a list *)

Section ListFind.
Context {A : Type} (P : A -> Prop) `{!forall x, Decision (P x)}.

Lemma list_find_insert_same l i x y :
  list_find P l = Some (i, x) -> P y -> list_find P (<[i := y]> l) = Some (i, y).
Proof.
  rewrite !list_find_Some. intros (Hi & _ & Hbefore) Hy. split_and!; [|done|].
  - apply list_lookup_insert_eq. by eapply lookup_lt_Some.
  - intros j z Hj Hlt. rewrite list_lookup_insert_ne in Hj by lia. by eapply Hbefore.
Qed.

Lemma list_find_insert_other l i x y :
  l !! i = Some x -> ~ P x -> ~ P y ->
  snd <$> list_find P (<[i := y]> l) = snd <$> list_find P l.
Proof.
  revert i. induction l as [|z l IH]; intros [|i] Hl Hx Hy; simplify_eq/=; try done.
  - by rewrite !decide_False.
  - destruct (decide (P z)); [done|]. specialize (IH _ Hl Hx Hy).
    destruct (list_find P (<[i := y]> l)) as [[]|], (list_find P l) as [[]|];
      simpl in *; congruence.
Qed.
End ListFind.

(** [Vec::remove(i)] of an index in range and [Iterator::position]. *)
Definition list_remove_at {A} (i : nat) (l : list A) : list A := take i l ++ drop (S i) l.
Arguments list_remove_at : simpl never.
Definition position {A} (f : A -> bool) (l : list A) : option nat :=
  fst <$> list_find (fun x => f x = true) l.

Lemma list_remove_at_delete {A} i (l : list A) : list_remove_at i l = delete i l.
Proof. unfold list_remove_at. by rewrite delete_take_drop. Qed.

Lemma list_remove_at_sublist {A} i (l : list A) : list_remove_at i l `sublist_of` l.
Proof. rewrite list_remove_at_delete. apply sublist_delete. Qed.

Lemma list_remove_at_perm {A} i (l : list A) x :
  l !! i = Some x -> l ≡ₚ x :: list_remove_at i l.
Proof. intros. rewrite list_remove_at_delete. by apply delete_Permutation. Qed.

Lemma Forall_list_remove_at {A} (P : A -> Prop) i l : Forall P l -> Forall P (list_remove_at i l).
Proof. rewrite list_remove_at_delete. apply Forall_delete. Qed.

Lemma removelast_sublist {A} (l : list A) : removelast l `sublist_of` l.
Proof.
  induction l as [|x l IH] using rev_ind; [done|].
  rewrite removelast_last. by apply sublist_inserts_r.
Qed.

Lemma removelast_cons {A} (x : A) l : l <> [] -> removelast (x :: l) = x :: removelast l.
Proof. by destruct l. Qed.

Lemma length_removelast {A} (l : list A) : length (removelast l) = pred (length l).
Proof.
  induction l as [|x l _] using rev_ind; [done|]. rewrite removelast_last, length_app. simpl. lia.
Qed.

Lemma sublist_Forall {A} (P : A -> Prop) (l k : list A) :
  l `sublist_of` k -> Forall P k -> Forall P l.
Proof.
  intros Hsub. rewrite !list.Forall_forall. intros Hk x Hx. apply Hk.
  eapply elem_of_submseteq; [exact Hx|by apply sublist_submseteq].
Qed.

Lemma filter_all {A} (P : A -> Prop) `{!forall x, Decision (P x)} (l : list A) :
  (forall x, x ∈ l -> P x) -> filter P l = l.
Proof.
  induction l as [|x l IH]; intros Hl; [done|].
  rewrite filter_cons_True by (apply Hl; constructor). f_equal. apply IH. intros y Hy. apply Hl. by right.
Qed.
