(* ===== verification/Error.v ===== *)
(** Addresses, key types and the error type of the protocol crate
    ([address.rs], [error.rs], and [KeyType] of [curve.rs]), with the text each
    error displays. *)

From S2P Require Import Prelude.
From stdpp Require Import pretty.

(** * [ProtocolAddress] *)

Module ProtocolAddress.
Record t := new { name : string; device_id : Z }.

#[global] Instance eq_dec : EqDecision t.
Proof. solve_decision. Defined.

#[global] Program Instance countable : Countable t :=
  inj_countable' (fun a => (name a, device_id a)) (fun p => new p.1 p.2) _.
Next Obligation. by intros []. Qed.

(** [impl fmt::Display for ProtocolAddress]. *)
Definition display (a : t) : string :=
  (name a +:+ " " +:+ pretty (device_id a))%string.
End ProtocolAddress.
Abbreviation ProtocolAddress := ProtocolAddress.t.

(** * [KeyType] *)

Module KeyType.
Inductive t := Djb.

#[global] Instance eq_dec : EqDecision t.
Proof. solve_decision. Defined.

Definition value (k : t) : Byte.byte := match k with Djb => Byte.x05 end.

(** [Debug], which [Display] uses. *)
Definition display (k : t) : string := match k with Djb => "Djb" end.
End KeyType.
Abbreviation KeyType := KeyType.t.

(** * [SignalProtocolError]

    prost's two error types are opaque here: a value is the text it displays. *)

Record DecodeError := { decode_error_text : string }.
Record EncodeError := { encode_error_text : string }.

#[export] Instance DecodeError_eq_dec : EqDecision DecodeError.
Proof. solve_decision. Defined.
#[export] Instance EncodeError_eq_dec : EqDecision EncodeError.
Proof. solve_decision. Defined.

Inductive SignalProtocolError :=
  | InvalidArgument (msg : string)
  | InvalidState (func msg : string)
  | ProtobufDecodingError (e : DecodeError)
  | ProtobufEncodingError (e : EncodeError)
  | InvalidProtobufEncoding
  | CiphertextMessageTooShort (size : nat)
  | LegacyCiphertextVersion (version : Z)
  | UnrecognizedCiphertextVersion (version : Z)
  | UnrecognizedMessageVersion (version : Z)
  | FingerprintIdentifierMismatch
  | FingerprintVersionMismatch
  | NoKeyTypeIdentifier
  | BadKeyType (t : Byte.byte)
  | BadKeyLength (t : KeyType) (len : nat)
  | MismatchedKeyTypes (a b : KeyType)
  | MismatchedSignatureLengthForKey (t : KeyType) (len : nat)
  | SignatureValidationFailed
  | SignaturePubkeyMissing
  | UntrustedIdentity (addr : ProtocolAddress)
  | InvalidPreKeyId
  | InvalidSignedPreKeyId
  | InvalidSenderKeyId
  | InvalidPreKeyBundle
  | InvalidRootKeyLength (len : nat)
  | InvalidChainKeyLength (len : nat)
  | InvalidMacKeyLength (len : nat)
  | InvalidCipherCryptographicParameters (key_len iv_len : nat)
  | InvalidCiphertext
  | NoSenderKeyState
  | SenderKeySigningKeyMissing
  | SessionNotFound
  | InvalidSessionStructure
  | DuplicatedMessage (index counter : Z)
  | InvalidMessage (msg : string)
  | InternalError (msg : string)
  | FfiBindingError (msg : string)
  | ApplicationCallbackThrewException (func : string) (t : option string) (msg : string)
  | ApplicationCallbackReturnedIntegerError (func : string) (code : Z).

#[export] Instance SignalProtocolError_eq_dec : EqDecision SignalProtocolError.
Proof. solve_decision. Defined.

Abbreviation Result := (outcome SignalProtocolError).
Abbreviation StateResult := (ST SignalProtocolError).

(** [TryFrom<u8> for KeyType]. *)
Definition KeyType_try_from (x : Byte.byte) : Result KeyType :=
  if decide (x = Byte.x05) then Ok KeyType.Djb else Err (BadKeyType x).

(** [Error::source]: the underlying error of the two protobuf constructors. *)
Definition error_source (e : SignalProtocolError) : option (EncodeError + DecodeError) :=
  match e with
  | ProtobufEncodingError e => Some (inl e)
  | ProtobufDecodingError e => Some (inr e)
  | _ => None
  end.

(** [{:#04x}] of a byte. *)
Definition hex_digit (n : Z) : string :=
  nth (Z.to_nat n)
    ["0"; "1"; "2"; "3"; "4"; "5"; "6"; "7"; "8"; "9"; "a"; "b"; "c"; "d"; "e"; "f"]%string ""%string.
Definition show_u8_hex (b : Byte.byte) : string :=
  ("0x" +:+ hex_digit (u8_val b / 16) +:+ hex_digit (u8_val b mod 16))%string.

(** [impl fmt::Display for SignalProtocolError]. *)
Definition error_display (e : SignalProtocolError) : string :=
  (match e with
   | ProtobufDecodingError e => "failed to decode protobuf: " +:+ decode_error_text e
   | ProtobufEncodingError e => "failed to encode protobuf: " +:+ encode_error_text e
   | InvalidProtobufEncoding => "protobuf encoding was invalid"
   | InvalidArgument s => "invalid argument: " +:+ s
   | InvalidState func s => "invalid state for call to " +:+ func +:+ " to succeed: " +:+ s
   | CiphertextMessageTooShort size =>
       "ciphertext serialized bytes were too short <" +:+ pretty size +:+ ">"
   | LegacyCiphertextVersion version =>
       "ciphertext version was too old <" +:+ pretty version +:+ ">"
   | UnrecognizedCiphertextVersion version =>
       "ciphertext version was unrecognized <" +:+ pretty version +:+ ">"
   | UnrecognizedMessageVersion version =>
       "unrecognized message version <" +:+ pretty version +:+ ">"
   | FingerprintIdentifierMismatch => "fingerprint identifiers do not match"
   | FingerprintVersionMismatch => "fingerprint version numbers do not match"
   | NoKeyTypeIdentifier => "no key type identifier"
   | BadKeyType t => "bad key type <" +:+ show_u8_hex t +:+ ">"
   | BadKeyLength t l =>
       "bad key length <" +:+ pretty l +:+ "> for key with type <" +:+ KeyType.display t +:+ ">"
   | MismatchedKeyTypes a b =>
       "key types <" +:+ KeyType.display a +:+ "> and <" +:+ KeyType.display b +:+ "> do not match"
   | MismatchedSignatureLengthForKey t l =>
       "signature length <" +:+ pretty l +:+ "> does not match expected for key with type <"
         +:+ KeyType.display t +:+ ">"
   | InvalidPreKeyId => "invalid prekey identifier"
   | InvalidSignedPreKeyId => "invalid signed prekey identifier"
   | InvalidChainKeyLength l => "invalid chain key length <" +:+ pretty l +:+ ">"
   | InvalidRootKeyLength l => "invalid root key length <" +:+ pretty l +:+ ">"
   | InvalidCipherCryptographicParameters kl nl =>
       "invalid cipher key length <" +:+ pretty kl +:+ "> or nonce length <" +:+ pretty nl +:+ ">"
   | InvalidMacKeyLength l => "invalid MAC key length <" +:+ pretty l +:+ ">"
   | UntrustedIdentity addr => "untrusted identity for address " +:+ ProtocolAddress.display addr
   | SignatureValidationFailed => "invalid signature detected"
   | InvalidPreKeyBundle => "invalid pre key bundle format"
   | InvalidCiphertext => "invalid ciphertext message"
   | SessionNotFound => "session not found"
   | InvalidSessionStructure => "invalid session structure"
   | DuplicatedMessage i c => "message with old counter " +:+ pretty i +:+ " / " +:+ pretty c
   | InvalidMessage m => "invalid message " +:+ m
   | InternalError m => "internal error " +:+ m
   | InvalidSenderKeyId => "invalid send key id"
   | NoSenderKeyState => "no sender key state"
   | SenderKeySigningKeyMissing => "sender key signature key missing"
   | SignaturePubkeyMissing => "cannot verify signature due to missing key"
   | FfiBindingError m => "error while invoking an ffi callback: " +:+ m
   | ApplicationCallbackReturnedIntegerError func c =>
       "application callback " +:+ func +:+ " returned error code " +:+ pretty c
   | ApplicationCallbackThrewException func (Some t) m =>
       "application callback " +:+ func +:+ " threw exception " +:+ t +:+ " with message " +:+ m
   | ApplicationCallbackThrewException func None m =>
       "application callback " +:+ func +:+ " threw exception with message " +:+ m
   end)%string.

Example error_display_bad_key_type :
  error_display (BadKeyType Byte.x07) = "bad key type <0x07>"%string.
Proof. reflexivity. Qed.
