(* ===== verification/Utils.v ===== *)
(** Constant-time comparison ([utils.rs]).

    A [u8] is a [Z] between 0 and 255 here, with [wrapping_sub] and the bit
    operations written out. *)

From S2P Require Import Prelude Error.
Local Open Scope Z_scope.

Definition is_u8 (z : Z) : Prop := 0 <= z < 256.
Definition wrapping_sub (a b : Z) : Z := (a - b) mod 256.
Definition u8_not (a : Z) : Z := Z.lxor a 255.

Definition expand_top_bit (a : Z) : Z := wrapping_sub 0 (Z.shiftr a 7).

Definition ct_is_zero (a : Z) : Z := expand_top_bit (Z.land (u8_not a) (wrapping_sub a 1)).

Definition ct_is_eq (a b : Z) : Z := ct_is_zero (Z.lxor a b).

Definition ct_is_lt (a b : Z) : Z :=
  expand_top_bit (Z.lxor a (Z.lor (Z.lxor a b) (Z.lxor (wrapping_sub a b) a))).

(** [Ordering::{Less, Equal, Greater}] are [Lt], [Eq] and [Gt]. *)
Section Cmp.
Context `{BuildConfig} {E : Type}.

Definition ct_select (mask a b : Z) : outcome E Z :=
  let? _ := debug_assert ((mask =? 0) || (mask =? 255)) in
  Ok (Z.lxor b (Z.land mask (Z.lxor a b))).

(** One iteration of the loop, at index [x.len() - 1 - i]. *)
Definition cmp_step (x y : bytes) (result : Z) (i : nat) : outcome E Z :=
  let? a := unwrap (x !! (length x - 1 - i)%nat) in
  let? b := unwrap (y !! (length x - 1 - i)%nat) in
  let is_eq := ct_is_eq (u8_val a) (u8_val b) in
  let is_lt := ct_is_lt (u8_val a) (u8_val b) in
  let? sel := ct_select is_lt 1 255 in
  ct_select is_eq result sel.

(** [for i in 0..n]. *)
Fixpoint cmp_loop (x y : bytes) (n : nat) : outcome E Z :=
  match n with
  | O => Ok 0
  | S i => let? result := cmp_loop x y i in cmp_step x y result i
  end.

Definition constant_time_cmp (x y : bytes) : outcome E comparison :=
  if (length x <? length y)%nat then Ok Lt
  else if (length y <? length x)%nat then Ok Gt
  else
    let? result := cmp_loop x y (length x) in
    let? _ := debug_assert ((result =? 0) || (result =? 1) || (result =? 255)) in
    Ok (if result =? 0 then Eq else if result =? 1 then Lt else Gt).
End Cmp.

(** * The reference: shorter first, then lexicographic *)

Fixpoint lex_cmp (x y : bytes) : comparison :=
  match x, y with
  | [], [] => Eq
  | [], _ :: _ => Lt
  | _ :: _, [] => Gt
  | a :: x', b :: y' =>
      match u8_val a ?= u8_val b with Eq => lex_cmp x' y' | c => c end
  end.

Definition length_lex_cmp (x y : bytes) : comparison :=
  match Nat.compare (length x) (length y) with Eq => lex_cmp x y | c => c end.

Lemma lex_cmp_eq x y : lex_cmp x y = Eq <-> x = y.
Proof.
  revert y. induction x as [|a x IH]; intros [|b y]; simpl; try done.
  destruct (Z.compare_spec (u8_val a) (u8_val b)) as [Heq|Hlt|Hlt].
  - rewrite IH. split; [|by intros [= _ ->]].
    intros ->. by rewrite (u8_val_inj _ _ Heq).
  - split; [done|]. intros [= -> _]. lia.
  - split; [done|]. intros [= -> _]. lia.
Qed.

Lemma lex_cmp_opp x y : lex_cmp y x = CompOpp (lex_cmp x y).
Proof.
  revert y. induction x as [|a x IH]; intros [|b y]; simpl; try done.
  rewrite (Z.compare_antisym (u8_val a) (u8_val b)).
  destruct (u8_val a ?= u8_val b); simpl; [apply IH|done|done].
Qed.

Lemma length_lex_cmp_opp x y : length_lex_cmp y x = CompOpp (length_lex_cmp x y).
Proof.
  unfold length_lex_cmp. rewrite (Nat.compare_antisym (length x) (length y)).
  destruct (Nat.compare (length x) (length y)); simpl; [apply lex_cmp_opp|done|done].
Qed.

(** * The bit tricks, checked on every [u8] *)

Definition all_u8 (p : Z -> bool) : bool := forallb p (seqZ 0 256).

Lemma all_u8_sound p : all_u8 p = true -> forall a, is_u8 a -> p a = true.
Proof.
  intros Hp a Ha. unfold all_u8 in Hp. rewrite forallb_forall in Hp.
  apply Hp, list_elem_of_In, elem_of_seqZ. unfold is_u8 in Ha. lia.
Qed.

Lemma all_u8_2_sound (p : Z -> Z -> bool) :
  all_u8 (fun a => all_u8 (p a)) = true -> forall a b, is_u8 a -> is_u8 b -> p a b = true.
Proof. intros Hp a b Ha Hb. by eapply all_u8_sound, Hb; apply (all_u8_sound _ Hp a Ha). Qed.

Lemma ct_is_zero_correct a : is_u8 a -> ct_is_zero a = if a =? 0 then 255 else 0.
Proof.
  intros Ha. apply Z.eqb_eq.
  refine (all_u8_sound (fun a => ct_is_zero a =? if a =? 0 then 255 else 0) _ a Ha).
  by vm_compute.
Qed.

Lemma ct_is_eq_correct a b : is_u8 a -> is_u8 b -> ct_is_eq a b = if a =? b then 255 else 0.
Proof.
  intros Ha Hb. apply Z.eqb_eq.
  refine (all_u8_2_sound (fun a b => ct_is_eq a b =? if a =? b then 255 else 0) _ a b Ha Hb).
  by vm_compute.
Qed.

Lemma ct_is_lt_correct a b : is_u8 a -> is_u8 b -> ct_is_lt a b = if a <? b then 255 else 0.
Proof.
  intros Ha Hb. apply Z.eqb_eq.
  refine (all_u8_2_sound (fun a b => ct_is_lt a b =? if a <? b then 255 else 0) _ a b Ha Hb).
  by vm_compute.
Qed.

Section CmpProofs.
Context `{BuildConfig} {E : Type}.

Lemma ct_select_true a b : is_u8 a -> is_u8 b -> ct_select (E:=E) 255 a b = Ok a.
Proof.
  intros Ha Hb. unfold ct_select, debug_assert. simpl. rewrite andb_false_r. simpl. f_equal.
  apply Z.eqb_eq.
  refine (all_u8_2_sound (fun a b => Z.lxor b (Z.land 255 (Z.lxor a b)) =? a) _ a b Ha Hb).
  by vm_compute.
Qed.

Lemma ct_select_false a b : ct_select (E:=E) 0 a b = Ok b.
Proof.
  unfold ct_select, debug_assert. simpl. rewrite andb_false_r. simpl.
  by rewrite Z.lxor_0_r.
Qed.

(** How [result] encodes an ordering. *)
Definition enc_cmp (c : comparison) : Z :=
  match c with Eq => 0 | Lt => 1 | Gt => 255 end.

Lemma enc_cmp_u8 c : is_u8 (enc_cmp c).
Proof. unfold is_u8. by destruct c. Qed.

Lemma cmp_step_correct x y i a b c :
  x !! (length x - 1 - i)%nat = Some a -> y !! (length x - 1 - i)%nat = Some b ->
  cmp_step (E:=E) x y (enc_cmp c) i =
    Ok (enc_cmp (match u8_val a ?= u8_val b with Eq => c | c' => c' end)).
Proof.
  intros Ha Hb. unfold cmp_step. rewrite Ha, Hb. simpl.
  pose proof (u8_val_range a). pose proof (u8_val_range b).
  rewrite ct_is_eq_correct, ct_is_lt_correct by done.
  destruct (Z.compare_spec (u8_val a) (u8_val b)) as [He|Hl|Hg].
  - rewrite (proj2 (Z.eqb_eq _ _) He). rewrite (proj2 (Z.ltb_ge _ _)) by lia.
    rewrite ct_select_false. simpl. apply ct_select_true; [apply enc_cmp_u8|done].
  - rewrite (proj2 (Z.eqb_neq _ _)) by lia. rewrite (proj2 (Z.ltb_lt _ _)) by lia.
    rewrite ct_select_true by done. simpl. apply ct_select_false.
  - rewrite (proj2 (Z.eqb_neq _ _)) by lia. rewrite (proj2 (Z.ltb_ge _ _)) by lia.
    rewrite ct_select_false. simpl. apply ct_select_false.
Qed.

(** After [n] iterations [result] compares the last [n] bytes. *)
Lemma cmp_loop_correct x y n :
  length x = length y -> (n <= length x)%nat ->
  cmp_loop (E:=E) x y n = Ok (enc_cmp (lex_cmp (drop (length x - n) x) (drop (length x - n) y))).
Proof.
  intros Hlen. induction n as [|n IH]; intros Hn; simpl.
  - rewrite Nat.sub_0_r, drop_all. rewrite Hlen, drop_all. done.
  - rewrite IH by lia. simpl.
    destruct (lookup_lt_is_Some_2 x (length x - 1 - n)) as [a Ha]; [lia|].
    destruct (lookup_lt_is_Some_2 y (length x - 1 - n)) as [b Hb]; [lia|].
    rewrite (cmp_step_correct _ _ _ a b _ Ha Hb).
    replace (length x - S n)%nat with (length x - 1 - n)%nat by lia.
    rewrite (drop_S x a _ Ha), (drop_S y b _ Hb). simpl.
    by replace (S (length x - 1 - n)) with (length x - n)%nat by lia.
Qed.

Lemma constant_time_cmp_total x y :
  constant_time_cmp (E:=E) x y = Ok (length_lex_cmp x y).
Proof.
  unfold constant_time_cmp, length_lex_cmp.
  destruct (Nat.compare_spec (length x) (length y)) as [Heq|Hlt|Hgt].
  - rewrite Heq, Nat.ltb_irrefl, <-Heq.
    rewrite cmp_loop_correct by lia. rewrite Nat.sub_diag, !drop_0. simpl.
    unfold debug_assert. destruct (lex_cmp x y); simpl; by rewrite andb_false_r.
  - by rewrite (proj2 (Nat.ltb_lt _ _) Hlt).
  - rewrite (proj2 (Nat.ltb_ge _ _)) by lia. by rewrite (proj2 (Nat.ltb_lt _ _) Hgt).
Qed.

(** C38: [constant_time_cmp] never panics, in any build (its indices are in
    range and its debug assertions hold), and what it computes with masks is
    the order of byte strings by length first and lexicographically among equal
    lengths; it answers [Equal] exactly on equal byte strings, and swapping the
    arguments swaps the answer. *)
Theorem constant_time_cmp_correct x y :
  constant_time_cmp (E:=E) x y = Ok (length_lex_cmp x y) /\
  (constant_time_cmp (E:=E) x y = Ok Eq <-> x = y) /\
  constant_time_cmp (E:=E) y x = Ok (CompOpp (length_lex_cmp x y)).
Proof.
  rewrite !constant_time_cmp_total. split_and!; [done| |by rewrite length_lex_cmp_opp].
  unfold length_lex_cmp. split.
  - intros [= Hc]. destruct (Nat.compare _ _); try done. by apply lex_cmp_eq.
  - intros ->. rewrite Nat.compare_refl. f_equal. by apply lex_cmp_eq.
Qed.
End CmpProofs.
