(* ===== verification/Crates.v ===== *)
(** The third-party crates the protocol crate calls, as parameters.

    [Crates] lists the operations used of [hmac]/[sha2], [subtle], [aes]/[block-modes],
    [x25519-dalek], [curve25519-dalek] and [rand]; nothing is assumed of them
    here.  What a theorem relies on is one of the law classes below, each field
    of which is documented behaviour of the crate. *)

From S2P Require Import Prelude.

Class Crates := {
  (** [hmac] with [sha2]: [Hmac::<Sha256>::new_varkey(key)], [update] of the
      concatenated input, [finalize]. *)
  hmac_sha256_mac : bytes -> bytes -> bytes;
  (** [sha2]: [Sha512] of the concatenated input. *)
  sha512_digest : bytes -> bytes;

  (** [subtle]: [ConstantTimeEq::ct_eq] of two byte slices. *)
  ct_eq : bytes -> bytes -> bool;

  (** [block_modes::Cbc::<Aes256, Pkcs7>]. *)
  CbcMode : Type;
  cbc_new_var : bytes -> bytes -> option CbcMode;
  cbc_encrypt_vec : CbcMode -> bytes -> bytes;
  cbc_decrypt_vec : CbcMode -> bytes -> option bytes;

  (** [rand]: the state of the [csprng] argument, [fill_bytes] of [n] bytes,
      [gen::<u32>()] and [gen::<\[u8; 32\]>()]. *)
  Csprng : Type;
  rng_fill_bytes : nat -> Csprng -> bytes * Csprng;
  rng_gen_u32 : Csprng -> Z * Csprng;
  rng_gen_array32 : Csprng -> bytes * Csprng;

  (** [x25519_dalek]: [StaticSecret::{new, from, to_bytes, diffie_hellman}] and
      [PublicKey::from(&secret)]; a public key is its 32 bytes. *)
  StaticSecret : Type;
  static_secret_new : Csprng -> StaticSecret * Csprng;
  static_secret_from : bytes -> StaticSecret;
  static_secret_to_bytes : StaticSecret -> bytes;
  x25519_public_key : StaticSecret -> bytes;
  diffie_hellman : StaticSecret -> bytes -> bytes;

  (** [curve25519_dalek]: scalars and Edwards points. *)
  Scalar : Type;
  scalar_from_bits : bytes -> Scalar;
  scalar_from_hash : bytes -> Scalar;
  scalar_as_bytes : Scalar -> bytes;
  scalar_mul : Scalar -> Scalar -> Scalar;
  scalar_add : Scalar -> Scalar -> Scalar;
  EdwardsPoint : Type;
  ed_basepoint_mul : Scalar -> EdwardsPoint;
  ed_neg : EdwardsPoint -> EdwardsPoint;
  ed_compress : EdwardsPoint -> bytes;
  montgomery_to_edwards : bytes -> Z -> option EdwardsPoint;
  (** [a A + b B] with [B] the base point. *)
  vartime_double_scalar_mul_basepoint : Scalar -> EdwardsPoint -> Scalar -> EdwardsPoint;
}.

(** HMAC-SHA256 has 32 bytes of output, SHA-512 has 64. *)
Class HashLaws `{Crates} : Prop := {
  hmac_sha256_length : forall key input, length (hmac_sha256_mac key input) = 32;
  sha512_length : forall input, length (sha512_digest input) = 64;
}.

(** [ct_eq] of two slices answers whether they have the same length and bytes. *)
Class SubtleLaws `{Crates} : Prop := {
  ct_eq_spec : forall a b, ct_eq a b = bool_decide (a = b);
}.

(** AES-256-CBC with PKCS#7 padding: [new_var] takes a 32-byte key and a 16-byte
    IV, encryption pads to the next multiple of 16 and decryption undoes it. *)
Class CbcLaws `{Crates} : Prop := {
  cbc_new_var_some : forall key iv,
    length key = 32 -> length iv = 16 -> is_Some (cbc_new_var key iv);
  cbc_new_var_none : forall key iv,
    length key <> 32 \/ length iv <> 16 -> cbc_new_var key iv = None;
  cbc_encrypt_length : forall m p,
    length (cbc_encrypt_vec m p) = 16 * (length p / 16 + 1);
  cbc_decrypt_encrypt : forall m p, cbc_decrypt_vec m (cbc_encrypt_vec m p) = Some p;
}.

(** X25519: keys and shared secrets have 32 bytes, a secret survives its byte
    form, and both sides of an exchange compute the same shared secret. *)
Class X25519Laws `{Crates} : Prop := {
  static_secret_to_bytes_length : forall s, length (static_secret_to_bytes s) = 32;
  x25519_public_key_length : forall s, length (x25519_public_key s) = 32;
  diffie_hellman_length : forall s p, length (diffie_hellman s p) = 32;
  static_secret_from_to_bytes : forall s, static_secret_from (static_secret_to_bytes s) = s;
  diffie_hellman_comm : forall s t,
    diffie_hellman s (x25519_public_key t) = diffie_hellman t (x25519_public_key s);
}.

(** Ed25519 arithmetic, as XEdDSA uses it.  [a] is the scalar of a clamped
    private key: its Montgomery public key maps back to [a B] once the sign bit
    of [a B] is given; a scalar result is reduced, so it survives [as_bytes] and
    its top three bits are clear; and [h (-a B) + (h a + r) B = r B]. *)
Class EdwardsLaws `{Crates} : Prop := {
  scalar_as_bytes_length : forall s, length (scalar_as_bytes s) = 32;
  ed_compress_length : forall p, length (ed_compress p) = 32;
  scalar_reduced_bytes : forall h a r,
    scalar_from_bits (scalar_as_bytes (scalar_add (scalar_mul h a) r))
      = scalar_add (scalar_mul h a) r;
  scalar_reduced_top : forall h a r b,
    scalar_as_bytes (scalar_add (scalar_mul h a) r) !! 31 = Some b -> (u8_val b < 32)%Z;
  montgomery_to_edwards_public : forall s b,
    let p := ed_basepoint_mul (scalar_from_bits (static_secret_to_bytes s)) in
    ed_compress p !! 31 = Some b ->
    montgomery_to_edwards (x25519_public_key s) (Z.shiftr (Z.land (u8_val b) 128) 7) = Some p;
  double_scalar_mul_cancel : forall h a r,
    vartime_double_scalar_mul_basepoint h (ed_neg (ed_basepoint_mul a))
        (scalar_add (scalar_mul h a) r)
      = ed_basepoint_mul r;
}.

(** A generator fills exactly the buffer it is given, and [gen::<u32>()] is a
    [u32], and [gen::<\[u8; 32\]>()] is an array of 32 bytes. *)
Class RngLaws `{Crates} : Prop := {
  rng_fill_bytes_length : forall n r, length (rng_fill_bytes n r).1 = n;
  rng_gen_u32_range : forall r, is_u32 (rng_gen_u32 r).1;
  rng_gen_array32_length : forall r, length (rng_gen_array32 r).1 = 32;
}.

#[export] Hint Resolve hmac_sha256_length sha512_length static_secret_to_bytes_length
  x25519_public_key_length diffie_hellman_length scalar_as_bytes_length ed_compress_length
  rng_fill_bytes_length rng_gen_u32_range rng_gen_array32_length : crates.
