(* ===== verification/Crypto.v ===== *)
(** AES-256-CBC and HMAC-SHA256 ([crypto.rs]) and HKDF ([kdf.rs]). *)

From S2P Require Import Prelude Error Crates.

Section Crypto.
Context `{Crates}.

Definition aes_256_cbc_encrypt (ptext key iv : bytes) : Result bytes :=
  match cbc_new_var key iv with
  | Some mode => Ok (cbc_encrypt_vec mode ptext)
  | None => Err (InvalidCipherCryptographicParameters (length key) (length iv))
  end.

Definition aes_256_cbc_decrypt (ctext key iv : bytes) : Result bytes :=
  if (length ctext =? 0) || negb (length ctext mod 16 =? 0) then Err InvalidCiphertext
  else
    match cbc_new_var key iv with
    | Some mode => ok_or (cbc_decrypt_vec mode ctext) InvalidCiphertext
    | None => Err (InvalidCipherCryptographicParameters (length key) (length iv))
    end.

Definition hmac_sha256 (key input : bytes) : Result bytes := Ok (hmac_sha256_mac key input).

Lemma aes_256_cbc_roundtrip `{!CbcLaws} ptext key iv :
  length key = 32 -> length iv = 16 ->
  exists ctext, aes_256_cbc_encrypt ptext key iv = Ok ctext /\
                aes_256_cbc_decrypt ctext key iv = Ok ptext.
Proof.
  intros Hk Hi. destruct (cbc_new_var_some key iv Hk Hi) as [m Hm].
  exists (cbc_encrypt_vec m ptext). unfold aes_256_cbc_encrypt, aes_256_cbc_decrypt.
  rewrite Hm. split; [done|].
  rewrite cbc_encrypt_length.
  rewrite (proj2 (Nat.eqb_neq _ _)) by lia.
  rewrite Nat.mul_comm, Nat.Div0.mod_mul. simpl.
  by rewrite cbc_decrypt_encrypt.
Qed.

Lemma aes_256_cbc_encrypt_ok `{!CbcLaws} ptext key iv :
  length key = 32 -> length iv = 16 -> exists c, aes_256_cbc_encrypt ptext key iv = Ok c.
Proof. intros Hk Hi. destruct (aes_256_cbc_roundtrip ptext key iv Hk Hi) as (c & ? & _). eauto. Qed.

Lemma aes_256_cbc_decrypt_encrypted `{!CbcLaws} ptext key iv c :
  length key = 32 -> length iv = 16 -> aes_256_cbc_encrypt ptext key iv = Ok c ->
  aes_256_cbc_decrypt c key iv = Ok ptext.
Proof.
  intros Hk Hi Hc. destruct (aes_256_cbc_roundtrip ptext key iv Hk Hi) as (c' & Hc' & Hd). congruence.
Qed.

Lemma aes_256_cbc_decrypt_no_panic ctext key iv : aes_256_cbc_decrypt ctext key iv <> Panic.
Proof. unfold aes_256_cbc_decrypt. no_panic. Qed.

Lemma aes_256_cbc_encrypt_no_panic ptext key iv : aes_256_cbc_encrypt ptext key iv <> Panic.
Proof. unfold aes_256_cbc_encrypt. no_panic. Qed.

(** AES-256-CBC on every branch.  With a 32-byte key and a 16-byte IV
    encryption succeeds for every plaintext, the empty one included, pads it to
    the next multiple of 16 and is undone by decryption; with any other lengths
    both directions fail, encryption with the lengths in its error; a ciphertext
    that is empty or not a multiple of 16 is an invalid ciphertext, whatever
    the key; nothing panics. *)
Lemma aes_256_cbc_correct `{!CbcLaws} text key iv :
  (length key = 32 -> length iv = 16 ->
   exists ctext, aes_256_cbc_encrypt text key iv = Ok ctext /\
     length ctext = 16 * (length text / 16 + 1) /\ aes_256_cbc_decrypt ctext key iv = Ok text) /\
  (length key <> 32 \/ length iv <> 16 ->
   aes_256_cbc_encrypt text key iv
     = Err (InvalidCipherCryptographicParameters (length key) (length iv)) /\
   exists e, aes_256_cbc_decrypt text key iv = Err e) /\
  (length text = 0 \/ length text mod 16 <> 0 ->
   aes_256_cbc_decrypt text key iv = Err InvalidCiphertext) /\
  aes_256_cbc_decrypt text key iv <> Panic.
Proof.
  split_and!.
  - intros Hk Hi. destruct (aes_256_cbc_roundtrip text key iv Hk Hi) as (c & Hc & Hd).
    exists c. split_and!; [done| |done]. unfold aes_256_cbc_encrypt in Hc.
    destruct (cbc_new_var key iv) as [m|]; [|done]. injection Hc as <-. apply cbc_encrypt_length.
  - intros Hbad. unfold aes_256_cbc_encrypt, aes_256_cbc_decrypt.
    rewrite (cbc_new_var_none key iv Hbad). split; [done|].
    destruct (_ || _); by eexists.
  - intros Hl. unfold aes_256_cbc_decrypt. destruct Hl as [->|Hl]; [done|].
    by rewrite (proj2 (Nat.eqb_neq _ _) Hl), orb_true_r.
  - apply aes_256_cbc_decrypt_no_panic.
Qed.
End Crypto.

(** * HKDF *)

Module HKDF.
Record t := { iteration_start_offset : Z }.

Definition HASH_OUTPUT_SIZE : nat := 32.

Definition new (message_version : Z) : Result t :=
  if (message_version =? 2)%Z then Ok {| iteration_start_offset := 0 |}
  else if (message_version =? 3)%Z then Ok {| iteration_start_offset := 1 |}
  else Err (UnrecognizedMessageVersion message_version).

Section Derive.
Context `{BuildConfig, Crates}.

Definition extract (salt input_key_material : bytes) : Result bytes :=
  hmac_sha256 salt input_key_material.

(** One iteration of the loop of [expand]: the MAC is over the last 32 bytes
    of [result] when there are that many, [info], and the counter byte
    [(i as u8) + offset]. *)
Definition expand_step (k : t) (prk info result : bytes) (i : nat) : Result bytes :=
  let? prev :=
    if HASH_OUTPUT_SIZE <=? length result
    then slice (length result - HASH_OUTPUT_SIZE) (length result) result
    else Ok [] in
  let? ctr := u8_add (Z.of_nat i mod 256) (iteration_start_offset k) in
  Ok (result ++ hmac_sha256_mac prk (prev ++ info ++ [u8_of ctr])).

(** [for i in 0..iterations]. *)
Fixpoint expand_loop (k : t) (prk info : bytes) (iterations : nat) : Result bytes :=
  match iterations with
  | O => Ok []
  | S i => let? result := expand_loop k prk info i in expand_step k prk info result i
  end.

Definition expand (k : t) (prk info : bytes) (output_length : nat) : Result bytes :=
  let iterations := (output_length + HASH_OUTPUT_SIZE - 1) / HASH_OUTPUT_SIZE in
  let? result := expand_loop k prk info iterations in
  Ok (take output_length result).

Definition derive_salted_secrets (k : t) (input_key_material salt info : bytes)
    (output_length : nat) : Result bytes :=
  let? prk := extract salt input_key_material in
  expand k prk info output_length.

Definition derive_secrets (k : t) (input_key_material info : bytes)
    (output_length : nat) : Result bytes :=
  derive_salted_secrets k input_key_material (replicate HASH_OUTPUT_SIZE Byte.x00) info
    output_length.
End Derive.

(** ** RFC 5869, section 2.3

    [T(0)] is empty, [T(n) = HMAC(PRK, T(n-1) | info | n)]; the output is the
    first [L] octets of [T(1) | T(2) | ...]. Message version 2 numbers the
    blocks from 0 instead of 1. *)
Section Rfc5869.
Context `{Crates}.

Fixpoint T (offset : Z) (prk info : bytes) (n : nat) : bytes :=
  match n with
  | O => []
  | S n' => hmac_sha256_mac prk
              (T offset prk info n' ++ info ++ [u8_of (Z.of_nat n' + offset)])
  end.

Definition okm_blocks (offset : Z) (prk info : bytes) (n : nat) : bytes :=
  concat (map (T offset prk info) (seq 1 n)).

Definition rfc5869 (offset : Z) (ikm salt info : bytes) (n L : nat) : bytes :=
  take L (okm_blocks offset (hmac_sha256_mac salt ikm) info n).
End Rfc5869.

Section Proofs.
Context `{BuildConfig, Crates, !HashLaws}.

Lemma T_length offset prk info n : length (T offset prk info (S n)) = 32.
Proof. apply hmac_sha256_length. Qed.

Lemma okm_blocks_S offset prk info n :
  okm_blocks offset prk info (S n) = okm_blocks offset prk info n ++ T offset prk info (S n).
Proof.
  unfold okm_blocks. rewrite seq_S, map_app, concat_app. simpl. by rewrite app_nil_r.
Qed.

Lemma okm_blocks_length offset prk info n : length (okm_blocks offset prk info n) = 32 * n.
Proof.
  induction n as [|n IH]; [done|]. rewrite okm_blocks_S, length_app, IH, T_length. lia.
Qed.

(** The 32 bytes fed back into the MAC are the previous block. *)
Lemma expand_step_correct k prk info n :
  (0 <= iteration_start_offset k)%Z -> (Z.of_nat n + iteration_start_offset k <= 255)%Z ->
  expand_step k prk info (okm_blocks (iteration_start_offset k) prk info n) n
  = Ok (okm_blocks (iteration_start_offset k) prk info (S n)).
Proof.
  intros Ho Hn. unfold expand_step, HASH_OUTPUT_SIZE. rewrite okm_blocks_length.
  unfold u8_add. rewrite Z.mod_small, (proj2 (Z.leb_le _ _) Hn) by lia.
  rewrite okm_blocks_S. destruct n as [|n]; [done|].
  rewrite (proj2 (Nat.leb_le _ _)) by lia.
  rewrite okm_blocks_S.
  replace (32 * S n - 32) with (length (okm_blocks (iteration_start_offset k) prk info n))
    by (rewrite okm_blocks_length; lia).
  rewrite slice_app_r by (rewrite length_app, okm_blocks_length, T_length; lia).
  done.
Qed.

Lemma expand_loop_correct k prk info n :
  (0 <= iteration_start_offset k)%Z -> (Z.of_nat n + iteration_start_offset k <= 256)%Z ->
  expand_loop k prk info n = Ok (okm_blocks (iteration_start_offset k) prk info n).
Proof.
  intros Ho. induction n as [|n IH]; intros Hn; [done|].
  simpl. rewrite IH by lia. simpl. by apply expand_step_correct; lia.
Qed.

Lemma new_offset v k : new v = Ok k -> (iteration_start_offset k = v - 2 /\ 2 <= v <= 3)%Z.
Proof. unfold new. intros. repeat case_match; simplify_eq/=; lia. Qed.

Lemma derive_salted_secrets_rfc5869 k v ikm salt info L :
  new v = Ok k -> L <= 255 * 32 ->
  derive_salted_secrets k ikm salt info L =
    Ok (rfc5869 (v - 2) ikm salt info ((L + 31) / 32) L).
Proof.
  intros Hk HL. destruct (new_offset v k Hk) as [Hoff Hv].
  unfold derive_salted_secrets, extract, hmac_sha256, expand, rfc5869, HASH_OUTPUT_SIZE.
  cbn [obind].
  replace (L + 32 - 1) with (L + 31) by lia.
  assert ((L + 31) / 32 <= 255).
  { pose proof (Nat.div_mod_eq (L + 31) 32). pose proof (Nat.mod_upper_bound (L + 31) 32 ltac:(lia)). lia. }
  rewrite expand_loop_correct by lia. simpl. by rewrite Hoff.
Qed.

(** Every length up to the bound is delivered in full. *)
Lemma derive_salted_secrets_length k v ikm salt info L :
  new v = Ok k -> L <= 255 * 32 ->
  exists okm, derive_salted_secrets k ikm salt info L = Ok okm /\ length okm = L.
Proof.
  intros Hk HL. rewrite (derive_salted_secrets_rfc5869 k v) by done.
  eexists. split; [done|]. unfold rfc5869. rewrite length_take, okm_blocks_length.
  pose proof (Nat.div_mod_eq (L + 31) 32). pose proof (Nat.mod_upper_bound (L + 31) 32 ltac:(lia)). lia.
Qed.

Lemma derive_secrets_length k v ikm info L :
  new v = Ok k -> L <= 255 * 32 ->
  exists okm, derive_secrets k ikm info L = Ok okm /\ length okm = L.
Proof. apply derive_salted_secrets_length. Qed.

Lemma hkdf_rfc5869 v ikm salt info L :
  L <= 255 * 32 ->
  if bool_decide (v = 2 \/ v = 3)%Z then
    exists k, new v = Ok k /\ length (rfc5869 (v - 2) ikm salt info ((L + 31) / 32) L) = L /\
      derive_salted_secrets k ikm salt info L =
        Ok (rfc5869 (v - 2) ikm salt info ((L + 31) / 32) L)
  else new v = Err (UnrecognizedMessageVersion v).
Proof.
  intros HL. case_bool_decide as Hv.
  - assert (exists k, new v = Ok k) as [k Hk] by (destruct Hv as [-> | ->]; by eexists).
    exists k. split; [done|].
    destruct (derive_salted_secrets_length k v ikm salt info L Hk HL) as (okm & Hokm & Hlen).
    rewrite (derive_salted_secrets_rfc5869 k v) in Hokm |- * by done. split; [congruence|done].
  - unfold new. rewrite !(proj2 (Z.eqb_neq _ _)) by tauto. done.
Qed.

(** The counter byte of version 3 has room for 255 blocks only. *)
Lemma derive_salted_secrets_overflow k ikm salt info :
  overflow_checks = true -> new 3 = Ok k ->
  derive_salted_secrets k ikm salt info (255 * 32 + 1) = Panic.
Proof.
  intros Hov [= <-].
  unfold derive_salted_secrets, extract, hmac_sha256, expand, HASH_OUTPUT_SIZE.
  change ((255 * 32 + 1 + 32 - 1) / 32) with (S 255).
  remember 255 as n eqn:Hn. simpl. rewrite expand_loop_correct by (simpl; lia). simpl.
  unfold expand_step. rewrite okm_blocks_length. subst n.
  change (HASH_OUTPUT_SIZE <=? 32 * 255) with true. cbv iota.
  rewrite slice_ok by (rewrite ?okm_blocks_length; unfold HASH_OUTPUT_SIZE; lia).
  cbn [obind]. unfold u8_add. simpl. by rewrite Hov.
Qed.

(** For message versions 2 and 3 and any output of at most 255 blocks,
    [derive_salted_secrets] succeeds in every build, delivers exactly the
    number of bytes asked for, and computes HKDF-SHA256 of RFC 5869 (with the
    blocks numbered from 0 in version 2); no other version has a derivation.
    The bound is exact: in version 3, with overflow checks on, one output byte
    more and the counter byte overflows, which is a panic. *)
Lemma hkdf_is_rfc5869 v ikm salt info L :
  L <= 255 * 32 ->
  (if bool_decide (v = 2 \/ v = 3)%Z then
     exists k, new v = Ok k /\ length (rfc5869 (v - 2) ikm salt info ((L + 31) / 32) L) = L /\
       derive_salted_secrets k ikm salt info L =
         Ok (rfc5869 (v - 2) ikm salt info ((L + 31) / 32) L)
   else new v = Err (UnrecognizedMessageVersion v)) /\
  (forall k, overflow_checks = true -> new 3 = Ok k ->
     derive_salted_secrets k ikm salt info (255 * 32 + 1) = Panic).
Proof.
  intros HL. split; [by apply hkdf_rfc5869|]. intros k. apply derive_salted_secrets_overflow.
Qed.
End Proofs.
End HKDF.
Abbreviation HKDF := HKDF.t.

(** C36: the derivation of keys and the cipher.  HKDF, for message versions 2 and 3 and
    any output of at most 255 blocks, succeeds in every build, delivers exactly the
    bytes asked for and computes HKDF-SHA256 of RFC 5869 (with the blocks numbered from
    0 in version 2); no other version has a derivation.  The bound is exact: in version
    3, with overflow checks on, one byte more is a panic.  AES-256-CBC, with a 32-byte
    key and a 16-byte IV, encrypts every plaintext, the empty one included, padded to
    the next multiple of 16, and decryption undoes it; with any other lengths both
    directions fail, encryption with the lengths in its error; a ciphertext that is
    empty or not a multiple of 16 is an invalid one, whatever the key; nothing panics. *)
Theorem hkdf_and_cbc_correct `{BuildConfig, Crates, !HashLaws, !CbcLaws} v ikm salt info L text key iv :
  L <= 255 * 32 ->
  ((if bool_decide (v = 2 \/ v = 3)%Z then
      exists k, HKDF.new v = Ok k /\
        length (HKDF.rfc5869 (v - 2) ikm salt info ((L + 31) / 32) L) = L /\
        HKDF.derive_salted_secrets k ikm salt info L =
          Ok (HKDF.rfc5869 (v - 2) ikm salt info ((L + 31) / 32) L)
    else HKDF.new v = Err (UnrecognizedMessageVersion v)) /\
   (forall k, overflow_checks = true -> HKDF.new 3 = Ok k ->
      HKDF.derive_salted_secrets k ikm salt info (255 * 32 + 1) = Panic)) /\
  (length key = 32 -> length iv = 16 ->
   exists ctext, aes_256_cbc_encrypt text key iv = Ok ctext /\
     length ctext = 16 * (length text / 16 + 1) /\ aes_256_cbc_decrypt ctext key iv = Ok text) /\
  (length key <> 32 \/ length iv <> 16 ->
   aes_256_cbc_encrypt text key iv
     = Err (InvalidCipherCryptographicParameters (length key) (length iv)) /\
   exists e, aes_256_cbc_decrypt text key iv = Err e) /\
  (length text = 0 \/ length text mod 16 <> 0 ->
   aes_256_cbc_decrypt text key iv = Err InvalidCiphertext) /\
  aes_256_cbc_decrypt text key iv <> Panic.
Proof.
  intros HL. split; [by apply HKDF.hkdf_is_rfc5869|]. apply aes_256_cbc_correct.
Qed.
