(* ===== verification/Curve.v ===== *)
(** Key pairs, agreements and XEdDSA signatures: [curve/curve25519.rs] and
    [curve.rs].

    A [\[u8; 32\]] is a list of bytes; the predicates named [wf] state the array
    lengths the Rust types carry. *)

From S2P Require Import Prelude Error Utils Crates.

(** * [curve25519.rs] *)

Module Curve25519.
Definition AGREEMENT_LENGTH : nat := 32.
Definition PRIVATE_KEY_LENGTH : nat := 32.
Definition PUBLIC_KEY_LENGTH : nat := 32.
Definition SIGNATURE_LENGTH : nat := 64.

Record KeyPair := { public_key : bytes; private_key : bytes }.

(** The byte at [i] of a fixed-size array. *)
Definition array_get (i : nat) (a : bytes) : Byte.byte := nth i a Byte.x00.

Section Operations.
Context `{Crates}.

Definition of_secret (secret : StaticSecret) : KeyPair :=
  {| public_key := x25519_public_key secret;
     private_key := static_secret_to_bytes secret |}.

Definition new (csprng : Csprng) : KeyPair * Csprng :=
  let '(secret, csprng) := static_secret_new csprng in
  (of_secret secret, csprng).

(** [From<\[u8; 32\]>]. *)
Definition from (private_key : bytes) : KeyPair := of_secret (static_secret_from private_key).

Definition derive_public_key (private_key : bytes) : bytes :=
  x25519_public_key (static_secret_from private_key).

Definition calculate_agreement (kp : KeyPair) (their_public_key : bytes) : bytes :=
  diffie_hellman (static_secret_from (private_key kp)) their_public_key.

Definition hash_prefix : bytes := Byte.xfe :: replicate 31 Byte.xff.

Definition calculate_signature (kp : KeyPair) (csprng : Csprng) (message : bytes)
    : bytes * Csprng :=
  let '(random_bytes, csprng) := rng_fill_bytes 64 csprng in
  let a := scalar_from_bits (private_key kp) in
  let ed_public_key := ed_compress (ed_basepoint_mul a) in
  let sign_bit := Z.land (u8_val (array_get 31 ed_public_key)) 128 in
  let r := scalar_from_hash
             (sha512_digest (hash_prefix ++ private_key kp ++ message ++ random_bytes)) in
  let cap_r := ed_compress (ed_basepoint_mul r) in
  let h := scalar_from_hash (sha512_digest (cap_r ++ ed_public_key ++ message)) in
  let s := scalar_add (scalar_mul h a) r in
  let result := cap_r ++ scalar_as_bytes s in
  (alter (fun b => u8_of (Z.lor (Z.land (u8_val b) 127) sign_bit)) 63 result, csprng).

Definition verify_signature (their_public_key message signature : bytes) : bool :=
  match montgomery_to_edwards their_public_key
          (Z.shiftr (Z.land (u8_val (array_get 63 signature)) 128) 7) with
  | None => false
  | Some ed_pub_key_point =>
      let cap_a := ed_compress ed_pub_key_point in
      let cap_r := take 32 signature in
      let s := alter (fun b => u8_of (Z.land (u8_val b) 127)) 31 (drop 32 signature) in
      if negb (Z.land (u8_val (array_get 31 s)) 224 =? 0)%Z then false
      else
        let minus_cap_a := ed_neg ed_pub_key_point in
        let h := scalar_from_hash (sha512_digest (cap_r ++ cap_a ++ message)) in
        let cap_r_check_point :=
          vartime_double_scalar_mul_basepoint h minus_cap_a (scalar_from_bits s) in
        ct_eq (ed_compress cap_r_check_point) cap_r
  end.
End Operations.

(** The sign bit travels in the top bit of [s], which a reduced scalar leaves
    clear: setting and clearing it are inverse on such a byte. *)
Lemma sign_bit_packing b c :
  (u8_val b < 32)%Z -> c = 0%Z \/ c = 128%Z ->
  let b' := u8_of (Z.lor (Z.land (u8_val b) 127) c) in
  Z.land (u8_val b') 128 = c /\ u8_of (Z.land (u8_val b') 127) = b /\
  Z.land (u8_val b) 224 = 0%Z.
Proof.
  intros Hb Hc b'. subst b'. rewrite u8_val_of.
  pose proof (u8_val_range b) as Hr.
  assert (Hall : all_u8 (fun v => (32 <=? v) || forallb (fun c =>
      let w := Z.lor (Z.land v 127) c mod 256 in
      (Z.land w 128 =? c) && (Z.land w 127 =? v) && (Z.land v 224 =? 0)) [0; 128])%Z = true)
    by (by vm_compute).
  pose proof (all_u8_sound _ Hall (u8_val b) Hr) as Hv. simpl in Hv.
  rewrite (proj2 (Z.leb_gt _ _)) in Hv by lia. simpl in Hv.
  rewrite !andb_true_iff, !Z.eqb_eq in Hv.
  destruct Hc as [-> | ->]; split_and!; try lia;
    (transitivity (u8_of (u8_val b)); [f_equal; lia|apply u8_of_val]).
Qed.

Lemma land_128 b : Z.land (u8_val b) 128 = 0%Z \/ Z.land (u8_val b) 128 = 128%Z.
Proof.
  assert (Hall : all_u8 (fun v => (Z.land v 128 =? 0) || (Z.land v 128 =? 128))%Z = true)
    by (by vm_compute).
  pose proof (all_u8_sound _ Hall (u8_val b) (u8_val_range b)) as Hv.
  apply orb_true_iff in Hv as [?%Z.eqb_eq|?%Z.eqb_eq]; auto.
Qed.

Section Proofs.
Context `{Crates}.

Lemma array_get_lookup i a b : a !! i = Some b -> array_get i a = b.
Proof. intros Ha. by apply nth_lookup_Some. Qed.

Lemma alter_app_last (f : Byte.byte -> Byte.byte) (l k : bytes) :
  length l = 32 -> alter f 63 (l ++ k) = l ++ alter f 31 k.
Proof. intros Hl. rewrite alter_app_r_alt by lia. by rewrite Hl. Qed.

(** A signature made with the key pair of a secret verifies under its public
    key, for every message and every state of the generator. *)
Lemma xeddsa_sign_verify `{!SubtleLaws, !EdwardsLaws} secret csprng message :
  let kp := of_secret secret in
  verify_signature (public_key kp) message (calculate_signature kp csprng message).1 = true.
Proof.
  intros kp. unfold calculate_signature. destruct (rng_fill_bytes 64 csprng) as [rnd csprng'].
  simpl. set (a := scalar_from_bits (static_secret_to_bytes secret)).
  set (A := ed_basepoint_mul a).
  set (r := scalar_from_hash _). set (cap_r := ed_compress (ed_basepoint_mul r)).
  assert (Hcap : length cap_r = 32) by apply ed_compress_length.
  set (h := scalar_from_hash _). set (s := scalar_add (scalar_mul h a) r).
  destruct (lookup_lt_is_Some_2 (ed_compress A) 31) as [top Htop];
    [rewrite ed_compress_length; lia|].
  destruct (lookup_lt_is_Some_2 (scalar_as_bytes s) 31) as [sb Hsb];
    [rewrite scalar_as_bytes_length; lia|].
  rewrite (array_get_lookup _ _ _ Htop). set (c := Z.land (u8_val top) 128).
  destruct (sign_bit_packing sb c) as (Hc & Hs & Hz);
    [by eapply scalar_reduced_top|apply land_128|]. cbv zeta in Hc, Hs.
  rewrite (alter_app_last _ _ _ Hcap).
  unfold verify_signature.
  rewrite (array_get_lookup 63 _ (u8_of (Z.lor (Z.land (u8_val sb) 127) c))).
  2: { rewrite lookup_app_r, Hcap by lia. by rewrite list_lookup_alter_eq, Hsb. }
  rewrite Hc. unfold c. rewrite (montgomery_to_edwards_public _ _ Htop). fold a A.
  rewrite take_app_length', drop_app_length' by done.
  rewrite list_alter_alter_eq.
  rewrite (list_alter_ext _ id _ (scalar_as_bytes s) 31), list_alter_id; [|done| |done].
  2: { intros x Hx. assert (x = sb) as -> by congruence. exact Hs. }
  rewrite (array_get_lookup _ _ _ Hsb), Hz. simpl.
  rewrite ct_eq_spec. apply bool_decide_eq_true_2. unfold s. rewrite scalar_reduced_bytes.
  fold h. unfold A. by rewrite double_scalar_mul_cancel.
Qed.

(** A scalar with bit 5 or 6 of its last byte set is never accepted. *)
Lemma verify_signature_unreduced pk message sig b :
  length sig = 64 -> sig !! 63 = Some b -> Z.land (u8_val b) 96 <> 0%Z ->
  verify_signature pk message sig = false.
Proof.
  intros Hl Hb Hbits. unfold verify_signature. case_match; [|done].
  rewrite (array_get_lookup 31 _ (u8_of (Z.land (u8_val b) 127))).
  2: { rewrite list_lookup_alter_eq, lookup_drop. simpl. by rewrite Hb. }
  rewrite u8_val_of.
  assert (Hall : all_u8 (fun v => (Z.land v 96 =? 0)
    || negb (Z.land (Z.land v 127 mod 256) 224 =? 0))%Z = true) by (by vm_compute).
  pose proof (all_u8_sound _ Hall (u8_val b) (u8_val_range b)) as Hv.
  apply orb_true_iff in Hv as [?%Z.eqb_eq| ->]; [done|done].
Qed.
End Proofs.
End Curve25519.

(** * [curve.rs] *)

Module PublicKey.
(** [enum PublicKeyData]. *)
Inductive Data := DjbPublicKey (k : bytes).
Record t := new { key : Data }.

#[global] Instance data_eq_dec : EqDecision Data.
Proof. solve_decision. Defined.
#[global] Instance eq_dec : EqDecision t.
Proof. solve_decision. Defined.

Definition wf (p : t) : Prop := match key p with DjbPublicKey k => length k = 32 end.

Definition key_type (p : t) : KeyType := match key p with DjbPublicKey _ => KeyType.Djb end.
Definition key_data (p : t) : bytes := match key p with DjbPublicKey k => k end.
Definition public_key_bytes (p : t) : Result bytes :=
  match key p with DjbPublicKey v => Ok v end.

Definition deserialize (value : bytes) : Result t :=
  match value with
  | [] => Err NoKeyTypeIdentifier
  | b :: _ =>
      let? key_type := KeyType_try_from b in
      match key_type with
      | KeyType.Djb =>
          if length value <? 32 + 1 then Err (BadKeyLength KeyType.Djb (length value))
          else let? k := slice 1 33 value in Ok (new (DjbPublicKey k))
      end
  end.

Definition serialize (p : t) : bytes :=
  KeyType.value (key_type p) :: match key p with DjbPublicKey v => v end.

Definition verify_signature `{Crates} (p : t) (message signature : bytes) : Result bool :=
  match key p with
  | DjbPublicKey pub_key =>
      if negb (length signature =? 64)
      then Err (MismatchedSignatureLengthForKey KeyType.Djb (length signature))
      else Ok (Curve25519.verify_signature pub_key message signature)
  end.

(** [PartialEq::eq]. *)
Definition eqb `{Crates} (a b : t) : bool :=
  bool_decide (key_type a = key_type b) && ct_eq (key_data a) (key_data b).

(** [Ord::cmp]; [KeyType] has one value, so its derived order has one case. *)
Definition cmp `{BuildConfig} {E} (a b : t) : outcome E comparison :=
  if decide (key_type a <> key_type b) then Ok Eq
  else constant_time_cmp (key_data a) (key_data b).

Lemma eqb_eq `{Crates, !SubtleLaws} a b : eqb a b = true <-> a = b.
Proof.
  destruct a as [[x]], b as [[y]]. unfold eqb, key_data. simpl.
  rewrite ct_eq_spec, bool_decide_eq_true. split; [by intros ->|by intros [= ->]].
Qed.

Lemma serialize_length p : wf p -> length (serialize p) = 33.
Proof. destruct p as [[k]]. unfold wf, serialize. cbn. by intros ->. Qed.

Lemma public_key_serialize_inj p q : serialize p = serialize q -> p = q.
Proof. destruct p as [[k]], q as [[k']]. by intros [= ->]. Qed.

Lemma public_key_deserialize_wf v p : deserialize v = Ok p -> wf p.
Proof.
  destruct v as [|b v]; [done|]. simpl. unfold KeyType_try_from.
  destruct (decide (b = Byte.x05)); [|done]. cbn [obind].
  destruct (S (length v) <? 33); [done|]. intros (k & Hk & [= <-])%obind_ok.
  by apply slice_length in Hk.
Qed.

(** The whole of [deserialize]: the type byte, the length, each with its own
    error; the bytes after the first 33 are ignored. *)
Lemma deserialize_spec v :
  deserialize v =
    match v with
    | [] => Err NoKeyTypeIdentifier
    | b :: k =>
        if decide (b = Byte.x05) then
          if length k <? 32 then Err (BadKeyLength KeyType.Djb (length v))
          else Ok (new (DjbPublicKey (take 32 k)))
        else Err (BadKeyType b)
    end.
Proof.
  destruct v as [|b k]; [done|]. unfold deserialize, KeyType_try_from.
  destruct (decide (b = Byte.x05)) as [->|]; [|done]. cbn [obind length].
  change (S (length k) <? 32 + 1) with (length k <? 32).
  destruct (Nat.ltb_spec (length k) 32); [done|].
  rewrite slice_ok by (simpl; lia). done.
Qed.

Lemma public_key_deserialize_serialize p rest : wf p -> deserialize (serialize p ++ rest) = Ok p.
Proof.
  destruct p as [[k]]. unfold wf. cbn [key]. intros Hk.
  rewrite deserialize_spec. simpl.
  rewrite length_app, Hk. rewrite (proj2 (Nat.ltb_ge _ _)) by lia.
  by rewrite take_app_length'.
Qed.

Lemma public_key_deserialize_serialize' p : wf p -> deserialize (serialize p) = Ok p.
Proof. intros. rewrite <-(app_nil_r (serialize p)). by apply public_key_deserialize_serialize. Qed.

Lemma public_key_deserialize_no_panic v : deserialize v <> Panic.
Proof. rewrite deserialize_spec. destruct v; [done|]. repeat case_match; done. Qed.

Lemma public_key_deserialize_ok_iff v p :
  deserialize v = Ok p <-> wf p /\ exists rest, v = serialize p ++ rest.
Proof.
  split; [|intros [Hp [rest ->]]; by apply public_key_deserialize_serialize].
  intros Hv. split; [by eapply public_key_deserialize_wf|].
  rewrite deserialize_spec in Hv. destruct v as [|b k]; [done|].
  destruct (decide (b = Byte.x05)) as [->|]; [|done].
  destruct (Nat.ltb_spec (length k) 32); [done|]. injection Hv as <-.
  exists (drop 32 k). unfold serialize. simpl. by rewrite take_drop.
Qed.

Lemma public_key_verify_signature_no_panic `{Crates} p m s : verify_signature p m s <> Panic.
Proof. unfold verify_signature. destruct (key p). no_panic. Qed.
End PublicKey.
Abbreviation PublicKey := PublicKey.t.

Module PrivateKey.
Inductive Data := DjbPrivateKey (k : bytes).
Record t := new { key : Data }.

#[global] Instance data_eq_dec : EqDecision Data.
Proof. solve_decision. Defined.
#[global] Instance eq_dec : EqDecision t.
Proof. solve_decision. Defined.

Definition wf (p : t) : Prop := match key p with DjbPrivateKey k => length k = 32 end.

Definition key_type (p : t) : KeyType := match key p with DjbPrivateKey _ => KeyType.Djb end.

Definition deserialize (value : bytes) : Result t :=
  if negb (length value =? 32) then Err (BadKeyLength KeyType.Djb (length value))
  else let? k := slice 0 32 value in Ok (new (DjbPrivateKey k)).

Definition serialize (p : t) : bytes := match key p with DjbPrivateKey v => v end.

Section Operations.
Context `{Crates}.

Definition public_key (p : t) : Result PublicKey :=
  match key p with
  | DjbPrivateKey k =>
      Ok (PublicKey.new (PublicKey.DjbPublicKey (Curve25519.derive_public_key k)))
  end.

Definition calculate_signature (p : t) (message : bytes) (csprng : Csprng)
    : Result bytes * Csprng :=
  match key p with
  | DjbPrivateKey k =>
      let kp := Curve25519.from k in
      let '(sig, csprng) := Curve25519.calculate_signature kp csprng message in
      (Ok sig, csprng)
  end.

Definition calculate_agreement (p : t) (their_key : PublicKey) : Result bytes :=
  match key p, PublicKey.key their_key with
  | DjbPrivateKey priv_key, PublicKey.DjbPublicKey pub_key =>
      Ok (Curve25519.calculate_agreement (Curve25519.from priv_key) pub_key)
  end.
End Operations.

Lemma private_key_deserialize_serialize p : wf p -> deserialize (serialize p) = Ok p.
Proof.
  destruct p as [[k]]. unfold wf, deserialize, serialize. cbn [key]. intros Hk.
  rewrite Hk. cbn [negb Nat.eqb].
  rewrite slice_ok by lia. cbn [obind]. by rewrite drop_0, take_ge by lia.
Qed.

Lemma private_key_deserialize_no_panic v : deserialize v <> Panic.
Proof.
  unfold deserialize. destruct (Nat.eqb_spec (length v) 32); simpl; [|done].
  by rewrite slice_ok by lia.
Qed.

Lemma private_key_deserialize_wf v p : deserialize v = Ok p -> wf p.
Proof. unfold deserialize. intros. inv_ok. by apply (slice_length (E:=SignalProtocolError) 0 32 v). Qed.

Lemma private_key_deserialize_ok_iff v p : deserialize v = Ok p <-> wf p /\ v = serialize p.
Proof.
  split; [|intros [Hp ->]; by apply private_key_deserialize_serialize].
  intros Hv. split; [by eapply private_key_deserialize_wf|].
  unfold deserialize in Hv. destruct (Nat.eqb_spec (length v) 32); [|done]. simpl in Hv.
  rewrite slice_ok in Hv by lia. injection Hv as <-. simpl. by rewrite drop_0, take_ge by lia.
Qed.
End PrivateKey.
Abbreviation PrivateKey := PrivateKey.t.

(** The free functions. *)
Definition decode_point (v : bytes) : Result PublicKey := PublicKey.deserialize v.
Definition decode_private_point (value : bytes) : Result PrivateKey := PrivateKey.deserialize value.

Section FreeFunctions.
Context `{Crates}.

Definition verify_signature (public_key : PublicKey) (message signature : bytes) : Result bool :=
  PublicKey.verify_signature public_key message signature.

Definition calculate_signature (csprng : Csprng) (private_key : PrivateKey) (message : bytes)
    : Result bytes * Csprng :=
  PrivateKey.calculate_signature private_key message csprng.

Definition calculate_agreement (public_key : PublicKey) (private_key : PrivateKey) : Result bytes :=
  PrivateKey.calculate_agreement private_key public_key.
End FreeFunctions.

Module KeyPair.
Record t := new { public_key : PublicKey; private_key : PrivateKey }.

Section Operations.
Context `{Crates}.

Definition of_curve25519 (kp : Curve25519.KeyPair) : t :=
  new (PublicKey.new (PublicKey.DjbPublicKey (Curve25519.public_key kp)))
      (PrivateKey.new (PrivateKey.DjbPrivateKey (Curve25519.private_key kp))).

Definition generate (csprng : Csprng) : t * Csprng :=
  let '(kp, csprng) := Curve25519.new csprng in (of_curve25519 kp, csprng).

Definition from_public_and_private (public_key private_key : bytes) : Result t :=
  let? public_key := decode_point public_key in
  let? private_key := decode_private_point private_key in
  Ok (new public_key private_key).

Definition calculate_signature (kp : t) (message : bytes) (csprng : Csprng)
    : Result bytes * Csprng :=
  PrivateKey.calculate_signature (private_key kp) message csprng.

Definition calculate_agreement (kp : t) (their_key : PublicKey) : Result bytes :=
  PrivateKey.calculate_agreement (private_key kp) their_key.

(** The key pairs the crate makes: the two halves of one secret. *)
Definition of_secret (secret : StaticSecret) : t :=
  of_curve25519 (Curve25519.of_secret secret).

Definition matching (kp : t) : Prop := exists secret, kp = of_secret secret.
End Operations.

Section Proofs.
Context `{Crates, !X25519Laws}.

Lemma key_pair_generate_matching csprng : matching (generate csprng).1.
Proof.
  unfold generate, Curve25519.new. destruct (static_secret_new csprng). simpl. by eexists.
Qed.

Lemma key_pair_matching_wf kp : matching kp ->
  PublicKey.wf (public_key kp) /\ PrivateKey.wf (private_key kp).
Proof. intros [s ->]. unfold PublicKey.wf, PrivateKey.wf. simpl. auto with crates. Qed.

Lemma matching_public_wf kp : matching kp -> PublicKey.wf (public_key kp).
Proof. intros. by apply key_pair_matching_wf. Qed.

Lemma matching_private_wf kp : matching kp -> PrivateKey.wf (private_key kp).
Proof. intros. by apply key_pair_matching_wf. Qed.

(** An agreement never fails and has 32 bytes. *)
Lemma calculate_agreement_ok pk sk :
  exists secret, Curve.calculate_agreement pk sk = Ok secret /\ length secret = 32.
Proof.
  destruct pk as [[pk]], sk as [[sk]]. eexists. split; [done|]. apply diffie_hellman_length.
Qed.

Lemma agreement_symmetric a b :
  matching a -> matching b ->
  Curve.calculate_agreement (public_key a) (private_key b)
    = Curve.calculate_agreement (public_key b) (private_key a).
Proof.
  intros [s ->] [t ->]. unfold Curve.calculate_agreement, PrivateKey.calculate_agreement. simpl.
  unfold Curve25519.calculate_agreement. simpl.
  rewrite !static_secret_from_to_bytes. by rewrite diffie_hellman_comm.
Qed.

Lemma from_public_and_private_roundtrip kp :
  matching kp ->
  from_public_and_private (PublicKey.serialize (public_key kp))
    (PrivateKey.serialize (private_key kp)) = Ok kp.
Proof.
  intros Hkp. destruct (key_pair_matching_wf kp Hkp).
  unfold from_public_and_private, decode_point, decode_private_point.
  rewrite PublicKey.public_key_deserialize_serialize' by done. simpl.
  rewrite PrivateKey.private_key_deserialize_serialize by done. by destruct kp.
Qed.

(** Signing through [curve.rs]: what [calculate_signature] returns has 64
    bytes and verifies under the public key. *)
Lemma sign_verify `{!SubtleLaws, !EdwardsLaws} kp csprng message :
  matching kp ->
  exists sig csprng',
    Curve.calculate_signature csprng (private_key kp) message = (Ok sig, csprng') /\
    length sig = 64 /\
    Curve.verify_signature (public_key kp) message sig = Ok true.
Proof.
  intros [s ->]. unfold Curve.calculate_signature, PrivateKey.calculate_signature. simpl.
  unfold Curve25519.from. rewrite static_secret_from_to_bytes.
  pose proof (Curve25519.xeddsa_sign_verify s csprng message) as Hv. cbv zeta in Hv.
  destruct (Curve25519.calculate_signature _ csprng message) as [sig csprng'] eqn:Hsig.
  exists sig, csprng'. split; [done|].
  assert (length sig = 64) as Hlen.
  { unfold Curve25519.calculate_signature in Hsig.
    destruct (rng_fill_bytes 64 csprng). simplify_eq.
    by rewrite length_alter, length_app, ed_compress_length, scalar_as_bytes_length. }
  split; [done|]. unfold Curve.verify_signature, PublicKey.verify_signature. simpl.
  rewrite Hlen. simpl. f_equal. exact Hv.
Qed.

(** XEdDSA as [curve.rs] offers it.  A signature made with a matching key
    pair has 64 bytes and verifies under the public key, for every message and
    every state of the generator; a signature of another length is an error
    that names the length; a 64-byte signature whose scalar has one of the two
    bits below the sign bit set is refused under every key; verification never
    panics. *)
Lemma xeddsa_correct `{!SubtleLaws, !EdwardsLaws} kp csprng message :
  matching kp ->
  (exists sig csprng', Curve.calculate_signature csprng (private_key kp) message = (Ok sig, csprng') /\
     length sig = 64 /\ Curve.verify_signature (public_key kp) message sig = Ok true) /\
  (forall pk sig, length sig <> 64 -> Curve.verify_signature pk message sig
     = Err (MismatchedSignatureLengthForKey KeyType.Djb (length sig))) /\
  (forall pk sig b, length sig = 64 -> sig !! 63 = Some b -> Z.land (u8_val b) 96 <> 0%Z ->
     Curve.verify_signature pk message sig = Ok false) /\
  (forall pk sig, Curve.verify_signature pk message sig <> Panic).
Proof.
  intros Hm. split_and!.
  - by apply sign_verify.
  - intros [[pk]] sig Hl. unfold Curve.verify_signature, PublicKey.verify_signature. simpl.
    by rewrite (proj2 (Nat.eqb_neq _ _) Hl).
  - intros [[pk]] sig b Hl Hb Hbits. unfold Curve.verify_signature, PublicKey.verify_signature. simpl.
    rewrite Hl. simpl. f_equal. by eapply Curve25519.verify_signature_unreduced.
  - intros. apply PublicKey.public_key_verify_signature_no_panic.
Qed.
End Proofs.
End KeyPair.
Abbreviation KeyPair := KeyPair.t.

(** * The key formats *)

(** The byte forms of keys.  A public key is read from exactly the strings
    that begin with its serialised form (the type byte 0x05 and 32 bytes; what
    follows is ignored), a private key from exactly its 32 bytes; the
    serialised forms have 33 and 32 bytes and determine the key; an empty
    string, a wrong type byte and a short key are rejected with their own
    errors, and nothing panics. *)
Lemma key_serialization_correct (v : bytes) (pk : PublicKey) (sk : PrivateKey) :
  (PublicKey.deserialize v = Ok pk <->
   PublicKey.wf pk /\ exists rest, v = PublicKey.serialize pk ++ rest) /\
  (PrivateKey.deserialize v = Ok sk <-> PrivateKey.wf sk /\ v = PrivateKey.serialize sk) /\
  PublicKey.deserialize [] = Err NoKeyTypeIdentifier /\
  (forall b, b <> Byte.x05 -> PublicKey.deserialize (b :: v) = Err (BadKeyType b)) /\
  (length v < 32 -> PublicKey.deserialize (Byte.x05 :: v)
     = Err (BadKeyLength KeyType.Djb (S (length v)))) /\
  (length v <> 32 -> PrivateKey.deserialize v = Err (BadKeyLength KeyType.Djb (length v))) /\
  PublicKey.deserialize v <> Panic /\ PrivateKey.deserialize v <> Panic.
Proof.
  split_and!; try done.
  - apply PublicKey.public_key_deserialize_ok_iff.
  - apply PrivateKey.private_key_deserialize_ok_iff.
  - intros b Hb. rewrite PublicKey.deserialize_spec. by destruct (decide (b = Byte.x05)).
  - intros Hl. rewrite PublicKey.deserialize_spec. simpl.
    by rewrite (proj2 (Nat.ltb_lt _ _) Hl).
  - intros Hl. unfold PrivateKey.deserialize. by rewrite (proj2 (Nat.eqb_neq _ _) Hl).
  - apply PublicKey.public_key_deserialize_no_panic.
  - apply PrivateKey.private_key_deserialize_no_panic.
Qed.

(** C37: keys and signatures.  A public key is read from exactly the strings that
    begin with its serialised form (the type byte 0x05 and 32 bytes; what follows is
    ignored), a private key from exactly its 32 bytes; an empty string, a wrong type
    byte and a short key are rejected with their own errors, and nothing panics.  A
    signature made with a matching key pair has 64 bytes and verifies under the
    public key, for every message and every state of the generator; a signature of
    another length is an error that names the length; a 64-byte signature whose
    scalar has one of the two bits below the sign bit set is refused under every key;
    verification never panics. *)
Theorem curve_keys_correct `{Crates, !X25519Laws, !SubtleLaws, !EdwardsLaws}
    (v : bytes) (pk : PublicKey) (sk : PrivateKey) kp csprng message :
  KeyPair.matching kp ->
  ((PublicKey.deserialize v = Ok pk <->
    PublicKey.wf pk /\ exists rest, v = PublicKey.serialize pk ++ rest) /\
   (PrivateKey.deserialize v = Ok sk <-> PrivateKey.wf sk /\ v = PrivateKey.serialize sk) /\
   PublicKey.deserialize [] = Err NoKeyTypeIdentifier /\
   (forall b, b <> Byte.x05 -> PublicKey.deserialize (b :: v) = Err (BadKeyType b)) /\
   (length v < 32 -> PublicKey.deserialize (Byte.x05 :: v)
      = Err (BadKeyLength KeyType.Djb (S (length v)))) /\
   (length v <> 32 -> PrivateKey.deserialize v = Err (BadKeyLength KeyType.Djb (length v))) /\
   PublicKey.deserialize v <> Panic /\ PrivateKey.deserialize v <> Panic) /\
  (exists sig csprng', Curve.calculate_signature csprng (KeyPair.private_key kp) message
       = (Ok sig, csprng') /\
     length sig = 64 /\ Curve.verify_signature (KeyPair.public_key kp) message sig = Ok true) /\
  (forall pk sig, length sig <> 64 -> Curve.verify_signature pk message sig
     = Err (MismatchedSignatureLengthForKey KeyType.Djb (length sig))) /\
  (forall pk sig b, length sig = 64 -> sig !! 63 = Some b -> Z.land (u8_val b) 96 <> 0%Z ->
     Curve.verify_signature pk message sig = Ok false) /\
  (forall pk sig, Curve.verify_signature pk message sig <> Panic).
Proof. intros Hm. split; [apply key_serialization_correct|by apply KeyPair.xeddsa_correct]. Qed.

#[export] Hint Resolve KeyPair.key_pair_generate_matching KeyPair.matching_public_wf
  KeyPair.matching_private_wf PublicKey.public_key_deserialize_no_panic PrivateKey.private_key_deserialize_no_panic
  PublicKey.public_key_verify_signature_no_panic : crates.
