(* ===== verification/Proto.v ===== *)
(** The protobuf messages of [proto/wire.proto], [proto/storage.proto] and
    [proto/fingerprint.proto], as the structs prost derives from them: a proto2
    [optional] field and a message-typed field are an [option], [repeated] is a
    list, [bytes] a list of bytes and [uint32] a [Z].

    The encoders and decoders are generated by prost at build time and are a
    parameter, [ProstMessage]; [ProtoLaws] is what prost documents of them: a
    message whose integers are in range decodes to itself. *)

From S2P Require Import Prelude Error.

(** * Wire messages *)

Module WireSignalMessage.
Record t := mk {
  ratchet_key : option bytes;
  counter : option Z;
  previous_counter : option Z;
  ciphertext : option bytes;
}.
End WireSignalMessage.

Module WirePreKeySignalMessage.
Record t := mk {
  registration_id : option Z;
  pre_key_id : option Z;
  signed_pre_key_id : option Z;
  base_key : option bytes;
  identity_key : option bytes;
  message : option bytes;
}.
End WirePreKeySignalMessage.

Module WireSenderKeyMessage.
Record t := mk { id : option Z; iteration : option Z; ciphertext : option bytes }.
End WireSenderKeyMessage.

Module WireSenderKeyDistributionMessage.
Record t := mk {
  id : option Z;
  iteration : option Z;
  chain_key : option bytes;
  signing_key : option bytes;
}.
End WireSenderKeyDistributionMessage.

(** * Storage *)

Module SessionChainKey.
Record t := mk { index : Z; key : bytes }.
End SessionChainKey.

Module SessionMessageKey.
Record t := mk { index : Z; cipher_key : bytes; mac_key : bytes; iv : bytes }.
End SessionMessageKey.

Module Chain.
Record t := mk {
  sender_ratchet_key : bytes;
  sender_ratchet_key_private : bytes;
  chain_key : option SessionChainKey.t;
  message_keys : list SessionMessageKey.t;
}.
Definition with_chain_key (k : option SessionChainKey.t) (c : t) : t :=
  mk (sender_ratchet_key c) (sender_ratchet_key_private c) k (message_keys c).
Definition with_message_keys (ks : list SessionMessageKey.t) (c : t) : t :=
  mk (sender_ratchet_key c) (sender_ratchet_key_private c) (chain_key c) ks.
End Chain.

Module PendingPreKey.
Record t := mk { pre_key_id : Z; signed_pre_key_id : Z; base_key : bytes }.
End PendingPreKey.

Module SessionStructure.
Record t := mk {
  session_version : Z;
  local_identity_public : bytes;
  remote_identity_public : bytes;
  root_key : bytes;
  previous_counter : Z;
  sender_chain : option Chain.t;
  receiver_chains : list Chain.t;
  pending_pre_key : option PendingPreKey.t;
  remote_registration_id : Z;
  local_registration_id : Z;
  needs_refresh : bool;
  alice_base_key : bytes;
}.

(** Field assignment. *)
Definition with_root_key v s :=
  mk (session_version s) (local_identity_public s) (remote_identity_public s) v
    (previous_counter s) (sender_chain s) (receiver_chains s) (pending_pre_key s)
    (remote_registration_id s) (local_registration_id s) (needs_refresh s) (alice_base_key s).
Definition with_previous_counter v s :=
  mk (session_version s) (local_identity_public s) (remote_identity_public s) (root_key s)
    v (sender_chain s) (receiver_chains s) (pending_pre_key s)
    (remote_registration_id s) (local_registration_id s) (needs_refresh s) (alice_base_key s).
Definition with_sender_chain v s :=
  mk (session_version s) (local_identity_public s) (remote_identity_public s) (root_key s)
    (previous_counter s) v (receiver_chains s) (pending_pre_key s)
    (remote_registration_id s) (local_registration_id s) (needs_refresh s) (alice_base_key s).
Definition with_receiver_chains v s :=
  mk (session_version s) (local_identity_public s) (remote_identity_public s) (root_key s)
    (previous_counter s) (sender_chain s) v (pending_pre_key s)
    (remote_registration_id s) (local_registration_id s) (needs_refresh s) (alice_base_key s).
Definition with_pending_pre_key v s :=
  mk (session_version s) (local_identity_public s) (remote_identity_public s) (root_key s)
    (previous_counter s) (sender_chain s) (receiver_chains s) v
    (remote_registration_id s) (local_registration_id s) (needs_refresh s) (alice_base_key s).
Definition with_remote_registration_id v s :=
  mk (session_version s) (local_identity_public s) (remote_identity_public s) (root_key s)
    (previous_counter s) (sender_chain s) (receiver_chains s) (pending_pre_key s)
    v (local_registration_id s) (needs_refresh s) (alice_base_key s).
Definition with_local_registration_id v s :=
  mk (session_version s) (local_identity_public s) (remote_identity_public s) (root_key s)
    (previous_counter s) (sender_chain s) (receiver_chains s) (pending_pre_key s)
    (remote_registration_id s) v (needs_refresh s) (alice_base_key s).
Definition with_alice_base_key v s :=
  mk (session_version s) (local_identity_public s) (remote_identity_public s) (root_key s)
    (previous_counter s) (sender_chain s) (receiver_chains s) (pending_pre_key s)
    (remote_registration_id s) (local_registration_id s) (needs_refresh s) v.
End SessionStructure.

Module RecordStructure.
Record t := mk {
  current_session : option SessionStructure.t;
  previous_sessions : list SessionStructure.t;
}.
End RecordStructure.

Module PreKeyRecordStructure.
Record t := mk { id : Z; public_key : bytes; private_key : bytes }.
End PreKeyRecordStructure.

Module SignedPreKeyRecordStructure.
Record t := mk {
  id : Z; public_key : bytes; private_key : bytes; signature : bytes; timestamp : Z }.
End SignedPreKeyRecordStructure.

Module IdentityKeyPairStructure.
Record t := mk { public_key : bytes; private_key : bytes }.
End IdentityKeyPairStructure.

Module SenderChainKeyStructure.
Record t := mk { iteration : Z; seed : bytes }.
End SenderChainKeyStructure.

Module SenderMessageKeyStructure.
Record t := mk { iteration : Z; seed : bytes }.
End SenderMessageKeyStructure.

Module SenderSigningKeyStructure.
Record t := mk { public : bytes; private : bytes }.
End SenderSigningKeyStructure.

Module SenderKeyStateStructure.
Record t := mk {
  sender_key_id : Z;
  sender_chain_key : option SenderChainKeyStructure.t;
  sender_signing_key : option SenderSigningKeyStructure.t;
  sender_message_keys : list SenderMessageKeyStructure.t;
}.
Definition with_sender_chain_key v s :=
  mk (sender_key_id s) v (sender_signing_key s) (sender_message_keys s).
Definition with_sender_message_keys v s :=
  mk (sender_key_id s) (sender_chain_key s) (sender_signing_key s) v.
End SenderKeyStateStructure.

Module SenderKeyRecordStructure.
Record t := mk { sender_key_states : list SenderKeyStateStructure.t }.
End SenderKeyRecordStructure.

(** * Fingerprints *)

Module LogicalFingerprint.
Record t := mk { content : bytes }.
End LogicalFingerprint.

Module CombinedFingerprints.
Record t := mk {
  version : Z;
  local_fingerprint : option LogicalFingerprint.t;
  remote_fingerprint : option LogicalFingerprint.t;
}.
End CombinedFingerprints.

(** * Well-typed messages: every integer within the width of its field *)

Definition is_i32 (z : Z) : Prop := (-2147483648 <= z < 2147483648)%Z.
Definition is_u64 (z : Z) : Prop := (0 <= z < 18446744073709551616)%Z.
Definition opt_u32 (o : option Z) : Prop := from_option is_u32 True o.

Class WellTyped (M : Type) := well_typed : M -> Prop.

#[export] Instance WireSignalMessage_typed : WellTyped WireSignalMessage.t := fun m =>
  opt_u32 (WireSignalMessage.counter m) /\ opt_u32 (WireSignalMessage.previous_counter m).
#[export] Instance WirePreKeySignalMessage_typed : WellTyped WirePreKeySignalMessage.t := fun m =>
  opt_u32 (WirePreKeySignalMessage.registration_id m) /\
  opt_u32 (WirePreKeySignalMessage.pre_key_id m) /\
  opt_u32 (WirePreKeySignalMessage.signed_pre_key_id m).
#[export] Instance WireSenderKeyMessage_typed : WellTyped WireSenderKeyMessage.t := fun m =>
  opt_u32 (WireSenderKeyMessage.id m) /\ opt_u32 (WireSenderKeyMessage.iteration m).
#[export] Instance WireSenderKeyDistributionMessage_typed :
    WellTyped WireSenderKeyDistributionMessage.t := fun m =>
  opt_u32 (WireSenderKeyDistributionMessage.id m) /\
  opt_u32 (WireSenderKeyDistributionMessage.iteration m).
#[export] Instance SessionMessageKey_typed : WellTyped SessionMessageKey.t := fun m =>
  is_u32 (SessionMessageKey.index m).
#[export] Instance Chain_typed : WellTyped Chain.t := fun c =>
  from_option (fun k => is_u32 (SessionChainKey.index k)) True (Chain.chain_key c) /\
  Forall well_typed (Chain.message_keys c).
#[export] Instance PendingPreKey_typed : WellTyped PendingPreKey.t := fun p =>
  is_u32 (PendingPreKey.pre_key_id p) /\ is_i32 (PendingPreKey.signed_pre_key_id p).
#[export] Instance SessionStructure_typed : WellTyped SessionStructure.t := fun s =>
  is_u32 (SessionStructure.session_version s) /\
  is_u32 (SessionStructure.previous_counter s) /\
  from_option well_typed True (SessionStructure.sender_chain s) /\
  Forall well_typed (SessionStructure.receiver_chains s) /\
  from_option well_typed True (SessionStructure.pending_pre_key s) /\
  is_u32 (SessionStructure.remote_registration_id s) /\
  is_u32 (SessionStructure.local_registration_id s).
#[export] Instance RecordStructure_typed : WellTyped RecordStructure.t := fun r =>
  from_option well_typed True (RecordStructure.current_session r) /\
  Forall well_typed (RecordStructure.previous_sessions r).
#[export] Instance PreKeyRecordStructure_typed : WellTyped PreKeyRecordStructure.t := fun r =>
  is_u32 (PreKeyRecordStructure.id r).
#[export] Instance SignedPreKeyRecordStructure_typed : WellTyped SignedPreKeyRecordStructure.t :=
  fun r => is_u32 (SignedPreKeyRecordStructure.id r) /\
           is_u64 (SignedPreKeyRecordStructure.timestamp r).
#[export] Instance IdentityKeyPairStructure_typed : WellTyped IdentityKeyPairStructure.t :=
  fun _ => True.
#[export] Instance SenderKeyStateStructure_typed : WellTyped SenderKeyStateStructure.t := fun s =>
  is_u32 (SenderKeyStateStructure.sender_key_id s) /\
  from_option (fun k => is_u32 (SenderChainKeyStructure.iteration k)) True
    (SenderKeyStateStructure.sender_chain_key s) /\
  Forall (fun k => is_u32 (SenderMessageKeyStructure.iteration k))
    (SenderKeyStateStructure.sender_message_keys s).
#[export] Instance SenderKeyRecordStructure_typed : WellTyped SenderKeyRecordStructure.t := fun r =>
  Forall well_typed (SenderKeyRecordStructure.sender_key_states r).
#[export] Instance CombinedFingerprints_typed : WellTyped CombinedFingerprints.t := fun f =>
  is_u32 (CombinedFingerprints.version f).

(** * The codecs *)

(** [Message::encode] into a growing buffer and [Message::decode]. *)
Class ProstMessage (M : Type) := {
  encode : M -> bytes;
  decode : bytes -> DecodeError + M;
}.

(** [Message::decode(bytes)?], through [From<DecodeError>]. *)
Definition decode_message {M} `{ProstMessage M} (b : bytes) : Result M :=
  match decode b with inl e => Err (ProtobufDecodingError e) | inr m => Ok m end.

Class ProtoCodecs := {
  WireSignalMessage_codec :: ProstMessage WireSignalMessage.t;
  WirePreKeySignalMessage_codec :: ProstMessage WirePreKeySignalMessage.t;
  WireSenderKeyMessage_codec :: ProstMessage WireSenderKeyMessage.t;
  WireSenderKeyDistributionMessage_codec :: ProstMessage WireSenderKeyDistributionMessage.t;
  SessionStructure_codec :: ProstMessage SessionStructure.t;
  RecordStructure_codec :: ProstMessage RecordStructure.t;
  PreKeyRecordStructure_codec :: ProstMessage PreKeyRecordStructure.t;
  SignedPreKeyRecordStructure_codec :: ProstMessage SignedPreKeyRecordStructure.t;
  IdentityKeyPairStructure_codec :: ProstMessage IdentityKeyPairStructure.t;
  SenderKeyStateStructure_codec :: ProstMessage SenderKeyStateStructure.t;
  SenderKeyRecordStructure_codec :: ProstMessage SenderKeyRecordStructure.t;
  CombinedFingerprints_codec :: ProstMessage CombinedFingerprints.t;
}.

(** A well-typed message decodes to itself. *)
Class ProstRoundtrip (M : Type) `{ProstMessage M, WellTyped M} : Prop :=
  decode_encode : forall m, well_typed m -> decode (encode m) = inr m.

Class ProtoLaws `{ProtoCodecs} : Prop := {
  WireSignalMessage_law :: ProstRoundtrip WireSignalMessage.t;
  WirePreKeySignalMessage_law :: ProstRoundtrip WirePreKeySignalMessage.t;
  WireSenderKeyMessage_law :: ProstRoundtrip WireSenderKeyMessage.t;
  WireSenderKeyDistributionMessage_law :: ProstRoundtrip WireSenderKeyDistributionMessage.t;
  SessionStructure_law :: ProstRoundtrip SessionStructure.t;
  RecordStructure_law :: ProstRoundtrip RecordStructure.t;
  PreKeyRecordStructure_law :: ProstRoundtrip PreKeyRecordStructure.t;
  SignedPreKeyRecordStructure_law :: ProstRoundtrip SignedPreKeyRecordStructure.t;
  IdentityKeyPairStructure_law :: ProstRoundtrip IdentityKeyPairStructure.t;
  SenderKeyStateStructure_law :: ProstRoundtrip SenderKeyStateStructure.t;
  SenderKeyRecordStructure_law :: ProstRoundtrip SenderKeyRecordStructure.t;
  CombinedFingerprints_law :: ProstRoundtrip CombinedFingerprints.t;
  (** A [bytes] field is copied into the encoding. *)
  distribution_encode_length : forall i it ck pk,
    length ck + length pk
      <= length (encode (WireSenderKeyDistributionMessage.mk i it (Some ck) (Some pk)));
}.

Section Decode.
Context {M : Type} `{ProstMessage M, !WellTyped M, !ProstRoundtrip M}.

Lemma decode_message_encode (m : M) : well_typed m -> decode_message (encode m) = Ok m.
Proof. intros Hm. unfold decode_message. by rewrite decode_encode. Qed.
End Decode.

Lemma decode_message_no_panic {M} `{ProstMessage M} b : decode_message (M:=M) b <> Panic.
Proof. unfold decode_message. by destruct (decode b). Qed.

#[export] Hint Resolve decode_message_no_panic : crates.
