(* ===== verification/IdentityKey.v ===== *)
(** Identity keys and identity key pairs ([identity_key.rs]). *)

From S2P Require Import Prelude Error Crates Curve Proto.

Module IdentityKey.
Record t := new { public_key : PublicKey }.

#[global] Instance eq_dec : EqDecision t.
Proof. solve_decision. Defined.

Definition wf (k : t) : Prop := PublicKey.wf (public_key k).

Definition serialize (k : t) : bytes := PublicKey.serialize (public_key k).

Definition decode (value : bytes) : Result t :=
  let? pk := PublicKey.deserialize value in Ok (new pk).

(** [TryFrom<&\[u8\]>]. *)
Definition try_from (value : bytes) : Result t := decode value.

Lemma decode_serialize k : wf k -> decode (serialize k) = Ok k.
Proof.
  intros Hk. unfold decode, serialize.
  rewrite PublicKey.public_key_deserialize_serialize' by done. by destruct k.
Qed.

Lemma decode_wf v k : decode v = Ok k -> wf k.
Proof. unfold decode. intros. inv_ok. by eapply PublicKey.public_key_deserialize_wf. Qed.

Lemma decode_no_panic v : decode v <> Panic.
Proof. unfold decode. no_panic. apply PublicKey.public_key_deserialize_no_panic. Qed.

Lemma identity_key_serialize_inj a b : serialize a = serialize b -> a = b.
Proof. destruct a, b. intros Heq. f_equal. by apply PublicKey.public_key_serialize_inj. Qed.
End IdentityKey.
Abbreviation IdentityKey := IdentityKey.t.

Module IdentityKeyPair.
Record t := new { identity_key : IdentityKey; private_key : PrivateKey }.

Definition public_key (kp : t) : PublicKey := IdentityKey.public_key (identity_key kp).

(** [From<KeyPair>]. *)
Definition from_key_pair (kp : KeyPair) : t :=
  new (IdentityKey.new (KeyPair.public_key kp)) (KeyPair.private_key kp).

Definition to_key_pair (kp : t) : KeyPair := KeyPair.new (public_key kp) (private_key kp).

Section Operations.
Context `{Crates, ProtoCodecs}.

Definition generate (csprng : Csprng) : t * Csprng :=
  let '(keypair, csprng) := KeyPair.generate csprng in (from_key_pair keypair, csprng).

Definition serialize (kp : t) : bytes :=
  encode (IdentityKeyPairStructure.mk (IdentityKey.serialize (identity_key kp))
            (PrivateKey.serialize (private_key kp))).

Definition try_from (value : bytes) : Result t :=
  let? structure := decode_message value in
  let? identity_key := IdentityKey.try_from (IdentityKeyPairStructure.public_key structure) in
  let? private_key := PrivateKey.deserialize (IdentityKeyPairStructure.private_key structure) in
  Ok (new identity_key private_key).

Definition matching (kp : t) : Prop := KeyPair.matching (to_key_pair kp).
End Operations.

Section Proofs.
Context `{Crates, ProtoCodecs}.

Lemma identity_key_pair_generate_matching `{!X25519Laws} csprng : matching (generate csprng).1.
Proof.
  unfold generate. pose proof (KeyPair.key_pair_generate_matching csprng) as Hm.
  destruct (KeyPair.generate csprng) as [[] ?]. exact Hm.
Qed.

Lemma identity_key_pair_matching_wf `{!X25519Laws} kp :
  matching kp -> IdentityKey.wf (identity_key kp) /\ PrivateKey.wf (private_key kp).
Proof. intros Hm. by apply KeyPair.key_pair_matching_wf in Hm. Qed.

(** An identity key pair survives [serialize] and [try_from]. *)
Lemma identity_key_pair_roundtrip `{!ProtoLaws} kp :
  IdentityKey.wf (identity_key kp) -> PrivateKey.wf (private_key kp) ->
  try_from (serialize kp) = Ok kp.
Proof.
  intros Hi Hp. unfold try_from, serialize. rewrite decode_message_encode by done. simpl.
  unfold IdentityKey.try_from. rewrite IdentityKey.decode_serialize by done. simpl.
  rewrite PrivateKey.private_key_deserialize_serialize by done. by destruct kp.
Qed.

Lemma identity_key_pair_try_from_no_panic v : try_from v <> Panic.
Proof.
  unfold try_from. no_panic; auto with crates.
  apply IdentityKey.decode_no_panic.
Qed.
End Proofs.
End IdentityKeyPair.
Abbreviation IdentityKeyPair := IdentityKeyPair.t.

#[export] Hint Resolve IdentityKey.decode_no_panic : crates.
