(* ===== verification/Instances.v ===== *)
(** Concrete crates and codecs.

    The theorems of the development hold for every instance of [Crates] and
    [ProtoCodecs] that satisfies the law classes.  Here is one such instance, so
    that each theorem can be applied at a concrete input and the definitions
    evaluated: small arithmetic stands for the curve, a checksum for the hashes,
    PKCS#7 padding alone for AES-CBC and a self-delimiting byte format for
    protobuf.  Nothing but the laws is meant to resemble the real crates. *)

From S2P Require Import Prelude Error Crates Proto.

(** * Self-delimiting codecs *)

Module Codec.
Record t (A : Type) := {
  enc : A -> bytes;
  dec : bytes -> option (A * bytes);
  dec_enc : forall a rest, dec (enc a ++ rest) = Some (a, rest);
}.
Arguments enc {A}. Arguments dec {A}. Arguments dec_enc {A}.

Definition byte : t Byte.byte.
Proof.
  refine {| enc b := [b];
  dec l := match l with b :: r => Some (b, r) | [] => None end; dec_enc := _ |}.
  done.
Defined.

Fixpoint enc_pos (p : positive) : bytes :=
  match p with
  | xH => [Byte.x01] | xO p => Byte.x00 :: enc_pos p | xI p => Byte.x02 :: enc_pos p
  end.
Fixpoint dec_pos (l : bytes) : option (positive * bytes) :=
  match l with
  | Byte.x01 :: r => Some (xH, r)
  | Byte.x00 :: r => '(p, r) ← dec_pos r; Some (xO p, r)
  | Byte.x02 :: r => '(p, r) ← dec_pos r; Some (xI p, r)
  | _ => None
  end.
Definition pos : t positive.
Proof.
  refine {| enc := enc_pos; dec := dec_pos; dec_enc := _ |}.
  intros p rest. induction p as [p IH|p IH|]; simpl; by rewrite ?IH.
Defined.

Definition pair {A B} (a : t A) (b : t B) : t (A * B).
Proof.
  refine {| enc p := enc a p.1 ++ enc b p.2;
  dec l := '(x, l) ← dec a l; '(y, l) ← dec b l; Some ((x, y), l); dec_enc := _ |}.
  intros [x y] rest. simpl. by rewrite <-app_assoc, dec_enc; simpl; rewrite dec_enc.
Defined.

Definition opt {A} (a : t A) : t (option A).
Proof.
  refine {| enc o := match o with None => [Byte.x00] | Some x => Byte.x01 :: enc a x end;
  dec l := match l with
           | Byte.x00 :: r => Some (None, r)
           | Byte.x01 :: r => '(x, r) ← dec a r; Some (Some x, r)
           | _ => None
           end; dec_enc := _ |}.
  intros [x|] rest; simpl; [by rewrite dec_enc|done].
Defined.

Fixpoint enc_list {A} (a : t A) (l : list A) : bytes :=
  match l with [] => [Byte.x00] | x :: l => Byte.x01 :: enc a x ++ enc_list a l end.
Fixpoint dec_list {A} (a : t A) (fuel : nat) (l : bytes) : option (list A * bytes) :=
  match fuel, l with
  | _, Byte.x00 :: r => Some ([], r)
  | S fuel, Byte.x01 :: r =>
      '(x, r) ← dec a r; '(xs, r) ← dec_list a fuel r; Some (x :: xs, r)
  | _, _ => None
  end.
Lemma length_enc_list {A} (a : t A) l : length l < length (enc_list a l).
Proof. induction l; simpl; rewrite ?length_app; lia. Qed.
Lemma dec_enc_list {A} (a : t A) l fuel rest :
  length l <= fuel -> dec_list a fuel (enc_list a l ++ rest) = Some (l, rest).
Proof.
  revert fuel. induction l as [|x l IH]; intros fuel Hf; simpl; [by destruct fuel|].
  destruct fuel as [|fuel]; simpl in *; [lia|].
  rewrite <-app_assoc, dec_enc. simpl. rewrite IH by lia. done.
Qed.
Definition list {A} (a : t A) : t (list A).
Proof.
  refine {| enc := enc_list a;
  dec l := dec_list a (length l) l; dec_enc := _ |}.
 
  intros l rest. simpl. apply dec_enc_list. rewrite length_app.
  pose proof (length_enc_list a l). lia.
Defined.

Definition iso {A B} (a : t A) (f : A -> B) (g : B -> A) (H : forall b, f (g b) = b) : t B.
Proof.
  refine {| enc b := enc a (g b);
  dec l := '(x, l) ← dec a l; Some (f x, l); dec_enc := _ |}.
  intros b rest. simpl. by rewrite dec_enc; simpl; rewrite H.
Defined.

Definition int : t Z.
Proof.
  refine (iso (opt (pair (opt byte) pos))
    (fun o => match o with
              | None => 0 | Some (None, p) => Zpos p | Some (Some _, p) => Zneg p end)%Z
    (fun z => match z with
              | Z0 => None | Zpos p => Some (None, p) | Zneg p => Some (Some Byte.x00, p) end) _).
  by intros [].
Defined.

Definition bool : t bool.
Proof.
  refine (iso (opt (list byte)) (fun o => match o with Some _ => true | None => false end)
    (fun b : Datatypes.bool => if b then Some [] else None) _).
  by intros [].
Defined.

Definition str : t bytes := list byte.

(** As a prost message: decoding must consume the whole input. *)
Definition message {A} (a : t A) : ProstMessage A := {|
  encode := enc a;
  decode l := match dec a l with
              | Some (x, []) => inr x
              | _ => inl {| decode_error_text := "truncated" |}
              end;
|}.

Lemma message_law {A} (a : t A) `{!WellTyped A} : @ProstRoundtrip A (message a) _.
Proof.
  intros m _. simpl. pose proof (dec_enc a m []) as Hd. rewrite app_nil_r in Hd. by rewrite Hd.
Qed.
End Codec.

(** * The messages *)

Ltac codec_record := intros []; reflexivity.

Definition c_wire_signal_message : Codec.t WireSignalMessage.t.
Proof.
  refine (Codec.iso (Codec.pair (Codec.opt Codec.str) (Codec.pair (Codec.opt Codec.int)
      (Codec.pair (Codec.opt Codec.int) (Codec.opt Codec.str))))
    (fun '(a, (b, (c, d))) => WireSignalMessage.mk a b c d)
    (fun '(WireSignalMessage.mk a b c d) => (a, (b, (c, d)))) _); codec_record.
Defined.

Definition c_wire_pre_key_signal_message : Codec.t WirePreKeySignalMessage.t.
Proof.
  refine (Codec.iso (Codec.pair (Codec.opt Codec.int) (Codec.pair (Codec.opt Codec.int)
      (Codec.pair (Codec.opt Codec.int) (Codec.pair (Codec.opt Codec.str)
      (Codec.pair (Codec.opt Codec.str) (Codec.opt Codec.str))))))
    (fun '(a, (b, (c, (d, (e, f))))) => WirePreKeySignalMessage.mk a b c d e f)
    (fun '(WirePreKeySignalMessage.mk a b c d e f) => (a, (b, (c, (d, (e, f)))))) _); codec_record.
Defined.

Definition c_wire_sender_key_message : Codec.t WireSenderKeyMessage.t.
Proof.
  refine (Codec.iso (Codec.pair (Codec.opt Codec.int) (Codec.pair (Codec.opt Codec.int)
      (Codec.opt Codec.str)))
    (fun '(a, (b, c)) => WireSenderKeyMessage.mk a b c)
    (fun '(WireSenderKeyMessage.mk a b c) => (a, (b, c))) _); codec_record.
Defined.

Definition c_wire_skdm : Codec.t WireSenderKeyDistributionMessage.t.
Proof.
  refine (Codec.iso (Codec.pair (Codec.opt Codec.int) (Codec.pair (Codec.opt Codec.int)
      (Codec.pair (Codec.opt Codec.str) (Codec.opt Codec.str))))
    (fun '(a, (b, (c, d))) => WireSenderKeyDistributionMessage.mk a b c d)
    (fun '(WireSenderKeyDistributionMessage.mk a b c d) => (a, (b, (c, d)))) _); codec_record.
Defined.

Definition c_chain_key : Codec.t SessionChainKey.t.
Proof.
  refine (Codec.iso (Codec.pair Codec.int Codec.str)
    (fun '(a, b) => SessionChainKey.mk a b) (fun '(SessionChainKey.mk a b) => (a, b)) _); codec_record.
Defined.

Definition c_message_key : Codec.t SessionMessageKey.t.
Proof.
  refine (Codec.iso (Codec.pair Codec.int (Codec.pair Codec.str (Codec.pair Codec.str Codec.str)))
    (fun '(a, (b, (c, d))) => SessionMessageKey.mk a b c d)
    (fun '(SessionMessageKey.mk a b c d) => (a, (b, (c, d)))) _); codec_record.
Defined.

Definition c_chain : Codec.t Chain.t.
Proof.
  refine (Codec.iso (Codec.pair Codec.str (Codec.pair Codec.str
      (Codec.pair (Codec.opt c_chain_key) (Codec.list c_message_key))))
    (fun '(a, (b, (c, d))) => Chain.mk a b c d)
    (fun '(Chain.mk a b c d) => (a, (b, (c, d)))) _); codec_record.
Defined.

Definition c_pending_pre_key : Codec.t PendingPreKey.t.
Proof.
  refine (Codec.iso (Codec.pair Codec.int (Codec.pair Codec.int Codec.str))
    (fun '(a, (b, c)) => PendingPreKey.mk a b c)
    (fun '(PendingPreKey.mk a b c) => (a, (b, c))) _); codec_record.
Defined.

Definition c_session : Codec.t SessionStructure.t.
Proof.
  refine (Codec.iso
    (Codec.pair (Codec.pair Codec.int (Codec.pair Codec.str (Codec.pair Codec.str
      (Codec.pair Codec.str (Codec.pair Codec.int (Codec.opt c_chain))))))
     (Codec.pair (Codec.list c_chain) (Codec.pair (Codec.opt c_pending_pre_key)
      (Codec.pair Codec.int (Codec.pair Codec.int (Codec.pair Codec.bool Codec.str))))))
    (fun '((a, (b, (c, (d, (e, f))))), (g, (h, (i, (j, (k, l)))))) =>
       SessionStructure.mk a b c d e f g h i j k l)
    (fun '(SessionStructure.mk a b c d e f g h i j k l) =>
       ((a, (b, (c, (d, (e, f))))), (g, (h, (i, (j, (k, l))))))) _); codec_record.
Defined.

Definition c_record : Codec.t RecordStructure.t.
Proof.
  refine (Codec.iso (Codec.pair (Codec.opt c_session) (Codec.list c_session))
    (fun '(a, b) => RecordStructure.mk a b) (fun '(RecordStructure.mk a b) => (a, b)) _); codec_record.
Defined.

Definition c_pre_key_record : Codec.t PreKeyRecordStructure.t.
Proof.
  refine (Codec.iso (Codec.pair Codec.int (Codec.pair Codec.str Codec.str))
    (fun '(a, (b, c)) => PreKeyRecordStructure.mk a b c)
    (fun '(PreKeyRecordStructure.mk a b c) => (a, (b, c))) _); codec_record.
Defined.

Definition c_signed_pre_key_record : Codec.t SignedPreKeyRecordStructure.t.
Proof.
  refine (Codec.iso (Codec.pair Codec.int (Codec.pair Codec.str (Codec.pair Codec.str
      (Codec.pair Codec.str Codec.int))))
    (fun '(a, (b, (c, (d, e)))) => SignedPreKeyRecordStructure.mk a b c d e)
    (fun '(SignedPreKeyRecordStructure.mk a b c d e) => (a, (b, (c, (d, e))))) _); codec_record.
Defined.

Definition c_identity_key_pair : Codec.t IdentityKeyPairStructure.t.
Proof.
  refine (Codec.iso (Codec.pair Codec.str Codec.str)
    (fun '(a, b) => IdentityKeyPairStructure.mk a b)
    (fun '(IdentityKeyPairStructure.mk a b) => (a, b)) _); codec_record.
Defined.

Definition c_sender_chain_key : Codec.t SenderChainKeyStructure.t.
Proof.
  refine (Codec.iso (Codec.pair Codec.int Codec.str)
    (fun '(a, b) => SenderChainKeyStructure.mk a b)
    (fun '(SenderChainKeyStructure.mk a b) => (a, b)) _); codec_record.
Defined.

Definition c_sender_message_key : Codec.t SenderMessageKeyStructure.t.
Proof.
  refine (Codec.iso (Codec.pair Codec.int Codec.str)
    (fun '(a, b) => SenderMessageKeyStructure.mk a b)
    (fun '(SenderMessageKeyStructure.mk a b) => (a, b)) _); codec_record.
Defined.

Definition c_sender_signing_key : Codec.t SenderSigningKeyStructure.t.
Proof.
  refine (Codec.iso (Codec.pair Codec.str Codec.str)
    (fun '(a, b) => SenderSigningKeyStructure.mk a b)
    (fun '(SenderSigningKeyStructure.mk a b) => (a, b)) _); codec_record.
Defined.

Definition c_sender_key_state : Codec.t SenderKeyStateStructure.t.
Proof.
  refine (Codec.iso (Codec.pair Codec.int (Codec.pair (Codec.opt c_sender_chain_key)
      (Codec.pair (Codec.opt c_sender_signing_key) (Codec.list c_sender_message_key))))
    (fun '(a, (b, (c, d))) => SenderKeyStateStructure.mk a b c d)
    (fun '(SenderKeyStateStructure.mk a b c d) => (a, (b, (c, d)))) _); codec_record.
Defined.

Definition c_sender_key_record : Codec.t SenderKeyRecordStructure.t.
Proof.
  refine (Codec.iso (Codec.list c_sender_key_state) SenderKeyRecordStructure.mk
    SenderKeyRecordStructure.sender_key_states _); codec_record.
Defined.

Definition c_logical_fingerprint : Codec.t LogicalFingerprint.t.
Proof. refine (Codec.iso Codec.str LogicalFingerprint.mk LogicalFingerprint.content _); codec_record. Defined.

Definition c_combined_fingerprints : Codec.t CombinedFingerprints.t.
Proof.
  refine (Codec.iso (Codec.pair Codec.int (Codec.pair (Codec.opt c_logical_fingerprint)
      (Codec.opt c_logical_fingerprint)))
    (fun '(a, (b, c)) => CombinedFingerprints.mk a b c)
    (fun '(CombinedFingerprints.mk a b c) => (a, (b, c))) _); codec_record.
Defined.

Definition toy_codecs : ProtoCodecs := {|
  WireSignalMessage_codec := Codec.message c_wire_signal_message;
  WirePreKeySignalMessage_codec := Codec.message c_wire_pre_key_signal_message;
  WireSenderKeyMessage_codec := Codec.message c_wire_sender_key_message;
  WireSenderKeyDistributionMessage_codec := Codec.message c_wire_skdm;
  SessionStructure_codec := Codec.message c_session;
  RecordStructure_codec := Codec.message c_record;
  PreKeyRecordStructure_codec := Codec.message c_pre_key_record;
  SignedPreKeyRecordStructure_codec := Codec.message c_signed_pre_key_record;
  IdentityKeyPairStructure_codec := Codec.message c_identity_key_pair;
  SenderKeyStateStructure_codec := Codec.message c_sender_key_state;
  SenderKeyRecordStructure_codec := Codec.message c_sender_key_record;
  CombinedFingerprints_codec := Codec.message c_combined_fingerprints;
|}.

Lemma toy_proto_laws : @ProtoLaws toy_codecs.
Proof.
  constructor; try apply Codec.message_law.
  intros i it ck pk. simpl. rewrite !length_app. simpl. rewrite !length_app. simpl.
  pose proof (Codec.length_enc_list Codec.byte ck). pose proof (Codec.length_enc_list Codec.byte pk).
  lia.
Qed.

(** * The crates *)

Definition toy_checksum (l : bytes) : Z :=
  fold_left (fun h b => (h * 31 + u8_val b + 7) mod 4294967291)%Z l 5381%Z.

Definition toy_stretch (n : nat) (seed : Z) : bytes :=
  (fun i => u8_of (seed / 2 ^ (8 * (Z.of_nat i mod 4)) + Z.of_nat i * 17)%Z) <$> seq 0 n.

Definition toy_array (b : Byte.byte) : bytes := b :: replicate 31 Byte.x00.
Definition toy_head (l : bytes) : Byte.byte := nth 0 l Byte.x00.

Definition toy_pad (p : bytes) : bytes :=
  let n := 16 - length p mod 16 in p ++ replicate n (u8_of (Z.of_nat n)).
Definition toy_unpad (c : bytes) : option bytes :=
  match c !! pred (length c) with
  | Some b => Some (take (length c - Z.to_nat (u8_val b)) c)
  | None => None
  end.

Definition toy_crates : Crates := {|
  hmac_sha256_mac key input := toy_stretch 32 (toy_checksum (key ++ Byte.xff :: input));
  sha512_digest input := toy_stretch 64 (toy_checksum input);
  ct_eq a b := bool_decide (a = b);
  CbcMode := unit;
  cbc_new_var key iv :=
    if bool_decide (length key = 32 /\ length iv = 16) then Some tt else None;
  cbc_encrypt_vec _ p := toy_pad p;
  cbc_decrypt_vec _ c := toy_unpad c;
  Csprng := Z;
  rng_fill_bytes n r := (toy_stretch n (r * 2654435761), r + 1)%Z;
  rng_gen_u32 r := (wrap_u32 (r * 2654435761), r + 1)%Z;
  rng_gen_array32 r := (toy_stretch 32 (r * 2654435761 + 7), r + 1)%Z;
  StaticSecret := Byte.byte;
  static_secret_new r := (u8_of (r * 11 + 3), r + 1)%Z;
  static_secret_from b := toy_head b;
  static_secret_to_bytes s := toy_array s;
  x25519_public_key s := toy_array s;
  diffie_hellman s p := toy_array (u8_of (u8_val s * u8_val (toy_head p)));
  Scalar := Z;
  scalar_from_bits b := u8_val (toy_head b);
  scalar_from_hash h := (toy_checksum h mod 251)%Z;
  scalar_as_bytes s := toy_array (u8_of s);
  scalar_mul a b := (a * b mod 251)%Z;
  scalar_add a b := ((a + b) mod 251)%Z;
  EdwardsPoint := Z;
  ed_basepoint_mul s := (s mod 251)%Z;
  ed_neg p := (- p mod 251)%Z;
  ed_compress p := toy_array (u8_of p);
  montgomery_to_edwards u _ := Some (u8_val (toy_head u) mod 251)%Z;
  vartime_double_scalar_mul_basepoint a p b := ((a * p + b) mod 251)%Z;
|}.

Definition toy_build : BuildConfig := {| overflow_checks := true; debug_assertions := true |}.

Lemma toy_hash_laws : @HashLaws toy_crates.
Proof. by constructor. Qed.

Lemma toy_subtle_laws : @SubtleLaws toy_crates.
Proof. by constructor. Qed.

Lemma toy_rng_laws : @RngLaws toy_crates.
Proof.
  constructor.
  - intros n r. simpl. unfold toy_stretch. by rewrite length_fmap, length_seq.
  - intros r. simpl. unfold is_u32, u32_max, wrap_u32.
    pose proof (Z.mod_pos_bound (r * 2654435761) 4294967296). lia.
  - intros r. by simpl.
Qed.

Lemma toy_pad_length p : length (toy_pad p) = 16 * (length p / 16 + 1).
Proof.
  unfold toy_pad. rewrite length_app, length_replicate.
  pose proof (Nat.div_mod_eq (length p) 16).
  pose proof (Nat.mod_upper_bound (length p) 16 ltac:(lia)). lia.
Qed.

Lemma toy_unpad_pad p : toy_unpad (toy_pad p) = Some p.
Proof.
  unfold toy_unpad. rewrite toy_pad_length.
  pose proof (Nat.div_mod_eq (length p) 16).
  pose proof (Nat.mod_upper_bound (length p) 16 ltac:(lia)).
  unfold toy_pad. rewrite lookup_app_r by lia.
  rewrite lookup_replicate_2 by lia. rewrite u8_val_of, Z.mod_small by lia.
  rewrite take_app_le by lia. rewrite take_ge by lia. done.
Qed.

Lemma toy_cbc_laws : @CbcLaws toy_crates.
Proof.
  constructor; simpl.
  - intros. rewrite bool_decide_eq_true_2 by done. by eexists.
  - intros key iv Hl. rewrite bool_decide_eq_false_2 by tauto. done.
  - intros _ p. apply toy_pad_length.
  - intros _ p. apply toy_unpad_pad.
Qed.

Lemma toy_x25519_laws : @X25519Laws toy_crates.
Proof.
  constructor; simpl; try done.
  intros s t. unfold toy_head, toy_array. simpl. by rewrite Z.mul_comm.
Qed.

Lemma toy_edwards_laws : @EdwardsLaws toy_crates.
Proof.
  constructor; simpl; try done.
  - intros h a r. unfold toy_head, toy_array. simpl. rewrite u8_val_of.
    pose proof (Z.mod_pos_bound ((h * a) mod 251 + r) 251). rewrite Z.mod_small; lia.
  - by intros h a r b [= <-].
  - intros h a r. rewrite Z.add_mod_idemp_r by lia.
    rewrite <-Z.add_mod_idemp_l, Z.mul_mod_idemp_r by lia.
    rewrite Z.add_mod_idemp_l by lia.
    assert (E : forall x y, (y mod 251 = x mod 251)%Z -> ((- (x mod 251)) mod 251 = (- y) mod 251)%Z).
    { intros x y Hxy. rewrite <-(Z.sub_0_l (x mod 251)), <-(Z.sub_0_l y).
      rewrite Zminus_mod_idemp_r. rewrite (Zminus_mod 0 x), <-Hxy, <-Zminus_mod. done. }
    rewrite <-(Z.add_mod_idemp_l (h * - (a mod 251))) by lia.
    rewrite <-(Z.mul_mod_idemp_r h (- (a mod 251))) by lia.
    rewrite (E a a) by done. rewrite Z.mul_mod_idemp_r, Z.add_mod_idemp_l by lia.
    rewrite <-(Z.add_mod_idemp_r (h * - a)) by lia.
    rewrite Z.add_mod_idemp_l by lia. rewrite Z.add_mod_idemp_r by lia.
    f_equal. lia.
Qed.
