(* ===== verification/Protocol.v ===== *)
(** The four wire messages and their serialisation ([protocol.rs]). *)

From S2P Require Import Prelude Error Utils Crates Crypto Curve Proto IdentityKey.
Local Open Scope Z_scope.

Definition CIPHERTEXT_MESSAGE_CURRENT_VERSION : Z := 3.

(** The first byte of a message: [((version & 0xF) << 4) | current]. *)
Definition version_byte (message_version : Z) : Byte.byte :=
  u8_of (Z.lor (Z.shiftl (Z.land message_version 15) 4) CIPHERTEXT_MESSAGE_CURRENT_VERSION).

(** [value\[0\] >> 4] and [value\[0\] & 0x0F]. *)
Definition high_nibble (b : Byte.byte) : Z := Z.shiftr (u8_val b) 4.
Definition low_nibble (b : Byte.byte) : Z := Z.land (u8_val b) 15.

(** The version check the four [try_from] functions make, on the nibble each of
    them picks. *)
Definition check_version (v : Z) : Result unit :=
  if v <? CIPHERTEXT_MESSAGE_CURRENT_VERSION then Err (LegacyCiphertextVersion v)
  else if CIPHERTEXT_MESSAGE_CURRENT_VERSION <? v then Err (UnrecognizedCiphertextVersion v)
  else Ok tt.

Lemma check_version_ok v u : check_version v = Ok u <-> v = 3.
Proof.
  unfold check_version, CIPHERTEXT_MESSAGE_CURRENT_VERSION. destruct u.
  destruct (Z.ltb_spec v 3), (Z.ltb_spec 3 v); split; try done; lia.
Qed.

Lemma check_version_no_panic v : check_version v <> Panic.
Proof. unfold check_version. no_panic. Qed.

Lemma version_byte_nibbles v :
  0 <= v < 16 -> high_nibble (version_byte v) = v /\ low_nibble (version_byte v) = 3.
Proof.
  intros Hv. unfold high_nibble, low_nibble, version_byte. rewrite u8_val_of.
  assert (Hall : all_u8 (fun v => (16 <=? v) ||
      (let b := Z.lor (Z.shiftl (Z.land v 15) 4) 3 mod 256 in
       (Z.shiftr b 4 =? v) && (Z.land b 15 =? 3))) = true) by (by vm_compute).
  pose proof (all_u8_sound _ Hall v ltac:(unfold is_u8; lia)) as Hb. simpl in Hb.
  rewrite (proj2 (Z.leb_gt _ _)) in Hb by lia. simpl in Hb.
  apply andb_prop in Hb as [?%Z.eqb_eq ?%Z.eqb_eq]. by split.
Qed.

(** The version byte holds the low nibble of the version. *)
Lemma version_byte_mod v : version_byte (v mod 16) = version_byte v.
Proof.
  unfold version_byte. change 15 with (Z.ones 4). rewrite !Z.land_ones by lia.
  change (2 ^ 4) with 16. by rewrite Z.mod_mod by lia.
Qed.

#[export] Hint Resolve check_version_no_panic : crates.

(** * [SignalMessage] *)

Module SignalMessage.
Record t := mk {
  message_version : Z;
  sender_ratchet_key : PublicKey;
  counter : Z;
  previous_counter : Z;
  ciphertext : bytes;
  serialized : bytes;
}.

Definition MAC_LENGTH : nat := 8.

Definition body (m : t) : bytes := ciphertext m.

Section Operations.
Context `{Crates, ProtoCodecs}.

Definition compute_mac (sender_identity_key receiver_identity_key : IdentityKey)
    (mac_key message : bytes) : Result bytes :=
  if negb (length mac_key =? 32)%nat then Err (InvalidMacKeyLength (length mac_key))
  else
    let mac := hmac_sha256_mac mac_key
      (PublicKey.serialize (IdentityKey.public_key sender_identity_key) ++
       PublicKey.serialize (IdentityKey.public_key receiver_identity_key) ++ message) in
    slice 0 MAC_LENGTH mac.

(** The buffer has room for the version byte, the encoded message and the
    MAC exactly, so the encoding fills its part and cannot fail. *)
Definition new (message_version : Z) (mac_key : bytes) (sender_ratchet_key : PublicKey)
    (counter previous_counter : Z) (ciphertext : bytes)
    (sender_identity_key receiver_identity_key : IdentityKey) : Result t :=
  let message := WireSignalMessage.mk (Some (PublicKey.serialize sender_ratchet_key))
    (Some counter) (Some previous_counter) (Some ciphertext) in
  let serialized := version_byte message_version :: encode message in
  let? mac := compute_mac sender_identity_key receiver_identity_key mac_key serialized in
  Ok (mk message_version sender_ratchet_key counter previous_counter ciphertext
        (serialized ++ mac)).

Definition verify_mac (m : t) (sender_identity_key receiver_identity_key : IdentityKey)
    (mac_key : bytes) : Result bool :=
  let? n := usize_sub (length (serialized m)) MAC_LENGTH in
  let? message := slice 0 n (serialized m) in
  let? our_mac := compute_mac sender_identity_key receiver_identity_key mac_key message in
  let? their_mac := slice n (length (serialized m)) (serialized m) in
  Ok (ct_eq our_mac their_mac).

(** [TryFrom<&\[u8\]>]. *)
Definition try_from (value : bytes) : Result t :=
  if (length value <? MAC_LENGTH + 1)%nat then Err (CiphertextMessageTooShort (length value))
  else
    let? b := unwrap (value !! 0%nat) in
    let? _ := check_version (low_nibble b) in
    let? n := usize_sub (length value) MAC_LENGTH in
    let? encoded := slice 1 n value in
    let? proto_structure := decode_message encoded in
    let? sender_ratchet_key :=
      ok_or (WireSignalMessage.ratchet_key proto_structure) InvalidProtobufEncoding in
    let? sender_ratchet_key := decode_point sender_ratchet_key in
    let? counter := ok_or (WireSignalMessage.counter proto_structure) InvalidProtobufEncoding in
    let previous_counter := default 0 (WireSignalMessage.previous_counter proto_structure) in
    let? ciphertext :=
      ok_or (WireSignalMessage.ciphertext proto_structure) InvalidProtobufEncoding in
    Ok (mk (high_nibble b) sender_ratchet_key counter previous_counter ciphertext value).
End Operations.

Section Proofs.
Context `{Crates, ProtoCodecs, !HashLaws, !SubtleLaws}.

Lemma compute_mac_ok s r mac_key message :
  length mac_key = 32%nat ->
  exists mac, compute_mac s r mac_key message = Ok mac /\ length mac = MAC_LENGTH.
Proof.
  intros Hk. unfold compute_mac. rewrite Hk. cbn [negb Nat.eqb].
  unfold MAC_LENGTH. rewrite slice_ok by (rewrite ?hmac_sha256_length; lia).
  eexists. split; [done|]. rewrite length_take, length_drop, hmac_sha256_length. lia.
Qed.

(** The part of the serialised form the MAC covers. *)
Definition covered v rk c pc ct : bytes :=
  version_byte v :: encode (WireSignalMessage.mk
    (Some (PublicKey.serialize rk)) (Some c) (Some pc) (Some ct)).

(** What [new] builds, when the MAC key has 32 bytes. *)
Lemma signal_message_new_ok v mac_key rk c pc ct s r :
  length mac_key = 32%nat ->
  exists mac, new v mac_key rk c pc ct s r = Ok (mk v rk c pc ct (covered v rk c pc ct ++ mac)) /\
    compute_mac s r mac_key (covered v rk c pc ct) = Ok mac /\ length mac = MAC_LENGTH.
Proof.
  intros Hk. unfold new. fold (covered v rk c pc ct).
  destruct (compute_mac_ok s r mac_key (covered v rk c pc ct) Hk) as (mac & Hmac & Hlen).
  rewrite Hmac. eauto.
Qed.

Lemma verify_mac_spec m s r mac_key covered mac :
  length mac_key = 32%nat -> length mac = MAC_LENGTH -> serialized m = covered ++ mac ->
  verify_mac m s r mac_key =
    Ok (bool_decide (take 8 (hmac_sha256_mac mac_key
          (IdentityKey.serialize s ++ IdentityKey.serialize r ++ covered)) = mac)).
Proof.
  intros Hk Hm Hs. unfold verify_mac, usize_sub. rewrite Hs, length_app, Hm.
  rewrite (proj2 (Nat.leb_le _ _)) by lia. cbn [obind].
  rewrite Nat.add_sub, slice_app_l. cbn [obind].
  unfold compute_mac. rewrite Hk. cbn [negb Nat.eqb].
  unfold MAC_LENGTH in *. rewrite slice_ok by (rewrite ?hmac_sha256_length; lia). cbn [obind].
  rewrite slice_app_r by (rewrite length_app; lia). cbn [obind].
  by rewrite drop_0, ct_eq_spec.
Qed.

(** A message verifies under the key and the identities it was made with. *)
Lemma verify_mac_new v mac_key rk c pc ct s r m :
  length mac_key = 32%nat ->
  new v mac_key rk c pc ct s r = Ok m -> verify_mac m s r mac_key = Ok true.
Proof.
  intros Hk Hn. destruct (signal_message_new_ok v mac_key rk c pc ct s r Hk) as (mac & Hn' & Hmac & Hl).
  assert (m = mk v rk c pc ct (covered v rk c pc ct ++ mac)) as -> by congruence.
  rewrite (verify_mac_spec _ _ _ _ (covered v rk c pc ct) mac) by done. f_equal. apply bool_decide_eq_true_2.
  unfold compute_mac in Hmac. rewrite Hk in Hmac. cbn [negb Nat.eqb] in Hmac.
  unfold MAC_LENGTH in *. rewrite slice_ok in Hmac by (rewrite ?hmac_sha256_length; lia).
  injection Hmac as Hmac. by rewrite drop_0 in Hmac.
Qed.

(** Authenticity of a message.  With a 32-byte key, [verify_mac] accepts
    exactly the messages whose last 8 bytes are the first 8 bytes of HMAC-SHA256
    of the two identity keys, in the order sender, receiver, and of everything
    before those 8 bytes; so a message [new] made verifies, and with the same
    bytes before the MAC any other MAC is refused.  A key of another length is
    an error that names it. *)
Lemma verify_mac_correct m s r mac_key covered mac :
  length mac = MAC_LENGTH -> serialized m = covered ++ mac ->
  verify_mac m s r mac_key =
    if (length mac_key =? 32)%nat then
      Ok (bool_decide (mac = take 8 (hmac_sha256_mac mac_key
            (IdentityKey.serialize s ++ IdentityKey.serialize r ++ covered))))
    else Err (InvalidMacKeyLength (length mac_key)).
Proof.
  intros Hm Hs. destruct (Nat.eqb_spec (length mac_key) 32) as [Hk|Hk].
  - rewrite (verify_mac_spec m s r mac_key covered mac) by done. f_equal.
    by apply bool_decide_ext.
  - unfold verify_mac, usize_sub. rewrite Hs, length_app, Hm.
    rewrite (proj2 (Nat.leb_le _ _)) by lia. cbn [obind].
    rewrite Nat.add_sub, slice_app_l. cbn [obind].
    unfold compute_mac. by rewrite (proj2 (Nat.eqb_neq _ _) Hk).
Qed.

Lemma signal_message_new_parses `{!ProtoLaws} v mac_key rk c pc ct s r :
  0 <= v < 16 -> length mac_key = 32%nat -> PublicKey.wf rk -> is_u32 c -> is_u32 pc ->
  exists m, new v mac_key rk c pc ct s r = Ok m /\
    try_from (serialized m) = Ok m /\ verify_mac m s r mac_key = Ok true.
Proof.
  intros Hv Hk Hrk Hc Hpc.
  destruct (signal_message_new_ok v mac_key rk c pc ct s r Hk) as (mac & Hn & _ & Hl).
  eexists. split; [done|]. split; [|by eapply verify_mac_new].
  unfold try_from, covered. set (enc := encode _). cbn [serialized]. unfold MAC_LENGTH in *.
  rewrite length_app, Hl. cbn [length].
  rewrite (proj2 (Nat.ltb_ge _ _)) by lia.
  cbn [app]. cbn [lookup list_lookup unwrap obind].
  destruct (version_byte_nibbles v Hv) as [-> ->].
  unfold check_version. cbn [obind Z.ltb Z.compare CIPHERTEXT_MESSAGE_CURRENT_VERSION Pos.compare Pos.compare_cont].
  unfold usize_sub. rewrite (proj2 (Nat.leb_le _ _)) by lia. cbn [obind].
  rewrite slice_ok by (cbn [length]; rewrite ?length_app; lia). cbn [obind skipn].
  rewrite drop_0, take_app_length' by lia.
  unfold enc. rewrite decode_message_encode by done.
  cbn [obind WireSignalMessage.ratchet_key ok_or]. unfold decode_point.
  by rewrite PublicKey.public_key_deserialize_serialize'.
Qed.

Lemma signal_message_parse_safe value :
  try_from value <> Panic /\
  forall m, try_from value = Ok m ->
    serialized m = value /\ (9 <= length value)%nat /\ PublicKey.wf (sender_ratchet_key m) /\
    option_map low_nibble (value !! 0%nat) = Some 3 /\
    option_map high_nibble (value !! 0%nat) = Some (message_version m) /\
    (forall s r mac_key, verify_mac m s r mac_key <> Panic).
Proof.
  unfold try_from, MAC_LENGTH. destruct (Nat.ltb_spec (length value) (8 + 1)); [done|].
  destruct value as [|b value]; [simpl in *; lia|]. simpl in *.
  unfold usize_sub. rewrite (proj2 (Nat.leb_le 8 _)) by lia. cbn [obind].
  rewrite slice_ok by (simpl; lia). cbn [obind].
  split.
  - no_panic; auto with crates.
  - intros m Hm. inv_ok. unfold decode_point in *.
    split_and!; try done; try lia.
    + by eapply PublicKey.public_key_deserialize_wf.
    + match goal with H : check_version _ = _ |- _ => apply check_version_ok in H; by rewrite H end.
    + intros s r k. unfold verify_mac, usize_sub. cbn [serialized length].
      rewrite (proj2 (Nat.leb_le MAC_LENGTH _)) by (unfold MAC_LENGTH; lia). cbn [obind].
      rewrite slice_ok by (simpl; lia). cbn [obind]. rewrite slice_ok by (simpl; lia).
      cbn [obind]. unfold compute_mac, MAC_LENGTH. no_panic.
      by rewrite slice_ok by (rewrite ?hmac_sha256_length; lia).
Qed.

(** For any version: what the bytes say of it is its low nibble. *)
Lemma signal_message_new_any `{!ProtoLaws} v mac_key rk c pc ct s r :
  length mac_key = 32%nat -> PublicKey.wf rk -> is_u32 c -> is_u32 pc ->
  exists b, let m := mk v rk c pc ct b in
    new v mac_key rk c pc ct s r = Ok m /\ verify_mac m s r mac_key = Ok true /\
    try_from b = Ok (mk (v mod 16) rk c pc ct b).
Proof.
  intros Hk Hrk Hc Hpc.
  destruct (signal_message_new_parses (v mod 16) mac_key rk c pc ct s r) as (m & Hn & Hp & _);
    [by apply Z.mod_pos_bound|done..|].
  destruct (signal_message_new_ok v mac_key rk c pc ct s r Hk) as (mac & Hv & Hmac & _).
  destruct (signal_message_new_ok (v mod 16) mac_key rk c pc ct s r Hk) as (mac' & Hv' & Hmac' & _).
  assert (Hcov : covered (v mod 16) rk c pc ct = covered v rk c pc ct)
    by (unfold covered; by rewrite version_byte_mod).
  rewrite Hcov in Hv', Hmac'. rewrite Hmac in Hmac'. injection Hmac' as <-.
  rewrite Hv' in Hn. injection Hn as <-.
  exists (covered v rk c pc ct ++ mac). split; [exact Hv|]. split; [by eapply verify_mac_new|exact Hp].
Qed.

(** C33: Signal messages.  A message made by [new] parses back, every field included but
    that a version above 15 comes back as its low nibble, which is all that the version
    byte holds, and its MAC verifies; [new] succeeds whenever the MAC key has 32
    bytes.  [verify_mac] accepts exactly the messages whose last 8 bytes are the
    first 8 bytes of HMAC-SHA256 of the two identity keys, in the order sender,
    receiver, and of everything before those 8 bytes, so with the same bytes before
    the MAC any other MAC is refused; a MAC key of another length is an error that
    names it.  Parsing never panics, whatever the input bytes; a parsed message keeps
    the input as its serialised form, has at least 9 bytes, carries the current
    version in its low nibble, and its MAC can be checked without a panic. *)
Theorem signal_messages_authentic `{!ProtoLaws} v mac_key rk c pc ct s r value :
  length mac_key = 32%nat -> PublicKey.wf rk -> is_u32 c -> is_u32 pc ->
  (exists b, let m := mk v rk c pc ct b in
    new v mac_key rk c pc ct s r = Ok m /\ verify_mac m s r mac_key = Ok true /\
    try_from (serialized m) = Ok (mk (v mod 16) rk c pc ct b) /\
    (0 <= v < 16 -> try_from (serialized m) = Ok m)) /\
  (forall m s r k covered mac, length mac = MAC_LENGTH -> serialized m = covered ++ mac ->
    verify_mac m s r k =
      if (length k =? 32)%nat then
        Ok (bool_decide (mac = take 8 (hmac_sha256_mac k
              (IdentityKey.serialize s ++ IdentityKey.serialize r ++ covered))))
      else Err (InvalidMacKeyLength (length k))) /\
  try_from value <> Panic /\
  forall m, try_from value = Ok m ->
    serialized m = value /\ (9 <= length value)%nat /\ PublicKey.wf (sender_ratchet_key m) /\
    option_map low_nibble (value !! 0%nat) = Some 3 /\
    option_map high_nibble (value !! 0%nat) = Some (message_version m) /\
    (forall s r mac_key, verify_mac m s r mac_key <> Panic).
Proof.
  intros Hk Hrk Hc Hpc. split; [|split; [intros; by apply verify_mac_correct|apply signal_message_parse_safe]].
  destruct (signal_message_new_any v mac_key rk c pc ct s r Hk Hrk Hc Hpc) as (b & Hn & Hver & Hp).
  exists b. split_and!; [done..|]. intros Hv. by rewrite Z.mod_small in Hp by done.
Qed.
End Proofs.
End SignalMessage.
Abbreviation SignalMessage := SignalMessage.t.

(** * [PreKeySignalMessage] *)

Module PreKeySignalMessage.
Record t := mk {
  message_version : Z;
  registration_id : Z;
  pre_key_id : option Z;
  signed_pre_key_id : Z;
  base_key : PublicKey;
  identity_key : IdentityKey;
  message : SignalMessage;
  serialized : bytes;
}.

Section Operations.
Context `{Crates, ProtoCodecs}.

Definition new (message_version registration_id : Z) (pre_key_id : option Z)
    (signed_pre_key_id : Z) (base_key : PublicKey) (identity_key : IdentityKey)
    (message : SignalMessage) : Result t :=
  let proto_message := WirePreKeySignalMessage.mk (Some registration_id) pre_key_id
    (Some signed_pre_key_id) (Some (PublicKey.serialize base_key))
    (Some (IdentityKey.serialize identity_key)) (Some (SignalMessage.serialized message)) in
  Ok (mk message_version registration_id pre_key_id signed_pre_key_id base_key identity_key
        message (version_byte message_version :: encode proto_message)).

Definition try_from (value : bytes) : Result t :=
  if (length value =? 0)%nat then Err (CiphertextMessageTooShort (length value))
  else
    let? b := unwrap (value !! 0%nat) in
    let? _ := check_version (low_nibble b) in
    let? encoded := slice 1 (length value) value in
    let? p := decode_message encoded in
    if bool_decide (WirePreKeySignalMessage.signed_pre_key_id p = None)
       || bool_decide (WirePreKeySignalMessage.base_key p = None)
       || bool_decide (WirePreKeySignalMessage.identity_key p = None)
       || bool_decide (WirePreKeySignalMessage.message p = None)
    then Err InvalidProtobufEncoding
    else
      let? base_key := unwrap (WirePreKeySignalMessage.base_key p) in
      let? base_key := decode_point base_key in
      let? signed_pre_key_id := unwrap (WirePreKeySignalMessage.signed_pre_key_id p) in
      let? identity_key := unwrap (WirePreKeySignalMessage.identity_key p) in
      let? identity_key := IdentityKey.try_from identity_key in
      let? message := unwrap (WirePreKeySignalMessage.message p) in
      let? message := SignalMessage.try_from message in
      Ok (mk (high_nibble b) (default 0 (WirePreKeySignalMessage.registration_id p))
            (WirePreKeySignalMessage.pre_key_id p) signed_pre_key_id base_key identity_key
            message value).
End Operations.

Section Proofs.
Context `{Crates, ProtoCodecs, !HashLaws, !SubtleLaws}.

Lemma pre_key_message_new_try_from `{!ProtoLaws} v reg pk spk base idk inner :
  0 <= v < 16 -> is_u32 reg -> opt_u32 pk -> is_u32 spk ->
  PublicKey.wf base -> IdentityKey.wf idk ->
  SignalMessage.try_from (SignalMessage.serialized inner) = Ok inner ->
  exists m, new v reg pk spk base idk inner = Ok m /\ try_from (serialized m) = Ok m /\
    message m = inner.
Proof.
  intros Hv Hreg Hpk Hspk Hbase Hidk Hinner. eexists. split; [done|]. split; [|done].
  unfold try_from. cbn [serialized]. set (enc := encode _).
  cbn [length Nat.eqb lookup list_lookup unwrap obind].
  destruct (version_byte_nibbles v Hv) as [-> ->].
  unfold check_version. cbn [obind Z.ltb Z.compare CIPHERTEXT_MESSAGE_CURRENT_VERSION Pos.compare Pos.compare_cont].
  rewrite slice_ok by (simpl; lia). cbn [obind skipn].
  rewrite drop_0, take_ge by lia. unfold enc. rewrite decode_message_encode by done.
  cbn [obind]. rewrite !bool_decide_eq_false_2 by done. cbn [orb].
  cbn [WirePreKeySignalMessage.base_key WirePreKeySignalMessage.identity_key
    WirePreKeySignalMessage.message WirePreKeySignalMessage.signed_pre_key_id unwrap obind].
  unfold decode_point. rewrite PublicKey.public_key_deserialize_serialize' by done. cbn [obind].
  unfold IdentityKey.try_from. rewrite IdentityKey.decode_serialize by done. cbn [obind].
  by rewrite Hinner.
Qed.

Lemma pre_key_message_parse_safe value :
  try_from value <> Panic /\
  forall m, try_from value = Ok m ->
    serialized m = value /\ PublicKey.wf (base_key m) /\ IdentityKey.wf (identity_key m) /\
    exists inner, SignalMessage.try_from inner = Ok (message m).
Proof.
  unfold try_from. destruct value as [|b value]; [done|].
  cbn [length Nat.eqb lookup list_lookup unwrap obind].
  rewrite slice_ok by (simpl; lia). cbn [obind].
  split.
  - no_panic; auto with crates;
      try (by apply SignalMessage.signal_message_parse_safe);
      match goal with H : _ || _ = false |- _ => rewrite !orb_false_iff in H;
        destruct H as [[[?%bool_decide_eq_false ?%bool_decide_eq_false]
                         ?%bool_decide_eq_false] ?%bool_decide_eq_false] end;
      by apply unwrap_no_panic.
  - intros m Hm. inv_ok. split_and!; try done; [by eapply PublicKey.public_key_deserialize_wf| |by eexists].
    by eapply IdentityKey.decode_wf.
Qed.

(** Pre-key messages on the wire; what the bytes say of the version is its low nibble. *)
Lemma pre_key_signal_message_roundtrip `{!ProtoLaws} v reg pk spk base idk inner value :
  is_u32 reg -> opt_u32 pk -> is_u32 spk -> PublicKey.wf base -> IdentityKey.wf idk ->
  SignalMessage.try_from (SignalMessage.serialized inner) = Ok inner ->
  (exists b, let m := mk v reg pk spk base idk inner b in
     new v reg pk spk base idk inner = Ok m /\
     try_from (serialized m) = Ok (mk (v mod 16) reg pk spk base idk inner b) /\
     (0 <= v < 16 -> try_from (serialized m) = Ok m)) /\
  try_from value <> Panic /\
  (forall m, try_from value = Ok m ->
     serialized m = value /\ PublicKey.wf (base_key m) /\ IdentityKey.wf (identity_key m) /\
     exists inner, SignalMessage.try_from inner = Ok (message m)).
Proof.
  intros Hreg Hpk Hspk Hbase Hidk Hinner. split; [|apply pre_key_message_parse_safe].
  destruct (pre_key_message_new_try_from (v mod 16) reg pk spk base idk inner) as (m & Hn & Hp & _);
    [by apply Z.mod_pos_bound|done..|].
  unfold new in Hn. rewrite version_byte_mod in Hn. injection Hn as <-.
  eexists. split; [done|]. split; [exact Hp|]. intros Hv. by rewrite Z.mod_small in Hp by done.
Qed.
End Proofs.
End PreKeySignalMessage.
Abbreviation PreKeySignalMessage := PreKeySignalMessage.t.

(** * [SenderKeyMessage] *)

Module SenderKeyMessage.
Record t := mk {
  message_version : Z;
  key_id : Z;
  iteration : Z;
  ciphertext : bytes;
  serialized : bytes;
}.

Definition SIGNATURE_LEN : nat := 64.

Section Operations.
Context `{Crates, ProtoCodecs}.

(** [copy_from_slice] panics on a signature of another length. *)
Definition new (key_id iteration : Z) (ciphertext : bytes) (csprng : Csprng)
    (signature_key : PrivateKey) : Result t * Csprng :=
  let proto_message := WireSenderKeyMessage.mk (Some key_id) (Some iteration) (Some ciphertext) in
  let serialized :=
    version_byte CIPHERTEXT_MESSAGE_CURRENT_VERSION :: encode proto_message in
  let '(signature, csprng) := calculate_signature csprng signature_key serialized in
  (let? signature := signature in
   let? _ := rust_assert (length signature =? SIGNATURE_LEN)%nat in
   Ok (mk CIPHERTEXT_MESSAGE_CURRENT_VERSION key_id iteration ciphertext
         (serialized ++ signature)), csprng).

Definition verify_signature (m : t) (signature_key : PublicKey) : Result bool :=
  let? n := usize_sub (length (serialized m)) SIGNATURE_LEN in
  let? message := slice 0 n (serialized m) in
  let? signature := slice n (length (serialized m)) (serialized m) in
  Curve.verify_signature signature_key message signature.

Definition try_from (value : bytes) : Result t :=
  if (length value <? 1 + SIGNATURE_LEN)%nat then Err (CiphertextMessageTooShort (length value))
  else
    let? b := unwrap (value !! 0%nat) in
    let? _ := check_version (low_nibble b) in
    let? n := usize_sub (length value) SIGNATURE_LEN in
    let? encoded := slice 1 n value in
    let? proto_structure := decode_message encoded in
    let? key_id := ok_or (WireSenderKeyMessage.id proto_structure) InvalidProtobufEncoding in
    let? iteration :=
      ok_or (WireSenderKeyMessage.iteration proto_structure) InvalidProtobufEncoding in
    let? ciphertext :=
      ok_or (WireSenderKeyMessage.ciphertext proto_structure) InvalidProtobufEncoding in
    Ok (mk (high_nibble b) key_id iteration ciphertext value).
End Operations.

Section Proofs.
Context `{Crates, ProtoCodecs}.

Lemma verify_signature_app m covered sig pk :
  length sig = SIGNATURE_LEN -> serialized m = covered ++ sig ->
  verify_signature m pk = Curve.verify_signature pk covered sig.
Proof.
  intros Hl Hs. unfold verify_signature, usize_sub. rewrite Hs, length_app, Hl.
  rewrite (proj2 (Nat.leb_le _ _)) by lia. cbn [obind].
  rewrite Nat.add_sub, slice_app_l. cbn [obind].
  by rewrite slice_app_r by (rewrite length_app; lia).
Qed.

Lemma sender_key_message_new_try_from `{!SubtleLaws, !X25519Laws, !EdwardsLaws, !ProtoLaws} id it ct csprng kp :
  is_u32 id -> is_u32 it -> KeyPair.matching kp ->
  exists m csprng', new id it ct csprng (KeyPair.private_key kp) = (Ok m, csprng') /\
    try_from (serialized m) = Ok m /\
    verify_signature m (KeyPair.public_key kp) = Ok true /\
    key_id m = id /\ iteration m = it /\ ciphertext m = ct.
Proof.
  intros Hid Hit Hkp. unfold new. set (enc := encode _).
  destruct (KeyPair.sign_verify kp csprng
    (version_byte CIPHERTEXT_MESSAGE_CURRENT_VERSION :: enc) Hkp)
    as (sig & csprng' & Hsig & Hlen & Hver).
  rewrite Hsig. cbn [obind]. rewrite Hlen. cbn [Nat.eqb SIGNATURE_LEN rust_assert obind].
  do 2 eexists. split; [done|]. cbn [key_id iteration ciphertext].
  split; [|split; [by erewrite verify_signature_app|done]].
  unfold try_from, SIGNATURE_LEN. cbn [serialized].
  rewrite length_app, Hlen. cbn [length].
  rewrite (proj2 (Nat.ltb_ge _ _)) by lia.
  cbn [app]. cbn [lookup list_lookup unwrap obind].
  destruct (version_byte_nibbles CIPHERTEXT_MESSAGE_CURRENT_VERSION ltac:(done)) as [-> ->].
  cbn [check_version obind Z.ltb Z.compare CIPHERTEXT_MESSAGE_CURRENT_VERSION Pos.compare Pos.compare_cont].
  unfold usize_sub. rewrite (proj2 (Nat.leb_le _ _)) by lia. cbn [obind].
  rewrite slice_ok by (cbn [length]; rewrite ?length_app; lia). cbn [obind skipn].
  rewrite drop_0, take_app_length' by lia.
  unfold enc. by rewrite decode_message_encode by done.
Qed.

(** Parsing and checking a signature never panic. *)
Lemma sender_key_message_try_from_no_panic value : try_from value <> Panic.
Proof.
  unfold try_from, SIGNATURE_LEN. destruct (Nat.ltb_spec (length value) (1 + 64)); [done|].
  destruct value as [|b value]; [simpl in *; lia|]. simpl in *.
  unfold usize_sub. rewrite (proj2 (Nat.leb_le 64 _)) by lia. cbn [obind].
  rewrite slice_ok by (simpl; lia). cbn [obind]. no_panic; auto with crates.
Qed.

Lemma try_from_serialized value m :
  try_from value = Ok m -> serialized m = value /\ (65 <= length value)%nat.
Proof.
  unfold try_from, SIGNATURE_LEN. destruct (Nat.ltb_spec (length value) (1 + 64)); [done|].
  intros Hm. inv_ok. done.
Qed.

Lemma sender_key_message_verify_signature_no_panic value m pk :
  try_from value = Ok m -> verify_signature m pk <> Panic.
Proof.
  intros [Hs Hl]%try_from_serialized.
  erewrite (verify_signature_app m (take (length value - 64) value) (drop (length value - 64) value)).
  - apply PublicKey.public_key_verify_signature_no_panic.
  - rewrite length_drop. unfold SIGNATURE_LEN. lia.
  - by rewrite take_drop.
Qed.

(** Sender-key messages on the wire.  A message signed with a matching key
    pair parses back to itself, every field included, and its signature
    verifies under the public key; parsing never panics, whatever the bytes, and
    a parsed message keeps its input, is long enough for the signature to be cut
    off, and can be checked against any key without a panic. *)
Lemma sender_key_message_roundtrip `{!SubtleLaws, !X25519Laws, !EdwardsLaws, !ProtoLaws}
    id it ct csprng kp value :
  is_u32 id -> is_u32 it -> KeyPair.matching kp ->
  (exists m csprng', new id it ct csprng (KeyPair.private_key kp) = (Ok m, csprng') /\
     try_from (serialized m) = Ok m /\
     verify_signature m (KeyPair.public_key kp) = Ok true /\
     key_id m = id /\ iteration m = it /\ ciphertext m = ct) /\
  try_from value <> Panic /\
  (forall m, try_from value = Ok m ->
     serialized m = value /\ (65 <= length value)%nat /\
     forall pk, verify_signature m pk <> Panic).
Proof.
  intros Hid Hit Hkp. split_and!.
  - by apply sender_key_message_new_try_from.
  - apply sender_key_message_try_from_no_panic.
  - intros m Hm. destruct (try_from_serialized value m Hm). split_and!; try done.
    intros pk. by apply (sender_key_message_verify_signature_no_panic value).
Qed.
End Proofs.
End SenderKeyMessage.
Abbreviation SenderKeyMessage := SenderKeyMessage.t.

(** * [SenderKeyDistributionMessage] *)

Module SenderKeyDistributionMessage.
Record t := mk {
  message_version : Z;
  id : Z;
  iteration : Z;
  chain_key : bytes;
  signing_key : PublicKey;
  serialized : bytes;
}.

Section Operations.
Context `{ProtoCodecs}.

Definition new (id iteration : Z) (chain_key : bytes) (signing_key : PublicKey) : Result t :=
  let proto_message := WireSenderKeyDistributionMessage.mk (Some id) (Some iteration)
    (Some chain_key) (Some (PublicKey.serialize signing_key)) in
  let message_version := CIPHERTEXT_MESSAGE_CURRENT_VERSION in
  Ok (mk message_version id iteration chain_key signing_key
        (version_byte message_version :: encode proto_message)).

(** Here the version that is checked is the high nibble. *)
Definition try_from (value : bytes) : Result t :=
  if (length value <? 1 + 32 + 32)%nat then Err (CiphertextMessageTooShort (length value))
  else
    let? b := unwrap (value !! 0%nat) in
    let message_version := high_nibble b in
    let? _ := check_version message_version in
    let? encoded := slice 1 (length value) value in
    let? p := decode_message encoded in
    let? id := ok_or (WireSenderKeyDistributionMessage.id p) InvalidProtobufEncoding in
    let? iteration :=
      ok_or (WireSenderKeyDistributionMessage.iteration p) InvalidProtobufEncoding in
    let? chain_key :=
      ok_or (WireSenderKeyDistributionMessage.chain_key p) InvalidProtobufEncoding in
    let? signing_key :=
      ok_or (WireSenderKeyDistributionMessage.signing_key p) InvalidProtobufEncoding in
    if negb (length chain_key =? 32)%nat || negb (length signing_key =? 33)%nat
    then Err InvalidProtobufEncoding
    else
      let? signing_key := PublicKey.deserialize signing_key in
      Ok (mk message_version id iteration chain_key signing_key value).
End Operations.

Section Proofs.
Context `{ProtoCodecs}.

Lemma distribution_new_try_from `{!ProtoLaws} i it ck pk :
  is_u32 i -> is_u32 it -> length ck = 32%nat -> PublicKey.wf pk ->
  exists m, new i it ck pk = Ok m /\ try_from (serialized m) = Ok m.
Proof.
  intros Hi Hit Hck Hpk. eexists. split; [done|]. unfold try_from. cbn [serialized].
  pose proof (distribution_encode_length (Some i) (Some it) ck (PublicKey.serialize pk)) as Hlen.
  rewrite Hck, PublicKey.serialize_length in Hlen by done. set (enc := encode _) in *.
  rewrite (proj2 (Nat.ltb_ge _ _)) by (cbn [length]; lia).
  cbn [lookup list_lookup unwrap obind].
  destruct (version_byte_nibbles CIPHERTEXT_MESSAGE_CURRENT_VERSION ltac:(done)) as [-> _].
  cbn [check_version obind Z.ltb Z.compare CIPHERTEXT_MESSAGE_CURRENT_VERSION Pos.compare Pos.compare_cont].
  rewrite slice_ok by (simpl; lia). cbn [obind skipn length].
  rewrite drop_0, take_ge by lia. unfold enc. rewrite decode_message_encode by done.
  cbn [obind ok_or WireSenderKeyDistributionMessage.id WireSenderKeyDistributionMessage.iteration
    WireSenderKeyDistributionMessage.chain_key WireSenderKeyDistributionMessage.signing_key].
  rewrite Hck, PublicKey.serialize_length by done. cbn [Nat.eqb negb orb].
  by rewrite PublicKey.public_key_deserialize_serialize'.
Qed.

Lemma distribution_parse_safe value :
  try_from value <> Panic /\
  forall m, try_from value = Ok m ->
    serialized m = value /\ length (chain_key m) = 32%nat /\ PublicKey.wf (signing_key m) /\
    message_version m = 3.
Proof.
  unfold try_from. destruct (Nat.ltb_spec (length value) (1 + 32 + 32)); [done|].
  destruct value as [|b value]; [simpl in *; lia|].
  cbn [lookup list_lookup unwrap obind]. rewrite slice_ok by (simpl; lia). cbn [obind].
  split.
  - no_panic; auto with crates.
  - intros m Hm. inv_ok.
    match goal with H : _ || _ = false |- _ =>
      apply orb_false_iff in H as [?%negb_false_iff%Nat.eqb_eq ?] end.
    split_and!; try done; [by eapply PublicKey.public_key_deserialize_wf|by eapply check_version_ok].
Qed.

(** Distribution messages on the wire.  A message with a 32-byte chain key
    and a well-formed signing key parses back to itself.  Parsing never panics,
    and what parses has a 32-byte chain key and a well-formed signing key; its
    high nibble is the current version, whatever the low nibble says. *)
Lemma sender_key_distribution_message_roundtrip `{!ProtoLaws} i it ck pk value :
  is_u32 i -> is_u32 it -> length ck = 32%nat -> PublicKey.wf pk ->
  (exists m, new i it ck pk = Ok m /\ try_from (serialized m) = Ok m) /\
  try_from value <> Panic /\
  (forall m, try_from value = Ok m ->
     serialized m = value /\ length (chain_key m) = 32%nat /\ PublicKey.wf (signing_key m) /\
     message_version m = 3).
Proof. intros. split; [by apply distribution_new_try_from|apply distribution_parse_safe]. Qed.
End Proofs.
End SenderKeyDistributionMessage.
Abbreviation SenderKeyDistributionMessage := SenderKeyDistributionMessage.t.

(** * [CiphertextMessage] *)

Module CiphertextMessage.
Inductive t :=
  | SignalMessage (m : SignalMessage.t)
  | PreKeySignalMessage (m : PreKeySignalMessage.t)
  | SenderKeyMessage (m : SenderKeyMessage.t)
  | SenderKeyDistributionMessage (m : SenderKeyDistributionMessage.t).

Inductive message_type_t := Whisper | PreKey | SenderKey | SenderKeyDistribution.

Definition type_value (ty : message_type_t) : Z :=
  match ty with Whisper => 2 | PreKey => 3 | SenderKey => 4 | SenderKeyDistribution => 5 end.

Definition message_type (c : t) : message_type_t :=
  match c with
  | SignalMessage _ => Whisper
  | PreKeySignalMessage _ => PreKey
  | SenderKeyMessage _ => SenderKey
  | SenderKeyDistributionMessage _ => SenderKeyDistribution
  end.

Definition serialize (c : t) : bytes :=
  match c with
  | SignalMessage x => Protocol.SignalMessage.serialized x
  | PreKeySignalMessage x => Protocol.PreKeySignalMessage.serialized x
  | SenderKeyMessage x => Protocol.SenderKeyMessage.serialized x
  | SenderKeyDistributionMessage x => Protocol.SenderKeyDistributionMessage.serialized x
  end.
End CiphertextMessage.
Abbreviation CiphertextMessage := CiphertextMessage.t.

#[export] Hint Resolve SenderKeyMessage.sender_key_message_try_from_no_panic SenderKeyMessage.sender_key_message_verify_signature_no_panic
  : crates.

(** * The messages on the wire *)

Section Wire.
Context `{Crates, ProtoCodecs, !HashLaws, !SubtleLaws, !X25519Laws, !EdwardsLaws, !ProtoLaws}.

(** C34: the messages that travel, but for the plain signal message.  A pre-key
    message made around an inner message that parses, with or without a one-time
    pre-key id, a signed sender key message and a distribution message with a
    32-byte chain key are parsed back from their bytes, with the inner message,
    the signature and the fields that went in, but that a version of a pre-key message
    above 15 comes back as its low nibble.  Parsing any of them never panics,
    whatever the bytes (the [unwrap]s and indices sit behind the length and presence
    checks); a parsed message keeps its input and has well-formed keys; and the
    high nibble of a distribution message that parses is the current version,
    whatever the low nibble says. *)
Theorem wire_messages_roundtrip v reg pk spk base idk inner id it ct csprng kp ck sign value :
  is_u32 reg -> opt_u32 pk -> is_u32 spk -> PublicKey.wf base -> IdentityKey.wf idk ->
  SignalMessage.try_from (SignalMessage.serialized inner) = Ok inner ->
  is_u32 id -> is_u32 it -> KeyPair.matching kp -> length ck = 32%nat -> PublicKey.wf sign ->
  ((exists b, let m := PreKeySignalMessage.mk v reg pk spk base idk inner b in
      PreKeySignalMessage.new v reg pk spk base idk inner = Ok m /\
      PreKeySignalMessage.try_from (PreKeySignalMessage.serialized m)
        = Ok (PreKeySignalMessage.mk (v mod 16) reg pk spk base idk inner b) /\
      (0 <= v < 16 ->
       PreKeySignalMessage.try_from (PreKeySignalMessage.serialized m) = Ok m)) /\
   PreKeySignalMessage.try_from value <> Panic /\
   (forall m, PreKeySignalMessage.try_from value = Ok m ->
      PreKeySignalMessage.serialized m = value /\ PublicKey.wf (PreKeySignalMessage.base_key m) /\
      IdentityKey.wf (PreKeySignalMessage.identity_key m) /\
      exists i, SignalMessage.try_from i = Ok (PreKeySignalMessage.message m))) /\
  ((exists m csprng',
      SenderKeyMessage.new id it ct csprng (KeyPair.private_key kp) = (Ok m, csprng') /\
      SenderKeyMessage.try_from (SenderKeyMessage.serialized m) = Ok m /\
      SenderKeyMessage.verify_signature m (KeyPair.public_key kp) = Ok true /\
      SenderKeyMessage.key_id m = id /\ SenderKeyMessage.iteration m = it /\
      SenderKeyMessage.ciphertext m = ct) /\
   SenderKeyMessage.try_from value <> Panic /\
   (forall m, SenderKeyMessage.try_from value = Ok m ->
      SenderKeyMessage.serialized m = value /\ (65 <= length value)%nat /\
      forall k, SenderKeyMessage.verify_signature m k <> Panic)) /\
  ((exists m, SenderKeyDistributionMessage.new id it ck sign = Ok m /\
      SenderKeyDistributionMessage.try_from (SenderKeyDistributionMessage.serialized m) = Ok m) /\
   SenderKeyDistributionMessage.try_from value <> Panic /\
   (forall m, SenderKeyDistributionMessage.try_from value = Ok m ->
      SenderKeyDistributionMessage.serialized m = value /\
      length (SenderKeyDistributionMessage.chain_key m) = 32%nat /\
      PublicKey.wf (SenderKeyDistributionMessage.signing_key m) /\
      SenderKeyDistributionMessage.message_version m = 3)).
Proof.
  intros. split; [|split].
  - by apply PreKeySignalMessage.pre_key_signal_message_roundtrip.
  - by apply SenderKeyMessage.sender_key_message_roundtrip.
  - by apply SenderKeyDistributionMessage.sender_key_distribution_message_roundtrip.
Qed.
End Wire.
