(* ===== verification/RatchetKeys.v ===== *)
(** The keys of the double ratchet ([ratchet/keys.rs]) and the parameters of a
    session's two ends ([ratchet/params.rs]). *)

From S2P Require Import Prelude Error Crates Crypto Curve IdentityKey.

(** [*array_ref!\[l, i, n\]]: the [n] bytes from [i] on, a panic when they are
    not there. *)
Definition array_ref {E} (l : bytes) (i n : nat) : outcome E bytes := slice i (i + n) l.

Definition string_bytes (s : string) : bytes := String.list_byte_of_string s.

Lemma array_ref_ok {E} l i n :
  i + n <= length l -> array_ref (E:=E) l i n = Ok (take n (drop i l)).
Proof. intros. unfold array_ref. rewrite slice_ok by lia. by rewrite Nat.add_sub'. Qed.

Lemma array_ref_whole {E} l n : length l = n -> array_ref (E:=E) l 0 n = Ok l.
Proof. intros <-. rewrite array_ref_ok by lia. by rewrite drop_0, firstn_all. Qed.

(** The key derivation functions [HKDF::new] makes. *)
Definition kdf_valid (k : HKDF) : Prop := exists v, HKDF.new v = Ok k.

(** * [MessageKeys] *)

Module MessageKeys.
Record t := mk { cipher_key : bytes; mac_key : bytes; iv : bytes; counter : Z }.

#[global] Instance eq_dec : EqDecision t.
Proof. solve_decision. Defined.

Definition wf (k : t) : Prop :=
  length (cipher_key k) = 32 /\ length (mac_key k) = 32 /\ length (iv k) = 16.

Definition derive_keys `{BuildConfig, Crates} (input_key_material : bytes) (kdf : HKDF)
    (counter : Z) : Result t :=
  let? okm := HKDF.derive_secrets kdf input_key_material (string_bytes "WhisperMessageKeys") 80 in
  let? cipher_key := array_ref okm 0 32 in
  let? mac_key := array_ref okm 32 32 in
  let? iv := array_ref okm 64 16 in
  Ok (mk cipher_key mac_key iv counter).

Definition new (cipher_key mac_key iv : bytes) (counter : Z) : Result t :=
  if negb (length mac_key =? 32) then Err (InvalidMacKeyLength (length mac_key))
  else if negb (length cipher_key =? 32) || negb (length iv =? 16)
  then Err (InvalidCipherCryptographicParameters (length cipher_key) (length iv))
  else
    let? cipher_key := array_ref cipher_key 0 32 in
    let? mac_key := array_ref mac_key 0 32 in
    let? iv := array_ref iv 0 16 in
    Ok (mk cipher_key mac_key iv counter).

(** [new] accepts exactly the fields of well-formed keys. *)
Lemma new_spec ck mk' i c :
  new ck mk' i c =
    if negb (length mk' =? 32) then Err (InvalidMacKeyLength (length mk'))
    else if negb (length ck =? 32) || negb (length i =? 16)
    then Err (InvalidCipherCryptographicParameters (length ck) (length i))
    else Ok (mk ck mk' i c).
Proof.
  unfold new. destruct (Nat.eqb_spec (length mk') 32); [|done].
  destruct (Nat.eqb_spec (length ck) 32); [|done].
  destruct (Nat.eqb_spec (length i) 16); [|done]. cbn [negb orb].
  rewrite !array_ref_whole by done. done.
Qed.

Lemma new_wf k c : wf k -> new (cipher_key k) (mac_key k) (iv k) c
  = Ok (mk (cipher_key k) (mac_key k) (iv k) c).
Proof. intros (H1 & H2 & H3). by rewrite new_spec, H1, H2, H3. Qed.

Lemma message_keys_new_no_panic ck mk' i c : new ck mk' i c <> Panic.
Proof. rewrite new_spec. no_panic. Qed.

Section Proofs.
Context `{BuildConfig, Crates, !HashLaws}.

Lemma message_keys_derive_keys_ok ikm kdf c :
  kdf_valid kdf -> exists k, derive_keys ikm kdf c = Ok k /\ wf k /\ counter k = c.
Proof.
  intros [v Hv]. unfold derive_keys.
  destruct (HKDF.derive_secrets_length kdf v ikm (string_bytes "WhisperMessageKeys") 80 Hv)
    as (okm & -> & Hlen); [lia|]. cbn [obind].
  rewrite !array_ref_ok by lia. cbn [obind]. eexists. split; [done|]. split; [|done].
  unfold wf. cbn [cipher_key mac_key iv]. rewrite !length_take, !length_drop. lia.
Qed.
End Proofs.
End MessageKeys.
Abbreviation MessageKeys := MessageKeys.t.

(** * [ChainKey] *)

Module ChainKey.
Record t := mk { kdf : HKDF; key : bytes; index : Z }.

Definition MESSAGE_KEY_SEED : bytes := [Byte.x01].
Definition CHAIN_KEY_SEED : bytes := [Byte.x02].

Definition wf (c : t) : Prop := length (key c) = 32 /\ is_u32 (index c) /\ kdf_valid (kdf c).

Definition new (kdf : HKDF) (key : bytes) (index : Z) : Result t :=
  if negb (length key =? 32) then Err (InvalidChainKeyLength (length key))
  else let? key := array_ref key 0 32 in Ok (mk kdf key index).

Section Operations.
Context `{BuildConfig, Crates}.

Definition calculate_base_material (c : t) (seed : bytes) : Result bytes :=
  hmac_sha256 (key c) seed.

Definition next_chain_key (c : t) : Result t :=
  let? key := calculate_base_material c CHAIN_KEY_SEED in
  let? index := u32_add (index c) 1 in
  Ok (mk (kdf c) key index).

Definition message_keys (c : t) : Result MessageKeys :=
  let? material := calculate_base_material c MESSAGE_KEY_SEED in
  MessageKeys.derive_keys material (kdf c) (index c).
End Operations.

(** ** The symmetric-key ratchet as the protocol describes it

    The chain key after [n] steps is [n] applications of [HMAC(-, 0x02)]; the
    message keys of a chain key come from [HMAC(-, 0x01)]. *)
Section Reference.
Context `{BuildConfig, Crates}.

Definition ratchet (n : nat) (key : bytes) : bytes :=
  Nat.iter n (fun k => hmac_sha256_mac k CHAIN_KEY_SEED) key.

Definition advanced (c : t) (n : nat) : t := mk (kdf c) (ratchet n (key c)) (index c + Z.of_nat n).

(** The message keys of a chain key, where they are derived without error. *)
Definition keys (c : t) : MessageKeys :=
  match message_keys c with Ok k => k | _ => MessageKeys.mk [] [] [] 0 end.
End Reference.

Section Proofs.
Context `{BuildConfig, Crates}.

Lemma chain_key_new_ok k key i c : new k key i = Ok c <-> length key = 32 /\ c = mk k key i.
Proof.
  unfold new. destruct (Nat.eqb_spec (length key) 32); cbn [negb].
  - rewrite array_ref_whole by done. cbn [obind]. split; [by intros [= <-]|by intros [_ ->]].
  - split; [done|by intros [? _]].
Qed.

Lemma new_key_index c : wf c -> new (kdf c) (key c) (index c) = Ok c.
Proof. intros [Hl _]. apply chain_key_new_ok. by destruct c. Qed.

Lemma chain_key_new_no_panic k key i : new k key i <> Panic.
Proof. unfold new. destruct (Nat.eqb_spec (length key) 32); cbn; [|done].
       by rewrite array_ref_whole. Qed.

Lemma ratchet_S n key : ratchet (S n) key = hmac_sha256_mac (ratchet n key) CHAIN_KEY_SEED.
Proof. done. Qed.

Lemma ratchet_add n m key : ratchet n (ratchet m key) = ratchet (n + m) key.
Proof. unfold ratchet. by rewrite Nat.iter_add. Qed.

Lemma chain_key_advanced_0 c : advanced c 0 = c.
Proof. destruct c. unfold advanced. simpl. by rewrite Z.add_0_r. Qed.

Lemma chain_key_advanced_add c n m : advanced (advanced c m) n = advanced c (m + n).
Proof.
  unfold advanced. cbn [kdf key index]. rewrite ratchet_add. f_equal; [f_equal|]; lia.
Qed.

(** One step, as long as the index has room. *)
Lemma next_chain_key_ok c :
  (index c < u32_max)%Z -> next_chain_key c = Ok (advanced c 1).
Proof.
  intros Hi. unfold next_chain_key, calculate_base_material, hmac_sha256. cbn [obind].
  by rewrite u32_add_small by lia.
Qed.

(** In a release build the index wraps to 0 where it has no room, in a
    debug build the step panics. *)
Lemma next_chain_key_overflow c :
  index c = u32_max ->
  next_chain_key c = if overflow_checks then Panic
                     else Ok (mk (kdf c) (ratchet 1 (key c)) 0).
Proof.
  intros Hi. unfold next_chain_key, calculate_base_material, hmac_sha256, u32_add. cbn [obind].
  rewrite Hi. destruct overflow_checks; reflexivity.
Qed.

Lemma advanced_wf `{!HashLaws} c n :
  wf c -> (index c + Z.of_nat n <= u32_max)%Z -> wf (advanced c n).
Proof.
  intros (Hl & [Hi _] & Hk) Hn. split_and!; [|split; cbn; lia|done].
  destruct n; [done|]. cbn [advanced key]. rewrite ratchet_S. apply hmac_sha256_length.
Qed.

Lemma message_keys_ok `{!HashLaws} c :
  kdf_valid (kdf c) ->
  message_keys c = Ok (keys c) /\ MessageKeys.wf (keys c) /\
  MessageKeys.counter (keys c) = index c.
Proof.
  intros Hk. unfold keys.
  destruct (MessageKeys.message_keys_derive_keys_ok (hmac_sha256_mac (key c) MESSAGE_KEY_SEED) (kdf c) (index c) Hk)
    as (k & Heq & Hwf & Hc).
  assert (message_keys c = Ok k) as -> by exact Heq. done.
Qed.
End Proofs.
End ChainKey.
Abbreviation ChainKey := ChainKey.t.

(** * [RootKey] *)

Module RootKey.
Record t := mk { kdf : HKDF; key : bytes }.

Definition wf (r : t) : Prop := length (key r) = 32 /\ kdf_valid (kdf r).

Definition new (kdf : HKDF) (key : bytes) : Result t :=
  if negb (length key =? 32) then Err (InvalidRootKeyLength (length key))
  else let? key := array_ref key 0 32 in Ok (mk kdf key).

Definition create_chain `{BuildConfig, Crates} (r : t) (their_ratchet_key : PublicKey)
    (our_ratchet_key : PrivateKey) : Result (t * ChainKey) :=
  let? shared_secret := calculate_agreement their_ratchet_key our_ratchet_key in
  let? derived_secret_bytes :=
    HKDF.derive_salted_secrets (kdf r) shared_secret (key r) (string_bytes "WhisperRatchet") 64 in
  let? root := array_ref derived_secret_bytes 0 32 in
  let? chain := array_ref derived_secret_bytes 32 32 in
  Ok (mk (kdf r) root, ChainKey.mk (kdf r) chain 0).

Lemma root_key_new_ok k key r : new k key = Ok r <-> length key = 32 /\ r = mk k key.
Proof.
  unfold new. destruct (Nat.eqb_spec (length key) 32); cbn [negb].
  - rewrite array_ref_whole by done. cbn [obind]. split; [by intros [= <-]|by intros [_ ->]].
  - split; [done|by intros [? _]].
Qed.

Lemma root_key_new_no_panic k key : new k key <> Panic.
Proof. unfold new. destruct (Nat.eqb_spec (length key) 32); cbn; [|done].
       by rewrite array_ref_whole. Qed.

Section Proofs.
Context `{BuildConfig, Crates, !HashLaws, !X25519Laws}.

(** A step of the root key never fails; the new chain starts at index 0. *)
Lemma create_chain_ok r pk sk :
  kdf_valid (kdf r) ->
  exists r' c, create_chain r pk sk = Ok (r', c) /\ wf r' /\ kdf r' = kdf r /\
    ChainKey.wf c /\ ChainKey.index c = 0%Z /\ ChainKey.kdf c = kdf r.
Proof.
  intros [v Hv]. unfold create_chain.
  destruct (KeyPair.calculate_agreement_ok pk sk) as (sec & -> & _). cbn [obind].
  destruct (HKDF.derive_salted_secrets_length (kdf r) v sec (key r)
    (string_bytes "WhisperRatchet") 64 Hv) as (okm & -> & Hlen); [lia|]. cbn [obind].
  rewrite !array_ref_ok by lia. cbn [obind].
  do 2 eexists. split; [done|]. unfold wf, ChainKey.wf, is_u32, u32_max.
  cbn [key kdf ChainKey.key ChainKey.index ChainKey.kdf].
  rewrite !length_take, !length_drop. split_and!; try lia; try done; by exists v.
Qed.

Lemma create_chain_symmetric r a b :
  KeyPair.matching a -> KeyPair.matching b ->
  create_chain r (KeyPair.public_key a) (KeyPair.private_key b)
  = create_chain r (KeyPair.public_key b) (KeyPair.private_key a).
Proof. intros Ha Hb. unfold create_chain. by rewrite (KeyPair.agreement_symmetric a b). Qed.

(** A Diffie-Hellman ratchet step agrees: from the same root key, the
    party that holds key pair [a] and knows the public half of [b] and the
    party that holds [b] and knows the public half of [a] derive the same
    new root key and the same chain key, and neither derivation fails. *)
Lemma create_chain_agreement r a b :
  kdf_valid (kdf r) -> KeyPair.matching a -> KeyPair.matching b ->
  exists r' c,
    create_chain r (KeyPair.public_key b) (KeyPair.private_key a) = Ok (r', c) /\
    create_chain r (KeyPair.public_key a) (KeyPair.private_key b) = Ok (r', c) /\
    wf r' /\ ChainKey.wf c /\ ChainKey.index c = 0%Z.
Proof.
  intros Hk Ha Hb.
  destruct (create_chain_ok r (KeyPair.public_key b) (KeyPair.private_key a) Hk)
    as (r' & c & Hc & Hw & _ & Hwc & Hi & _).
  exists r', c. split_and!; try done.
  rewrite <-Hc. by apply create_chain_symmetric.
Qed.
End Proofs.
End RootKey.
Abbreviation RootKey := RootKey.t.

#[export] Hint Resolve ChainKey.chain_key_new_no_panic RootKey.root_key_new_no_panic MessageKeys.message_keys_new_no_panic : crates.

(** * Session parameters *)

Module AliceSignalProtocolParameters.
Record t := new {
  our_identity_key_pair : IdentityKeyPair;
  our_base_key_pair : KeyPair;
  their_identity_key : IdentityKey;
  their_signed_pre_key : PublicKey;
  their_one_time_pre_key : option PublicKey;
  their_ratchet_key : PublicKey;
}.
End AliceSignalProtocolParameters.
Abbreviation AliceSignalProtocolParameters := AliceSignalProtocolParameters.t.

Module BobSignalProtocolParameters.
Record t := new {
  our_identity_key_pair : IdentityKeyPair;
  our_signed_pre_key_pair : KeyPair;
  our_one_time_pre_key_pair : option KeyPair;
  our_ratchet_key_pair : KeyPair;
  their_identity_key : IdentityKey;
  their_base_key : PublicKey;
}.
End BobSignalProtocolParameters.
Abbreviation BobSignalProtocolParameters := BobSignalProtocolParameters.t.
