(* ===== verification/SessionState.v ===== *)
(** Session states and session records ([state/session.rs], with the limits of
    [consts.rs]). *)

From S2P Require Import Prelude Error Crates Crypto Curve IdentityKey Proto RatchetKeys.

Definition MAX_FORWARD_JUMPS : Z := 2000.
Definition MAX_MESSAGE_KEYS : nat := Z.to_nat 2000.
Definition MAX_RECEIVER_CHAINS : nat := 5.
Definition ARCHIVED_STATES_MAX_LENGTH : nat := 40.
Definition MAX_SENDER_KEY_STATES : nat := 5.

Module UnacknowledgedPreKeyMessageItems.
Record t := new {
  pre_key_id : option Z;
  signed_pre_key_id : Z;
  base_key : PublicKey;
}.
End UnacknowledgedPreKeyMessageItems.
Abbreviation UnacknowledgedPreKeyMessageItems := UnacknowledgedPreKeyMessageItems.t.

(** * [SessionState]

    A method on [&mut self] returns the new state; one that fails has not
    touched the state, so the caller keeps the old one. *)

Module SessionState.
Record t := new { session : SessionStructure.t }.

(** [self.session.f = v]. *)
Definition update (s : t) (f : SessionStructure.t -> SessionStructure.t) : t :=
  new (f (session s)).

Section Operations.
Context `{BuildConfig, Crates, ProtoCodecs}.

Definition deserialize (b : bytes) : Result t :=
  let? session := decode_message b in Ok (new session).

Definition serialize (s : t) : Result bytes := Ok (encode (session s)).

Definition from_structure (value : SessionStructure.t) : t := new value.
Definition to_structure (value : t) : SessionStructure.t := session value.

Definition alice_base_key (s : t) : Result bytes :=
  Ok (SessionStructure.alice_base_key (session s)).

Definition set_alice_base_key (s : t) (key : bytes) : Result t :=
  Ok (update s (SessionStructure.with_alice_base_key key)).

Definition session_version (s : t) : Result Z :=
  let v := SessionStructure.session_version (session s) in
  if (v =? 0)%Z then Ok 2%Z else Ok v.

Definition remote_identity_key (s : t) : Result (option IdentityKey) :=
  match SessionStructure.remote_identity_public (session s) with
  | [] => Ok None
  | b => let? k := IdentityKey.decode b in Ok (Some k)
  end.

Definition local_identity_key (s : t) : Result IdentityKey :=
  IdentityKey.decode (SessionStructure.local_identity_public (session s)).

Definition previous_counter (s : t) : Result Z :=
  Ok (SessionStructure.previous_counter (session s)).

Definition set_previous_counter (s : t) (ctr : Z) : Result t :=
  Ok (update s (SessionStructure.with_previous_counter ctr)).

Definition root_key (s : t) : Result RootKey :=
  if negb (length (SessionStructure.root_key (session s)) =? 32)
  then Err InvalidProtobufEncoding
  else
    let? version := session_version s in
    let? hkdf := HKDF.new version in
    RootKey.new hkdf (SessionStructure.root_key (session s)).

Definition set_root_key (s : t) (root_key : RootKey) : Result t :=
  Ok (update s (SessionStructure.with_root_key (RootKey.key root_key))).

Definition sender_ratchet_key (s : t) : Result PublicKey :=
  match SessionStructure.sender_chain (session s) with
  | None => Err InvalidProtobufEncoding
  | Some c => decode_point (Chain.sender_ratchet_key c)
  end.

Definition sender_ratchet_private_key (s : t) : Result PrivateKey :=
  match SessionStructure.sender_chain (session s) with
  | None => Err InvalidProtobufEncoding
  | Some c => decode_private_point (Chain.sender_ratchet_key_private c)
  end.

(** The loop of [get_receiver_chain], from chain number [idx] on. *)
Fixpoint find_receiver_chain (sender_bytes : bytes) (idx : nat) (chains : list Chain.t)
    : Result (option (Chain.t * nat)) :=
  match chains with
  | [] => Ok None
  | chain :: chains =>
      let? this_point := decode_point (Chain.sender_ratchet_key chain) in
      if bool_decide (PublicKey.serialize this_point = sender_bytes)
      then Ok (Some (chain, idx))
      else find_receiver_chain sender_bytes (S idx) chains
  end.

Definition get_receiver_chain (s : t) (sender : PublicKey) : Result (option (Chain.t * nat)) :=
  find_receiver_chain (PublicKey.serialize sender) 0
    (SessionStructure.receiver_chains (session s)).

Definition has_receiver_chain (s : t) (sender : PublicKey) : Result bool :=
  let? o := get_receiver_chain s sender in
  Ok (match o with Some _ => true | None => false end).

Definition has_sender_chain (s : t) : Result bool :=
  Ok (match SessionStructure.sender_chain (session s) with Some _ => true | None => false end).

Definition get_receiver_chain_key (s : t) (sender : PublicKey) : Result (option ChainKey) :=
  let? o := get_receiver_chain s sender in
  match o with
  | None => Ok None
  | Some (chain, _) =>
      match Chain.chain_key chain with
      | None => Err InvalidProtobufEncoding
      | Some c =>
          if negb (length (SessionChainKey.key c) =? 32) then Err InvalidProtobufEncoding
          else
            let? version := session_version s in
            let? hkdf := HKDF.new version in
            let? k := ChainKey.new hkdf (SessionChainKey.key c) (SessionChainKey.index c) in
            Ok (Some k)
      end
  end.

Definition chain_key_structure (k : ChainKey) : SessionChainKey.t :=
  SessionChainKey.mk (ChainKey.index k) (ChainKey.key k).

Definition add_receiver_chain (s : t) (sender : PublicKey) (chain_key : ChainKey) : Result t :=
  let chain := Chain.mk (PublicKey.serialize sender) [] (Some (chain_key_structure chain_key)) [] in
  let chains := SessionStructure.receiver_chains (session s) ++ [chain] in
  let chains := if MAX_RECEIVER_CHAINS <? length chains then list_remove_at 0 chains else chains in
  Ok (update s (SessionStructure.with_receiver_chains chains)).

Definition set_sender_chain (s : t) (sender : KeyPair) (next_chain_key : ChainKey) : Result t :=
  let new_chain :=
    Chain.mk (PublicKey.serialize (KeyPair.public_key sender))
      (PrivateKey.serialize (KeyPair.private_key sender))
      (Some (chain_key_structure next_chain_key)) [] in
  Ok (update s (SessionStructure.with_sender_chain (Some new_chain))).

Definition get_sender_chain_key (s : t) : Result ChainKey :=
  let? sender_chain := ok_or (SessionStructure.sender_chain (session s))
    (InvalidState "get_sender_chain_key" "No chain") in
  let? chain_key := ok_or (Chain.chain_key sender_chain)
    (InvalidState "get_sender_chain_key" "No chain key") in
  let? version := session_version s in
  let? hkdf := HKDF.new version in
  ChainKey.new hkdf (SessionChainKey.key chain_key) (SessionChainKey.index chain_key).

Definition set_sender_chain_key (s : t) (next_chain_key : ChainKey) : Result t :=
  let chain_key := chain_key_structure next_chain_key in
  let new_chain :=
    match SessionStructure.sender_chain (session s) with
    | None => Chain.mk [] [] (Some chain_key) []
    | Some c => Chain.with_chain_key (Some chain_key) c
    end in
  Ok (update s (SessionStructure.with_sender_chain (Some new_chain))).

(** [self.session.receiver_chains\[i\] = chain]. *)
Definition set_receiver_chain_at (s : t) (i : nat) (chain : Chain.t) : Result t :=
  let? chains := vec_set (SessionStructure.receiver_chains (session s)) i chain in
  Ok (update s (SessionStructure.with_receiver_chains chains)).

Definition get_message_keys (s : t) (sender : PublicKey) (counter : Z)
    : Result (option MessageKeys * t) :=
  let? o := get_receiver_chain s sender in
  match o with
  | None => Ok (None, s)
  | Some (chain, idx) =>
      match position (fun m => SessionMessageKey.index m =? counter)%Z (Chain.message_keys chain) with
      | None => Ok (None, s)
      | Some pos =>
          let? message_key := unwrap (Chain.message_keys chain !! pos) in
          let chain := Chain.with_message_keys (list_remove_at pos (Chain.message_keys chain)) chain in
          let? keys := MessageKeys.new (SessionMessageKey.cipher_key message_key)
            (SessionMessageKey.mac_key message_key) (SessionMessageKey.iv message_key) counter in
          let? s := set_receiver_chain_at s idx chain in
          Ok (Some keys, s)
      end
  end.

Definition message_key_structure (k : MessageKeys) : SessionMessageKey.t :=
  SessionMessageKey.mk (MessageKeys.counter k) (MessageKeys.cipher_key k)
    (MessageKeys.mac_key k) (MessageKeys.iv k).

(** [message_keys.insert(0, k)], then [pop] when there are too many. *)
Definition push_message_key (k : SessionMessageKey.t) (keys : list SessionMessageKey.t)
    : list SessionMessageKey.t :=
  let keys := k :: keys in
  if MAX_MESSAGE_KEYS <? length keys then removelast keys else keys.

Definition set_message_keys (s : t) (sender : PublicKey) (message_keys : MessageKeys) : Result t :=
  let new_keys := message_key_structure message_keys in
  let? o := get_receiver_chain s sender in
  match o with
  | Some (chain, idx) =>
      set_receiver_chain_at s idx
        (Chain.with_message_keys (push_message_key new_keys (Chain.message_keys chain)) chain)
  | None => Err (InvalidState "set_message_keys" "No receiver")
  end.

Definition set_receiver_chain_key (s : t) (sender : PublicKey) (chain_key : ChainKey) : Result t :=
  let? o := get_receiver_chain s sender in
  match o with
  | Some (chain, idx) =>
      set_receiver_chain_at s idx (Chain.with_chain_key (Some (chain_key_structure chain_key)) chain)
  | None => Err (InvalidState "set_receiver_chain_key" "No receiver")
  end.

Definition set_unacknowledged_pre_key_message (s : t) (pre_key_id : option Z)
    (signed_pre_key_id : Z) (base_key : PublicKey) : Result t :=
  let pending := PendingPreKey.mk (default 0%Z pre_key_id) (i32_of_u32 signed_pre_key_id)
    (PublicKey.serialize base_key) in
  Ok (update s (SessionStructure.with_pending_pre_key (Some pending))).

Definition unacknowledged_pre_key_message_items (s : t)
    : Result (option UnacknowledgedPreKeyMessageItems) :=
  match SessionStructure.pending_pre_key (session s) with
  | Some p =>
      let? base_key := decode_point (PendingPreKey.base_key p) in
      Ok (Some (UnacknowledgedPreKeyMessageItems.new
        (if (PendingPreKey.pre_key_id p =? 0)%Z then None else Some (PendingPreKey.pre_key_id p))
        (u32_of_i32 (PendingPreKey.signed_pre_key_id p)) base_key))
  | None => Ok None
  end.

Definition clear_unacknowledged_pre_key_message (s : t) : Result t :=
  Ok (update s (SessionStructure.with_pending_pre_key None)).

Definition set_remote_registration_id (s : t) (registration_id : Z) : Result t :=
  Ok (update s (SessionStructure.with_remote_registration_id registration_id)).

Definition remote_registration_id (s : t) : Result Z :=
  Ok (SessionStructure.remote_registration_id (session s)).

Definition set_local_registration_id (s : t) (registration_id : Z) : Result t :=
  Ok (update s (SessionStructure.with_local_registration_id registration_id)).

Definition local_registration_id (s : t) : Result Z :=
  Ok (SessionStructure.local_registration_id (session s)).
End Operations.
End SessionState.
Abbreviation SessionState := SessionState.t.

(** * [SessionRecord] *)

Module SessionRecord.
Record t := mk {
  current_session : option SessionState;
  previous_sessions : list SessionState;
}.

Definition new_fresh : t := mk None [].
Definition new (state : SessionState) : t := mk (Some state) [].

Section Operations.
Context `{BuildConfig, Crates, ProtoCodecs}.

Definition deserialize (b : bytes) : Result t :=
  let? record := decode_message b in
  Ok (mk (SessionState.from_structure <$> RecordStructure.current_session record)
         (SessionState.from_structure <$> RecordStructure.previous_sessions record)).

Definition serialize (r : t) : Result bytes :=
  let record := RecordStructure.mk (SessionState.to_structure <$> current_session r)
    (SessionState.to_structure <$> previous_sessions r) in
  Ok (encode record).

(** [session_version()? == version && alice_base_key == alice_base_key()?]. *)
Definition state_matches (version : Z) (alice_base_key : bytes) (s : SessionState) : Result bool :=
  let? v := SessionState.session_version s in
  if (v =? version)%Z then
    let? k := SessionState.alice_base_key s in
    Ok (bool_decide (alice_base_key = k))
  else Ok false.

Fixpoint any_state_matches (version : Z) (alice_base_key : bytes) (l : list SessionState)
    : Result bool :=
  match l with
  | [] => Ok false
  | previous :: l =>
      let? b := state_matches version alice_base_key previous in
      if b then Ok true else any_state_matches version alice_base_key l
  end.

Definition has_session_state (r : t) (version : Z) (alice_base_key : bytes) : Result bool :=
  let? b := match current_session r with
            | Some s => state_matches version alice_base_key s
            | None => Ok false
            end in
  if b then Ok true else any_state_matches version alice_base_key (previous_sessions r).

Definition session_state (r : t) : Result SessionState :=
  ok_or (current_session r) (InvalidState "session_state" "No session").

(** [session_state_mut()?] followed by a method [f] on the borrowed state. *)
Definition session_state_mut {A} (r : t) (f : SessionState -> Result (A * SessionState))
    : Result (A * t) :=
  let? s := ok_or (current_session r) (InvalidState "session_state" "No session") in
  let? '(a, s) := f s in
  Ok (a, mk (Some s) (previous_sessions r)).

Definition set_session_state (r : t) (session : SessionState) : Result t :=
  Ok (mk (Some session) (previous_sessions r)).

Definition previous_session_states (r : t) : Result (list SessionState) :=
  Ok (previous_sessions r).

Definition archive_current_state (r : t) : Result t :=
  match current_session r with
  | Some s =>
      let previous := s :: previous_sessions r in
      let previous :=
        if ARCHIVED_STATES_MAX_LENGTH <? length previous then removelast previous else previous in
      Ok (mk None previous)
  | None => Ok r
  end.

Definition promote_state (r : t) (new_state : SessionState) : Result t :=
  let? r := archive_current_state r in
  Ok (mk (Some new_state) (previous_sessions r)).

Definition promote_old_session (r : t) (old_session : nat) (updated_session : SessionState)
    : Result t :=
  let? _ := ok_or (previous_sessions r !! old_session)
    (InvalidState "promote_old_session" "out of range") in
  let r := mk (current_session r) (list_remove_at old_session (previous_sessions r)) in
  promote_state r updated_session.

Definition is_fresh (r : t) : Result bool :=
  Ok (match current_session r, previous_sessions r with None, [] => true | _, _ => false end).
End Operations.
End SessionRecord.
Abbreviation SessionRecord := SessionRecord.t.
