(* ===== verification/SessionInvariant.v ===== *)
(** The invariant of a session state and what the operations of
    [state/session.rs] do to it: a receiver chain is looked up by its ratchet
    key, and the message keys it has skipped form a finite map. *)

From S2P Require Import Prelude Error Crates Crypto Curve IdentityKey Proto RatchetKeys SessionState.

(** * The abstract view *)

Definition chains (s : SessionState) : list Chain.t :=
  SessionStructure.receiver_chains (SessionState.session s).

Definition is_chain_of (pk : PublicKey) (c : Chain.t) : Prop :=
  Chain.sender_ratchet_key c = PublicKey.serialize pk.

#[export] Instance is_chain_of_dec pk c : Decision (is_chain_of pk c).
Proof. unfold is_chain_of. apply _. Defined.

(** The receiver chain of a ratchet key. *)
Definition chain_of (s : SessionState) (pk : PublicKey) : option Chain.t :=
  snd <$> list_find (is_chain_of pk) (chains s).

Definition effective_version (s : SessionState) : Z :=
  let v := SessionStructure.session_version (SessionState.session s) in
  if (v =? 0)%Z then 2%Z else v.

(** The key derivation function of the session's version. *)
Definition kdf_of (s : SessionState) : HKDF :=
  {| HKDF.iteration_start_offset := effective_version s - 2 |}.

Definition to_chain_key (s : SessionState) (k : SessionChainKey.t) : ChainKey :=
  ChainKey.mk (kdf_of s) (SessionChainKey.key k) (SessionChainKey.index k).

Definition receiver_chain_key (s : SessionState) (pk : PublicKey) : option ChainKey :=
  to_chain_key s <$> (chain_of s pk ≫= Chain.chain_key).

Definition to_message_keys (k : SessionMessageKey.t) : MessageKeys :=
  MessageKeys.mk (SessionMessageKey.cipher_key k) (SessionMessageKey.mac_key k)
    (SessionMessageKey.iv k) (SessionMessageKey.index k).

(** The keys of the messages a chain has skipped, by message number. *)
Definition key_map (l : list SessionMessageKey.t) : gmap Z MessageKeys :=
  list_to_map ((fun k => (SessionMessageKey.index k, to_message_keys k)) <$> l).

Arguments key_map : simpl never.

Definition skipped (s : SessionState) (pk : PublicKey) : gmap Z MessageKeys :=
  from_option (fun c => key_map (Chain.message_keys c)) ∅ (chain_of s pk).

(** The stored list, newest key first. *)
Definition message_list (s : SessionState) (pk : PublicKey) : list SessionMessageKey.t :=
  from_option Chain.message_keys [] (chain_of s pk).

(** * The invariant *)

Definition message_key_wf (k : SessionMessageKey.t) : Prop := MessageKeys.wf (to_message_keys k).

Definition chain_key_wf (k : SessionChainKey.t) : Prop :=
  length (SessionChainKey.key k) = 32 /\ is_u32 (SessionChainKey.index k).

Record receiver_chain_wf (c : Chain.t) : Prop := {
  receiver_ratchet_key : exists pk, PublicKey.wf pk /\ is_chain_of pk c;
  receiver_key : exists k, Chain.chain_key c = Some k /\ chain_key_wf k;
  receiver_message_keys : Forall message_key_wf (Chain.message_keys c);
  receiver_nodup : NoDup (SessionMessageKey.index <$> Chain.message_keys c);
  receiver_bound : length (Chain.message_keys c) <= MAX_MESSAGE_KEYS;
}.

Record sender_chain_wf (c : Chain.t) : Prop := {
  sender_public : exists pk, PublicKey.wf pk /\ is_chain_of pk c;
  sender_private : exists sk, PrivateKey.wf sk /\
    Chain.sender_ratchet_key_private c = PrivateKey.serialize sk;
  sender_key : exists k, Chain.chain_key c = Some k /\ chain_key_wf k;
}.

Record session_wf (s : SessionState) : Prop := {
  wf_version : (2 <= effective_version s <= 3)%Z;
  wf_root : length (SessionStructure.root_key (SessionState.session s)) = 32;
  wf_sender : forall c,
    SessionStructure.sender_chain (SessionState.session s) = Some c -> sender_chain_wf c;
  wf_receivers : Forall receiver_chain_wf (chains s);
  wf_receivers_nodup : NoDup (Chain.sender_ratchet_key <$> chains s);
  wf_receivers_bound : length (chains s) <= MAX_RECEIVER_CHAINS;
}.

(** [s'] differs from [s] in its receiver chains only. *)
Definition only_chains (s s' : SessionState) : Prop :=
  SessionState.session s'
  = SessionStructure.with_receiver_chains (chains s') (SessionState.session s).

(** [s'] agrees with [s] on every receiver chain but that of [pk]. *)
Definition same_chains_but (pk : PublicKey) (s s' : SessionState) : Prop :=
  forall pk', pk' <> pk -> chain_of s' pk' = chain_of s pk'.

(** * Lookup *)

Lemma chain_of_Some s pk c :
  chain_of s pk = Some c -> exists i, list_find (is_chain_of pk) (chains s) = Some (i, c).
Proof. unfold chain_of. destruct (list_find _ _) as [[]|]; naive_solver. Qed.

Lemma chain_of_wf s pk c : session_wf s -> chain_of s pk = Some c ->
  receiver_chain_wf c /\ is_chain_of pk c.
Proof.
  intros Hs (i & (Hi & Hc & _)%list_find_Some)%chain_of_Some. split; [|done].
  eapply Forall_lookup_1; [by apply wf_receivers|done].
Qed.

Lemma kdf_of_valid s : session_wf s -> HKDF.new (effective_version s) = Ok (kdf_of s).
Proof.
  intros Hs. pose proof (wf_version s Hs). unfold HKDF.new, kdf_of.
  destruct (Z.eqb_spec (effective_version s) 2) as [->|]; [done|].
  destruct (Z.eqb_spec (effective_version s) 3) as [->|]; [done|]. lia.
Qed.

Lemma kdf_of_kdf_valid s : session_wf s -> kdf_valid (kdf_of s).
Proof. intros. eexists. by apply kdf_of_valid. Qed.

#[export] Hint Resolve kdf_of_kdf_valid : crates.

Lemma only_chains_kdf s s' : only_chains s s' -> kdf_of s' = kdf_of s.
Proof. unfold only_chains, kdf_of, effective_version. by intros ->. Qed.

Section Lookup.
Context `{BuildConfig, Crates}.

Lemma find_receiver_chain_spec pk l n :
  Forall receiver_chain_wf l ->
  SessionState.find_receiver_chain (PublicKey.serialize pk) n l
  = Ok ((fun p => (p.2, n + p.1)) <$> list_find (is_chain_of pk) l).
Proof.
  revert n. induction l as [|c l IH]; intros n Hl; [done|].
  apply list.Forall_cons in Hl as [Hc Hl].
  destruct (receiver_ratchet_key c Hc) as (q & Hq & Hqc).
  cbn [SessionState.find_receiver_chain list_find]. unfold decode_point.
  rewrite Hqc, PublicKey.public_key_deserialize_serialize' by done. cbn [obind].
  destruct (decide (is_chain_of pk c)) as [He|He]; unfold is_chain_of in He; rewrite Hqc in He.
  - rewrite bool_decide_eq_true_2 by done. simpl. by rewrite Nat.add_0_r.
  - rewrite bool_decide_eq_false_2 by done. rewrite IH by done.
    destruct (list_find (is_chain_of pk) l) as [[i d]|]; [|done]. simpl. by rewrite Nat.add_succ_r.
Qed.

Lemma get_receiver_chain_spec s pk :
  session_wf s ->
  SessionState.get_receiver_chain s pk
  = Ok ((fun p => (p.2, p.1)) <$> list_find (is_chain_of pk) (chains s)).
Proof. intros Hs. by apply (find_receiver_chain_spec pk _ 0), wf_receivers. Qed.

Lemma session_version_spec s : SessionState.session_version s = Ok (effective_version s).
Proof. unfold SessionState.session_version, effective_version. by destruct (_ =? 0)%Z. Qed.

Lemma get_receiver_chain_key_spec s pk :
  session_wf s -> SessionState.get_receiver_chain_key s pk = Ok (receiver_chain_key s pk).
Proof.
  intros Hs. unfold SessionState.get_receiver_chain_key, receiver_chain_key.
  rewrite get_receiver_chain_spec by done. cbn [obind].
  destruct (list_find _ _) as [[i c]|] eqn:Hf; unfold chain_of; rewrite Hf; [|done].
  assert (chain_of s pk = Some c) as Hc by (unfold chain_of; by rewrite Hf).
  destruct (receiver_key c) as (k & Hk & Hlen & _); [by eapply chain_of_wf|].
  cbn. rewrite Hk, Hlen, session_version_spec. cbn [Nat.eqb negb].
  cbn [obind]. rewrite kdf_of_valid by done. cbn [obind].
  by rewrite (proj2 (ChainKey.chain_key_new_ok _ _ _ (to_chain_key s k)) (conj Hlen eq_refl)).
Qed.

Lemma root_key_spec s :
  session_wf s -> SessionState.root_key s
    = Ok (RootKey.mk (kdf_of s) (SessionStructure.root_key (SessionState.session s))).
Proof.
  intros Hs. unfold SessionState.root_key. rewrite wf_root by done. cbn [Nat.eqb negb].
  rewrite session_version_spec. cbn [obind]. rewrite kdf_of_valid by done. cbn [obind].
  apply RootKey.root_key_new_ok. split; [by apply wf_root|done].
Qed.
End Lookup.

(** * Updates of one receiver chain *)

Lemma chain_of_None s pk : chain_of s pk = None <-> Forall (fun c => ~ is_chain_of pk c) (chains s).
Proof.
  unfold chain_of. rewrite fmap_None, list_find_None. done.
Qed.

Lemma is_chain_of_inj pk pk' c : is_chain_of pk c -> is_chain_of pk' c -> pk = pk'.
Proof. unfold is_chain_of. intros -> ?. by apply PublicKey.public_key_serialize_inj. Qed.

(** Replacing a chain by one with the same ratchet key. *)
Lemma update_chain s pk i c c' :
  session_wf s -> list_find (is_chain_of pk) (chains s) = Some (i, c) ->
  receiver_chain_wf c' -> Chain.sender_ratchet_key c' = Chain.sender_ratchet_key c ->
  exists s', SessionState.set_receiver_chain_at s i c' = Ok s' /\ session_wf s' /\
    chain_of s' pk = Some c' /\ same_chains_but pk s s' /\ only_chains s s'.
Proof.
  intros Hs Hf Hc' Hkey. pose proof Hf as (Hi & Hpk & _)%list_find_Some.
  unfold SessionState.set_receiver_chain_at. fold (chains s).
  rewrite (vec_set_ok _ _ _ c) by done. cbn [obind]. eexists. split; [done|].
  assert (Hpk' : is_chain_of pk c') by (unfold is_chain_of; by rewrite Hkey).
  split_and!.
  - split; try by apply Hs.
    + apply Forall_insert; [by apply wf_receivers|done].
    + unfold chains, SessionState.update. cbn. rewrite list_fmap_insert, Hkey, list_insert_id.
      * by apply wf_receivers_nodup.
      * rewrite list_lookup_fmap. unfold chains in Hi. by rewrite Hi.
    + unfold chains, SessionState.update. cbn. rewrite length_insert. by apply Hs.
  - unfold chain_of, chains, SessionState.update. cbn.
    by erewrite list_find_insert_same.
  - intros pk' Hne. unfold chain_of, chains, SessionState.update. cbn.
    eapply list_find_insert_other; [done| |]; intros ?; by eapply Hne, is_chain_of_inj.
  - done.
Qed.

(** ** Skipped message keys *)

Lemma key_map_lookup_None l n :
  key_map l !! n = None <-> n ∉ (SessionMessageKey.index <$> l).
Proof.
  unfold key_map. rewrite <-not_elem_of_list_to_map. by rewrite <-list_fmap_compose.
Qed.

Lemma key_map_cons k l :
  key_map (k :: l) = <[SessionMessageKey.index k := to_message_keys k]> (key_map l).
Proof. done. Qed.

Lemma position_key_map l n :
  NoDup (SessionMessageKey.index <$> l) ->
  match position (fun m => SessionMessageKey.index m =? n)%Z l with
  | None => key_map l !! n = None
  | Some p => exists k, l !! p = Some k /\ SessionMessageKey.index k = n /\
                key_map l !! n = Some (to_message_keys k) /\
                key_map (list_remove_at p l) = delete n (key_map l)
  end.
Proof.
  induction l as [|k l IH]; intros Hn; [done|].
  rewrite fmap_cons in Hn. apply list.NoDup_cons in Hn as [Hk Hn]. specialize (IH Hn).
  unfold position in *. cbn [list_find].
  destruct (decide ((SessionMessageKey.index k =? n)%Z = true)) as [He|He]; cbn.
  - apply Z.eqb_eq in He. exists k. rewrite key_map_cons, He. split_and!; try done.
    + by rewrite lookup_insert_eq.
    + rewrite delete_insert_eq. symmetry. apply delete_id, key_map_lookup_None.
      by rewrite <-He.
  - assert (SessionMessageKey.index k <> n) by (by contradict He; apply Z.eqb_eq).
    destruct (list_find _ l) as [[p m]|]; cbn in *.
    + destruct IH as (k' & Hp & Hi & Hm & Hd). exists k'. split_and!; try done.
      * by rewrite key_map_cons, lookup_insert_ne.
      * change (list_remove_at (S p) (k :: l)) with (k :: list_remove_at p l).
        rewrite !key_map_cons, Hd. symmetry. by apply delete_insert_ne.
    + by rewrite key_map_cons, lookup_insert_ne.
Qed.

(** Pushing a key: the map gains it, and loses at most the oldest key, which it
    does only when it is full. *)
Lemma key_map_sublist l l' :
  NoDup (SessionMessageKey.index <$> l) -> l' `sublist_of` l -> key_map l' ⊆ key_map l.
Proof.
  intros Hn Hsub. apply map_subseteq_spec. intros n k Hk.
  unfold key_map in *. apply elem_of_list_to_map_2 in Hk.
  apply elem_of_list_to_map_1; [by rewrite <-list_fmap_compose|].
  eapply list_elem_of_fmap in Hk as (m & [= -> ->] & Hm).
  apply list_elem_of_fmap. exists m. split; [done|].
  eapply elem_of_submseteq; [exact Hm|by apply sublist_submseteq].
Qed.

Lemma key_map_elem k l :
  NoDup (SessionMessageKey.index <$> l) -> k ∈ l ->
  key_map l !! SessionMessageKey.index k = Some (to_message_keys k).
Proof.
  intros Hn Hk. unfold key_map. apply elem_of_list_to_map_1; [by rewrite <-list_fmap_compose|].
  apply list_elem_of_fmap. by exists k.
Qed.

Lemma key_map_size l :
  NoDup (SessionMessageKey.index <$> l) -> size (key_map l) = length l.
Proof.
  intros Hn. unfold key_map.
  rewrite map_size_list_to_map; [by rewrite length_fmap|by rewrite <-list_fmap_compose].
Qed.

Lemma push_message_key_sublist k l :
  SessionState.push_message_key k l `sublist_of` k :: l.
Proof.
  unfold SessionState.push_message_key. case_match; [apply removelast_sublist|done].
Qed.

Lemma push_message_key_take k l :
  length l <= MAX_MESSAGE_KEYS ->
  SessionState.push_message_key k l = take MAX_MESSAGE_KEYS (k :: l).
Proof.
  intros Hl. unfold SessionState.push_message_key.
  destruct (Nat.ltb_spec MAX_MESSAGE_KEYS (length (k :: l))) as [Hlt|Hge].
  - rewrite removelast_firstn_len. f_equal. simpl length in *. lia.
  - by rewrite take_ge.
Qed.

Lemma push_message_key_spec k l :
  NoDup (SessionMessageKey.index <$> l) -> key_map l !! SessionMessageKey.index k = None ->
  length l <= MAX_MESSAGE_KEYS ->
  let l' := SessionState.push_message_key k l in
  NoDup (SessionMessageKey.index <$> l') /\ length l' <= MAX_MESSAGE_KEYS /\
  key_map l' !! SessionMessageKey.index k = Some (to_message_keys k) /\
  key_map l' ⊆ <[SessionMessageKey.index k := to_message_keys k]> (key_map l) /\
  (length l < MAX_MESSAGE_KEYS ->
   key_map l' = <[SessionMessageKey.index k := to_message_keys k]> (key_map l)).
Proof.
  intros Hn Hk Hl l'.
  assert (Hn' : NoDup (SessionMessageKey.index <$> k :: l)).
  { rewrite fmap_cons. apply list.NoDup_cons. split; [by apply key_map_lookup_None|done]. }
  split_and!.
  - eapply sublist_NoDup; [exact Hn'|]. apply fmap_sublist, push_message_key_sublist.
  - unfold l', SessionState.push_message_key. destruct (Nat.ltb_spec MAX_MESSAGE_KEYS (length (k :: l)));
      rewrite ?length_removelast; simpl length in *; lia.
  - unfold l', SessionState.push_message_key. destruct (Nat.ltb_spec MAX_MESSAGE_KEYS (length (k :: l)));
      [|by rewrite key_map_cons, lookup_insert_eq].
    rewrite removelast_cons; [by rewrite key_map_cons, lookup_insert_eq|].
    intros ->. simpl length in *. unfold MAX_MESSAGE_KEYS in *. lia.
  - rewrite <-key_map_cons. apply key_map_sublist; [done|apply push_message_key_sublist].
  - intros Hlt. unfold l', SessionState.push_message_key.
    rewrite (proj2 (Nat.ltb_ge _ _)) by (simpl length; lia). by rewrite key_map_cons.
Qed.

Section Updates.
Context `{BuildConfig, Crates}.

(** [get_message_keys] takes the key of a message number out of the chain's
    skipped keys: it returns the key the map has for that number, removes that
    entry and no other, and touches nothing else of the session. *)
Lemma get_message_keys_spec s pk n :
  session_wf s ->
  exists s', SessionState.get_message_keys s pk n = Ok (skipped s pk !! n, s') /\
    session_wf s' /\ skipped s' pk = delete n (skipped s pk) /\
    receiver_chain_key s' pk = receiver_chain_key s pk /\
    same_chains_but pk s s' /\ only_chains s s' /\
    (skipped s pk !! n = None -> s' = s).
Proof.
  intros Hs. unfold SessionState.get_message_keys.
  rewrite get_receiver_chain_spec by done. cbn [obind].
  destruct (list_find (is_chain_of pk) (chains s)) as [[i c]|] eqn:Hf; cbn;
    [|exists s; unfold skipped, chain_of; rewrite Hf; split_and!; try done;
      by unfold only_chains, chains; destruct s as [[]]].
  assert (Hc : chain_of s pk = Some c) by (unfold chain_of; by rewrite Hf).
  destruct (chain_of_wf s pk c Hs Hc) as [Hwf Hpk].
  pose proof (position_key_map (Chain.message_keys c) n (receiver_nodup c Hwf)) as Hpos.
  destruct (position _ _) as [p|].
  - destruct Hpos as (k & Hk & Hi & Hm & Hd). rewrite Hk. cbn [unwrap obind].
    pose proof (proj1 (Forall_lookup _ _) (receiver_message_keys c Hwf) _ _ Hk) as Hkwf.
    rewrite (MessageKeys.new_wf (to_message_keys k)) by exact Hkwf. cbn [obind].
    set (c' := Chain.with_message_keys _ c).
    destruct (update_chain s pk i c c' Hs Hf) as (s' & -> & Hs' & Hc' & Hrest & Honly); [|done|].
    { split; try by apply Hwf.
      - apply Forall_list_remove_at, Hwf.
      - cbn. eapply sublist_NoDup; [by apply receiver_nodup|].
        by apply fmap_sublist, list_remove_at_sublist.
      - cbn. etransitivity; [|by apply (receiver_bound c)].
        apply sublist_length, list_remove_at_sublist. }
    cbn [obind]. exists s'. split_and!; try done.
    + unfold skipped. rewrite Hc. cbn. rewrite Hm. subst n. done.
    + unfold skipped. by rewrite Hc, Hc'.
    + unfold receiver_chain_key, to_chain_key. rewrite Hc, Hc'.
      by rewrite (only_chains_kdf s s').
    + unfold skipped. rewrite Hc. cbn. by rewrite Hm.
  - exists s. unfold skipped. rewrite Hc. cbn. rewrite Hpos. split_and!; try done.
    + by rewrite delete_id.
    + by unfold only_chains, chains; destruct s as [[]].
Qed.

Lemma set_message_keys_spec s pk k :
  session_wf s -> is_Some (chain_of s pk) -> MessageKeys.wf k ->
  skipped s pk !! MessageKeys.counter k = None ->
  exists s', SessionState.set_message_keys s pk k = Ok s' /\
    session_wf s' /\
    skipped s' pk !! MessageKeys.counter k = Some k /\
    skipped s' pk ⊆ <[MessageKeys.counter k := k]> (skipped s pk) /\
    (size (skipped s pk) < MAX_MESSAGE_KEYS ->
     skipped s' pk = <[MessageKeys.counter k := k]> (skipped s pk)) /\
    message_list s' pk = take MAX_MESSAGE_KEYS
      (SessionState.message_key_structure k :: message_list s pk) /\
    receiver_chain_key s' pk = receiver_chain_key s pk /\
    same_chains_but pk s s' /\ only_chains s s'.
Proof.
  intros Hs [c Hc] Hk Hfresh. unfold SessionState.set_message_keys.
  rewrite get_receiver_chain_spec by done. cbn [obind].
  destruct (chain_of_Some s pk c Hc) as [i Hf]. rewrite Hf. cbn.
  destruct (chain_of_wf s pk c Hs Hc) as [Hwf Hpk].
  unfold skipped in *. rewrite Hc in *. cbn in Hfresh |- *.
  set (k' := SessionState.message_key_structure k).
  assert (Hk' : to_message_keys k' = k) by (by destruct k).
  destruct (push_message_key_spec k' (Chain.message_keys c)) as (Hn & Hl & Hin & Hsub & Hroom);
    [by apply Hwf|done|by apply Hwf|].
  destruct (update_chain s pk i c
    (Chain.with_message_keys (SessionState.push_message_key k' (Chain.message_keys c)) c) Hs Hf)
    as (s' & -> & Hs' & Hc' & Hrest & Honly); [|done|].
  { split; [by apply Hwf|by apply Hwf| |done|done]. cbn.
    eapply sublist_Forall; [apply push_message_key_sublist|].
    constructor; [|by apply Hwf]. unfold message_key_wf. by rewrite Hk'. }
  exists s'. rewrite Hc'. cbn. rewrite Hk' in *. split_and!; try done.
  - intros Hsize. apply Hroom. rewrite key_map_size in Hsize by apply Hwf. done.
  - unfold message_list. rewrite Hc, Hc'. cbn [from_option Chain.with_message_keys Chain.message_keys].
    apply push_message_key_take, Hwf.
  - unfold receiver_chain_key, to_chain_key. rewrite Hc, Hc'. by rewrite (only_chains_kdf s s').
Qed.

Lemma set_receiver_chain_key_spec s pk k :
  session_wf s -> is_Some (chain_of s pk) -> ChainKey.wf k -> ChainKey.kdf k = kdf_of s ->
  exists s', SessionState.set_receiver_chain_key s pk k = Ok s' /\
    session_wf s' /\ skipped s' pk = skipped s pk /\
    receiver_chain_key s' pk = Some k /\
    same_chains_but pk s s' /\ only_chains s s'.
Proof.
  intros Hs [c Hc] (Hlen & Hidx & _) Hkdf. unfold SessionState.set_receiver_chain_key.
  rewrite get_receiver_chain_spec by done. cbn [obind].
  destruct (chain_of_Some s pk c Hc) as [i Hf]. rewrite Hf. cbn.
  destruct (chain_of_wf s pk c Hs Hc) as [Hwf Hpk].
  destruct (update_chain s pk i c
    (Chain.with_chain_key (Some (SessionState.chain_key_structure k)) c) Hs Hf)
    as (s' & -> & Hs' & Hc' & Hrest & Honly); [|done|].
  { split; try by apply Hwf. by eexists. }
  exists s'. split_and!; try done.
  - unfold skipped. by rewrite Hc, Hc'.
  - unfold receiver_chain_key, to_chain_key. rewrite Hc'. cbn.
    rewrite (only_chains_kdf s s') by done. by destruct k; simplify_eq/=.
Qed.
End Updates.

(** * Adding a receiver chain *)

Lemma list_find_nodup_key (f : Chain.t -> bytes) l pk c :
  NoDup (Chain.sender_ratchet_key <$> l) ->
  snd <$> list_find (is_chain_of pk) l = Some c <-> c ∈ l /\ is_chain_of pk c.
Proof.
  induction l as [|d l IH]; intros Hn; [split; [done|by intros [?%not_elem_of_nil _]]|].
  rewrite fmap_cons in Hn. apply list.NoDup_cons in Hn as [Hd Hn]. cbn [list_find].
  destruct (decide (is_chain_of pk d)) as [Hpk|Hpk]; cbn.
  - split; [intros [= <-]; split; [by left|done]|].
    intros [[->|Hc]%elem_of_cons Hpc]; [done|]. exfalso. apply Hd.
    apply list_elem_of_fmap. exists c. split; [|done].
    unfold is_chain_of in *. congruence.
  - rewrite <-option_fmap_compose. rewrite (option_fmap_ext _ snd) by (by intros []).
    rewrite IH, elem_of_cons by done.
    split; [by intros [? ?]; split; [right|]|by intros [[->|?] ?]].
Qed.

Lemma chain_of_elem s pk c :
  NoDup (Chain.sender_ratchet_key <$> chains s) ->
  chain_of s pk = Some c <-> c ∈ chains s /\ is_chain_of pk c.
Proof. intros. apply (list_find_nodup_key Chain.sender_ratchet_key). done. Qed.

(** The new chain is appended; when there were five, the oldest one goes. *)
Lemma add_receiver_chain_chains `{BuildConfig, Crates} s pk k s' :
  SessionState.add_receiver_chain s pk k = Ok s' ->
  only_chains s s' /\
  chains s' = (if MAX_RECEIVER_CHAINS <=? length (chains s)
               then drop 1 (chains s) else chains s)
    ++ [Chain.mk (PublicKey.serialize pk) [] (Some (SessionState.chain_key_structure k)) []].
Proof.
  unfold SessionState.add_receiver_chain. intros [= <-]. split; [done|].
  set (c := Chain.mk _ _ _ _).
  change (chains (SessionState.update s _)) with
    (if MAX_RECEIVER_CHAINS <? length (chains s ++ [c])
     then list_remove_at 0 (chains s ++ [c]) else chains s ++ [c]).
  rewrite length_app. cbn [length].
  destruct (Nat.ltb_spec MAX_RECEIVER_CHAINS (length (chains s) + 1)) as [Hl|Hl];
    destruct (Nat.leb_spec MAX_RECEIVER_CHAINS (length (chains s))); try lia; [|done].
  unfold list_remove_at. destruct (chains s); [simpl in *; unfold MAX_RECEIVER_CHAINS in *; lia|done].
Qed.

Lemma only_chains_wf s s' :
  session_wf s -> only_chains s s' -> Forall receiver_chain_wf (chains s') ->
  NoDup (Chain.sender_ratchet_key <$> chains s') -> length (chains s') <= MAX_RECEIVER_CHAINS ->
  session_wf s'.
Proof.
  intros Hs Honly. split; try done.
  - unfold effective_version. rewrite Honly. apply Hs.
  - rewrite Honly. apply Hs.
  - rewrite Honly. apply Hs.
Qed.

Lemma fresh_chain_wf pk k :
  PublicKey.wf pk -> length (ChainKey.key k) = 32 -> is_u32 (ChainKey.index k) ->
  receiver_chain_wf
    (Chain.mk (PublicKey.serialize pk) [] (Some (SessionState.chain_key_structure k)) []).
Proof.
  intros. split; cbn; [by exists pk|by eexists|constructor|constructor|lia].
Qed.

Lemma add_receiver_chain_spec `{BuildConfig, Crates} s pk k :
  session_wf s -> PublicKey.wf pk -> ChainKey.wf k -> ChainKey.kdf k = kdf_of s ->
  chain_of s pk = None ->
  exists s', SessionState.add_receiver_chain s pk k = Ok s' /\ session_wf s' /\
    receiver_chain_key s' pk = Some k /\ skipped s' pk = ∅ /\ only_chains s s' /\
    (length (chains s) < MAX_RECEIVER_CHAINS -> same_chains_but pk s s') /\
    (forall pk' c, pk' <> pk -> chain_of s' pk' = Some c -> chain_of s pk' = Some c).
Proof.
  intros Hs Hpk (Hlen & Hidx & _) Hkdf Hnone.
  destruct (SessionState.add_receiver_chain s pk k) as [s'| |] eqn:Hadd; [|done..].
  exists s'. split; [done|]. apply add_receiver_chain_chains in Hadd as [Honly Hch].
  set (c := Chain.mk _ _ _ _) in Hch.
  assert (Hsub : (if MAX_RECEIVER_CHAINS <=? length (chains s) then drop 1 (chains s) else chains s)
                 `sublist_of` chains s) by (case_match; [apply sublist_drop|done]).
  set (old := if MAX_RECEIVER_CHAINS <=? _ then _ else _) in *.
  assert (Hn' : NoDup (Chain.sender_ratchet_key <$> chains s')).
  { rewrite Hch, fmap_app. apply list.NoDup_app. split_and!.
    - eapply sublist_NoDup; [apply wf_receivers_nodup, Hs|by apply fmap_sublist].
    - intros x (d & -> & Hd)%list_elem_of_fmap Hx%list_elem_of_singleton.
      apply chain_of_None in Hnone. rewrite list.Forall_forall in Hnone. apply (Hnone d); [|done].
      eapply elem_of_submseteq; [exact Hd|by apply sublist_submseteq].
    - apply NoDup_singleton. }
  assert (Hc : chain_of s' pk = Some c).
  { apply chain_of_elem; [done|]. split; [|done]. rewrite Hch. set_solver. }
  assert (Hother : forall pk' d, pk' <> pk -> chain_of s' pk' = Some d -> d ∈ old /\ is_chain_of pk' d).
  { intros pk' d Hne (Hd & Hpd)%chain_of_elem; [|done]. split; [|done].
    rewrite Hch in Hd. apply elem_of_app in Hd as [Hd|Hd%list_elem_of_singleton]; [done|].
    subst d. exfalso. apply Hne. symmetry. by apply (is_chain_of_inj pk pk' c). }
  split_and!.
  - apply (only_chains_wf s s'); try done; rewrite Hch.
    + apply list.Forall_app. split; [eapply sublist_Forall; [exact Hsub|]; apply Hs|].
      constructor; [by apply fresh_chain_wf|constructor].
    + rewrite length_app. unfold old. pose proof (wf_receivers_bound s Hs). cbn [length].
      destruct (Nat.leb_spec MAX_RECEIVER_CHAINS (length (chains s))); [rewrite length_drop|];
        unfold MAX_RECEIVER_CHAINS in *; lia.
  - unfold receiver_chain_key, to_chain_key. rewrite Hc, (only_chains_kdf s s') by done.
    destruct k. by simplify_eq/=.
  - unfold skipped. by rewrite Hc.
  - done.
  - intros Hlt pk' Hne. unfold old in Hother. rewrite (proj2 (Nat.leb_gt _ _) Hlt) in Hother.
    apply option_eq. intros d. split.
    + intros (? & ?)%Hother; [|done]. by apply chain_of_elem; [apply Hs|].
    + intros (? & ?)%chain_of_elem; [|apply Hs]. apply chain_of_elem; [done|]. split; [|done].
      rewrite Hch. unfold old. rewrite (proj2 (Nat.leb_gt _ _) Hlt). set_solver.
  - intros pk' d Hne (? & ?)%Hother; [|done]. apply chain_of_elem; [apply Hs|]. split; [|done].
    eapply elem_of_submseteq; [done|by apply sublist_submseteq].
Qed.

(** * The sending side *)

Definition sender_chain_key (s : SessionState) : option ChainKey :=
  to_chain_key s <$> (SessionStructure.sender_chain (SessionState.session s) ≫= Chain.chain_key).

(** [s'] has the receiver chains, version and root key of [s]. *)
Definition same_receiving (s s' : SessionState) : Prop :=
  chains s' = chains s /\ effective_version s' = effective_version s.

Lemma same_receiving_wf s s' :
  session_wf s -> same_receiving s s' ->
  length (SessionStructure.root_key (SessionState.session s')) = 32 ->
  (forall c, SessionStructure.sender_chain (SessionState.session s') = Some c -> sender_chain_wf c) ->
  session_wf s'.
Proof.
  intros Hs [Hc Hv] Hr Hsend. split; rewrite ?Hc, ?Hv; try done; by apply Hs.
Qed.

Lemma same_receiving_view s s' :
  same_receiving s s' ->
  (forall pk, chain_of s' pk = chain_of s pk) /\
  (forall pk, receiver_chain_key s' pk = receiver_chain_key s pk) /\
  (forall pk, skipped s' pk = skipped s pk) /\ kdf_of s' = kdf_of s.
Proof.
  intros [Hc Hv].
  assert (Hch : forall pk, chain_of s' pk = chain_of s pk) by (intros; unfold chain_of; by rewrite Hc).
  assert (Hk : kdf_of s' = kdf_of s) by (unfold kdf_of; by rewrite Hv).
  split_and!; try done.
  - intros. unfold receiver_chain_key, to_chain_key. by rewrite Hch, Hk.
  - intros. unfold skipped. by rewrite Hch.
Qed.

Section Sending.
Context `{BuildConfig, Crates}.

Lemma get_sender_chain_key_spec s k :
  session_wf s -> sender_chain_key s = Some k ->
  SessionState.get_sender_chain_key s = Ok k /\ ChainKey.wf k /\ ChainKey.kdf k = kdf_of s.
Proof.
  intros Hs Hk. unfold sender_chain_key in Hk.
  apply fmap_Some in Hk as (ck & Hk & ->).
  apply bind_Some in Hk as (c & Hc & Hk).
  unfold SessionState.get_sender_chain_key. rewrite Hc. cbn [ok_or obind]. rewrite Hk.
  cbn [ok_or obind]. rewrite session_version_spec. cbn [obind].
  rewrite kdf_of_valid by done. cbn [obind].
  destruct (sender_key c) as (ck' & Hck' & Hlen & Hidx); [by apply (wf_sender s)|].
  rewrite Hk in Hck'. injection Hck' as <-.
  split; [by apply ChainKey.chain_key_new_ok|]. split; [|done].
  split_and!; try done. by apply kdf_of_kdf_valid.
Qed.

Lemma set_sender_chain_key_spec s k :
  session_wf s -> is_Some (SessionStructure.sender_chain (SessionState.session s)) ->
  ChainKey.wf k -> ChainKey.kdf k = kdf_of s ->
  exists s', SessionState.set_sender_chain_key s k = Ok s' /\ session_wf s' /\
    sender_chain_key s' = Some k /\ same_receiving s s' /\
    SessionState.sender_ratchet_key s' = SessionState.sender_ratchet_key s /\
    SessionState.sender_ratchet_private_key s' = SessionState.sender_ratchet_private_key s /\
    exists c, SessionState.session s'
      = SessionStructure.with_sender_chain (Some c) (SessionState.session s).
Proof.
  intros Hs [c Hc] (Hlen & Hidx & _) Hkdf.
  unfold SessionState.set_sender_chain_key. rewrite Hc.
  eexists. split; [done|].
  assert (same_receiving s (SessionState.update s (SessionStructure.with_sender_chain
    (Some (Chain.with_chain_key (Some (SessionState.chain_key_structure k)) c))))) by done.
  split_and!; try done.
  - eapply same_receiving_wf; [done|done|apply Hs|]. intros ? [= <-].
    destruct (wf_sender s Hs c Hc). split; try done. by eexists.
  - unfold sender_chain_key. cbn. f_equal. unfold to_chain_key. cbn.
    change (kdf_of (SessionState.update _ _)) with (kdf_of s). destruct k. by simplify_eq/=.
  - unfold SessionState.sender_ratchet_key. cbn. by rewrite Hc.
  - unfold SessionState.sender_ratchet_private_key. cbn. by rewrite Hc.
  - by eexists.
Qed.

(** A new sending chain under a fresh ratchet key pair. *)
Lemma set_sender_chain_spec s kp k :
  session_wf s -> PublicKey.wf (KeyPair.public_key kp) -> PrivateKey.wf (KeyPair.private_key kp) ->
  ChainKey.wf k -> ChainKey.kdf k = kdf_of s ->
  exists s', SessionState.set_sender_chain s kp k = Ok s' /\ session_wf s' /\
    sender_chain_key s' = Some k /\ same_receiving s s' /\
    SessionState.sender_ratchet_key s' = Ok (KeyPair.public_key kp) /\
    SessionState.sender_ratchet_private_key s' = Ok (KeyPair.private_key kp) /\
    exists c, SessionState.session s'
      = SessionStructure.with_sender_chain (Some c) (SessionState.session s).
Proof.
  intros Hs Hpub Hpriv (Hlen & Hidx & _) Hkdf. eexists. split; [done|].
  set (s' := SessionState.update s _).
  assert (Hr : same_receiving s s') by done.
  split_and!; try done.
  - eapply same_receiving_wf; [done|done|apply Hs|]. intros ? [= <-].
    split; cbn; [by eexists|by eexists|by eexists].
  - unfold sender_chain_key. cbn. f_equal. unfold to_chain_key. cbn.
    change (kdf_of s') with (kdf_of s). destruct k. by simplify_eq/=.
  - unfold SessionState.sender_ratchet_key. cbn. by apply PublicKey.public_key_deserialize_serialize'.
  - unfold SessionState.sender_ratchet_private_key. cbn.
    unfold decode_private_point. rewrite PrivateKey.private_key_deserialize_serialize by done. done.
  - by eexists.
Qed.
End Sending.
