(* ===== verification/Ratchet.v ===== *)
(** Starting a session: the X3DH key agreement of [ratchet.rs]. *)

From S2P Require Import Prelude Error Utils Crates Crypto Curve IdentityKey Proto Protocol RatchetKeys.
From S2P Require Import SessionState SessionInvariant.

Section Operations.
Context `{BuildConfig, Crates}.

Definition derive_keys (secret_input : bytes) : Result (RootKey * ChainKey) :=
  let? kdf := HKDF.new 3 in
  let? secrets := HKDF.derive_secrets kdf secret_input (string_bytes "WhisperText") 64 in
  let? s0 := slice 0 32 secrets in
  let? root_key := RootKey.new kdf s0 in
  let? s1 := slice 32 64 secrets in
  let? chain_key := ChainKey.new kdf s1 0 in
  Ok (root_key, chain_key).

(** The 32 bytes 0xFF that begin the secret input. *)
Definition discontinuity_bytes : bytes := replicate 32 Byte.xff.

(** The agreements of the initiator, in the order they are appended. *)
Definition alice_secrets (parameters : AliceSignalProtocolParameters) : Result bytes :=
  let our_base_private_key :=
    KeyPair.private_key (AliceSignalProtocolParameters.our_base_key_pair parameters) in
  let? a1 := calculate_agreement
    (AliceSignalProtocolParameters.their_signed_pre_key parameters)
    (IdentityKeyPair.private_key (AliceSignalProtocolParameters.our_identity_key_pair parameters)) in
  let? a2 := calculate_agreement
    (IdentityKey.public_key (AliceSignalProtocolParameters.their_identity_key parameters))
    our_base_private_key in
  let? a3 := calculate_agreement
    (AliceSignalProtocolParameters.their_signed_pre_key parameters) our_base_private_key in
  let? a4 :=
    match AliceSignalProtocolParameters.their_one_time_pre_key parameters with
    | Some their_one_time_prekey => calculate_agreement their_one_time_prekey our_base_private_key
    | None => Ok []
    end in
  Ok (discontinuity_bytes ++ a1 ++ a2 ++ a3 ++ a4).

Definition initial_structure (local_identity_public remote_identity_public root_key : bytes)
    : SessionStructure.t :=
  SessionStructure.mk CIPHERTEXT_MESSAGE_CURRENT_VERSION local_identity_public
    remote_identity_public root_key 0 None [] None 0 0 false [].

Definition initialize_alice_session (parameters : AliceSignalProtocolParameters)
    (csprng : Csprng) : Result SessionState * Csprng :=
  let local_identity := IdentityKeyPair.identity_key
    (AliceSignalProtocolParameters.our_identity_key_pair parameters) in
  let '(sending_ratchet_key, csprng) := KeyPair.generate csprng in
  (let? secrets := alice_secrets parameters in
   let? '(root_key, chain_key) := derive_keys secrets in
   let? '(sending_chain_root_key, sending_chain_chain_key) :=
     RootKey.create_chain root_key (AliceSignalProtocolParameters.their_ratchet_key parameters)
       (KeyPair.private_key sending_ratchet_key) in
   let session := initial_structure
     (PublicKey.serialize (IdentityKey.public_key local_identity))
     (IdentityKey.serialize (AliceSignalProtocolParameters.their_identity_key parameters))
     (RootKey.key sending_chain_root_key) in
   let session := SessionState.new session in
   let? session := SessionState.add_receiver_chain session
     (AliceSignalProtocolParameters.their_ratchet_key parameters) chain_key in
   SessionState.set_sender_chain session sending_ratchet_key sending_chain_chain_key,
   csprng).

Definition bob_secrets (parameters : BobSignalProtocolParameters) : Result bytes :=
  let our_signed_pre_key :=
    KeyPair.private_key (BobSignalProtocolParameters.our_signed_pre_key_pair parameters) in
  let? a1 := calculate_agreement
    (IdentityKey.public_key (BobSignalProtocolParameters.their_identity_key parameters))
    our_signed_pre_key in
  let? a2 := calculate_agreement
    (BobSignalProtocolParameters.their_base_key parameters)
    (IdentityKeyPair.private_key (BobSignalProtocolParameters.our_identity_key_pair parameters)) in
  let? a3 := calculate_agreement
    (BobSignalProtocolParameters.their_base_key parameters) our_signed_pre_key in
  let? a4 :=
    match BobSignalProtocolParameters.our_one_time_pre_key_pair parameters with
    | Some our_one_time_pre_key_pair =>
        calculate_agreement (BobSignalProtocolParameters.their_base_key parameters)
          (KeyPair.private_key our_one_time_pre_key_pair)
    | None => Ok []
    end in
  Ok (discontinuity_bytes ++ a1 ++ a2 ++ a3 ++ a4).

Definition initialize_bob_session (parameters : BobSignalProtocolParameters)
    : Result SessionState :=
  let local_identity := IdentityKeyPair.identity_key
    (BobSignalProtocolParameters.our_identity_key_pair parameters) in
  let? secrets := bob_secrets parameters in
  let? '(root_key, chain_key) := derive_keys secrets in
  let session := initial_structure
    (PublicKey.serialize (IdentityKey.public_key local_identity))
    (IdentityKey.serialize (BobSignalProtocolParameters.their_identity_key parameters))
    (RootKey.key root_key) in
  let session := SessionState.new session in
  SessionState.set_sender_chain session
    (BobSignalProtocolParameters.our_ratchet_key_pair parameters) chain_key.

(** [our_key.serialize() < their_key.serialize()]: the order of [Box<\[u8\]>]. *)
Definition are_we_alice (our_key their_key : PublicKey) : bool :=
  match lex_cmp (PublicKey.serialize our_key) (PublicKey.serialize their_key) with
  | Lt => true
  | _ => false
  end.
End Operations.

(** * What the two ends have in common *)

Section Linked.
Context `{BuildConfig, Crates}.

Definition root_of (s : SessionState) : RootKey :=
  RootKey.mk (kdf_of s) (SessionStructure.root_key (SessionState.session s)).

(** Each end has the other's identity as its remote identity. *)
Record peers (s r : SessionState) : Prop := {
  peers_local : exists i, IdentityKey.wf i /\
    SessionStructure.local_identity_public (SessionState.session s) = IdentityKey.serialize i /\
    SessionStructure.remote_identity_public (SessionState.session r) = IdentityKey.serialize i;
  peers_remote : exists i, IdentityKey.wf i /\
    SessionStructure.remote_identity_public (SessionState.session s) = IdentityKey.serialize i /\
    SessionStructure.local_identity_public (SessionState.session r) = IdentityKey.serialize i;
  peers_version : effective_version s = effective_version r;
}.

Lemma peers_sym s r : peers s r -> peers r s.
Proof. intros [(i & ? & ? & ?) (j & ? & ? & ?) ?]. split; [by exists j|by exists i|done]. Qed.
End Linked.

(** * X3DH *)

Section X3DH.
Context `{BuildConfig, Crates, !HashLaws, !X25519Laws}.

Lemma derive_keys_ok secret :
  exists r c, derive_keys secret = Ok (r, c) /\ RootKey.wf r /\ ChainKey.wf c /\
    RootKey.kdf r = ChainKey.kdf c /\ HKDF.new 3 = Ok (RootKey.kdf r) /\ ChainKey.index c = 0%Z.
Proof.
  unfold derive_keys. destruct (HKDF.new 3) as [kdf| |] eqn:Hkdf; [|done..]. cbn [obind].
  destruct (HKDF.derive_secrets_length kdf 3 secret (string_bytes "WhisperText") 64 Hkdf)
    as (okm & -> & Hlen); [lia|]. cbn [obind].
  rewrite !slice_ok by lia. cbn [obind].
  assert (Hl0 : length (take (32 - 0) (drop 0 okm)) = 32) by (rewrite length_take, length_drop; lia).
  assert (Hl1 : length (take (64 - 32) (drop 32 okm)) = 32)
    by (rewrite length_take, length_drop; lia).
  rewrite (proj2 (RootKey.root_key_new_ok kdf _ _) (conj Hl0 eq_refl)). cbn [obind].
  rewrite (proj2 (ChainKey.chain_key_new_ok kdf _ 0 _) (conj Hl1 eq_refl)). cbn [obind].
  do 2 eexists. split; [done|].
  assert (kdf_valid kdf) by (by exists 3%Z).
  by split_and!.
Qed.

Lemma initial_wf l r k :
  length k = 32 -> session_wf (SessionState.new (initial_structure l r k)).
Proof.
  intros Hk. split; try done; cbn; [apply NoDup_nil_2|unfold MAX_RECEIVER_CHAINS; lia].
Qed.

Lemma initial_kdf l r k kdf :
  HKDF.new 3 = Ok kdf -> kdf_of (SessionState.new (initial_structure l r k)) = kdf.
Proof. by intros [= <-]. Qed.

Section Parties.
Variables (alice_id bob_id : IdentityKeyPair) (alice_base bob_signed bob_ratchet : KeyPair)
  (bob_one_time : option KeyPair).

(** What Alice knows of Bob is public, and conversely. *)
Definition alice_parameters : AliceSignalProtocolParameters :=
  AliceSignalProtocolParameters.new alice_id alice_base (IdentityKeyPair.identity_key bob_id)
    (KeyPair.public_key bob_signed) (KeyPair.public_key <$> bob_one_time)
    (KeyPair.public_key bob_ratchet).

Definition bob_parameters : BobSignalProtocolParameters :=
  BobSignalProtocolParameters.new bob_id bob_signed bob_one_time bob_ratchet
    (IdentityKeyPair.identity_key alice_id) (KeyPair.public_key alice_base).

Definition parties_matching : Prop :=
  IdentityKeyPair.matching alice_id /\ IdentityKeyPair.matching bob_id /\
  KeyPair.matching alice_base /\ KeyPair.matching bob_signed /\
  KeyPair.matching bob_ratchet /\ from_option KeyPair.matching True bob_one_time.

Lemma secrets_agree :
  parties_matching ->
  exists secret, alice_secrets alice_parameters = Ok secret /\
                 bob_secrets bob_parameters = Ok secret.
Proof.
  intros (Hai & Hbi & Hab & Hbs & Hbr & Hbo).
  unfold alice_secrets, bob_secrets.
  cbn [alice_parameters bob_parameters
    AliceSignalProtocolParameters.our_base_key_pair AliceSignalProtocolParameters.their_signed_pre_key
    AliceSignalProtocolParameters.our_identity_key_pair AliceSignalProtocolParameters.their_identity_key
    AliceSignalProtocolParameters.their_one_time_pre_key
    BobSignalProtocolParameters.our_signed_pre_key_pair BobSignalProtocolParameters.their_identity_key
    BobSignalProtocolParameters.their_base_key BobSignalProtocolParameters.our_identity_key_pair
    BobSignalProtocolParameters.our_one_time_pre_key_pair].
  pose proof (KeyPair.agreement_symmetric _ _ Hbs Hai) as Hx1.
  pose proof (KeyPair.agreement_symmetric _ _ Hbi Hab) as Hx2.
  rewrite (KeyPair.agreement_symmetric _ _ Hbs Hab).
  cbn [IdentityKeyPair.to_key_pair KeyPair.public_key KeyPair.private_key] in Hx1, Hx2.
  unfold IdentityKeyPair.public_key in *. rewrite Hx1, Hx2.
  destruct (KeyPair.calculate_agreement_ok
    (IdentityKey.public_key (IdentityKeyPair.identity_key alice_id))
    (KeyPair.private_key bob_signed)) as (a1 & -> & _). cbn [obind].
  destruct (KeyPair.calculate_agreement_ok (KeyPair.public_key alice_base)
    (IdentityKeyPair.private_key bob_id)) as (a2 & -> & _). cbn [obind].
  destruct (KeyPair.calculate_agreement_ok (KeyPair.public_key alice_base)
    (KeyPair.private_key bob_signed)) as (a3 & -> & _). cbn [obind].
  destruct bob_one_time as [kp|]; cbn; [|by eexists].
  rewrite (KeyPair.agreement_symmetric _ _ Hbo Hab).
  destruct (KeyPair.calculate_agreement_ok (KeyPair.public_key alice_base)
    (KeyPair.private_key kp)) as (a4 & -> & _). by eexists.
Qed.

Lemma initialize_bob_ok secret r c :
  parties_matching -> bob_secrets bob_parameters = Ok secret -> derive_keys secret = Ok (r, c) ->
  RootKey.wf r -> ChainKey.wf c -> RootKey.kdf r = ChainKey.kdf c ->
  HKDF.new 3 = Ok (RootKey.kdf r) ->
  exists sb, initialize_bob_session bob_parameters = Ok sb /\ session_wf sb /\
    sender_chain_key sb = Some c /\ root_of sb = r /\
    (forall pk, chain_of sb pk = None) /\
    SessionState.sender_ratchet_key sb = Ok (KeyPair.public_key bob_ratchet) /\
    SessionState.sender_ratchet_private_key sb = Ok (KeyPair.private_key bob_ratchet) /\
    effective_version sb = 3%Z /\
    SessionStructure.local_identity_public (SessionState.session sb)
      = IdentityKey.serialize (IdentityKeyPair.identity_key bob_id) /\
    SessionStructure.remote_identity_public (SessionState.session sb)
      = IdentityKey.serialize (IdentityKeyPair.identity_key alice_id) /\
    SessionStructure.pending_pre_key (SessionState.session sb) = None.
Proof.
  intros (_ & _ & _ & _ & Hbr & _) Hsec Hder Hr Hc Hkdf Hk3.
  unfold initialize_bob_session. rewrite Hsec. cbn [obind]. rewrite Hder. cbn [obind].
  cbn [bob_parameters BobSignalProtocolParameters.our_ratchet_key_pair].
  set (s0 := SessionState.new _).
  destruct (set_sender_chain_spec s0 bob_ratchet c)
    as (sb & -> & Hwf & Hsend & Hrecv & Hpub & Hpriv & c' & Hs);
    [by apply initial_wf, Hr|by eauto with crates|by eauto with crates|done| |].
  { unfold s0. by rewrite (initial_kdf _ _ _ _ Hk3). }
  exists sb. split; [done|]. split; [done|]. split; [done|].
  destruct (same_receiving_view _ _ Hrecv) as (Hch & _ & _ & Hkk).
  split_and!; try done.
  - unfold root_of. rewrite Hkk, Hs. unfold s0. rewrite (initial_kdf _ _ _ _ Hk3). by destruct r.
  - destruct Hrecv as [_ ->]. done.
  - by rewrite Hs.
  - by rewrite Hs.
  - by rewrite Hs.
Qed.

Lemma initialize_alice_ok csprng secret r c :
  parties_matching -> alice_secrets alice_parameters = Ok secret ->
  derive_keys secret = Ok (r, c) ->
  RootKey.wf r -> ChainKey.wf c -> RootKey.kdf r = ChainKey.kdf c ->
  HKDF.new 3 = Ok (RootKey.kdf r) ->
  exists sa ratchet r' c',
    initialize_alice_session alice_parameters csprng = (Ok sa, (KeyPair.generate csprng).2) /\
    session_wf sa /\ KeyPair.matching ratchet /\
    RootKey.create_chain r (KeyPair.public_key bob_ratchet) (KeyPair.private_key ratchet)
      = Ok (r', c') /\
    ChainKey.wf c' /\ ChainKey.index c' = 0%Z /\
    sender_chain_key sa = Some c' /\ root_of sa = r' /\
    receiver_chain_key sa (KeyPair.public_key bob_ratchet) = Some c /\
    (forall pk, skipped sa pk = ∅) /\
    SessionState.sender_ratchet_key sa = Ok (KeyPair.public_key ratchet) /\
    SessionState.sender_ratchet_private_key sa = Ok (KeyPair.private_key ratchet) /\
    effective_version sa = 3%Z /\
    SessionStructure.local_identity_public (SessionState.session sa)
      = IdentityKey.serialize (IdentityKeyPair.identity_key alice_id) /\
    SessionStructure.remote_identity_public (SessionState.session sa)
      = IdentityKey.serialize (IdentityKeyPair.identity_key bob_id) /\
    SessionStructure.pending_pre_key (SessionState.session sa) = None /\
    (forall pk, pk <> KeyPair.public_key bob_ratchet -> receiver_chain_key sa pk = None).
Proof.
  intros (_ & _ & _ & _ & Hbr & _) Hsec Hder Hr Hc Hkdf Hk3.
  unfold initialize_alice_session. pose proof (KeyPair.key_pair_generate_matching csprng) as Hm.
  destruct (KeyPair.generate csprng) as [ratchet csprng'] eqn:Hgen. cbn [fst snd] in *.
  rewrite Hsec. cbn [obind]. rewrite Hder. cbn [obind].
  cbn [alice_parameters AliceSignalProtocolParameters.their_ratchet_key].
  destruct (RootKey.create_chain_ok r (KeyPair.public_key bob_ratchet)
    (KeyPair.private_key ratchet)) as (r' & c' & Hcreate & Hr' & Hkr' & Hc' & Hi' & Hkc');
    [by apply Hr|].
  rewrite Hcreate. cbn [obind].
  set (s0 := SessionState.new _).
  assert (Hk0 : kdf_of s0 = RootKey.kdf r) by (unfold s0; by apply initial_kdf).
  destruct (add_receiver_chain_spec s0 (KeyPair.public_key bob_ratchet) c)
    as (s1 & -> & Hs1 & Hrk & Hsk & Honly & _ & Hold);
    [by apply initial_wf, Hr'|by eauto with crates|done|congruence|done|].
  cbn [obind].
  destruct (set_sender_chain_spec s1 ratchet c')
    as (sa & -> & Hwf & Hsend & Hrecv & Hpub & Hpriv & c'' & Hs);
    [done|by eauto with crates|by eauto with crates|done| |].
  { rewrite (only_chains_kdf _ _ Honly). congruence. }
  destruct (same_receiving_view _ _ Hrecv) as (_ & Hrkv & Hskv & Hkk).
  exists sa, ratchet, r', c'. split; [done|]. split_and!; try done.
  - unfold root_of. rewrite Hkk, (only_chains_kdf _ _ Honly), Hs, Honly, Hk0, <-Hkr'.
    by destruct r'.
  - by rewrite Hrkv.
  - intros pk. rewrite Hskv. destruct (decide (pk = KeyPair.public_key bob_ratchet)) as [->|Hne];
      [done|].
    unfold skipped. destruct (chain_of s1 pk) as [ch|] eqn:Hch; [|done].
    by apply Hold in Hch.
  - destruct Hrecv as [_ ->]. unfold effective_version. rewrite Honly. done.
  - rewrite Hs, Honly. done.
  - rewrite Hs, Honly. done.
  - rewrite Hs, Honly. done.
  - intros pk Hne. rewrite Hrkv. unfold receiver_chain_key.
    destruct (chain_of s1 pk) as [ch|] eqn:Hch; [|done]. by apply Hold in Hch.
Qed.
End Parties.
End X3DH.
