(* ===== verification/PreKeys.v ===== *)
(** Pre-keys, signed pre-keys and pre-key bundles ([state/prekey.rs],
    [state/signed_prekey.rs], [state/bundle.rs]). *)

From S2P Require Import Prelude Error Crates Curve IdentityKey Proto.

Module PreKeyRecord.
Record t := mk { pre_key : PreKeyRecordStructure.t }.

Definition new (id : Z) (key : KeyPair) : t :=
  mk (PreKeyRecordStructure.mk id (PublicKey.serialize (KeyPair.public_key key))
        (PrivateKey.serialize (KeyPair.private_key key))).

Section Operations.
Context `{Crates, ProtoCodecs}.

Definition deserialize (data : bytes) : Result t :=
  let? s := decode_message data in Ok (mk s).
Definition id (r : t) : Result Z := Ok (PreKeyRecordStructure.id (pre_key r)).
Definition key_pair (r : t) : Result KeyPair :=
  KeyPair.from_public_and_private (PreKeyRecordStructure.public_key (pre_key r))
    (PreKeyRecordStructure.private_key (pre_key r)).
Definition public_key (r : t) : Result PublicKey :=
  PublicKey.deserialize (PreKeyRecordStructure.public_key (pre_key r)).
Definition private_key (r : t) : Result PrivateKey :=
  PrivateKey.deserialize (PreKeyRecordStructure.private_key (pre_key r)).
Definition serialize (r : t) : Result bytes := Ok (encode (pre_key r)).
End Operations.
End PreKeyRecord.
Abbreviation PreKeyRecord := PreKeyRecord.t.

Module SignedPreKeyRecord.
Record t := mk { signed_pre_key : SignedPreKeyRecordStructure.t }.

Definition new (id timestamp : Z) (key : KeyPair) (signature : bytes) : t :=
  mk (SignedPreKeyRecordStructure.mk id (PublicKey.serialize (KeyPair.public_key key))
        (PrivateKey.serialize (KeyPair.private_key key)) signature timestamp).

Section Operations.
Context `{Crates, ProtoCodecs}.

Definition deserialize (data : bytes) : Result t :=
  let? s := decode_message data in Ok (mk s).
Definition id (r : t) : Result Z := Ok (SignedPreKeyRecordStructure.id (signed_pre_key r)).
Definition timestamp (r : t) : Result Z :=
  Ok (SignedPreKeyRecordStructure.timestamp (signed_pre_key r)).
Definition signature (r : t) : Result bytes :=
  Ok (SignedPreKeyRecordStructure.signature (signed_pre_key r)).
Definition public_key (r : t) : Result PublicKey :=
  PublicKey.deserialize (SignedPreKeyRecordStructure.public_key (signed_pre_key r)).
Definition private_key (r : t) : Result PrivateKey :=
  PrivateKey.deserialize (SignedPreKeyRecordStructure.private_key (signed_pre_key r)).
Definition key_pair (r : t) : Result KeyPair :=
  KeyPair.from_public_and_private (SignedPreKeyRecordStructure.public_key (signed_pre_key r))
    (SignedPreKeyRecordStructure.private_key (signed_pre_key r)).
Definition serialize (r : t) : Result bytes := Ok (encode (signed_pre_key r)).
End Operations.
End SignedPreKeyRecord.
Abbreviation SignedPreKeyRecord := SignedPreKeyRecord.t.

Module PreKeyBundle.
Record t := mk {
  registration_id_ : Z;
  device_id_ : Z;
  pre_key_id_ : option Z;
  pre_key_public_ : option PublicKey;
  signed_pre_key_id_ : Z;
  signed_pre_key_public_ : PublicKey;
  signed_pre_key_signature_ : bytes;
  identity_key_ : IdentityKey;
}.

Definition is_some {A} (o : option A) : bool := match o with Some _ => true | None => false end.

Definition new (registration_id device_id : Z) (pre_key_id : option Z)
    (pre_key_public : option PublicKey) (signed_pre_key_id : Z)
    (signed_pre_key_public : PublicKey) (signed_pre_key_signature : bytes)
    (identity_key : IdentityKey) : Result t :=
  if negb (Bool.eqb (is_some pre_key_public) (is_some pre_key_id)) then Err InvalidPreKeyBundle
  else Ok (mk registration_id device_id pre_key_id pre_key_public signed_pre_key_id
             signed_pre_key_public signed_pre_key_signature identity_key).

Definition registration_id (b : t) : Result Z := Ok (registration_id_ b).
Definition device_id (b : t) : Result Z := Ok (device_id_ b).
Definition pre_key_id (b : t) : Result (option Z) := Ok (pre_key_id_ b).
Definition pre_key_public (b : t) : Result (option PublicKey) := Ok (pre_key_public_ b).
Definition signed_pre_key_id (b : t) : Result Z := Ok (signed_pre_key_id_ b).
Definition signed_pre_key_public (b : t) : Result PublicKey := Ok (signed_pre_key_public_ b).
Definition signed_pre_key_signature (b : t) : Result bytes := Ok (signed_pre_key_signature_ b).
Definition identity_key (b : t) : Result IdentityKey := Ok (identity_key_ b).
End PreKeyBundle.
Abbreviation PreKeyBundle := PreKeyBundle.t.

Section Proofs.
Context `{Crates, ProtoCodecs, !X25519Laws, !ProtoLaws}.

Lemma pre_key_record_key_pair id kp :
  KeyPair.matching kp -> PreKeyRecord.key_pair (PreKeyRecord.new id kp) = Ok kp.
Proof. apply KeyPair.from_public_and_private_roundtrip. Qed.

Lemma signed_pre_key_record_key_pair id ts kp sig :
  KeyPair.matching kp ->
  SignedPreKeyRecord.key_pair (SignedPreKeyRecord.new id ts kp sig) = Ok kp.
Proof. apply KeyPair.from_public_and_private_roundtrip. Qed.

(** The key material a device keeps comes back whole from its serialised
    form: a pre-key record and a signed pre-key record made from a key pair with
    their id, timestamp, signature and the key pair that went in, and an
    identity key pair. *)
Lemma key_records_roundtrip id sid ts kp skp sig ikp :
  is_u32 id -> is_u32 sid -> is_u64 ts -> KeyPair.matching kp -> KeyPair.matching skp ->
  IdentityKeyPair.matching ikp ->
  (exists b r, PreKeyRecord.serialize (PreKeyRecord.new id kp) = Ok b /\
     PreKeyRecord.deserialize b = Ok r /\
     PreKeyRecord.id r = Ok id /\ PreKeyRecord.key_pair r = Ok kp) /\
  (exists b r, SignedPreKeyRecord.serialize (SignedPreKeyRecord.new sid ts skp sig) = Ok b /\
     SignedPreKeyRecord.deserialize b = Ok r /\
     SignedPreKeyRecord.id r = Ok sid /\ SignedPreKeyRecord.timestamp r = Ok ts /\
     SignedPreKeyRecord.signature r = Ok sig /\ SignedPreKeyRecord.key_pair r = Ok skp) /\
  IdentityKeyPair.try_from (IdentityKeyPair.serialize ikp) = Ok ikp.
Proof.
  intros. split_and!.
  - do 2 eexists. split; [done|]. unfold PreKeyRecord.deserialize.
    rewrite decode_message_encode by done. split; [done|]. split; [done|].
    by apply pre_key_record_key_pair.
  - do 2 eexists. split; [done|]. unfold SignedPreKeyRecord.deserialize.
    rewrite decode_message_encode by done. split; [done|]. split_and!; try done.
    by apply signed_pre_key_record_key_pair.
  - by apply IdentityKeyPair.identity_key_pair_roundtrip; apply IdentityKeyPair.identity_key_pair_matching_wf.
Qed.
End Proofs.
