(* ===== verification/SenderKeys.v ===== *)
(** The keys of a group's senders ([sender_keys.rs]). *)

From S2P Require Import Prelude Error Crates Crypto Curve Proto RatchetKeys SessionState.

Module SenderKeyName.
Record t := mk { group_id_ : string; sender_ : ProtocolAddress }.

#[global] Instance eq_dec : EqDecision t.
Proof. solve_decision. Defined.

#[global] Program Instance countable : Countable t :=
  inj_countable' (fun n => (group_id_ n, sender_ n)) (fun p => mk p.1 p.2) _.
Next Obligation. by intros []. Qed.

Definition new (group_id : string) (sender : ProtocolAddress) : Result t := Ok (mk group_id sender).
Definition group_id (n : t) : Result string := Ok (group_id_ n).
Definition sender_name (n : t) : Result string := Ok (ProtocolAddress.name (sender_ n)).
Definition sender_device_id (n : t) : Result Z := Ok (ProtocolAddress.device_id (sender_ n)).
Definition sender (n : t) : Result ProtocolAddress := Ok (sender_ n).
End SenderKeyName.
Abbreviation SenderKeyName := SenderKeyName.t.

(** * [SenderMessageKey] *)

Module SenderMessageKey.
Record t := mk { iteration_ : Z; iv_ : bytes; cipher_key_ : bytes; seed_ : bytes }.

Section Operations.
Context `{BuildConfig, Crates}.

Definition new (iteration : Z) (seed : bytes) : Result t :=
  let? hkdf := HKDF.new 3 in
  let? derived := HKDF.derive_secrets hkdf seed (string_bytes "WhisperGroup") 48 in
  let? iv := slice 0 16 derived in
  let? cipher_key := slice 16 48 derived in
  Ok (mk iteration iv cipher_key seed).

Definition from_protobuf (smk : SenderMessageKeyStructure.t) : Result t :=
  new (SenderMessageKeyStructure.iteration smk) (SenderMessageKeyStructure.seed smk).
End Operations.

Definition iteration (k : t) : Result Z := Ok (iteration_ k).
Definition iv (k : t) : Result bytes := Ok (iv_ k).
Definition cipher_key (k : t) : Result bytes := Ok (cipher_key_ k).
Definition seed (k : t) : Result bytes := Ok (seed_ k).
Definition as_protobuf (k : t) : Result SenderMessageKeyStructure.t :=
  Ok (SenderMessageKeyStructure.mk (iteration_ k) (seed_ k)).

Definition wf (k : t) : Prop := length (iv_ k) = 16 /\ length (cipher_key_ k) = 32.

Section Proofs.
Context `{BuildConfig, Crates, !HashLaws}.

Lemma sender_message_key_new_ok i seed :
  exists k, new i seed = Ok k /\ iteration_ k = i /\ seed_ k = seed /\ wf k.
Proof.
  unfold new. destruct (HKDF.new 3) as [kdf| |] eqn:Hk; [|done..]. cbn [obind].
  destruct (HKDF.derive_secrets_length kdf 3 seed (string_bytes "WhisperGroup") 48 Hk)
    as (okm & -> & Hlen); [lia|]. cbn [obind].
  rewrite !slice_ok by lia. cbn [obind]. eexists. split; [done|]. split; [done|]. split; [done|].
  unfold wf. cbn. rewrite !length_take, !length_drop. lia.
Qed.

(** The stored form determines the key. *)
Lemma from_protobuf_as_protobuf k i seed :
  new i seed = Ok k ->
  exists p, as_protobuf k = Ok p /\ SenderMessageKeyStructure.iteration p = i /\
    SenderMessageKeyStructure.seed p = seed /\ from_protobuf p = Ok k.
Proof.
  intros Hk. destruct (sender_message_key_new_ok i seed) as (k' & Hk' & Hi & Hs & _).
  rewrite Hk in Hk'. injection Hk' as <-. eexists. split; [done|]. cbn.
  unfold from_protobuf. cbn. by rewrite Hi, Hs.
Qed.
End Proofs.
End SenderMessageKey.
Abbreviation SenderMessageKey := SenderMessageKey.t.

(** * [SenderChainKey] *)

Module SenderChainKey.
Record t := mk { iteration_ : Z; chain_key_ : bytes }.

Definition MESSAGE_KEY_SEED : Byte.byte := Byte.x01.
Definition CHAIN_KEY_SEED : Byte.byte := Byte.x02.

Definition new (iteration : Z) (chain_key : bytes) : Result t := Ok (mk iteration chain_key).
Definition iteration (k : t) : Result Z := Ok (iteration_ k).
Definition seed (k : t) : Result bytes := Ok (chain_key_ k).

Section Operations.
Context `{BuildConfig, Crates}.

Definition get_derivative (k : t) (label : Byte.byte) : Result bytes :=
  hmac_sha256 (chain_key_ k) [label].

Definition next (k : t) : Result t :=
  let? i := u32_add (iteration_ k) 1 in
  let? seed := get_derivative k CHAIN_KEY_SEED in
  new i seed.

Definition sender_message_key (k : t) : Result SenderMessageKey :=
  let? seed := get_derivative k MESSAGE_KEY_SEED in
  SenderMessageKey.new (iteration_ k) seed.

Definition as_protobuf (k : t) : Result SenderChainKeyStructure.t :=
  Ok (SenderChainKeyStructure.mk (iteration_ k) (chain_key_ k)).

(** The chain key [n] steps further on: [n] applications of HMAC(-, 0x02). *)
Definition advanced (k : t) (n : nat) : t :=
  mk (iteration_ k + Z.of_nat n)
     (Nat.iter n (fun c => hmac_sha256_mac c [CHAIN_KEY_SEED]) (chain_key_ k)).

(** The message key of a chain key. *)
Definition key (k : t) : SenderMessageKey :=
  match sender_message_key k with Ok m => m | _ => SenderMessageKey.mk 0 [] [] [] end.
End Operations.

Section Proofs.
Context `{BuildConfig, Crates}.

Lemma sender_chain_key_advanced_0 k : advanced k 0 = k.
Proof. destruct k. unfold advanced. simpl. by rewrite Z.add_0_r. Qed.

Lemma sender_chain_key_advanced_add k n m : advanced (advanced k m) n = advanced k (m + n).
Proof.
  unfold advanced. cbn [iteration_ chain_key_].
  rewrite <-Nat.iter_add. f_equal; [lia|]. by rewrite Nat.add_comm.
Qed.

Lemma next_ok k : (iteration_ k < u32_max)%Z -> next k = Ok (advanced k 1).
Proof. intros. unfold next. by rewrite u32_add_small by lia. Qed.

Lemma sender_message_key_ok `{!HashLaws} k :
  sender_message_key k = Ok (key k) /\ SenderMessageKey.wf (key k) /\
  SenderMessageKey.iteration_ (key k) = iteration_ k /\
  SenderMessageKey.from_protobuf
    (SenderMessageKeyStructure.mk (iteration_ k) (SenderMessageKey.seed_ (key k))) = Ok (key k).
Proof.
  unfold key.
  destruct (SenderMessageKey.sender_message_key_new_ok (iteration_ k)
    (hmac_sha256_mac (chain_key_ k) [MESSAGE_KEY_SEED])) as (m & Hm & Hi & Hs & Hwf).
  assert (sender_message_key k = Ok m) as -> by exact Hm.
  split_and!; try done; unfold SenderMessageKey.wf in Hwf; try tauto.
  unfold SenderMessageKey.from_protobuf. cbn. by rewrite Hs.
Qed.
End Proofs.
End SenderChainKey.
Abbreviation SenderChainKey := SenderChainKey.t.

(** * [SenderKeyState] *)

Module SenderKeyState.
Record t := mk { state : SenderKeyStateStructure.t }.

Section Operations.
Context `{BuildConfig, Crates, ProtoCodecs}.

Definition new (id iteration : Z) (chain_key : bytes) (signature_key : PublicKey)
    (signature_private_key : option PrivateKey) : Result t :=
  let? chain := SenderChainKey.new iteration chain_key in
  let? chain := SenderChainKey.as_protobuf chain in
  Ok (mk (SenderKeyStateStructure.mk id (Some chain)
    (Some (SenderSigningKeyStructure.mk (PublicKey.serialize signature_key)
             (match signature_private_key with
              | None => []
              | Some k => PrivateKey.serialize k
              end))) [])).

Definition deserialize (buf : bytes) : Result t :=
  let? state := decode_message buf in Ok (mk state).
Definition from_protobuf (state : SenderKeyStateStructure.t) : t := mk state.
Definition serialize (s : t) : Result bytes := Ok (encode (state s)).

Definition sender_key_id (s : t) : Result Z :=
  Ok (SenderKeyStateStructure.sender_key_id (state s)).

Definition sender_chain_key (s : t) : Result SenderChainKey :=
  let? sender_chain :=
    ok_or (SenderKeyStateStructure.sender_chain_key (state s)) InvalidProtobufEncoding in
  SenderChainKey.new (SenderChainKeyStructure.iteration sender_chain)
    (SenderChainKeyStructure.seed sender_chain).

Definition set_sender_chain_key (s : t) (chain_key : SenderChainKey) : Result t :=
  let? p := SenderChainKey.as_protobuf chain_key in
  Ok (mk (SenderKeyStateStructure.with_sender_chain_key (Some p) (state s))).

Definition signing_key_public (s : t) : Result PublicKey :=
  match SenderKeyStateStructure.sender_signing_key (state s) with
  | Some signing_key => PublicKey.deserialize (SenderSigningKeyStructure.public signing_key)
  | None => Err SignaturePubkeyMissing
  end.

Definition signing_key_private (s : t) : Result (option PrivateKey) :=
  match SenderKeyStateStructure.sender_signing_key (state s) with
  | Some signing_key =>
      let? k := PrivateKey.deserialize (SenderSigningKeyStructure.private signing_key) in
      Ok (Some k)
  | None => Ok None
  end.

Definition has_sender_message_key (s : t) (iteration : Z) : Result bool :=
  Ok (existsb (fun k => SenderMessageKeyStructure.iteration k =? iteration)%Z
        (SenderKeyStateStructure.sender_message_keys (state s))).

Definition as_protobuf (s : t) : Result SenderKeyStateStructure.t := Ok (state s).

(** [push], then [while len > MAX { remove(0) }]. *)
Definition add_sender_message_key (s : t) (sender_message_key : SenderMessageKey) : Result t :=
  let? p := SenderMessageKey.as_protobuf sender_message_key in
  Ok (mk (SenderKeyStateStructure.with_sender_message_keys
    (remove_front_while MAX_MESSAGE_KEYS
      (SenderKeyStateStructure.sender_message_keys (state s) ++ [p])) (state s))).

(** The key is removed before [from_protobuf] can fail. *)
Definition remove_sender_message_key (iteration : Z)
    : StateResult t (option SenderMessageKey) :=
  fun s =>
    let keys := SenderKeyStateStructure.sender_message_keys (state s) in
    match position (fun x => SenderMessageKeyStructure.iteration x =? iteration)%Z keys with
    | Some index =>
        (let! smk := st_lift (unwrap (keys !! index)) in
         let! _ := st_update (fun s => Ok (mk (SenderKeyStateStructure.with_sender_message_keys
           (list_remove_at index keys) (state s)))) in
         let! k := st_lift (SenderMessageKey.from_protobuf smk) in
         st_ret (Some k)) s
    | None => (Ok None, s)
    end.
End Operations.
End SenderKeyState.
Abbreviation SenderKeyState := SenderKeyState.t.

(** * [SenderKeyRecord] *)

Module SenderKeyRecord.
Record t := mk { states : list SenderKeyState }.

Definition new_empty : t := mk [].

Section Operations.
Context `{BuildConfig, Crates, ProtoCodecs}.

Definition deserialize (buf : bytes) : Result t :=
  let? skr := decode_message buf in
  Ok (mk (SenderKeyState.from_protobuf <$> SenderKeyRecordStructure.sender_key_states skr)).

Definition is_empty (r : t) : Result bool :=
  Ok (match states r with [] => true | _ => false end).

(** The two lookups give the index of the state they borrow. *)
Definition sender_key_state (r : t) : Result nat :=
  match states r with [] => Err NoSenderKeyState | _ => Ok 0 end.

Fixpoint find_keyid (key_id : Z) (i : nat) (l : list SenderKeyState) : Result nat :=
  match l with
  | [] => Err NoSenderKeyState
  | s :: l =>
      let? id := SenderKeyState.sender_key_id s in
      if (id =? key_id)%Z then Ok i else find_keyid key_id (S i) l
  end.

Definition sender_key_state_for_keyid (r : t) (key_id : Z) : Result nat :=
  find_keyid key_id 0 (states r).

(** A computation on the borrowed state number [i]. *)
Definition borrow_mut {A} (i : nat) (m : StateResult SenderKeyState A) : StateResult t A :=
  fun r => match states r !! i with
           | Some s => let '(a, s) := m s in (a, mk (<[i := s]> (states r)))
           | None => (Panic, r)
           end.

Definition add_sender_key_state (r : t) (id iteration : Z) (chain_key : bytes)
    (signature_key : PublicKey) (signature_private_key : option PrivateKey) : Result t :=
  let? s := SenderKeyState.new id iteration chain_key signature_key signature_private_key in
  let states := s :: states r in
  Ok (mk (pop_back_while (length states) MAX_SENDER_KEY_STATES states)).

Definition set_sender_key_state (r : t) (id iteration : Z) (chain_key : bytes)
    (signature_key : PublicKey) (signature_private_key : option PrivateKey) : Result t :=
  add_sender_key_state (mk []) id iteration chain_key signature_key signature_private_key.

Fixpoint states_as_protobuf (l : list SenderKeyState) : Result (list SenderKeyStateStructure.t) :=
  match l with
  | [] => Ok []
  | s :: l =>
      let? p := SenderKeyState.as_protobuf s in
      let? ps := states_as_protobuf l in
      Ok (p :: ps)
  end.

Definition as_protobuf (r : t) : Result SenderKeyRecordStructure.t :=
  let? states := states_as_protobuf (states r) in
  Ok (SenderKeyRecordStructure.mk states).

Definition serialize (r : t) : Result bytes :=
  let? p := as_protobuf r in Ok (encode p).
End Operations.
End SenderKeyRecord.
Abbreviation SenderKeyRecord := SenderKeyRecord.t.
