(* ===== verification/Storage.v ===== *)
(** The store interfaces ([storage/traits.rs]) as type classes, what a client
    relies on of each as law classes, and the in-memory stores
    ([storage/inmem.rs]) with their proofs of the laws. *)

From S2P Require Import Prelude Error Crates Curve IdentityKey PreKeys SessionState SenderKeys.

(** [Option<*mut c_void>]: an opaque address handed through to the store. *)
Definition Context := option Z.

Inductive Direction := Sending | Receiving.

#[export] Instance Direction_eq_dec : EqDecision Direction.
Proof. solve_decision. Defined.

(** * The traits

    A method on [&self] reads the store, one on [&mut self] is a computation on
    it. *)

Class IdentityKeyStore (S : Type) := {
  get_identity_key_pair : Context -> S -> Result IdentityKeyPair;
  get_local_registration_id : Context -> S -> Result Z;
  save_identity : ProtocolAddress -> IdentityKey -> Context -> StateResult S bool;
  is_trusted_identity : ProtocolAddress -> IdentityKey -> Direction -> Context -> S -> Result bool;
  get_identity : ProtocolAddress -> Context -> S -> Result (option IdentityKey);
}.

Class PreKeyStore (S : Type) := {
  get_pre_key : Z -> Context -> S -> Result PreKeyRecord;
  save_pre_key : Z -> PreKeyRecord -> Context -> StateResult S unit;
  remove_pre_key : Z -> Context -> StateResult S unit;
}.

Class SignedPreKeyStore (S : Type) := {
  get_signed_pre_key : Z -> Context -> S -> Result SignedPreKeyRecord;
  save_signed_pre_key : Z -> SignedPreKeyRecord -> Context -> StateResult S unit;
}.

Class SessionStore (S : Type) := {
  load_session : ProtocolAddress -> Context -> S -> Result (option SessionRecord);
  store_session : ProtocolAddress -> SessionRecord -> Context -> StateResult S unit;
}.

Class SenderKeyStore (S : Type) := {
  store_sender_key : SenderKeyName -> SenderKeyRecord -> Context -> StateResult S unit;
  load_sender_key : SenderKeyName -> Context -> StateResult S (option SenderKeyRecord);
}.

(** * What a client relies on *)

(** A session store is a map: what was stored last under an address is what a
    load returns, and other addresses are left alone. *)
Class SessionStoreLaws (S : Type) `{SessionStore S} := {
  session_store_map : S -> ProtocolAddress -> option SessionRecord;
  load_session_map : forall a ctx s, load_session a ctx s = Ok (session_store_map s a);
  store_session_map : forall a r ctx s, exists s',
    store_session a r ctx s = (Ok tt, s') /\
    session_store_map s' a = Some r /\
    forall b, b <> a -> session_store_map s' b = session_store_map s b;
}.

Class SenderKeyStoreLaws (S : Type) `{SenderKeyStore S} := {
  sender_key_store_map : S -> SenderKeyName -> option SenderKeyRecord;
  load_sender_key_map : forall n ctx s,
    load_sender_key n ctx s = (Ok (sender_key_store_map s n), s);
  store_sender_key_map : forall n r ctx s, exists s',
    store_sender_key n r ctx s = (Ok tt, s') /\
    sender_key_store_map s' n = Some r /\
    forall m, m <> n -> sender_key_store_map s' m = sender_key_store_map s m;
}.

(** An identity store remembers the last identity saved for an address, does
    not forget its own key pair, and trusts an identity on first use or when it
    is the one it remembers. *)
Class IdentityKeyStoreLaws (S : Type) `{IdentityKeyStore S} := {
  known_identity : S -> ProtocolAddress -> option IdentityKey;
  own_identity : S -> IdentityKeyPair;
  own_registration_id : S -> Z;
  get_identity_key_pair_own : forall ctx s, get_identity_key_pair ctx s = Ok (own_identity s);
  get_local_registration_id_own : forall ctx s,
    get_local_registration_id ctx s = Ok (own_registration_id s);
  get_identity_known : forall a ctx s, get_identity a ctx s = Ok (known_identity s a);
  save_identity_known : forall a i ctx s, exists changed s',
    save_identity a i ctx s = (Ok changed, s') /\
    (changed = true <-> exists j, known_identity s a = Some j /\ j <> i) /\
    known_identity s' a = Some i /\
    (forall b, b <> a -> known_identity s' b = known_identity s b) /\
    own_identity s' = own_identity s /\ own_registration_id s' = own_registration_id s;
  is_trusted_identity_known : forall a i d ctx s, exists b,
    is_trusted_identity a i d ctx s = Ok b /\
    (b = true <-> known_identity s a = None \/ known_identity s a = Some i);
}.

Class PreKeyStoreLaws (S : Type) `{PreKeyStore S} := {
  pre_key_store_map : S -> Z -> option PreKeyRecord;
  get_pre_key_map : forall id ctx s,
    get_pre_key id ctx s = ok_or (pre_key_store_map s id) InvalidPreKeyId;
  save_pre_key_map : forall id r ctx s, exists s',
    save_pre_key id r ctx s = (Ok tt, s') /\
    pre_key_store_map s' id = Some r /\
    forall j, j <> id -> pre_key_store_map s' j = pre_key_store_map s j;
  remove_pre_key_map : forall id ctx s, exists s',
    remove_pre_key id ctx s = (Ok tt, s') /\
    pre_key_store_map s' id = None /\
    forall j, j <> id -> pre_key_store_map s' j = pre_key_store_map s j;
}.

Class SignedPreKeyStoreLaws (S : Type) `{SignedPreKeyStore S} := {
  signed_pre_key_store_map : S -> Z -> option SignedPreKeyRecord;
  get_signed_pre_key_map : forall id ctx s,
    get_signed_pre_key id ctx s = ok_or (signed_pre_key_store_map s id) InvalidSignedPreKeyId;
  save_signed_pre_key_map : forall id r ctx s, exists s',
    save_signed_pre_key id r ctx s = (Ok tt, s') /\
    signed_pre_key_store_map s' id = Some r /\
    forall j, j <> id -> signed_pre_key_store_map s' j = signed_pre_key_store_map s j;
}.

(** * The in-memory stores *)

Module InMemIdentityKeyStore.
(** [InMemIdentityKeyStore] compares keys with [PublicKey]'s [PartialEq]. *)
Record t := mk {
  key_pair : IdentityKeyPair;
  id : Z;
  known_keys : gmap ProtocolAddress IdentityKey;
}.

Definition new (key_pair : IdentityKeyPair) (id : Z) : t := mk key_pair id ∅.

Definition insert (a : ProtocolAddress) (i : IdentityKey) (s : t) : t :=
  mk (key_pair s) (id s) (<[a := i]> (known_keys s)).

Section Operations.
Context `{Crates}.

Definition save (address : ProtocolAddress) (identity : IdentityKey) (ctx : Context)
    : StateResult t bool :=
  fun s => match known_keys s !! address with
           | None => (Ok false, insert address identity s)
           | Some k =>
               if PublicKey.eqb (IdentityKey.public_key k) (IdentityKey.public_key identity)
               then (Ok false, s)
               else (Ok true, insert address identity s)
           end.

Definition is_trusted (address : ProtocolAddress) (identity : IdentityKey)
    (direction : Direction) (ctx : Context) (s : t) : Result bool :=
  match known_keys s !! address with
  | None => Ok true
  | Some k => Ok (PublicKey.eqb (IdentityKey.public_key k) (IdentityKey.public_key identity))
  end.

#[global] Instance store : IdentityKeyStore t := {
  get_identity_key_pair ctx s := Ok (key_pair s);
  get_local_registration_id ctx s := Ok (id s);
  save_identity := save;
  is_trusted_identity := is_trusted;
  get_identity address ctx s := Ok (known_keys s !! address);
}.
End Operations.
End InMemIdentityKeyStore.
Abbreviation InMemIdentityKeyStore := InMemIdentityKeyStore.t.

Module InMemPreKeyStore.
Record t := mk { pre_keys : gmap Z PreKeyRecord }.

Definition new : t := mk ∅.
Definition default : t := new.

#[global] Instance store : PreKeyStore t := {
  get_pre_key id ctx s := ok_or (pre_keys s !! id) InvalidPreKeyId;
  save_pre_key id record ctx s := (Ok tt, mk (<[id := record]> (pre_keys s)));
  remove_pre_key id ctx s := (Ok tt, mk (delete id (pre_keys s)));
}.
End InMemPreKeyStore.
Abbreviation InMemPreKeyStore := InMemPreKeyStore.t.

Module InMemSignedPreKeyStore.
Record t := mk { signed_pre_keys : gmap Z SignedPreKeyRecord }.

Definition new : t := mk ∅.
Definition default : t := new.

#[global] Instance store : SignedPreKeyStore t := {
  get_signed_pre_key id ctx s := ok_or (signed_pre_keys s !! id) InvalidSignedPreKeyId;
  save_signed_pre_key id record ctx s := (Ok tt, mk (<[id := record]> (signed_pre_keys s)));
}.
End InMemSignedPreKeyStore.
Abbreviation InMemSignedPreKeyStore := InMemSignedPreKeyStore.t.

Module InMemSessionStore.
Record t := mk { sessions : gmap ProtocolAddress SessionRecord }.

Definition new : t := mk ∅.
Definition default : t := new.

#[global] Instance store : SessionStore t := {
  load_session address ctx s := Ok (sessions s !! address);
  store_session address record ctx s := (Ok tt, mk (<[address := record]> (sessions s)));
}.
End InMemSessionStore.
Abbreviation InMemSessionStore := InMemSessionStore.t.

Module InMemSenderKeyStore.
Record t := mk { keys : gmap SenderKeyName SenderKeyRecord }.

Definition new : t := mk ∅.
Definition default : t := new.

#[global] Instance store : SenderKeyStore t := {
  store_sender_key name record ctx s := (Ok tt, mk (<[name := record]> (keys s)));
  load_sender_key name ctx s := (Ok (keys s !! name), s);
}.
End InMemSenderKeyStore.
Abbreviation InMemSenderKeyStore := InMemSenderKeyStore.t.

(** The store that combines the five and passes each call on. *)
Module InMemSignalProtocolStore.
Record t := mk {
  session_store : InMemSessionStore;
  pre_key_store : InMemPreKeyStore;
  signed_pre_key_store : InMemSignedPreKeyStore;
  identity_store : InMemIdentityKeyStore;
  sender_key_store : InMemSenderKeyStore;
}.

Definition new (key_pair : IdentityKeyPair) (registration_id : Z) : Result t :=
  Ok (mk InMemSessionStore.new InMemPreKeyStore.new InMemSignedPreKeyStore.new
        (InMemIdentityKeyStore.new key_pair registration_id) InMemSenderKeyStore.new).

Definition with_session_store v s :=
  mk v (pre_key_store s) (signed_pre_key_store s) (identity_store s) (sender_key_store s).
Definition with_pre_key_store v s :=
  mk (session_store s) v (signed_pre_key_store s) (identity_store s) (sender_key_store s).
Definition with_signed_pre_key_store v s :=
  mk (session_store s) (pre_key_store s) v (identity_store s) (sender_key_store s).
Definition with_identity_store v s :=
  mk (session_store s) (pre_key_store s) (signed_pre_key_store s) v (sender_key_store s).
Definition with_sender_key_store v s :=
  mk (session_store s) (pre_key_store s) (signed_pre_key_store s) (identity_store s) v.

#[global] Instance identity_key_store `{Crates} : IdentityKeyStore t := {
  get_identity_key_pair ctx s := get_identity_key_pair ctx (identity_store s);
  get_local_registration_id ctx s := get_local_registration_id ctx (identity_store s);
  save_identity address identity ctx :=
    st_focus identity_store with_identity_store (save_identity address identity ctx);
  is_trusted_identity address identity direction ctx s :=
    is_trusted_identity address identity direction ctx (identity_store s);
  get_identity address ctx s := get_identity address ctx (identity_store s);
}.

#[global] Instance pre_key_store_instance : PreKeyStore t := {
  get_pre_key id ctx s := get_pre_key id ctx (pre_key_store s);
  save_pre_key id record ctx :=
    st_focus pre_key_store with_pre_key_store (save_pre_key id record ctx);
  remove_pre_key id ctx := st_focus pre_key_store with_pre_key_store (remove_pre_key id ctx);
}.

#[global] Instance signed_pre_key_store_instance : SignedPreKeyStore t := {
  get_signed_pre_key id ctx s := get_signed_pre_key id ctx (signed_pre_key_store s);
  save_signed_pre_key id record ctx :=
    st_focus signed_pre_key_store with_signed_pre_key_store (save_signed_pre_key id record ctx);
}.

#[global] Instance session_store_instance : SessionStore t := {
  load_session address ctx s := load_session address ctx (session_store s);
  store_session address record ctx :=
    st_focus session_store with_session_store (store_session address record ctx);
}.

#[global] Instance sender_key_store_instance : SenderKeyStore t := {
  store_sender_key name record ctx :=
    st_focus sender_key_store with_sender_key_store (store_sender_key name record ctx);
  load_sender_key name ctx :=
    st_focus sender_key_store with_sender_key_store (load_sender_key name ctx);
}.
End InMemSignalProtocolStore.
Abbreviation InMemSignalProtocolStore := InMemSignalProtocolStore.t.

(** * The laws hold *)

Lemma identity_eqb `{Crates, !SubtleLaws} (i j : IdentityKey) :
  PublicKey.eqb (IdentityKey.public_key i) (IdentityKey.public_key j) = true <-> i = j.
Proof. rewrite PublicKey.eqb_eq. destruct i, j. cbn. split; [by intros ->|by intros [= ->]]. Qed.

#[export] Program Instance InMemSessionStore_laws : SessionStoreLaws InMemSessionStore := {
  session_store_map s a := InMemSessionStore.sessions s !! a;
}.
Next Obligation. done. Qed.
Next Obligation.
  intros a r ctx s. eexists. split; [done|]. cbn. split; [by rewrite lookup_insert_eq|].
  intros b Hb. by rewrite lookup_insert_ne.
Qed.

#[export] Program Instance InMemSenderKeyStore_laws : SenderKeyStoreLaws InMemSenderKeyStore := {
  sender_key_store_map s n := InMemSenderKeyStore.keys s !! n;
}.
Next Obligation. done. Qed.
Next Obligation.
  intros n r ctx s. eexists. split; [done|]. cbn. split; [by rewrite lookup_insert_eq|].
  intros b Hb. by rewrite lookup_insert_ne.
Qed.

#[export] Program Instance InMemPreKeyStore_laws : PreKeyStoreLaws InMemPreKeyStore := {
  pre_key_store_map s id := InMemPreKeyStore.pre_keys s !! id;
}.
Next Obligation. done. Qed.
Next Obligation.
  intros n r ctx s. eexists. split; [done|]. cbn. split; [by rewrite lookup_insert_eq|].
  intros b Hb. by rewrite lookup_insert_ne.
Qed.
Next Obligation.
  intros n ctx s. eexists. split; [done|]. cbn. split; [by rewrite lookup_delete_eq|].
  intros b Hb. by rewrite lookup_delete_ne.
Qed.

#[export] Program Instance InMemSignedPreKeyStore_laws :
    SignedPreKeyStoreLaws InMemSignedPreKeyStore := {
  signed_pre_key_store_map s id := InMemSignedPreKeyStore.signed_pre_keys s !! id;
}.
Next Obligation. done. Qed.
Next Obligation.
  intros n r ctx s. eexists. split; [done|]. cbn. split; [by rewrite lookup_insert_eq|].
  intros b Hb. by rewrite lookup_insert_ne.
Qed.

(** The in-memory identity store. *)
Lemma in_mem_save_identity `{Crates, !SubtleLaws} a i ctx (s : InMemIdentityKeyStore) :
  exists changed s', save_identity a i ctx s = (Ok changed, s') /\
    (changed = true <-> exists j, InMemIdentityKeyStore.known_keys s !! a = Some j /\ j <> i) /\
    InMemIdentityKeyStore.known_keys s' = <[a := i]> (InMemIdentityKeyStore.known_keys s) /\
    InMemIdentityKeyStore.key_pair s' = InMemIdentityKeyStore.key_pair s /\
    InMemIdentityKeyStore.id s' = InMemIdentityKeyStore.id s.
Proof.
  cbn. unfold InMemIdentityKeyStore.save.
  destruct (InMemIdentityKeyStore.known_keys s !! a) as [k|] eqn:Hk.
  - destruct (PublicKey.eqb _ _) eqn:He.
    + apply identity_eqb in He as ->. do 2 eexists. split_and!; try done.
      * split; [done|]. by intros (j & [= ->] & Hj).
      * by rewrite insert_id.
    + do 2 eexists. split_and!; try done. split; [|done]. intros _. exists k. split; [done|].
      intros ->. by rewrite (proj2 (identity_eqb i i)) in He.
  - do 2 eexists. split_and!; try done. split; [done|]. by intros (j & ? & _).
Qed.

#[export] Program Instance InMemIdentityKeyStore_laws `{Crates, !SubtleLaws} : IdentityKeyStoreLaws InMemIdentityKeyStore := {
  known_identity s a := InMemIdentityKeyStore.known_keys s !! a;
  own_identity := InMemIdentityKeyStore.key_pair;
  own_registration_id := InMemIdentityKeyStore.id;
}.
Next Obligation. done. Qed.
Next Obligation. done. Qed.
Next Obligation. done. Qed.
Next Obligation.
  intros C L a i ctx s. destruct (in_mem_save_identity a i ctx s) as (c & s' & Hs & Hc & Hm & Hp & Hi).
  exists c, s'. rewrite Hm. split_and!; try done.
  - by rewrite lookup_insert_eq.
  - intros b Hb. by rewrite lookup_insert_ne.
Qed.
Next Obligation.
  intros C L a i d ctx s. cbn. unfold InMemIdentityKeyStore.is_trusted.
  destruct (InMemIdentityKeyStore.known_keys s !! a) as [k|].
  - eexists. split; [done|]. rewrite identity_eqb. split; [intros ->; by right|by intros [|[= ->]]].
  - eexists. split; [done|]. split; [by left|done].
Qed.

(** * Trust on first use *)

(** A history of [save_identity] calls, the first one first. *)
Definition run_saves `{Crates} (ops : list (ProtocolAddress * IdentityKey)) (s : InMemIdentityKeyStore)
    : InMemIdentityKeyStore :=
  fold_left (fun s op => (save_identity op.1 op.2 None s).2) ops s.

(** The identity the history saved last for an address. *)
Fixpoint last_saved (a : ProtocolAddress) (ops : list (ProtocolAddress * IdentityKey))
    (before : option IdentityKey) : option IdentityKey :=
  match ops with
  | [] => before
  | op :: ops => last_saved a ops (if decide (op.1 = a) then Some op.2 else before)
  end.

Lemma run_saves_known `{Crates, !SubtleLaws} ops s a :
  InMemIdentityKeyStore.known_keys (run_saves ops s) !! a
  = last_saved a ops (InMemIdentityKeyStore.known_keys s !! a).
Proof.
  revert s. induction ops as [|[b i] ops IH]; intros s; [done|].
  cbn [last_saved]. change (run_saves ((b, i) :: ops) s) with (run_saves ops (save_identity b i None s).2).
  rewrite IH. cbn [fst snd].
  destruct (in_mem_save_identity b i None s) as (c & s' & Hs & _ & Hm & _). rewrite Hs. cbn [fst snd].
  rewrite Hm. destruct (decide (b = a)) as [->|].
  - by rewrite lookup_insert_eq.
  - by rewrite lookup_insert_ne.
Qed.

(** C40: the in-memory identity store trusts on first use: after any history of
    saves, an identity is trusted for an address, in either direction, exactly
    when nothing was saved for the address or the last identity saved for it is
    that one; [get_identity] reports that last identity. *)
Theorem in_mem_trust_on_first_use `{Crates, !SubtleLaws} ops kp id a i d ctx :
  let s := run_saves ops (InMemIdentityKeyStore.new kp id) in
  is_trusted_identity a i d ctx s
    = Ok (match last_saved a ops None with None => true | Some k => bool_decide (k = i) end) /\
  get_identity a ctx s = Ok (last_saved a ops None).
Proof.
  intros s. cbn. unfold InMemIdentityKeyStore.is_trusted, s.
  rewrite run_saves_known. cbn. rewrite lookup_empty. split; [|done].
  destruct (last_saved a ops None) as [k|]; [|done]. f_equal.
  apply eq_true_iff_eq. by rewrite identity_eqb, bool_decide_eq_true.
Qed.
