(* ===== verification/StoreAccess.v ===== *)
(** The stores and the generator as the functions of the protocol crate see them.

    Each function of [session.rs], [session_cipher.rs] and [group_cipher.rs] takes
    the stores it uses and the generator as arguments.  In the model they are
    operations on a state [W], the classes of [Stores], so that a caller decides
    what its stores share.  In a [World], and in the pair of a sender key store and
    a generator, they are separate fields, and a call on a store is focused on its
    field; the stores of the Java interface share the state of one virtual machine. *)

From S2P Require Import Prelude Error Crates Curve IdentityKey SessionState PreKeys SenderKeys Storage.

Module World.
Record t {SS IS PS SPS : Type} `{Crates} := mk {
  session_store : SS;
  identity_store : IS;
  pre_key_store : PS;
  signed_pre_key_store : SPS;
  csprng : Csprng;
}.
Arguments t SS IS PS SPS {_}.
Arguments mk {_ _ _ _ _} _ _ _ _ _.

Section Focus.
Context {SS IS PS SPS : Type} `{Crates}.
Abbreviation W := (t SS IS PS SPS).

Definition with_session_store v (w : W) : W :=
  mk v (identity_store w) (pre_key_store w) (signed_pre_key_store w) (csprng w).
Definition with_identity_store v (w : W) : W :=
  mk (session_store w) v (pre_key_store w) (signed_pre_key_store w) (csprng w).
Definition with_pre_key_store v (w : W) : W :=
  mk (session_store w) (identity_store w) v (signed_pre_key_store w) (csprng w).
Definition with_signed_pre_key_store v (w : W) : W :=
  mk (session_store w) (identity_store w) (pre_key_store w) v (csprng w).
Definition with_csprng v (w : W) : W :=
  mk (session_store w) (identity_store w) (pre_key_store w) (signed_pre_key_store w) v.

Definition on_sessions {A} (m : StateResult SS A) : StateResult W A :=
  st_focus session_store with_session_store m.
Definition on_identities {A} (m : StateResult IS A) : StateResult W A :=
  st_focus identity_store with_identity_store m.
Definition on_pre_keys {A} (m : StateResult PS A) : StateResult W A :=
  st_focus pre_key_store with_pre_key_store m.
Definition on_signed_pre_keys {A} (m : StateResult SPS A) : StateResult W A :=
  st_focus signed_pre_key_store with_signed_pre_key_store m.
Definition sessions {A} (f : SS -> Result A) : StateResult W A :=
  st_gets (fun w => f (session_store w)).
Definition identities {A} (f : IS -> Result A) : StateResult W A :=
  st_gets (fun w => f (identity_store w)).
Definition pre_keys {A} (f : PS -> Result A) : StateResult W A :=
  st_gets (fun w => f (pre_key_store w)).
Definition signed_pre_keys {A} (f : SPS -> Result A) : StateResult W A :=
  st_gets (fun w => f (signed_pre_key_store w)).

(** A function that is given the generator. *)
Definition with_rng {A} (f : Csprng -> Result A * Csprng) : StateResult W A :=
  fun w => let '(a, c) := f (csprng w) in (a, with_csprng c w).
End Focus.
End World.
Abbreviation World := World.t.

(** * What a function is given

    The stores and the generator, over a state of the caller's. *)

Module Stores.
Class Sessions (W : Type) := {
  load_session : ProtocolAddress -> Context -> StateResult W (option SessionRecord);
  store_session : ProtocolAddress -> SessionRecord -> Context -> StateResult W unit;
}.

Class Identities (W : Type) := {
  get_identity_key_pair : Context -> StateResult W IdentityKeyPair;
  get_local_registration_id : Context -> StateResult W Z;
  save_identity : ProtocolAddress -> IdentityKey -> Context -> StateResult W bool;
  is_trusted_identity :
    ProtocolAddress -> IdentityKey -> Direction -> Context -> StateResult W bool;
  get_identity : ProtocolAddress -> Context -> StateResult W (option IdentityKey);
}.

Class PreKeys (W : Type) := {
  get_pre_key : Z -> Context -> StateResult W PreKeyRecord;
  save_pre_key : Z -> PreKeyRecord -> Context -> StateResult W unit;
  remove_pre_key : Z -> Context -> StateResult W unit;
}.

Class SignedPreKeys (W : Type) := {
  get_signed_pre_key : Z -> Context -> StateResult W SignedPreKeyRecord;
  save_signed_pre_key : Z -> SignedPreKeyRecord -> Context -> StateResult W unit;
}.

Class SenderKeys (W : Type) := {
  store_sender_key : SenderKeyName -> SenderKeyRecord -> Context -> StateResult W unit;
  load_sender_key : SenderKeyName -> Context -> StateResult W (option SenderKeyRecord);
}.

Class Rng (W : Type) `{Crates} := {
  with_rng : forall A, (Csprng -> Result A * Csprng) -> StateResult W A;
}.
Arguments with_rng {_ _ _ _} f.
End Stores.

Section WorldStores.
Context {SS IS PS SPS : Type} `{Crates}.

#[global] Instance world_sessions `{SessionStore SS} : Stores.Sessions (World SS IS PS SPS) := {
  Stores.load_session a ctx := World.sessions (load_session a ctx);
  Stores.store_session a r ctx := World.on_sessions (store_session a r ctx);
}.

#[global] Instance world_identities `{IdentityKeyStore IS}
    : Stores.Identities (World SS IS PS SPS) := {
  Stores.get_identity_key_pair ctx := World.identities (get_identity_key_pair ctx);
  Stores.get_local_registration_id ctx := World.identities (get_local_registration_id ctx);
  Stores.save_identity a i ctx := World.on_identities (save_identity a i ctx);
  Stores.is_trusted_identity a i d ctx := World.identities (is_trusted_identity a i d ctx);
  Stores.get_identity a ctx := World.identities (get_identity a ctx);
}.

#[global] Instance world_pre_keys `{PreKeyStore PS} : Stores.PreKeys (World SS IS PS SPS) := {
  Stores.get_pre_key id ctx := World.pre_keys (get_pre_key id ctx);
  Stores.save_pre_key id r ctx := World.on_pre_keys (save_pre_key id r ctx);
  Stores.remove_pre_key id ctx := World.on_pre_keys (remove_pre_key id ctx);
}.

#[global] Instance world_signed_pre_keys `{SignedPreKeyStore SPS}
    : Stores.SignedPreKeys (World SS IS PS SPS) := {
  Stores.get_signed_pre_key id ctx := World.signed_pre_keys (get_signed_pre_key id ctx);
  Stores.save_signed_pre_key id r ctx := World.on_signed_pre_keys (save_signed_pre_key id r ctx);
}.

#[global] Instance world_rng : Stores.Rng (World SS IS PS SPS) := {
  Stores.with_rng A f := World.with_rng f;
}.
End WorldStores.

(** A call on a world, as a call on its field. *)
Ltac world_calls :=
  cbn [world_sessions world_identities world_pre_keys world_signed_pre_keys world_rng
    Stores.load_session Stores.store_session Stores.get_identity_key_pair
    Stores.get_local_registration_id Stores.save_identity Stores.is_trusted_identity
    Stores.get_pre_key Stores.remove_pre_key Stores.get_signed_pre_key Stores.with_rng].

(** * A sender key store and a generator *)

Section GroupStores.
Context {S : Type} `{Crates}.

Definition on_store {A} (m : StateResult S A) : StateResult (S * Csprng) A :=
  st_focus fst (fun s w => (s, w.2)) m.

(** A function that is given the generator. *)
Definition with_rng {A} (f : Csprng -> Result A * Csprng) : StateResult (S * Csprng) A :=
  fun w => let '(a, c) := f w.2 in (a, (w.1, c)).

#[global] Instance pair_sender_keys `{SenderKeyStore S} : Stores.SenderKeys (S * Csprng) := {
  Stores.store_sender_key n r ctx := on_store (store_sender_key n r ctx);
  Stores.load_sender_key n ctx := on_store (load_sender_key n ctx);
}.

#[global] Instance pair_rng : Stores.Rng (S * Csprng) := { Stores.with_rng A f := with_rng f }.
End GroupStores.

(** A call on a pair, as a call on its component. *)
Ltac pair_calls :=
  cbn [pair_sender_keys pair_rng Stores.store_sender_key Stores.load_sender_key Stores.with_rng].
