(* ===== verification/Session.v ===== *)
(** Building a session: from a bundle on the initiator's side, from a pre-key
    message on the other ([session.rs]).

    The stores and the generator that the functions take are operations on a state
    [W] ([StoreAccess.v]).  [async] adds no interleaving: each call is awaited where it is
    made and the stores are borrowed for the whole function. *)

From S2P Require Import Prelude Error Crates Curve IdentityKey Proto Protocol RatchetKeys SessionState Ratchet.
From S2P Require Import PreKeys Storage StoreAccess.

Section Operations.
Context {W : Type} `{BuildConfig, Crates, ProtoCodecs}
  `{!Stores.Sessions W, !Stores.Identities W, !Stores.PreKeys W, !Stores.SignedPreKeys W,
    !Stores.Rng W}.

(** [session_record] is the caller's: the new record comes back beside the
    result, and the callers drop theirs when there is an error. *)
Definition process_prekey_v3 (message : PreKeySignalMessage) (session_record : SessionRecord)
    (ctx : Context) : StateResult W (option Z * SessionRecord) :=
  let! has := st_lift (SessionRecord.has_session_state session_record
    (PreKeySignalMessage.message_version message)
    (PublicKey.serialize (PreKeySignalMessage.base_key message))) in
  if has : bool then st_ret (None, session_record)
  else
    let! signed_pre_key := Stores.get_signed_pre_key (PreKeySignalMessage.signed_pre_key_id message) ctx in
    let! our_signed_pre_key_pair := st_lift (SignedPreKeyRecord.key_pair signed_pre_key) in
    let! our_one_time_pre_key_pair :=
      match PreKeySignalMessage.pre_key_id message with
      | Some pre_key_id =>
          let! pre_key := Stores.get_pre_key pre_key_id ctx in
          let! kp := st_lift (PreKeyRecord.key_pair pre_key) in
          st_ret (Some kp)
      | None => st_ret None
      end in
    let! our_identity := Stores.get_identity_key_pair ctx in
    let parameters := BobSignalProtocolParameters.new our_identity our_signed_pre_key_pair
      our_one_time_pre_key_pair our_signed_pre_key_pair
      (PreKeySignalMessage.identity_key message) (PreKeySignalMessage.base_key message) in
    let! session_record := st_lift (SessionRecord.archive_current_state session_record) in
    let! new_session := st_lift (initialize_bob_session parameters) in
    let! local_registration_id := Stores.get_local_registration_id ctx in
    let! new_session :=
      st_lift (SessionState.set_local_registration_id new_session local_registration_id) in
    let! new_session := st_lift (SessionState.set_remote_registration_id new_session
      (PreKeySignalMessage.registration_id message)) in
    let! new_session := st_lift (SessionState.set_alice_base_key new_session
      (PublicKey.serialize (PreKeySignalMessage.base_key message))) in
    let! session_record := st_lift (SessionRecord.promote_state session_record new_session) in
    st_ret (PreKeySignalMessage.pre_key_id message, session_record).

Definition process_prekey (message : PreKeySignalMessage) (remote_address : ProtocolAddress)
    (session_record : SessionRecord) (ctx : Context)
    : StateResult W (option Z * SessionRecord) :=
  let their_identity_key := PreKeySignalMessage.identity_key message in
  let! trusted := Stores.is_trusted_identity remote_address their_identity_key Receiving ctx in
  if negb trusted then st_lift (Err (UntrustedIdentity remote_address))
  else
    let! '(unsigned_pre_key_id, session_record) := process_prekey_v3 message session_record ctx in
    let! _ := Stores.save_identity remote_address their_identity_key ctx in
    st_ret (unsigned_pre_key_id, session_record).

Definition process_prekey_bundle (remote_address : ProtocolAddress) (bundle : PreKeyBundle)
    (ctx : Context) : StateResult W unit :=
  let! their_identity_key := st_lift (PreKeyBundle.identity_key bundle) in
  let! trusted := Stores.is_trusted_identity remote_address their_identity_key Sending ctx in
  if negb trusted then st_lift (Err (UntrustedIdentity remote_address))
  else
    let! signed_pre_key_public := st_lift (PreKeyBundle.signed_pre_key_public bundle) in
    let! signature := st_lift (PreKeyBundle.signed_pre_key_signature bundle) in
    let! valid := st_lift (verify_signature (IdentityKey.public_key their_identity_key)
      (PublicKey.serialize signed_pre_key_public) signature) in
    if negb valid then st_lift (Err SignatureValidationFailed)
    else
      let! loaded := Stores.load_session remote_address ctx in
      let session_record := default SessionRecord.new_fresh loaded in
      let! our_base_key_pair :=
        Stores.with_rng (fun c => let '(kp, c) := KeyPair.generate c in (Ok kp, c)) in
      let! their_signed_prekey := st_lift (PreKeyBundle.signed_pre_key_public bundle) in
      let! their_one_time_prekey := st_lift (PreKeyBundle.pre_key_public bundle) in
      let! their_one_time_prekey_id := st_lift (PreKeyBundle.pre_key_id bundle) in
      let! our_identity_key_pair := Stores.get_identity_key_pair ctx in
      let parameters := AliceSignalProtocolParameters.new our_identity_key_pair our_base_key_pair
        their_identity_key their_signed_prekey their_one_time_prekey their_signed_prekey in
      let! session := Stores.with_rng (initialize_alice_session parameters) in
      let! signed_pre_key_id := st_lift (PreKeyBundle.signed_pre_key_id bundle) in
      let! session := st_lift (SessionState.set_unacknowledged_pre_key_message session
        their_one_time_prekey_id signed_pre_key_id (KeyPair.public_key our_base_key_pair)) in
      let! local_registration_id := Stores.get_local_registration_id ctx in
      let! session :=
        st_lift (SessionState.set_local_registration_id session local_registration_id) in
      let! registration_id := st_lift (PreKeyBundle.registration_id bundle) in
      let! session := st_lift (SessionState.set_remote_registration_id session registration_id) in
      let! session := st_lift (SessionState.set_alice_base_key session
        (PublicKey.serialize (KeyPair.public_key our_base_key_pair))) in
      let! _ := Stores.save_identity remote_address their_identity_key ctx in
      let! session_record := st_lift (SessionRecord.promote_state session_record session) in
      Stores.store_session remote_address session_record ctx.
End Operations.
