(* ===== verification/SessionCipher.v ===== *)
(** Encrypting and decrypting in a session ([session_cipher.rs]). *)

From S2P Require Import Prelude Error Crates Crypto Curve IdentityKey Proto Protocol RatchetKeys SessionState.
From S2P Require Import Ratchet PreKeys SenderKeys Storage StoreAccess Session.

(** * On one session state

    [&mut SessionState] and the generator: the state a failing call leaves
    behind is modelled too, although the callers only ever pass a clone. *)

Section StateOperations.
Context `{BuildConfig, Crates, ProtoCodecs}.

Abbreviation StateM A := (StateResult (SessionState * Csprng) A).

(** A method of [SessionState] that updates it. *)
Definition on_state (f : SessionState -> Result SessionState) : StateM unit :=
  st_focus fst (fun s w => (s, w.2)) (st_update f).
Definition step_state {A} (f : SessionState -> Result (A * SessionState)) : StateM A :=
  st_focus fst (fun s w => (s, w.2)) (st_step f).
Definition from_state {A} (f : SessionState -> Result A) : StateM A := st_gets (fun w => f w.1).

Definition generate_key_pair : StateM KeyPair :=
  fun w => let '(kp, c) := KeyPair.generate w.2 in (Ok kp, (w.1, c)).

Definition get_or_create_chain_key (their_ephemeral : PublicKey) : StateM ChainKey :=
  let! existing := from_state (fun s => SessionState.get_receiver_chain_key s their_ephemeral) in
  match existing with
  | Some chain => st_ret chain
  | None =>
      let! root_key := from_state SessionState.root_key in
      let! our_ephemeral := from_state SessionState.sender_ratchet_private_key in
      let! receiver_chain := st_lift (RootKey.create_chain root_key their_ephemeral our_ephemeral) in
      let! our_new_ephemeral := generate_key_pair in
      let! sender_chain := st_lift (RootKey.create_chain receiver_chain.1 their_ephemeral
        (KeyPair.private_key our_new_ephemeral)) in
      let! _ := on_state (fun s => SessionState.set_root_key s sender_chain.1) in
      let! _ := on_state (fun s =>
        SessionState.add_receiver_chain s their_ephemeral receiver_chain.2) in
      let! current := from_state SessionState.get_sender_chain_key in
      let current_index := ChainKey.index current in
      let previous_index := (if 0 <? current_index then current_index - 1 else 0)%Z in
      let! _ := on_state (fun s => SessionState.set_previous_counter s previous_index) in
      let! _ := on_state (fun s =>
        SessionState.set_sender_chain s our_new_ephemeral sender_chain.2) in
      st_ret receiver_chain.2
  end.

(** [while chain_key.index() < counter]; the caller gives as fuel the number
    of iterations the condition allows, and running out is a [Panic], which
    is proved not to happen. *)
Fixpoint skip_message_keys (fuel : nat) (their_ephemeral : PublicKey) (chain_key : ChainKey)
    (counter : Z) : StateM ChainKey :=
  if (ChainKey.index chain_key <? counter)%Z then
    match fuel with
    | O => st_lift Panic
    | S fuel =>
        let! message_keys := st_lift (ChainKey.message_keys chain_key) in
        let! _ := on_state (fun s =>
          SessionState.set_message_keys s their_ephemeral message_keys) in
        let! chain_key := st_lift (ChainKey.next_chain_key chain_key) in
        skip_message_keys fuel their_ephemeral chain_key counter
    end
  else st_ret chain_key.

Definition get_or_create_message_key (their_ephemeral : PublicKey) (chain_key : ChainKey)
    (counter : Z) : StateM MessageKeys :=
  let chain_index := ChainKey.index chain_key in
  if (counter <? chain_index)%Z then
    let! o := step_state (fun s => SessionState.get_message_keys s their_ephemeral counter) in
    match o with
    | Some keys => st_ret keys
    | None => st_lift (Err (DuplicatedMessage chain_index counter))
    end
  else
    let! _ := st_lift (rust_assert (chain_index <=? counter)%Z) in
    let jump := (counter - chain_index)%Z in
    if (MAX_FORWARD_JUMPS <? jump)%Z
    then st_lift (Err (InvalidMessage "message from too far into the future"))
    else
      let! chain_key := skip_message_keys (Z.to_nat jump) their_ephemeral chain_key counter in
      let! next := st_lift (ChainKey.next_chain_key chain_key) in
      let! _ := on_state (fun s =>
        SessionState.set_receiver_chain_key s their_ephemeral next) in
      st_lift (ChainKey.message_keys chain_key).

Definition decrypt_message_with_state (ciphertext : SignalMessage) : StateM bytes :=
  let! has := from_state SessionState.has_sender_chain in
  if negb has then st_lift (Err InvalidSessionStructure)
  else
    let ciphertext_version := SignalMessage.message_version ciphertext in
    let! version := from_state SessionState.session_version in
    if negb (ciphertext_version =? version)%Z
    then st_lift (Err (UnrecognizedMessageVersion ciphertext_version))
    else
      let their_ephemeral := SignalMessage.sender_ratchet_key ciphertext in
      let counter := SignalMessage.counter ciphertext in
      let! chain_key := get_or_create_chain_key their_ephemeral in
      let! message_keys := get_or_create_message_key their_ephemeral chain_key counter in
      let! remote := from_state SessionState.remote_identity_key in
      let! their_identity_key := st_lift (ok_or remote InvalidSessionStructure) in
      let! local_identity_key := from_state SessionState.local_identity_key in
      let! mac_valid := st_lift (SignalMessage.verify_mac ciphertext their_identity_key
        local_identity_key (MessageKeys.mac_key message_keys)) in
      if negb mac_valid then st_lift (Err InvalidCiphertext)
      else
        let! ptext := st_lift (aes_256_cbc_decrypt (SignalMessage.ciphertext ciphertext)
          (MessageKeys.cipher_key message_keys) (MessageKeys.iv message_keys)) in
        let! _ := on_state SessionState.clear_unacknowledged_pre_key_message in
        st_ret ptext.
End StateOperations.

(** * On a session record *)

Section RecordOperations.
Context `{BuildConfig, Crates, ProtoCodecs}.

Abbreviation RecordM A := (StateResult (SessionRecord * Csprng) A).

(** Decrypting with a clone of a state: the result, with the clone, and the
    generator. *)
Definition try_state (s : SessionState) (ciphertext : SignalMessage) (c : Csprng)
    : Result bytes * SessionState * Csprng :=
  let '(r, (s, c)) := decrypt_message_with_state ciphertext (s, c) in (r, s, c).

(** The loop over [previous_session_states()], from number [idx] on: the
    plaintext with the index and the updated state of the first state that
    decrypts, or the error that ends the loop. *)
Fixpoint try_previous (ciphertext : SignalMessage) (idx : nat) (l : list SessionState)
    (c : Csprng) : Result (option (bytes * nat * SessionState)) * Csprng :=
  match l with
  | [] => (Ok None, c)
  | previous :: l =>
      let '(result, updated, c) := try_state previous ciphertext c in
      match result with
      | Ok ptext => (Ok (Some (ptext, idx, updated)), c)
      | Err (DuplicatedMessage i n) => (Err (DuplicatedMessage i n), c)
      | Err _ => try_previous ciphertext (S idx) l c
      | Panic => (Panic, c)
      end
  end.

Definition decrypt_message_with_record (ciphertext : SignalMessage) : RecordM bytes :=
  fun '(record, c) =>
    match SessionRecord.session_state record with
    | Ok current_state =>
        let '(result, current_state, c) := try_state current_state ciphertext c in
        match result with
        | Ok ptext =>
            (let! _ := st_focus fst (fun r w => (r, w.2))
               (st_update (fun r => SessionRecord.set_session_state r current_state)) in
             st_ret ptext) (record, c)
        | Err (DuplicatedMessage i n) => (Err (DuplicatedMessage i n), (record, c))
        | Panic => (Panic, (record, c))
        | Err _ =>
            let '(found, c) := try_previous ciphertext 0 (SessionRecord.previous_sessions record) c in
            match found with
            | Ok (Some (ptext, idx, updated_session)) =>
                (let! _ := st_focus fst (fun r w => (r, w.2))
                   (st_update (fun r =>
                      SessionRecord.promote_old_session r idx updated_session)) in
                 st_ret ptext) (record, c)
            | Ok None =>
                (Err (InvalidMessage "decryption failed; no matching session state"), (record, c))
            | Err e => (Err e, (record, c))
            | Panic => (Panic, (record, c))
            end
        end
    | Err e => (Err e, (record, c))
    | Panic => (Panic, (record, c))
    end.
End RecordOperations.

(** * With the stores *)

Section StoreOperations.
Context {W : Type} `{BuildConfig, Crates, ProtoCodecs}
  `{!Stores.Sessions W, !Stores.Identities W, !Stores.PreKeys W, !Stores.SignedPreKeys W,
    !Stores.Rng W}.

Abbreviation WorldM A := (StateResult W A).

Definition UntrustedIdentityUnless (trusted : bool) (a : ProtocolAddress) : Result unit :=
  if negb trusted then Err (UntrustedIdentity a) else Ok tt.

(** What [message_encrypt] computes from the session state: the message and
    the state with its sending chain moved on. *)
Definition encrypt_with_state (ptext : bytes) (session_state : SessionState)
    : Result (CiphertextMessage * IdentityKey * SessionState) :=
  let? chain_key := SessionState.get_sender_chain_key session_state in
  let? message_keys := ChainKey.message_keys chain_key in
  let? sender_ephemeral := SessionState.sender_ratchet_key session_state in
  let? previous_counter := SessionState.previous_counter session_state in
  let? version := SessionState.session_version session_state in
  let session_version := (version mod 256)%Z in
  let? local_identity_key := SessionState.local_identity_key session_state in
  let? remote := SessionState.remote_identity_key session_state in
  let? their_identity_key := ok_or remote InvalidSessionStructure in
  let? ctext := aes_256_cbc_encrypt ptext (MessageKeys.cipher_key message_keys)
    (MessageKeys.iv message_keys) in
  let? items := SessionState.unacknowledged_pre_key_message_items session_state in
  let? message :=
    match items with
    | Some items =>
        let? local_registration_id := SessionState.local_registration_id session_state in
        let? message := SignalMessage.new session_version (MessageKeys.mac_key message_keys)
          sender_ephemeral (ChainKey.index chain_key) previous_counter ctext
          local_identity_key their_identity_key in
        let? message := PreKeySignalMessage.new session_version local_registration_id
          (UnacknowledgedPreKeyMessageItems.pre_key_id items)
          (UnacknowledgedPreKeyMessageItems.signed_pre_key_id items)
          (UnacknowledgedPreKeyMessageItems.base_key items) local_identity_key message in
        Ok (CiphertextMessage.PreKeySignalMessage message)
    | None =>
        let? message := SignalMessage.new session_version (MessageKeys.mac_key message_keys)
          sender_ephemeral (ChainKey.index chain_key) previous_counter ctext
          local_identity_key their_identity_key in
        Ok (CiphertextMessage.SignalMessage message)
    end in
  let? next := ChainKey.next_chain_key chain_key in
  let? session_state := SessionState.set_sender_chain_key session_state next in
  Ok (message, their_identity_key, session_state).

Definition message_encrypt (ptext : bytes) (remote_address : ProtocolAddress) (ctx : Context)
    : WorldM CiphertextMessage :=
  let! loaded := Stores.load_session remote_address ctx in
  let! session_record := st_lift (ok_or loaded SessionNotFound) in
  let! '((message, their_identity_key), session_record) :=
    st_lift (SessionRecord.session_state_mut session_record (encrypt_with_state ptext)) in
  let! trusted := Stores.is_trusted_identity remote_address their_identity_key Sending ctx in
  let! _ := st_lift (UntrustedIdentityUnless trusted remote_address) in
  let! _ := Stores.save_identity remote_address their_identity_key ctx in
  let! _ := Stores.store_session remote_address session_record ctx in
  st_ret message.

(** [decrypt_message_with_record] on the loaded record, with the generator. *)
Definition decrypt_record (session_record : SessionRecord) (ciphertext : SignalMessage)
    : WorldM (bytes * SessionRecord) :=
  Stores.with_rng (fun c =>
    let '(r, (record, c)) := decrypt_message_with_record ciphertext (session_record, c) in
    (let? ptext := r in Ok (ptext, record), c)).

Definition message_decrypt_prekey (ciphertext : PreKeySignalMessage)
    (remote_address : ProtocolAddress) (ctx : Context) : WorldM bytes :=
  let! loaded := Stores.load_session remote_address ctx in
  let session_record := default SessionRecord.new_fresh loaded in
  let! '(pre_key_id, session_record) :=
    process_prekey ciphertext remote_address session_record ctx in
  let! '(ptext, session_record) :=
    decrypt_record session_record (PreKeySignalMessage.message ciphertext) in
  let! _ := Stores.store_session remote_address session_record ctx in
  let! _ := match pre_key_id with
            | Some pre_key_id => Stores.remove_pre_key pre_key_id ctx
            | None => st_ret tt
            end in
  st_ret ptext.

Definition message_decrypt_signal (ciphertext : SignalMessage)
    (remote_address : ProtocolAddress) (ctx : Context) : WorldM bytes :=
  let! loaded := Stores.load_session remote_address ctx in
  let! session_record := st_lift (ok_or loaded SessionNotFound) in
  let! '(ptext, session_record) := decrypt_record session_record ciphertext in
  let! state := st_lift (SessionRecord.session_state session_record) in
  let! remote := st_lift (SessionState.remote_identity_key state) in
  let! their_identity_key := st_lift (ok_or remote InvalidSessionStructure) in
  let! trusted := Stores.is_trusted_identity remote_address their_identity_key Receiving ctx in
  let! _ := st_lift (UntrustedIdentityUnless trusted remote_address) in
  let! _ := Stores.save_identity remote_address their_identity_key ctx in
  let! _ := Stores.store_session remote_address session_record ctx in
  st_ret ptext.

Definition message_decrypt (ciphertext : CiphertextMessage) (remote_address : ProtocolAddress)
    (ctx : Context) : WorldM bytes :=
  match ciphertext with
  | CiphertextMessage.SignalMessage m => message_decrypt_signal m remote_address ctx
  | CiphertextMessage.PreKeySignalMessage m => message_decrypt_prekey m remote_address ctx
  | _ => st_lift (Err (InvalidArgument "SessionCipher::decrypt cannot decrypt this message type"))
  end.

Definition remote_registration_id (remote_address : ProtocolAddress) (ctx : Context) : WorldM Z :=
  let! loaded := Stores.load_session remote_address ctx in
  let! session_record := st_lift (ok_or loaded SessionNotFound) in
  let! state := st_lift (SessionRecord.session_state session_record) in
  st_lift (SessionState.remote_registration_id state).

Definition session_version (remote_address : ProtocolAddress) (ctx : Context) : WorldM Z :=
  let! loaded := Stores.load_session remote_address ctx in
  let! session_record := st_lift (ok_or loaded SessionNotFound) in
  let! state := st_lift (SessionRecord.session_state session_record) in
  st_lift (SessionState.session_version state).
End StoreOperations.
