(* ===== verification/GroupCipher.v ===== *)
(** Encrypting to and decrypting from a group ([group_cipher.rs]). *)

From S2P Require Import Prelude Error Crates Crypto Curve Proto Protocol RatchetKeys SessionState SenderKeys.
From S2P Require Import Storage StoreAccess.

Section StateOperations.
Context `{BuildConfig, Crates}.

Definition on_sender_state (f : SenderKeyState -> Result SenderKeyState)
    : StateResult SenderKeyState unit := st_update f.

(** [while sender_chain_key.iteration()? < iteration], with as fuel the number
    of iterations the condition allows; running out is a [Panic], which is
    proved not to happen. *)
Fixpoint skip_sender_keys (fuel : nat) (sender_chain_key : SenderChainKey) (iteration : Z)
    : StateResult SenderKeyState SenderChainKey :=
  let! i := st_lift (SenderChainKey.iteration sender_chain_key) in
  if (i <? iteration)%Z then
    match fuel with
    | O => st_lift Panic
    | S fuel =>
        let! smk := st_lift (SenderChainKey.sender_message_key sender_chain_key) in
        let! _ := on_sender_state (fun s => SenderKeyState.add_sender_message_key s smk) in
        let! sender_chain_key := st_lift (SenderChainKey.next sender_chain_key) in
        skip_sender_keys fuel sender_chain_key iteration
    end
  else st_ret sender_chain_key.

Definition get_sender_key (iteration : Z) : StateResult SenderKeyState SenderMessageKey :=
  let! sender_chain_key := st_gets SenderKeyState.sender_chain_key in
  let! i := st_lift (SenderChainKey.iteration sender_chain_key) in
  if (iteration <? i)%Z then
    let! o := SenderKeyState.remove_sender_message_key iteration in
    match o with
    | Some smk => st_ret smk
    | None => st_lift (Err (DuplicatedMessage i iteration))
    end
  else
    let jump := (iteration - i)%Z in
    if (MAX_FORWARD_JUMPS <? jump)%Z
    then st_lift (Err (InvalidMessage "message from too far into the future"))
    else
      let! sender_chain_key := skip_sender_keys (Z.to_nat jump) sender_chain_key iteration in
      let! next := st_lift (SenderChainKey.next sender_chain_key) in
      let! _ := on_sender_state (fun s => SenderKeyState.set_sender_chain_key s next) in
      st_lift (SenderChainKey.sender_message_key sender_chain_key).
End StateOperations.

Section StoreOperations.
Context {W : Type} `{BuildConfig, Crates, ProtoCodecs, !Stores.SenderKeys W, !Stores.Rng W}.

Abbreviation GroupM A := (StateResult W A).

(** A computation on the loaded record, which is local to the function. *)
Definition on_record {A} (r : SenderKeyRecord) (m : StateResult SenderKeyRecord A)
    : GroupM (A * SenderKeyRecord) :=
  let '(a, r) := m r in st_lift (let? a := a in Ok (a, r)).

(** What [group_encrypt] does with the borrowed state, given the generator. *)
Definition encrypt_with_sender_state (plaintext : bytes) (c : Csprng)
    (sender_key_state : SenderKeyState) : Result (SenderKeyMessage * SenderKeyState) * Csprng :=
  let before :=
    let? chain := SenderKeyState.sender_chain_key sender_key_state in
    let? sender_key := SenderChainKey.sender_message_key chain in
    let? cipher_key := SenderMessageKey.cipher_key sender_key in
    let? iv := SenderMessageKey.iv sender_key in
    let? ciphertext := aes_256_cbc_encrypt plaintext cipher_key iv in
    let? signing_key := SenderKeyState.signing_key_private sender_key_state in
    let? signing_key := ok_or signing_key SenderKeySigningKeyMissing in
    let? id := SenderKeyState.sender_key_id sender_key_state in
    let? iteration := SenderMessageKey.iteration sender_key in
    Ok (ciphertext, signing_key, id, iteration) in
  match before with
  | Ok (ciphertext, signing_key, id, iteration) =>
      let '(skm, c) := SenderKeyMessage.new id iteration ciphertext c signing_key in
      (let? skm := skm in
       let? chain := SenderKeyState.sender_chain_key sender_key_state in
       let? next := SenderChainKey.next chain in
       let? s := SenderKeyState.set_sender_chain_key sender_key_state next in
       Ok (skm, s), c)
  | Err e => (Err e, c)
  | Panic => (Panic, c)
  end.

Definition group_encrypt (sender_key_id : SenderKeyName) (plaintext : bytes) (ctx : Context)
    : GroupM bytes :=
  let! loaded := Stores.load_sender_key sender_key_id ctx in
  let! record := st_lift (ok_or loaded InvalidSenderKeyId) in
  let! i := st_lift (SenderKeyRecord.sender_key_state record) in
  let! sender_key_state := st_lift (unwrap (SenderKeyRecord.states record !! i)) in
  let! '(skm, sender_key_state) :=
    Stores.with_rng (fun c => encrypt_with_sender_state plaintext c sender_key_state) in
  let record := SenderKeyRecord.mk (<[i := sender_key_state]> (SenderKeyRecord.states record)) in
  let! _ := Stores.store_sender_key sender_key_id record ctx in
  st_ret (SenderKeyMessage.serialized skm).

Definition group_decrypt (skm_bytes : bytes) (sender_key_id : SenderKeyName) (ctx : Context)
    : GroupM bytes :=
  let! loaded := Stores.load_sender_key sender_key_id ctx in
  let! record := st_lift (ok_or loaded InvalidSenderKeyId) in
  let! skm := st_lift (SenderKeyMessage.try_from skm_bytes) in
  let! i := st_lift (SenderKeyRecord.sender_key_state_for_keyid record (SenderKeyMessage.key_id skm)) in
  let! '(sender_key, record) := on_record record (SenderKeyRecord.borrow_mut i (
    let! signing_key := st_gets SenderKeyState.signing_key_public in
    let! valid := st_lift (SenderKeyMessage.verify_signature skm signing_key) in
    if negb valid then st_lift (Err SignatureValidationFailed)
    else get_sender_key (SenderKeyMessage.iteration skm))) in
  let! cipher_key := st_lift (SenderMessageKey.cipher_key sender_key) in
  let! iv := st_lift (SenderMessageKey.iv sender_key) in
  let! plaintext := st_lift (aes_256_cbc_decrypt (SenderKeyMessage.ciphertext skm) cipher_key iv) in
  let! _ := Stores.store_sender_key sender_key_id record ctx in
  st_ret plaintext.

Definition process_sender_key_distribution_message (sender_key_name : SenderKeyName)
    (skdm : SenderKeyDistributionMessage) (ctx : Context) : GroupM unit :=
  let! loaded := Stores.load_sender_key sender_key_name ctx in
  let sender_key_record := default SenderKeyRecord.new_empty loaded in
  let! sender_key_record := st_lift (SenderKeyRecord.add_sender_key_state sender_key_record
    (SenderKeyDistributionMessage.id skdm) (SenderKeyDistributionMessage.iteration skdm)
    (SenderKeyDistributionMessage.chain_key skdm) (SenderKeyDistributionMessage.signing_key skdm)
    None) in
  Stores.store_sender_key sender_key_name sender_key_record ctx.

Definition create_sender_key_distribution_message (sender_key_name : SenderKeyName)
    (ctx : Context) : GroupM SenderKeyDistributionMessage :=
  let! loaded := Stores.load_sender_key sender_key_name ctx in
  let sender_key_record := default SenderKeyRecord.new_empty loaded in
  let! empty := st_lift (SenderKeyRecord.is_empty sender_key_record) in
  let! sender_key_record :=
    if empty : bool then
      let! r := Stores.with_rng (fun c => let '(r, c) := rng_gen_u32 c in (Ok r, c)) in
      let sender_key_id := Z.shiftr r 1 in
      let iteration := 0%Z in
      let! sender_key := Stores.with_rng (fun c => let '(k, c) := rng_gen_array32 c in (Ok k, c)) in
      let! signing_key := Stores.with_rng (fun c => let '(kp, c) := KeyPair.generate c in (Ok kp, c)) in
      let! sender_key_record := st_lift (SenderKeyRecord.set_sender_key_state sender_key_record
        sender_key_id iteration sender_key (KeyPair.public_key signing_key)
        (Some (KeyPair.private_key signing_key))) in
      let! _ := Stores.store_sender_key sender_key_name sender_key_record ctx in
      st_ret sender_key_record
    else st_ret sender_key_record in
  let! i := st_lift (SenderKeyRecord.sender_key_state sender_key_record) in
  let! state := st_lift (unwrap (SenderKeyRecord.states sender_key_record !! i)) in
  let! sender_chain_key := st_lift (SenderKeyState.sender_chain_key state) in
  let! id := st_lift (SenderKeyState.sender_key_id state) in
  let! iteration := st_lift (SenderChainKey.iteration sender_chain_key) in
  let! seed := st_lift (SenderChainKey.seed sender_chain_key) in
  let! signing_key := st_lift (SenderKeyState.signing_key_public state) in
  st_lift (SenderKeyDistributionMessage.new id iteration seed signing_key).
End StoreOperations.
