(* ===== verification/SenderChain.v ===== *)
(** Receiving on a sender key: what [get_sender_key] of [group_cipher.rs]
    promises, as an abstract receiver, and the refinement that it delivers it. *)

From S2P Require Import Prelude Error Crates Crypto Curve Proto Protocol RatchetKeys SessionState SenderKeys.
From S2P Require Import Storage GroupCipher.

(** * The abstract receiver

    It knows the number of the next message and which earlier ones are still
    missing, at most [MAX_MESSAGE_KEYS] of them, the oldest given up first. *)

Module Receiver.
Record t := mk { next : Z; missing : list Z }.

Inductive answer := Deliver | Seen | TooFar.

Definition start (n : Z) : t := mk n [].

(** The youngest [MAX_MESSAGE_KEYS]. *)
Definition keep (l : list Z) : list Z := drop (length l - MAX_MESSAGE_KEYS) l.

Definition receive (it : Z) (r : t) : answer * t :=
  if (it <? next r)%Z then
    if bool_decide (it ∈ missing r)
    then (Deliver, mk (next r) (filter (fun j => j <> it) (missing r)))
    else (Seen, r)
  else if (MAX_FORWARD_JUMPS <? it - next r)%Z then (TooFar, r)
  else (Deliver, mk (it + 1) (keep (missing r ++ seqZ (next r) (it - next r)))).

(** What is missing was skipped, once, and is not too much. *)
Definition wf (first : Z) (r : t) : Prop :=
  (first <= next r)%Z /\ length (missing r) <= MAX_MESSAGE_KEYS /\ NoDup (missing r) /\
  forall i, i ∈ missing r -> (first <= i < next r)%Z.

Lemma start_wf n : wf n (start n).
Proof. split_and!; [done|cbn; lia|constructor|]. intros i Hi. by apply elem_of_nil in Hi. Qed.

Lemma keep_sublist l : keep l `sublist_of` l.
Proof. apply sublist_drop. Qed.

Lemma length_keep l : length (keep l) <= MAX_MESSAGE_KEYS.
Proof. unfold keep. rewrite length_drop. lia. Qed.

Lemma keep_elem i l : i ∈ keep l -> i ∈ l.
Proof.
  intros Hi. rewrite <-(take_drop (length l - MAX_MESSAGE_KEYS) l). apply elem_of_app. by right.
Qed.

Lemma keep_small l : length l <= MAX_MESSAGE_KEYS -> keep l = l.
Proof. intros Hl. unfold keep. by replace (length l - MAX_MESSAGE_KEYS) with 0 by lia. Qed.

(** Keeping the youngest after every addition is keeping the youngest of all. *)
Lemma keep_app_keep l k : keep (keep l ++ k) = keep (l ++ k).
Proof.
  unfold keep. rewrite !length_app, length_drop, !drop_app, drop_drop, !length_drop.
  f_equal; f_equal; lia.
Qed.

Lemma skipped_NoDup first r it :
  wf first r -> NoDup (missing r ++ seqZ (next r) (it - next r)).
Proof.
  intros (_ & _ & Hnd & Hb). apply list.NoDup_app. split_and!; [done| |apply NoDup_seqZ].
  intros i Hi Hs%elem_of_seqZ. apply Hb in Hi. lia.
Qed.

Lemma receive_wf first it r : wf first r -> wf first (receive it r).2.
Proof.
  intros Hwf. pose proof Hwf as (Hn & Hl & Hnd & Hb). unfold receive.
  destruct (Z.ltb_spec it (next r)) as [Hlt|Hge]; [|destruct (Z.ltb_spec MAX_FORWARD_JUMPS (it - next r))].
  - case_bool_decide; [|done]. split_and!; cbn; [done| |by apply list.NoDup_filter|].
    { pose proof (length_filter (fun j => j <> it) (missing r)). lia. }
    intros i [_ Hi]%list_elem_of_filter. by apply Hb.
  - done.
  - split_and!; cbn; [lia|apply length_keep| |].
    + eapply sublist_NoDup; [by eapply (skipped_NoDup first r it)|apply keep_sublist].
    + intros i [Hi|Hi%elem_of_seqZ]%keep_elem%elem_of_app; [apply Hb in Hi; lia|lia].
Qed.

(** What was delivered is not delivered again. *)
Lemma receive_again first it r :
  wf first r -> (receive it r).1 = Deliver ->
  receive it (receive it r).2 = (Seen, (receive it r).2).
Proof.
  intros (Hn & _ & _ & Hb). unfold receive at 1 3 4.
  destruct (Z.ltb_spec it (next r)) as [Hlt|Hge]; [|destruct (Z.ltb_spec MAX_FORWARD_JUMPS (it - next r))].
  - case_bool_decide; [|done]. intros _. unfold receive. cbn.
    rewrite (proj2 (Z.ltb_lt _ _)) by done. rewrite bool_decide_eq_false_2; [done|].
    by intros [Hne _]%list_elem_of_filter.
  - done.
  - intros _. unfold receive. cbn. rewrite (proj2 (Z.ltb_lt _ _)) by lia.
    rewrite bool_decide_eq_false_2; [done|].
    intros [Hi|Hi%elem_of_seqZ]%keep_elem%elem_of_app; [apply Hb in Hi; lia|lia].
Qed.

(** ** A sequence of messages *)

Fixpoint receive_all (its : list Z) (r : t) : list answer * t :=
  match its with
  | [] => ([], r)
  | it :: its =>
      let '(a, r) := receive it r in
      let '(l, r) := receive_all its r in (a :: l, r)
  end.

(** Every message is delivered the first time it comes. *)
Fixpoint once (seen : list Z) (its : list Z) : list answer :=
  match its with
  | [] => []
  | it :: its => (if bool_decide (it ∈ seen) then Seen else Deliver) :: once (it :: seen) its
  end.

(** The receiver has lost track of nothing: what is missing is exactly what has
    not been seen. *)
Definition tracks (first : Z) (seen : list Z) (r : t) : Prop :=
  wf first r /\ (next r <= first + Z.of_nat MAX_MESSAGE_KEYS)%Z /\
  forall i, (first <= i)%Z -> i ∈ seen <-> (i < next r)%Z /\ i ∉ missing r.

Lemma missing_length first r it :
  wf first r -> (next r <= it)%Z ->
  (Z.of_nat (length (missing r ++ seqZ (next r) (it - next r))) <= it - first)%Z.
Proof.
  intros Hwf Hit. pose proof Hwf as (Hn & _ & Hnd & Hb).
  assert (missing r ++ seqZ (next r) (it - next r) ⊆+ seqZ first (it - first)) as Hsub.
  { apply NoDup_submseteq; [by apply (skipped_NoDup first)|].
    intros i [Hi|Hi%elem_of_seqZ]%elem_of_app; apply elem_of_seqZ; [apply Hb in Hi; lia|lia]. }
  apply submseteq_length in Hsub. rewrite length_seqZ in Hsub. lia.
Qed.

Lemma receive_tracks first seen it r :
  tracks first seen r -> (first <= it < first + Z.of_nat MAX_MESSAGE_KEYS)%Z ->
  (receive it r).1 = (if bool_decide (it ∈ seen) then Seen else Deliver) /\
  tracks first (it :: seen) (receive it r).2.
Proof.
  intros (Hwf & Hmax & Hseen) Hit. pose proof (receive_wf first it r Hwf) as Hwf'.
  pose proof Hwf as (Hn & _ & _ & Hb). pose proof (Hseen it ltac:(lia)) as Hsit.
  unfold receive in *. destruct (Z.ltb_spec it (next r)) as [Hlt|Hge].
  - case_bool_decide as Hin.
    + rewrite bool_decide_eq_false_2 by tauto. split; [done|]. split_and!; [done|done|].
      intros i Hi. cbn. rewrite elem_of_cons, Hseen, list_elem_of_filter by done.
      destruct (decide (i = it)) as [->|]; tauto.
    + rewrite bool_decide_eq_true_2 by tauto. split; [done|]. split_and!; [done|done|].
      intros i Hi. cbn. rewrite elem_of_cons, <-Hseen by done.
      split; [intros [->|]; tauto|tauto].
  - unfold MAX_FORWARD_JUMPS, MAX_MESSAGE_KEYS in *. rewrite (proj2 (Z.ltb_ge _ _)) in * by lia.
    rewrite bool_decide_eq_false_2 by (rewrite Hsit; lia). split; [done|].
    pose proof (missing_length first r it Hwf Hge).
    split_and!; [done|cbn [next snd]; unfold MAX_MESSAGE_KEYS; lia|].
    intros i Hi. cbn [next missing snd].
    rewrite keep_small by (unfold MAX_MESSAGE_KEYS; lia).
    rewrite elem_of_cons, elem_of_app, elem_of_seqZ, Hseen by done.
    destruct (decide (i = it)) as [->|Hne]; split; intros; try lia.
    + split; [lia|]. intros [Hm|?]; [apply Hb in Hm; lia|lia].
    + split; [lia|]. intros [?|?]; [naive_solver|lia].
    + right. split; [lia|]. naive_solver lia.
Qed.

Lemma receive_all_tracks first its : forall seen r,
  tracks first seen r ->
  (forall i, i ∈ its -> first <= i < first + Z.of_nat MAX_MESSAGE_KEYS)%Z ->
  (receive_all its r).1 = once seen its.
Proof.
  induction its as [|it its IH]; intros seen r Hr Hits; [done|]. cbn [receive_all once].
  destruct (receive_tracks first seen it r Hr) as [Ha Hr']; [apply Hits; constructor|].
  destruct (receive it r) as [a r'] eqn:Hrec. cbn [fst snd] in *. subst a.
  specialize (IH (it :: seen) r' Hr' ltac:(intros i Hi; apply Hits; by constructor)).
  destruct (receive_all its r') as [l r'']. cbn [fst] in *. by rewrite IH.
Qed.

Lemma start_tracks first : tracks first [] (start first).
Proof.
  split_and!; [apply start_wf|cbn; unfold MAX_MESSAGE_KEYS; lia|].
  intros i Hi. cbn. rewrite elem_of_nil. lia.
Qed.
End Receiver.

(** * The refinement *)

(** What a change of the receiving side leaves alone. *)
Definition same_sender (s s' : SenderKeyState) : Prop :=
  SenderKeyStateStructure.sender_key_id (SenderKeyState.state s')
    = SenderKeyStateStructure.sender_key_id (SenderKeyState.state s) /\
  SenderKeyStateStructure.sender_signing_key (SenderKeyState.state s')
    = SenderKeyStateStructure.sender_signing_key (SenderKeyState.state s).

Section Refinement.
Context `{BuildConfig, Crates, ProtoCodecs, !HashLaws}.

(** The chain key of message [n] of the chain that starts at [c0], and the form
    in which its message key is stored. *)
Definition chain_at (c0 : SenderChainKey) (n : Z) : SenderChainKey :=
  SenderChainKey.advanced c0 (Z.to_nat (n - SenderChainKey.iteration_ c0)).

Definition stored_key (c0 : SenderChainKey) (i : Z) : SenderMessageKeyStructure.t :=
  SenderMessageKeyStructure.mk i
    (SenderMessageKey.seed_ (SenderChainKey.key (chain_at c0 i))).

Definition stored_keys (s : SenderKeyState) : list SenderMessageKeyStructure.t :=
  SenderKeyStateStructure.sender_message_keys (SenderKeyState.state s).

(** The state [s] does what the abstract receiver [r] does, for the sender
    whose chain starts at [c0]. *)
Record follows (c0 : SenderChainKey) (s : SenderKeyState) (r : Receiver.t) : Prop := {
  follows_wf : Receiver.wf (SenderChainKey.iteration_ c0) r;
  follows_max : (Receiver.next r <= u32_max)%Z;
  follows_chain : SenderKeyState.sender_chain_key s = Ok (chain_at c0 (Receiver.next r));
  follows_keys : stored_keys s = stored_key c0 <$> Receiver.missing r;
}.

Lemma chain_at_iteration c0 n :
  (SenderChainKey.iteration_ c0 <= n)%Z -> SenderChainKey.iteration_ (chain_at c0 n) = n.
Proof. intros. cbn. lia. Qed.

Lemma chain_at_next c0 n :
  (SenderChainKey.iteration_ c0 <= n)%Z -> (n < u32_max)%Z ->
  SenderChainKey.next (chain_at c0 n) = Ok (chain_at c0 (n + 1)).
Proof.
  intros Hn Hmax. rewrite SenderChainKey.next_ok by (rewrite chain_at_iteration; lia).
  unfold chain_at. rewrite SenderChainKey.sender_chain_key_advanced_add. do 2 f_equal. lia.
Qed.

Lemma key_stored c0 n :
  (SenderChainKey.iteration_ c0 <= n)%Z ->
  SenderMessageKey.as_protobuf (SenderChainKey.key (chain_at c0 n)) = Ok (stored_key c0 n) /\
  SenderMessageKey.from_protobuf (stored_key c0 n) = Ok (SenderChainKey.key (chain_at c0 n)).
Proof.
  intros Hn. destruct (SenderChainKey.sender_message_key_ok (chain_at c0 n)) as (_ & _ & Hi & Hf).
  rewrite chain_at_iteration in Hi, Hf by done. split; [|done].
  unfold SenderMessageKey.as_protobuf, stored_key. by rewrite Hi.
Qed.

Lemma remove_front_stored c0 l :
  remove_front_while MAX_MESSAGE_KEYS (stored_key c0 <$> l) = stored_key c0 <$> Receiver.keep l.
Proof.
  rewrite remove_front_while_spec, length_fmap. unfold Receiver.keep. by rewrite fmap_drop.
Qed.

(** The loop stores the keys of the messages it passes. *)
Lemma skip_sender_keys_spec c0 n : forall s nx m,
  (SenderChainKey.iteration_ c0 <= nx)%Z -> (nx + Z.of_nat n <= u32_max)%Z ->
  stored_keys s = stored_key c0 <$> m -> length m <= MAX_MESSAGE_KEYS ->
  exists s',
    skip_sender_keys n (chain_at c0 nx) (nx + Z.of_nat n) s = (Ok (chain_at c0 (nx + Z.of_nat n)), s') /\
    same_sender s s' /\
    stored_keys s' = stored_key c0 <$> Receiver.keep (m ++ seqZ nx (Z.of_nat n)).
Proof.
  induction n as [|n IH]; intros s nx m Hi Hmax Hm Hl; cbn [skip_sender_keys];
    rewrite (st_bind_eq _ _ s _ s (eq_refl : st_lift (SenderChainKey.iteration (chain_at c0 nx)) s = _));
    rewrite chain_at_iteration by done.
  - rewrite Z.add_0_r, Z.ltb_irrefl. exists s. split_and!; [done|done|].
    cbn. by rewrite app_nil_r, Receiver.keep_small.
  - rewrite (proj2 (Z.ltb_lt _ _)) by lia.
    destruct (SenderChainKey.sender_message_key_ok (chain_at c0 nx)) as (Hk & _).
    destruct (key_stored c0 nx Hi) as [Hp _].
    set (s1 := SenderKeyState.mk (SenderKeyStateStructure.with_sender_message_keys
      (stored_key c0 <$> Receiver.keep (m ++ [nx])) (SenderKeyState.state s))).
    rewrite (st_bind_eq _ _ s (SenderChainKey.key (chain_at c0 nx)) s) by (unfold st_lift; by rewrite Hk).
    rewrite (st_bind_eq _ _ s tt s1).
    2: { unfold on_sender_state, st_update, SenderKeyState.add_sender_message_key. rewrite Hp. cbn [obind].
         unfold stored_keys in Hm. rewrite Hm.
         unfold s1. by rewrite <-remove_front_stored, fmap_app. }
    rewrite (st_bind_eq _ _ s1 (chain_at c0 (nx + 1)) s1)
      by (unfold st_lift; rewrite chain_at_next by lia; done).
    replace (nx + Z.of_nat (S n))%Z with (nx + 1 + Z.of_nat n)%Z by lia.
    destruct (IH s1 (nx + 1)%Z (Receiver.keep (m ++ [nx]))) as (s' & Hs' & Hsame & Hkeys);
      [lia|lia|done|apply Receiver.length_keep|].
    exists s'. split_and!; [done|done|]. rewrite Hkeys, Receiver.keep_app_keep.
    rewrite <-app_assoc. cbn [app]. rewrite (seqZ_cons nx) by lia.
    by replace (Z.pred (Z.of_nat (S n))) with (Z.of_nat n) by lia.
Qed.

Lemma filter_NoDup_delete (m : list Z) i it :
  NoDup m -> m !! i = Some it -> delete i m = filter (fun j => j <> it) m.
Proof.
  intros Hnd Hi. rewrite <-(take_drop_middle m i it Hi) in Hnd |- * at 2.
  rewrite delete_take_drop, list.filter_app. apply list.NoDup_app in Hnd as (_ & Hnot & Hnd).
  apply list.NoDup_cons in Hnd as [Hnot' _].
  rewrite filter_cons_False by (intros Hne; by apply Hne).
  rewrite !filter_all; [done| |].
  - by intros j Hj ->.
  - intros j Hj ->. apply (Hnot it Hj). left.
Qed.

(** Taking out a stored key. *)
Lemma remove_sender_message_key_spec c0 s m it :
  stored_keys s = stored_key c0 <$> m -> NoDup m ->
  (forall i, i ∈ m -> (SenderChainKey.iteration_ c0 <= i)%Z) ->
  if bool_decide (it ∈ m)
  then exists s', SenderKeyState.remove_sender_message_key it s
         = (Ok (Some (SenderChainKey.key (chain_at c0 it))), s') /\ same_sender s s' /\
       SenderKeyState.sender_chain_key s' = SenderKeyState.sender_chain_key s /\
       stored_keys s' = stored_key c0 <$> filter (fun j => j <> it) m
  else SenderKeyState.remove_sender_message_key it s = (Ok None, s).
Proof.
  intros Hm Hnd Hall. unfold SenderKeyState.remove_sender_message_key, position.
  fold (stored_keys s). rewrite Hm, list_find_fmap.
  destruct (list_find _ m) as [[i j]|] eqn:Hf; cbn [fmap option_fmap option_map prod_map fst].
  - apply list_find_Some in Hf as (Hi & Hj & _). cbn in Hj. apply Z.eqb_eq in Hj as ->.
    rewrite bool_decide_eq_true_2 by by eapply list_elem_of_lookup_2.
    change (id i) with i. rewrite list_lookup_fmap, Hi.
    set (s' := SenderKeyState.mk (SenderKeyStateStructure.with_sender_message_keys
      (list_remove_at i (stored_key c0 <$> m)) (SenderKeyState.state s))). exists s'.
    rewrite (st_bind_eq _ _ s (stored_key c0 it) s) by done.
    rewrite (st_bind_eq _ _ s tt s') by done.
    assert (SenderChainKey.iteration_ c0 <= it)%Z as Hle by (apply Hall; by eapply list_elem_of_lookup_2).
    rewrite (st_bind_eq _ _ s' (SenderChainKey.key (chain_at c0 it)) s')
      by (unfold st_lift; by rewrite (proj2 (key_stored c0 it Hle))).
    split_and!; [done|done|done|]. cbn.
    by rewrite list_remove_at_delete, <-list_fmap_delete, (filter_NoDup_delete m i it).
  - rewrite bool_decide_eq_false_2; [done|].
    apply list_find_None in Hf. rewrite list.Forall_forall in Hf.
    intros Hin. apply (Hf it Hin). cbn. by rewrite Z.eqb_refl.
Qed.

(** What the caller of [get_sender_key] is told. *)
Definition answer_result (c0 : SenderChainKey) (it : Z) (r : Receiver.t) (a : Receiver.answer)
    : Result SenderMessageKey :=
  match a with
  | Receiver.Deliver => Ok (SenderChainKey.key (chain_at c0 it))
  | Receiver.Seen => Err (DuplicatedMessage (Receiver.next r) it)
  | Receiver.TooFar => Err (InvalidMessage "message from too far into the future")
  end.

Lemma get_sender_key_follows c0 s r it :
  follows c0 s r -> (it < u32_max)%Z ->
  exists s', get_sender_key it s = (answer_result c0 it r (Receiver.receive it r).1, s') /\
    follows c0 s' (Receiver.receive it r).2 /\ same_sender s s' /\
    ((Receiver.receive it r).1 <> Receiver.Deliver -> s' = s).
Proof.
  intros Hs Hit. pose proof Hs as [(Hn & Hl & Hnd & Hb) Hmax Hc Hk].
  pose proof (Receiver.receive_wf _ it r (follows_wf _ _ _ Hs)) as Hwf'.
  unfold get_sender_key.
  rewrite (st_bind_eq _ _ s (chain_at c0 (Receiver.next r)) s) by (unfold st_gets; by rewrite Hc).
  rewrite (st_bind_eq _ _ s (Receiver.next r) s)
    by (unfold st_lift, SenderChainKey.iteration; by rewrite chain_at_iteration).
  unfold Receiver.receive in *.
  destruct (Z.ltb_spec it (Receiver.next r)) as [Hlt|Hge].
  - pose proof (remove_sender_message_key_spec c0 s (Receiver.missing r) it Hk Hnd
      ltac:(intros i Hi; apply Hb in Hi; lia)) as Hrem.
    case_bool_decide as Hin.
    + destruct Hrem as (s' & Hrem & Hsame & Hchain & Hkeys).
      rewrite (st_bind_eq _ _ _ _ _ Hrem). exists s'. split_and!; [done| |done|done].
      split; [done|done| |done]. by rewrite Hchain.
    + rewrite (st_bind_eq _ _ _ _ _ Hrem). exists s. by split_and!.
  - destruct (Z.ltb_spec MAX_FORWARD_JUMPS (it - Receiver.next r)) as [Hfar|Hnear].
    { exists s. by split_and!. }
    destruct (skip_sender_keys_spec c0 (Z.to_nat (it - Receiver.next r)) s (Receiver.next r)
      (Receiver.missing r)) as (s1 & Hskip & Hsame & Hkeys); [done|lia|done|done|].
    rewrite Z2Nat.id in Hskip, Hkeys by lia.
    replace (Receiver.next r + (it - Receiver.next r))%Z with it in Hskip by lia.
    rewrite (st_bind_eq _ _ _ _ _ Hskip).
    rewrite (st_bind_eq _ _ s1 (chain_at c0 (it + 1)) s1)
      by (unfold st_lift; by rewrite chain_at_next by lia).
    eexists. rewrite (st_bind_eq _ _ s1 tt _) by done. split; [|split; [|split]].
    + unfold st_lift. by rewrite (proj1 (SenderChainKey.sender_message_key_ok (chain_at c0 it))).
    + split; cbn [Receiver.next Receiver.missing snd]; [done|lia| |done].
      unfold SenderKeyState.sender_chain_key. cbn. unfold SenderChainKey.new, chain_at. cbn.
      done.
    + done.
    + done.
Qed.

(** The last message, 2^32 - 1: where it is at most 2000 ahead, there is no next number. *)
Definition at_the_end (c0 : SenderChainKey) (s s' : SenderKeyState) (r : Receiver.t)
    (res : Result SenderMessageKey) : Prop :=
  if (MAX_FORWARD_JUMPS <? u32_max - Receiver.next r)%Z
  then res = Err (InvalidMessage "message from too far into the future") /\ s' = s
  else if overflow_checks then res = Panic
  else res = Ok (SenderChainKey.key (chain_at c0 u32_max)) /\
       SenderKeyState.sender_chain_key s'
         = Ok (SenderChainKey.mk 0 (SenderChainKey.chain_key_ (chain_at c0 (u32_max + 1)))).

Lemma chain_at_last c0 :
  (SenderChainKey.iteration_ c0 <= u32_max)%Z ->
  SenderChainKey.next (chain_at c0 u32_max)
    = if overflow_checks then Panic
      else Ok (SenderChainKey.mk 0 (SenderChainKey.chain_key_ (chain_at c0 (u32_max + 1)))).
Proof.
  intros Hi. unfold SenderChainKey.next, u32_add. rewrite chain_at_iteration by done.
  destruct overflow_checks; [done|]. cbn [obind]. unfold chain_at.
  replace (Z.to_nat (u32_max + 1 - SenderChainKey.iteration_ c0))
    with (Z.to_nat (u32_max - SenderChainKey.iteration_ c0) + 1) by lia.
  by rewrite <-SenderChainKey.sender_chain_key_advanced_add.
Qed.

Lemma get_sender_key_last c0 s r :
  follows c0 s r -> exists res s', get_sender_key u32_max s = (res, s') /\ at_the_end c0 s s' r res.
Proof.
  intros [(Hn & Hl & Hnd & Hb) Hmax Hc Hk]. unfold get_sender_key, at_the_end.
  rewrite (st_bind_eq _ _ s (chain_at c0 (Receiver.next r)) s) by (unfold st_gets; by rewrite Hc).
  rewrite (st_bind_eq _ _ s (Receiver.next r) s)
    by (unfold st_lift, SenderChainKey.iteration; by rewrite chain_at_iteration).
  rewrite (proj2 (Z.ltb_ge _ _)) by lia.
  destruct (Z.ltb_spec MAX_FORWARD_JUMPS (u32_max - Receiver.next r)) as [Hfar|Hnear]; [by do 2 eexists|].
  destruct (skip_sender_keys_spec c0 (Z.to_nat (u32_max - Receiver.next r)) s (Receiver.next r)
    (Receiver.missing r)) as (s1 & Hskip & _); [done|lia|done|done|].
  rewrite Z2Nat.id in Hskip by lia.
  replace (Receiver.next r + (u32_max - Receiver.next r))%Z with u32_max in Hskip by lia.
  rewrite (st_bind_eq _ _ _ _ _ Hskip). unfold st_bind at 1, st_lift at 1.
  rewrite chain_at_last by lia. destruct overflow_checks; [by do 2 eexists|].
  unfold st_bind, on_sender_state, st_update. cbn [SenderKeyState.set_sender_chain_key]. unfold st_lift.
  rewrite (proj1 (SenderChainKey.sender_message_key_ok (chain_at c0 u32_max))). by do 2 eexists.
Qed.

(** A state that was just made from a distribution message. *)
Lemma new_follows id it ck pk sk s :
  SenderKeyState.new id it ck pk sk = Ok s -> (it <= u32_max)%Z ->
  follows (SenderChainKey.mk it ck) s (Receiver.start it).
Proof.
  intros [= <-] Hit. split; [apply Receiver.start_wf|done| |done].
  unfold chain_at. cbn [Receiver.next Receiver.start SenderChainKey.iteration_].
  by rewrite Z.sub_diag, SenderChainKey.sender_chain_key_advanced_0.
Qed.

(** A sequence of calls, and what the abstract receiver answers to it. *)
Fixpoint get_sender_keys (its : list Z) (s : SenderKeyState)
    : list (Result SenderMessageKey) * SenderKeyState :=
  match its with
  | [] => ([], s)
  | it :: its =>
      let '(k, s) := get_sender_key it s in
      let '(l, s) := get_sender_keys its s in (k :: l, s)
  end.

Fixpoint receiver_keys (c0 : SenderChainKey) (its : list Z) (r : Receiver.t)
    : list (Result SenderMessageKey) * Receiver.t :=
  match its with
  | [] => ([], r)
  | it :: its =>
      let '(a, r') := Receiver.receive it r in
      let '(l, r'') := receiver_keys c0 its r' in (answer_result c0 it r a :: l, r'')
  end.

Lemma get_sender_keys_follows c0 its : forall s r,
  follows c0 s r -> (forall it, it ∈ its -> it < u32_max)%Z ->
  exists s', get_sender_keys its s = ((receiver_keys c0 its r).1, s') /\
    follows c0 s' (receiver_keys c0 its r).2.
Proof.
  induction its as [|it its IH]; intros s r Hs Hits; [by exists s|].
  destruct (get_sender_key_follows c0 s r it Hs) as (s1 & Hk & Hs1 & _); [apply Hits; constructor|].
  cbn [get_sender_keys receiver_keys]. rewrite Hk.
  destruct (Receiver.receive it r) as [a r1]. cbn [fst snd] in *.
  destruct (IH s1 r1 Hs1) as (s2 & -> & Hs2); [intros j Hj; apply Hits; by constructor|].
  destruct (receiver_keys c0 its r1) as [l r2]. by exists s2.
Qed.

(** C7: [get_sender_key] refines the abstract receiver.  Started from a new
    sender key state, any sequence of calls with numbers below 2^32 - 1 answers, call by
    call, what the
    receiver answers: the message key of exactly that message of the sender's
    chain when it has not been given out, a duplicate error when it has (or was
    given up as one of more than 2000 missing ones), an error when it lies more
    than 2000 ahead.  The state keeps the receiver's bookkeeping: its chain key
    is the next one, its stored keys are those of the missing messages.  A call with the
    last number, 2^32 - 1, after that is an error when it lies more than 2000 ahead;
    otherwise it panics in a build with overflow checks, and gives the right key in a
    build without them, where the number of the chain wraps to 0. *)
Theorem get_sender_key_refines_receiver id it ck pk sk its s :
  SenderKeyState.new id it ck pk sk = Ok s -> (it <= u32_max)%Z ->
  (forall i, i ∈ its -> i < u32_max)%Z ->
  let c0 := SenderChainKey.mk it ck in
  exists s', get_sender_keys its s = ((receiver_keys c0 its (Receiver.start it)).1, s') /\
    follows c0 s' (receiver_keys c0 its (Receiver.start it)).2 /\
    exists res s'', get_sender_key u32_max s' = (res, s'') /\
      at_the_end c0 s' s'' (receiver_keys c0 its (Receiver.start it)).2 res.
Proof.
  intros Hs Hit Hits c0. destruct (get_sender_keys_follows c0 its s (Receiver.start it)) as (s' & Hk & Hf);
    [by eapply new_follows|done|].
  exists s'. split_and!; [done..|]. by apply get_sender_key_last.
Qed.
End Refinement.
