(* ===== verification/Fingerprint.v ===== *)
(** Safety numbers: displayable and scannable fingerprints ([fingerprint.rs]). *)

From S2P Require Import Prelude Error Crates Curve IdentityKey Proto.
From Stdlib Require Import Strings.Ascii.
From stdpp Require Import pretty.

(** [{:05}] of an unsigned number. *)
Fixpoint zeros (n : nat) : string := match n with O => "" | S n => String "0"%char (zeros n) end.
Definition format_05 (n : Z) : string :=
  let s := pretty (Z.to_N n) in
  (zeros (5 - String.length s) +:+ s)%string.

(** [a < b] on [String]s: the order of their bytes. *)
Definition string_lt (a b : string) : bool :=
  match String.compare a b with Lt => true | _ => false end.

Module DisplayableFingerprint.
Record t := mk { local : string; remote : string }.

(** [impl fmt::Display]. *)
Definition display (d : t) : string :=
  if string_lt (local d) (remote d) then (local d +:+ remote d)%string
  else (remote d +:+ local d)%string.

Definition read5_mod_100k (fprint : bytes) : Result Z :=
  let? _ := rust_assert (length fprint =? 5)%nat in
  let x := fold_left (fun acc x => acc * 256 + u8_val x)%Z fprint 0%Z in
  Ok (x mod 100000)%Z.

(** The chunk [i] of five bytes, formatted. *)
Definition encoded_chunk (fprint : bytes) (i : nat) : Result string :=
  let? chunk := slice (5 * i) (5 * i + 5) fprint in
  let? n := read5_mod_100k chunk in
  Ok (format_05 n).

Definition get_encoded_string (fprint : bytes) : Result string :=
  if (length fprint <? 30)%nat
  then Err (InvalidArgument "DisplayableFingerprint created with short encoding")
  else
    let? s0 := encoded_chunk fprint 0 in
    let? s1 := encoded_chunk fprint 1 in
    let? s2 := encoded_chunk fprint 2 in
    let? s3 := encoded_chunk fprint 3 in
    let? s4 := encoded_chunk fprint 4 in
    let? s5 := encoded_chunk fprint 5 in
    Ok (s0 +:+ s1 +:+ s2 +:+ s3 +:+ s4 +:+ s5)%string.

Definition new (local remote : bytes) : Result t :=
  let? local := get_encoded_string local in
  let? remote := get_encoded_string remote in
  Ok (mk local remote).
End DisplayableFingerprint.
Abbreviation DisplayableFingerprint := DisplayableFingerprint.t.

Module ScannableFingerprint.
Record t := mk { version : Z; local_fingerprint : bytes; remote_fingerprint : bytes }.

(** [\[..32\]] panics on a shorter slice. *)
Definition new {E} (version : Z) (local_fprint remote_fprint : bytes) : outcome E t :=
  let? local := slice 0 32 local_fprint in
  let? remote := slice 0 32 remote_fprint in
  Ok (mk version local remote).

Section Operations.
Context `{Crates, ProtoCodecs}.

Definition deserialize (protobuf : bytes) : Result t :=
  let? fingerprint := decode_message protobuf in
  let? local := ok_or (CombinedFingerprints.local_fingerprint fingerprint) InvalidProtobufEncoding in
  let? remote :=
    ok_or (CombinedFingerprints.remote_fingerprint fingerprint) InvalidProtobufEncoding in
  Ok (mk (CombinedFingerprints.version fingerprint) (LogicalFingerprint.content local)
        (LogicalFingerprint.content remote)).

Definition combined (f : t) : CombinedFingerprints.t :=
  CombinedFingerprints.mk (version f) (Some (LogicalFingerprint.mk (local_fingerprint f)))
    (Some (LogicalFingerprint.mk (remote_fingerprint f))).

Definition serialize (f : t) : Result bytes := Ok (encode (combined f)).

Definition compare (f : t) (combined : bytes) : Result bool :=
  let? combined := decode_message combined in
  if negb (CombinedFingerprints.version combined =? version f)%Z
  then Err FingerprintVersionMismatch
  else
    match CombinedFingerprints.local_fingerprint combined,
          CombinedFingerprints.remote_fingerprint combined with
    | Some local, Some remote =>
        let same1 := ct_eq (LogicalFingerprint.content local) (remote_fingerprint f) in
        let same2 := ct_eq (LogicalFingerprint.content remote) (local_fingerprint f) in
        Ok (same1 && same2)
    | _, _ => Err FingerprintVersionMismatch
    end.
End Operations.
End ScannableFingerprint.
Abbreviation ScannableFingerprint := ScannableFingerprint.t.

Module Fingerprint.
Record t := mk { display : DisplayableFingerprint; scannable : ScannableFingerprint }.

Section Operations.
Context `{Crates}.

(** [for _i in 1..iterations]. *)
Definition get_fingerprint (iterations : Z) (local_id : bytes) (local_key : IdentityKey)
    : Result bytes :=
  if (iterations <=? 1)%Z || (1000000 <? iterations)%Z
  then Err (InvalidArgument ("Invalid fingerprint iterations " +:+ pretty (Z.to_N iterations)))
  else
    let fingerprint_version := [Byte.x00; Byte.x00] in
    let key_bytes := IdentityKey.serialize local_key in
    let buf := sha512_digest (fingerprint_version ++ key_bytes ++ local_id ++ key_bytes) in
    Ok (Nat.iter (Z.to_nat (iterations - 1)) (fun buf => sha512_digest (buf ++ key_bytes)) buf).

Definition new (version iterations : Z) (local_id : bytes) (local_key : IdentityKey)
    (remote_id : bytes) (remote_key : IdentityKey) : Result t :=
  let? local_fingerprint := get_fingerprint iterations local_id local_key in
  let? remote_fingerprint := get_fingerprint iterations remote_id remote_key in
  let? display := DisplayableFingerprint.new local_fingerprint remote_fingerprint in
  let? scannable := ScannableFingerprint.new version local_fingerprint remote_fingerprint in
  Ok (mk display scannable).
End Operations.

Definition display_string (f : t) : Result string := Ok (DisplayableFingerprint.display (display f)).
End Fingerprint.

(** * Properties *)

Lemma string_lt_asym a b : string_lt a b = true -> string_lt b a = false.
Proof.
  unfold string_lt. rewrite (String.compare_antisym a b). by destruct (String.compare b a).
Qed.

Lemma string_lt_total a b : string_lt a b = false -> string_lt b a = false -> a = b.
Proof.
  unfold string_lt. rewrite (String.compare_antisym a b).
  destruct (String.compare b a) eqn:Hc; try done. intros _ _. symmetry. by apply String.compare_eq_iff.
Qed.

Lemma display_symmetric a b :
  DisplayableFingerprint.display (DisplayableFingerprint.mk a b)
  = DisplayableFingerprint.display (DisplayableFingerprint.mk b a).
Proof.
  unfold DisplayableFingerprint.display. cbn.
  destruct (string_lt a b) eqn:Hab; destruct (string_lt b a) eqn:Hba; try done.
  - by rewrite (string_lt_asym _ _ Hab) in Hba.
  - by rewrite (string_lt_total _ _ Hab Hba).
Qed.

Lemma length_string_app a b : String.length (a +:+ b)%string = (String.length a + String.length b)%nat.
Proof. induction a as [|c a IH]; [done|]. simpl. by rewrite IH. Qed.

Lemma pretty_N_go_length k x s :
  (x < 10 ^ N.of_nat k)%N -> (String.length (pretty_N_go x s) <= k + String.length s)%nat.
Proof.
  revert x s. induction k as [|k IH]; intros x s Hx.
  - rewrite N.pow_0_r in Hx. assert (x = 0%N) as -> by lia. by rewrite pretty_N_go_0.
  - destruct (N.eq_dec x 0%N) as [->|]; [rewrite pretty_N_go_0; lia|].
    rewrite pretty_N_go_step by lia.
    etransitivity; [apply IH|simpl; lia].
    rewrite Nat2N.inj_succ, N.pow_succ_r in Hx by lia. apply N.Div0.div_lt_upper_bound. lia.
Qed.

Lemma length_zeros n : String.length (zeros n) = n.
Proof. induction n; simpl; congruence. Qed.

Lemma format_05_length n : (0 <= n < 100000)%Z -> String.length (format_05 n) = 5%nat.
Proof.
  intros Hn. unfold format_05. rewrite length_string_app, length_zeros.
  enough (String.length (pretty (Z.to_N n)) <= 5)%nat by lia.
  unfold pretty, pretty_N. case_decide; [simpl; lia|].
  etransitivity; [apply (pretty_N_go_length 5); simpl; lia|]. simpl. lia.
Qed.

Lemma encoded_chunk_ok fprint i :
  (5 * i + 5 <= length fprint)%nat ->
  exists s, DisplayableFingerprint.encoded_chunk fprint i = Ok s /\ String.length s = 5%nat.
Proof.
  intros Hl. unfold DisplayableFingerprint.encoded_chunk. rewrite slice_ok by lia. cbn [obind].
  unfold DisplayableFingerprint.read5_mod_100k.
  rewrite (proj2 (Nat.eqb_eq _ 5)) by (rewrite length_take, length_drop; lia). cbn [rust_assert obind].
  eexists. split; [done|]. apply format_05_length.
  match goal with |- context [(?x mod 100000)%Z] => pose proof (Z.mod_pos_bound x 100000) end. lia.
Qed.

Lemma get_encoded_string_ok fprint :
  (30 <= length fprint)%nat ->
  exists s, DisplayableFingerprint.get_encoded_string fprint = Ok s /\ String.length s = 30%nat.
Proof.
  intros Hl. unfold DisplayableFingerprint.get_encoded_string.
  rewrite (proj2 (Nat.ltb_ge _ _)) by lia.
  destruct (encoded_chunk_ok fprint 0) as (s0 & -> & H0); [lia|].
  destruct (encoded_chunk_ok fprint 1) as (s1 & -> & H1); [lia|].
  destruct (encoded_chunk_ok fprint 2) as (s2 & -> & H2); [lia|].
  destruct (encoded_chunk_ok fprint 3) as (s3 & -> & H3); [lia|].
  destruct (encoded_chunk_ok fprint 4) as (s4 & -> & H4); [lia|].
  destruct (encoded_chunk_ok fprint 5) as (s5 & -> & H5); [lia|].
  cbn [obind]. eexists. split; [done|]. rewrite !length_string_app. lia.
Qed.

Section Proofs.
Context `{Crates, ProtoCodecs, !HashLaws, !SubtleLaws, !ProtoLaws}.

Definition iterations_ok (n : Z) : Prop := (1 < n <= 1000000)%Z.

Lemma get_fingerprint_ok n id key :
  iterations_ok n -> exists f, Fingerprint.get_fingerprint n id key = Ok f /\ length f = 64%nat.
Proof.
  intros [Hlo Hhi]. unfold Fingerprint.get_fingerprint.
  rewrite (proj2 (Z.leb_gt _ _)), (proj2 (Z.ltb_ge _ _)) by lia. cbn [orb].
  eexists. split; [done|].
  destruct (Z.to_nat (n - 1)); apply sha512_length.
Qed.

(** The fingerprint of one pair of parties, in terms of its two halves. *)
Lemma fingerprint_new_ok v n la ka ra kra fa fb :
  Fingerprint.get_fingerprint n la ka = Ok fa -> length fa = 64%nat ->
  Fingerprint.get_fingerprint n ra kra = Ok fb -> length fb = 64%nat ->
  exists a b, DisplayableFingerprint.get_encoded_string fa = Ok a /\
    DisplayableFingerprint.get_encoded_string fb = Ok b /\
    String.length a = 30%nat /\ String.length b = 30%nat /\
    Fingerprint.new v n la ka ra kra
    = Ok (Fingerprint.mk (DisplayableFingerprint.mk a b)
            (ScannableFingerprint.mk v (take 32 fa) (take 32 fb))).
Proof.
  intros Ha Hla Hb Hlb. unfold Fingerprint.new. rewrite Ha, Hb. cbn [obind].
  unfold DisplayableFingerprint.new.
  destruct (get_encoded_string_ok fa) as (a & -> & Hsa); [lia|].
  destruct (get_encoded_string_ok fb) as (b & -> & Hsb); [lia|].
  cbn [obind]. unfold ScannableFingerprint.new. rewrite !slice_ok by lia. cbn [obind].
  rewrite !drop_0. by exists a, b.
Qed.

Lemma compare_serialized f g b :
  ScannableFingerprint.serialize g = Ok b -> is_u32 (ScannableFingerprint.version g) ->
  ScannableFingerprint.compare f b =
    if (ScannableFingerprint.version g =? ScannableFingerprint.version f)%Z then
      Ok (bool_decide (ScannableFingerprint.local_fingerprint g
                       = ScannableFingerprint.remote_fingerprint f)
          && bool_decide (ScannableFingerprint.remote_fingerprint g
                          = ScannableFingerprint.local_fingerprint f))
    else Err FingerprintVersionMismatch.
Proof.
  intros [= <-] Hv. unfold ScannableFingerprint.compare.
  rewrite decode_message_encode by done. cbn.
  destruct (_ =? _)%Z; [|done]. cbn. by rewrite !ct_eq_spec.
Qed.

(** The two parties of a conversation see the same safety number: for every
    legal iteration count both computations succeed, the displayed strings
    are equal and have 60 characters, and each side's scan of the other's
    code matches. *)
Lemma fingerprint_symmetric v n id_a key_a id_b key_b :
  iterations_ok n -> is_u32 v ->
  exists fa fb ba bb,
    Fingerprint.new v n id_a key_a id_b key_b = Ok fa /\
    Fingerprint.new v n id_b key_b id_a key_a = Ok fb /\
    Fingerprint.display_string fa = Fingerprint.display_string fb /\
    String.length (DisplayableFingerprint.display (Fingerprint.display fa)) = 60%nat /\
    ScannableFingerprint.serialize (Fingerprint.scannable fa) = Ok ba /\
    ScannableFingerprint.serialize (Fingerprint.scannable fb) = Ok bb /\
    ScannableFingerprint.compare (Fingerprint.scannable fa) bb = Ok true /\
    ScannableFingerprint.compare (Fingerprint.scannable fb) ba = Ok true.
Proof.
  intros Hn Hv.
  destruct (get_fingerprint_ok n id_a key_a Hn) as (ha & Ha & Hla).
  destruct (get_fingerprint_ok n id_b key_b Hn) as (hb & Hb & Hlb).
  destruct (fingerprint_new_ok v n id_a key_a id_b key_b ha hb) as (a & b & Hea & Heb & Hsa & Hsb & Hfa); [done..|].
  destruct (fingerprint_new_ok v n id_b key_b id_a key_a hb ha) as (b' & a' & Heb' & Hea' & _ & _ & Hfb); [done..|].
  assert (a' = a) as -> by congruence. assert (b' = b) as -> by congruence.
  do 4 eexists. split; [done|]. split; [done|].
  split; [unfold Fingerprint.display_string; f_equal; apply display_symmetric|].
  split.
  { unfold DisplayableFingerprint.display. cbn. case_match; rewrite length_string_app; lia. }
  split; [done|]. split; [done|].
  split; (erewrite compare_serialized by done); cbn;
    rewrite Z.eqb_refl, !bool_decide_eq_true_2 by done; done.
Qed.

(** An iteration count outside 2..1000000 is refused with an error, and one
    inside never fails; parsing a serialised scannable fingerprint gives it
    back, and a comparison answers a version mismatch with an error and
    otherwise [true] exactly when each side's half is the other's. *)
Lemma scannable_fingerprint_correct f g n id key :
  is_u32 (ScannableFingerprint.version g) ->
  (is_ok (Fingerprint.get_fingerprint n id key) = true <-> iterations_ok n) /\
  Fingerprint.get_fingerprint n id key <> Panic /\
  exists b, ScannableFingerprint.serialize g = Ok b /\ ScannableFingerprint.deserialize b = Ok g /\
    (ScannableFingerprint.compare f b = Err FingerprintVersionMismatch <->
       ScannableFingerprint.version f <> ScannableFingerprint.version g) /\
    (ScannableFingerprint.compare f b = Ok true <->
       ScannableFingerprint.version f = ScannableFingerprint.version g /\
       ScannableFingerprint.local_fingerprint f = ScannableFingerprint.remote_fingerprint g /\
       ScannableFingerprint.remote_fingerprint f = ScannableFingerprint.local_fingerprint g).
Proof.
  intros Hv. split; [|split].
  - unfold Fingerprint.get_fingerprint, iterations_ok.
    destruct (Z.leb_spec n 1); destruct (Z.ltb_spec 1000000 n); cbn; split; (done || lia).
  - unfold Fingerprint.get_fingerprint. by case_match.
  - eexists. split; [done|]. split.
    { unfold ScannableFingerprint.deserialize. rewrite decode_message_encode by done.
      cbn. by destruct g. }
    rewrite (compare_serialized f g) by done.
    destruct (Z.eqb_spec (ScannableFingerprint.version g) (ScannableFingerprint.version f));
      (split; split); try done; try congruence.
    + intros [= Hb]. apply andb_prop in Hb as [?%bool_decide_eq_true ?%bool_decide_eq_true]. done.
    + intros (_ & Hl & Hr). by rewrite !bool_decide_eq_true_2 by done.
    + by intros (? & _).
Qed.

(** C39: fingerprints.  The two parties of a conversation see the same safety number:
    for every legal iteration count both computations succeed, the displayed
    strings are equal and have 60 characters, and each side's scan of the other's
    code matches.  An iteration count outside 2..1000000 is refused with an error.
    Parsing a serialised scannable fingerprint gives it back, and a comparison
    answers a version mismatch with an error and otherwise [true] exactly when each
    side's half is the other's. *)
Theorem fingerprints_correct v n id_a key_a id_b key_b f g :
  is_u32 v -> is_u32 (ScannableFingerprint.version g) ->
  (iterations_ok n -> exists fa fb ba bb,
     Fingerprint.new v n id_a key_a id_b key_b = Ok fa /\
     Fingerprint.new v n id_b key_b id_a key_a = Ok fb /\
     Fingerprint.display_string fa = Fingerprint.display_string fb /\
     String.length (DisplayableFingerprint.display (Fingerprint.display fa)) = 60%nat /\
     ScannableFingerprint.serialize (Fingerprint.scannable fa) = Ok ba /\
     ScannableFingerprint.serialize (Fingerprint.scannable fb) = Ok bb /\
     ScannableFingerprint.compare (Fingerprint.scannable fa) bb = Ok true /\
     ScannableFingerprint.compare (Fingerprint.scannable fb) ba = Ok true) /\
  (is_ok (Fingerprint.get_fingerprint n id_a key_a) = true <-> iterations_ok n) /\
  Fingerprint.get_fingerprint n id_a key_a <> Panic /\
  exists b, ScannableFingerprint.serialize g = Ok b /\ ScannableFingerprint.deserialize b = Ok g /\
    (ScannableFingerprint.compare f b = Err FingerprintVersionMismatch <->
       ScannableFingerprint.version f <> ScannableFingerprint.version g) /\
    (ScannableFingerprint.compare f b = Ok true <->
       ScannableFingerprint.version f = ScannableFingerprint.version g /\
       ScannableFingerprint.local_fingerprint f = ScannableFingerprint.remote_fingerprint g /\
       ScannableFingerprint.remote_fingerprint f = ScannableFingerprint.local_fingerprint g).
Proof.
  intros Hv Hg. split; [intros Hn; by apply fingerprint_symmetric|].
  by apply scannable_fingerprint_correct.
Qed.
End Proofs.
