(* ===== verification/ReceiveChain.v ===== *)
(** Finding the key of a received message: [get_or_create_chain_key] and
    [get_or_create_message_key] of [session_cipher.rs], on every branch. *)

From S2P Require Import Prelude Error Crates Crypto Curve IdentityKey Proto Protocol RatchetKeys SessionState.
From S2P Require Import SessionInvariant Ratchet PreKeys SenderKeys Storage Session SessionCipher.

(** * The invariant of a receiving session *)

(** Every skipped key of a chain belongs to a message before the next one. *)
Definition stored_below (s : SessionState) (pk : PublicKey) (n : Z) : Prop :=
  forall i, is_Some (skipped s pk !! i) -> (i < n)%Z.

Record session_inv (s : SessionState) : Prop := {
  inv_wf : session_wf s;
  inv_below : forall pk k, receiver_chain_key s pk = Some k -> stored_below s pk (ChainKey.index k);
}.

Lemma fresh_session_inv s :
  session_wf s -> (forall pk, skipped s pk = ∅) -> session_inv s.
Proof.
  intros Hs Hno. split; [done|]. intros pk k _ i [x Hx]. by rewrite Hno, lookup_empty in Hx.
Qed.

Lemma receiver_chain_key_chain s pk k :
  receiver_chain_key s pk = Some k -> is_Some (chain_of s pk).
Proof.
  unfold receiver_chain_key. destruct (chain_of s pk); [by eexists|done].
Qed.

Lemma chain_receiver_key s pk :
  session_wf s -> is_Some (chain_of s pk) -> exists k, receiver_chain_key s pk = Some k.
Proof.
  intros Hs [c Hc]. destruct (receiver_key c) as (k & Hk & _); [by eapply chain_of_wf|].
  unfold receiver_chain_key. rewrite Hc. cbn. rewrite Hk. by eexists.
Qed.

Lemma receiver_chain_key_None s pk :
  session_wf s -> receiver_chain_key s pk = None -> chain_of s pk = None.
Proof.
  intros Hs. unfold receiver_chain_key. destruct (chain_of s pk) as [c|] eqn:Hc; [|done].
  destruct (receiver_key c) as (k & Hk & _); [by eapply chain_of_wf|]. cbn. by rewrite Hk.
Qed.

Lemma receiver_chain_key_wf s pk k :
  session_wf s -> receiver_chain_key s pk = Some k -> ChainKey.wf k /\ ChainKey.kdf k = kdf_of s.
Proof.
  intros Hs Hk. unfold receiver_chain_key in Hk.
  destruct (chain_of s pk) as [c|] eqn:Hc; [|done]. cbn in Hk.
  destruct (receiver_key c) as (ck & Hck & Hl & Hi); [by eapply chain_of_wf|].
  rewrite Hck in Hk. injection Hk as <-. split; [|done].
  split_and!; [done|done|by apply kdf_of_kdf_valid].
Qed.

(** A change of one receiver chain keeps the invariant when it does for that
    chain. *)
Lemma session_inv_chain s s' pk :
  session_inv s -> session_wf s' -> same_chains_but pk s s' -> only_chains s s' ->
  (forall k, receiver_chain_key s' pk = Some k -> stored_below s' pk (ChainKey.index k)) ->
  session_inv s'.
Proof.
  intros [Hs Hb] Hs' Hother Honly Hpk. split; [done|]. intros pk' k.
  destruct (decide (pk' = pk)) as [->|Hne]; [apply Hpk|].
  intros Hk. unfold stored_below, skipped. rewrite (Hother _ Hne). apply Hb.
  unfold receiver_chain_key, to_chain_key in *. rewrite (Hother _ Hne) in Hk.
  by rewrite (only_chains_kdf _ _ Honly) in Hk.
Qed.

Section StateSteps.
Context `{BuildConfig, Crates}.

Lemma on_state_ok f s (c : Csprng) s' : f s = Ok s' -> on_state f (s, c) = (Ok tt, (s', c)).
Proof. intros Hf. unfold on_state, st_focus, st_update. cbn. by rewrite Hf. Qed.

Lemma step_state_ok {A} f s (c : Csprng) (a : A) s' :
  f s = Ok (a, s') -> step_state f (s, c) = (Ok a, (s', c)).
Proof. intros Hf. unfold step_state, st_focus, st_step. cbn. by rewrite Hf. Qed.

Lemma from_state_ok {A} f s (c : Csprng) (a : A) :
  f s = Ok a -> from_state f (s, c) = (Ok a, (s, c)).
Proof. intros Hf. unfold from_state, st_gets. cbn. by rewrite Hf. Qed.

Lemma st_lift_eq {S A} (m : Result A) (s : S) a : m = Ok a -> st_lift m s = (Ok a, s).
Proof. by intros ->. Qed.
End StateSteps.

(** Runs the first step of a [let!] sequence with the equation given for it. *)
Ltac st_step_with H := rewrite (st_bind_eq _ _ _ _ _ H).

(** * Skipping ahead in a chain *)

Section Skipping.
Context `{BuildConfig, Crates, ProtoCodecs, !HashLaws}.

(** The stored keys of the first [n] messages from [k] on, newest first. *)
Definition skipped_keys (k : ChainKey) (n : nat) : list SessionMessageKey.t :=
  (fun j => SessionState.message_key_structure (ChainKey.keys (ChainKey.advanced k j)))
    <$> rev (seq 0 n).

Lemma skipped_keys_length k n : length (skipped_keys k n) = n.
Proof. unfold skipped_keys. by rewrite length_fmap, length_rev, length_seq. Qed.

Lemma skipped_keys_S k n :
  skipped_keys k (S n)
  = skipped_keys (ChainKey.advanced k 1) n
    ++ [SessionState.message_key_structure (ChainKey.keys k)].
Proof.
  unfold skipped_keys. rewrite <-cons_seq, <-seq_shift. cbn [rev]. rewrite fmap_app. f_equal.
  - rewrite <-map_rev. rewrite <-list_fmap_compose. apply list_fmap_ext. intros i j _. cbn.
    by rewrite ChainKey.chain_key_advanced_add.
  - cbn. by rewrite ChainKey.chain_key_advanced_0.
Qed.

Lemma skipped_keys_elem k n j :
  j < n ->
  SessionState.message_key_structure (ChainKey.keys (ChainKey.advanced k j)) ∈ skipped_keys k n.
Proof.
  intros Hj. unfold skipped_keys. apply list_elem_of_fmap. exists j. split; [done|].
  apply list_elem_of_In. rewrite <-in_rev. apply in_seq. lia.
Qed.

Lemma take_app_take {A} m (a b : list A) : take m (a ++ take m b) = take m (a ++ b).
Proof.
  rewrite !take_app. f_equal. rewrite take_take. f_equal. lia.
Qed.

Lemma stored_below_fresh s pk n : stored_below s pk n -> skipped s pk !! n = None.
Proof.
  intros Hb. destruct (skipped s pk !! n) as [x|] eqn:Hx; [|done].
  assert (n < n)%Z by (apply Hb; by rewrite Hx). lia.
Qed.

Lemma skip_message_keys_spec pk n : forall s (c : Csprng) k,
  session_wf s -> is_Some (chain_of s pk) -> ChainKey.wf k -> ChainKey.kdf k = kdf_of s ->
  (ChainKey.index k + Z.of_nat n <= u32_max)%Z -> stored_below s pk (ChainKey.index k) ->
  exists s',
    skip_message_keys n pk k (ChainKey.index k + Z.of_nat n) (s, c)
      = (Ok (ChainKey.advanced k n), (s', c)) /\
    session_wf s' /\ only_chains s s' /\ same_chains_but pk s s' /\ is_Some (chain_of s' pk) /\
    message_list s' pk = take MAX_MESSAGE_KEYS (skipped_keys k n ++ message_list s pk) /\
    stored_below s' pk (ChainKey.index k + Z.of_nat n).
Proof.
  induction n as [|n IH]; intros s c k Hs Hc Hk Hkdf Hmax Hb.
  - exists s. cbn [skip_message_keys]. rewrite Z.add_0_r, Z.ltb_irrefl, ChainKey.chain_key_advanced_0.
    split_and!; try done; [by unfold only_chains, chains; destruct s as [[]]|].
    symmetry. apply take_ge. cbn. unfold message_list.
    destruct Hc as [ch Hc]. rewrite Hc. by eapply receiver_bound, chain_of_wf.
  - cbn [skip_message_keys]. rewrite (proj2 (Z.ltb_lt _ _)) by lia.
    destruct (ChainKey.message_keys_ok k) as (Hmk & Hmkwf & Hmkc); [by apply Hk|].
    st_step_with (st_lift_eq _ (s, c) _ Hmk).
    destruct (set_message_keys_spec s pk (ChainKey.keys k) Hs Hc Hmkwf)
      as (s1 & Hset & Hs1 & _ & Hsub & _ & Hlist & Hrk & Hother & Honly);
      [rewrite Hmkc; by apply stored_below_fresh|].
    st_step_with (on_state_ok (fun s => SessionState.set_message_keys s pk (ChainKey.keys k)) s c s1 Hset).
    assert (Hnext : ChainKey.next_chain_key k = Ok (ChainKey.advanced k 1))
      by (apply ChainKey.next_chain_key_ok; lia).
    st_step_with (st_lift_eq _ (s1, c) _ Hnext).
    assert (Hc1 : is_Some (chain_of s1 pk)).
    { destruct (chain_receiver_key s pk Hs Hc) as [k0 Hk0].
      apply (receiver_chain_key_chain s1 pk k0). by rewrite Hrk. }
    destruct (IH s1 c (ChainKey.advanced k 1)) as (s2 & Hskip & Hs2 & Honly2 & Hother2 & Hc2 & Hlist2 & Hb2).
    + done.
    + done.
    + apply ChainKey.advanced_wf; [done|]. lia.
    + by rewrite (only_chains_kdf _ _ Honly).
    + cbn [ChainKey.advanced ChainKey.index]. lia.
    + intros i [x Hi]. cbn [ChainKey.advanced ChainKey.index].
      rewrite map_subseteq_spec in Hsub. apply Hsub in Hi. rewrite Hmkc in Hi.
      apply lookup_insert_Some in Hi as [[<- _]|[_ Hi]]; [lia|].
      assert (i < ChainKey.index k)%Z by (apply Hb; by eexists). lia.
    + cbn [ChainKey.advanced ChainKey.index] in Hskip, Hb2.
      rewrite ChainKey.chain_key_advanced_add in Hskip.
      replace (ChainKey.index k + Z.of_nat 1 + Z.of_nat n)%Z
        with (ChainKey.index k + Z.of_nat (S n))%Z in Hskip, Hb2 by lia.
      exists s2. split; [exact Hskip|]. split_and!; try done.
      * unfold only_chains in *. rewrite Honly2, Honly. done.
      * intros pk' Hne. by rewrite (Hother2 _ Hne), (Hother _ Hne).
      * rewrite Hlist2, Hlist, take_app_take, skipped_keys_S, <-app_assoc. done.
Qed.
End Skipping.

(** * [get_or_create_message_key] *)

Section MessageKey.
Context `{BuildConfig, Crates, ProtoCodecs, !HashLaws}.

(** A message before the chain's next one: its stored key is used up, or it
    is a duplicate. *)
Lemma message_key_behind s (c : Csprng) pk k n :
  session_inv s -> receiver_chain_key s pk = Some k -> (n < ChainKey.index k)%Z ->
  match skipped s pk !! n with
  | Some keys => exists s',
      get_or_create_message_key pk k n (s, c) = (Ok keys, (s', c)) /\ session_inv s' /\
      skipped s' pk = delete n (skipped s pk) /\ receiver_chain_key s' pk = Some k /\
      same_chains_but pk s s' /\ only_chains s s'
  | None =>
      get_or_create_message_key pk k n (s, c)
        = (Err (DuplicatedMessage (ChainKey.index k) n), (s, c))
  end.
Proof.
  intros Hs Hk Hn. pose proof (inv_wf s Hs) as Hw.
  destruct (get_message_keys_spec s pk n Hw)
    as (s' & Hget & Hs' & Hdel & Hrk & Hother & Honly & Hsame).
  unfold get_or_create_message_key. rewrite (proj2 (Z.ltb_lt _ _) Hn).
  st_step_with (step_state_ok (fun s => SessionState.get_message_keys s pk n) s c _ _ Hget).
  destruct (skipped s pk !! n) as [keys|].
  - exists s'. rewrite Hk in Hrk. split_and!; try done.
    eapply session_inv_chain; try done.
    intros k' Hk' i Hi. rewrite Hrk in Hk'. injection Hk' as <-.
    apply (inv_below s Hs pk k Hk). rewrite Hdel in Hi. destruct Hi as [x Hi].
    apply lookup_delete_Some in Hi as [_ Hi]. by eexists.
  - by rewrite Hsame.
Qed.

(** The keys a loop of at most 2000 rounds has skipped are all found. *)
Lemma skipped_keys_stored s s1 pk k n j :
  session_wf s1 -> is_Some (chain_of s1 pk) -> ChainKey.wf k ->
  (Z.of_nat n <= MAX_FORWARD_JUMPS)%Z -> (ChainKey.index k + Z.of_nat n <= u32_max)%Z -> j < n ->
  message_list s1 pk = take MAX_MESSAGE_KEYS (skipped_keys k n ++ message_list s pk) ->
  skipped s1 pk !! (ChainKey.index k + Z.of_nat j)%Z = Some (ChainKey.keys (ChainKey.advanced k j)).
Proof.
  intros Hs1 [ch Hch] Hk Hjump Hmax Hj Hlist. unfold skipped, message_list in *.
  destruct (chain_of_wf s1 pk ch Hs1 Hch) as [Hchwf _].
  pose proof (receiver_nodup ch Hchwf) as Hnd. rewrite Hch in *. cbn in Hlist |- *.
  assert (Hkj : ChainKey.wf (ChainKey.advanced k j)) by (apply ChainKey.advanced_wf; [done|lia]).
  destruct (ChainKey.message_keys_ok (ChainKey.advanced k j)) as (_ & _ & Hctr); [by apply Hkj|].
  set (x := ChainKey.keys (ChainKey.advanced k j)) in *.
  assert (Hin : SessionState.message_key_structure x ∈ Chain.message_keys ch).
  { rewrite Hlist, take_app_ge by
      (rewrite skipped_keys_length; unfold MAX_FORWARD_JUMPS, MAX_MESSAGE_KEYS in *; lia).
    apply elem_of_app. left. by apply skipped_keys_elem. }
  replace (Some x) with (Some (to_message_keys (SessionState.message_key_structure x)))
    by (by destruct x).
  change (ChainKey.index k + Z.of_nat j)%Z with (ChainKey.index (ChainKey.advanced k j)).
  rewrite <-Hctr. by apply (key_map_elem (SessionState.message_key_structure x)).
Qed.

(** The next message of the chain or one up to 2000 further on: the keys of the messages
    in between are all kept, and the chain is about to move past the message. *)
Lemma message_key_skip s (c : Csprng) pk k n :
  session_inv s -> receiver_chain_key s pk = Some k ->
  (Z.of_nat n <= MAX_FORWARD_JUMPS)%Z -> (ChainKey.index k + Z.of_nat n <= u32_max)%Z ->
  exists s1,
    get_or_create_message_key pk k (ChainKey.index k + Z.of_nat n) (s, c)
      = (let! next := st_lift (ChainKey.next_chain_key (ChainKey.advanced k n)) in
         let! _ := on_state (fun s => SessionState.set_receiver_chain_key s pk next) in
         st_lift (ChainKey.message_keys (ChainKey.advanced k n))) (s1, c) /\
    session_wf s1 /\ is_Some (chain_of s1 pk) /\ ChainKey.wf (ChainKey.advanced k n) /\
    ChainKey.kdf k = kdf_of s1 /\
    (forall j, j < n -> skipped s1 pk !! (ChainKey.index k + Z.of_nat j)%Z
                        = Some (ChainKey.keys (ChainKey.advanced k j))) /\
    stored_below s1 pk (ChainKey.index k + Z.of_nat n) /\
    same_chains_but pk s s1 /\ only_chains s s1.
Proof.
  intros Hs Hk Hjump Hmax. pose proof (inv_wf s Hs) as Hw.
  destruct (receiver_chain_key_wf s pk k Hw Hk) as [Hkwf Hkdf].
  destruct (skip_message_keys_spec pk n s c k) as
    (s1 & Hskip & Hs1 & Honly1 & Hother1 & Hc1 & Hlist1 & Hb1);
    [done|by eapply receiver_chain_key_chain|done|done|lia|by apply (inv_below s Hs)|].
  exists s1. split.
  { unfold get_or_create_message_key. rewrite (proj2 (Z.ltb_ge _ _)) by lia.
    rewrite (proj2 (Z.leb_le _ _)) by lia. cbn [rust_assert].
    rewrite (st_bind_eq _ _ _ tt (s, c)) by done.
    replace (ChainKey.index k + Z.of_nat n - ChainKey.index k)%Z with (Z.of_nat n) by lia.
    rewrite (proj2 (Z.ltb_ge _ _)) by lia. rewrite Nat2Z.id. by rewrite (st_bind_eq _ _ _ _ _ Hskip). }
  split_and!; try done.
  - by apply ChainKey.advanced_wf.
  - by rewrite (only_chains_kdf _ _ Honly1).
  - intros j Hj. by eapply skipped_keys_stored.
Qed.

(** The chain moves past the message. *)
Lemma message_key_move s s1 (c : Csprng) pk k n next :
  session_wf s1 -> is_Some (chain_of s1 pk) -> ChainKey.wf (ChainKey.advanced k n) ->
  ChainKey.kdf k = kdf_of s1 -> same_chains_but pk s s1 -> only_chains s s1 ->
  ChainKey.next_chain_key (ChainKey.advanced k n) = Ok next -> ChainKey.wf next ->
  ChainKey.kdf next = ChainKey.kdf k ->
  exists s',
    (let! next := st_lift (ChainKey.next_chain_key (ChainKey.advanced k n)) in
     let! _ := on_state (fun s => SessionState.set_receiver_chain_key s pk next) in
     st_lift (ChainKey.message_keys (ChainKey.advanced k n))) (s1, c)
      = (Ok (ChainKey.keys (ChainKey.advanced k n)), (s', c)) /\
    session_wf s' /\ skipped s' pk = skipped s1 pk /\ receiver_chain_key s' pk = Some next /\
    same_chains_but pk s s' /\ only_chains s s'.
Proof.
  intros Hs1 Hc1 Hkn Hkdf Hother1 Honly1 Hnext Hw Hkn'.
  destruct (set_receiver_chain_key_spec s1 pk next Hs1 Hc1 Hw)
    as (s2 & Hset & Hs2 & Hskipped2 & Hrk2 & Hother2 & Honly2); [by rewrite Hkn', Hkdf|].
  exists s2. split.
  { st_step_with (st_lift_eq _ (s1, c) _ Hnext).
    st_step_with (on_state_ok (fun s => SessionState.set_receiver_chain_key s pk next) s1 c s2 Hset).
    apply st_lift_eq. apply ChainKey.message_keys_ok, Hkn. }
  split_and!; try done.
  - intros pk' Hne. by rewrite (Hother2 _ Hne), (Hother1 _ Hne).
  - unfold only_chains in *. by rewrite Honly2, Honly1.
Qed.

(** A message below 2^32 - 1, at most 2000 ahead: its keys are the chain's, the chain
    moves past it, and the keys of the messages in between are all kept. *)
Lemma message_key_ahead s (c : Csprng) pk k n :
  session_inv s -> receiver_chain_key s pk = Some k ->
  (Z.of_nat n <= MAX_FORWARD_JUMPS)%Z -> (ChainKey.index k + Z.of_nat n < u32_max)%Z ->
  exists s',
    get_or_create_message_key pk k (ChainKey.index k + Z.of_nat n) (s, c)
      = (Ok (ChainKey.keys (ChainKey.advanced k n)), (s', c)) /\
    session_inv s' /\
    receiver_chain_key s' pk = Some (ChainKey.advanced k (S n)) /\
    (forall j, j < n -> skipped s' pk !! (ChainKey.index k + Z.of_nat j)%Z
                        = Some (ChainKey.keys (ChainKey.advanced k j))) /\
    skipped s' pk !! (ChainKey.index k + Z.of_nat n)%Z = None /\
    same_chains_but pk s s' /\ only_chains s s'.
Proof.
  intros Hs Hk Hjump Hmax. destruct (receiver_chain_key_wf s pk k (inv_wf s Hs) Hk) as [Hkwf _].
  destruct (message_key_skip s c pk k n Hs Hk Hjump)
    as (s1 & Hget & Hs1 & Hc1 & Hkn & Hkdf & Hkept & Hb1 & Hother1 & Honly1); [lia|].
  assert (Hnext : ChainKey.next_chain_key (ChainKey.advanced k n) = Ok (ChainKey.advanced k (S n))).
  { rewrite ChainKey.next_chain_key_ok by (cbn; lia). rewrite ChainKey.chain_key_advanced_add.
    by rewrite Nat.add_1_r. }
  destruct (message_key_move s s1 c pk k n _ Hs1 Hc1 Hkn Hkdf Hother1 Honly1 Hnext)
    as (s2 & Hmove & Hs2 & Hsk2 & Hrk2 & Hother & Honly); [apply ChainKey.advanced_wf; [done|lia]|done|].
  exists s2. rewrite Hget, Hsk2. split_and!; try done; [|by apply stored_below_fresh].
  eapply session_inv_chain; try done. intros k' Hk' i Hi.
  rewrite Hrk2 in Hk'. injection Hk' as <-. rewrite Hsk2 in Hi. apply Hb1 in Hi. cbn. lia.
Qed.

(** The last message, 2^32 - 1, at most 2000 ahead: there is no next index. *)
Definition exhausted (k : ChainKey) (n : Z) : bool :=
  (n =? u32_max)%Z && (u32_max - ChainKey.index k <=? MAX_FORWARD_JUMPS)%Z.

(** The chain key after the last message, with the index wrapped to 0. *)
Definition restarted (k : ChainKey) (n : nat) : ChainKey :=
  ChainKey.mk (ChainKey.kdf k) (ChainKey.key (ChainKey.advanced k (S n))) 0.

Lemma exhausted_spec k n :
  exhausted k n = true <-> n = u32_max /\ (u32_max - ChainKey.index k <= MAX_FORWARD_JUMPS)%Z.
Proof. unfold exhausted. by rewrite andb_true_iff, Z.eqb_eq, Z.leb_le. Qed.

Lemma message_key_last s (c : Csprng) pk k n :
  session_inv s -> receiver_chain_key s pk = Some k ->
  (Z.of_nat n <= MAX_FORWARD_JUMPS)%Z -> (ChainKey.index k + Z.of_nat n = u32_max)%Z ->
  exists r s',
    get_or_create_message_key pk k (ChainKey.index k + Z.of_nat n) (s, c) = (r, (s', c)) /\
    same_chains_but pk s s' /\ only_chains s s' /\
    if overflow_checks then r = Panic
    else r = Ok (ChainKey.keys (ChainKey.advanced k n)) /\
         receiver_chain_key s' pk = Some (restarted k n).
Proof.
  intros Hs Hk Hjump Hmax. destruct (receiver_chain_key_wf s pk k (inv_wf s Hs) Hk) as [Hkwf _].
  destruct (message_key_skip s c pk k n Hs Hk Hjump)
    as (s1 & Hget & Hs1 & Hc1 & Hkn & Hkdf & _ & _ & Hother1 & Honly1); [lia|]. rewrite Hget.
  pose proof (ChainKey.next_chain_key_overflow (ChainKey.advanced k n) Hmax) as Hnext.
  destruct overflow_checks.
  - exists Panic, s1. split_and!; try done. unfold st_bind, st_lift. by rewrite Hnext.
  - assert (Hre : ChainKey.mk (ChainKey.kdf (ChainKey.advanced k n))
        (ChainKey.ratchet 1 (ChainKey.key (ChainKey.advanced k n))) 0 = restarted k n) by done.
    rewrite Hre in Hnext.
    destruct (message_key_move s s1 c pk k n _ Hs1 Hc1 Hkn Hkdf Hother1 Honly1 Hnext)
      as (s2 & Hmove & _ & _ & Hrk2 & Hother & Honly); [|done|by do 2 eexists].
    split; [|split; [unfold is_u32, u32_max; cbn; lia|by apply Hkwf]].
    cbn [restarted ChainKey.key ChainKey.advanced]. rewrite ChainKey.ratchet_S. apply hmac_sha256_length.
Qed.

(** A message further ahead than that is refused. *)
Lemma message_key_too_far s (c : Csprng) pk k n :
  (ChainKey.index k + MAX_FORWARD_JUMPS < n)%Z ->
  get_or_create_message_key pk k n (s, c)
    = (Err (InvalidMessage "message from too far into the future"), (s, c)).
Proof.
  intros Hn. unfold MAX_FORWARD_JUMPS in *. unfold get_or_create_message_key.
  rewrite (proj2 (Z.ltb_ge _ _)) by lia. rewrite (proj2 (Z.leb_le _ _)) by lia.
  cbn [rust_assert]. rewrite (st_bind_eq _ _ _ tt (s, c)) by done.
  unfold MAX_FORWARD_JUMPS. by rewrite (proj2 (Z.ltb_lt _ _)) by lia.
Qed.

(** C6: the key of a message on a known chain, for every u32 number.  Before the chain's
    next message: the stored key, which is then gone, or [DuplicatedMessage] with
    the state untouched.  The next message or up to 2000 ahead: the keys the
    symmetric ratchet gives for that number; the chain moves past it and the
    keys of all the messages in between are kept.  Further ahead:
    [InvalidMessage] with the state untouched.  Other chains never change.  There is a
    panic for one message only, number 2^32 - 1 where it is at most 2000 ahead, in a
    build with overflow checks; in a build without them its keys are right as well,
    and the index of the chain wraps to 0. *)
Theorem get_or_create_message_key_correct s (c : Csprng) pk k n :
  session_inv s -> receiver_chain_key s pk = Some k -> is_u32 n ->
  let j := Z.to_nat (n - ChainKey.index k) in
  exists r s', get_or_create_message_key pk k n (s, c) = (r, (s', c)) /\
    same_chains_but pk s s' /\ only_chains s s' /\
    if exhausted k n then
      if overflow_checks then r = Panic
      else r = Ok (ChainKey.keys (ChainKey.advanced k j)) /\
           receiver_chain_key s' pk = Some (restarted k j)
    else
      session_inv s' /\
      if (n <? ChainKey.index k)%Z then
        skipped s' pk = delete n (skipped s pk) /\ receiver_chain_key s' pk = Some k /\
        r = match skipped s pk !! n with
            | Some keys => Ok keys
            | None => Err (DuplicatedMessage (ChainKey.index k) n)
            end
      else if (MAX_FORWARD_JUMPS <? n - ChainKey.index k)%Z then
        s' = s /\ r = Err (InvalidMessage "message from too far into the future")
      else
        r = Ok (ChainKey.keys (ChainKey.advanced k j)) /\
        receiver_chain_key s' pk = Some (ChainKey.advanced k (S j)) /\
        forall i, i < j -> skipped s' pk !! (ChainKey.index k + Z.of_nat i)%Z
                           = Some (ChainKey.keys (ChainKey.advanced k i)).
Proof.
  intros Hs Hk Hn j. destruct (receiver_chain_key_wf s pk k (inv_wf s Hs) Hk) as [[_ [Hidx _]] _].
  assert (Hrefl : same_chains_but pk s s /\ only_chains s s).
  { split; [done|]. by unfold only_chains, chains; destruct s as [[]]. }
  unfold is_u32 in *. destruct (exhausted k n) eqn:Hex.
  { apply exhausted_spec in Hex as [-> Hnear].
    destruct (message_key_last s c pk k j) as (r & s' & Hr & Hrest); [done|done|lia|lia|].
    replace (ChainKey.index k + Z.of_nat j)%Z with u32_max in Hr by lia. by exists r, s'. }
  apply not_true_iff_false in Hex. rewrite exhausted_spec in Hex.
  destruct (Z.ltb_spec n (ChainKey.index k)) as [Hlt|Hge].
  - pose proof (message_key_behind s c pk k n Hs Hk Hlt) as Hb.
    destruct (skipped s pk !! n) as [keys|] eqn:Hsk.
    + destruct Hb as (s' & Hr & Hs' & Hdel & Hrk & Hother & Honly).
      exists (Ok keys), s'. by rewrite Hdel.
    + do 2 eexists. split; [exact Hb|]. destruct Hrefl. split_and!; try done.
      by rewrite delete_id.
  - destruct (Z.ltb_spec MAX_FORWARD_JUMPS (n - ChainKey.index k)) as [Hfar|Hnear].
    + do 2 eexists. split; [by apply message_key_too_far; lia|]. destruct Hrefl. done.
    + destruct (message_key_ahead s c pk k j)
        as (s' & Hr & Hs' & Hrk & Hkeep & _ & Hother & Honly); [done|done|lia|lia|].
      replace (ChainKey.index k + Z.of_nat j)%Z with n in Hr by lia.
      do 2 eexists. split; [exact Hr|]. done.
Qed.
End MessageKey.

(** * [get_or_create_chain_key] *)

(** What the two ends of a session compare: the identities and the version. *)
Definition identities (s : SessionState) : bytes * bytes * Z :=
  (SessionStructure.local_identity_public (SessionState.session s),
   SessionStructure.remote_identity_public (SessionState.session s), effective_version s).

Lemma identities_version s s' :
  identities s' = identities s -> effective_version s' = effective_version s.
Proof. unfold identities. by intros [= _ _ ->]. Qed.

Lemma peers_identities s s' r : identities s' = identities s -> peers s r -> peers s' r.
Proof.
  unfold identities. intros [= Hl Hr Hv] [Hpl Hpr Hpv]. split; [by rewrite Hl|by rewrite Hr|congruence].
Qed.

(** The pair of keys under which a session sends. *)
Definition ratchet_pair (s : SessionState) (kp : KeyPair) : Prop :=
  SessionState.sender_ratchet_key s = Ok (KeyPair.public_key kp) /\
  SessionState.sender_ratchet_private_key s = Ok (KeyPair.private_key kp).

Lemma session_inv_same s s' :
  session_inv s -> session_wf s' -> same_receiving s s' -> session_inv s'.
Proof.
  intros [Hs Hb] Hs' Hr. destruct (same_receiving_view _ _ Hr) as (_ & Hk & Hsk & _).
  split; [done|]. intros pk k. rewrite Hk. intros Hkk. unfold stored_below. rewrite Hsk.
  by apply Hb.
Qed.

Lemma only_chains_identities s s' : only_chains s s' -> identities s' = identities s.
Proof. unfold only_chains, identities, effective_version. by intros ->. Qed.

Lemma only_chains_sender s s' :
  only_chains s s' -> sender_chain_key s' = sender_chain_key s /\ root_of s' = root_of s /\
    forall kp, ratchet_pair s kp -> ratchet_pair s' kp.
Proof.
  intros Honly. pose proof (only_chains_kdf _ _ Honly) as Hk. unfold only_chains in Honly.
  unfold sender_chain_key, root_of, to_chain_key, ratchet_pair, SessionState.sender_ratchet_key,
    SessionState.sender_ratchet_private_key. rewrite Hk, Honly. done.
Qed.

Section ChainKeys.
Context `{BuildConfig, Crates, ProtoCodecs, !HashLaws, !X25519Laws}.

Lemma set_root_key_spec s r :
  session_wf s -> RootKey.wf r -> RootKey.kdf r = kdf_of s ->
  exists s', SessionState.set_root_key s r = Ok s' /\ session_wf s' /\ same_receiving s s' /\
    root_of s' = r /\ sender_chain_key s' = sender_chain_key s /\ identities s' = identities s /\
    SessionState.session s' = SessionStructure.with_root_key (RootKey.key r) (SessionState.session s).
Proof.
  intros Hs [Hlen _] Hkdf. eexists. split; [done|]. set (s' := SessionState.update s _).
  assert (same_receiving s s') by done.
  split_and!; try done.
  - eapply same_receiving_wf; [done|done|done|]. apply Hs.
  - unfold root_of. change (kdf_of s') with (kdf_of s). rewrite <-Hkdf. by destruct r.
Qed.

Lemma set_previous_counter_spec s n :
  session_wf s ->
  exists s', SessionState.set_previous_counter s n = Ok s' /\ session_wf s' /\
    same_receiving s s' /\ root_of s' = root_of s /\ sender_chain_key s' = sender_chain_key s /\
    identities s' = identities s /\
    SessionState.session s' = SessionStructure.with_previous_counter n (SessionState.session s).
Proof.
  intros Hs. eexists. split; [done|]. set (s' := SessionState.update s _).
  assert (same_receiving s s') by done.
  split_and!; try done. eapply same_receiving_wf; try done; apply Hs.
Qed.

Lemma chain_key_known s (c : Csprng) pk k :
  session_inv s -> receiver_chain_key s pk = Some k ->
  get_or_create_chain_key pk (s, c) = (Ok k, (s, c)).
Proof.
  intros Hs Hk. unfold get_or_create_chain_key.
  pose proof (get_receiver_chain_key_spec s pk (inv_wf s Hs)) as Hget. rewrite Hk in Hget.
  by st_step_with (from_state_ok
    (fun s => SessionState.get_receiver_chain_key s pk) s c _ Hget).
Qed.

(** The updates of a ratchet step, one after the other, and the state they end
    in. *)
Lemma ratchet_step_states s pk k k0 root'' k'' fresh :
  session_wf s -> PublicKey.wf pk -> ChainKey.wf k -> ChainKey.kdf k = kdf_of s ->
  receiver_chain_key s pk = None -> sender_chain_key s = Some k0 ->
  RootKey.wf root'' -> RootKey.kdf root'' = kdf_of s ->
  KeyPair.matching fresh -> ChainKey.wf k'' -> ChainKey.kdf k'' = kdf_of s ->
  exists s1 s2 s3 s',
    SessionState.set_root_key s root'' = Ok s1 /\
    SessionState.add_receiver_chain s1 pk k = Ok s2 /\
    SessionState.get_sender_chain_key s2 = Ok k0 /\
    SessionState.set_previous_counter s2
      (if 0 <? ChainKey.index k0 then ChainKey.index k0 - 1 else 0)%Z = Ok s3 /\
    SessionState.set_sender_chain s3 fresh k'' = Ok s' /\
    session_wf s' /\ identities s' = identities s /\ kdf_of s' = kdf_of s /\
    root_of s' = root'' /\ ratchet_pair s' fresh /\ sender_chain_key s' = Some k'' /\
    receiver_chain_key s' pk = Some k /\ skipped s' pk = ∅ /\
    (length (chains s) < MAX_RECEIVER_CHAINS -> same_chains_but pk s s') /\
    (forall pk' ch, pk' <> pk -> chain_of s' pk' = Some ch -> chain_of s pk' = Some ch).
Proof.
  intros Hw Hpk Hk Hkdf Hnone Hk0 Hr2 Hkr2 Hm Hk2 Hkk2.
  destruct (set_root_key_spec s root'' Hw Hr2 Hkr2) as (s1 & Hset1 & Hw1 & Hrecv1 & Hroot1 & Hsend1 & Hid1 & _).
  destruct (same_receiving_view _ _ Hrecv1) as (Hch1 & Hrk1 & Hsk1 & Hkdf1).
  destruct (add_receiver_chain_spec s1 pk k Hw1 Hpk Hk)
    as (s2 & Hadd & Hw2 & Hrk2 & Hsk2 & Honly2 & Hroom2 & Hold2);
    [congruence|rewrite Hch1; by apply receiver_chain_key_None|].
  destruct (only_chains_sender _ _ Honly2) as (Hsend2 & Hroot2 & _).
  assert (Hk02 : sender_chain_key s2 = Some k0) by congruence.
  destruct (get_sender_chain_key_spec s2 k0 Hw2 Hk02) as (Hget2 & _ & _).
  destruct (set_previous_counter_spec s2
    (if 0 <? ChainKey.index k0 then ChainKey.index k0 - 1 else 0)%Z Hw2)
    as (s3 & Hset3 & Hw3 & Hrecv3 & Hroot3 & Hsend3 & Hid3 & _).
  destruct (same_receiving_view _ _ Hrecv3) as (Hch3 & Hrk3 & Hsk3 & Hkdf3).
  assert (Hkdf03 : kdf_of s3 = kdf_of s) by by rewrite Hkdf3, (only_chains_kdf _ _ Honly2), Hkdf1.
  destruct (set_sender_chain_spec s3 fresh k'' Hw3)
    as (s4 & Hset4 & Hw4 & Hsend4 & Hrecv4 & Hpub4 & Hpriv4 & ch4 & Hs4);
    [by eauto with crates|by eauto with crates|done|congruence|].
  destruct (same_receiving_view _ _ Hrecv4) as (Hch4 & Hrk4 & Hsk4 & Hkdf4).
  assert (Hid4 : identities s4 = identities s3)
    by (unfold identities; destruct Hrecv4 as [_ ->]; by rewrite Hs4).
  assert (Hroot4 : root_of s4 = root_of s3) by (unfold root_of; by rewrite Hkdf4, Hs4).
  exists s1, s2, s3, s4. split_and!; try done.
  - by rewrite Hid4, Hid3, (only_chains_identities _ _ Honly2).
  - congruence.
  - congruence.
  - by rewrite Hrk4, Hrk3.
  - by rewrite Hsk4, Hsk3.
  - intros Hroom pk' Hne. rewrite Hch4, Hch3. destruct Hrecv1 as [Hchs _].
    rewrite <-Hchs in Hroom. by rewrite (Hroom2 Hroom _ Hne).
  - intros pk' ch Hne Hch. rewrite Hch4, Hch3 in Hch. rewrite <-Hch1. by apply Hold2.
Qed.

(** A state that differs by a fresh chain keeps the invariant. *)
Lemma session_inv_new_chain s s' pk :
  session_inv s -> session_wf s' -> kdf_of s' = kdf_of s -> skipped s' pk = ∅ ->
  (forall pk' ch, pk' <> pk -> chain_of s' pk' = Some ch -> chain_of s pk' = Some ch) ->
  session_inv s'.
Proof.
  intros Hs Hw' Hkdf Hsk Hold. split; [done|]. intros pk' k' Hk' i Hi.
  destruct (decide (pk' = pk)) as [->|Hne].
  { rewrite Hsk in Hi. destruct Hi as [x Hi]. by rewrite lookup_empty in Hi. }
  destruct (receiver_chain_key_chain _ _ _ Hk') as [ch Hch].
  pose proof (Hold pk' ch Hne Hch) as Hch0.
  unfold receiver_chain_key, skipped in *. rewrite Hch in Hk', Hi. apply (inv_below s Hs pk' k').
  - unfold receiver_chain_key. rewrite Hch0. revert Hk'. unfold to_chain_key. by rewrite Hkdf.
  - unfold skipped. by rewrite Hch0.
Qed.

(** A new ratchet key: the receiving chain comes from the root key and our
    ratchet key; a fresh pair starts a new sending chain from the root key
    after that. *)
Lemma chain_key_new s c pk kp k0 root' k :
  session_inv s -> PublicKey.wf pk -> receiver_chain_key s pk = None ->
  ratchet_pair s kp -> sender_chain_key s = Some k0 ->
  RootKey.create_chain (root_of s) pk (KeyPair.private_key kp) = Ok (root', k) ->
  let fresh := (KeyPair.generate c).1 in
  exists s' root'' k'',
    get_or_create_chain_key pk (s, c) = (Ok k, (s', (KeyPair.generate c).2)) /\
    session_inv s' /\ identities s' = identities s /\
    RootKey.create_chain root' pk (KeyPair.private_key fresh) = Ok (root'', k'') /\
    root_of s' = root'' /\ ratchet_pair s' fresh /\ sender_chain_key s' = Some k'' /\
    ChainKey.wf k'' /\ ChainKey.index k'' = 0%Z /\
    receiver_chain_key s' pk = Some k /\ skipped s' pk = ∅ /\
    (length (chains s) < MAX_RECEIVER_CHAINS -> same_chains_but pk s s') /\
    (forall pk' ch, pk' <> pk -> chain_of s' pk' = Some ch -> chain_of s pk' = Some ch).
Proof.
  intros Hs Hpk Hnone [_ Hpriv] Hk0 Hcreate fresh. pose proof (inv_wf s Hs) as Hw.
  assert (Hroot : SessionState.root_key s = Ok (root_of s)) by by apply root_key_spec.
  assert (Hkr : kdf_valid (RootKey.kdf (root_of s))) by by apply kdf_of_kdf_valid.
  destruct (RootKey.create_chain_ok (root_of s) pk (KeyPair.private_key kp) Hkr)
    as (r1 & k1 & Hc1 & Hr1 & Hkr1 & Hk1 & _ & Hkk1). rewrite Hcreate in Hc1.
  injection Hc1 as <- <-. change (RootKey.kdf (root_of s)) with (kdf_of s) in Hkr1, Hkk1, Hkr.
  assert (Hkr' : kdf_valid (RootKey.kdf root')) by by rewrite Hkr1.
  destruct (RootKey.create_chain_ok root' pk (KeyPair.private_key fresh) Hkr')
    as (root'' & k'' & Hc2 & Hr2 & Hkr2 & Hk2 & Hi2 & Hkk2).
  destruct (ratchet_step_states s pk k k0 root'' k'' fresh) as
    (s1 & s2 & s3 & s4 & Hset1 & Hadd & Hget2 & Hset3 & Hset4 & Hw4 & Hid4 & Hkdf4 & Hroot4 & Hpair4 &
     Hsend4 & Hrk4 & Hsk4 & Hroom4 & Hold4);
    try done; try congruence; [apply KeyPair.key_pair_generate_matching|].
  exists s4, root'', k''. split_and!; try done; [|by eapply session_inv_new_chain].
  unfold get_or_create_chain_key.
  pose proof (get_receiver_chain_key_spec s pk Hw) as Hget. rewrite Hnone in Hget.
  st_step_with (from_state_ok (fun s => SessionState.get_receiver_chain_key s pk) s c _ Hget).
  st_step_with (from_state_ok SessionState.root_key s c _ Hroot).
  st_step_with (from_state_ok SessionState.sender_ratchet_private_key s c _ Hpriv).
  st_step_with (st_lift_eq _ (s, c) _ Hcreate). cbn [fst snd].
  set (c' := (KeyPair.generate c).2).
  rewrite (st_bind_eq generate_key_pair _ (s, c) fresh (s, c'))
    by (unfold generate_key_pair, fresh, c'; cbn; by destruct (KeyPair.generate c)).
  st_step_with (st_lift_eq _ (s, c') _ Hc2). cbn [fst snd].
  st_step_with (on_state_ok (fun s => SessionState.set_root_key s root'') s c' s1 Hset1).
  st_step_with (on_state_ok (fun s => SessionState.add_receiver_chain s pk k) s1 c' s2 Hadd).
  st_step_with (from_state_ok SessionState.get_sender_chain_key s2 c' k0 Hget2).
  st_step_with (on_state_ok (fun s => SessionState.set_previous_counter s
    (if 0 <? ChainKey.index k0 then ChainKey.index k0 - 1 else 0)%Z) s2 c' s3 Hset3).
  by st_step_with (on_state_ok (fun s => SessionState.set_sender_chain s fresh k'') s3 c' s4 Hset4).
Qed.
End ChainKeys.
