(* ===== verification/Conversation.v ===== *)
(** Messages between the two ends of a session: what [message_encrypt] makes
    from a session state, [decrypt_message_with_state] on it, and the double
    ratchet as an invariant of the pair of states. *)

From S2P Require Import Prelude Error Crates Crypto Curve IdentityKey Proto Protocol RatchetKeys SessionState.
From S2P Require Import SessionInvariant Ratchet PreKeys SenderKeys Storage Session SessionCipher ReceiveChain.

(** * A message under a chain key *)

Section Messages.
Context `{BuildConfig, Crates, ProtoCodecs}.

(** [m] carries [ptext] from [i] to [j] under the ratchet key [pk] and the
    message keys of the chain key [k]. *)
Record message_of (i j : IdentityKey) (v : Z) (pk : PublicKey) (k : ChainKey) (ptext : bytes)
    (m : SignalMessage) : Prop := {
  of_version : SignalMessage.message_version m = v;
  of_ratchet_key : SignalMessage.sender_ratchet_key m = pk;
  of_counter : SignalMessage.counter m = ChainKey.index k;
  of_mac : SignalMessage.verify_mac m i j (MessageKeys.mac_key (ChainKey.keys k)) = Ok true;
  of_body : aes_256_cbc_decrypt (SignalMessage.ciphertext m)
    (MessageKeys.cipher_key (ChainKey.keys k)) (MessageKeys.iv (ChainKey.keys k)) = Ok ptext;
}.

(** The session of someone who is [local] and talks to [remote]. *)
Definition between (s : SessionState) (local remote : IdentityKey) : Prop :=
  SessionState.local_identity_key s = Ok local /\
  SessionState.remote_identity_key s = Ok (Some remote).

Lemma identity_between s i j :
  IdentityKey.wf i -> IdentityKey.wf j ->
  SessionStructure.local_identity_public (SessionState.session s) = IdentityKey.serialize i ->
  SessionStructure.remote_identity_public (SessionState.session s) = IdentityKey.serialize j ->
  between s i j.
Proof.
  intros Hi Hj Hl Hr. split.
  - unfold SessionState.local_identity_key. rewrite Hl. by apply IdentityKey.decode_serialize.
  - unfold SessionState.remote_identity_key. rewrite Hr.
    pose proof (IdentityKey.decode_serialize j Hj) as Hdec.
    destruct (IdentityKey.serialize j) as [|b0 l]; [done|]. by rewrite Hdec.
Qed.

Lemma peers_between s r :
  peers s r -> exists i j, IdentityKey.wf i /\ IdentityKey.wf j /\ between s i j /\ between r j i.
Proof.
  intros [(i & Hi & Hsl & Hrr) (j & Hj & Hsr & Hrl) _].
  exists i, j. split_and!; [done|done|by apply identity_between|by apply identity_between].
Qed.

Lemma between_identities s s' i j : identities s' = identities s -> between s i j -> between s' i j.
Proof.
  unfold identities, between, SessionState.local_identity_key, SessionState.remote_identity_key.
  by intros [= -> -> _].
Qed.

(** The inner message of what is sent. *)
Definition inner_message (c : CiphertextMessage) : option SignalMessage :=
  match c with
  | CiphertextMessage.SignalMessage m => Some m
  | CiphertextMessage.PreKeySignalMessage m => Some (PreKeySignalMessage.message m)
  | _ => None
  end.

(** The pending pre-key message, if any, can be read. *)
Definition pending_ok (s : SessionState) : Prop :=
  exists o, SessionState.unacknowledged_pre_key_message_items s = Ok o.

(** * Encrypting *)

(** What is sent for the inner message [m]: it, or, as long as the first message is not
    acknowledged, a pre-key message around it with the pending items. *)
Definition sent_as (items : option UnacknowledgedPreKeyMessageItems) (i : IdentityKey)
    (m : SignalMessage) (c : CiphertextMessage) : Prop :=
  match items, c with
  | None, CiphertextMessage.SignalMessage m' => m' = m
  | Some items, CiphertextMessage.PreKeySignalMessage pm =>
      PreKeySignalMessage.message pm = m /\ PreKeySignalMessage.identity_key pm = i /\
      PreKeySignalMessage.pre_key_id pm = UnacknowledgedPreKeyMessageItems.pre_key_id items /\
      PreKeySignalMessage.signed_pre_key_id pm
        = UnacknowledgedPreKeyMessageItems.signed_pre_key_id items /\
      PreKeySignalMessage.base_key pm = UnacknowledgedPreKeyMessageItems.base_key items
  | _, _ => False
  end.

Lemma sent_as_inner items i m c : sent_as items i m c -> inner_message c = Some m.
Proof. destruct items, c; try done; cbn; [by intros [-> _]|by intros ->]. Qed.

(** A sending session makes the message; then its chain moves on, where it can. *)
Lemma encrypt_with_state_eq `{!HashLaws, !CbcLaws, !SubtleLaws} ptext s kp k i j items :
  session_wf s -> sender_chain_key s = Some k -> ratchet_pair s kp -> between s i j ->
  SessionState.unacknowledged_pre_key_message_items s = Ok items ->
  exists c m,
    encrypt_with_state ptext s
      = (let? next := ChainKey.next_chain_key k in
         let? s' := SessionState.set_sender_chain_key s next in Ok (c, j, s')) /\
    sent_as items i m c /\ message_of i j (effective_version s) (KeyPair.public_key kp) k ptext m.
Proof.
  intros Hs Hk [Hpub Hpriv] [Hlocal Hremote] Hitems.
  destruct (get_sender_chain_key_spec s k Hs Hk) as (Hget & Hkwf & Hkdf).
  destruct (ChainKey.message_keys_ok k) as (Hmk & (Hck & Hmac & Hiv) & Hctr); [by apply Hkwf|].
  destruct (aes_256_cbc_encrypt_ok ptext _ _ Hck Hiv) as [ct Hct].
  assert (Hdec : aes_256_cbc_decrypt ct (MessageKeys.cipher_key (ChainKey.keys k))
                   (MessageKeys.iv (ChainKey.keys k)) = Ok ptext)
    by by eapply aes_256_cbc_decrypt_encrypted.
  set (v := effective_version s).
  assert (Hv : (v mod 256)%Z = v) by (pose proof (wf_version s Hs); apply Z.mod_small; unfold v; lia).
  destruct (SignalMessage.signal_message_new_ok v (MessageKeys.mac_key (ChainKey.keys k)) (KeyPair.public_key kp)
    (ChainKey.index k) (SessionStructure.previous_counter (SessionState.session s)) ct i j Hmac)
    as (mac & Hnew & _ & _).
  set (m := SignalMessage.mk _ _ _ _ _ _) in Hnew.
  pose proof (SignalMessage.verify_mac_new _ _ _ _ _ _ _ _ m Hmac Hnew) as Hver.
  assert (Hm : message_of i j v (KeyPair.public_key kp) k ptext m) by by constructor.
  unfold encrypt_with_state. rewrite Hget. cbn [obind]. rewrite Hmk. cbn [obind].
  rewrite Hpub. cbn [obind SessionState.previous_counter]. rewrite session_version_spec.
  cbn [obind]. fold v. rewrite Hv, Hlocal. cbn [obind]. rewrite Hremote. cbn [obind ok_or].
  rewrite Hct. cbn [obind]. rewrite Hitems. cbn [obind].
  destruct items as [items|]; cbn [obind SessionState.local_registration_id]; rewrite Hnew;
    cbn [obind PreKeySignalMessage.new]; do 2 eexists; (split; [done|]); by split.
Qed.

(** The same session, with its sending chain moved on. *)
Definition moved_on (s s' : SessionState) (kp : KeyPair) (k : ChainKey) : Prop :=
  session_wf s' /\ same_receiving s s' /\ sender_chain_key s' = Some (ChainKey.advanced k 1) /\
  ratchet_pair s' kp /\ root_of s' = root_of s /\ identities s' = identities s /\
  SessionState.unacknowledged_pre_key_message_items s'
    = SessionState.unacknowledged_pre_key_message_items s.

Lemma sending_chain_moves `{!HashLaws} s kp k :
  session_wf s -> sender_chain_key s = Some k -> ratchet_pair s kp -> (ChainKey.index k < u32_max)%Z ->
  ChainKey.next_chain_key k = Ok (ChainKey.advanced k 1) /\
  exists s', SessionState.set_sender_chain_key s (ChainKey.advanced k 1) = Ok s' /\ moved_on s s' kp k.
Proof.
  intros Hs Hk [Hpub Hpriv] Hidx.
  destruct (get_sender_chain_key_spec s k Hs Hk) as (_ & Hkwf & Hkdf).
  split; [by apply ChainKey.next_chain_key_ok|].
  destruct (set_sender_chain_key_spec s (ChainKey.advanced k 1) Hs)
    as (s' & Hset & Hs' & Hsend' & Hrecv & Hpub' & Hpriv' & ch & Hses);
    [|apply ChainKey.advanced_wf; [done|lia]|done|].
  { unfold sender_chain_key in Hk. by destruct (SessionStructure.sender_chain _). }
  exists s'. split; [done|]. destruct (same_receiving_view _ _ Hrecv) as (_ & _ & _ & Hkk).
  split_and!; try done.
  - split; [by rewrite Hpub'|by rewrite Hpriv'].
  - unfold root_of. by rewrite Hkk, Hses.
  - unfold identities. destruct Hrecv as [_ ->]. by rewrite Hses.
  - unfold SessionState.unacknowledged_pre_key_message_items. by rewrite Hses.
Qed.

Lemma encrypt_with_state_ok `{!HashLaws, !CbcLaws, !SubtleLaws} ptext s kp k i j :
  session_wf s -> sender_chain_key s = Some k -> ratchet_pair s kp -> between s i j ->
  pending_ok s -> (ChainKey.index k < u32_max)%Z ->
  exists c m s',
    encrypt_with_state ptext s = Ok (c, j, s') /\ inner_message c = Some m /\
    message_of i j (effective_version s) (KeyPair.public_key kp) k ptext m /\
    session_wf s' /\ same_receiving s s' /\ sender_chain_key s' = Some (ChainKey.advanced k 1) /\
    ratchet_pair s' kp /\ root_of s' = root_of s /\ identities s' = identities s /\
    (pending_ok s').
Proof.
  intros Hs Hk Hpair Hb [items Hitems] Hidx.
  destruct (encrypt_with_state_eq ptext s kp k i j items Hs Hk Hpair Hb Hitems) as (c & m & Henc & Hc & Hm).
  destruct (sending_chain_moves s kp k Hs Hk Hpair Hidx)
    as (Hnext & s' & Hset & Hs' & Hrecv & Hsend & Hpair' & Hroot & Hid & Hpend).
  exists c, m, s'. rewrite Henc, Hnext. cbn [obind]. rewrite Hset. cbn [obind].
  split_and!; try done; [by eapply sent_as_inner|]. exists items. by rewrite Hpend.
Qed.
End Messages.

(** * Decrypting *)

(** The state after a successful decryption: nothing is pending any more. *)
Definition cleared (s : SessionState) : SessionState :=
  SessionState.update s (SessionStructure.with_pending_pre_key None).

Lemma cleared_same s : same_receiving s (cleared s).
Proof. done. Qed.

Lemma cleared_inv s : session_inv s -> session_inv (cleared s).
Proof.
  intros Hs. eapply session_inv_same; [done| |done]. pose proof (inv_wf s Hs) as Hw.
  eapply same_receiving_wf; [done|done|apply Hw|apply Hw].
Qed.

Lemma cleared_sending s :
  sender_chain_key (cleared s) = sender_chain_key s /\ root_of (cleared s) = root_of s /\
  identities (cleared s) = identities s /\ (forall kp, ratchet_pair s kp -> ratchet_pair (cleared s) kp).
Proof. done. Qed.

Section Decrypting.
Context `{BuildConfig, Crates, ProtoCodecs, !HashLaws, !X25519Laws}.

Lemma cleared_pending_ok s : pending_ok (cleared s).
Proof. by exists None. Qed.

Lemma has_sender_chain_ok s k :
  sender_chain_key s = Some k -> SessionState.has_sender_chain s = Ok true.
Proof.
  unfold sender_chain_key, SessionState.has_sender_chain.
  by destruct (SessionStructure.sender_chain _).
Qed.

(** From the two keys to the plaintext. *)
Lemma decrypt_with_keys r c ks pk k r1 c1 keys r2 m ptext i j v :
  sender_chain_key r = Some ks -> effective_version r = v ->
  get_or_create_chain_key pk (r, c) = (Ok k, (r1, c1)) ->
  get_or_create_message_key pk k (SignalMessage.counter m) (r1, c1) = (Ok keys, (r2, c1)) ->
  between r2 j i ->
  SignalMessage.message_version m = v -> SignalMessage.sender_ratchet_key m = pk ->
  SignalMessage.verify_mac m i j (MessageKeys.mac_key keys) = Ok true ->
  aes_256_cbc_decrypt (SignalMessage.ciphertext m) (MessageKeys.cipher_key keys)
    (MessageKeys.iv keys) = Ok ptext ->
  decrypt_message_with_state m (r, c) = (Ok ptext, (cleared r2, c1)).
Proof.
  intros Hks Hv Hchain Hkey [Hlocal Hremote] Hmv Hmr Hmac Hbody.
  unfold decrypt_message_with_state.
  st_step_with (from_state_ok SessionState.has_sender_chain r c _ (has_sender_chain_ok r ks Hks)).
  cbn [negb].
  st_step_with (from_state_ok SessionState.session_version r c _ (session_version_spec r)).
  rewrite Hmv, Hv, Z.eqb_refl, Hmr. cbn [negb].
  st_step_with Hchain. st_step_with Hkey.
  st_step_with (from_state_ok SessionState.remote_identity_key r2 c1 _ Hremote).
  cbn [ok_or]. rewrite (st_bind_eq _ _ _ i (r2, c1)) by done.
  st_step_with (from_state_ok SessionState.local_identity_key r2 c1 _ Hlocal).
  st_step_with (st_lift_eq _ (r2, c1) _ Hmac). cbn [negb].
  by st_step_with (st_lift_eq _ (r2, c1) _ Hbody).
Qed.

(** A message [n] ahead on a chain the receiver already has. *)
Lemma decrypt_known r c ks pk k n m ptext i j :
  session_inv r -> sender_chain_key r = Some ks -> between r j i ->
  receiver_chain_key r pk = Some k ->
  (Z.of_nat n <= MAX_FORWARD_JUMPS)%Z -> (ChainKey.index k + Z.of_nat n < u32_max)%Z ->
  message_of i j (effective_version r) pk (ChainKey.advanced k n) ptext m ->
  exists r', decrypt_message_with_state m (r, c) = (Ok ptext, (cleared r', c)) /\
    session_inv r' /\ receiver_chain_key r' pk = Some (ChainKey.advanced k (S n)) /\
    (forall l, l < n -> skipped r' pk !! (ChainKey.index k + Z.of_nat l)%Z
                        = Some (ChainKey.keys (ChainKey.advanced k l))) /\
    skipped r' pk !! (ChainKey.index k + Z.of_nat n)%Z = None /\
    same_chains_but pk r r' /\ only_chains r r'.
Proof.
  intros Hr Hks Hb Hk Hn Hmax [Hmv Hmr Hmc Hmac Hbody].
  destruct (message_key_ahead r c pk k n Hr Hk Hn Hmax) as (r' & Hkey & Hr' & Hk' & Hskip & Hgone & Hother & Honly).
  exists r'. split_and!; try done.
  eapply decrypt_with_keys; try done.
  - by apply chain_key_known.
  - by rewrite Hmc.
  - eapply between_identities; [|done]. by apply only_chains_identities.
Qed.

(** A delayed message: its key was stored when it was skipped, and is used up. *)
Lemma decrypt_skipped r c ks pk k m ptext i j keys :
  session_inv r -> sender_chain_key r = Some ks -> between r j i ->
  receiver_chain_key r pk = Some k -> (SignalMessage.counter m < ChainKey.index k)%Z ->
  skipped r pk !! SignalMessage.counter m = Some keys ->
  SignalMessage.message_version m = effective_version r -> SignalMessage.sender_ratchet_key m = pk ->
  SignalMessage.verify_mac m i j (MessageKeys.mac_key keys) = Ok true ->
  aes_256_cbc_decrypt (SignalMessage.ciphertext m) (MessageKeys.cipher_key keys)
    (MessageKeys.iv keys) = Ok ptext ->
  exists r', decrypt_message_with_state m (r, c) = (Ok ptext, (cleared r', c)) /\
    session_inv r' /\ receiver_chain_key r' pk = Some k /\
    skipped r' pk = delete (SignalMessage.counter m) (skipped r pk) /\
    same_chains_but pk r r' /\ only_chains r r'.
Proof.
  intros Hr Hks Hb Hk Hlt Hsk Hmv Hmr Hmac Hbody.
  pose proof (message_key_behind r c pk k _ Hr Hk Hlt) as Hkey. rewrite Hsk in Hkey.
  destruct Hkey as (r' & Hkey & Hr' & Hdel & Hk' & Hother & Honly).
  exists r'. split_and!; try done.
  eapply decrypt_with_keys; try done.
  - by apply chain_key_known.
  - eapply between_identities; [|done]. by apply only_chains_identities.
Qed.

(** A message whose number is behind the chain and whose key is not stored. *)
Lemma decrypt_duplicate r c ks pk k m :
  session_inv r -> sender_chain_key r = Some ks ->
  SignalMessage.message_version m = effective_version r -> SignalMessage.sender_ratchet_key m = pk ->
  receiver_chain_key r pk = Some k -> (SignalMessage.counter m < ChainKey.index k)%Z ->
  skipped r pk !! SignalMessage.counter m = None ->
  decrypt_message_with_state m (r, c)
    = (Err (DuplicatedMessage (ChainKey.index k) (SignalMessage.counter m)), (r, c)).
Proof.
  intros Hr Hks Hmv Hmr Hk Hlt Hsk.
  pose proof (message_key_behind r c pk k _ Hr Hk Hlt) as Hkey. rewrite Hsk in Hkey.
  unfold decrypt_message_with_state.
  st_step_with (from_state_ok SessionState.has_sender_chain r c _ (has_sender_chain_ok r ks Hks)).
  cbn [negb].
  st_step_with (from_state_ok SessionState.session_version r c _ (session_version_spec r)).
  rewrite Hmv, Z.eqb_refl, Hmr. cbn [negb].
  st_step_with (chain_key_known r c pk k Hr Hk).
  by rewrite (st_bind_err_eq _ _ _ _ _ Hkey).
Qed.

(** The first message under a ratchet key the receiver has not seen. *)
Lemma decrypt_new r c kp k0 pk root' k n m ptext i j :
  session_inv r -> PublicKey.wf pk -> receiver_chain_key r pk = None ->
  ratchet_pair r kp -> sender_chain_key r = Some k0 -> between r j i ->
  RootKey.create_chain (root_of r) pk (KeyPair.private_key kp) = Ok (root', k) ->
  (Z.of_nat n <= MAX_FORWARD_JUMPS)%Z -> (ChainKey.index k + Z.of_nat n < u32_max)%Z ->
  message_of i j (effective_version r) pk (ChainKey.advanced k n) ptext m ->
  let fresh := (KeyPair.generate c).1 in
  exists r' root'' k'',
    decrypt_message_with_state m (r, c) = (Ok ptext, (cleared r', (KeyPair.generate c).2)) /\
    session_inv r' /\ identities r' = identities r /\
    RootKey.create_chain root' pk (KeyPair.private_key fresh) = Ok (root'', k'') /\
    root_of r' = root'' /\ ratchet_pair r' fresh /\ sender_chain_key r' = Some k'' /\
    ChainKey.wf k'' /\ ChainKey.index k'' = 0%Z /\
    receiver_chain_key r' pk = Some (ChainKey.advanced k (S n)) /\
    (forall l, l < n -> skipped r' pk !! (ChainKey.index k + Z.of_nat l)%Z
                        = Some (ChainKey.keys (ChainKey.advanced k l))).
Proof.
  intros Hr Hpk Hnone Hpair Hk0 Hb Hcreate Hn Hmax [Hmv Hmr Hmc Hmac Hbody] fresh.
  destruct (chain_key_new r c pk kp k0 root' k Hr Hpk Hnone Hpair Hk0 Hcreate)
    as (r1 & root'' & k'' & Hchain & Hr1 & Hid1 & Hcreate2 & Hroot1 & Hpair1 & Hsend1 & Hkwf & Hki
        & Hrk1 & Hsk1 & _).
  destruct (message_key_ahead r1 (KeyPair.generate c).2 pk k n Hr1 Hrk1 Hn Hmax)
    as (r2 & Hkey & Hr2 & Hk2 & Hskip & _ & Hother & Honly).
  destruct (only_chains_sender _ _ Honly) as (Hsend2 & Hroot2 & Hpair2).
  exists r2, root'', k''. split_and!; try done.
  - eapply decrypt_with_keys; try done.
    + by rewrite Hmc.
    + eapply between_identities; [|done]. by rewrite (only_chains_identities _ _ Honly).
  - by rewrite (only_chains_identities _ _ Honly).
  - by rewrite Hroot2.
  - by apply Hpair2.
  - by rewrite Hsend2.
Qed.
End Decrypting.

(** * The double ratchet as an invariant of two states

    At any time one end is ahead: it has a ratchet key the other end has not
    seen, and it already follows the other end's current sending chain. *)

(** [s] is ahead; it has sent [n] messages on its new chain and [r] has sent
    [m] that [s] has not received on the chain [s] follows. *)
Record ahead `{BuildConfig, Crates} (s r : SessionState) (n m : nat) : Prop := {
  ahead_inv_s : session_inv s;
  ahead_inv_r : session_inv r;
  ahead_peers : peers s r;
  ahead_pending_s : pending_ok s;
  ahead_pending_r : pending_ok r;
  ahead_keys : exists kp kpr k kr,
    KeyPair.matching kp /\ KeyPair.matching kpr /\ ratchet_pair s kp /\ ratchet_pair r kpr /\
    ChainKey.wf k /\ ChainKey.index k = 0%Z /\
    receiver_chain_key r (KeyPair.public_key kp) = None /\
    RootKey.create_chain (root_of r) (KeyPair.public_key kp) (KeyPair.private_key kpr)
      = Ok (root_of s, k) /\
    sender_chain_key s = Some (ChainKey.advanced k n) /\
    receiver_chain_key s (KeyPair.public_key kpr) = Some kr /\
    sender_chain_key r = Some (ChainKey.advanced kr m);
}.

(** The number of the next message a state sends. *)
Definition sender_index (s : SessionState) : Z := from_option ChainKey.index 0%Z (sender_chain_key s).

(** A session and the generator: one message from [s] to [r]. *)
Definition exchange `{BuildConfig, Crates, ProtoCodecs} (ptext : bytes) (s r : SessionState)
    (c : Csprng) : Result (bytes * SessionState * SessionState * Csprng) :=
  let? '(message, _, s) := encrypt_with_state ptext s in
  let? m := ok_or (inner_message message) InvalidSessionStructure in
  let '(result, (r, c)) := decrypt_message_with_state m (r, c) in
  let? ptext := result in
  Ok (ptext, s, r, c).

(** The key pair the generator gives next is not one [s] has met. *)
Definition fresh_for `{BuildConfig, Crates} (s : SessionState) (c : Csprng) : Prop :=
  receiver_chain_key s (KeyPair.public_key (KeyPair.generate c).1) = None.

Section Ratchet.
Context `{BuildConfig, Crates, ProtoCodecs, !HashLaws, !CbcLaws, !SubtleLaws, !X25519Laws}.

Lemma same_receiving_identity s s' :
  same_receiving s s' -> forall pk, receiver_chain_key s' pk = receiver_chain_key s pk.
Proof. intros Hr. by destruct (same_receiving_view _ _ Hr) as (_ & ? & _). Qed.

Lemma sender_index_advanced s k n :
  sender_chain_key s = Some (ChainKey.advanced k n) ->
  sender_index s = (ChainKey.index k + Z.of_nat n)%Z.
Proof. unfold sender_index. by intros ->. Qed.

Lemma advanced_S k n : ChainKey.advanced (ChainKey.advanced k n) 1 = ChainKey.advanced k (S n).
Proof. by rewrite ChainKey.chain_key_advanced_add, Nat.add_1_r. Qed.

(** The one ahead sends: the other end ratchets and is ahead from then on. *)
Lemma exchange_from_ahead s r n m c ptext :
  ahead s r n m -> (Z.of_nat n <= MAX_FORWARD_JUMPS)%Z -> fresh_for s c ->
  exists s' r', exchange ptext s r c = Ok (ptext, s', r', (KeyPair.generate c).2) /\
    ahead r' s' 0 0 /\ sender_index s' = (sender_index s + 1)%Z /\ sender_index r' = 0%Z.
Proof.
  intros [Hs Hr Hpeers Hps Hpr (kp & kpr & k & kr & Hm & Hmr & Hpair & Hpairr & Hk & Hi & Hnone
    & Hcreate & Hsend & Hkr & Hsendr)] Hn Hfresh.
  assert (Hpow : (Z.of_nat n < u32_max)%Z) by (unfold MAX_FORWARD_JUMPS, u32_max in *; lia).
  destruct (peers_between s r Hpeers) as (i & j & _ & _ & Hbs & Hbr).
  destruct (encrypt_with_state_ok ptext s kp (ChainKey.advanced k n) i j)
    as (cm & msg & s' & Henc & Hinner & Hof & Hs' & Hrecv & Hsend' & Hpair' & Hroot' & Hid' & Hpend');
    [by apply inv_wf|done|done|done|done|cbn; lia|].
  assert (Hver : effective_version s = effective_version r) by apply Hpeers.
  rewrite Hver in Hof.
  destruct (decrypt_new r c kpr (ChainKey.advanced kr m) (KeyPair.public_key kp) (root_of s) k n
    msg ptext i j) as (r' & root'' & k'' & Hdec & Hr' & Hidr & Hcreate2 & Hrootr & Hpairr' & Hsendr'
    & Hwf'' & Hi'' & Hrk' & _); [done|by eauto with crates|done|done|done|done|done|done|lia|done|].
  exists s', (cleared r'). split; [|split; [|split]].
  - unfold exchange. rewrite Henc. cbn [obind]. rewrite Hinner. cbn [ok_or obind].
    by rewrite Hdec.
  - split.
    + by apply cleared_inv.
    + by apply (session_inv_same s).
    + apply (peers_identities r); [done|].
      apply peers_sym. by apply (peers_identities s).
    + apply cleared_pending_ok.
    + done.
    + exists (KeyPair.generate c).1, kp, k'', (ChainKey.advanced k (S n)).
      split_and!; try done.
      * apply KeyPair.key_pair_generate_matching.
      * by rewrite (same_receiving_identity _ _ Hrecv).
      * rewrite Hroot'. change (root_of (cleared r')) with (root_of r'). rewrite Hrootr, <-Hcreate2.
        apply RootKey.create_chain_symmetric; [|done]. apply KeyPair.key_pair_generate_matching.
      * by rewrite ChainKey.chain_key_advanced_0.
      * by rewrite ChainKey.chain_key_advanced_0, Hsend', advanced_S.
  - rewrite (sender_index_advanced s k n Hsend). rewrite advanced_S in Hsend'.
    rewrite (sender_index_advanced s' k (S n) Hsend'). lia.
  - unfold sender_index. change (sender_chain_key (cleared r')) with (sender_chain_key r').
    by rewrite Hsendr'.
Qed.

(** The other end sends: the one ahead follows and stays ahead. *)
Lemma exchange_to_ahead s r n m c ptext :
  ahead s r n m -> (Z.of_nat m <= MAX_FORWARD_JUMPS)%Z -> (sender_index r < u32_max)%Z ->
  exists s' r', exchange ptext r s c = Ok (ptext, r', s', c) /\
    ahead s' r' n 0 /\ sender_index r' = (sender_index r + 1)%Z /\ sender_index s' = sender_index s.
Proof.
  intros [Hs Hr Hpeers Hps Hpr (kp & kpr & k & kr & Hm & Hmr & Hpair & Hpairr & Hk & Hi & Hnone
    & Hcreate & Hsend & Hkr & Hsendr)] Hn Hmax.
  rewrite (sender_index_advanced r kr m Hsendr) in Hmax.
  destruct (peers_between s r Hpeers) as (i & j & _ & _ & Hbs & Hbr).
  destruct (encrypt_with_state_ok ptext r kpr (ChainKey.advanced kr m) j i)
    as (cm & msg & r' & Henc & Hinner & Hof & Hr' & Hrecv & Hsend' & Hpair' & Hroot' & Hid' & Hpend');
    [by apply inv_wf|done|done|done|done|done|].
  assert (Hver : effective_version s = effective_version r) by apply Hpeers.
  rewrite <-Hver in Hof.
  destruct (decrypt_known s c _ (KeyPair.public_key kpr) kr m msg ptext j i Hs Hsend Hbs Hkr Hn Hmax Hof)
    as (s' & Hdec & Hs' & Hkr' & _ & _ & _ & Honly).
  destruct (only_chains_sender _ _ Honly) as (Hsends & Hroots & Hpairs).
  exists (cleared s'), r'. split; [|split; [|split]].
  - unfold exchange. rewrite Henc. cbn [obind]. rewrite Hinner. cbn [ok_or obind].
    by rewrite Hdec.
  - split.
    + by apply cleared_inv.
    + by apply (session_inv_same r).
    + apply (peers_identities s); [by apply (only_chains_identities s s')|].
      apply peers_sym. apply (peers_identities r); [done|]. by apply peers_sym.
    + apply cleared_pending_ok.
    + done.
    + exists kp, kpr, k, (ChainKey.advanced kr (S m)).
      split_and!; try done.
      * by apply (Hpairs kp).
      * by rewrite (same_receiving_identity _ _ Hrecv).
      * rewrite Hroot'. change (root_of (cleared s')) with (root_of s'). by rewrite Hroots.
      * change (sender_chain_key (cleared s')) with (sender_chain_key s'). by rewrite Hsends.
      * by rewrite ChainKey.chain_key_advanced_0, Hsend', advanced_S.
  - rewrite (sender_index_advanced r kr m Hsendr). rewrite advanced_S in Hsend'.
    rewrite (sender_index_advanced r' kr (S m) Hsend'). lia.
  - unfold sender_index. change (sender_chain_key (cleared s')) with (sender_chain_key s').
    by rewrite Hsends.
Qed.

(** A message that is sent and not (yet) delivered, from either end. *)
Lemma ahead_sends s r n m ptext :
  ahead s r n m -> (sender_index s < u32_max)%Z ->
  exists cm j s', encrypt_with_state ptext s = Ok (cm, j, s') /\ ahead s' r (S n) m /\
    sender_index s' = (sender_index s + 1)%Z.
Proof.
  intros [Hs Hr Hpeers Hps Hpr (kp & kpr & k & kr & Hm & Hmr & Hpair & Hpairr & Hk & Hi & Hnone
    & Hcreate & Hsend & Hkr & Hsendr)] Hmax.
  rewrite (sender_index_advanced s k n Hsend) in Hmax.
  destruct (peers_between s r Hpeers) as (i & j & _ & _ & Hbs & Hbr).
  destruct (encrypt_with_state_ok ptext s kp (ChainKey.advanced k n) i j)
    as (cm & msg & s' & Henc & _ & _ & Hs' & Hrecv & Hsend' & Hpair' & Hroot' & Hid' & Hpend');
    [by apply inv_wf|done|done|done|done|done|].
  rewrite advanced_S in Hsend'.
  exists cm, j, s'. split; [done|]. split;
    [|rewrite (sender_index_advanced s k n Hsend), (sender_index_advanced s' k (S n) Hsend'); lia].
  split; try done.
  - by apply (session_inv_same s).
  - by apply (peers_identities s).
  - exists kp, kpr, k, kr. split_and!; try done.
    + by rewrite Hroot'.
    + by rewrite (same_receiving_identity _ _ Hrecv).
Qed.

Lemma behind_sends s r n m ptext :
  ahead s r n m -> (sender_index r < u32_max)%Z ->
  exists cm j r', encrypt_with_state ptext r = Ok (cm, j, r') /\ ahead s r' n (S m) /\
    sender_index r' = (sender_index r + 1)%Z.
Proof.
  intros [Hs Hr Hpeers Hps Hpr (kp & kpr & k & kr & Hm & Hmr & Hpair & Hpairr & Hk & Hi & Hnone
    & Hcreate & Hsend & Hkr & Hsendr)] Hmax.
  rewrite (sender_index_advanced r kr m Hsendr) in Hmax.
  destruct (peers_between s r Hpeers) as (i & j & _ & _ & Hbs & Hbr).
  destruct (encrypt_with_state_ok ptext r kpr (ChainKey.advanced kr m) j i)
    as (cm & msg & r' & Henc & _ & _ & Hr' & Hrecv & Hsend' & Hpair' & Hroot' & Hid' & Hpend');
    [by apply inv_wf|done|done|done|done|done|].
  rewrite advanced_S in Hsend'.
  exists cm, i, r'. split; [done|]. split;
    [|rewrite (sender_index_advanced r kr m Hsendr), (sender_index_advanced r' kr (S m) Hsend'); lia].
  split; try done.
  - by apply (session_inv_same r).
  - apply peers_sym, (peers_identities r); [done|]. by apply peers_sym.
  - exists kp, kpr, k, kr. split_and!; try done.
    + by rewrite (same_receiving_identity _ _ Hrecv).
    + by rewrite Hroot'.
Qed.
End Ratchet.
