(* ===== verification/EndToEnd.v ===== *)
(** From the key agreement to a conversation: the sessions X3DH starts are in
    step, and every message that is delivered in order is read. *)

From S2P Require Import Prelude Error Crates Crypto Curve IdentityKey Proto Protocol RatchetKeys SessionState.
From S2P Require Import SessionInvariant Ratchet PreKeys SenderKeys Storage Session SessionCipher ReceiveChain Conversation.

(** * X3DH *)

Section X3DH.
Context `{BuildConfig, Crates, ProtoCodecs, !HashLaws, !X25519Laws}.
Context (alice_id bob_id : IdentityKeyPair) (alice_base bob_signed bob_ratchet : KeyPair)
  (bob_one_time : option KeyPair).

Abbreviation alice := (alice_parameters alice_id bob_id alice_base bob_signed bob_ratchet bob_one_time).
Abbreviation bob := (bob_parameters alice_id bob_id alice_base bob_signed bob_ratchet bob_one_time).
Abbreviation all_matching :=
  (parties_matching alice_id bob_id alice_base bob_signed bob_ratchet bob_one_time).

Lemma x3dh_ahead csprng :
  all_matching ->
  exists sa sb,
    initialize_alice_session alice csprng = (Ok sa, (KeyPair.generate csprng).2) /\
    initialize_bob_session bob = Ok sb /\
    ahead sa sb 0 0 /\ sender_index sa = 0%Z /\ sender_index sb = 0%Z /\
    between sa (IdentityKeyPair.identity_key alice_id) (IdentityKeyPair.identity_key bob_id) /\
    between sb (IdentityKeyPair.identity_key bob_id) (IdentityKeyPair.identity_key alice_id) /\
    effective_version sa = 3%Z /\
    (forall pk, pk <> KeyPair.public_key bob_ratchet -> receiver_chain_key sa pk = None).
Proof.
  intros Hm.
  destruct (secrets_agree _ _ _ _ _ _ Hm) as (secret & Ha & Hb).
  destruct (derive_keys_ok secret) as (r & c & Hder & Hr & Hc & Hkdf & Hk3 & Hci).
  destruct (initialize_bob_ok _ _ _ _ _ _ secret r c Hm Hb Hder Hr Hc Hkdf Hk3)
    as (sb & Hsb & Hwb & Hsendb & Hrootb & Hnob & Hpubb & Hprivb & Hvb & Hlb & Hrb & Hpb).
  destruct (initialize_alice_ok _ _ _ _ _ _ csprng secret r c Hm Ha Hder Hr Hc Hkdf Hk3)
    as (sa & ratchet & r' & c' & Hsa & Hwa & Hmr & Hcreate & Hwc' & Hic' & Hsenda & Hroota & Hrka
        & Hska & Hpuba & Hpriva & Hva & Hla & Hra & Hpa & Hothera).
  destruct Hm as (Hai & Hbi & _ & _ & Hbr & _).
  exists sa, sb. split; [done|]. split; [done|].
  assert (IdentityKey.wf (IdentityKeyPair.identity_key alice_id)) by by apply IdentityKeyPair.identity_key_pair_matching_wf.
  assert (IdentityKey.wf (IdentityKeyPair.identity_key bob_id)) by by apply IdentityKeyPair.identity_key_pair_matching_wf.
  split; [|split; [|split; [|split_and!; [by apply identity_between|by apply identity_between|done|done]]]].
  - split.
    + by apply fresh_session_inv.
    + apply fresh_session_inv; [done|]. intros pk. unfold skipped. by rewrite Hnob.
    + split; [exists (IdentityKeyPair.identity_key alice_id)|
              exists (IdentityKeyPair.identity_key bob_id)|congruence].
      * split_and!; [by apply IdentityKeyPair.identity_key_pair_matching_wf|done|done].
      * split_and!; [by apply IdentityKeyPair.identity_key_pair_matching_wf|done|done].
    + exists None. unfold SessionState.unacknowledged_pre_key_message_items. by rewrite Hpa.
    + exists None. unfold SessionState.unacknowledged_pre_key_message_items. by rewrite Hpb.
    + exists ratchet, bob_ratchet, c', c. rewrite !ChainKey.chain_key_advanced_0. split_and!; try done.
      * unfold receiver_chain_key. by rewrite Hnob.
      * rewrite Hrootb, Hroota, <-Hcreate. by apply RootKey.create_chain_symmetric.
  - unfold sender_index. by rewrite Hsenda.
  - unfold sender_index. by rewrite Hsendb.
Qed.

(** C12: X3DH gives the two ends of a session the same keys.  From parameters in
    which each side holds its own key pairs and the public keys of the other
    side, with or without a one-time pre-key, both initialisations succeed;
    the two sessions satisfy the session invariant and have each other's
    identities; Bob derives from Alice's first ratchet key exactly Alice's
    root key and sending chain, and Alice has the chain Bob sends on. *)
Theorem x3dh_agreement csprng :
  all_matching ->
  exists sa sb,
    (initialize_alice_session alice csprng).1 = Ok sa /\
    initialize_bob_session bob = Ok sb /\ ahead sa sb 0 0.
Proof.
  intros Hm. destruct (x3dh_ahead csprng Hm) as (sa & sb & Hsa & Hsb & Hahead & _).
  exists sa, sb. by rewrite Hsa.
Qed.
End X3DH.

(** * Conversations *)

(** A message that is delivered at once, or one that is lost. *)
Inductive event :=
  | Delivered (from_alice : bool) (ptext : bytes)
  | Lost (from_alice : bool) (ptext : bytes).

(** The two sessions and the generators of their owners. *)
Record ends `{Crates} := Ends {
  end_a : SessionState; end_b : SessionState; rng_a : Csprng; rng_b : Csprng }.
Arguments ends {_}.
Arguments Ends {_} _ _ _ _.

Section Conversations.
Context `{BuildConfig, Crates, ProtoCodecs}.

Definition step (e : event) (w : ends) : Result (option bytes * ends) :=
  let 'Ends a b ca cb := w in
  match e with
  | Delivered true p => let? '(q, a, b, cb) := exchange p a b cb in Ok (Some q, Ends a b ca cb)
  | Delivered false p => let? '(q, b, a, ca) := exchange p b a ca in Ok (Some q, Ends a b ca cb)
  | Lost true p => let? '(_, _, a) := encrypt_with_state p a in Ok (None, Ends a b ca cb)
  | Lost false p => let? '(_, _, b) := encrypt_with_state p b in Ok (None, Ends a b ca cb)
  end.

(** What the receivers read, in order. *)
Fixpoint run (script : list event) (w : ends) : Result (list bytes * ends) :=
  match script with
  | [] => Ok ([], w)
  | e :: script =>
      let? '(o, w) := step e w in
      let? '(l, w) := run script w in
      Ok (option_list o ++ l, w)
  end.

(** Before each delivery, the key pair the receiver's generator gives next is
    not one the sender has met. *)
Fixpoint fresh_run (script : list event) (w : ends) : Prop :=
  match script with
  | [] => True
  | e :: script =>
      match e with
      | Delivered true _ => fresh_for (end_a w) (rng_b w)
      | Delivered false _ => fresh_for (end_b w) (rng_a w)
      | Lost _ _ => True
      end /\
      match step e w with Ok (_, w) => fresh_run script w | _ => True end
  end.

Fixpoint sent_and_delivered (script : list event) : list bytes :=
  match script with
  | [] => []
  | Delivered _ p :: script => p :: sent_and_delivered script
  | Lost _ _ :: script => sent_and_delivered script
  end.

Fixpoint lost_count (script : list event) : nat :=
  match script with
  | [] => 0
  | Delivered _ _ :: script => lost_count script
  | Lost _ _ :: script => S (lost_count script)
  end.

(** One end is ahead of the other by few messages, and none has sent many. *)
Definition in_step (w : ends) (lost sent : nat) : Prop :=
  exists n m, n + m <= lost /\
    (ahead (end_a w) (end_b w) n m \/ ahead (end_b w) (end_a w) n m) /\
    (sender_index (end_a w) <= Z.of_nat sent)%Z /\ (sender_index (end_b w) <= Z.of_nat sent)%Z.
End Conversations.

Section Delivery.
Context `{BuildConfig, Crates, ProtoCodecs, !HashLaws, !CbcLaws, !SubtleLaws, !X25519Laws}.

(** A message from one end to the other. *)
Lemma exchange_in_step a b n m c p :
  (ahead a b n m \/ ahead b a n m) -> (Z.of_nat (n + m) <= MAX_FORWARD_JUMPS)%Z ->
  (sender_index a < u32_max)%Z -> fresh_for a c ->
  exists a' b' c' n' m', exchange p a b c = Ok (p, a', b', c') /\
    (ahead a' b' n' m' \/ ahead b' a' n' m') /\ n' + m' <= n + m /\
    sender_index a' = (sender_index a + 1)%Z /\
    (sender_index b' <= Z.max 0 (sender_index b))%Z.
Proof.
  intros [Hab|Hba] Hjump Hmax Hfresh.
  - destruct (exchange_from_ahead a b n m c p Hab) as (a' & b' & Hx & Hah & Hia & Hib); [lia|done|].
    exists a', b', (KeyPair.generate c).2, 0, 0. split_and!; first [done|by right|lia].
  - destruct (exchange_to_ahead b a n m c p Hba) as (b' & a' & Hx & Hah & Hia & Hib); [lia|done|].
    exists a', b', c, n, 0. split_and!; first [done|by right|lia].
Qed.

Lemma send_in_step a b n m p :
  (ahead a b n m \/ ahead b a n m) -> (sender_index a < u32_max)%Z ->
  exists cm j a' n' m', encrypt_with_state p a = Ok (cm, j, a') /\
    (ahead a' b n' m' \/ ahead b a' n' m') /\ n' + m' = S (n + m) /\
    sender_index a' = (sender_index a + 1)%Z.
Proof.
  intros [Hab|Hba] Hmax.
  - destruct (ahead_sends a b n m p Hab Hmax) as (cm & j & a' & Henc & Hah & Hi).
    exists cm, j, a', (S n), m. split_and!; first [done|by left|lia].
  - destruct (behind_sends b a n m p Hba Hmax) as (cm & j & a' & Henc & Hah & Hi).
    exists cm, j, a', n, (S m). split_and!; first [done|by right|lia].
Qed.

Lemma run_in_step script : forall w lost sent,
  in_step w lost sent ->
  (Z.of_nat (lost + lost_count script) <= MAX_FORWARD_JUMPS)%Z ->
  (Z.of_nat (sent + length script) <= u32_max)%Z -> fresh_run script w ->
  exists w', run script w = Ok (sent_and_delivered script, w') /\
    in_step w' (lost + lost_count script) (sent + length script).
Proof.
  induction script as [|e script IH]; intros w lost sent Hw Hlost Hsent Hfresh.
  - exists w. rewrite !Nat.add_0_r. done.
  - cbn [fresh_run] in Hfresh. destruct Hfresh as [Hf Hrest].
    destruct Hw as (n & m & Hnm & Hah & Hia & Hib). destruct w as [a b ca cb].
    cbn [end_a end_b rng_a rng_b] in *. cbn [length] in Hsent.
    assert (Hstep : exists o w' lost', step e (Ends a b ca cb) = Ok (o, w') /\
      in_step w' lost' (S sent) /\ lost' + lost_count script = lost + lost_count (e :: script) /\
      sent_and_delivered (e :: script) = option_list o ++ sent_and_delivered script).
    { destruct e as [[] p|[] p]; cbn [lost_count sent_and_delivered] in *; unfold step.
      - destruct (exchange_in_step a b n m cb p Hah) as (a' & b' & c' & n' & m' & -> & Hah' & ? & ? & ?);
          [lia|lia|done|].
        exists (Some p), (Ends a' b' ca c'), lost. split_and!; try done.
        exists n', m'. cbn. split_and!; try done; lia.
      - destruct (exchange_in_step b a n m ca p) as (b' & a' & c' & n' & m' & -> & Hah' & ? & ? & ?);
          [tauto|lia|lia|done|].
        exists (Some p), (Ends a' b' c' cb), lost. split_and!; try done.
        exists n', m'. cbn. split_and!; try tauto; lia.
      - destruct (send_in_step a b n m p Hah) as (cm & j & a' & n' & m' & -> & Hah' & ? & ?); [lia|].
        exists None, (Ends a' b ca cb), (S lost). split_and!; try first [done|lia].
        exists n', m'. cbn. split_and!; try tauto; lia.
      - destruct (send_in_step b a n m p) as (cm & j & b' & n' & m' & -> & Hah' & ? & ?); [tauto|lia|].
        exists None, (Ends a b' ca cb), (S lost). split_and!; try first [done|lia].
        exists n', m'. cbn. split_and!; try tauto; lia. }
    destruct Hstep as (o & w' & lost' & Hstep & Hw' & Hl & Hd).
    rewrite Hstep in Hrest. destruct (IH w' lost' (S sent) Hw') as (w'' & Hrun & Hw'');
      [lia|lia|done|].
    exists w''. cbn [run length]. rewrite Hstep. cbn [obind]. rewrite Hrun. cbn [obind].
    rewrite Hd. split; [done|]. rewrite <-Hl. by rewrite Nat.add_succ_r.
Qed.
End Delivery.

(** C1: the protocol delivers.  Start both ends with X3DH and let them exchange
    any script of messages, each delivered at once or lost, in either direction
    and in any order, with at most 2000 losses and fewer than 2^32 messages:
    every delivered message decrypts to the plaintext that was sent, and no
    call fails or panics.  (The hypothesis on the generators: a fresh ratchet
    key is not one the other end has met.) *)
Theorem conversation_delivers `{BuildConfig, Crates, ProtoCodecs, !HashLaws, !CbcLaws, !SubtleLaws,
    !X25519Laws} alice_id bob_id alice_base bob_signed bob_ratchet bob_one_time csprng ca cb script sa sb :
  parties_matching alice_id bob_id alice_base bob_signed bob_ratchet bob_one_time ->
  initialize_alice_session
    (alice_parameters alice_id bob_id alice_base bob_signed bob_ratchet bob_one_time) csprng = (Ok sa, ca) ->
  initialize_bob_session
    (bob_parameters alice_id bob_id alice_base bob_signed bob_ratchet bob_one_time) = Ok sb ->
  (Z.of_nat (lost_count script) <= MAX_FORWARD_JUMPS)%Z ->
  (Z.of_nat (length script) <= u32_max)%Z ->
  fresh_run script (Ends sa sb ca cb) ->
  exists w, run script (Ends sa sb ca cb) = Ok (sent_and_delivered script, w).
Proof.
  intros Hm Hsa Hsb Hlost Hlen Hfresh.
  destruct (x3dh_ahead _ _ _ _ _ _ csprng Hm) as (sa' & sb' & Hsa' & Hsb' & Hah & Hia & Hib & _).
  rewrite Hsa' in Hsa. injection Hsa as -> _. rewrite Hsb in Hsb'. injection Hsb' as <-.
  destruct (run_in_step script (Ends sa sb ca cb) 0 0) as (w & Hrun & _); [|done..|by exists w].
  exists 0, 0. cbn. split_and!; [lia|by left|lia|lia].
Qed.
