(* ===== verification/SessionRecordFacts.v ===== *)
(** The session record of [state/session.rs]: archiving, promotion, the search
    for a session, and the serialised form. *)

From S2P Require Import Prelude Error Crates Crypto Curve IdentityKey Proto RatchetKeys SessionState SessionInvariant PreKeys.

(** At most forty archived sessions. *)
Definition record_bounded (r : SessionRecord) : Prop :=
  length (SessionRecord.previous_sessions r) <= ARCHIVED_STATES_MAX_LENGTH.

(** All the sessions of a record, the current one first. *)
Definition all_sessions (r : SessionRecord) : list SessionState :=
  option_list (SessionRecord.current_session r) ++ SessionRecord.previous_sessions r.

Definition state_matches (version : Z) (base_key : bytes) (s : SessionState) : Prop :=
  effective_version s = version /\
  SessionStructure.alice_base_key (SessionState.session s) = base_key.

Section Facts.
Context `{BuildConfig, Crates, ProtoCodecs}.

Lemma archive_current_state_spec r :
  record_bounded r ->
  SessionRecord.archive_current_state r
  = Ok (SessionRecord.mk None (take ARCHIVED_STATES_MAX_LENGTH (all_sessions r))).
Proof.
  intros Hb. unfold SessionRecord.archive_current_state, all_sessions.
  destruct r as [[s|] previous]; unfold record_bounded in Hb; cbn [SessionRecord.current_session
    SessionRecord.previous_sessions option_list app] in *.
  - destruct (Nat.ltb_spec ARCHIVED_STATES_MAX_LENGTH (length (s :: previous))) as [Hlt|Hge].
    + rewrite removelast_firstn_len. repeat f_equal. simpl length in *. lia.
    + by rewrite take_ge.
  - by rewrite take_ge.
Qed.

Lemma promote_state_spec r new_state :
  record_bounded r ->
  SessionRecord.promote_state r new_state
  = Ok (SessionRecord.mk (Some new_state) (take ARCHIVED_STATES_MAX_LENGTH (all_sessions r))).
Proof. intros Hb. unfold SessionRecord.promote_state. by rewrite archive_current_state_spec. Qed.

Lemma promote_old_session_spec r i s updated :
  record_bounded r -> SessionRecord.previous_sessions r !! i = Some s ->
  SessionRecord.promote_old_session r i updated
  = Ok (SessionRecord.mk (Some updated)
          (option_list (SessionRecord.current_session r)
           ++ list_remove_at i (SessionRecord.previous_sessions r))).
Proof.
  intros Hb Hi. unfold SessionRecord.promote_old_session. rewrite Hi. cbn [ok_or obind].
  assert (Hlen : S (length (list_remove_at i (SessionRecord.previous_sessions r)))
                 = length (SessionRecord.previous_sessions r)).
  { rewrite (list_remove_at_perm i _ s Hi) at 2. done. }
  unfold record_bounded in Hb. rewrite promote_state_spec by (unfold record_bounded; cbn; lia).
  rewrite take_ge; [done|]. unfold all_sessions. cbn. rewrite length_app.
  destruct (SessionRecord.current_session r); cbn; lia.
Qed.

Lemma promotion_facts r i s new_state :
  record_bounded r -> SessionRecord.previous_sessions r !! i = Some s ->
  exists r', SessionRecord.promote_old_session r i new_state = Ok r' /\
    record_bounded r' /\ SessionRecord.current_session r' = Some new_state /\
    s :: SessionRecord.previous_sessions r' ≡ₚ all_sessions r.
Proof.
  intros Hb Hi. rewrite (promote_old_session_spec r i s new_state Hb Hi). eexists. split; [done|].
  pose proof (list_remove_at_perm i _ s Hi) as Hperm.
  split_and!; [|done|].
  - unfold record_bounded in *. apply Permutation_length in Hperm.
    cbn [length SessionRecord.previous_sessions] in *. rewrite length_app.
    transitivity (S (length (list_remove_at i (SessionRecord.previous_sessions r)))); [|lia].
    destruct (SessionRecord.current_session r); simpl; lia.
  - unfold all_sessions. rewrite Hperm at 2. apply Permutation_middle.
Qed.

(** Archiving and promotion lose no session but the oldest.  Within the
    limit of forty archived sessions, which both keep: [promote_state] makes
    the new state current and puts the old current one in front of the
    archive, dropping at most the last session of a full archive;
    [promote_old_session] takes a session out of the archive, makes its
    update current, and keeps every other session; an index out of range is
    an error. *)
Lemma promotion_correct r i new_state :
  record_bounded r ->
  (exists r', SessionRecord.promote_state r new_state = Ok r' /\ record_bounded r' /\
     SessionRecord.current_session r' = Some new_state /\
     SessionRecord.previous_sessions r' = take ARCHIVED_STATES_MAX_LENGTH (all_sessions r)) /\
  match SessionRecord.previous_sessions r !! i with
  | None => SessionRecord.promote_old_session r i new_state
            = Err (InvalidState "promote_old_session" "out of range")
  | Some s => exists r', SessionRecord.promote_old_session r i new_state = Ok r' /\
      record_bounded r' /\ SessionRecord.current_session r' = Some new_state /\
      s :: SessionRecord.previous_sessions r' ≡ₚ all_sessions r
  end.
Proof.
  intros Hb. split.
  - rewrite promote_state_spec by done. eexists. split; [done|]. split_and!; try done.
    unfold record_bounded. cbn [SessionRecord.previous_sessions]. rewrite length_take. lia.
  - destruct (SessionRecord.previous_sessions r !! i) as [s|] eqn:Hi.
    + by apply promotion_facts.
    + unfold SessionRecord.promote_old_session. by rewrite Hi.
Qed.

Lemma state_matches_spec v k s :
  exists b, SessionRecord.state_matches v k s = Ok b /\ (b = true <-> state_matches v k s).
Proof.
  unfold SessionRecord.state_matches, state_matches. rewrite session_version_spec. cbn [obind].
  destruct (Z.eqb_spec (effective_version s) v) as [->|Hne]; cbn [SessionState.alice_base_key obind].
  - eexists. split; [done|]. rewrite bool_decide_eq_true. split; [by intros ->|by intros [_ ->]].
  - eexists. split; [done|]. split; [done|]. by intros [? _].
Qed.

Lemma any_state_matches_spec v k l :
  exists b, SessionRecord.any_state_matches v k l = Ok b /\
    (b = true <-> exists s, s ∈ l /\ state_matches v k s).
Proof.
  induction l as [|s l (b & Hb & IH)]; cbn [SessionRecord.any_state_matches].
  - exists false. split; [done|]. split; [done|]. by intros (s & ?%not_elem_of_nil & _).
  - destruct (state_matches_spec v k s) as (b' & -> & Hs). cbn [obind]. destruct b'.
    + exists true. split; [done|]. split; [|done]. intros _. exists s. split; [by left|by apply Hs].
    + exists b. split; [done|]. rewrite IH. split.
      * intros (x & Hx & Hm). exists x. split; [by right|done].
      * intros (x & Hx & Hm). apply elem_of_cons in Hx as [->|Hx]; [by apply Hs in Hm|by exists x].
Qed.

Lemma has_session_state_total r v k :
  exists b, SessionRecord.has_session_state r v k = Ok b /\
    (b = true <-> exists s, s ∈ all_sessions r /\ state_matches v k s).
Proof.
  unfold SessionRecord.has_session_state, all_sessions.
  destruct (any_state_matches_spec v k (SessionRecord.previous_sessions r)) as (b & Hb & Hany).
  destruct (SessionRecord.current_session r) as [s|]; cbn [option_list obind app].
  - destruct (state_matches_spec v k s) as (b' & -> & Hs). cbn [obind].
    destruct b'; [|rewrite Hb].
    + exists true. split; [done|]. split; [|done]. intros _. exists s. split; [by left|by apply Hs].
    + exists b. split; [done|]. rewrite Hany. split.
      * intros (x & Hx & Hm). exists x. split; [by right|done].
      * intros (x & Hx & Hm). apply elem_of_cons in Hx as [->|Hx]; [by apply Hs in Hm|by exists x].
  - exists b. split; [exact Hb|exact Hany].
Qed.

(** [has_session_state] never fails, and answers [true] exactly when the
    current session or an archived one has that version and base key, so a
    repeated pre-key message is recognised whatever has happened since. *)
Lemma has_session_state_correct r v k :
  exists b, SessionRecord.has_session_state r v k = Ok b /\
    (b = true <-> exists s, s ∈ all_sessions r /\ state_matches v k s).
Proof. apply has_session_state_total. Qed.

(** A session record whose integers are in range comes back whole from its
    serialised form, archived sessions in order. *)
Lemma session_record_roundtrip `{!ProtoLaws} r :
  Forall (fun s => well_typed (SessionState.session s)) (all_sessions r) ->
  exists b, SessionRecord.serialize r = Ok b /\ SessionRecord.deserialize b = Ok r.
Proof.
  intros Hw. eexists. split; [done|]. unfold SessionRecord.deserialize.
  unfold all_sessions in Hw. apply list.Forall_app in Hw as [Hc Hp].
  rewrite decode_message_encode.
  - cbn. destruct r as [cur prev]. cbn. f_equal. f_equal.
    + by destruct cur as [[]|].
    + clear. induction prev as [|[] prev IH]; [done|]. cbn. f_equal. exact IH.
  - split.
    + destruct (SessionRecord.current_session r) as [s|]; [|done]. cbn in *.
      by apply list.Forall_cons in Hc as [? _].
    + cbn. apply Forall_fmap. exact Hp.
Qed.

End Facts.
