(* ===== verification/Replay.v ===== *)
(** Messages out of order, replayed, or forged: what
    [decrypt_message_with_state] and [decrypt_message_with_record] do with any
    message at all. *)

From S2P Require Import Prelude Error Crates Crypto Curve IdentityKey Proto Protocol RatchetKeys SessionState.
From S2P Require Import SessionInvariant Ratchet PreKeys SenderKeys Storage StoreAccess Session SessionCipher ReceiveChain Conversation SessionRecordFacts.

(** * Late messages *)

Section Late.
Context `{BuildConfig, Crates, ProtoCodecs, !HashLaws, !X25519Laws}.

(** A message [n] ahead of the chain, then one it overtook. *)
Lemma late_pair_decrypts r c ks pk k n l m ml p pl i j :
  session_inv r -> sender_chain_key r = Some ks -> between r j i ->
  receiver_chain_key r pk = Some k -> l < n ->
  (Z.of_nat n <= MAX_FORWARD_JUMPS)%Z -> (ChainKey.index k + Z.of_nat n < u32_max)%Z ->
  message_of i j (effective_version r) pk (ChainKey.advanced k n) p m ->
  message_of i j (effective_version r) pk (ChainKey.advanced k l) pl ml ->
  exists r1 r2,
    decrypt_message_with_state m (r, c) = (Ok p, (r1, c)) /\
    decrypt_message_with_state ml (r1, c) = (Ok pl, (r2, c)) /\
    session_inv r2 /\ sender_chain_key r2 = Some ks /\ effective_version r2 = effective_version r /\
    receiver_chain_key r2 pk = Some (ChainKey.advanced k (S n)) /\
    skipped r2 pk !! SignalMessage.counter m = None /\ skipped r2 pk !! SignalMessage.counter ml = None.
Proof.
  intros Hr Hks Hb Hk Hln Hn Hmax Hm Hml.
  destruct (decrypt_known r c ks pk k n m p i j Hr Hks Hb Hk Hn Hmax Hm)
    as (r1 & Hd1 & Hr1 & Hk1 & Hskip1 & Hgone1 & _ & Honly1).
  destruct (only_chains_sender _ _ Honly1) as (Hs1 & _ & _).
  pose proof (only_chains_identities _ _ Honly1) as Hid1.
  destruct Hm as [Hmv Hmr Hmc _ _]. destruct Hml as [Hlv Hlr Hlc Hlmac Hlbody].
  cbn [ChainKey.advanced ChainKey.index] in Hmc, Hlc.
  assert (Hv1 : effective_version r1 = effective_version r) by by apply identities_version.
  destruct (decrypt_skipped (cleared r1) c ks pk (ChainKey.advanced k (S n)) ml pl i j
    (ChainKey.keys (ChainKey.advanced k l)))
    as (r2 & Hd2 & Hr2 & Hk2 & Hdel2 & _ & Honly2); try done; [by apply cleared_inv| | | | | |].
  - change (sender_chain_key (cleared r1)) with (sender_chain_key r1). by rewrite Hs1.
  - eapply between_identities; [|exact Hb]. exact Hid1.
  - rewrite Hlc. cbn [ChainKey.advanced ChainKey.index]. lia.
  - rewrite Hlc. by apply Hskip1.
  - change (effective_version (cleared r1)) with (effective_version r1). by rewrite Hv1.
  - destruct (only_chains_sender _ _ Honly2) as (Hs2 & _ & _).
    pose proof (only_chains_identities _ _ Honly2) as Hid2.
    exists (cleared r1), (cleared r2). split_and!; try done; [by apply cleared_inv| | | |].
    + change (sender_chain_key (cleared r2)) with (sender_chain_key r2). rewrite Hs2.
      change (sender_chain_key (cleared r1)) with (sender_chain_key r1). by rewrite Hs1.
    + transitivity (effective_version (cleared r1)); [by apply identities_version|exact Hv1].
    + change (skipped (cleared r2) pk) with (skipped r2 pk). rewrite Hdel2.
      rewrite lookup_delete_None. right. rewrite Hmc. exact Hgone1.
    + change (skipped (cleared r2) pk) with (skipped r2 pk). rewrite Hdel2.
      by rewrite lookup_delete_eq.
Qed.

(** Messages may overtake each other.  When a message arrives [n] ahead of
    the chain ([n] up to 2000), it decrypts; a message it overtook decrypts
    when it arrives later; after that, each of the two is refused as a
    duplicate and changes nothing. *)
Lemma late_message_decrypts r c ks pk k n l m ml p pl i j :
  session_inv r -> sender_chain_key r = Some ks -> between r j i ->
  receiver_chain_key r pk = Some k -> l < n ->
  (Z.of_nat n <= MAX_FORWARD_JUMPS)%Z -> (ChainKey.index k + Z.of_nat n < u32_max)%Z ->
  message_of i j (effective_version r) pk (ChainKey.advanced k n) p m ->
  message_of i j (effective_version r) pk (ChainKey.advanced k l) pl ml ->
  let next := (ChainKey.index k + Z.of_nat (S n))%Z in
  exists r1 r2,
    decrypt_message_with_state m (r, c) = (Ok p, (r1, c)) /\
    decrypt_message_with_state ml (r1, c) = (Ok pl, (r2, c)) /\
    decrypt_message_with_state ml (r2, c)
      = (Err (DuplicatedMessage next (SignalMessage.counter ml)), (r2, c)) /\
    decrypt_message_with_state m (r2, c)
      = (Err (DuplicatedMessage next (SignalMessage.counter m)), (r2, c)).
Proof.
  intros Hr Hks Hb Hk Hln Hn Hmax Hm Hml next.
  destruct (late_pair_decrypts r c ks pk k n l m ml p pl i j)
    as (r1 & r2 & Hd1 & Hd2 & Hr2 & Hs2 & Hv2 & Hk2 & Hgone & Hgonel); [done..|].
  destruct Hm as [Hmv Hmr Hmc _ _]. destruct Hml as [Hlv Hlr Hlc _ _].
  cbn [ChainKey.advanced ChainKey.index] in Hmc, Hlc.
  exists r1, r2. split_and!; [done|done| |].
  - apply (decrypt_duplicate r2 c ks pk (ChainKey.advanced k (S n)) ml); try done; [by rewrite Hv2|].
    rewrite Hlc. cbn [ChainKey.advanced ChainKey.index]. lia.
  - apply (decrypt_duplicate r2 c ks pk (ChainKey.advanced k (S n)) m); try done; [by rewrite Hv2|].
    rewrite Hmc. cbn [ChainKey.advanced ChainKey.index]. lia.
Qed.
End Late.

(** * Any message *)

Section AnyMessage.
Context `{BuildConfig, Crates, ProtoCodecs, !HashLaws, !X25519Laws}.

(** What parsing guarantees of a message; the counter is any [u32]. *)
Record message_wf (m : SignalMessage) : Prop := {
  wf_ratchet_key : PublicKey.wf (SignalMessage.sender_ratchet_key m);
  wf_counter : is_u32 (SignalMessage.counter m);
  wf_verify : forall s r k, SignalMessage.verify_mac m s r k <> Panic;
}.

(** [m] has the last number, 2^32 - 1, and [s] would move a chain past it: the session
    sends, its version is the message's, and it has a chain for the message's ratchet key
    that is at most 2000 before the end. *)
Definition exhausts (m : SignalMessage) (s : SessionState) : Prop :=
  is_Some (SessionStructure.sender_chain (SessionState.session s)) /\
  SignalMessage.message_version m = effective_version s /\
  exists k, receiver_chain_key s (SignalMessage.sender_ratchet_key m) = Some k /\
    exhausted k (SignalMessage.counter m) = true.

Lemma not_last_exhausts m s : SignalMessage.counter m <> u32_max -> ~ exhausts m s.
Proof. by intros Hne (_ & _ & k & _ & [Hlast _]%exhausted_spec). Qed.

(** The chain has moved past message [n] of [pk], and its key is not stored. *)
Definition used_up (s : SessionState) (pk : PublicKey) (n : Z) : Prop :=
  exists k, receiver_chain_key s pk = Some k /\ (n < ChainKey.index k)%Z /\ skipped s pk !! n = None.

Lemma sending_total s c :
  session_wf s -> SessionStructure.sender_chain (SessionState.session s) = Some c ->
  exists kp k, ratchet_pair s kp /\ sender_chain_key s = Some k.
Proof.
  intros Hs Hc. destruct (wf_sender s Hs c Hc) as [(pk & Hpk & Hpub) (sk & Hsk & Hpriv) (k & Hk & _)].
  exists (KeyPair.new pk sk), (to_chain_key s k). split; [split|].
  - unfold SessionState.sender_ratchet_key. rewrite Hc, Hpub. by apply PublicKey.public_key_deserialize_serialize'.
  - unfold SessionState.sender_ratchet_private_key. rewrite Hc, Hpriv.
    unfold decode_private_point. by rewrite PrivateKey.private_key_deserialize_serialize.
  - unfold sender_chain_key. rewrite Hc. cbn. by rewrite Hk.
Qed.

Lemma chain_key_total r c kp k0 pk :
  session_inv r -> ratchet_pair r kp -> sender_chain_key r = Some k0 -> PublicKey.wf pk ->
  exists k r1 c1, get_or_create_chain_key pk (r, c) = (Ok k, (r1, c1)) /\ session_inv r1 /\
    identities r1 = identities r /\ receiver_chain_key r1 pk = Some k /\
    is_Some (sender_chain_key r1) /\
    (receiver_chain_key r pk = Some k \/ receiver_chain_key r pk = None /\ ChainKey.index k = 0%Z).
Proof.
  intros Hr Hpair Hk0 Hpk. destruct (receiver_chain_key r pk) as [k|] eqn:Hk.
  - exists k, r, c. split; [by apply chain_key_known|].
    rewrite Hk0. split_and!; try done. by left.
  - destruct (RootKey.create_chain_ok (root_of r) pk (KeyPair.private_key kp))
      as (root' & k & Hcreate & _ & _ & _ & Hi & _); [by apply kdf_of_kdf_valid, inv_wf|].
    destruct (chain_key_new r c pk kp k0 root' k Hr Hpk Hk Hpair Hk0 Hcreate)
      as (r1 & root'' & k'' & Hget & Hr1 & Hid & _ & _ & _ & Hsend & _ & _ & Hrk & _).
    exists k, r1, (KeyPair.generate c).2. split_and!; try done. by right.
Qed.

Lemma message_key_total r (c : Csprng) pk k n :
  session_inv r -> receiver_chain_key r pk = Some k -> is_u32 n ->
  exists res r', get_or_create_message_key pk k n (r, c) = (res, (r', c)) /\
    (res = Panic <-> overflow_checks = true /\ exhausted k n = true) /\ only_chains r r' /\
    (exhausted k n = false -> session_inv r' /\ forall keys, res = Ok keys -> used_up r' pk n).
Proof.
  intros Hr Hk Hn. destruct (receiver_chain_key_wf r pk k (inv_wf r Hr) Hk) as [[_ [Hidx _]] _].
  assert (Hrefl : only_chains r r) by (unfold only_chains, chains; by destruct r as [[]]).
  unfold is_u32 in *. set (j := Z.to_nat (n - ChainKey.index k)).
  destruct (exhausted k n) eqn:Hex.
  { apply exhausted_spec in Hex as [-> Hnear].
    destruct (message_key_last r c pk k j) as (res & r' & Hget & _ & Honly & Hres); [done|done|lia|lia|].
    replace (ChainKey.index k + Z.of_nat j)%Z with u32_max in Hget by lia.
    exists res, r'. split_and!; try done.
    destruct overflow_checks; [by subst res|]. destruct Hres as [-> _]. by split; [|intros []]. }
  assert (Hfine : forall res : Result MessageKeys, res <> Panic ->
    (res = Panic <-> overflow_checks = true /\ false = true)) by (intros res Hne; split; [done|by intros []]).
  apply not_true_iff_false in Hex. rewrite exhausted_spec in Hex.
  destruct (Z.ltb_spec n (ChainKey.index k)) as [Hlt|Hge].
  - pose proof (message_key_behind r c pk k n Hr Hk Hlt) as Hb.
    destruct (skipped r pk !! n) as [keys|] eqn:Hsk.
    + destruct Hb as (r' & Hget & Hr' & Hdel & Hk' & _ & Honly).
      do 2 eexists. split; [exact Hget|]. split_and!; [by apply Hfine|done|]. intros _. split; [done|].
      intros _ _. exists k. rewrite Hdel. by rewrite lookup_delete_eq.
    + do 2 eexists. split; [exact Hb|]. split_and!; [by apply Hfine|done|done].
  - destruct (Z.ltb_spec MAX_FORWARD_JUMPS (n - ChainKey.index k)) as [Hfar|Hnear].
    + do 2 eexists. split; [by apply message_key_too_far; lia|]. split_and!; [by apply Hfine|done|done].
    + destruct (message_key_ahead r c pk k j)
        as (r' & Hget & Hr' & Hk' & _ & Hgone & _ & Honly); [done|done|lia|lia|].
      replace (ChainKey.index k + Z.of_nat j)%Z with n in Hget, Hgone by lia.
      do 2 eexists. split; [exact Hget|]. split_and!; [by apply Hfine|done|]. intros _. split; [done|].
      intros _ _. eexists. split; [done|]. split; [cbn; lia|done].
Qed.

Lemma identity_keys_no_panic s :
  SessionState.remote_identity_key s <> Panic /\ SessionState.local_identity_key s <> Panic.
Proof.
  split; [|apply IdentityKey.decode_no_panic].
  unfold SessionState.remote_identity_key. case_match; [done|].
  apply obind_no_panic; [apply IdentityKey.decode_no_panic|done].
Qed.

(** The part of [decrypt_message_with_state] after the message keys: it leaves
    the state alone or clears the pending pre-key. *)
Lemma decrypt_tail m keys s (c : Csprng) :
  message_wf m ->
  exists res s',
    (let! remote := from_state SessionState.remote_identity_key in
     let! their_identity_key := st_lift (ok_or remote InvalidSessionStructure) in
     let! local_identity_key := from_state SessionState.local_identity_key in
     let! mac_valid := st_lift (SignalMessage.verify_mac m their_identity_key
       local_identity_key (MessageKeys.mac_key keys)) in
     if negb mac_valid then st_lift (Err InvalidCiphertext)
     else
       let! ptext := st_lift (aes_256_cbc_decrypt (SignalMessage.ciphertext m)
         (MessageKeys.cipher_key keys) (MessageKeys.iv keys)) in
       let! _ := on_state SessionState.clear_unacknowledged_pre_key_message in
       st_ret ptext) (s, c) = (res, (s', c)) /\ res <> Panic /\ (s' = s \/ s' = cleared s).
Proof.
  intros Hm. destruct (identity_keys_no_panic s) as [Hrem Hloc].
  unfold st_bind, from_state, st_gets, st_lift. cbn [fst snd].
  destruct (SessionState.remote_identity_key s) as [remote|e|]; [|by do 2 eexists; split; eauto|done].
  destruct remote as [i|]; cbn [ok_or]; [|by do 2 eexists; split; eauto].
  destruct (SessionState.local_identity_key s) as [j|e|]; [|by do 2 eexists; split; eauto|done].
  pose proof (wf_verify m Hm i j (MessageKeys.mac_key keys)) as Hver.
  destruct (SignalMessage.verify_mac m i j _) as [[]|e|]; cbn [negb];
    [|by do 2 eexists; split; eauto|by do 2 eexists; split; eauto|done].
  pose proof (aes_256_cbc_decrypt_no_panic (SignalMessage.ciphertext m)
    (MessageKeys.cipher_key keys) (MessageKeys.iv keys)) as Haes.
  destruct (aes_256_cbc_decrypt _ _ _) as [p|e|]; [|by do 2 eexists; split; eauto|done].
  do 2 eexists. split; [done|]. split; [done|]. by right.
Qed.

Lemma used_up_cleared s pk n : used_up s pk n -> used_up (cleared s) pk n.
Proof. done. Qed.

Lemma used_up_duplicate s (c : Csprng) m pk n :
  session_inv s -> is_Some (sender_chain_key s) ->
  SignalMessage.message_version m = effective_version s -> SignalMessage.sender_ratchet_key m = pk ->
  SignalMessage.counter m = n -> used_up s pk n ->
  exists i, decrypt_message_with_state m (s, c) = (Err (DuplicatedMessage i n), (s, c)).
Proof.
  intros Hs [k0 Hk0] Hv Hr <- (k & Hk & Hlt & Hsk). exists (ChainKey.index k).
  by apply (decrypt_duplicate s c k0 pk k m).
Qed.

(** Whether the chain that serves [m] is exhausted by it. *)
Lemma exhausts_chain m r k ch :
  SessionStructure.sender_chain (SessionState.session r) = Some ch ->
  SignalMessage.message_version m = effective_version r ->
  (receiver_chain_key r (SignalMessage.sender_ratchet_key m) = Some k \/
   receiver_chain_key r (SignalMessage.sender_ratchet_key m) = None /\ ChainKey.index k = 0%Z) ->
  exhausts m r <-> exhausted k (SignalMessage.counter m) = true.
Proof.
  intros Hch Hv [Hk|[Hk Hi]]; unfold exhausts; rewrite Hk, Hch; split.
  - by intros (_ & _ & k' & [= <-] & Hex).
  - intros Hex. split; [done|]. split; [done|]. by exists k.
  - by intros (_ & _ & k' & ? & _).
  - intros [_ Hfar]%exhausted_spec. rewrite Hi in Hfar. unfold u32_max, MAX_FORWARD_JUMPS in Hfar. lia.
Qed.

(** Every call: a panic for an exhausting message in a build with overflow checks only;
    but for such a message, the invariant and the identities are kept, and a success
    uses the message's key up. *)
Lemma decrypt_total r c m :
  session_inv r -> message_wf m ->
  exists res r' c', decrypt_message_with_state m (r, c) = (res, (r', c')) /\
    (res = Panic <-> overflow_checks = true /\ exhausts m r) /\ identities r' = identities r /\
    (~ exhausts m r -> session_inv r' /\ forall p, res = Ok p ->
       is_Some (sender_chain_key r') /\
       SignalMessage.message_version m = effective_version r' /\
       used_up r' (SignalMessage.sender_ratchet_key m) (SignalMessage.counter m)).
Proof.
  intros Hr Hm. unfold decrypt_message_with_state.
  destruct (SessionStructure.sender_chain (SessionState.session r)) as [ch|] eqn:Hch.
  2: { do 3 eexists. unfold st_bind, from_state, st_gets, SessionState.has_sender_chain.
       cbn [fst]. rewrite Hch. cbn [negb]. split; [done|]. split_and!; try done.
       split; [done|]. intros (_ & [x Hx] & _). congruence. }
  assert (Hhas : SessionState.has_sender_chain r = Ok true)
    by (unfold SessionState.has_sender_chain; by rewrite Hch).
  st_step_with (from_state_ok SessionState.has_sender_chain r c _ Hhas). cbn [negb].
  st_step_with (from_state_ok SessionState.session_version r c _ (session_version_spec r)).
  destruct (Z.eqb_spec (SignalMessage.message_version m) (effective_version r)) as [Hv|Hv]; cbn [negb].
  2: { do 3 eexists. split; [done|]. split_and!; try done. split; [done|]. by intros (_ & _ & ? & _). }
  destruct (sending_total r ch (inv_wf r Hr) Hch) as (kp & k0 & Hpair & Hk0).
  destruct (chain_key_total r c kp k0 (SignalMessage.sender_ratchet_key m) Hr Hpair Hk0)
    as (k & r1 & c1 & Hget & Hr1 & Hid1 & Hk1 & [k1 Hs1] & Hfrom); [by apply wf_ratchet_key|].
  st_step_with Hget.
  destruct (message_key_total r1 c1 _ k (SignalMessage.counter m) Hr1 Hk1)
    as (res & r2 & Hkey & Hpan & Honly & Hfine); [by apply wf_counter|].
  pose proof (only_chains_identities _ _ Honly) as Hid2.
  rewrite <-not_true_iff_false, <-(exhausts_chain m r k ch Hch Hv Hfrom) in Hfine.
  rewrite <-(exhausts_chain m r k ch Hch Hv Hfrom) in Hpan.
  destruct res as [keys|e|].
  - st_step_with Hkey.
    destruct (decrypt_tail m keys r2 c1 Hm) as (res & r3 & -> & Hnp3 & Hr3).
    assert (Hid3 : identities r3 = identities r2) by (destruct Hr3 as [->| ->]; done).
    exists res, r3, c1. split; [done|]. split; [|split; [congruence|]].
    { split; [done|]. by intros Hex%Hpan. }
    intros Hex. destruct (Hfine Hex) as [Hr2 Hused]. specialize (Hused keys eq_refl).
    split; [by destruct Hr3 as [->| ->]; try apply cleared_inv|]. intros p _.
    destruct (only_chains_sender _ _ Honly) as (Hs2 & _ & _).
    assert (Hv3 : effective_version r3 = effective_version r) by (apply identities_version; congruence).
    rewrite Hv3. destruct Hr3 as [->| ->]; (split; [exists k1; by rewrite <-Hs1, <-Hs2|by split]).
  - rewrite (st_bind_err_eq _ _ _ _ _ Hkey). do 3 eexists. split; [done|]. split; [|split; [congruence|]].
    + split; [done|]. by intros Hex%Hpan.
    + intros Hex. destruct (Hfine Hex) as [Hr2 _]. by split.
  - exists Panic, r2, c1. split; [unfold st_bind at 1; by rewrite Hkey|]. split; [|split; [congruence|]].
    + split; [|done]. intros _. by apply Hpan.
    + intros Hex. destruct (Hfine Hex) as [Hr2 _]. by split.
Qed.

(** C5: whatever message arrives, well-formed or forged, decrypting it with a
    session in good order keeps the identities, and panics in one case only: in a build
    with overflow checks, a message with the last number, 2^32 - 1, for a chain that is at
    most 2000 before the end.  Any other message leaves a session in good order; and when
    it decrypts, the same message is refused as a duplicate from then on, with any
    generator.  Messages may overtake each other: when one arrives [n] ahead of the chain ([n] up to 2000), it decrypts;
    one that it overtook decrypts when it arrives later; after that, each of the two
    is refused as a duplicate and changes nothing. *)
Theorem decrypt_never_panics_and_no_replay r c :
  session_inv r ->
  (forall m, message_wf m ->
   exists res r' c', decrypt_message_with_state m (r, c) = (res, (r', c')) /\
     (res = Panic <-> overflow_checks = true /\ exhausts m r) /\ identities r' = identities r /\
     (~ exhausts m r -> session_inv r' /\
        (is_ok res = true -> forall c'', exists i,
           decrypt_message_with_state m (r', c'')
             = (Err (DuplicatedMessage i (SignalMessage.counter m)), (r', c''))))) /\
  (forall ks pk k n l m ml p pl i j,
   sender_chain_key r = Some ks -> between r j i -> receiver_chain_key r pk = Some k -> l < n ->
   (Z.of_nat n <= MAX_FORWARD_JUMPS)%Z -> (ChainKey.index k + Z.of_nat n < u32_max)%Z ->
   message_of i j (effective_version r) pk (ChainKey.advanced k n) p m ->
   message_of i j (effective_version r) pk (ChainKey.advanced k l) pl ml ->
   let next := (ChainKey.index k + Z.of_nat (S n))%Z in
   exists r1 r2,
     decrypt_message_with_state m (r, c) = (Ok p, (r1, c)) /\
     decrypt_message_with_state ml (r1, c) = (Ok pl, (r2, c)) /\
     decrypt_message_with_state ml (r2, c)
       = (Err (DuplicatedMessage next (SignalMessage.counter ml)), (r2, c)) /\
     decrypt_message_with_state m (r2, c)
       = (Err (DuplicatedMessage next (SignalMessage.counter m)), (r2, c))).
Proof.
  intros Hr. split.
  - intros m Hm. destruct (decrypt_total r c m Hr Hm) as (res & r' & c' & Hd & Hpan & Hid & Hok).
    exists res, r', c'. split_and!; try done. intros Hex. destruct (Hok Hex) as [Hr' Hread].
    split; [done|]. intros Hres c''. destruct res as [p| |]; [|done..].
    destruct (Hread p eq_refl) as (Hs & Hv & Hused). by eapply used_up_duplicate.
  - intros. by eapply late_message_decrypts.
Qed.
End AnyMessage.

(** * Records *)

Definition record_inv (r : SessionRecord) : Prop :=
  Forall session_inv (all_sessions r) /\ record_bounded r.

Section Records.
Context `{BuildConfig, Crates, ProtoCodecs, !HashLaws, !X25519Laws}.

(** What a state that has decrypted [m] is like. *)
Definition has_read (m : SignalMessage) (s : SessionState) : Prop :=
  session_inv s /\ is_Some (sender_chain_key s) /\
  SignalMessage.message_version m = effective_version s /\
  used_up s (SignalMessage.sender_ratchet_key m) (SignalMessage.counter m).

Lemma try_state_total s m c :
  session_inv s -> message_wf m ->
  exists res s' c', try_state s m c = (res, s', c') /\
    (res = Panic -> overflow_checks = true /\ exhausts m s) /\ identities s' = identities s /\
    (forall p, res = Ok p -> ~ exhausts m s -> has_read m s').
Proof.
  intros Hs Hm. destruct (decrypt_total s c m Hs Hm) as (res & s' & c' & Hd & Hpan & Hid & Hok).
  exists res, s', c'. unfold try_state. rewrite Hd. split_and!; try done; [by apply Hpan|].
  intros p Hp Hex. destruct (Hok Hex) as [Hs' Hread]. by destruct (Hread p Hp) as (? & ? & ?).
Qed.

Lemma try_previous_total m l : forall idx c,
  Forall session_inv l -> message_wf m ->
  exists res c', try_previous m idx l c = (res, c') /\
    (res = Panic -> overflow_checks = true /\ Exists (exhausts m) l) /\
    (forall p i s', res = Ok (Some (p, i, s')) ->
       exists n s, i = idx + n /\ l !! n = Some s /\ identities s' = identities s /\
         (~ exhausts m s -> has_read m s')).
Proof.
  induction l as [|s l IH]; intros idx c Hl Hm; cbn [try_previous].
  - by do 2 eexists.
  - apply list.Forall_cons in Hl as [Hs Hl].
    destruct (try_state_total s m c Hs Hm) as (res & s' & c1 & -> & Hpan & Hid & Hok).
    assert (Hnext : exists res c', try_previous m (S idx) l c1 = (res, c') /\
      (res = Panic -> overflow_checks = true /\ Exists (exhausts m) (s :: l)) /\
      (forall p i s', res = Ok (Some (p, i, s')) ->
         exists n s0, i = idx + n /\ (s :: l) !! n = Some s0 /\ identities s' = identities s0 /\
           (~ exhausts m s0 -> has_read m s'))).
    { destruct (IH (S idx) c1 Hl Hm) as (res' & c2 & -> & Hpan' & Hok'). do 2 eexists.
      split; [done|]. split; [intros Hp; destruct (Hpan' Hp); auto|]. intros p i s0 Hres.
      destruct (Hok' p i s0 Hres) as (n & s1 & -> & Hn & Hid' & Hread).
      exists (S n), s1. split_and!; [lia|done|done|done]. }
    destruct res as [p|e|]; [|destruct e; try exact Hnext|].
    + do 2 eexists. split; [done|]. split; [done|]. intros ??? [= <- <- <-].
      exists 0, s. rewrite Nat.add_0_r. split_and!; try done. by apply (Hok p).
    + do 2 eexists. by split_and!.
    + do 2 eexists. split; [done|]. split; [|done]. intros _. destruct (Hpan eq_refl). auto.
Qed.

Lemma has_read_replay m s r c :
  SessionRecord.current_session r = Some s -> has_read m s ->
  exists i, decrypt_message_with_record m (r, c)
    = (Err (DuplicatedMessage i (SignalMessage.counter m)), (r, c)).
Proof.
  intros Hcur (Hs & Hsend & Hv & Hu).
  destruct (used_up_duplicate s c m _ _ Hs Hsend Hv eq_refl eq_refl Hu) as [i Hd].
  exists i. unfold decrypt_message_with_record, SessionRecord.session_state. rewrite Hcur.
  cbn [ok_or]. unfold try_state. by rewrite Hd.
Qed.

(** What a call with [record] may end in. *)
Definition record_outcome (m : SignalMessage) (record : SessionRecord) (res : Result bytes)
    (record' : SessionRecord) : Prop :=
  (res = Panic -> overflow_checks = true /\ Exists (exhausts m) (all_sessions record)) /\
  (is_ok res = false -> record' = record) /\
  (is_ok res = true -> exists s s', s ∈ all_sessions record /\
     SessionRecord.current_session record' = Some s' /\ identities s' = identities s) /\
  (~ Exists (exhausts m) (all_sessions record) -> record_inv record' /\
     (is_ok res = true -> forall c'', exists i, decrypt_message_with_record m (record', c'')
        = (Err (DuplicatedMessage i (SignalMessage.counter m)), (record', c'')))).

Lemma record_outcome_err m record e : record_inv record -> record_outcome m record (Err e) record.
Proof. intros Hr. by split_and!. Qed.

Lemma record_outcome_panic m record :
  record_inv record -> overflow_checks = true -> Exists (exhausts m) (all_sessions record) ->
  record_outcome m record Panic record.
Proof. intros Hr Hc Hex. by split_and!. Qed.

(** A session of [record] has read the message and is current now. *)
Lemma record_outcome_ok m record p s s' record' :
  s ∈ all_sessions record -> identities s' = identities s -> (~ exhausts m s -> has_read m s') ->
  (session_inv s' -> record_inv record') -> SessionRecord.current_session record' = Some s' ->
  record_outcome m record (Ok p) record'.
Proof.
  intros Hin Hid Hread Hr' Hc'. split_and!; try done; [intros _; by exists s, s'|].
  intros Hex. assert (Hs : has_read m s').
  { apply Hread. intros Hs. apply Hex, Exists_exists. exists s. by rewrite <-list_elem_of_In. }
  split; [by apply Hr', Hs|]. intros _ c''. by apply (has_read_replay m s').
Qed.

(** The archived sessions, after the current one could not read the message. *)
Lemma previous_sessions_total m record c :
  record_inv record -> message_wf m ->
  exists res record' c',
    (let '(found, c) := try_previous m 0 (SessionRecord.previous_sessions record) c in
     match found with
     | Ok (Some (ptext, idx, updated_session)) =>
         (let! _ := st_focus fst (fun r w => (r, w.2))
            (st_update (fun r => SessionRecord.promote_old_session r idx updated_session)) in
          st_ret ptext) (record, c)
     | Ok None =>
         (Err (InvalidMessage "decryption failed; no matching session state"), (record, c))
     | Err e => (Err e, (record, c))
     | Panic => (Panic, (record, c))
     end) = (res, (record', c')) /\ record_outcome m record res record'.
Proof.
  intros Hrec Hm. pose proof Hrec as [Hall Hb]. pose proof Hall as Hall'. unfold all_sessions in Hall.
  apply list.Forall_app in Hall as [_ Hprev].
  destruct (try_previous_total m _ 0 c Hprev Hm) as (found & c2 & -> & Hpan2 & Hok2).
  destruct found as [[[[p i] u]|]|e|];
    [|do 3 eexists; split; [done|by apply record_outcome_err]..|].
  2: { do 3 eexists. split; [done|]. destruct (Hpan2 eq_refl) as [Hchecks Hex].
       apply record_outcome_panic; [done..|]. unfold all_sessions. apply Exists_app. by right. }
  destruct (Hok2 p i u eq_refl) as (n & s0 & Hi & Hn & Hid & Hread). cbn in Hi. subst n.
  destruct (promotion_facts record i s0 u Hb Hn) as (record' & Hp' & Hb' & Hc' & Hperm).
  unfold st_bind, st_focus, st_update. cbn [fst snd]. rewrite Hp'.
  do 3 eexists. split; [done|]. apply (record_outcome_ok m record p s0 u); try done.
  - rewrite <-Hperm. by left.
  - intros Hu. split; [|done]. unfold all_sessions. rewrite Hc'. cbn. constructor; [apply Hu|].
    rewrite <-Hperm in Hall'. by apply list.Forall_cons in Hall' as [_ ?].
Qed.

(** Decrypting with a record, whatever message arrives: a failure leaves the record as it
    was; a success makes the session that decrypted the message the current one; a panic,
    and a record out of order, come only of a message that exhausts a chain. *)
Lemma decrypt_record_total m record c :
  record_inv record -> message_wf m ->
  exists res record' c', decrypt_message_with_record m (record, c) = (res, (record', c')) /\
    record_outcome m record res record'.
Proof.
  intros Hrec Hm. pose proof Hrec as [Hall Hb]. unfold all_sessions in Hall.
  apply list.Forall_app in Hall as [Hcur Hprev].
  unfold decrypt_message_with_record at 1. unfold SessionRecord.session_state.
  destruct (SessionRecord.current_session record) as [s|] eqn:Hs; cbn [ok_or];
    [|do 3 eexists; split; [done|by apply record_outcome_err]].
  apply list.Forall_cons in Hcur as [Hsinv _].
  assert (Hin : all_sessions record = s :: SessionRecord.previous_sessions record)
    by (unfold all_sessions; by rewrite Hs).
  destruct (try_state_total s m c Hsinv Hm) as (res & s' & c1 & -> & Hpan & Hid & Hok).
  pose proof (previous_sessions_total m record c1 Hrec Hm) as Hrest.
  destruct res as [p|e|]; [|destruct e; try exact Hrest|].
  - unfold st_bind, st_focus, st_update. cbn [fst snd SessionRecord.set_session_state].
    do 3 eexists. split; [done|]. apply (record_outcome_ok m record p s s'); try done; [|by apply (Hok p)|].
    + rewrite Hin. by left.
    + intros Hs'. split; [|done]. unfold all_sessions. cbn. by constructor.
  - do 3 eexists. split; [done|]. by apply record_outcome_err.
  - do 3 eexists. split; [done|]. destruct (Hpan eq_refl) as [Hchecks Hex].
    apply record_outcome_panic; [done..|]. rewrite Hin. by left.
Qed.

(** C29: session records.  Archiving and promotion lose no session but the oldest:
    within the limit of forty archived sessions, which both keep, [promote_state]
    makes the new state current and puts the old current one in front of the archive,
    dropping at most the last session of a full archive; [promote_old_session] takes
    a session out of the archive, makes its update current, and keeps every other
    session; an index out of range is an error.  And decrypting with a record, whatever
    message arrives: a failure leaves the record as it was; a success makes the session
    that decrypted the message the current one.  But for a message with number 2^32 - 1
    for a chain of the record at most 2000 before its end, which may panic in a build with
    overflow checks, there is no panic, the record stays in good order, and from a success
    on the same message is refused as a duplicate. *)
Theorem session_records_correct m record c i new_state :
  record_inv record -> message_wf m ->
  (exists r', SessionRecord.promote_state record new_state = Ok r' /\ record_bounded r' /\
     SessionRecord.current_session r' = Some new_state /\
     SessionRecord.previous_sessions r' = take ARCHIVED_STATES_MAX_LENGTH (all_sessions record)) /\
  match SessionRecord.previous_sessions record !! i with
  | None => SessionRecord.promote_old_session record i new_state
            = Err (InvalidState "promote_old_session" "out of range")
  | Some s => exists r', SessionRecord.promote_old_session record i new_state = Ok r' /\
      record_bounded r' /\ SessionRecord.current_session r' = Some new_state /\
      s :: SessionRecord.previous_sessions r' ≡ₚ all_sessions record
  end /\
  exists res record' c', decrypt_message_with_record m (record, c) = (res, (record', c')) /\
    (res = Panic -> overflow_checks = true /\ Exists (exhausts m) (all_sessions record)) /\
    (is_ok res = false -> record' = record) /\
    (is_ok res = true -> exists s s', s ∈ all_sessions record /\
       SessionRecord.current_session record' = Some s' /\ identities s' = identities s) /\
    (~ Exists (exhausts m) (all_sessions record) -> record_inv record' /\
       (is_ok res = true -> forall c'', exists i, decrypt_message_with_record m (record', c'')
          = (Err (DuplicatedMessage i (SignalMessage.counter m)), (record', c'')))).
Proof.
  intros Hr Hm. destruct (promotion_correct record i new_state (proj2 Hr)) as [Hs Ho].
  split; [exact Hs|]. split; [exact Ho|]. by apply decrypt_record_total.
Qed.
End Records.
