(* ===== verification/StoreProofs.v ===== *)
(** [session_cipher.rs] and [session.rs] against the store interfaces: what is
    stored when a call succeeds and what is left alone when it fails. *)

From S2P Require Import Prelude Error Crates Crypto Curve IdentityKey Proto Protocol RatchetKeys SessionState.
From S2P Require Import SessionInvariant Ratchet PreKeys SenderKeys Storage StoreAccess Session SessionCipher ReceiveChain Conversation SessionRecordFacts.
From S2P Require Import Replay.

Section Stores.
Context {SS IS PS SPS : Type} `{BuildConfig, Crates, ProtoCodecs}
  `{!SessionStore SS, !IdentityKeyStore IS, !PreKeyStore PS, !SignedPreKeyStore SPS}
  `{!SessionStoreLaws SS, !IdentityKeyStoreLaws IS, !PreKeyStoreLaws PS,
    !SignedPreKeyStoreLaws SPS}.

Abbreviation W := (World SS IS PS SPS).

(** Everything but the generator is the same. *)
Definition same_stores (w w' : W) : Prop :=
  World.session_store w' = World.session_store w /\
  World.identity_store w' = World.identity_store w /\
  World.pre_key_store w' = World.pre_key_store w /\
  World.signed_pre_key_store w' = World.signed_pre_key_store w.

Definition stored_session (w : W) (a : ProtocolAddress) : option SessionRecord :=
  session_store_map (World.session_store w) a.

Definition known (w : W) (a : ProtocolAddress) : option IdentityKey :=
  known_identity (World.identity_store w) a.

(** An identity may be used with an address: none is known, or this one. *)
Definition trusted (w : W) (a : ProtocolAddress) (i : IdentityKey) : Prop :=
  known w a = None \/ known w a = Some i.

(** [w'] is [w] with the record [r] stored under [a] and the identity [i]
    known for it, and otherwise the same (but for the generator). *)
Definition updated (w w' : W) (a : ProtocolAddress) (r : SessionRecord) (i : IdentityKey) : Prop :=
  stored_session w' a = Some r /\ known w' a = Some i /\
  (forall b, b <> a -> stored_session w' b = stored_session w b /\ known w' b = known w b) /\
  own_identity (World.identity_store w') = own_identity (World.identity_store w) /\
  World.pre_key_store w' = World.pre_key_store w /\
  World.signed_pre_key_store w' = World.signed_pre_key_store w.

Lemma sessions_load a ctx (w : W) :
  World.sessions (load_session a ctx) w = (Ok (stored_session w a), w).
Proof. unfold World.sessions, st_gets. by rewrite load_session_map. Qed.

Lemma identities_trusted a i d ctx (w : W) :
  exists b, World.identities (is_trusted_identity a i d ctx) w = (Ok b, w) /\
    (b = true <-> trusted w a i).
Proof.
  destruct (is_trusted_identity_known a i d ctx (World.identity_store w)) as (b & Hb & Hiff).
  exists b. unfold World.identities, st_gets. by rewrite Hb.
Qed.

(** Saving the identity and then the session. *)
Lemma save_both {A} a i r ctx (w : W) (k : StateResult W A) :
  exists w', updated w w' a r i /\
    (let! _ := World.on_identities (save_identity a i ctx) in
     let! _ := World.on_sessions (store_session a r ctx) in k) w = k w'.
Proof.
  destruct (save_identity_known a i ctx (World.identity_store w))
    as (ch & is' & Hsave & _ & Hk & Hother & Hown & _).
  destruct (store_session_map a r ctx (World.session_store w)) as (ss' & Hstore & Hs & Hso).
  exists (World.with_session_store ss' (World.with_identity_store is' w)). split.
  - unfold updated, stored_session, known. cbn. split_and!; try done.
    intros b Hb. by rewrite Hso, Hother.
  - unfold st_bind at 1, World.on_identities, st_focus. rewrite Hsave.
    unfold st_bind, World.on_sessions, st_focus. cbn. by rewrite Hstore.
Qed.

(** ** [message_encrypt] *)

(** Which branch the call takes. *)
Definition encrypt_outcome ptext a (w : W) (record : SessionRecord) (res : Result CiphertextMessage)
    (w' : W) : Prop :=
  match SessionRecord.session_state_mut record (encrypt_with_state ptext) with
  | Ok (message, their_identity, record') =>
      (~ trusted w a their_identity /\ res = Err (UntrustedIdentity a) /\ w' = w) \/
      (trusted w a their_identity /\ res = Ok message /\
       updated w w' a record' their_identity)
  | Err e => res = Err e /\ w' = w
  | Panic => res = Panic /\ w' = w
  end.

Lemma message_encrypt_branch ptext a ctx (w : W) :
  exists res w', message_encrypt ptext a ctx w = (res, w') /\
  match stored_session w a with
  | None => res = Err SessionNotFound /\ w' = w
  | Some record => encrypt_outcome ptext a w record res w'
  end.
Proof.
  unfold message_encrypt; world_calls. rewrite (st_bind_eq _ _ _ _ _ (sessions_load a ctx w)).
  destruct (stored_session w a) as [record|]; cbn [ok_or]; [|by do 2 eexists].
  rewrite (st_bind_eq _ _ _ record w) by done.
  unfold encrypt_outcome. destruct (SessionRecord.session_state_mut _ _) as [[[message i] record']|e|] eqn:Henc;
    [|by do 2 eexists|by do 2 eexists].
  rewrite (st_bind_eq _ _ _ (message, i, record') w) by done.
  destruct (identities_trusted a i Sending ctx w) as (b & Hb & Hiff).
  rewrite (st_bind_eq _ _ _ _ _ Hb). destruct b; cbn [UntrustedIdentityUnless negb].
  - rewrite (st_bind_eq _ _ _ tt w) by done.
    destruct (save_both a i record' ctx w (st_ret (E:=SignalProtocolError) message)) as (w' & Hu & Heq).
    rewrite Heq. do 2 eexists. split; [done|]. right. split; [by apply Hiff|done].
  - do 2 eexists. split; [done|]. left. split_and!; try done.
    intros Ht. by apply Hiff in Ht.
Qed.


(** ** [message_decrypt_signal] *)

Context `{!HashLaws, !X25519Laws}.

(** The record a decryption leaves. *)
Lemma decrypt_record_eq record m (w : W) :
  record_inv record -> message_wf m ->
  exists res record' c',
    decrypt_message_with_record m (record, World.csprng w) = (res, (record', c')) /\
    decrypt_record record m w
      = (let? p := res in Ok (p, record'), World.with_csprng c' w) /\
    record_outcome m record res record'.
Proof.
  intros Hr Hm.
  destruct (decrypt_record_total m record (World.csprng w) Hr Hm)
    as (res & record' & c' & Hd & Hout).
  exists res, record', c'. split; [done|]. split; [|done].
  unfold decrypt_record; world_calls; unfold World.with_rng. by rewrite Hd.
Qed.

(** [m] exhausts a chain of the sessions that are stored for [a]. *)
Definition stored_exhausts (w : W) a m : Prop :=
  exists record, stored_session w a = Some record /\ Exists (exhausts m) (all_sessions record).

Definition current_remote (r : SessionRecord) : Result IdentityKey :=
  let? s := SessionRecord.session_state r in
  let? remote := SessionState.remote_identity_key s in
  ok_or remote InvalidSessionStructure.

(** What receiving may end in. *)
Definition receive_outcome m a ctx (w : W) (res : Result bytes) (w' : W) : Prop :=
  (res = Panic -> overflow_checks = true /\ stored_exhausts w a m) /\
  (is_ok res = false -> same_stores w w') /\
  (forall p, res = Ok p -> exists record' i,
     trusted w a i /\ current_remote record' = Ok i /\ updated w w' a record' i /\
     (~ stored_exhausts w a m -> record_inv record' /\
        forall w'', stored_session w'' a = Some record' ->
          exists n, message_decrypt_signal m a ctx w''
            = (Err (DuplicatedMessage n (SignalMessage.counter m)), w''))).

Lemma receive_outcome_err m a ctx (w : W) e w' : same_stores w w' -> receive_outcome m a ctx w (Err e) w'.
Proof. intros Hs. by split_and!. Qed.

(** Where the stored record refuses the message as a duplicate, so does the
    call. *)
Lemma message_decrypt_signal_duplicate m a ctx record (w : W) :
  stored_session w a = Some record ->
  (exists n, decrypt_message_with_record m (record, World.csprng w)
     = (Err (DuplicatedMessage n (SignalMessage.counter m)), (record, World.csprng w))) ->
  exists n, message_decrypt_signal m a ctx w = (Err (DuplicatedMessage n (SignalMessage.counter m)), w).
Proof.
  intros Hst [n Hn]. exists n. unfold message_decrypt_signal; world_calls.
  rewrite (st_bind_eq _ _ _ _ _ (sessions_load a ctx w)). rewrite Hst. cbn [ok_or].
  rewrite (st_bind_eq _ _ _ record w) by done.
  unfold st_bind, decrypt_record; world_calls; unfold World.with_rng. rewrite Hn. cbn [obind]. f_equal. by destruct w.
Qed.

(** C8: receiving, against any stores that keep their laws.  Whatever message
    arrives: when the call fails, no store has changed, so
    a forged message costs nothing; when it succeeds, the identity of the
    session that decrypted it was one trusted for the address, the updated
    record is stored, the identity is saved, and no other address is touched.  But for
    a message with number 2^32 - 1 for a chain of the stored record at most 2000 before
    its end, which may panic in a build with overflow checks, the call does not panic,
    and after a success the record is in good order and the same message is refused. *)
Theorem message_decrypt_signal_correct m a ctx (w : W) :
  message_wf m -> (forall record, stored_session w a = Some record -> record_inv record) ->
  exists res w', message_decrypt_signal m a ctx w = (res, w') /\
    (res = Panic -> overflow_checks = true /\ stored_exhausts w a m) /\
    (is_ok res = false -> same_stores w w') /\
    (forall p, res = Ok p -> exists record' i,
       trusted w a i /\ current_remote record' = Ok i /\ updated w w' a record' i /\
       (~ stored_exhausts w a m -> record_inv record' /\
          forall w'', stored_session w'' a = Some record' ->
            exists n, message_decrypt_signal m a ctx w''
              = (Err (DuplicatedMessage n (SignalMessage.counter m)), w''))).
Proof.
  intros Hm Hinv. unfold message_decrypt_signal at 1; world_calls.
  rewrite (st_bind_eq _ _ _ _ _ (sessions_load a ctx w)).
  destruct (stored_session w a) as [record|] eqn:Hstored; cbn [ok_or]; [|by do 2 eexists].
  rewrite (st_bind_eq _ _ _ record w) by done.
  destruct (decrypt_record_eq record m w (Hinv record eq_refl) Hm)
    as (res & record' & c' & Hd & Hdr & Hpan & _ & _ & Hread).
  assert (Hex : stored_exhausts w a m <-> Exists (exhausts m) (all_sessions record)).
  { unfold stored_exhausts. rewrite Hstored. split; [by intros (? & [= <-] & ?)|intros ?; by exists record]. }
  rewrite <-Hex in Hpan, Hread.
  set (w1 := World.with_csprng c' w) in *.
  assert (Hfail : forall e, exists res w', (Err e, w1) = (res, w') /\ receive_outcome m a ctx w res w')
    by (intros e; do 2 eexists; split; [done|by apply receive_outcome_err]).
  destruct res as [p|e|]; cbn [obind] in Hdr.
  2: { rewrite (st_bind_err_eq _ _ _ _ _ Hdr). apply Hfail. }
  2: { exists Panic, w1. split; [unfold st_bind; by rewrite Hdr|]. by split_and!. }
  rewrite (st_bind_eq _ _ _ _ _ Hdr).
  destruct (SessionRecord.session_state record') as [s| |] eqn:Hs; [|apply Hfail|].
  2: { unfold SessionRecord.session_state in Hs. by destruct (SessionRecord.current_session record'). }
  rewrite (st_bind_eq _ _ _ s w1) by done.
  destruct (identity_keys_no_panic s) as [Hrem _].
  destruct (SessionState.remote_identity_key s) as [remote|e|] eqn:Hremote; [|apply Hfail|done].
  rewrite (st_bind_eq _ _ _ remote w1) by done.
  destruct remote as [i|]; cbn [ok_or]; [|apply Hfail].
  rewrite (st_bind_eq _ _ _ i w1) by done.
  destruct (identities_trusted a i Receiving ctx w1) as (b & Hb & Hiff).
  rewrite (st_bind_eq _ _ _ _ _ Hb). destruct b; cbn [UntrustedIdentityUnless negb]; [|apply Hfail].
  rewrite (st_bind_eq _ _ _ tt w1) by done.
  destruct (save_both a i record' ctx w1 (st_ret (E:=SignalProtocolError) p)) as (w' & Hu & Heq).
  rewrite Heq. do 2 eexists. split; [done|]. split_and!; [done|done|].
  intros p' [= <-]. exists record', i. split_and!; try done; [by apply Hiff| |].
  - unfold current_remote. rewrite Hs. cbn [obind]. by rewrite Hremote.
  - intros Hno. destruct (Hread Hno) as [Hr' Hdup]. split; [done|]. intros w'' Hst.
    apply (message_decrypt_signal_duplicate _ _ _ record'); [done|by apply Hdup].
Qed.

(** ** [process_prekey] *)

(** What parsing guarantees of a pre-key message. *)
Record pre_key_message_wf (m : PreKeySignalMessage) : Prop := {
  wf_base_key : PublicKey.wf (PreKeySignalMessage.base_key m);
  wf_identity : IdentityKey.wf (PreKeySignalMessage.identity_key m);
  wf_inner : message_wf (PreKeySignalMessage.message m);
}.

(** A session that has not received: no message exhausts a chain of it. *)
Definition begun (s : SessionState) : Prop := session_inv s /\ chains s = [].

Lemma begun_exhausts m s : begun s -> ~ exhausts m s.
Proof.
  intros [_ Hno] (_ & _ & k & Hk & _). unfold receiver_chain_key, chain_of in Hk. by rewrite Hno in Hk.
Qed.

Lemma Exists_take {A} (P : A -> Prop) n l : Exists P (take n l) -> Exists P l.
Proof. intros Hp. rewrite <-(take_drop n l). apply Exists_app. by left. Qed.

(** Bob's side of X3DH, whatever the keys he is sent. *)
Lemma initialize_bob_total p :
  PublicKey.wf (KeyPair.public_key (BobSignalProtocolParameters.our_ratchet_key_pair p)) ->
  PrivateKey.wf (KeyPair.private_key (BobSignalProtocolParameters.our_ratchet_key_pair p)) ->
  exists s, initialize_bob_session p = Ok s /\ begun s.
Proof.
  intros Hpub Hpriv. unfold initialize_bob_session, bob_secrets.
  repeat match goal with |- context [calculate_agreement ?pk ?sk] =>
    destruct (KeyPair.calculate_agreement_ok pk sk) as (? & -> & _); cbn [obind] end.
  assert (Ha4 : exists a4 : bytes, match BobSignalProtocolParameters.our_one_time_pre_key_pair p with
    | Some kp => calculate_agreement (BobSignalProtocolParameters.their_base_key p) (KeyPair.private_key kp)
    | None => Ok []
    end = Ok a4).
  { case_match; [|by eexists].
    destruct (KeyPair.calculate_agreement_ok (BobSignalProtocolParameters.their_base_key p)
      (KeyPair.private_key t)) as (a4 & -> & _). by eexists. }
  destruct Ha4 as [a4 ->]. cbn [obind].
  match goal with |- context [derive_keys ?sec] =>
    destruct (derive_keys_ok sec) as (r & c & -> & Hr & Hc & Hkdf & Hk3 & _) end.
  cbn [obind]. set (s0 := SessionState.new _).
  destruct (set_sender_chain_spec s0 (BobSignalProtocolParameters.our_ratchet_key_pair p) c)
    as (s & -> & Hs & _ & Hrecv & _); [by apply initial_wf, Hr|done|done|done| |].
  { unfold s0. by rewrite (initial_kdf _ _ _ _ Hk3). }
  exists s. split; [done|]. destruct (same_receiving_view _ _ Hrecv) as (_ & _ & Hsk & _).
  split; [|by destruct Hrecv as [-> _]]. apply fresh_session_inv; [done|]. intros pk. by rewrite Hsk.
Qed.

Lemma promote_state_inv r s :
  record_inv r -> session_inv s ->
  exists r', SessionRecord.promote_state r s = Ok r' /\ record_inv r' /\
    all_sessions r' = s :: take ARCHIVED_STATES_MAX_LENGTH (all_sessions r).
Proof.
  intros [Hall Hb] Hs. rewrite promote_state_spec by done. eexists. split; [done|]. split; [|done].
  split.
  - unfold all_sessions at 1. cbn [SessionRecord.current_session SessionRecord.previous_sessions
      option_list app]. constructor; [done|]. by apply Forall_take.
  - unfold record_bounded. cbn [SessionRecord.previous_sessions]. rewrite length_take. lia.
Qed.

Lemma archive_inv r :
  record_inv r ->
  exists r', SessionRecord.archive_current_state r = Ok r' /\ record_inv r' /\
    all_sessions r' = take ARCHIVED_STATES_MAX_LENGTH (all_sessions r).
Proof.
  intros [Hall Hb]. rewrite archive_current_state_spec by done. eexists. split; [done|].
  split; [|done]. split.
  - unfold all_sessions at 1. cbn [SessionRecord.current_session SessionRecord.previous_sessions
      option_list app]. by apply Forall_take.
  - unfold record_bounded. cbn [SessionRecord.previous_sessions]. rewrite length_take. lia.
Qed.

Lemma from_public_and_private_total pub priv :
  KeyPair.from_public_and_private pub priv <> Panic /\
  forall kp, KeyPair.from_public_and_private pub priv = Ok kp ->
    PublicKey.wf (KeyPair.public_key kp) /\ PrivateKey.wf (KeyPair.private_key kp).
Proof.
  unfold KeyPair.from_public_and_private, decode_point, decode_private_point. split.
  - no_panic; auto with crates.
  - intros kp Hkp. inv_ok. split; [by eapply PublicKey.public_key_deserialize_wf|by eapply PrivateKey.private_key_deserialize_wf].
Qed.

(** [m] only reads the stores, does not panic, and on success its result
    satisfies [Q]. *)
Definition reads {A} (m : StateResult W A) (w : W) (Q : A -> Prop) : Prop :=
  exists res, m w = (res, w) /\ res <> Panic /\ forall a, res = Ok a -> Q a.

Lemma reads_bind {A B} (m : StateResult W A) (k : A -> StateResult W B) w Q R :
  reads m w Q -> (forall a, Q a -> reads (k a) w R) -> reads (st_bind m k) w R.
Proof.
  intros (res & Hm & Hnp & Hq) Hk. unfold reads, st_bind. rewrite Hm.
  destruct res as [a| |]; [by apply Hk, Hq|by eexists|done].
Qed.

Lemma reads_lift {A} (m : Result A) (w : W) (Q : A -> Prop) :
  m <> Panic -> (forall a, m = Ok a -> Q a) -> reads (st_lift m) w Q.
Proof. intros. by exists m. Qed.

Lemma reads_gets {A} (f : W -> Result A) (w : W) (Q : A -> Prop) :
  f w <> Panic -> (forall a, f w = Ok a -> Q a) -> reads (st_gets f) w Q.
Proof. intros. by exists (f w). Qed.

Lemma reads_ret {A} (a : A) (w : W) (Q : A -> Prop) : Q a -> reads (st_ret a) w Q.
Proof. intros. eexists. split; [done|]. split; [done|]. by intros ? [= <-]. Qed.

Lemma reads_signed_pre_key id ctx (w : W) :
  reads (World.signed_pre_keys (get_signed_pre_key id ctx)) w
    (fun r => signed_pre_key_store_map (World.signed_pre_key_store w) id = Some r).
Proof.
  apply reads_gets; rewrite get_signed_pre_key_map.
  - apply ok_or_no_panic.
  - intros a Ha. by apply ok_or_ok in Ha.
Qed.

Lemma reads_pre_key id ctx (w : W) :
  reads (World.pre_keys (get_pre_key id ctx)) w
    (fun r => pre_key_store_map (World.pre_key_store w) id = Some r).
Proof.
  apply reads_gets; rewrite get_pre_key_map.
  - apply ok_or_no_panic.
  - intros a Ha. by apply ok_or_ok in Ha.
Qed.

Lemma reads_own_identity ctx (w : W) :
  reads (World.identities (get_identity_key_pair ctx)) w
    (fun kp => kp = own_identity (World.identity_store w)).
Proof. apply reads_gets; rewrite get_identity_key_pair_own; [done|by intros a [= <-]]. Qed.

Lemma reads_own_registration_id ctx (w : W) :
  reads (World.identities (get_local_registration_id ctx)) w
    (fun id => id = own_registration_id (World.identity_store w)).
Proof. apply reads_gets; rewrite get_local_registration_id_own; [done|by intros a [= <-]]. Qed.

(** Setting a field outside the chains keeps the invariant. *)
Lemma set_field_inv s f :
  session_inv s ->
  chains (SessionState.update s f) = chains s ->
  effective_version (SessionState.update s f) = effective_version s ->
  SessionStructure.root_key (f (SessionState.session s))
    = SessionStructure.root_key (SessionState.session s) ->
  SessionStructure.sender_chain (f (SessionState.session s))
    = SessionStructure.sender_chain (SessionState.session s) ->
  session_inv (SessionState.update s f).
Proof.
  intros Hs Hc Hv Hr Hsend. eapply session_inv_same; [done| |done].
  eapply same_receiving_wf; [by apply inv_wf|done|..]; cbn.
  - rewrite Hr. apply Hs.
  - rewrite Hsend. apply Hs.
Qed.

Lemma set_field_begun s f :
  begun s ->
  chains (SessionState.update s f) = chains s ->
  effective_version (SessionState.update s f) = effective_version s ->
  SessionStructure.root_key (f (SessionState.session s))
    = SessionStructure.root_key (SessionState.session s) ->
  SessionStructure.sender_chain (f (SessionState.session s))
    = SessionStructure.sender_chain (SessionState.session s) ->
  begun (SessionState.update s f).
Proof. intros [Hs Hno] Hc. split; [by apply set_field_inv|by rewrite Hc]. Qed.

(** [process_prekey_v3] only reads the stores; on success the record is in
    good order, and either it was left alone because it has the session
    already, or a session that replies to the message is current and has not received. *)
Lemma process_prekey_v3_total m record ctx (w : W) has :
  record_inv record -> pre_key_message_wf m ->
  SessionRecord.has_session_state record (PreKeySignalMessage.message_version m)
    (PublicKey.serialize (PreKeySignalMessage.base_key m)) = Ok has ->
  reads (process_prekey_v3 m record ctx) w (fun '(o, record') =>
    record_inv record' /\
    (forall m', Exists (exhausts m') (all_sessions record') -> Exists (exhausts m') (all_sessions record)) /\
    if has : bool then o = None /\ record' = record else o = PreKeySignalMessage.pre_key_id m).
Proof.
  intros Hr Hm Hhas. unfold process_prekey_v3; world_calls. rewrite Hhas.
  eapply reads_bind; [apply (reads_lift _ _ (fun b => b = has)); [done|by intros b [= <-]]|].
  intros b ->. destruct has; [by apply reads_ret|].
  eapply reads_bind; [apply reads_signed_pre_key|]. intros spk _.
  destruct (from_public_and_private_total
    (SignedPreKeyRecordStructure.public_key (SignedPreKeyRecord.signed_pre_key spk))
    (SignedPreKeyRecordStructure.private_key (SignedPreKeyRecord.signed_pre_key spk))) as [Hnp Hwf].
  eapply reads_bind; [apply reads_lift; [exact Hnp|exact Hwf]|]. intros kp [Hpub Hpriv].
  eapply (reads_bind _ _ _ (fun _ => True)).
  { destruct (PreKeySignalMessage.pre_key_id m); [|by apply reads_ret].
    eapply reads_bind; [apply reads_pre_key|]. intros pk _.
    eapply (reads_bind _ _ _ (fun _ => True)); [apply reads_lift; [|done]|intros; by apply reads_ret].
    apply from_public_and_private_total. }
  intros one_time _.
  eapply reads_bind; [apply reads_own_identity|]. intros own ->.
  destruct (archive_inv record Hr) as (r1 & Harch & Hr1 & Hall1). rewrite Harch.
  eapply reads_bind; [apply (reads_lift _ _ (fun r => r = r1)); [done|by intros r [= <-]]|]. intros ? ->.
  match goal with |- context [initialize_bob_session ?p] =>
    destruct (initialize_bob_total p Hpub Hpriv) as (s & Hs & Hsinv) end.
  rewrite Hs.
  eapply reads_bind; [apply (reads_lift _ _ (fun x => x = s)); [done|by intros x [= <-]]|]. intros ? ->.
  eapply reads_bind; [apply reads_own_registration_id|]. intros reg ->.
  eapply reads_bind; [apply (reads_lift _ _ begun); [done|intros x [= <-]; by apply set_field_begun]|].
  intros s1 Hs1.
  eapply reads_bind; [apply (reads_lift _ _ begun); [done|intros x [= <-]; by apply set_field_begun]|].
  intros s2 Hs2.
  eapply reads_bind; [apply (reads_lift _ _ begun); [done|intros x [= <-]; by apply set_field_begun]|].
  intros s3 Hs3.
  destruct (promote_state_inv r1 s3 Hr1 (proj1 Hs3)) as (r2 & Hprom & Hr2 & Hall2). rewrite Hprom.
  eapply reads_bind; [apply (reads_lift _ _ (fun r => r = r2)); [done|by intros r [= <-]]|]. intros ? ->.
  apply reads_ret. split_and!; [done| |done]. intros m' Hex. rewrite Hall2 in Hex.
  apply Exists_cons in Hex as [Hex%begun_exhausts|Hex%Exists_take]; [done..|].
  rewrite Hall1 in Hex. by eapply Exists_take.
Qed.

(** ** [message_decrypt_prekey] *)

Lemma record_inv_fresh : record_inv SessionRecord.new_fresh.
Proof. split; [constructor|]. unfold record_bounded. cbn. lia. Qed.

(** The end of the call: the record is stored, then the one-time pre-key is
    removed. *)
Lemma store_and_remove a record o (p : bytes) ctx (w : W) :
  exists w', (let! _ := World.on_sessions (store_session a record ctx) in
     let! _ := match o with
               | Some id => World.on_pre_keys (remove_pre_key id ctx)
               | None => st_ret tt
               end in
     st_ret p) w = (Ok p, w') /\
    stored_session w' a = Some record /\
    (forall b, b <> a -> stored_session w' b = stored_session w b) /\
    World.identity_store w' = World.identity_store w /\
    match o with
    | None => World.pre_key_store w' = World.pre_key_store w
    | Some id =>
        pre_key_store_map (World.pre_key_store w') id = None /\
        forall i, i <> id -> pre_key_store_map (World.pre_key_store w') i
                             = pre_key_store_map (World.pre_key_store w) i
    end.
Proof.
  destruct (store_session_map a record ctx (World.session_store w)) as (ss' & Hstore & Hs & Hso).
  set (w1 := World.with_session_store ss' w).
  rewrite (st_bind_eq _ _ w tt w1) by (unfold World.on_sessions, st_focus; by rewrite Hstore).
  destruct o as [id|].
  - destruct (remove_pre_key_map id ctx (World.pre_key_store w1)) as (ps' & Hrem & Hgone & Hkeep).
    exists (World.with_pre_key_store ps' w1).
    rewrite (st_bind_eq _ _ w1 tt (World.with_pre_key_store ps' w1))
      by (unfold World.on_pre_keys, st_focus; by rewrite Hrem).
    by split_and!.
  - exists w1. rewrite (st_bind_eq _ _ w1 tt w1) by done. by split_and!.
Qed.

(** C9: a pre-key message, against any stores that keep their laws.
    From an identity that is not trusted for the address it is
    refused and nothing changes.  When it fails for any other reason, no
    session and no pre-key is lost (only the identity may have been saved);
    when it succeeds, the identity was trusted and is saved, the record is
    stored, and the one-time pre-key the message names is removed, unless the
    session had been set up before.  But for a message with number 2^32 - 1 for a chain
    of the stored record at most 2000 before its end, which may panic in a build with
    overflow checks, the call does not panic, and the record stays in good order. *)
Theorem message_decrypt_prekey_correct m a ctx (w : W) :
  pre_key_message_wf m ->
  (forall record, stored_session w a = Some record -> record_inv record) ->
  exists res w', message_decrypt_prekey m a ctx w = (res, w') /\
    (res = Panic -> overflow_checks = true /\ stored_exhausts w a (PreKeySignalMessage.message m)) /\
    (~ trusted w a (PreKeySignalMessage.identity_key m) ->
       res = Err (UntrustedIdentity a) /\ w' = w) /\
    (is_ok res = false ->
       World.session_store w' = World.session_store w /\
       World.pre_key_store w' = World.pre_key_store w /\
       World.signed_pre_key_store w' = World.signed_pre_key_store w) /\
    (is_ok res = true -> exists has record',
       SessionRecord.has_session_state (default SessionRecord.new_fresh (stored_session w a))
         (PreKeySignalMessage.message_version m)
         (PublicKey.serialize (PreKeySignalMessage.base_key m)) = Ok has /\
       trusted w a (PreKeySignalMessage.identity_key m) /\
       known w' a = Some (PreKeySignalMessage.identity_key m) /\
       stored_session w' a = Some record' /\
       (~ stored_exhausts w a (PreKeySignalMessage.message m) -> record_inv record') /\
       (forall b, b <> a -> stored_session w' b = stored_session w b /\ known w' b = known w b) /\
       match (if has : bool then None else PreKeySignalMessage.pre_key_id m) with
       | None => World.pre_key_store w' = World.pre_key_store w
       | Some id =>
           pre_key_store_map (World.pre_key_store w') id = None /\
           forall i, i <> id -> pre_key_store_map (World.pre_key_store w') i
                                = pre_key_store_map (World.pre_key_store w) i
       end).
Proof.
  intros Hm Hinv. unfold message_decrypt_prekey; world_calls.
  rewrite (st_bind_eq _ _ _ _ _ (sessions_load a ctx w)).
  set (record := default SessionRecord.new_fresh (stored_session w a)).
  assert (Hrec : record_inv record).
  { unfold record. destruct (stored_session w a) as [r|]; [by apply Hinv|]. apply record_inv_fresh. }
  unfold process_prekey; world_calls.
  destruct (identities_trusted a (PreKeySignalMessage.identity_key m) Receiving ctx w) as (b & Hb & Hiff).
  rewrite st_bind_assoc_eq.
  rewrite (st_bind_eq _ _ _ _ _ Hb). destruct b; cbn [negb].
  2: { do 2 eexists. split; [done|]. split_and!; try done. }
  assert (Htr : trusted w a (PreKeySignalMessage.identity_key m)) by by apply Hiff.
  destruct (has_session_state_total record (PreKeySignalMessage.message_version m)
    (PublicKey.serialize (PreKeySignalMessage.base_key m))) as (has & Hhas & _).
  destruct (process_prekey_v3_total m record ctx w has Hrec Hm Hhas) as (res & Hpp & Hnp & Hok).
  rewrite st_bind_assoc_eq.
  destruct res as [[o record']|e|]; [|rewrite (st_bind_err_eq _ _ _ _ _ Hpp)|done].
  2: { do 2 eexists. by split_and!. }
  rewrite (st_bind_eq _ _ _ _ _ Hpp). destruct (Hok _ eq_refl) as (Hrec' & Hex & Hcase).
  specialize (Hex (PreKeySignalMessage.message m)).
  assert (Hst : Exists (exhausts (PreKeySignalMessage.message m)) (all_sessions record') ->
    stored_exhausts w a (PreKeySignalMessage.message m)).
  { intros He%Hex. unfold record in He. destruct (stored_session w a) as [r0|] eqn:Hr0; [by exists r0|].
    by apply Exists_nil in He. }
  destruct (save_identity_known a (PreKeySignalMessage.identity_key m) ctx (World.identity_store w))
    as (ch & is' & Hsave & _ & Hk & Hother & Hown & _).
  set (w1 := World.with_identity_store is' w).
  rewrite st_bind_assoc_eq.
  rewrite (st_bind_eq _ _ w ch w1) by (unfold World.on_identities, st_focus; by rewrite Hsave).
  rewrite (st_bind_eq _ _ w1 (o, record') w1) by done.
  destruct (decrypt_record_eq record' (PreKeySignalMessage.message m) w1 Hrec' (wf_inner m Hm))
    as (res & record'' & c' & Hd & Hdr & Hpan & _ & _ & Hread).
  destruct res as [p|e|]; cbn [obind] in Hdr.
  2: { rewrite (st_bind_err_eq _ _ _ _ _ Hdr). do 2 eexists. split; [done|]. by split_and!. }
  2: { exists Panic, (World.with_csprng c' w1). split; [unfold st_bind; by rewrite Hdr|].
       destruct (Hpan eq_refl) as [Hchecks He%Hst]. by split_and!. }
  rewrite (st_bind_eq _ _ _ _ _ Hdr). set (w2 := World.with_csprng c' w1).
  destruct (store_and_remove a record'' o p ctx w2) as (w3 & Hend & Hs & Hso & His & Hpk).
  rewrite Hend. do 2 eexists. split; [done|]. split_and!; try done.
  intros _. exists has, record''. unfold known. rewrite His. split_and!; try done.
  - intros Hno. apply Hread. intros He. by apply Hno, Hst.
  - intros b' Hb'. by rewrite Hso, Hother.
  - destruct has; [by destruct Hcase as [-> _]|]. by rewrite <-Hcase.
Qed.
End Stores.
