(* ===== verification/Loops.v ===== *)
(** The [while] loops of the session cipher and the group cipher: they
    terminate, and the fuel of their definitions changes nothing. *)

From S2P Require Import Prelude Error Crates Proto Curve RatchetKeys SessionState SenderKeys SessionCipher GroupCipher.

(** * [while] *)

Section While.
Context {E S A : Type} (cond : A -> ST E S bool) (body : A -> ST E S A).

(** One evaluation of the condition and, where it holds, of the body; [inr]
    carries the variables of the next round. *)
Definition round (a : A) : ST E S (A + A) :=
  let! b := cond a in
  if b then (let! a := body a in st_ret (inr a)) else st_ret (inl a).

(** The executions of [while cond { body }] that end, as a relation without
    fuel: the loop ends when the condition is false, or with the error or the
    panic of a round. *)
Inductive runs (a : A) (s : S) : outcome E A * S -> Prop :=
  | runs_done a' s' : round a s = (Ok (inl a'), s') -> runs a s (Ok a', s')
  | runs_next a' s' r : round a s = (Ok (inr a'), s') -> runs a' s' r -> runs a s r
  | runs_err e s' : round a s = (Err e, s') -> runs a s (Err e, s')
  | runs_panic s' : round a s = (Panic, s') -> runs a s (Panic, s').

Lemma runs_deterministic a s r1 r2 : runs a s r1 -> runs a s r2 -> r1 = r2.
Proof.
  intros H1. revert r2. induction H1; intros r2 H2; destruct H2; try congruence.
  match goal with H : round ?a ?s = _, H' : round ?a ?s = _ |- _ => rewrite H in H'; injection H' as <- <- end.
  auto.
Qed.

(** A function [f] with fuel is the loop where its fuel reaches a measure that
    every round decreases. *)
Lemma fuel_runs (f : nat -> A -> ST E S A) (measure : A -> nat) (inv : A -> Prop) :
  (forall a s a' s', inv a -> round a s = (Ok (inr a'), s') -> inv a' /\ measure a' < measure a) ->
  (forall a s, inv a -> measure a = 0 -> exists a' s', round a s = (Ok (inl a'), s') /\ f 0 a s = (Ok a', s')) ->
  (forall n a s, f (Datatypes.S n) a s
     = (let! o := round a in match o with inl a => st_ret a | inr a => f n a end) s) ->
  forall n a s, inv a -> measure a <= n -> runs a s (f n a s).
Proof.
  intros Hround H0 HS n. induction n as [|n IH]; intros a s Ha Hm.
  - destruct (H0 a s Ha) as (a' & s' & Hr & ->); [lia|]. by apply runs_done.
  - rewrite HS. unfold st_bind. destruct (round a s) as [[[a'|a']|e|] s'] eqn:Hr; try by econstructor.
    destruct (Hround a s a' s' Ha Hr) as [Ha' Hm']. eapply runs_next; [done|]. apply IH; [done|lia].
Qed.
End While.

(** * The loops of the code *)

Section SessionLoop.
Context `{BuildConfig, Crates, ProtoCodecs}.

(** [while chain_key.index() < counter { .. }] in [get_or_create_message_key]. *)
Definition skip_cond (counter : Z) (chain_key : ChainKey) : StateResult (SessionState * Csprng) bool :=
  st_ret (ChainKey.index chain_key <? counter)%Z.
Definition skip_body (their_ephemeral : PublicKey) (chain_key : ChainKey)
    : StateResult (SessionState * Csprng) ChainKey :=
  let! message_keys := st_lift (ChainKey.message_keys chain_key) in
  let! _ := on_state (fun s => SessionState.set_message_keys s their_ephemeral message_keys) in
  st_lift (ChainKey.next_chain_key chain_key).

Lemma skip_round_next their_ephemeral counter k s k' s' :
  is_u32 counter ->
  round (skip_cond counter) (skip_body their_ephemeral) k s = (Ok (inr k'), s') ->
  (ChainKey.index k < counter)%Z /\ ChainKey.index k' = (ChainKey.index k + 1)%Z.
Proof.
  intros Hc. unfold round, skip_cond, st_bind, st_ret. destruct (Z.ltb_spec (ChainKey.index k) counter) as [Hlt|]; [|done].
  destruct (skip_body their_ephemeral k s) as [[k1|e|] s1] eqn:Hb; intros Hr; try done.
  injection Hr as <- <-. split; [done|].
  unfold skip_body, st_bind in Hb. destruct (st_lift _ s) as [[mk|?|] s2]; [|done..].
  destruct (on_state _ s2) as [[?|?|] s3]; [|done..]. unfold st_lift in Hb.
  rewrite ChainKey.next_chain_key_ok in Hb by (destruct Hc; lia). by injection Hb as <- _.
Qed.

Lemma skip_message_keys_runs their_ephemeral counter fuel k s :
  is_u32 counter -> Z.to_nat (counter - ChainKey.index k) <= fuel ->
  runs (skip_cond counter) (skip_body their_ephemeral) k s
    (skip_message_keys fuel their_ephemeral k counter s).
Proof.
  intros Hc Hfuel.
  apply (fuel_runs _ _ (fun n k => skip_message_keys n their_ephemeral k counter)
    (fun k => Z.to_nat (counter - ChainKey.index k)) (fun _ => True)); [| | |done|done].
  - intros a s1 a' s' _ Hr. apply skip_round_next in Hr as [Hlt ->]; [|done]. lia.
  - intros a s1 _ Hm. exists a, s1. cbn [skip_message_keys]. unfold round, skip_cond, st_bind, st_ret.
    by rewrite (proj2 (Z.ltb_ge _ _)) by lia.
  - intros n a s1. cbn [skip_message_keys]. unfold round, skip_cond, skip_body, st_bind, st_ret, st_lift.
    destruct (ChainKey.index a <? counter)%Z; [|done].
    destruct (ChainKey.message_keys a); [|done..]. by destruct (on_state _ _) as [[]]; [destruct (ChainKey.next_chain_key a)|..].
Qed.
End SessionLoop.

Section GroupLoop.
Context `{BuildConfig, Crates, ProtoCodecs}.

(** [while sender_chain_key.iteration()? < iteration { .. }] in [get_sender_key]. *)
Definition skip_sender_cond (iteration : Z) (k : SenderChainKey) : StateResult SenderKeyState bool :=
  let! i := st_lift (SenderChainKey.iteration k) in
  st_ret (i <? iteration)%Z.
Definition skip_sender_body (k : SenderChainKey) : StateResult SenderKeyState SenderChainKey :=
  let! smk := st_lift (SenderChainKey.sender_message_key k) in
  let! _ := on_sender_state (fun s => SenderKeyState.add_sender_message_key s smk) in
  st_lift (SenderChainKey.next k).

Lemma sender_next_iteration k k' : (SenderChainKey.iteration_ k < u32_max)%Z ->
  SenderChainKey.next k = Ok k' -> SenderChainKey.iteration_ k' = (SenderChainKey.iteration_ k + 1)%Z.
Proof.
  intros Hk. unfold SenderChainKey.next. rewrite u32_add_small by lia. cbn [obind].
  destruct (SenderChainKey.get_derivative _ _); [|done..]. by intros [= <-].
Qed.

Lemma skip_sender_round_next iteration k s k' s' :
  is_u32 iteration ->
  round (skip_sender_cond iteration) skip_sender_body k s = (Ok (inr k'), s') ->
  (SenderChainKey.iteration_ k < iteration)%Z /\
  SenderChainKey.iteration_ k' = (SenderChainKey.iteration_ k + 1)%Z.
Proof.
  intros Hc. unfold round, skip_sender_cond, SenderChainKey.iteration, st_bind, st_ret. cbn [st_lift].
  destruct (Z.ltb_spec (SenderChainKey.iteration_ k) iteration) as [Hlt|]; [|done].
  destruct (skip_sender_body k s) as [[k1|e|] s1] eqn:Hb; intros Hr; try done.
  injection Hr as <- <-. split; [done|]. unfold skip_sender_body, st_bind in Hb.
  destruct (st_lift _ s) as [[mk|?|] s2]; [|done..].
  destruct (on_sender_state _ s2) as [[?|?|] s3]; [|done..]. unfold st_lift in Hb.
  destruct (SenderChainKey.next k) eqn:Hn; [|done..]. injection Hb as <- _.
  apply sender_next_iteration; [destruct Hc; lia|done].
Qed.

Lemma skip_sender_keys_runs iteration fuel k s :
  is_u32 iteration -> Z.to_nat (iteration - SenderChainKey.iteration_ k) <= fuel ->
  runs (skip_sender_cond iteration) skip_sender_body k s (skip_sender_keys fuel k iteration s).
Proof.
  intros Hc Hfuel.
  apply (fuel_runs _ _ (fun n k => skip_sender_keys n k iteration)
    (fun k => Z.to_nat (iteration - SenderChainKey.iteration_ k)) (fun _ => True)); [| | |done|done].
  - intros a s1 a' s' _ Hr. apply skip_sender_round_next in Hr as [Hlt ->]; [|done]. lia.
  - intros a s1 _ Hm. exists a, s1. cbn [skip_sender_keys].
    unfold round, skip_sender_cond, SenderChainKey.iteration, st_bind, st_ret, st_lift.
    by rewrite (proj2 (Z.ltb_ge _ _)) by lia.
  - intros n a s1. cbn [skip_sender_keys].
    unfold round, skip_sender_cond, skip_sender_body, SenderChainKey.iteration, st_bind, st_ret, st_lift.
    destruct (SenderChainKey.iteration_ a <? iteration)%Z; [|done].
    destruct (SenderChainKey.sender_message_key a); [|done..].
    by destruct (on_sender_state _ _) as [[]]; [destruct (SenderChainKey.next a)|..].
Qed.
End GroupLoop.

(** C28: the skipping loops terminate. The [while] loops of [get_or_create_message_key]
    and [get_sender_key], as relations of their executions without any fuel,
    have exactly one execution from every state, every chain key (also one from
    a record that was tampered with) and every u32 target, whatever the bodies
    do; the definitions of the development compute its result with the distance
    to the target as fuel, and with any more, so that their out-of-fuel case is
    not a behaviour of the model. (The index of the chain, which wraps or panics
    at its maximum, is below the target and so never at its maximum.) *)
Theorem skip_loops_terminate `{BuildConfig, Crates, ProtoCodecs} target fuel :
  is_u32 target ->
  (forall their_ephemeral k s r, Z.to_nat (target - ChainKey.index k) <= fuel ->
     runs (skip_cond target) (skip_body their_ephemeral) k s r <->
     r = skip_message_keys fuel their_ephemeral k target s) /\
  (forall k s r, Z.to_nat (target - SenderChainKey.iteration_ k) <= fuel ->
     runs (skip_sender_cond target) skip_sender_body k s r <->
     r = skip_sender_keys fuel k target s).
Proof.
  intros Ht. split.
  - intros e k s r Hfuel. pose proof (skip_message_keys_runs e target fuel k s Ht Hfuel) as Hr.
    split; [intros Hr'; by eapply runs_deterministic|by intros ->].
  - intros k s r Hfuel. pose proof (skip_sender_keys_runs target fuel k s Ht Hfuel) as Hr.
    split; [intros Hr'; by eapply runs_deterministic|by intros ->].
Qed.
