(* ===== verification/GroupProofs.v ===== *)
(** Groups against the sender key store: sender key records, what a group
    message does to the store, and a whole conversation in a group. *)

From S2P Require Import Prelude Error Crates Crypto Curve IdentityKey Proto Protocol RatchetKeys SessionState SessionInvariant PreKeys SenderKeys.
From S2P Require Import SessionRecordFacts Storage StoreAccess GroupCipher ReceiveChain SenderChain.

(** * Records *)

Section Records.
Context `{BuildConfig, Crates, ProtoCodecs}.

Definition state_id (s : SenderKeyState) : Z :=
  SenderKeyStateStructure.sender_key_id (SenderKeyState.state s).

(** The state a distribution message or [set_sender_key_state] makes. *)
Definition new_state (id iteration : Z) (chain_key : bytes) (pk : PublicKey)
    (sk : option PrivateKey) : SenderKeyState :=
  SenderKeyState.mk (SenderKeyStateStructure.mk id
    (Some (SenderChainKeyStructure.mk iteration chain_key))
    (Some (SenderSigningKeyStructure.mk (PublicKey.serialize pk)
             (from_option PrivateKey.serialize [] sk))) []).

Lemma new_state_ok id it ck pk sk : SenderKeyState.new id it ck pk sk = Ok (new_state id it ck pk sk).
Proof. by destruct sk. Qed.

Lemma add_sender_key_state_eq r id it ck pk sk :
  SenderKeyRecord.add_sender_key_state r id it ck pk sk
    = Ok (SenderKeyRecord.mk
        (take MAX_SENDER_KEY_STATES (new_state id it ck pk sk :: SenderKeyRecord.states r))).
Proof.
  unfold SenderKeyRecord.add_sender_key_state. rewrite new_state_ok. cbn [obind].
  rewrite pop_back_while_spec by lia. done.
Qed.

Lemma find_keyid_spec id l : forall n,
  SenderKeyRecord.find_keyid id n l =
    match list_find (fun s => state_id s = id) l with
    | Some (i, _) => Ok (n + i)
    | None => Err NoSenderKeyState
    end.
Proof.
  induction l as [|s l IH]; intros n; [done|]. cbn [SenderKeyRecord.find_keyid list_find].
  unfold SenderKeyState.sender_key_id. cbn [obind]. fold (state_id s).
  destruct (Z.eqb_spec (state_id s) id) as [Heq|Hne].
  - rewrite decide_True by done. by rewrite Nat.add_0_r.
  - rewrite decide_False by done. rewrite IH.
    destruct (list_find _ l) as [[i x]|]; cbn; [|done]. f_equal. lia.
Qed.

Lemma states_as_protobuf_eq l :
  SenderKeyRecord.states_as_protobuf l = Ok (SenderKeyState.state <$> l).
Proof. induction l as [|s l IH]; [done|]. cbn. by rewrite IH. Qed.

(** A record keeps the states of a sender, newest first and at most five of
    them: [add_sender_key_state] puts the new state in front and drops the
    oldest, [set_sender_key_state] leaves only the new one; a lookup by key id
    finds the newest state with that id, a lookup without one the newest of
    all, and an empty record has neither. *)
Lemma sender_key_record_correct r id it ck pk sk :
  SenderKeyRecord.add_sender_key_state r id it ck pk sk
    = Ok (SenderKeyRecord.mk (take 5 (new_state id it ck pk sk :: SenderKeyRecord.states r))) /\
  SenderKeyRecord.set_sender_key_state r id it ck pk sk
    = Ok (SenderKeyRecord.mk [new_state id it ck pk sk]) /\
  (forall i, SenderKeyRecord.sender_key_state_for_keyid r id = Ok i <->
     exists s, SenderKeyRecord.states r !! i = Some s /\ state_id s = id /\
       forall j s', j < i -> SenderKeyRecord.states r !! j = Some s' -> state_id s' <> id) /\
  (SenderKeyRecord.is_empty r = Ok true <-> SenderKeyRecord.sender_key_state r = Err NoSenderKeyState).
Proof.
  split_and!.
  - apply add_sender_key_state_eq.
  - unfold SenderKeyRecord.set_sender_key_state. by rewrite add_sender_key_state_eq.
  - intros i. unfold SenderKeyRecord.sender_key_state_for_keyid. rewrite find_keyid_spec.
    destruct (list_find _ _) as [[j x]|] eqn:Hf.
    + apply list_find_Some in Hf as (Hj & Hid & Hbefore). cbn. split.
      * intros [= <-]. eexists. split_and!; [done|done|]. intros j' s' Hlt Hs'. by eapply Hbefore.
      * intros (s & Hs & Hid' & Hbefore'). f_equal.
        destruct (Nat.lt_trichotomy i j) as [Hlt|[->|Hlt]]; [|done|].
        -- by destruct (Hbefore _ _ Hs Hlt).
        -- by destruct (Hbefore' _ _ Hlt Hj).
    + apply list_find_None in Hf. rewrite list.Forall_forall in Hf. split; [done|].
      intros (s & Hs & Hid & _). apply list_elem_of_lookup_2 in Hs. by destruct (Hf s Hs).
  - unfold SenderKeyRecord.is_empty, SenderKeyRecord.sender_key_state.
    by destruct (SenderKeyRecord.states r).
Qed.

(** A record whose integers have their widths is read back as it was written. *)
Lemma sender_key_record_roundtrip `{!ProtoLaws} r :
  Forall (fun s => well_typed (SenderKeyState.state s)) (SenderKeyRecord.states r) ->
  exists b, SenderKeyRecord.serialize r = Ok b /\ SenderKeyRecord.deserialize b = Ok r.
Proof.
  intros Hty. unfold SenderKeyRecord.serialize, SenderKeyRecord.as_protobuf.
  rewrite states_as_protobuf_eq. cbn [obind]. eexists. split; [done|].
  unfold SenderKeyRecord.deserialize. rewrite decode_message_encode.
  2: { unfold well_typed, SenderKeyRecordStructure_typed. cbn. by apply Forall_fmap. }
  cbn. destruct r as [l]. f_equal. f_equal. cbn. rewrite <-list_fmap_compose.
  clear. induction l as [|[s] l IH]; [done|]. cbn. by rewrite IH.
Qed.
(** C35: what a device keeps comes back whole from its serialised form: a session
    record, with its archived sessions in order; a sender key record; a pre-key record and a signed
    pre-key record made from a key pair, with their id, timestamp, signature and
    the key pair that went in; and an identity key pair. *)
Theorem kept_records_roundtrip `{!X25519Laws, !ProtoLaws} r g id sid ts kp skp sig ikp :
  Forall (fun s => well_typed (SessionState.session s)) (all_sessions r) ->
  Forall (fun s => well_typed (SenderKeyState.state s)) (SenderKeyRecord.states g) ->
  is_u32 id -> is_u32 sid -> is_u64 ts -> KeyPair.matching kp -> KeyPair.matching skp ->
  IdentityKeyPair.matching ikp ->
  (exists b, SessionRecord.serialize r = Ok b /\ SessionRecord.deserialize b = Ok r) /\
  (exists b, SenderKeyRecord.serialize g = Ok b /\ SenderKeyRecord.deserialize b = Ok g) /\
  (exists b r, PreKeyRecord.serialize (PreKeyRecord.new id kp) = Ok b /\
     PreKeyRecord.deserialize b = Ok r /\
     PreKeyRecord.id r = Ok id /\ PreKeyRecord.key_pair r = Ok kp) /\
  (exists b r, SignedPreKeyRecord.serialize (SignedPreKeyRecord.new sid ts skp sig) = Ok b /\
     SignedPreKeyRecord.deserialize b = Ok r /\
     SignedPreKeyRecord.id r = Ok sid /\ SignedPreKeyRecord.timestamp r = Ok ts /\
     SignedPreKeyRecord.signature r = Ok sig /\ SignedPreKeyRecord.key_pair r = Ok skp) /\
  IdentityKeyPair.try_from (IdentityKeyPair.serialize ikp) = Ok ikp.
Proof.
  intros. split; [by apply session_record_roundtrip|].
  split; [by apply sender_key_record_roundtrip|by apply key_records_roundtrip].
Qed.
End Records.

(** * Conversations *)

Section Scripts.
Context {W : Type} `{BuildConfig, Crates, ProtoCodecs, !Stores.SenderKeys W, !Stores.Rng W}.

(** Sending a list of plaintexts, and receiving a list of messages with all
    the answers. *)
Fixpoint group_send_all (n : SenderKeyName) (ctx : Context) (ps : list bytes)
    : StateResult W (list bytes) :=
  match ps with
  | [] => st_ret []
  | p :: ps =>
      let! b := group_encrypt n p ctx in
      let! bs := group_send_all n ctx ps in st_ret (b :: bs)
  end.

Fixpoint group_receive_all (n : SenderKeyName) (ctx : Context) (bs : list bytes) (w : W)
    : list (Result bytes) * W :=
  match bs with
  | [] => ([], w)
  | b :: bs =>
      let '(res, w) := group_decrypt b n ctx w in
      let '(l, w) := group_receive_all n ctx bs w in (res :: l, w)
  end.
End Scripts.

(** * The store *)

Section Stores.
Context {S : Type} `{BuildConfig, Crates, ProtoCodecs, !SenderKeyStore S, !SenderKeyStoreLaws S}
  `{!HashLaws}.

Abbreviation W := (S * Csprng)%type.

Definition stored_record (w : W) (n : SenderKeyName) : option SenderKeyRecord :=
  sender_key_store_map w.1 n.

(** [w'] is [w] with the record [r] stored under [n]. *)
Definition stored_under (w w' : W) (n : SenderKeyName) (r : SenderKeyRecord) : Prop :=
  stored_record w' n = Some r /\
  forall m, m <> n -> stored_record w' m = stored_record w m.

Lemma load_eq n ctx (w : W) :
  on_store (load_sender_key n ctx) w = (Ok (stored_record w n), w).
Proof. unfold on_store, st_focus. rewrite load_sender_key_map. by destruct w. Qed.

Lemma store_eq n r ctx (w : W) :
  exists w', on_store (store_sender_key n r ctx) w = (Ok tt, w') /\ stored_under w w' n r /\ w'.2 = w.2.
Proof.
  destruct (store_sender_key_map n r ctx w.1) as (s' & Hs & Hn & Ho).
  exists (s', w.2). unfold on_store, st_focus. rewrite Hs. by split_and!.
Qed.

(** A state that serves some sender's chain, as every state this code makes
    does. *)
Definition state_inv (s : SenderKeyState) : Prop := exists c0 r, follows c0 s r.
Definition sender_record_inv (r : SenderKeyRecord) : Prop := Forall state_inv (SenderKeyRecord.states r).

Lemma new_state_inv id it ck pk sk : (it <= u32_max)%Z -> state_inv (new_state id it ck pk sk).
Proof. intros Hit. do 2 eexists. eapply new_follows; [apply new_state_ok|done]. Qed.

(** ** Receiving *)

Lemma signing_key_public_same s s' :
  same_sender s s' -> SenderKeyState.signing_key_public s' = SenderKeyState.signing_key_public s.
Proof. intros [_ Hk]. unfold SenderKeyState.signing_key_public. by rewrite Hk. Qed.

Lemma signing_key_public_no_panic s : SenderKeyState.signing_key_public s <> Panic.
Proof. unfold SenderKeyState.signing_key_public. case_match; [auto with crates|done]. Qed.

Lemma find_keyid_insert id l i s s' :
  l !! i = Some s -> state_id s' = state_id s ->
  SenderKeyRecord.find_keyid id 0 (<[i := s']> l) = SenderKeyRecord.find_keyid id 0 l.
Proof.
  intros Hi Hid. rewrite !find_keyid_spec.
  assert (fst <$> list_find (fun s => state_id s = id) (<[i := s']> l)
          = fst <$> list_find (fun s => state_id s = id) l) as Hf.
  { revert i Hi. induction l as [|x l IH]; intros [|i] Hi; simplify_eq/=.
    - rewrite Hid. destruct (decide _); [done|]. done.
    - destruct (decide _); [done|]. specialize (IH i Hi).
      destruct (list_find _ (<[i:=s']> l)) as [[]|], (list_find _ l) as [[]|]; simplify_eq/=; congruence. }
  destruct (list_find _ (<[i:=s']> l)) as [[]|], (list_find _ l) as [[]|]; simplify_eq/=; congruence.
Qed.

Lemma find_keyid_lookup id l i :
  SenderKeyRecord.find_keyid id 0 l = Ok i -> exists s, l !! i = Some s /\ state_id s = id.
Proof.
  rewrite find_keyid_spec. destruct (list_find _ l) as [[j s]|] eqn:Hf; [|done].
  intros [= <-]. apply list_find_Some in Hf as (Hj & Hs & _). by exists s.
Qed.

(** What [group_decrypt] does with the record it loaded. *)
Definition decrypt_with_record (skm : SenderKeyMessage) (record : SenderKeyRecord)
    : Result (bytes * SenderKeyRecord) :=
  let? i := SenderKeyRecord.sender_key_state_for_keyid record (SenderKeyMessage.key_id skm) in
  let? s := unwrap (SenderKeyRecord.states record !! i) in
  let? signing_key := SenderKeyState.signing_key_public s in
  let? valid := SenderKeyMessage.verify_signature skm signing_key in
  if negb valid then Err SignatureValidationFailed
  else
    let '(sender_key, s) := get_sender_key (SenderKeyMessage.iteration skm) s in
    let? sender_key := sender_key in
    let? plaintext := aes_256_cbc_decrypt (SenderKeyMessage.ciphertext skm)
      (SenderMessageKey.cipher_key_ sender_key) (SenderMessageKey.iv_ sender_key) in
    Ok (plaintext, SenderKeyRecord.mk (<[i := s]> (SenderKeyRecord.states record))).

Lemma borrow_eq skm s :
  (let! signing_key := st_gets SenderKeyState.signing_key_public in
   let! valid := st_lift (SenderKeyMessage.verify_signature skm signing_key) in
   if negb valid then st_lift (Err SignatureValidationFailed)
   else get_sender_key (SenderKeyMessage.iteration skm)) s
  = match (let? pk := SenderKeyState.signing_key_public s in
           SenderKeyMessage.verify_signature skm pk) with
    | Ok true => get_sender_key (SenderKeyMessage.iteration skm) s
    | Ok false => (Err SignatureValidationFailed, s)
    | Err e => (Err e, s)
    | Panic => (Panic, s)
    end.
Proof.
  unfold st_bind at 1, st_gets. destruct (SenderKeyState.signing_key_public s); [|done|done].
  unfold st_bind, st_lift. cbn [obind]. by destruct (SenderKeyMessage.verify_signature _ _) as [[]| |].
Qed.

Lemma group_decrypt_eq b n ctx (w : W) :
  match stored_record w n with
  | None => group_decrypt b n ctx w = (Err InvalidSenderKeyId, w)
  | Some record =>
      match (let? skm := SenderKeyMessage.try_from b in decrypt_with_record skm record) with
      | Ok (p, record') => exists w', group_decrypt b n ctx w = (Ok p, w') /\
          stored_under w w' n record' /\ w'.2 = w.2
      | Err e => group_decrypt b n ctx w = (Err e, w)
      | Panic => group_decrypt b n ctx w = (Panic, w)
      end
  end.
Proof.
  unfold group_decrypt; pair_calls. rewrite (st_bind_eq _ _ _ _ _ (load_eq n ctx w)).
  destruct (stored_record w n) as [record|]; cbn [ok_or]; [|done].
  rewrite (st_bind_eq _ _ w record w) by done.
  destruct (SenderKeyMessage.try_from b) as [skm|e|]; [|done|done].
  rewrite (st_bind_eq _ _ w skm w) by done. cbn [obind]. unfold decrypt_with_record.
  destruct (SenderKeyRecord.sender_key_state_for_keyid _ _) as [i|e|] eqn:Hfind; [|done|done].
  rewrite (st_bind_eq _ _ w i w) by done. cbn [obind].
  destruct (find_keyid_lookup _ _ _ Hfind) as (s & Hs & _). rewrite Hs. cbn [unwrap obind].
  unfold on_record, SenderKeyRecord.borrow_mut. rewrite Hs, borrow_eq.
  destruct (SenderKeyState.signing_key_public s) as [pk|e|]; [|done|done]. cbn [obind].
  destruct (SenderKeyMessage.verify_signature skm pk) as [[]|e|]; cbn [obind negb]; [|done..].
  destruct (get_sender_key _ s) as [[k|e|] s']; [|done|done].
  rewrite (st_bind_eq _ _ w (k, SenderKeyRecord.mk (<[i := s']> (SenderKeyRecord.states record))) w) by done.
  rewrite (st_bind_eq _ _ w (SenderMessageKey.cipher_key_ k) w) by done.
  rewrite (st_bind_eq _ _ w (SenderMessageKey.iv_ k) w) by done. cbn [obind].
  destruct (aes_256_cbc_decrypt _ _ _) as [p|e|]; [|done|done].
  rewrite (st_bind_eq _ _ w p w) by done. cbn [obind].
  destruct (store_eq n (SenderKeyRecord.mk (<[i := s']> (SenderKeyRecord.states record))) ctx w)
    as (w' & Hst & Hu & Hc).
  exists w'. by rewrite (st_bind_eq _ _ _ _ _ Hst).
Qed.

(** The message verifies under the signing key of the newest state of the
    record that has its key id. *)
Definition authentic (skm : SenderKeyMessage) (record : SenderKeyRecord) : Prop :=
  exists i s pk,
    SenderKeyRecord.sender_key_state_for_keyid record (SenderKeyMessage.key_id skm) = Ok i /\
    SenderKeyRecord.states record !! i = Some s /\
    SenderKeyState.signing_key_public s = Ok pk /\
    SenderKeyMessage.verify_signature skm pk = Ok true.

Lemma decrypt_with_record_spec b skm record :
  sender_record_inv record -> SenderKeyMessage.try_from b = Ok skm ->
  (SenderKeyMessage.iteration skm < u32_max)%Z ->
  decrypt_with_record skm record <> Panic /\
  forall p record', decrypt_with_record skm record = Ok (p, record') ->
    authentic skm record /\ sender_record_inv record' /\
    length (SenderKeyRecord.states record') = length (SenderKeyRecord.states record) /\
    exists n, decrypt_with_record skm record'
      = Err (DuplicatedMessage n (SenderKeyMessage.iteration skm)).
Proof.
  intros Hrec Hparse Hit. unfold decrypt_with_record at 1 2.
  destruct (SenderKeyRecord.sender_key_state_for_keyid _ _) as [i|e|] eqn:Hfind; [|done|].
  2: { unfold SenderKeyRecord.sender_key_state_for_keyid in Hfind. rewrite find_keyid_spec in Hfind.
       by destruct (list_find _ _) as [[]|]. }
  destruct (find_keyid_lookup _ _ _ Hfind) as (s & Hs & Hid). cbn [obind]. rewrite Hs. cbn [unwrap obind].
  pose proof (signing_key_public_no_panic s) as Hnp.
  destruct (SenderKeyState.signing_key_public s) as [pk|e|] eqn:Hpk; [|done|done]. cbn [obind].
  pose proof (SenderKeyMessage.sender_key_message_verify_signature_no_panic b skm pk Hparse) as Hnp'.
  destruct (SenderKeyMessage.verify_signature skm pk) as [[]|e|] eqn:Hver; cbn [obind negb]; [|done..].
  pose proof (proj1 (Forall_lookup _ _) Hrec i s Hs) as (c0 & r & Hf).
  destruct (get_sender_key_follows c0 s r (SenderKeyMessage.iteration skm) Hf Hit)
    as (s' & Hk & Hf' & Hsame & _).
  rewrite Hk. pose proof (Receiver.receive_again _ (SenderKeyMessage.iteration skm) r (follows_wf _ _ _ Hf))
    as Hagain.
  destruct (Receiver.receive _ r) as [a r'] eqn:Hr. cbn [fst snd] in *.
  destruct a; [|done|done]. cbn [answer_result obind].
  pose proof (aes_256_cbc_decrypt_no_panic (SenderKeyMessage.ciphertext skm)
    (SenderMessageKey.cipher_key_ (SenderChainKey.key (chain_at c0 (SenderKeyMessage.iteration skm))))
    (SenderMessageKey.iv_ (SenderChainKey.key (chain_at c0 (SenderKeyMessage.iteration skm))))) as Hnp2.
  destruct (aes_256_cbc_decrypt _ _ _) as [p|e|] eqn:Hdec; [|done|done]. cbn [obind].
  split; [done|]. intros p' record' [= <- <-]. split_and!.
  - by exists i, s, pk.
  - apply list.Forall_insert; [done|by exists c0, r'].
  - cbn [SenderKeyRecord.states]. by rewrite length_insert.
  - exists (Receiver.next r'). unfold decrypt_with_record, SenderKeyRecord.sender_key_state_for_keyid.
    cbn [SenderKeyRecord.states].
    rewrite (find_keyid_insert _ _ i s s') by (done || apply Hsame).
    unfold SenderKeyRecord.sender_key_state_for_keyid in Hfind. rewrite Hfind. cbn [obind].
    rewrite list_lookup_insert_eq by by eapply lookup_lt_Some. cbn [unwrap obind].
    rewrite (signing_key_public_same s s') by done. rewrite Hpk. cbn [obind]. rewrite Hver. cbn [obind negb].
    destruct (get_sender_key_follows c0 s' r' _ Hf' Hit) as (s'' & Hk'' & _).
    rewrite Hk''. by rewrite Hagain.
Qed.

(** C30: receiving a group message, against any store that keeps its laws.
    Whatever bytes arrive, the call does not panic; when it fails, nothing has
    changed, so neither a forged nor a damaged message costs a key; when it
    succeeds, the signature of the message is that of the newest state with
    its key id, the updated record is stored and still serves its senders, no
    other record is touched, and the same bytes are refused as a duplicate from
    then on.  (The bound: a message with the last number of all makes the next
    number overflow.) *)
Theorem group_decrypt_correct b n ctx (w : W) :
  (forall record, stored_record w n = Some record -> sender_record_inv record) ->
  (forall skm, SenderKeyMessage.try_from b = Ok skm -> (SenderKeyMessage.iteration skm < u32_max)%Z) ->
  exists res w', group_decrypt b n ctx w = (res, w') /\ res <> Panic /\
    (is_ok res = false -> w' = w) /\
    (stored_record w n = None -> res = Err InvalidSenderKeyId) /\
    (forall p, res = Ok p -> exists record skm record',
       stored_record w n = Some record /\ SenderKeyMessage.try_from b = Ok skm /\
       authentic skm record /\ stored_under w w' n record' /\ sender_record_inv record' /\
       forall w'', stored_record w'' n = Some record' ->
         exists i, group_decrypt b n ctx w''
           = (Err (DuplicatedMessage i (SenderKeyMessage.iteration skm)), w'')).
Proof.
  intros Hinv Hbound. pose proof (group_decrypt_eq b n ctx w) as Heq.
  destruct (stored_record w n) as [record|]; [|by do 2 eexists].
  pose proof (SenderKeyMessage.sender_key_message_try_from_no_panic b) as Hnp.
  destruct (SenderKeyMessage.try_from b) as [skm|e|] eqn:Hparse; cbn [obind] in Heq;
    [|by do 2 eexists|done].
  destruct (decrypt_with_record_spec b skm record (Hinv _ eq_refl) Hparse (Hbound _ eq_refl))
    as [Hnp' Hok].
  destruct (decrypt_with_record skm record) as [[p record']|e|]; [|by do 2 eexists|done].
  destruct Heq as (w' & Heq & Hu & _). destruct (Hok _ _ eq_refl) as (Hau & Hinv' & _ & i & Hdup).
  exists (Ok p), w'. split_and!; [done|done|done|done|].
  intros p' [= <-]. exists record, skm, record'. split_and!; try done; [apply Hu..|].
  intros w'' Hw''. exists i. pose proof (group_decrypt_eq b n ctx w'') as Heq'.
  rewrite Hw'', Hparse in Heq'. cbn [obind] in Heq'. by rewrite Hdup in Heq'.
Qed.

(** ** Sending *)

Context `{!CbcLaws, !SubtleLaws, !X25519Laws, !EdwardsLaws, !ProtoLaws}.

(** The bytes [b] carry the plaintext [p] as message [i] of the chain from
    [c0], under the key id [id] and signed with [kp]. *)
Definition group_message (c0 : SenderChainKey) (kp : KeyPair) (id i : Z) (p b : bytes) : Prop :=
  exists m, SenderKeyMessage.try_from b = Ok m /\ SenderKeyMessage.key_id m = id /\
    SenderKeyMessage.iteration m = i /\
    SenderKeyMessage.verify_signature m (KeyPair.public_key kp) = Ok true /\
    let k := SenderChainKey.key (chain_at c0 i) in
    aes_256_cbc_decrypt (SenderKeyMessage.ciphertext m) (SenderMessageKey.cipher_key_ k)
      (SenderMessageKey.iv_ k) = Ok p.

(** The state can send message [i] of the chain from [c0]. *)
Record sends (c0 : SenderChainKey) (kp : KeyPair) (id i : Z) (s : SenderKeyState) : Prop := {
  sends_id : state_id s = id;
  sends_chain : SenderKeyState.sender_chain_key s = Ok (chain_at c0 i);
  sends_key : SenderKeyState.signing_key_private s = Ok (Some (KeyPair.private_key kp));
}.

Lemma encrypt_with_sender_state_ok p (c : Csprng) c0 kp id i s :
  sends c0 kp id i s -> KeyPair.matching kp -> is_u32 id ->
  (0 <= SenderChainKey.iteration_ c0 <= i)%Z -> (i < u32_max)%Z ->
  exists m s' c', encrypt_with_sender_state p c s = (Ok (m, s'), c') /\
    group_message c0 kp id i p (SenderKeyMessage.serialized m) /\
    sends c0 kp id (i + 1) s' /\ same_sender s s'.
Proof.
  intros [Hid Hch Hkey] Hm Hu Hi Hmax. unfold encrypt_with_sender_state. rewrite Hch. cbn [obind].
  set (k := chain_at c0 i).
  destruct (SenderChainKey.sender_message_key_ok k) as (-> & [Hiv Hck] & Hit & _). cbn [obind].
  unfold SenderMessageKey.cipher_key, SenderMessageKey.iv. cbn [obind].
  destruct (aes_256_cbc_roundtrip p (SenderMessageKey.cipher_key_ (SenderChainKey.key k))
    (SenderMessageKey.iv_ (SenderChainKey.key k))) as (ct & Henc & Hdec); [done|done|].
  rewrite Henc. cbn [obind]. rewrite Hkey. cbn [ok_or obind].
  unfold SenderKeyState.sender_key_id, SenderMessageKey.iteration. fold (state_id s).
  rewrite Hid, Hit. cbn [obind].
  assert (SenderChainKey.iteration_ k = i) as Hk by (apply chain_at_iteration; lia). rewrite Hk.
  destruct (SenderKeyMessage.sender_key_message_new_try_from id i ct c kp) as
    (m & c' & Hnew & Hparse & Hver & Hmid & Hmit & Hmct); [done|unfold is_u32; lia|done|].
  rewrite Hnew. cbn [obind]. unfold k. rewrite chain_at_next by lia. cbn [obind].
  unfold SenderKeyState.set_sender_chain_key. cbn [obind SenderChainKey.as_protobuf].
  do 3 eexists. split; [done|]. split_and!; [|by split|done].
  exists m. split_and!; try done. cbv zeta. rewrite Hmct. exact Hdec.
Qed.

Lemma group_encrypt_sends n p ctx (w : W) c0 kp id i s l :
  KeyPair.matching kp -> is_u32 id -> (0 <= SenderChainKey.iteration_ c0 <= i)%Z -> (i < u32_max)%Z ->
  stored_record w n = Some (SenderKeyRecord.mk (s :: l)) -> sends c0 kp id i s ->
  exists b w' s', group_encrypt n p ctx w = (Ok b, w') /\ group_message c0 kp id i p b /\
    sends c0 kp id (i + 1) s' /\ same_sender s s' /\
    stored_under w w' n (SenderKeyRecord.mk (s' :: l)).
Proof.
  intros Hm Hu Hi Hmax Hst Hs. unfold group_encrypt; pair_calls.
  rewrite (st_bind_eq _ _ _ _ _ (load_eq n ctx w)), Hst. cbn [ok_or].
  rewrite (st_bind_eq _ _ w (SenderKeyRecord.mk (s :: l)) w) by done.
  rewrite (st_bind_eq _ _ w 0 w) by done. rewrite (st_bind_eq _ _ w s w) by done.
  destruct (encrypt_with_sender_state_ok p w.2 c0 kp id i s Hs Hm Hu Hi Hmax)
    as (m & s' & c' & Henc & Hmsg & Hs' & Hsame).
  rewrite (st_bind_eq _ _ w (m, s') (w.1, c')) by (unfold with_rng; by rewrite Henc).
  cbn [SenderKeyRecord.states]. change (<[0 := s']> (s :: l)) with (s' :: l).
  destruct (store_eq n (SenderKeyRecord.mk (s' :: l)) ctx (w.1, c')) as (w' & Hst' & Hun & _).
  rewrite (st_bind_eq _ _ _ _ _ Hst'). do 3 eexists. by split_and!.
Qed.

(** Sending to a group, against any store that keeps its laws.  Without a
    record the call fails with its own error and nothing changes; when the
    newest state can send, the result is a message of its chain under its key
    id that verifies under the signing key and decrypts under the message key,
    and what is stored is the record with that state moved on by one message,
    so no key is used twice. *)
Lemma group_encrypt_correct n p ctx (w : W) c0 kp id i :
  KeyPair.matching kp -> is_u32 id -> (0 <= SenderChainKey.iteration_ c0 <= i)%Z -> (i < u32_max)%Z ->
  match stored_record w n with
  | None => group_encrypt n p ctx w = (Err InvalidSenderKeyId, w)
  | Some record =>
      match SenderKeyRecord.states record with
      | [] => group_encrypt n p ctx w = (Err NoSenderKeyState, w)
      | s :: l => sends c0 kp id i s -> exists b w' s',
          group_encrypt n p ctx w = (Ok b, w') /\ group_message c0 kp id i p b /\
          sends c0 kp id (i + 1) s' /\ same_sender s s' /\
          stored_under w w' n (SenderKeyRecord.mk (s' :: l))
      end
  end.
Proof.
  intros Hm Hu Hi Hmax. destruct (stored_record w n) as [[[|s l]]|] eqn:Hst; cbn [SenderKeyRecord.states].
  - unfold group_encrypt; pair_calls. by rewrite (st_bind_eq _ _ _ _ _ (load_eq n ctx w)), Hst.
  - intros Hs. by apply group_encrypt_sends.
  - unfold group_encrypt; pair_calls. by rewrite (st_bind_eq _ _ _ _ _ (load_eq n ctx w)), Hst.
Qed.

(** ** Distribution *)

Definition record_states (w : W) (n : SenderKeyName) : list SenderKeyState :=
  from_option SenderKeyRecord.states [] (stored_record w n).

Lemma process_distribution_ok n skdm ctx (w : W) :
  exists w', process_sender_key_distribution_message n skdm ctx w = (Ok tt, w') /\
    stored_under w w' n (SenderKeyRecord.mk (take MAX_SENDER_KEY_STATES
      (new_state (SenderKeyDistributionMessage.id skdm) (SenderKeyDistributionMessage.iteration skdm)
         (SenderKeyDistributionMessage.chain_key skdm) (SenderKeyDistributionMessage.signing_key skdm)
         None :: record_states w n))) /\ w'.2 = w.2.
Proof.
  unfold process_sender_key_distribution_message; pair_calls.
  rewrite (st_bind_eq _ _ _ _ _ (load_eq n ctx w)), add_sender_key_state_eq.
  set (r := SenderKeyRecord.mk _). rewrite (st_bind_eq _ _ w r w) by done.
  destruct (store_eq n r ctx w) as (w' & Hst & Hu & Hc). exists w'. rewrite Hst. split_and!; try done.
  assert (SenderKeyRecord.states (default SenderKeyRecord.new_empty (stored_record w n))
          = record_states w n) as Heq by (unfold record_states; by destruct (stored_record w n)).
  unfold r in Hu. by rewrite Heq in Hu.
Qed.

(** A distribution message puts a fresh state in front of the sender's
    record and drops all but the five newest; the record keeps its invariant,
    the new state stands at the message's iteration with no keys missing, and
    no other record is touched.  (So a distribution message processed again
    gives back the keys it gave before.) *)
Lemma process_distribution_correct n skdm ctx (w : W) :
  (SenderKeyDistributionMessage.iteration skdm <= u32_max)%Z ->
  Forall state_inv (record_states w n) ->
  exists w' r, process_sender_key_distribution_message n skdm ctx w = (Ok tt, w') /\
    stored_under w w' n r /\ sender_record_inv r /\
    length (SenderKeyRecord.states r) <= 5 /\
    tail (SenderKeyRecord.states r) = take 4 (record_states w n) /\
    exists s, SenderKeyRecord.states r !! 0 = Some s /\
      state_id s = SenderKeyDistributionMessage.id skdm /\
      follows (SenderChainKey.mk (SenderKeyDistributionMessage.iteration skdm)
                 (SenderKeyDistributionMessage.chain_key skdm)) s
        (Receiver.start (SenderKeyDistributionMessage.iteration skdm)).
Proof.
  intros Hit Hinv. destruct (process_distribution_ok n skdm ctx w) as (w' & Hp & Hu & _).
  eexists w', _. split; [done|]. split; [done|]. cbn [SenderKeyRecord.states]. split_and!.
  - apply list.Forall_take. constructor; [by apply new_state_inv|done].
  - rewrite length_take. unfold MAX_SENDER_KEY_STATES. lia.
  - done.
  - eexists. split; [done|]. split; [done|]. eapply new_follows; [apply new_state_ok|done].
Qed.

Context `{!RngLaws}.

(** The distribution message announces the state that sends with [kp]. *)
Definition announces (skdm : SenderKeyDistributionMessage) (c : SenderChainKey) (kp : KeyPair)
    (id : Z) : Prop :=
  SenderKeyDistributionMessage.id skdm = id /\
  SenderKeyDistributionMessage.iteration skdm = SenderChainKey.iteration_ c /\
  SenderKeyDistributionMessage.chain_key skdm = SenderChainKey.chain_key_ c /\
  SenderKeyDistributionMessage.signing_key skdm = KeyPair.public_key kp.

(** What is announced of a state that exists. *)
Lemma announce_state s c0 kp id i :
  sends c0 kp id i s -> SenderKeyState.signing_key_public s = Ok (KeyPair.public_key kp) ->
  exists skdm,
    (let? sender_chain_key := SenderKeyState.sender_chain_key s in
     let? id := SenderKeyState.sender_key_id s in
     let? iteration := SenderChainKey.iteration sender_chain_key in
     let? seed := SenderChainKey.seed sender_chain_key in
     let? signing_key := SenderKeyState.signing_key_public s in
     SenderKeyDistributionMessage.new id iteration seed signing_key) = Ok skdm /\
    announces skdm (chain_at c0 i) kp id /\
    SenderKeyDistributionMessage.new id (SenderChainKey.iteration_ (chain_at c0 i))
      (SenderChainKey.chain_key_ (chain_at c0 i)) (KeyPair.public_key kp) = Ok skdm.
Proof.
  intros [Hid Hch _] Hpk. rewrite Hch. cbn [obind]. unfold SenderKeyState.sender_key_id.
  cbn [obind]. fold (state_id s). rewrite Hid, Hpk. cbn [obind SenderChainKey.iteration SenderChainKey.seed].
  eexists. split; [done|]. by split_and!.
Qed.

Lemma new_state_sends id ck kp :
  KeyPair.matching kp ->
  let s := new_state id 0 ck (KeyPair.public_key kp) (Some (KeyPair.private_key kp)) in
  sends (SenderChainKey.mk 0 ck) kp id 0 s /\
  SenderKeyState.signing_key_public s = Ok (KeyPair.public_key kp).
Proof.
  intros Hm s. destruct (KeyPair.key_pair_matching_wf kp Hm) as [Hp Hs]. split; [split|].
  - done.
  - unfold chain_at. cbn [SenderChainKey.iteration_]. by rewrite Z.sub_diag, SenderChainKey.sender_chain_key_advanced_0.
  - unfold SenderKeyState.signing_key_private. cbn [SenderKeyState.state s new_state
      SenderKeyStateStructure.sender_signing_key SenderSigningKeyStructure.private from_option].
    by rewrite PrivateKey.private_key_deserialize_serialize.
  - unfold SenderKeyState.signing_key_public. cbn [SenderKeyState.state s new_state
      SenderKeyStateStructure.sender_signing_key SenderSigningKeyStructure.public].
    by rewrite PublicKey.public_key_deserialize_serialize'.
Qed.

Lemma create_distribution_existing n ctx (w : W) s l c0 kp id i :
  stored_record w n = Some (SenderKeyRecord.mk (s :: l)) -> sends c0 kp id i s ->
  SenderKeyState.signing_key_public s = Ok (KeyPair.public_key kp) ->
  exists skdm, create_sender_key_distribution_message n ctx w = (Ok skdm, w) /\
    announces skdm (chain_at c0 i) kp id.
Proof.
  intros Hst Hs Hpk. unfold create_sender_key_distribution_message; pair_calls.
  destruct (announce_state s c0 kp id i Hs Hpk) as (skdm & Hskdm & Han & _). exists skdm.
  rewrite (st_bind_eq _ _ _ _ _ (load_eq n ctx w)), Hst. cbn [default from_option].
  rewrite (st_bind_eq _ _ w false w) by done.
  rewrite (st_bind_eq _ _ w (SenderKeyRecord.mk (s :: l)) w) by done.
  rewrite (st_bind_eq _ _ w 0 w) by done. rewrite (st_bind_eq _ _ w s w) by done.
  rewrite (st_bind_eq _ _ w (chain_at c0 i) w) by (unfold st_lift; by rewrite (sends_chain _ _ _ _ _ Hs)).
  rewrite (sends_chain _ _ _ _ _ Hs) in Hskdm. rewrite Hpk in Hskdm |- *.
  unfold st_bind, st_lift. cbn in Hskdm |- *. by rewrite Hskdm.
Qed.

Lemma create_distribution_new n ctx (w : W) :
  record_states w n = [] ->
  exists skdm w' s ck kp id, create_sender_key_distribution_message n ctx w = (Ok skdm, w') /\
    KeyPair.matching kp /\ (0 <= id < 2147483648)%Z /\ length ck = 32 /\
    announces skdm (SenderChainKey.mk 0 ck) kp id /\
    SenderKeyDistributionMessage.try_from (SenderKeyDistributionMessage.serialized skdm) = Ok skdm /\
    stored_under w w' n (SenderKeyRecord.mk [s]) /\ sends (SenderChainKey.mk 0 ck) kp id 0 s /\
    SenderKeyState.signing_key_public s = Ok (KeyPair.public_key kp).
Proof.
  intros Hempty. unfold create_sender_key_distribution_message; pair_calls.
  rewrite (st_bind_eq _ _ _ _ _ (load_eq n ctx w)).
  assert (default SenderKeyRecord.new_empty (stored_record w n) = SenderKeyRecord.mk []) as ->.
  { unfold record_states in Hempty. destruct (stored_record w n) as [[l]|]; cbn in *; by subst. }
  rewrite (st_bind_eq _ _ w true w) by done.
  pose proof (rng_gen_u32_range w.2) as Hrange. pose proof (rng_gen_array32_length (rng_gen_u32 w.2).2) as Hlen.
  destruct (rng_gen_u32 w.2) as [r c1] eqn:Hr. cbn [fst snd] in *.
  destruct (rng_gen_array32 c1) as [ck c2] eqn:Hck. cbn [fst snd] in *.
  pose proof (KeyPair.key_pair_generate_matching c2) as Hm.
  destruct (KeyPair.generate c2) as [kp c3] eqn:Hkp. cbn [fst snd] in *.
  set (id := Z.shiftr r 1).
  set (s := new_state id 0 ck (KeyPair.public_key kp) (Some (KeyPair.private_key kp))).
  destruct (new_state_sends id ck kp Hm) as [Hs Hpk]. fold s in Hs, Hpk.
  destruct (store_eq n (SenderKeyRecord.mk [s]) ctx (w.1, c3)) as (w' & Hst & Hu & _).
  rewrite (st_bind_eq _ _ w (SenderKeyRecord.mk [s]) w').
  2: { rewrite (st_bind_eq _ _ w r (w.1, c1)) by (unfold with_rng; by rewrite Hr). cbv zeta.
       rewrite (st_bind_eq _ _ (w.1, c1) ck (w.1, c2)) by (unfold with_rng; cbn [fst snd]; by rewrite Hck).
       rewrite (st_bind_eq _ _ (w.1, c2) kp (w.1, c3)) by (unfold with_rng; cbn [fst snd]; by rewrite Hkp).
       unfold SenderKeyRecord.set_sender_key_state. rewrite add_sender_key_state_eq.
       rewrite (st_bind_eq _ _ (w.1, c3) (SenderKeyRecord.mk [s]) (w.1, c3)) by done.
       by rewrite (st_bind_eq _ _ _ _ _ Hst). }
  rewrite (st_bind_eq _ _ w' 0 w') by done. rewrite (st_bind_eq _ _ w' s w') by done.
  destruct (announce_state s _ kp id 0 Hs Hpk) as (skdm & Hskdm & Han & Hnew).
  rewrite (st_bind_eq _ _ w' (chain_at (SenderChainKey.mk 0 ck) 0) w')
    by (unfold st_lift; by rewrite (sends_chain _ _ _ _ _ Hs)).
  rewrite (sends_chain _ _ _ _ _ Hs) in Hskdm. rewrite Hpk in Hskdm |- *.
  exists skdm, w', s, ck, kp, id. split.
  { unfold st_bind, st_lift. cbn in Hskdm |- *. by rewrite Hskdm. }
  assert (0 <= id < 2147483648)%Z as Hid by (subst id; unfold is_u32, u32_max in *;
    rewrite Z.shiftr_div_pow2 by lia; change (2 ^ 1)%Z with 2%Z;
    pose proof (Z.div_mod r 2); pose proof (Z.mod_pos_bound r 2); lia).
  destruct (SenderKeyDistributionMessage.distribution_new_try_from id 0 ck (KeyPair.public_key kp))
    as (skdm' & Hnew' & Hparse); [unfold is_u32, u32_max; lia|done|done|by apply KeyPair.key_pair_matching_wf|].
  assert (skdm' = skdm) as ->.
  { unfold chain_at in Hnew. cbn [SenderChainKey.iteration_] in Hnew.
    rewrite Z.sub_diag, SenderChainKey.sender_chain_key_advanced_0 in Hnew. cbn in Hnew, Hnew'. congruence. }
  split_and!; try done; apply Hid.
Qed.

(** Announcing a sender key.  Without a record (or with an empty one) the
    call makes a state from the generator (a 31-bit id, iteration 0, a 32-byte
    chain key and a matching signing key pair), stores it alone under the name,
    and announces exactly it; with a record it changes nothing and announces
    where the newest state stands now, so that a new member cannot read what
    was sent before. *)
Lemma create_distribution_correct n ctx (w : W) :
  match stored_record w n with
  | Some (SenderKeyRecord.mk (s :: l)) => forall c0 kp id i,
      sends c0 kp id i s -> SenderKeyState.signing_key_public s = Ok (KeyPair.public_key kp) ->
      exists skdm, create_sender_key_distribution_message n ctx w = (Ok skdm, w) /\
        announces skdm (chain_at c0 i) kp id
  | _ => exists skdm w' s ck kp id,
      create_sender_key_distribution_message n ctx w = (Ok skdm, w') /\
      KeyPair.matching kp /\ (0 <= id < 2147483648)%Z /\ length ck = 32 /\
      announces skdm (SenderChainKey.mk 0 ck) kp id /\
      SenderKeyDistributionMessage.try_from (SenderKeyDistributionMessage.serialized skdm) = Ok skdm /\
      stored_under w w' n (SenderKeyRecord.mk [s]) /\ sends (SenderChainKey.mk 0 ck) kp id 0 s /\
      SenderKeyState.signing_key_public s = Ok (KeyPair.public_key kp)
  end.
Proof.
  destruct (stored_record w n) as [[[|s l]]|] eqn:Hst.
  - apply create_distribution_new. unfold record_states. by rewrite Hst.
  - intros. by eapply create_distribution_existing.
  - apply create_distribution_new. unfold record_states. by rewrite Hst.
Qed.

(** C31: distributing a sender key.  Announcing one without a record (or with an
    empty one) makes a state from the generator (a 31-bit id, iteration 0, a
    32-byte chain key and a matching signing key pair), stores it alone under the
    name, and announces exactly it; with a record whose newest state can send it
    changes nothing and announces where that state stands now, so that a new member cannot read what was
    sent before.  Processing an announcement puts a fresh state in front of the
    sender's record and drops all but the five newest; the record keeps its
    invariant, the new state stands at the message's iteration with no keys
    missing, and no other record is touched.  (So an announcement processed again
    gives back the keys it gave before.) *)
Theorem distribution_correct n received ctx (w : W) :
  (SenderKeyDistributionMessage.iteration received <= u32_max)%Z ->
  Forall state_inv (record_states w n) ->
  match stored_record w n with
  | Some (SenderKeyRecord.mk (s :: l)) => forall c0 kp id i,
      sends c0 kp id i s -> SenderKeyState.signing_key_public s = Ok (KeyPair.public_key kp) ->
      exists skdm, create_sender_key_distribution_message n ctx w = (Ok skdm, w) /\
        announces skdm (chain_at c0 i) kp id
  | _ => exists skdm w' s ck kp id,
      create_sender_key_distribution_message n ctx w = (Ok skdm, w') /\
      KeyPair.matching kp /\ (0 <= id < 2147483648)%Z /\ length ck = 32 /\
      announces skdm (SenderChainKey.mk 0 ck) kp id /\
      SenderKeyDistributionMessage.try_from (SenderKeyDistributionMessage.serialized skdm) = Ok skdm /\
      stored_under w w' n (SenderKeyRecord.mk [s]) /\ sends (SenderChainKey.mk 0 ck) kp id 0 s /\
      SenderKeyState.signing_key_public s = Ok (KeyPair.public_key kp)
  end /\
  exists w' r, process_sender_key_distribution_message n received ctx w = (Ok tt, w') /\
    stored_under w w' n r /\ sender_record_inv r /\
    length (SenderKeyRecord.states r) <= 5 /\
    tail (SenderKeyRecord.states r) = take 4 (record_states w n) /\
    exists s, SenderKeyRecord.states r !! 0 = Some s /\
      state_id s = SenderKeyDistributionMessage.id received /\
      follows (SenderChainKey.mk (SenderKeyDistributionMessage.iteration received)
                 (SenderKeyDistributionMessage.chain_key received)) s
        (Receiver.start (SenderKeyDistributionMessage.iteration received)).
Proof.
  intros Hit Hinv. split; [apply create_distribution_correct|by apply process_distribution_correct].
Qed.

(** ** A conversation in a group *)

(** [receiving w n c0 kp id r]: the newest state under [n] with the id [id] is
    the abstract receiver [r] of the sender with chain [c0] and key pair [kp]. *)
Definition receiving (w : W) (n : SenderKeyName) (c0 : SenderChainKey) (kp : KeyPair) (id : Z)
    (r : Receiver.t) : Prop :=
  exists record i s, stored_record w n = Some record /\
    SenderKeyRecord.sender_key_state_for_keyid record id = Ok i /\
    SenderKeyRecord.states record !! i = Some s /\
    SenderKeyState.signing_key_public s = Ok (KeyPair.public_key kp) /\ follows c0 s r.

Definition plaintext_result (it : Z) (p : bytes) (r : Receiver.t) (a : Receiver.answer)
    : Result bytes :=
  match a with
  | Receiver.Deliver => Ok p
  | Receiver.Seen => Err (DuplicatedMessage (Receiver.next r) it)
  | Receiver.TooFar => Err (InvalidMessage "message from too far into the future")
  end.

(** One message: the receiver in the store answers as the abstract one. *)
Lemma group_decrypt_step n ctx (w : W) c0 kp id r it p b :
  receiving w n c0 kp id r -> group_message c0 kp id it p b -> (it < u32_max)%Z ->
  exists w', group_decrypt b n ctx w
      = (plaintext_result it p r (Receiver.receive it r).1, w') /\
    receiving w' n c0 kp id (Receiver.receive it r).2.
Proof.
  intros (record & i & s & Hst & Hfind & Hs & Hpk & Hf) (m & Hparse & Hid & Hit & Hver & Hdec) Hmax.
  pose proof (group_decrypt_eq b n ctx w) as Heq. rewrite Hst, Hparse in Heq. cbn [obind] in Heq.
  unfold decrypt_with_record in Heq. rewrite Hid, Hfind in Heq. cbn [obind] in Heq.
  rewrite Hs in Heq. cbn [unwrap obind] in Heq. rewrite Hpk in Heq. cbn [obind] in Heq.
  rewrite Hver in Heq. cbn [obind negb] in Heq. rewrite Hit in Heq.
  destruct (get_sender_key_follows c0 s r it Hf Hmax) as (s' & Hk & Hf' & Hsame & Hno).
  rewrite Hk in Heq. destruct (Receiver.receive it r) as [a r'] eqn:Hr. cbn [fst snd] in *.
  assert (a <> Receiver.Deliver -> r' = r) as Hno'.
  { intros Ha. unfold Receiver.receive in Hr. repeat case_match; simplify_eq; done. }
  destruct a; cbn [answer_result obind plaintext_result] in *.
  - rewrite Hdec in Heq. cbn [obind] in Heq. destruct Heq as (w' & Heq & [Hu _] & _).
    exists w'. split; [done|]. eexists _, i, s'. split_and!; [done| | | |done]; cbn [SenderKeyRecord.states].
    + unfold SenderKeyRecord.sender_key_state_for_keyid in *. cbn [SenderKeyRecord.states].
      rewrite (find_keyid_insert _ _ i s s'); [done|done|apply Hsame].
    + by rewrite list_lookup_insert_eq by by eapply lookup_lt_Some.
    + by rewrite (signing_key_public_same s s').
  - exists w. split; [done|]. rewrite Hno' by done. by exists record, i, s.
  - exists w. split; [done|]. rewrite Hno' by done. by exists record, i, s.
Qed.

Lemma group_send_all_ok n ctx ps c0 kp id : forall i (w : W) s l,
  KeyPair.matching kp -> is_u32 id -> (0 <= SenderChainKey.iteration_ c0 <= i)%Z ->
  (i + Z.of_nat (length ps) <= u32_max)%Z ->
  stored_record w n = Some (SenderKeyRecord.mk (s :: l)) -> sends c0 kp id i s ->
  exists bs w', group_send_all n ctx ps w = (Ok bs, w') /\ length bs = length ps /\
    forall j p b, ps !! j = Some p -> bs !! j = Some b ->
      group_message c0 kp id (i + Z.of_nat j) p b.
Proof.
  induction ps as [|p ps IH]; intros i w s l Hm Hid Hi Hmax Hst Hs.
  - exists [], w. split_and!; try done.
  - cbn [length] in Hmax.
    destruct (group_encrypt_sends n p ctx w c0 kp id i s l) as (b & w1 & s1 & Henc & Hmsg & Hs1 & _ & [Hst1 _]);
      [done|done|done|lia|done|done|].
    destruct (IH (i + 1)%Z w1 s1 l) as (bs & w2 & Hall & Hlen & Hmsgs);
      [done|done|lia|lia|done|done|].
    exists (b :: bs), w2. cbn [group_send_all]. rewrite (st_bind_eq _ _ _ _ _ Henc).
    rewrite (st_bind_eq _ _ _ _ _ Hall). split_and!; [done|cbn; by rewrite Hlen|].
    intros [|j] p' b' Hp Hb; simplify_eq/=; [by rewrite Z.add_0_r|].
    replace (i + Z.of_nat (Datatypes.S j))%Z with (i + 1 + Z.of_nat j)%Z by lia. by apply Hmsgs.
Qed.

(** What an answer tells about message [j] of [ps]. *)
Definition answered (ps : list bytes) (j : nat) (res : Result bytes) (a : Receiver.answer) : Prop :=
  match a with
  | Receiver.Deliver => exists p, ps !! j = Some p /\ res = Ok p
  | Receiver.Seen => exists i, res = Err (DuplicatedMessage i (Z.of_nat j))
  | Receiver.TooFar => False
  end.

Lemma group_receive_all_once n ctx c0 kp id ps bs js : forall (w : W) r seen,
  SenderChainKey.iteration_ c0 = 0%Z -> length bs = length ps -> length ps <= MAX_MESSAGE_KEYS ->
  (forall j p b, ps !! j = Some p -> bs !! j = Some b -> group_message c0 kp id (Z.of_nat j) p b) ->
  (forall j, j ∈ js -> j < length ps) ->
  receiving w n c0 kp id r -> Receiver.tracks 0 seen r ->
  Forall3 (answered ps) js (group_receive_all n ctx ((fun j => nth j bs []) <$> js) w).1
    (Receiver.once seen (Z.of_nat <$> js)).
Proof.
  induction js as [|j js IH]; intros w r seen Hc0 Hlen Hps Hmsgs Hjs Hw Htr; [constructor|].
  assert (j < length ps) as Hj by (apply Hjs; constructor).
  destruct (lookup_lt_is_Some_2 ps j Hj) as [p Hp].
  destruct (lookup_lt_is_Some_2 bs j) as [b Hb]; [lia|].
  assert (Z.of_nat j < 0 + Z.of_nat MAX_MESSAGE_KEYS)%Z as Hjm by lia.
  destruct (group_decrypt_step n ctx w c0 kp id r (Z.of_nat j) p b Hw (Hmsgs j p b Hp Hb))
    as (w' & Hdec & Hw'); [unfold MAX_MESSAGE_KEYS, u32_max in *; lia|].
  destruct (Receiver.receive_tracks 0 seen (Z.of_nat j) r Htr) as [Ha Htr']; [lia|].
  cbn [fmap list_fmap group_receive_all Receiver.once].
  rewrite (nth_lookup_Some bs j [] b Hb), Hdec.
  specialize (IH w' _ _ Hc0 Hlen Hps Hmsgs ltac:(intros i Hi; apply Hjs; by constructor) Hw' Htr').
  destruct (group_receive_all n ctx _ w') as [l w'']. constructor; [|done].
  rewrite Ha. case_bool_decide; cbn; [by eexists|by exists p].
Qed.

Lemma process_distribution_receiving n skdm ctx (w : W) c kp id :
  PublicKey.wf (KeyPair.public_key kp) -> announces skdm c kp id ->
  (SenderChainKey.iteration_ c <= u32_max)%Z ->
  exists w', process_sender_key_distribution_message n skdm ctx w = (Ok tt, w') /\
    receiving w' n c kp id (Receiver.start (SenderChainKey.iteration_ c)).
Proof.
  intros Hwf (Hid & Hit & Hck & Hpk) Hmax.
  destruct (process_distribution_ok n skdm ctx w) as (w' & Hp & [Hu _] & _).
  exists w'. split; [done|]. rewrite Hid, Hit, Hck, Hpk in Hu.
  eexists _, 0, _. split; [exact Hu|]. split; [|split; [done|split]].
  - unfold SenderKeyRecord.sender_key_state_for_keyid. rewrite find_keyid_spec.
    cbn [SenderKeyRecord.states take MAX_SENDER_KEY_STATES list_find]. by rewrite decide_True.
  - unfold SenderKeyState.signing_key_public. cbn [SenderKeyState.state new_state
      SenderKeyStateStructure.sender_signing_key SenderSigningKeyStructure.public].
    by rewrite PublicKey.public_key_deserialize_serialize'.
  - destruct c as [i ck]. eapply new_follows; [apply new_state_ok|done].
Qed.

(** A conversation in a group, with whatever the network delivers. *)
Lemma group_conversation n ctx (ws : W) n' ctx' (wr : W) :
  record_states ws n = [] ->
  exists skdm ws1 wr1,
    create_sender_key_distribution_message n ctx ws = (Ok skdm, ws1) /\
    SenderKeyDistributionMessage.try_from (SenderKeyDistributionMessage.serialized skdm) = Ok skdm /\
    process_sender_key_distribution_message n' skdm ctx' wr = (Ok tt, wr1) /\
    forall ps, length ps <= MAX_MESSAGE_KEYS -> exists bs ws2,
      group_send_all n ctx ps ws1 = (Ok bs, ws2) /\ length bs = length ps /\
      forall js, (forall j, j ∈ js -> j < length ps) ->
        Forall3 (answered ps) js
          (group_receive_all n' ctx' ((fun j => nth j bs []) <$> js) wr1).1
          (Receiver.once [] (Z.of_nat <$> js)).
Proof.
  intros Hempty.
  destruct (create_distribution_new n ctx ws Hempty)
    as (skdm & ws1 & s & ck & kp & id & Hcreate & Hm & Hid & _ & Han & Hparse & [Hst _] & Hs & _).
  destruct (process_distribution_receiving n' skdm ctx' wr (SenderChainKey.mk 0 ck) kp id)
    as (wr1 & Hproc & Hrec); [by apply KeyPair.key_pair_matching_wf|done|done|].
  exists skdm, ws1, wr1. split_and!; [done|done|done|]. intros ps Hps.
  destruct (group_send_all_ok n ctx ps (SenderChainKey.mk 0 ck) kp id 0 ws1 s []) as (bs & ws2 & Hsend & Hlen & Hmsgs);
    [done|unfold is_u32, u32_max; lia|done|unfold u32_max, MAX_MESSAGE_KEYS in *; lia|done|done|].
  exists bs, ws2. split_and!; [done|done|]. intros js Hjs.
  apply (group_receive_all_once n' ctx' (SenderChainKey.mk 0 ck) kp id ps bs js wr1 (Receiver.start 0));
    [done|done|done| |done|exact Hrec|apply Receiver.start_tracks].
  intros j p b Hp Hb. exact (Hmsgs j p b Hp Hb).
Qed.

(** C3: a conversation in a group.  A sender without a record announces a
    sender key; the announcement parses from its bytes, and a receiver, whatever
    it had stored, processes it.  Then any at most 2000 plaintexts are encrypted
    without an error, and however the network delivers the messages (in any
    order, each of them never, once or many times), every message decrypts to
    its plaintext the first time it arrives and is refused as a duplicate every
    further time. *)
Theorem group_conversation_delivers n ctx (ws : W) n' ctx' (wr : W) :
  record_states ws n = [] ->
  exists skdm ws1 wr1,
    create_sender_key_distribution_message n ctx ws = (Ok skdm, ws1) /\
    SenderKeyDistributionMessage.try_from (SenderKeyDistributionMessage.serialized skdm) = Ok skdm /\
    process_sender_key_distribution_message n' skdm ctx' wr = (Ok tt, wr1) /\
    forall ps, length ps <= MAX_MESSAGE_KEYS -> exists bs ws2,
      group_send_all n ctx ps ws1 = (Ok bs, ws2) /\ length bs = length ps /\
      forall js, (forall j, j ∈ js -> j < length ps) ->
        Forall3 (answered ps) js
          (group_receive_all n' ctx' ((fun j => nth j bs []) <$> js) wr1).1
          (Receiver.once [] (Z.of_nat <$> js)).
Proof. apply group_conversation. Qed.

(** ** A received state cannot send *)

(** What happens to a member that tries to send on a state it received.  The
    state holds an empty private key, and [signing_key_private] does not read
    that as a missing one: [group_encrypt] ends in the key's length error and
    not in [SenderKeySigningKeyMissing], for every plaintext; nothing changes. *)
Lemma received_state_cannot_send n p ctx (w : W) id it ck pk l :
  stored_record w n = Some (SenderKeyRecord.mk (new_state id it ck pk None :: l)) ->
  group_encrypt n p ctx w = (Err (BadKeyLength KeyType.Djb 0), w).
Proof.
  intros Hst. unfold group_encrypt; pair_calls. rewrite (st_bind_eq _ _ _ _ _ (load_eq n ctx w)), Hst. cbn [ok_or].
  set (s := new_state id it ck pk None).
  rewrite (st_bind_eq _ _ w (SenderKeyRecord.mk (s :: l)) w) by done.
  rewrite (st_bind_eq _ _ w 0 w) by done. rewrite (st_bind_eq _ _ w s w) by done.
  assert (encrypt_with_sender_state p w.2 s = (Err (BadKeyLength KeyType.Djb 0), w.2)) as Henc.
  { unfold encrypt_with_sender_state. set (k := SenderChainKey.mk it ck).
    change (SenderKeyState.sender_chain_key s) with (Ok (E:=SignalProtocolError) k). cbn [obind].
    destruct (SenderChainKey.sender_message_key_ok k) as (-> & [Hiv Hck] & _). cbn [obind].
    unfold SenderMessageKey.cipher_key, SenderMessageKey.iv. cbn [obind].
    destruct (aes_256_cbc_encrypt_ok p (SenderMessageKey.cipher_key_ (SenderChainKey.key k))
      (SenderMessageKey.iv_ (SenderChainKey.key k))) as (ct & ->); [done|done|]. done. }
  rewrite (st_bind_err_eq _ _ w (BadKeyLength KeyType.Djb 0) w); [done|].
  unfold with_rng. rewrite Henc. by destruct w.
Qed.

(** C32: sending to a group, against any store that keeps its laws.  Without a
    record the call fails with its own error and nothing changes; when the newest
    state can send and is before the last message of its chain (number 2^32 - 1), the result is a message of its chain under its key id that
    verifies under the signing key and decrypts under the message key, and what is
    stored is the record with that state moved on by one message, so no key is used
    twice.  When the newest state was received from another member, and holds an
    empty private key, the call ends in the key's length error, and not in
    [SenderKeySigningKeyMissing], for every plaintext, and nothing changes. *)
Theorem group_sending_correct n p ctx (w : W) c0 kp id i :
  KeyPair.matching kp -> is_u32 id -> (0 <= SenderChainKey.iteration_ c0 <= i)%Z -> (i < u32_max)%Z ->
  match stored_record w n with
  | None => group_encrypt n p ctx w = (Err InvalidSenderKeyId, w)
  | Some record =>
      match SenderKeyRecord.states record with
      | [] => group_encrypt n p ctx w = (Err NoSenderKeyState, w)
      | s :: l =>
          (sends c0 kp id i s -> exists b w' s',
             group_encrypt n p ctx w = (Ok b, w') /\ group_message c0 kp id i p b /\
             sends c0 kp id (i + 1) s' /\ same_sender s s' /\
             stored_under w w' n (SenderKeyRecord.mk (s' :: l))) /\
          (forall id' it ck pk, s = new_state id' it ck pk None ->
             group_encrypt n p ctx w = (Err (BadKeyLength KeyType.Djb 0), w))
      end
  end.
Proof.
  intros Hm Hu Hi Hmax. pose proof (group_encrypt_correct n p ctx w c0 kp id i Hm Hu Hi Hmax) as Hsend.
  destruct (stored_record w n) as [[[|s l]]|] eqn:Hst; cbn [SenderKeyRecord.states] in *; [done| |done].
  split; [done|]. intros id' it ck pk ->. by eapply received_state_cannot_send.
Qed.
End Stores.
