(* ===== verification/FirstContact.v ===== *)
(** First contact: building a session from a bundle ([process_prekey_bundle] of
    [session.rs]) and the first message through the stores of both sides. *)

From S2P Require Import Prelude Error Crates Crypto Curve IdentityKey Proto Protocol RatchetKeys SessionState.
From S2P Require Import SessionInvariant Ratchet PreKeys SenderKeys Storage StoreAccess Session SessionCipher ReceiveChain Conversation EndToEnd.
From S2P Require Import SessionRecordFacts Replay StoreProofs.

(** * Annotations

    Registration ids, the base key and the pending pre-key message are written
    into a session without touching its ratchet. *)

Record annotated (s s' : SessionState) : Prop := {
  annotated_chains : chains s' = chains s;
  annotated_sender : SessionStructure.sender_chain (SessionState.session s')
    = SessionStructure.sender_chain (SessionState.session s);
  annotated_root : SessionStructure.root_key (SessionState.session s')
    = SessionStructure.root_key (SessionState.session s);
  annotated_version : SessionStructure.session_version (SessionState.session s')
    = SessionStructure.session_version (SessionState.session s);
  annotated_local : SessionStructure.local_identity_public (SessionState.session s')
    = SessionStructure.local_identity_public (SessionState.session s);
  annotated_remote : SessionStructure.remote_identity_public (SessionState.session s')
    = SessionStructure.remote_identity_public (SessionState.session s);
}.

Section Annotations.
Context `{BuildConfig, Crates, ProtoCodecs}.

Lemma annotated_receiving s s' : annotated s s' -> same_receiving s s'.
Proof. intros [Hc _ _ Hv _ _]. split; [done|]. unfold effective_version. by rewrite Hv. Qed.

Lemma annotated_inv s s' : annotated s s' -> session_inv s -> session_inv s'.
Proof.
  intros Ha Hs. pose proof (annotated_receiving s s' Ha) as Hr. destruct Ha as [_ Hsend Hroot _ _ _].
  eapply session_inv_same; [done| |done]. pose proof (inv_wf s Hs) as Hw.
  eapply same_receiving_wf; [done|done|rewrite Hroot; apply Hw|rewrite Hsend; apply Hw].
Qed.

Lemma annotated_view s s' :
  annotated s s' ->
  sender_chain_key s' = sender_chain_key s /\ root_of s' = root_of s /\
  identities s' = identities s /\ effective_version s' = effective_version s /\
  (forall kp, ratchet_pair s kp -> ratchet_pair s' kp) /\
  (forall pk, receiver_chain_key s' pk = receiver_chain_key s pk).
Proof.
  intros Ha. destruct (same_receiving_view _ _ (annotated_receiving s s' Ha)) as (_ & Hrk & _ & Hkdf).
  destruct Ha as [_ Hsend Hroot Hv Hl Hr]. split_and!; try done.
  - unfold sender_chain_key, to_chain_key. by rewrite Hsend, Hkdf.
  - unfold root_of. by rewrite Hroot, Hkdf.
  - unfold identities, effective_version. by rewrite Hl, Hr, Hv.
  - unfold effective_version. by rewrite Hv.
  - unfold ratchet_pair, SessionState.sender_ratchet_key, SessionState.sender_ratchet_private_key.
    by rewrite Hsend.
Qed.

Lemma ahead_annotated s r s' r' n m :
  annotated s s' -> annotated r r' -> pending_ok s' -> pending_ok r' -> ahead s r n m ->
  ahead s' r' n m.
Proof.
  intros Hs Hr Hps Hpr [His Hir Hpeers _ _ (kp & kpr & k & kr & Hkeys)].
  destruct (annotated_view s s' Hs) as (Hss & Hsr & Hsi & _ & Hsp & Hsk).
  destruct (annotated_view r r' Hr) as (Hrs & Hrr & Hri & _ & Hrp & Hrk).
  split; [by eapply annotated_inv|by eapply annotated_inv| |done|done|].
  - eapply peers_identities; [exact Hsi|]. apply peers_sym. eapply peers_identities; [exact Hri|].
    by apply peers_sym.
  - exists kp, kpr, k, kr. rewrite Hss, Hrs, Hsr, Hrr, Hsk, Hrk.
    destruct Hkeys as (? & ? & ? & ? & ?). split_and!; try tauto; [by apply Hsp|apply Hrp; tauto].
Qed.
End Annotations.

(** * Processing a bundle *)

Section Bundle.
Context {SS IS PS SPS : Type} `{BuildConfig, Crates, ProtoCodecs}
  `{!SessionStore SS, !IdentityKeyStore IS, !PreKeyStore PS, !SignedPreKeyStore SPS}
  `{!SessionStoreLaws SS, !IdentityKeyStoreLaws IS, !PreKeyStoreLaws PS,
    !SignedPreKeyStoreLaws SPS} `{!HashLaws, !X25519Laws}.

Abbreviation W := (World SS IS PS SPS).

(** The annotations Alice writes into the session she starts. *)
Definition bundle_session (bundle : PreKeyBundle) (base : KeyPair) (local_registration_id : Z)
    (s : SessionState) : SessionState :=
  SessionState.update (SessionState.update (SessionState.update (SessionState.update s
    (SessionStructure.with_pending_pre_key (Some (PendingPreKey.mk
      (default 0%Z (PreKeyBundle.pre_key_id_ bundle))
      (i32_of_u32 (PreKeyBundle.signed_pre_key_id_ bundle))
      (PublicKey.serialize (KeyPair.public_key base))))))
    (SessionStructure.with_local_registration_id local_registration_id))
    (SessionStructure.with_remote_registration_id (PreKeyBundle.registration_id_ bundle)))
    (SessionStructure.with_alice_base_key (PublicKey.serialize (KeyPair.public_key base))).

Lemma bundle_session_annotated bundle base reg s : annotated s (bundle_session bundle base reg s).
Proof. by split. Qed.

(** An id of 0 is read back as no id. *)
Lemma bundle_session_pending bundle base reg s :
  PublicKey.wf (KeyPair.public_key base) -> is_u32 (PreKeyBundle.signed_pre_key_id_ bundle) ->
  SessionState.unacknowledged_pre_key_message_items (bundle_session bundle base reg s)
    = Ok (Some (UnacknowledgedPreKeyMessageItems.new
        (if decide (PreKeyBundle.pre_key_id_ bundle = Some 0%Z) then None
         else PreKeyBundle.pre_key_id_ bundle)
        (PreKeyBundle.signed_pre_key_id_ bundle) (KeyPair.public_key base))).
Proof.
  intros Hb Hid. unfold SessionState.unacknowledged_pre_key_message_items.
  cbn [bundle_session SessionState.update SessionState.session SessionStructure.pending_pre_key
    SessionStructure.with_pending_pre_key SessionStructure.with_local_registration_id
    SessionStructure.with_remote_registration_id SessionStructure.with_alice_base_key
    PendingPreKey.base_key PendingPreKey.pre_key_id PendingPreKey.signed_pre_key_id].
  unfold decode_point. rewrite PublicKey.public_key_deserialize_serialize' by done. cbn [obind].
  rewrite u32_of_i32_of_u32 by done. do 3 f_equal.
  destruct (PreKeyBundle.pre_key_id_ bundle) as [id|]; [|done].
  change (default 0%Z (Some id)) with id.
  destruct (Z.eqb_spec id 0) as [->|Hne]; [done|]. by rewrite decide_False by congruence.
Qed.

Definition bundle_parameters (w : W) (bundle : PreKeyBundle) (base : KeyPair)
    : AliceSignalProtocolParameters :=
  AliceSignalProtocolParameters.new (own_identity (World.identity_store w)) base
    (PreKeyBundle.identity_key_ bundle) (PreKeyBundle.signed_pre_key_public_ bundle)
    (PreKeyBundle.pre_key_public_ bundle) (PreKeyBundle.signed_pre_key_public_ bundle).

(** The signature of the signed pre-key is the identity's. *)
Definition bundle_signature (bundle : PreKeyBundle) : Result bool :=
  verify_signature (IdentityKey.public_key (PreKeyBundle.identity_key_ bundle))
    (PublicKey.serialize (PreKeyBundle.signed_pre_key_public_ bundle))
    (PreKeyBundle.signed_pre_key_signature_ bundle).

Definition loaded_record (w : W) (a : ProtocolAddress) : SessionRecord :=
  default SessionRecord.new_fresh (stored_session w a).

Lemma process_prekey_bundle_ok a bundle ctx (w : W) base c1 sa c2 :
  trusted w a (PreKeyBundle.identity_key_ bundle) -> bundle_signature bundle = Ok true ->
  record_bounded (loaded_record w a) -> KeyPair.generate (World.csprng w) = (base, c1) ->
  initialize_alice_session (bundle_parameters w bundle base) c1 = (Ok sa, c2) ->
  exists w', process_prekey_bundle a bundle ctx w = (Ok tt, w') /\ World.csprng w' = c2 /\
    updated w w' a (SessionRecord.mk
      (Some (bundle_session bundle base (own_registration_id (World.identity_store w)) sa))
      (take ARCHIVED_STATES_MAX_LENGTH (all_sessions (loaded_record w a))))
      (PreKeyBundle.identity_key_ bundle).
Proof.
  intros Htr Hsig Hb Hgen Hinit. unfold process_prekey_bundle; world_calls.
  unfold bundle_signature in Hsig. set (i := PreKeyBundle.identity_key_ bundle) in *.
  rewrite (st_bind_eq _ _ w i w) by done.
  destruct (identities_trusted a i Sending ctx w) as (b & Htrusted & Hiff).
  rewrite (st_bind_eq _ _ _ _ _ Htrusted), (proj2 Hiff Htr). cbn [negb].
  rewrite (st_bind_eq _ _ w (PreKeyBundle.signed_pre_key_public_ bundle) w) by done.
  rewrite (st_bind_eq _ _ w (PreKeyBundle.signed_pre_key_signature_ bundle) w) by done.
  rewrite (st_bind_eq _ _ w true w) by (unfold st_lift; by rewrite Hsig). cbn [negb].
  rewrite (st_bind_eq _ _ _ _ _ (sessions_load a ctx w)).
  fold (loaded_record w a). set (w1 := World.with_csprng c1 w).
  rewrite (st_bind_eq _ _ w base w1) by (unfold World.with_rng; by rewrite Hgen).
  rewrite (st_bind_eq _ _ w1 (PreKeyBundle.signed_pre_key_public_ bundle) w1) by done.
  rewrite (st_bind_eq _ _ w1 (PreKeyBundle.pre_key_public_ bundle) w1) by done.
  rewrite (st_bind_eq _ _ w1 (PreKeyBundle.pre_key_id_ bundle) w1) by done.
  rewrite (st_bind_eq _ _ w1 (own_identity (World.identity_store w)) w1)
    by (unfold World.identities, st_gets; by rewrite get_identity_key_pair_own).
  unfold bundle_parameters in Hinit. fold i in Hinit. set (w2 := World.with_csprng c2 w).
  rewrite (st_bind_eq _ _ w1 sa w2) by (unfold World.with_rng; change (World.csprng w1) with c1; by rewrite Hinit).
  rewrite (st_bind_eq _ _ w2 (PreKeyBundle.signed_pre_key_id_ bundle) w2) by done.
  rewrite (st_bind_eq _ _ w2 _ w2) by done.
  rewrite (st_bind_eq _ _ w2 (own_registration_id (World.identity_store w)) w2)
    by (unfold World.identities, st_gets; by rewrite get_local_registration_id_own).
  rewrite (st_bind_eq _ _ w2 _ w2) by done.
  rewrite (st_bind_eq _ _ w2 (PreKeyBundle.registration_id_ bundle) w2) by done.
  rewrite (st_bind_eq _ _ w2 _ w2) by done. rewrite (st_bind_eq _ _ w2 _ w2) by done.
  fold (bundle_session bundle base (own_registration_id (World.identity_store w)) sa).
  destruct (save_identity_known a i ctx (World.identity_store w))
    as (ch & is' & Hsave & _ & Hk & Hother & Hown & _).
  set (w3 := World.with_identity_store is' w2).
  rewrite (st_bind_eq _ _ w2 ch w3) 
    by (unfold World.on_identities, st_focus; change (World.identity_store w2) with (World.identity_store w);
        by rewrite Hsave).
  rewrite promote_state_spec by done.
  set (r := SessionRecord.mk _ _). rewrite (st_bind_eq _ _ w3 r w3) by done.
  destruct (store_session_map a r ctx (World.session_store w)) as (ss' & Hstore & Hs & Hso).
  exists (World.with_session_store ss' w3). split_and!.
  - unfold World.on_sessions, st_focus. change (World.session_store w3) with (World.session_store w).
    by rewrite Hstore.
  - done.
  - unfold updated, stored_session, known. cbn. split_and!; try done.
    intros b' Hb'. by rewrite Hso, Hother.
Qed.

(** Alice's side of X3DH, whatever the bundle says. *)
Lemma initialize_alice_total p (c : Csprng) :
  PublicKey.wf (AliceSignalProtocolParameters.their_ratchet_key p) ->
  exists s, initialize_alice_session p c = (Ok s, (KeyPair.generate c).2) /\ session_inv s /\
    SessionStructure.remote_identity_public (SessionState.session s)
      = IdentityKey.serialize (AliceSignalProtocolParameters.their_identity_key p).
Proof.
  intros Hpk. unfold initialize_alice_session. pose proof (KeyPair.key_pair_generate_matching c) as Hm.
  destruct (KeyPair.generate c) as [ratchet c'] eqn:Hgen. cbn [fst snd] in *.
  unfold alice_secrets.
  repeat match goal with |- context [calculate_agreement ?pk ?sk] =>
    destruct (KeyPair.calculate_agreement_ok pk sk) as (? & -> & _); cbn [obind] end.
  set (base := KeyPair.private_key (AliceSignalProtocolParameters.our_base_key_pair p)).
  assert (Ha4 : exists a4 : bytes, match AliceSignalProtocolParameters.their_one_time_pre_key p with
    | Some pk => calculate_agreement pk base
    | None => Ok []
    end = Ok a4).
  { case_match; [|by eexists].
    match goal with |- context [calculate_agreement ?pk base] =>
      destruct (KeyPair.calculate_agreement_ok pk base) as (a4 & -> & _) end. by eexists. }
  destruct Ha4 as [a4 ->]. cbn [obind].
  match goal with |- context [derive_keys ?sec] =>
    destruct (derive_keys_ok sec) as (r & c0 & -> & Hr & Hc & Hkdf & Hk3 & _) end.
  cbn [obind].
  destruct (RootKey.create_chain_ok r (AliceSignalProtocolParameters.their_ratchet_key p)
    (KeyPair.private_key ratchet)) as (r' & c1 & -> & Hr' & Hkr' & Hc' & Hi' & Hkc'); [by apply Hr|].
  cbn [obind]. set (s0 := SessionState.new _).
  assert (Hk0 : kdf_of s0 = RootKey.kdf r) by (unfold s0; by apply initial_kdf).
  destruct (add_receiver_chain_spec s0 (AliceSignalProtocolParameters.their_ratchet_key p) c0)
    as (s1 & -> & Hs1 & Hrk & Hsk & Honly & _ & Hold);
    [by apply initial_wf, Hr'|done|done|congruence|done|].
  cbn [obind].
  destruct (set_sender_chain_spec s1 ratchet c1)
    as (sa & -> & Hwf & Hsend & Hrecv & Hpub & Hpriv & c'' & Hs);
    [done|by eauto with crates|by eauto with crates|done| |].
  { rewrite (only_chains_kdf _ _ Honly). congruence. }
  destruct (same_receiving_view _ _ Hrecv) as (_ & _ & Hskv & _).
  exists sa. split; [done|]. split; [|by rewrite Hs, Honly].
  apply fresh_session_inv; [done|]. intros pk. rewrite Hskv.
  destruct (decide (pk = AliceSignalProtocolParameters.their_ratchet_key p)) as [->|Hne]; [done|].
  unfold skipped. destruct (chain_of s1 pk) as [ch|] eqn:Hch; [|done]. by apply Hold in Hch.
Qed.

(** The checks that come before anything is changed. *)
Lemma process_prekey_bundle_untrusted a bundle ctx (w : W) :
  World.identities (is_trusted_identity a (PreKeyBundle.identity_key_ bundle) Sending ctx) w = (Ok false, w) ->
  process_prekey_bundle a bundle ctx w = (Err (UntrustedIdentity a), w).
Proof.
  intros Ht. unfold process_prekey_bundle; world_calls. rewrite (st_bind_eq _ _ w (PreKeyBundle.identity_key_ bundle) w) by done.
  by rewrite (st_bind_eq _ _ _ _ _ Ht).
Qed.

Lemma process_prekey_bundle_bad_signature a bundle ctx (w : W) :
  World.identities (is_trusted_identity a (PreKeyBundle.identity_key_ bundle) Sending ctx) w = (Ok true, w) ->
  bundle_signature bundle <> Ok true -> bundle_signature bundle <> Panic ->
  process_prekey_bundle a bundle ctx w
  = (match bundle_signature bundle with Err e => Err e | _ => Err SignatureValidationFailed end, w).
Proof.
  intros Ht Hok Hnp. unfold process_prekey_bundle; world_calls.
  rewrite (st_bind_eq _ _ w (PreKeyBundle.identity_key_ bundle) w) by done.
  rewrite (st_bind_eq _ _ _ _ _ Ht). cbn [negb].
  rewrite (st_bind_eq _ _ w (PreKeyBundle.signed_pre_key_public_ bundle) w) by done.
  rewrite (st_bind_eq _ _ w (PreKeyBundle.signed_pre_key_signature_ bundle) w) by done.
  destruct (bundle_signature bundle) as [[]|e|] eqn:Hsig; [done| | |done].
  - by rewrite (st_bind_eq _ _ w false w) by exact (f_equal (fun x => (x, w)) Hsig).
  - by rewrite (st_bind_err_eq _ _ w e w) by exact (f_equal (fun x => (x, w)) Hsig).
Qed.

Lemma loaded_record_inv a (w : W) :
  (forall record, stored_session w a = Some record -> record_inv record) -> record_inv (loaded_record w a).
Proof.
  intros Hinv. unfold loaded_record. destruct (stored_session w a) as [r|]; [by apply Hinv|].
  apply record_inv_fresh.
Qed.

(** The session a bundle starts: the record with it, and whom it talks to. *)
Lemma bundle_record_inv bundle base reg sa record :
  session_inv sa -> record_inv record ->
  record_inv (SessionRecord.mk (Some (bundle_session bundle base reg sa)) (take 40 (all_sessions record))).
Proof.
  intros Hsa [Hall _]. split.
  - unfold all_sessions at 1. cbn [SessionRecord.current_session SessionRecord.previous_sessions
      option_list app]. constructor; [|by apply Forall_take].
    eapply annotated_inv; [apply bundle_session_annotated|done].
  - unfold record_bounded, ARCHIVED_STATES_MAX_LENGTH. cbn [SessionRecord.previous_sessions].
    rewrite length_take. lia.
Qed.

Lemma bundle_session_remote bundle base reg sa i :
  IdentityKey.wf i ->
  SessionStructure.remote_identity_public (SessionState.session sa) = IdentityKey.serialize i ->
  SessionState.remote_identity_key (bundle_session bundle base reg sa) = Ok (Some i).
Proof.
  intros Hi Hrem. unfold SessionState.remote_identity_key.
  rewrite (annotated_remote _ _ (bundle_session_annotated _ _ _ sa)), Hrem.
  pose proof (IdentityKey.decode_serialize i Hi) as Hdec.
  destruct (IdentityKey.serialize i); [done|]. by rewrite Hdec.
Qed.

(** C11: starting a session from a bundle, against any stores that keep their
    laws.  The call never panics and succeeds exactly when the identity is
    trusted for the address and its signature on the signed pre-key verifies;
    otherwise it ends in the matching error and nothing changes, so a forged
    bundle replaces no session.  On success a new session is current, the old
    ones are archived, the identity is saved and nothing else is touched; the
    session satisfies the session invariant, talks to that identity, and is
    pending: its first messages will carry the signed pre-key id, the base key
    and the one-time pre-key id of the bundle, unless that id is 0. *)
Theorem process_prekey_bundle_correct a bundle ctx (w : W) :
  PublicKey.wf (PreKeyBundle.signed_pre_key_public_ bundle) ->
  IdentityKey.wf (PreKeyBundle.identity_key_ bundle) ->
  is_u32 (PreKeyBundle.signed_pre_key_id_ bundle) ->
  (forall record, stored_session w a = Some record -> record_inv record) ->
  let i := PreKeyBundle.identity_key_ bundle in
  exists res w', process_prekey_bundle a bundle ctx w = (res, w') /\ res <> Panic /\
    (~ trusted w a i -> res = Err (UntrustedIdentity a)) /\
    (trusted w a i -> bundle_signature bundle = Ok false -> res = Err SignatureValidationFailed) /\
    (trusted w a i -> forall e, bundle_signature bundle = Err e -> res = Err e) /\
    (res = Ok tt <-> trusted w a i /\ bundle_signature bundle = Ok true) /\
    (is_ok res = false -> w' = w) /\
    (is_ok res = true -> exists s old, record_inv (SessionRecord.mk (Some s) old) /\
       updated w w' a (SessionRecord.mk (Some s) old) i /\
       old = take 40 (all_sessions (loaded_record w a)) /\
       SessionState.remote_identity_key s = Ok (Some i) /\
       SessionState.unacknowledged_pre_key_message_items s
         = Ok (Some (UnacknowledgedPreKeyMessageItems.new
             (if decide (PreKeyBundle.pre_key_id_ bundle = Some 0%Z) then None
              else PreKeyBundle.pre_key_id_ bundle)
             (PreKeyBundle.signed_pre_key_id_ bundle)
             (KeyPair.public_key (KeyPair.generate (World.csprng w)).1)))).
Proof.
  intros Hspk Hi Hid Hinv i.
  destruct (identities_trusted a i Sending ctx w) as (b & Htrusted & Hiff).
  destruct b.
  2: { rewrite (process_prekey_bundle_untrusted a bundle ctx w) by done.
       assert (~ trusted w a i) by (intros Ht; by apply Hiff in Ht).
       do 2 eexists. split; [done|]. split_and!; naive_solver. }
  pose proof (proj1 Hiff eq_refl) as Htr. pose proof (PublicKey.public_key_verify_signature_no_panic
    (IdentityKey.public_key i) (PublicKey.serialize (PreKeyBundle.signed_pre_key_public_ bundle))
    (PreKeyBundle.signed_pre_key_signature_ bundle)) as Hnp.
  pose proof (process_prekey_bundle_bad_signature a bundle ctx w Htrusted) as Hbad.
  destruct (bundle_signature bundle) as [[]|e|] eqn:Hsig; [| | |done].
  - pose proof (loaded_record_inv a w Hinv) as Hrec.
    destruct (KeyPair.generate (World.csprng w)) as [base c1] eqn:Hgen.
    destruct (initialize_alice_total (bundle_parameters w bundle base) c1 Hspk) as (sa & Hinit & Hsa & Hrem).
    destruct (process_prekey_bundle_ok a bundle ctx w base c1 sa _ Htr Hsig (proj2 Hrec) Hgen Hinit)
      as (w' & Hp & _ & Hu).
    exists (Ok tt), w'. split_and!; try done. intros _.
    eexists _, _. split; [by apply bundle_record_inv|]. split; [exact Hu|]. split_and!; [done| |].
    + by apply bundle_session_remote.
    + apply bundle_session_pending; [|done]. apply KeyPair.matching_public_wf.
      pose proof (KeyPair.key_pair_generate_matching (World.csprng w)) as Hm. by rewrite Hgen in Hm.
  - rewrite Hbad by done. do 2 eexists. split; [done|]. split_and!; naive_solver.
  - rewrite Hbad by done. do 2 eexists. split; [done|]. split_and!; naive_solver.
Qed.
End Bundle.

(** * The first message *)

Section FirstMessage.
Context {SS IS PS SPS : Type} `{BuildConfig, Crates, ProtoCodecs}
  `{!SessionStore SS, !IdentityKeyStore IS, !PreKeyStore PS, !SignedPreKeyStore SPS}
  `{!SessionStoreLaws SS, !IdentityKeyStoreLaws IS, !PreKeyStoreLaws PS,
    !SignedPreKeyStoreLaws SPS} `{!HashLaws, !X25519Laws, !CbcLaws, !SubtleLaws}.

Abbreviation W := (World SS IS PS SPS).
Abbreviation own w := (own_identity (World.identity_store w)).

(** A message of a session that is pending carries the pending items. *)
Lemma encrypt_pending ptext s c j s' items i :
  encrypt_with_state ptext s = Ok (c, j, s') ->
  SessionState.unacknowledged_pre_key_message_items s = Ok (Some items) ->
  SessionState.local_identity_key s = Ok i ->
  SessionState.remote_identity_key s = Ok (Some j) /\
  exists m, c = CiphertextMessage.PreKeySignalMessage m /\
    PreKeySignalMessage.pre_key_id m = UnacknowledgedPreKeyMessageItems.pre_key_id items /\
    PreKeySignalMessage.signed_pre_key_id m
      = UnacknowledgedPreKeyMessageItems.signed_pre_key_id items /\
    PreKeySignalMessage.base_key m = UnacknowledgedPreKeyMessageItems.base_key items /\
    PreKeySignalMessage.identity_key m = i.
Proof.
  intros Henc Hitems Hi. unfold encrypt_with_state in Henc. rewrite Hitems, Hi in Henc.
  inv_ok. inv_ok. split; [done|by eexists].
Qed.

(** Sending when there is a session that can. *)
Lemma message_encrypt_ok ptext a ctx (w : W) s old c i s' :
  stored_session w a = Some (SessionRecord.mk (Some s) old) ->
  encrypt_with_state ptext s = Ok (c, i, s') -> trusted w a i ->
  exists w', message_encrypt ptext a ctx w = (Ok c, w') /\
    updated w w' a (SessionRecord.mk (Some s') old) i.
Proof.
  intros Hst Henc Htr. unfold message_encrypt; world_calls.
  rewrite (st_bind_eq _ _ _ _ _ (sessions_load a ctx w)), Hst. cbn [ok_or].
  rewrite (st_bind_eq _ _ w (SessionRecord.mk (Some s) old) w) by done.
  rewrite (st_bind_eq _ _ w (c, i, SessionRecord.mk (Some s') old) w).
  2: { unfold st_lift, SessionRecord.session_state_mut. cbn [SessionRecord.current_session ok_or obind].
       by rewrite Henc. }
  destruct (identities_trusted a i Sending ctx w) as (b & Hb & Hiff).
  rewrite (st_bind_eq _ _ _ _ _ Hb), (proj2 Hiff Htr). cbn [UntrustedIdentityUnless negb].
  rewrite (st_bind_eq _ _ _ tt w) by done.
  destruct (save_both a i (SessionRecord.mk (Some s') old) ctx w (st_ret (E:=SignalProtocolError) c))
    as (w' & Hu & Heq). rewrite Heq. by exists w'.
Qed.

(** The annotations Bob writes into the session he starts. *)
Definition reply_session (m : PreKeySignalMessage) (local_registration_id : Z) (s : SessionState)
    : SessionState :=
  SessionState.update (SessionState.update (SessionState.update s
    (SessionStructure.with_local_registration_id local_registration_id))
    (SessionStructure.with_remote_registration_id (PreKeySignalMessage.registration_id m)))
    (SessionStructure.with_alice_base_key (PublicKey.serialize (PreKeySignalMessage.base_key m))).

Lemma reply_session_annotated m reg s : annotated s (reply_session m reg s).
Proof. by split. Qed.

(** The keys a message asks for are in the stores. *)
Record answers (w : W) (m : PreKeySignalMessage) (signed : KeyPair) (one_time : option KeyPair)
    : Prop := {
  answers_signed : exists r,
    signed_pre_key_store_map (World.signed_pre_key_store w) (PreKeySignalMessage.signed_pre_key_id m)
      = Some r /\ SignedPreKeyRecord.key_pair r = Ok signed;
  answers_one_time :
    match PreKeySignalMessage.pre_key_id m, one_time with
    | Some id, Some kp => exists r,
        pre_key_store_map (World.pre_key_store w) id = Some r /\ PreKeyRecord.key_pair r = Ok kp
    | None, None => True
    | _, _ => False
    end;
}.

Definition reply_parameters (w : W) (m : PreKeySignalMessage) (signed : KeyPair)
    (one_time : option KeyPair) : BobSignalProtocolParameters :=
  BobSignalProtocolParameters.new (own w) signed one_time signed
    (PreKeySignalMessage.identity_key m) (PreKeySignalMessage.base_key m).

(** No session of the record was begun with the base key. *)
Definition open_to (r : SessionRecord) (base_key : PublicKey) : Prop :=
  record_bounded r /\
  Forall (fun s => SessionStructure.alice_base_key (SessionState.session s)
            <> PublicKey.serialize base_key) (all_sessions r).

Lemma open_to_has r k v :
  open_to r k -> SessionRecord.has_session_state r v (PublicKey.serialize k) = Ok false.
Proof.
  intros [_ Hr]. destruct (has_session_state_correct r v (PublicKey.serialize k)) as (b & Hb & Hiff).
  rewrite Hb. f_equal. destruct b; [|done]. destruct (proj1 Hiff eq_refl) as (s & Hs & _ & Hk).
  rewrite list.Forall_forall in Hr. by destruct (Hr s Hs).
Qed.

Lemma archive_promote r s :
  record_bounded r ->
  (let? r := SessionRecord.archive_current_state r in SessionRecord.promote_state r s)
    = Ok (SessionRecord.mk (Some s) (take ARCHIVED_STATES_MAX_LENGTH (all_sessions r))).
Proof.
  intros Hr. rewrite archive_current_state_spec by done. cbn [obind].
  rewrite promote_state_spec; [|unfold record_bounded; cbn [SessionRecord.previous_sessions]; rewrite length_take; lia].
  do 2 f_equal. exact (take_idemp (all_sessions r) ARCHIVED_STATES_MAX_LENGTH).
Qed.

(** What becomes of a record when a session is begun. *)
Definition renewed (r : SessionRecord) (s : SessionState) : SessionRecord :=
  SessionRecord.mk (Some s) (take ARCHIVED_STATES_MAX_LENGTH (all_sessions r)).

Lemma process_prekey_v3_new m record ctx (w : W) signed one_time sb :
  open_to record (PreKeySignalMessage.base_key m) ->
  answers w m signed one_time ->
  initialize_bob_session (reply_parameters w m signed one_time) = Ok sb ->
  process_prekey_v3 m record ctx w
    = (Ok (PreKeySignalMessage.pre_key_id m,
        renewed record (reply_session m (own_registration_id (World.identity_store w)) sb)), w).
Proof.
  intros Hopen [(spk & Hspk & Hkp) Hot] Hinit. unfold process_prekey_v3; world_calls.
  rewrite (st_bind_eq _ _ w false w) by (unfold st_lift; by rewrite open_to_has).
  rewrite (st_bind_eq _ _ w spk w)
    by (unfold World.signed_pre_keys, st_gets; by rewrite get_signed_pre_key_map, Hspk).
  rewrite (st_bind_eq _ _ w signed w) by (unfold st_lift; by rewrite Hkp).
  rewrite (st_bind_eq _ _ w one_time w).
  2: { destruct (PreKeySignalMessage.pre_key_id m) as [id|], one_time as [kp|]; try done.
       destruct Hot as (r & Hr & Hkr).
       rewrite (st_bind_eq _ _ w r w) by (unfold World.pre_keys, st_gets; by rewrite get_pre_key_map, Hr).
       by rewrite (st_bind_eq _ _ w kp w) by (unfold st_lift; by rewrite Hkr). }
  rewrite (st_bind_eq _ _ w (own w) w)
    by (unfold World.identities, st_gets; by rewrite get_identity_key_pair_own).
  pose proof (archive_promote record
    (reply_session m (own_registration_id (World.identity_store w)) sb) (proj1 Hopen)) as Hpromote.
  apply obind_ok in Hpromote as (archived & Harchive & Hpromote).
  rewrite (st_bind_eq _ _ w archived w) by (unfold st_lift; by rewrite Harchive).
  rewrite (st_bind_eq _ _ w sb w) by exact (f_equal (fun x => (x, w)) Hinit).
  rewrite (st_bind_eq _ _ w (own_registration_id (World.identity_store w)) w)
    by (unfold World.identities, st_gets; by rewrite get_local_registration_id_own).
  set (s := reply_session m (own_registration_id (World.identity_store w)) sb) in *.
  assert (Hlast : st_bind (st_lift (SessionRecord.promote_state archived s))
      (fun r => st_ret (PreKeySignalMessage.pre_key_id m, r)) w
    = (Ok (PreKeySignalMessage.pre_key_id m, renewed record s), w))
    by (unfold st_bind, st_lift; by rewrite Hpromote).
  exact Hlast.
Qed.

(** Bob's end, from the pre-key message to the plaintext. *)
Lemma message_decrypt_prekey_new m a ctx (w : W) signed one_time sb p r c :
  open_to (loaded_record w a) (PreKeySignalMessage.base_key m) ->
  trusted w a (PreKeySignalMessage.identity_key m) -> answers w m signed one_time ->
  initialize_bob_session (reply_parameters w m signed one_time) = Ok sb ->
  decrypt_message_with_state (PreKeySignalMessage.message m)
    (reply_session m (own_registration_id (World.identity_store w)) sb, World.csprng w)
    = (Ok p, (r, c)) ->
  exists w', message_decrypt_prekey m a ctx w = (Ok p, w') /\
    stored_session w' a = Some (renewed (loaded_record w a) r) /\
    known w' a = Some (PreKeySignalMessage.identity_key m) /\
    forall id, PreKeySignalMessage.pre_key_id m = Some id ->
      pre_key_store_map (World.pre_key_store w') id = None.
Proof.
  intros Hopen Htr Hans Hinit Hdec. unfold message_decrypt_prekey; world_calls.
  rewrite (st_bind_eq _ _ _ _ _ (sessions_load a ctx w)). fold (loaded_record w a).
  set (i := PreKeySignalMessage.identity_key m) in *.
  destruct (identities_trusted a i Receiving ctx w) as (b & Hb & Hiff).
  destruct (save_identity_known a i ctx (World.identity_store w))
    as (ch & is' & Hsave & _ & Hk & _ & _ & _).
  set (w1 := World.with_identity_store is' w).
  set (rec := renewed (loaded_record w a)
    (reply_session m (own_registration_id (World.identity_store w)) sb)).
  rewrite (st_bind_eq _ _ w (PreKeySignalMessage.pre_key_id m, rec) w1).
  2: { unfold process_prekey; world_calls. fold i. rewrite (st_bind_eq _ _ _ _ _ Hb), (proj2 Hiff Htr). cbn [negb].
       rewrite (st_bind_eq _ _ _ _ _ (process_prekey_v3_new m _ ctx w signed one_time sb Hopen Hans Hinit)).
       by rewrite (st_bind_eq _ _ w ch w1) by (unfold World.on_identities, st_focus; by rewrite Hsave). }
  set (rec' := renewed (loaded_record w a) r). set (w2 := World.with_csprng c w1).
  rewrite (st_bind_eq _ _ w1 (p, rec') w2).
  2: { unfold decrypt_record; world_calls; unfold World.with_rng, decrypt_message_with_record.
       cbn [rec renewed SessionRecord.session_state SessionRecord.current_session ok_or].
       unfold try_state. change (World.csprng w1) with (World.csprng w). by rewrite Hdec. }
  destruct (store_session_map a rec' ctx (World.session_store w)) as (ss' & Hstore & Hs & _).
  set (w3 := World.with_session_store ss' w2).
  rewrite (st_bind_eq _ _ w2 tt w3).
  2: { unfold World.on_sessions, st_focus. change (World.session_store w2) with (World.session_store w).
       by rewrite Hstore. }
  destruct (PreKeySignalMessage.pre_key_id m) as [id|].
  - destruct (remove_pre_key_map id ctx (World.pre_key_store w)) as (ps' & Hrem & Hgone & _).
    exists (World.with_pre_key_store ps' w3).
    rewrite (st_bind_eq _ _ w3 tt (World.with_pre_key_store ps' w3)).
    + split_and!; [done|done|done|]. by intros ? [= <-].
    + unfold World.on_pre_keys, st_focus. change (World.pre_key_store w3) with (World.pre_key_store w).
      by rewrite Hrem.
  - exists w3. by split_and!.
Qed.

(** What such a message is made of parses back. *)
Lemma encrypt_parses `{!ProtoLaws} ptext s m j s' i k kp items :
  encrypt_with_state ptext s = Ok (CiphertextMessage.PreKeySignalMessage m, j, s') ->
  session_wf s -> sender_chain_key s = Some k -> ratchet_pair s kp ->
  PublicKey.wf (KeyPair.public_key kp) ->
  is_u32 (SessionStructure.previous_counter (SessionState.session s)) ->
  is_u32 (SessionStructure.local_registration_id (SessionState.session s)) ->
  SessionState.unacknowledged_pre_key_message_items s = Ok (Some items) ->
  opt_u32 (UnacknowledgedPreKeyMessageItems.pre_key_id items) ->
  is_u32 (UnacknowledgedPreKeyMessageItems.signed_pre_key_id items) ->
  PublicKey.wf (UnacknowledgedPreKeyMessageItems.base_key items) ->
  SessionState.local_identity_key s = Ok i -> IdentityKey.wf i ->
  PreKeySignalMessage.try_from (PreKeySignalMessage.serialized m) = Ok m.
Proof.
  intros Henc Hs Hk [Hpub _] Hkp Hpc Hreg Hitems Hpk Hspk Hbase Hi Hiwf.
  destruct (get_sender_chain_key_spec s k Hs Hk) as (Hget & Hkwf & _).
  destruct (ChainKey.message_keys_ok k) as (Hmk & (_ & Hmac & _) & _); [by apply Hkwf|].
  assert (Hv : (0 <= effective_version s mod 256 < 16)%Z).
  { pose proof (wf_version s Hs). rewrite Z.mod_small by lia. lia. }
  unfold encrypt_with_state in Henc.
  rewrite Hget, Hitems, Hi, session_version_spec in Henc. cbn [obind] in Henc.
  rewrite Hmk in Henc. cbn [obind] in Henc. rewrite Hpub in Henc.
  cbn [obind SessionState.previous_counter] in Henc. inv_ok_step. inv_ok_step. inv_ok_step.
  rename x0 into their, x1 into ct.
  destruct (SignalMessage.signal_message_new_parses (effective_version s mod 256)
    (MessageKeys.mac_key (ChainKey.keys k)) (KeyPair.public_key kp) (ChainKey.index k)
    (SessionStructure.previous_counter (SessionState.session s)) ct i their)
    as (inner & Hnew & Hparse & _); [done..|apply Hkwf|done|].
  rewrite Hnew in Henc. cbn [obind SessionState.local_registration_id] in Henc.
  destruct (PreKeySignalMessage.pre_key_message_new_try_from (effective_version s mod 256)
    (SessionStructure.local_registration_id (SessionState.session s))
    (UnacknowledgedPreKeyMessageItems.pre_key_id items)
    (UnacknowledgedPreKeyMessageItems.signed_pre_key_id items)
    (UnacknowledgedPreKeyMessageItems.base_key items) i inner)
    as (m' & Hm' & Hp' & _); [done..|].
  rewrite Hm' in Henc. cbn [obind] in Henc. inv_ok. inv_ok. done.
Qed.

Lemma initialize_alice_previous_counter p c s c' :
  initialize_alice_session p c = (Ok s, c') ->
  SessionStructure.previous_counter (SessionState.session s) = 0%Z.
Proof.
  unfold initialize_alice_session. destruct (KeyPair.generate c) as [kp c1]. intros [= Hs _].
  apply obind_ok in Hs as (secrets & _ & Hs). apply obind_ok in Hs as ([root key] & _ & Hs).
  apply obind_ok in Hs as ([root' key'] & _ & [= <-]). done.
Qed.

(** [bundle] is what Bob has published: its keys are his and his stores can
    answer for it. *)
Record published (w : W) (bundle : PreKeyBundle) (signed : KeyPair) (one_time : option KeyPair)
    : Prop := {
  published_identity : PreKeyBundle.identity_key_ bundle = IdentityKeyPair.identity_key (own w);
  published_signed : PreKeyBundle.signed_pre_key_public_ bundle = KeyPair.public_key signed;
  published_one_time : PreKeyBundle.pre_key_public_ bundle = KeyPair.public_key <$> one_time;
  published_signature : bundle_signature bundle = Ok true;
  published_signed_id : is_u32 (PreKeyBundle.signed_pre_key_id_ bundle);
  published_id_not_zero : PreKeyBundle.pre_key_id_ bundle <> Some 0%Z;
  published_signed_record : exists r,
    signed_pre_key_store_map (World.signed_pre_key_store w) (PreKeyBundle.signed_pre_key_id_ bundle)
      = Some r /\ SignedPreKeyRecord.key_pair r = Ok signed;
  published_one_time_record :
    match PreKeyBundle.pre_key_id_ bundle, one_time with
    | Some id, Some kp => exists r,
        pre_key_store_map (World.pre_key_store w) id = Some r /\ PreKeyRecord.key_pair r = Ok kp
    | None, None => True
    | _, _ => False
    end;
  published_matching : IdentityKeyPair.matching (own w) /\ KeyPair.matching signed /\
    from_option KeyPair.matching True one_time;
}.

(** The ids of the bundle and the registration id are [u32]s. *)
Definition contact_ids (w : W) (bundle : PreKeyBundle) : Prop :=
  is_u32 (own_registration_id (World.identity_store w)) /\
  opt_u32 (PreKeyBundle.pre_key_id_ bundle).

(** The first message of the session with the annotations of the bundle. *)
Lemma bundle_message_parses `{!ProtoLaws} (wa : W) bundle base p c c' sa sb ptext m j sa2 i :
  let sa1 := bundle_session bundle base (own_registration_id (World.identity_store wa)) sa in
  contact_ids wa bundle -> initialize_alice_session p c = (Ok sa, c') -> ahead sa1 sb 0 0 ->
  encrypt_with_state ptext sa1 = Ok (CiphertextMessage.PreKeySignalMessage m, j, sa2) ->
  is_u32 (PreKeyBundle.signed_pre_key_id_ bundle) -> PreKeyBundle.pre_key_id_ bundle <> Some 0%Z ->
  PublicKey.wf (KeyPair.public_key base) ->
  SessionState.local_identity_key sa1 = Ok i -> IdentityKey.wf i ->
  PreKeySignalMessage.try_from (PreKeySignalMessage.serialized m) = Ok m.
Proof.
  intros sa1 [Hreg Hpk] Hinit Hahead Henc Hspk Hne Hbase Hi Hiwf.
  destruct (ahead_keys _ _ _ _ Hahead)
    as (kp & _ & k & _ & Hkp & _ & Hrp & _ & _ & _ & _ & _ & Hk & _).
  pose proof (bundle_session_pending bundle base (own_registration_id (World.identity_store wa)) sa
    Hbase Hspk) as Hpending. rewrite decide_False in Hpending by done.
  eapply (encrypt_parses ptext sa1 m j sa2 i _ kp); try done.
  - apply (ahead_inv_s _ _ _ _ Hahead).
  - by apply KeyPair.matching_public_wf.
  - change (SessionStructure.previous_counter (SessionState.session sa1))
      with (SessionStructure.previous_counter (SessionState.session sa)).
    by rewrite (initialize_alice_previous_counter _ _ _ _ Hinit).
Qed.

(** The first message on the session states, without the stores: Alice's
    session from the bundle, what she sends on it, which parses back from its
    bytes, Bob's session from what she sent. *)
Lemma first_exchange (wa wb : W) bundle signed one_time base c1 ptext :
  published wb bundle signed one_time -> IdentityKeyPair.matching (own wa) -> KeyPair.matching base ->
  KeyPair.public_key (KeyPair.generate (World.csprng wb)).1 <> KeyPair.public_key signed ->
  exists sa sb m sa2 sb2,
    initialize_alice_session (bundle_parameters wa bundle base) c1 = (Ok sa, (KeyPair.generate c1).2) /\
    encrypt_with_state ptext
        (bundle_session bundle base (own_registration_id (World.identity_store wa)) sa)
      = Ok (CiphertextMessage.PreKeySignalMessage m, IdentityKeyPair.identity_key (own wb), sa2) /\
    PreKeySignalMessage.identity_key m = IdentityKeyPair.identity_key (own wa) /\
    PreKeySignalMessage.pre_key_id m = PreKeyBundle.pre_key_id_ bundle /\
    PreKeySignalMessage.base_key m = KeyPair.public_key base /\
    answers wb m signed one_time /\
    initialize_bob_session (reply_parameters wb m signed one_time) = Ok sb /\
    decrypt_message_with_state (PreKeySignalMessage.message m)
      (reply_session m (own_registration_id (World.identity_store wb)) sb, World.csprng wb)
      = (Ok ptext, (sb2, (KeyPair.generate (World.csprng wb)).2)) /\
    ahead sb2 sa2 0 0 /\
    (ProtoLaws -> contact_ids wa bundle ->
     PreKeySignalMessage.try_from (PreKeySignalMessage.serialized m) = Ok m).
Proof.
  intros Hpub Hma Hmbase Hfresh. destruct (published_matching _ _ _ _ Hpub) as (Hmb & Hms & Hmo).
  assert (Hall : parties_matching (own wa) (own wb) base signed signed one_time) by by split_and!.
  destruct (x3dh_ahead _ _ _ _ _ _ c1 Hall)
    as (sa & sb & Hsa & Hsb & Hahead & Hia & Hib & Hba & Hbb & Hver & Hothera).
  set (ida := IdentityKeyPair.identity_key (own wa)) in *.
  set (idb := IdentityKeyPair.identity_key (own wb)) in *.
  assert (Hinit : initialize_alice_session (bundle_parameters wa bundle base) c1
    = (Ok sa, (KeyPair.generate c1).2)).
  { rewrite <-Hsa. unfold bundle_parameters, alice_parameters. destruct Hpub. by rewrite published_identity0,
      published_signed0, published_one_time0. }
  set (rega := own_registration_id (World.identity_store wa)).
  set (sa1 := bundle_session bundle base rega sa).
  pose proof (bundle_session_annotated bundle base rega sa) as Hann. fold sa1 in Hann.
  destruct (annotated_view _ _ Hann) as (Hsend1 & _ & Hids1 & Hver1 & _ & Hrk1).
  pose proof (bundle_session_pending bundle base rega sa
    ltac:(by apply KeyPair.matching_public_wf) (published_signed_id _ _ _ _ Hpub)) as Hpending.
  fold sa1 in Hpending. rewrite decide_False in Hpending by apply Hpub.
  pose proof (between_identities _ _ _ _ Hids1 Hba) as Hba1.
  set (reply := fun m => reply_session m (own_registration_id (World.identity_store wb)) sb).
  assert (Hahead1 : forall m, ahead sa1 (reply m) 0 0).
  { intros m. eapply ahead_annotated; [exact Hann|apply reply_session_annotated| | |exact Hahead].
    - by eexists.
    - apply (ahead_pending_r _ _ _ _ Hahead). }
  assert (Hahead0 : ahead sa1 sb 0 0).
  { eapply ahead_annotated; [exact Hann|by split|by eexists|apply Hahead|exact Hahead]. }
  destruct (ahead_sends sa1 sb 0 0 ptext Hahead0) as (cm & j & sa2 & Henc & _);
    [unfold sender_index in *; rewrite Hsend1; unfold u32_max; lia|].
  destruct (encrypt_pending _ _ _ _ _ _ _ Henc Hpending (proj1 Hba1))
    as (Hj & m & -> & Hmid & Hmsid & Hmbase' & Hmi). cbn in Hmid, Hmsid, Hmbase'.
  destruct (exchange_from_ahead sa1 (reply m) 0 0 (World.csprng wb) ptext (Hahead1 m))
    as (sa2' & sb2 & Hx & Hahead2 & _); [done|by unfold fresh_for; rewrite Hrk1, Hothera|].
  unfold exchange in Hx. rewrite Henc in Hx. cbn [obind inner_message ok_or] in Hx.
  destruct (decrypt_message_with_state _ _) as [res [sb2' c2]] eqn:Hdec.
  destruct res as [p|e|]; [|done..]. injection Hx as -> <- -> ->.
  assert (j = idb) as -> by (rewrite (proj2 Hba1) in Hj; by injection Hj).
  exists sa, sb, m, sa2, sb2. split_and!; try done.
  - split; [rewrite Hmsid|rewrite Hmid]; apply Hpub.
  - rewrite <-Hsb. unfold reply_parameters, bob_parameters. by rewrite Hmi, Hmbase'.
  - intros Hproto Hids. eapply bundle_message_parses; try done; [apply Hpub..| |apply Hba1|].
    + by apply KeyPair.matching_public_wf.
    + by apply IdentityKeyPair.identity_key_pair_matching_wf.
Qed.

(** First contact, with the bytes of the message. *)
Lemma first_contact (wa wb : W) alice_address bob_address bundle signed one_time ptext ctx ctx' :
  published wb bundle signed one_time -> IdentityKeyPair.matching (own wa) ->
  trusted wa bob_address (IdentityKeyPair.identity_key (own wb)) ->
  trusted wb alice_address (IdentityKeyPair.identity_key (own wa)) ->
  record_bounded (loaded_record wa bob_address) ->
  open_to (loaded_record wb alice_address) (KeyPair.public_key (KeyPair.generate (World.csprng wa)).1) ->
  KeyPair.public_key (KeyPair.generate (World.csprng wb)).1 <> KeyPair.public_key signed ->
  exists wa1 m wa2 wb1,
    process_prekey_bundle bob_address bundle ctx wa = (Ok tt, wa1) /\
    message_encrypt ptext bob_address ctx wa1 = (Ok (CiphertextMessage.PreKeySignalMessage m), wa2) /\
    (ProtoLaws -> contact_ids wa bundle ->
     PreKeySignalMessage.try_from (PreKeySignalMessage.serialized m) = Ok m) /\
    message_decrypt_prekey m alice_address ctx' wb = (Ok ptext, wb1) /\
    (forall id, PreKeyBundle.pre_key_id_ bundle = Some id ->
       pre_key_store_map (World.pre_key_store wb1) id = None) /\
    known wa2 bob_address = Some (IdentityKeyPair.identity_key (own wb)) /\
    known wb1 alice_address = Some (IdentityKeyPair.identity_key (own wa)) /\
    exists sa sb olda oldb,
      stored_session wa2 bob_address = Some (SessionRecord.mk (Some sa) olda) /\
      stored_session wb1 alice_address = Some (SessionRecord.mk (Some sb) oldb) /\
      ahead sb sa 0 0.
Proof.
  intros Hpub Hma Htra Htrb Hbounded Hopen Hfresh.
  pose proof (KeyPair.key_pair_generate_matching (World.csprng wa)) as Hmbase.
  destruct (KeyPair.generate (World.csprng wa)) as [base c1] eqn:Hgen. cbn [fst] in Hmbase, Hopen.
  destruct (first_exchange wa wb bundle signed one_time base c1 ptext Hpub Hma Hmbase Hfresh)
    as (sa & sb & m & sa2 & sb2 & Hinit & Henc & Hmi & Hmid & Hmbk & Hans & Hsb & Hdec & Hahead & Hwire).
  pose proof (published_identity _ _ _ _ Hpub) as Hid. rewrite <-Hid in Htra.
  destruct (process_prekey_bundle_ok bob_address bundle ctx wa base c1 sa _ Htra
    (published_signature _ _ _ _ Hpub) Hbounded Hgen Hinit) as (wa1 & Hbundle & _ & Hua).
  destruct (message_encrypt_ok ptext bob_address ctx wa1 _ _ _ _ sa2 (proj1 Hua) Henc)
    as (wa2 & Hsendmsg & Hua2); [right; rewrite <-Hid; apply Hua|].
  destruct (message_decrypt_prekey_new m alice_address ctx' wb signed one_time sb ptext sb2
    (KeyPair.generate (World.csprng wb)).2)
    as (wb1 & Hrecv & Hsb1 & Hkb1 & Hgone); [by rewrite Hmbk|by rewrite Hmi|done..|].
  exists wa1, m, wa2, wb1. split_and!; try done.
  - intros id Heq. apply Hgone. by rewrite Hmid.
  - apply Hua2.
  - by rewrite Hkb1, Hmi.
  - do 4 eexists. split_and!; [apply Hua2|done|done].
Qed.

(** C2: first contact, from bundle to plaintext, through the stores of both
    sides.  Bob has published a bundle, with or without a one-time pre-key
    (whose id is not 0), each side trusts the other's identity for its address,
    the record Alice may have for Bob has at most forty archived sessions, no session
    that Bob may have with Alice was begun with the base key that her generator gives
    next, and the key that his gives next is not his signed pre-key.  Then Alice builds a session from
    the bundle whatever she had stored before, her first message is a pre-key
    message, Bob decrypts it to the plaintext, the one-time pre-key is gone from
    his store, both have the other's identity on record, and the sessions both
    have stored are in step, so that the conversation continues. *)
Theorem first_message_delivers (wa wb : W) alice_address bob_address bundle signed one_time ptext
    ctx ctx' :
  published wb bundle signed one_time -> IdentityKeyPair.matching (own wa) ->
  trusted wa bob_address (IdentityKeyPair.identity_key (own wb)) ->
  trusted wb alice_address (IdentityKeyPair.identity_key (own wa)) ->
  record_bounded (loaded_record wa bob_address) ->
  open_to (loaded_record wb alice_address) (KeyPair.public_key (KeyPair.generate (World.csprng wa)).1) ->
  KeyPair.public_key (KeyPair.generate (World.csprng wb)).1 <> KeyPair.public_key signed ->
  exists wa1 m wa2 wb1,
    process_prekey_bundle bob_address bundle ctx wa = (Ok tt, wa1) /\
    message_encrypt ptext bob_address ctx wa1 = (Ok (CiphertextMessage.PreKeySignalMessage m), wa2) /\
    message_decrypt_prekey m alice_address ctx' wb = (Ok ptext, wb1) /\
    (forall id, PreKeyBundle.pre_key_id_ bundle = Some id ->
       pre_key_store_map (World.pre_key_store wb1) id = None) /\
    known wa2 bob_address = Some (IdentityKeyPair.identity_key (own wb)) /\
    known wb1 alice_address = Some (IdentityKeyPair.identity_key (own wa)) /\
    exists sa sb olda oldb,
      stored_session wa2 bob_address = Some (SessionRecord.mk (Some sa) olda) /\
      stored_session wb1 alice_address = Some (SessionRecord.mk (Some sb) oldb) /\
      ahead sb sa 0 0.
Proof.
  intros Hpub Hma Htra Htrb Hbounded Hopen Hfresh.
  destruct (first_contact wa wb alice_address bob_address bundle signed one_time ptext ctx ctx')
    as (wa1 & m & wa2 & wb1 & Hp & He & _ & Hrest); [done..|].
  by exists wa1, m, wa2, wb1.
Qed.
End FirstMessage.
