(* ===== verification/Gf2.v ===== *)
(** Polynomials over GF(2): the carry-less arithmetic behind POLYVAL.

    A polynomial is an [N] whose bit [i] is the coefficient of [x^i]; addition
    is [N.lxor], multiplication [clmul].  They form a commutative ring in which
    [a + a = 0], which the [ring] tactic knows once the coefficients are the
    booleans. *)

From S2P Require Import Prelude.
From Stdlib Require Import NArith Ring.
Local Open Scope N_scope.

(** * Carry-less multiplication *)

Fixpoint clmul_pos (p : positive) (b : N) : N :=
  match p with
  | xH => b
  | xO p => N.double (clmul_pos p b)
  | xI p => N.lxor b (N.double (clmul_pos p b))
  end.

Definition clmul (a b : N) : N := match a with N0 => 0 | Npos p => clmul_pos p b end.

Lemma clmul_0_l b : clmul 0 b = 0.
Proof. done. Qed.

Lemma clmul_1_l b : clmul 1 b = b.
Proof. done. Qed.

Lemma clmul_double_l a b : clmul (N.double a) b = N.double (clmul a b).
Proof. by destruct a. Qed.

Lemma double_lxor a b : N.double (N.lxor a b) = N.lxor (N.double a) (N.double b).
Proof. by destruct a, b. Qed.

(** A polynomial is its constant term plus [x] times the rest. *)
Definition bit0 (a : N) : N := N.b2n (N.odd a).

Lemma split_bit0 a : a = N.lxor (bit0 a) (N.double (N.div2 a)).
Proof. by destruct a as [|[p|p|]]. Qed.

Lemma clmul_split a b :
  clmul a b = N.lxor (clmul (bit0 a) b) (N.double (clmul (N.div2 a) b)).
Proof. destruct a as [|[p|p|]]; cbn; [done|done|by rewrite N.lxor_0_l|by rewrite N.lxor_0_r]. Qed.

(** Induction on the bits, the constant term first. *)
Lemma bit_ind (P : N -> Prop) :
  P 0 -> (forall a, a <> 0 -> P (N.div2 a) -> P a) -> forall a, P a.
Proof.
  intros H0 HS a. induction a as [a IH] using (well_founded_induction N.lt_wf_0).
  destruct (N.eq_dec a 0) as [->|Ha]; [done|]. apply HS; [done|]. apply IH.
  destruct a as [|[p|p|]]; cbn; lia.
Qed.

Lemma bit0_lxor a b : bit0 (N.lxor a b) = N.lxor (bit0 a) (bit0 b).
Proof. unfold bit0. rewrite <-!N.bit0_odd, N.lxor_spec. by destruct (N.testbit a 0), (N.testbit b 0). Qed.

Lemma div2_lxor a b : N.div2 (N.lxor a b) = N.lxor (N.div2 a) (N.div2 b).
Proof. rewrite !N.div2_spec. apply N.shiftr_lxor. Qed.

Lemma clmul_bit_lxor a a' b :
  clmul (N.lxor (bit0 a) (bit0 a')) b = N.lxor (clmul (bit0 a) b) (clmul (bit0 a') b).
Proof.
  unfold bit0. destruct (N.odd a), (N.odd a'); cbn;
    by rewrite ?N.lxor_nilpotent, ?N.lxor_0_l, ?N.lxor_0_r.
Qed.

Lemma clmul_lxor_l a a' b : clmul (N.lxor a a') b = N.lxor (clmul a b) (clmul a' b).
Proof.
  revert a'. induction a as [|a Ha IH] using bit_ind; intros a'; [done|].
  rewrite (clmul_split (N.lxor a a')), bit0_lxor, div2_lxor, IH, clmul_bit_lxor, double_lxor.
  rewrite (clmul_split a b), (clmul_split a' b).
  rewrite !N.lxor_assoc. f_equal. rewrite <-!N.lxor_assoc. f_equal. apply N.lxor_comm.
Qed.

Lemma clmul_lxor_r a b c : clmul a (N.lxor b c) = N.lxor (clmul a b) (clmul a c).
Proof.
  induction a as [|a Ha IH] using bit_ind; [done|].
  rewrite !(clmul_split a), IH, double_lxor.
  assert (Hb : clmul (bit0 a) (N.lxor b c) = N.lxor (clmul (bit0 a) b) (clmul (bit0 a) c))
    by (unfold bit0; by destruct (N.odd a)).
  rewrite Hb, !N.lxor_assoc. f_equal. rewrite <-!N.lxor_assoc. f_equal. apply N.lxor_comm.
Qed.

Lemma clmul_double_r a b : clmul a (N.double b) = N.double (clmul a b).
Proof.
  induction a as [|a Ha IH] using bit_ind; [done|].
  rewrite !(clmul_split a), IH, double_lxor. f_equal.
  unfold bit0. by destruct (N.odd a).
Qed.

Lemma clmul_0_r a : clmul a 0 = 0.
Proof. by rewrite <-(N.lxor_nilpotent 0), clmul_lxor_r, N.lxor_nilpotent. Qed.

Lemma clmul_1_r a : clmul a 1 = a.
Proof.
  induction a as [|a Ha IH] using bit_ind; [done|].
  rewrite clmul_split, IH. etransitivity; [|symmetry; apply split_bit0]. f_equal.
  unfold bit0. by destruct (N.odd a).
Qed.

Lemma clmul_comm a b : clmul a b = clmul b a.
Proof.
  induction a as [|a Ha IH] using bit_ind; [by rewrite clmul_0_r|].
  transitivity (clmul b (N.lxor (bit0 a) (N.double (N.div2 a)))); [|by rewrite <-split_bit0].
  rewrite clmul_split, clmul_lxor_r, clmul_double_r, IH.
  assert (Hb : clmul (bit0 a) b = clmul b (bit0 a))
    by (unfold bit0; destruct (N.odd a); cbn; by rewrite ?clmul_1_r, ?clmul_0_r).
  by rewrite Hb.
Qed.

Lemma clmul_assoc a b c : clmul a (clmul b c) = clmul (clmul a b) c.
Proof.
  induction a as [|a Ha IH] using bit_ind; [done|].
  rewrite (clmul_split a (clmul b c)), (clmul_split a b), clmul_lxor_l, clmul_double_l, IH.
  f_equal. unfold bit0. by destruct (N.odd a).
Qed.

(** * The ring, and [ring] *)

Lemma gf2_ring : ring_theory 0 1 N.lxor clmul N.lxor (fun a => a) eq.
Proof.
  constructor; intros.
  - apply N.lxor_0_l.
  - apply N.lxor_comm.
  - symmetry. apply N.lxor_assoc.
  - apply clmul_1_l.
  - apply clmul_comm.
  - apply clmul_assoc.
  - apply clmul_lxor_l.
  - done.
  - apply N.lxor_nilpotent.
Qed.

Lemma gf2_morphism :
  ring_morph 0 1 N.lxor clmul N.lxor (fun a => a) eq
    false true xorb andb xorb (fun b => b) Bool.eqb N.b2n.
Proof.
  constructor; try done; by intros [] [].
Qed.

Ltac gf2_constant t :=
  lazymatch t with
  | 0 => constr:(false)
  | 1 => constr:(true)
  | _ => constr:(InitialRing.NotConstant)
  end.

Add Ring gf2 : gf2_ring (morphism gf2_morphism, constants [gf2_constant]).

Example char_2 a b : clmul (N.lxor a b) (N.lxor a b) = N.lxor (clmul a a) (clmul b b).
Proof. ring. Qed.

(** * Powers of [x] and degrees *)

Lemma clmul_pow2_l n a : clmul (2 ^ n) a = N.shiftl a n.
Proof.
  revert a. induction n as [|n IH] using N.peano_ind; intros a; [by rewrite N.shiftl_0_r|].
  rewrite N.shiftl_succ_r, <-IH, <-clmul_double_l. f_equal.
  rewrite N.pow_succ_r'. symmetry. apply N.double_spec.
Qed.

Lemma clmul_pow2_r n a : clmul a (2 ^ n) = N.shiftl a n.
Proof. by rewrite clmul_comm, clmul_pow2_l. Qed.

Lemma log2_lxor a b : N.log2 a < N.log2 b -> N.log2 (N.lxor a b) = N.log2 b.
Proof.
  intros Hlt. destruct (N.eq_dec b 0) as [->|Hb]; [cbn in *; lia|].
  apply N.log2_bits_unique.
  - by rewrite N.lxor_spec, N.bit_log2, N.bits_above_log2.
  - intros n Hn. rewrite N.lxor_spec, !N.bits_above_log2; [done|lia..].
Qed.

Lemma log2_double a : a <> 0 -> N.log2 (N.double a) = N.succ (N.log2 a).
Proof.
  intros Ha. transitivity (N.log2 (2 * a)); [f_equal; apply N.double_spec|].
  apply N.log2_double. lia.
Qed.

Lemma log2_div2 a : N.div2 a <> 0 -> N.log2 a = N.succ (N.log2 (N.div2 a)).
Proof.
  destruct a as [|[p|p|]]; intros Ha; cbn in Ha; try done; cbn [N.div2].
  - change (N.pos p~1) with (2 * N.pos p + 1). apply N.log2_succ_double. lia.
  - change (N.pos p~0) with (2 * N.pos p). apply N.log2_double. lia.
Qed.

(** Degrees add up. *)
Lemma clmul_log2 a b : a <> 0 -> b <> 0 -> clmul a b <> 0 /\ N.log2 (clmul a b) = N.log2 a + N.log2 b.
Proof.
  intros Ha Hb. induction a as [|a _ IH] using bit_ind; [done|].
  destruct (N.eq_dec (N.div2 a) 0) as [Hz|Hz].
  - assert (a = 1) as -> by (destruct a as [|[p|p|]]; cbn in Hz; done).
    rewrite clmul_1_l. split; [done|]. cbn. lia.
  - destruct (IH Hz) as [Hnz Hlog]. rewrite clmul_split.
    pose proof (log2_div2 a Hz) as Hla. pose proof (log2_double _ Hnz) as Hd.
    assert (Hc : N.log2 (clmul (bit0 a) b) <= N.log2 b) by (unfold bit0; destruct (N.odd a); cbn; lia).
    assert (Hx : N.log2 (N.lxor (clmul (bit0 a) b) (N.double (clmul (N.div2 a) b))) = N.log2 a + N.log2 b)
      by (rewrite log2_lxor, Hd, Hlog; lia).
    split; [|done]. intros H0. rewrite H0 in Hx. cbn in Hx. lia.
Qed.

Lemma lt_pow2_log2 a n : a < 2 ^ n <-> a = 0 \/ N.log2 a < n.
Proof.
  destruct (N.eq_dec a 0) as [->|Ha].
  - split; [by left|]. intros _. pose proof (N.pow_nonzero 2 n). lia.
  - rewrite (N.log2_lt_pow2 a n) by lia. split; [by right|by intros [|]].
Qed.

Lemma clmul_lt a b m n : a < 2 ^ m -> b < 2 ^ n -> clmul a b < 2 ^ (m + n).
Proof.
  rewrite !lt_pow2_log2. intros [->|Ha] [->|Hb]; rewrite ?clmul_0_r; try by left.
  destruct (N.eq_dec a 0) as [->|Hza]; [by left|]. destruct (N.eq_dec b 0) as [->|Hzb].
  - rewrite clmul_0_r. by left.
  - right. destruct (clmul_log2 a b Hza Hzb) as [_ ->]. lia.
Qed.

Lemma lxor_lt a b n : a < 2 ^ n -> b < 2 ^ n -> N.lxor a b < 2 ^ n.
Proof.
  intros Ha Hb. apply lt_pow2_log2. pose proof (N.log2_lxor a b).
  apply lt_pow2_log2 in Ha as [->|Ha], Hb as [->|Hb]; rewrite ?N.lxor_0_l, ?N.lxor_0_r; try by (left + right).
  right. lia.
Qed.

(** * Congruence modulo a polynomial with constant term 1 *)

Lemma odd_clmul a b : N.odd (clmul a b) = N.odd a && N.odd b.
Proof.
  rewrite clmul_split, <-N.bit0_odd, N.lxor_spec, !N.bit0_odd.
  replace (N.odd (N.double _)) with false by (by destruct (clmul (N.div2 a) b)).
  unfold bit0. destruct (N.odd a); cbn; [|done]. by destruct (N.odd b).
Qed.

Lemma double_inj a b : N.double a = N.double b -> a = b.
Proof. rewrite !N.double_spec. lia. Qed.

(** When [x^n] divides [q * p] and [p] has a constant term, it divides [q]. *)
Lemma pow2_divides a q p n :
  N.odd p = true -> N.shiftl a n = clmul q p -> exists q', q = N.shiftl q' n /\ a = clmul q' p.
Proof.
  intros Hp. revert q. induction n as [|n IH] using N.peano_ind; intros q Heq.
  - rewrite N.shiftl_0_r in Heq. exists q. by rewrite N.shiftl_0_r.
  - rewrite N.shiftl_succ_r in Heq.
    assert (Hq : N.odd q = false).
    { pose proof (odd_clmul q p) as Ho. rewrite Hp, andb_true_r, <-Heq in Ho. rewrite <-Ho.
      by destruct (N.shiftl a n). }
    rewrite (clmul_split q) in Heq. unfold bit0 in Heq. rewrite Hq in Heq. cbn in Heq.
    apply double_inj, IH in Heq as (q' & Hq' & Ha). exists q'. split; [|done].
    rewrite N.shiftl_succ_r, <-Hq'. pose proof (split_bit0 q) as Hs. unfold bit0 in Hs. by rewrite Hq in Hs.
Qed.

(** The remainder is unique: [x^n * a] and [x^n * b] congruent modulo [p], both
    of smaller degree than [p], are equal. *)
Lemma remainder_unique a b q p n d :
  N.odd p = true -> N.log2 p = d -> a < 2 ^ d -> b < 2 ^ d ->
  N.lxor (N.shiftl a n) (N.shiftl b n) = clmul q p -> a = b.
Proof.
  intros Hp Hd Ha Hb Heq. rewrite <-N.shiftl_lxor in Heq.
  destruct (pow2_divides _ _ _ _ Hp Heq) as (q' & _ & Hq').
  assert (Hlt : N.lxor a b < 2 ^ d) by by apply lxor_lt.
  apply N.lxor_eq. rewrite Hq'. destruct (N.eq_dec q' 0) as [->|Hz]; [done|exfalso].
  assert (Hpz : p <> 0) by (by intros ->).
  destruct (clmul_log2 q' p Hz Hpz) as [Hnz Hlog]. rewrite Hq' in Hlt.
  apply lt_pow2_log2 in Hlt as [|]; [done|lia].
Qed.
