(* ===== verification/Simd.v ===== *)
(** 128-bit vectors and the vector instructions the AES-GCM-SIV crate calls
    (the intrinsics of [core::arch::x86_64] and [core::arch::aarch64]).

    A vector is its value as a little-endian number; lane 0 is the least
    significant one. *)

From S2P Require Import Prelude Gf2.
Local Open Scope N_scope.

(** * Little-endian numbers *)

Fixpoint le_num (l : bytes) : N :=
  match l with [] => 0 | b :: l => Byte.to_N b + 256 * le_num l end.

Definition byte_of (v : N) : Byte.byte := u8_of (Z.of_N v).

Fixpoint le_bytes (n : nat) (v : N) : bytes :=
  match n with O => [] | S n => byte_of (v mod 256) :: le_bytes n (v / 256) end.

Lemma byte_of_to_N b : byte_of (Byte.to_N b) = b.
Proof. apply (u8_of_val b). Qed.

Lemma to_N_byte_of v : Byte.to_N (byte_of v) = v mod 256.
Proof.
  unfold byte_of. pose proof (u8_val_of (Z.of_N v)) as Hv. unfold u8_val in Hv.
  apply N2Z.inj. rewrite Hv, N2Z.inj_mod. done.
Qed.

Lemma le_bytes_length n v : length (le_bytes n v) = n.
Proof. revert v. induction n; intros; cbn; auto. Qed.

Lemma le_num_lt l : le_num l < 256 ^ N.of_nat (length l).
Proof.
  induction l as [|b l IH]; cbn [le_num length]; [done|].
  rewrite Nat2N.inj_succ, N.pow_succ_r'. pose proof (Byte.to_N_bounded b). lia.
Qed.

Lemma le_num_bytes n v : v < 256 ^ N.of_nat n -> le_num (le_bytes n v) = v.
Proof.
  revert v. induction n as [|n IH]; intros v Hv; cbn [le_num le_bytes]; [cbn in Hv; lia|].
  rewrite Nat2N.inj_succ, N.pow_succ_r' in Hv.
  rewrite IH by (apply N.Div0.div_lt_upper_bound; lia).
  rewrite to_N_byte_of, N.Div0.mod_mod. pose proof (N.div_mod v 256). lia.
Qed.

Lemma le_bytes_num l n : length l = n -> le_bytes n (le_num l) = l.
Proof.
  intros <-. induction l as [|b l IH]; cbn [le_num le_bytes length]; [done|].
  pose proof (Byte.to_N_bounded b) as Hb.
  rewrite (N.mul_comm 256), N.Div0.mod_add, N.div_add, N.mod_small, N.div_small by lia.
  by rewrite byte_of_to_N, N.add_0_l, IH.
Qed.

(** The bytes of a hexadecimal string, for test vectors. *)
Definition hex_value (c : Ascii.ascii) : N :=
  let n := Ascii.N_of_ascii c in if n <? 58 then n - 48 else n - 87.
Fixpoint of_hex (s : string) : bytes :=
  match s with
  | String a (String b s) => byte_of (16 * hex_value a + hex_value b) :: of_hex s
  | _ => []
  end.

(** * Halves *)

Definition w128 (v : N) : N := v mod 2 ^ 128.
Definition low64 (v : N) : N := v mod 2 ^ 64.
Definition high64 (v : N) : N := N.shiftr v 64.
Definition swap64 (v : N) : N := N.lxor (high64 v) (N.shiftl (low64 v) 64).

(** A number is its low [n] bits plus the rest. *)
Lemma split_low n v : v = N.lxor (v mod 2 ^ n) (N.shiftl (N.shiftr v n) n).
Proof.
  apply N.bits_inj. intros i. rewrite N.lxor_spec.
  destruct (N.lt_ge_cases i n).
  - rewrite N.mod_pow2_bits_low, N.shiftl_spec_low by done. by destruct (N.testbit v i).
  - rewrite N.mod_pow2_bits_high, N.shiftl_spec_high', N.shiftr_spec' by done.
    rewrite xorb_false_l. f_equal. lia.
Qed.

Lemma low64_lt v : low64 v < 2 ^ 64.
Proof. by apply N.mod_lt. Qed.

Lemma shiftr_lt v m n : v < 2 ^ (m + n) -> N.shiftr v n < 2 ^ m.
Proof. rewrite N.shiftr_div_pow2, N.pow_add_r. intros. apply N.Div0.div_lt_upper_bound. lia. Qed.

Lemma shiftl_lt v m n : v < 2 ^ m -> N.shiftl v n < 2 ^ (m + n).
Proof. rewrite N.shiftl_mul_pow2, N.pow_add_r. intros. apply N.mul_lt_mono_pos_r; [|done]. apply N.neq_0_lt_0, N.pow_nonzero. done. Qed.

Lemma high64_lt v : v < 2 ^ 128 -> high64 v < 2 ^ 64.
Proof. apply (shiftr_lt v 64 64). Qed.

Lemma swap64_lt v : v < 2 ^ 128 -> swap64 v < 2 ^ 128.
Proof.
  intros Hv. apply lxor_lt.
  - eapply N.lt_trans; [by apply high64_lt|done].
  - apply (shiftl_lt _ 64 64), low64_lt.
Qed.

Lemma split64 v : v = N.lxor (low64 v) (clmul (2 ^ 64) (high64 v)).
Proof. rewrite clmul_pow2_l. apply split_low. Qed.

(** * x86: SSE2, SSSE3 and PCLMULQDQ *)

Definition mm_loadu_si128 (l : bytes) : N := le_num (take 16 l).
Definition mm_setzero_si128 : N := 0.
(** The arguments are [i32]s, the most significant lane first. *)
Definition mm_set_epi32 (e3 e2 e1 e0 : Z) : N :=
  Z.to_N (e0 mod 2 ^ 32 + (e1 mod 2 ^ 32) * 2 ^ 32 + (e2 mod 2 ^ 32) * 2 ^ 64
          + (e3 mod 2 ^ 32) * 2 ^ 96).
Definition mm_xor_si128 (a b : N) : N := N.lxor a b.
Definition qword (v : N) (high : bool) : N := if high then high64 v else low64 v.
Definition mm_clmulepi64_si128 (a b imm : N) : N :=
  clmul (qword a (N.testbit imm 0)) (qword b (N.testbit imm 4)).
Definition mm_slli_si128 (v n : N) : N := w128 (N.shiftl v (8 * n)).
Definition mm_srli_si128 (v n : N) : N := N.shiftr v (8 * n).
Definition dword (v i : N) : N := N.shiftr v (32 * i) mod 2 ^ 32.
Definition mm_shuffle_epi32 (v imm : N) : N :=
  dword v (imm mod 4)
  + dword v (N.shiftr imm 2 mod 4) * 2 ^ 32
  + dword v (N.shiftr imm 4 mod 4) * 2 ^ 64
  + dword v (N.shiftr imm 6 mod 4) * 2 ^ 96.

(** * AArch64: NEON and the polynomial multiplication *)

Definition vld1q_u8 (l : bytes) : N := le_num (take 16 l).
Definition vdupq_n_u8 (b : N) : N := le_num (replicate 16 (byte_of b)).
Definition veorq_u8 (a b : N) : N := N.lxor a b.
Definition vgetq_lane_u64 (v i : N) : N := N.shiftr v (64 * i) mod 2 ^ 64.
Definition vcombine_u64 (low high : N) : N := low + high * 2 ^ 64.
Definition vmull_p64 (a b : N) : N := clmul a b.
(** [EXT]: 16 bytes from byte [n] of the pair [b:a]. *)
Definition vextq_u8 (a b n : N) : N := w128 (N.shiftr (a + b * 2 ^ 128) (8 * n)).

(** A vector stored to memory. *)
Definition vec_bytes (v : N) : bytes := le_bytes 16 v.

(** * What the instructions do on halves *)

Lemma add_lxor a b n : a < 2 ^ n -> a + b * 2 ^ n = N.lxor a (N.shiftl b n).
Proof.
  intros Ha. rewrite <-N.shiftl_mul_pow2. apply N.add_nocarry_lxor. apply N.bits_inj. intros i.
  rewrite N.land_spec, N.bits_0. destruct (N.lt_ge_cases i n).
  - by rewrite N.shiftl_spec_low, andb_false_r.
  - destruct (N.eq_dec a 0) as [->|Hz]; [by rewrite N.bits_0|].
    rewrite N.bits_above_log2; [done|]. apply N.log2_lt_pow2 in Ha; lia.
Qed.

Lemma low_dwords v : dword v 0 + dword v 1 * 2 ^ 32 = low64 v.
Proof.
  unfold dword, low64. rewrite !N.shiftr_div_pow2.
  change (2 ^ 64) with (2 ^ 32 * 2 ^ 32). rewrite N.Div0.mod_mul_r.
  change (2 ^ (32 * 0)) with 1. change (2 ^ (32 * 1)) with (2 ^ 32). rewrite N.div_1_r.
  f_equal. apply N.mul_comm.
Qed.

Lemma high_dwords v : v < 2 ^ 128 -> dword v 2 + dword v 3 * 2 ^ 32 = high64 v.
Proof.
  intros Hv. pose proof (low_dwords (high64 v)) as Hlow. unfold low64 in Hlow.
  rewrite (N.mod_small (high64 v)) in Hlow by by apply high64_lt.
  rewrite <-Hlow. unfold dword, high64. by rewrite !N.shiftr_shiftr.
Qed.

Lemma shuffle_swap v : v < 2 ^ 128 -> mm_shuffle_epi32 v 0x4E = swap64 v.
Proof.
  intros Hv. unfold mm_shuffle_epi32, swap64.
  rewrite <-(high_dwords v Hv), <-(low_dwords v).
  change (N.modulo 0x4E 4) with 2. change (N.shiftr 0x4E 2 mod 4) with 3.
  change (N.shiftr 0x4E 4 mod 4) with 0. change (N.shiftr 0x4E 6 mod 4) with 1.
  rewrite <-add_lxor by (rewrite high_dwords by done; by apply high64_lt). lia.
Qed.

Lemma w128_shiftl64 v : w128 (N.shiftl v 64) = N.shiftl (low64 v) 64.
Proof.
  unfold w128, low64. rewrite !N.shiftl_mul_pow2. change (2 ^ 128) with (2 ^ 64 * 2 ^ 64).
  apply N.Div0.mul_mod_distr_r.
Qed.

(** The immediate of PCLMULQDQ selects the halves. *)
Lemma clmul_imm a b :
  mm_clmulepi64_si128 a b 0x00 = clmul (low64 a) (low64 b) /\
  mm_clmulepi64_si128 a b 0x01 = clmul (high64 a) (low64 b) /\
  mm_clmulepi64_si128 a b 0x10 = clmul (low64 a) (high64 b) /\
  mm_clmulepi64_si128 a b 0x11 = clmul (high64 a) (high64 b).
Proof. done. Qed.

Lemma slli_low v : mm_slli_si128 v 8 = N.shiftl (low64 v) 64.
Proof. apply w128_shiftl64. Qed.

Lemma srli_high v : mm_srli_si128 v 8 = high64 v.
Proof. done. Qed.

Lemma lane_0 v : vgetq_lane_u64 v 0 = low64 v.
Proof. unfold vgetq_lane_u64. by rewrite N.mul_0_r, N.shiftr_0_r. Qed.

Lemma lane_1 v : v < 2 ^ 128 -> vgetq_lane_u64 v 1 = high64 v.
Proof. intros. unfold vgetq_lane_u64. apply N.mod_small. by apply high64_lt. Qed.

Lemma dup_0 : vdupq_n_u8 0 = 0.
Proof. reflexivity. Qed.

Lemma ext_low v : vextq_u8 0 v 8 = N.shiftl (low64 v) 64.
Proof.
  unfold vextq_u8. rewrite N.add_0_l, <-w128_shiftl64. f_equal.
  rewrite N.shiftr_div_pow2, N.shiftl_mul_pow2. change (2 ^ 128) with (2 ^ 64 * 2 ^ 64).
  change (2 ^ (8 * 8)) with (2 ^ 64). rewrite N.mul_assoc. by apply N.div_mul.
Qed.

Lemma ext_high v : v < 2 ^ 128 -> vextq_u8 v 0 8 = high64 v.
Proof.
  intros Hv. unfold vextq_u8. rewrite N.mul_0_l, N.add_0_r. apply N.mod_small.
  eapply N.lt_trans; [by apply high64_lt|done].
Qed.

Lemma combine_swap v : v < 2 ^ 128 -> vcombine_u64 (high64 v) (low64 v) = swap64 v.
Proof. intros. unfold vcombine_u64. by apply add_lxor, high64_lt. Qed.

Lemma load_lt l : le_num (take 16 l) < 2 ^ 128.
Proof.
  pose proof (le_num_lt (take 16 l)) as Hl. eapply N.lt_le_trans; [exact Hl|].
  change (2 ^ 128) with (256 ^ 16). apply N.pow_le_mono_r; [done|].
  rewrite length_take. lia.
Qed.
