(* ===== verification/SivCommon.v ===== *)
(** The AES-GCM-SIV crate: its errors ([error.rs]), the machine it runs on
    ([cpuid.rs]), and the chunks of a slice. *)

From S2P Require Import Prelude.

Module Siv.
Inductive Error :=
  | InvalidKeySize
  | InvalidNonceSize
  | InvalidInputSize
  | InvalidOutputBuffer
  | InvalidTag
  | CpuidFailure.

#[global] Instance error_eq_dec : EqDecision Error.
Proof. solve_decision. Defined.

Abbreviation Result := (outcome Error).
End Siv.

(** The target architecture ([cfg]), and what the processor reports. *)
Inductive Target := TargetX86 | TargetAarch64 | TargetOther.

Class Machine := {
  target : Target;
  cpu_aes : bool;
  cpu_pclmulqdq : bool;
  cpu_ssse3 : bool;
  (** [getauxval(AT_HWCAP)] on AArch64. *)
  hwcap : Z;
}.

Definition has_intel_aesni `{Machine} : bool := cpu_aes && cpu_pclmulqdq && cpu_ssse3.

Definition has_armv8_crypto `{Machine} : bool :=
  let hwcap_crypto := Z.lor (Z.shiftl 1 1) (Z.lor (Z.shiftl 1 3) (Z.shiftl 1 4)) in
  (Z.land hwcap hwcap_crypto =? hwcap_crypto)%Z.

(** NEON, AES and PMULL are bits 1, 3 and 4 of the word. *)
Lemma has_armv8_crypto_bits `{Machine} :
  has_armv8_crypto = true <->
  Z.testbit hwcap 1 = true /\ Z.testbit hwcap 3 = true /\ Z.testbit hwcap 4 = true.
Proof.
  unfold has_armv8_crypto. change (Z.lor _ _) with 26%Z. rewrite Z.eqb_eq. split.
  - intros Heq. assert (Hb : forall i, Z.testbit (Z.land hwcap 26) i = Z.testbit 26 i) by by rewrite Heq.
    split_and!; [specialize (Hb 1%Z)|specialize (Hb 3%Z)|specialize (Hb 4%Z)];
      rewrite Z.land_spec in Hb; by apply andb_prop in Hb as [? _].
  - intros (H1 & H3 & H4). apply Z.bits_inj_iff'. intros i Hi. rewrite Z.land_spec.
    destruct (decide (i = 1 \/ i = 3 \/ i = 4)%Z) as [[->|[->| ->]]|Hne]; [by rewrite ?H1, ?H3, ?H4..|].
    destruct (Z.testbit 26 i) eqn:Ht; [exfalso|by rewrite andb_false_r].
    destruct (Z.lt_ge_cases i 5); [|by rewrite Z.bits_above_log2 in Ht by (cbn; lia)].
    assert (i = 0 \/ i = 2)%Z as [-> | ->] by lia; done.
Qed.

(** [for x in l]. *)
Fixpoint for_each {S} (l : list nat) (body : nat -> S -> Siv.Result S) (s : S) : Siv.Result S :=
  match l with [] => Ok s | i :: l => let? s := body i s in for_each l body s end.

Lemma for_each_app {S} l1 l2 (body : nat -> S -> Siv.Result S) s :
  for_each (l1 ++ l2) body s = (let? s := for_each l1 body s in for_each l2 body s).
Proof.
  revert s. induction l1 as [|i l1 IH]; intros s; [done|]. cbn [app for_each].
  destruct (body i s); [apply IH|done|done].
Qed.

(** The same loop where the body also changes an object [s] of its own. *)
Fixpoint st_for_each {S A} (l : list nat) (body : nat -> A -> ST Siv.Error S A) (a : A) : ST Siv.Error S A :=
  match l with [] => st_ret a | i :: l => let! a := body i a in st_for_each l body a end.

Lemma st_for_each_snoc {S A} l i (body : nat -> A -> ST Siv.Error S A) a s :
  st_for_each (l ++ [i]) body a s = (let! a := st_for_each l body a in body i a) s.
Proof.
  revert a s. induction l as [|j l IH]; intros a s; unfold st_bind; cbn [app st_for_each].
  - unfold st_bind, st_ret. by destruct (body i a s) as [[]].
  - unfold st_bind. destruct (body j a s) as [[a'|e|] s']; [apply IH|done|done].
Qed.

(** [dst[i..j].copy_from_slice(src)]: the range lies in [dst] and has the length
    of [src], or the call panics. *)
Definition copy_into (i j : nat) (src dst : bytes) : Siv.Result bytes :=
  if (i <=? j) && (j <=? length dst) && (j - i =? length src)
  then Ok (take i dst ++ src ++ drop j dst) else Panic.

Lemma copy_into_app l1 l2 l3 src i j :
  length l1 = i -> length l2 = length src -> (j = i + length src) ->
  copy_into i j src (l1 ++ l2 ++ l3) = Ok (l1 ++ src ++ l3).
Proof.
  intros <- Hl ->. unfold copy_into. rewrite !length_app.
  rewrite !(proj2 (Nat.leb_le _ _)), (proj2 (Nat.eqb_eq _ _)) by lia. cbn [andb].
  rewrite take_app_length. do 3 f_equal.
  rewrite app_assoc. by rewrite drop_app_length' by (rewrite length_app; lia).
Qed.

(** ** Lists of pieces of one length *)

Section Pieces.
Context {A : Type} (n : nat).
Implicit Types l : list (list A).

Lemma concat_drop l r :
  Forall (fun w => length w = n) l -> drop (n * r) (concat l) = concat (drop r l).
Proof.
  revert r. induction l as [|w l IH]; intros r Hl; [cbn [concat]; by rewrite !drop_nil|].
  inversion Hl as [|? ? Hw Hl']; subst. destruct r as [|r].
  - by rewrite Nat.mul_0_r, !drop_0.
  - replace (length w * S r) with (length w + length w * r) by lia. cbn [concat drop].
    by rewrite drop_app_add, IH.
Qed.

Lemma concat_take l r :
  Forall (fun w => length w = n) l -> take (n * r) (concat l) = concat (take r l).
Proof.
  revert r. induction l as [|w l IH]; intros r Hl; [cbn [concat]; by rewrite !take_nil|].
  inversion Hl as [|? ? Hw Hl']; subst. destruct r as [|r].
  - by rewrite Nat.mul_0_r, !take_0.
  - replace (length w * S r) with (length w + length w * r) by lia. cbn [concat take].
    by rewrite take_app_add, IH.
Qed.

Lemma concat_length l : Forall (fun w => length w = n) l -> length (concat l) = n * length l.
Proof. induction 1 as [|w l Hw _ IH]; [cbn; lia|]. cbn [concat length]. rewrite length_app. lia. Qed.

(** A loop that writes piece [i] in iteration [i] into a buffer of pieces; [mk]
    puts the buffer into the state of the loop. *)
Lemma fill_pieces {T} (mk : nat -> list A -> T) (body : nat -> T -> Siv.Result T) (piece : nat -> list A)
    (buf : list A) m k :
  (forall i (l1 old l3 : list A), length l1 = n * i -> length old = n -> i < m ->
     body i (mk i (l1 ++ old ++ l3)) = Ok (mk (S i) (l1 ++ piece i ++ l3))) ->
  (forall i, i < m -> length (piece i) = n) -> n * m <= length buf -> k <= m ->
  for_each (seq 0 k) body (mk 0 buf) = Ok (mk k (concat (map piece (seq 0 k)) ++ drop (n * k) buf)).
Proof.
  intros Hbody Hpiece Hl. induction k as [|k IH]; intros Hk.
  - cbn [seq for_each map concat app]. by rewrite Nat.mul_0_r, drop_0.
  - rewrite seq_S, for_each_app, IH by lia. cbn [obind for_each Nat.add].
    assert (Hn : n * S k <= n * m) by (apply Nat.mul_le_mono_l; lia).
    rewrite <-(take_drop n (drop (n * k) buf)), drop_drop.
    rewrite Hbody; [|rewrite concat_length|rewrite length_take, length_drop; lia|lia].
    + cbn [obind]. rewrite map_app, concat_app. cbn [map concat]. rewrite app_nil_r, <-!app_assoc.
      by replace (n * k + n) with (n * S k) by lia.
    + by rewrite length_map, length_seq.
    + apply list.Forall_forall. intros w Hw. apply list_elem_of_In, in_map_iff in Hw as (i & <- & Hi).
      apply Hpiece. apply in_seq in Hi. lia.
Qed.
End Pieces.

(** [chunks(n)], [chunks_mut(n)] and, on a multiple of [n], [chunks_exact(n)]. *)
Fixpoint chunks_fuel {A} (fuel n : nat) (l : list A) : list (list A) :=
  match fuel with
  | O => []
  | S fuel => match l with [] => [] | _ => take n l :: chunks_fuel fuel n (drop n l) end
  end.
Definition chunks {A} (n : nat) (l : list A) : list (list A) := chunks_fuel (length l) n l.

Section Chunks.
Context {A : Type}.
Implicit Types l : list A.

Lemma chunks_fuel_enough fuel n l :
  0 < n -> length l <= fuel -> chunks_fuel fuel n l = chunks n l.
Proof.
  intros Hn. unfold chunks. revert l. induction fuel as [fuel IH] using lt_wf_ind. intros l Hl.
  destruct l as [|a l]; [by destruct fuel|]. destruct fuel as [|fuel]; [cbn in Hl; lia|].
  cbn [chunks_fuel length]. f_equal. cbn [length] in Hl.
  assert (Hd : length (drop n (a :: l)) <= length l) by (rewrite length_drop; cbn [length]; lia).
  rewrite (IH fuel); [|lia|lia]. destruct (decide (length l < S fuel)) as [Hlt|]; [|lia].
  rewrite (IH (length l)); [done|lia|done].
Qed.

Lemma chunks_step n l : 0 < n -> l <> [] -> chunks n l = take n l :: chunks n (drop n l).
Proof.
  intros Hn Hl. unfold chunks at 1. destruct l as [|a l]; [done|]. cbn [chunks_fuel length]. f_equal.
  apply chunks_fuel_enough; [done|]. rewrite length_drop. cbn [length]. lia.
Qed.

Lemma chunks_nil n : chunks n [] = ([] : list (list A)).
Proof. done. Qed.

Lemma chunks_app n l1 l2 : 0 < n -> length l1 = n -> chunks n (l1 ++ l2) = l1 :: chunks n l2.
Proof.
  intros Hn Hl. rewrite chunks_step; [|done|].
  - by rewrite take_app_length', drop_app_length'.
  - destruct l1; cbn in *; [lia|done].
Qed.

Lemma chunks_split n l1 l2 :
  0 < n -> length l1 mod n = 0 -> chunks n (l1 ++ l2) = chunks n l1 ++ chunks n l2.
Proof.
  intros Hn. induction l1 as [l1 IH] using (induction_ltof1 _ (@length A)). unfold ltof in IH.
  intros Hm. destruct (decide (l1 = [])) as [->|Hl]; [done|].
  assert (Hle : n <= length l1).
  { destruct (Nat.lt_ge_cases (length l1) n) as [Hlt|]; [|done].
    rewrite Nat.mod_small in Hm by done. by apply length_zero_iff_nil in Hm. }
  rewrite (chunks_step n l1) by done.
  rewrite chunks_step by (try done; by destruct l1).
  rewrite take_app_le, drop_app_le by done. cbn [app]. f_equal. apply IH.
  - rewrite length_drop. destruct l1; [done|cbn [length] in *; lia].
  - rewrite length_drop, <-(Nat.Div0.mod_add (length l1 - n) 1 n).
    by replace (length l1 - n + 1 * n) with (length l1) by lia.
Qed.

Lemma concat_chunks n l : 0 < n -> concat (chunks n l) = l.
Proof.
  intros Hn. induction l as [l IH] using (induction_ltof1 _ (@length A)). unfold ltof in IH.
  destruct (decide (l = [])) as [->|Hl]; [done|].
  rewrite chunks_step by done. cbn [concat]. rewrite IH; [apply take_drop|].
  rewrite length_drop. destruct l; [done|cbn [length]; lia].
Qed.

(** Every chunk of a list whose length is a multiple of [n] has [n] elements. *)
Lemma chunks_length n l c : 0 < n -> length l mod n = 0 -> c ∈ chunks n l -> length c = n.
Proof.
  intros Hn. induction l as [l IH] using (induction_ltof1 _ (@length A)). unfold ltof in IH.
  intros Hm. destruct (decide (l = [])) as [->|Hl]; [rewrite chunks_nil; by intros ?%not_elem_of_nil|].
  rewrite chunks_step by done.
  assert (Hle : n <= length l).
  { destruct (Nat.lt_ge_cases (length l) n) as [Hlt|]; [|done].
    rewrite Nat.mod_small in Hm by done. by apply length_zero_iff_nil in Hm. }
  intros [->|Hc]%elem_of_cons; [rewrite length_take; lia|].
  apply (IH (drop n l)); [rewrite length_drop; destruct l; [done|cbn [length] in *; lia]| |done].
  rewrite length_drop. rewrite <-(Nat.Div0.mod_add (length l - n) 1 n).
  by replace (length l - n + 1 * n) with (length l) by lia.
Qed.

(** Chunks of [m * n], then chunks of [n] in each. *)
Lemma chunks_chunks m n l : 0 < m -> 0 < n ->
  concat (map (chunks n) (chunks (m * n) l)) = chunks n l.
Proof.
  intros Hm Hn. assert (Hmn : 0 < m * n) by lia.
  induction l as [l IH] using (induction_ltof1 _ (@length A)). unfold ltof in IH.
  destruct (decide (l = [])) as [->|Hl]; [done|].
  rewrite (chunks_step (m * n)) by done. cbn [map concat].
  assert (Hpos : 0 < length l) by (destruct l; [done|cbn; lia]).
  rewrite IH by (rewrite length_drop; lia).
  destruct (Nat.lt_ge_cases (length l) (m * n)) as [Hlt|Hge].
  - rewrite take_ge, drop_ge by lia. by rewrite app_nil_r.
  - rewrite <-chunks_split; [by rewrite take_drop|done|].
    rewrite length_take, Nat.min_l by done. apply Nat.Div0.mod_mul.
Qed.

Lemma chunks_count m n l : 0 < n -> length l = m * n -> length (chunks n l) = m.
Proof.
  intros Hn. revert l. induction m as [|m IH]; intros l Hl.
  - by destruct l.
  - rewrite chunks_step; [|done|by intros ->; cbn in Hl; lia]. cbn [length]. f_equal.
    apply IH. rewrite length_drop. lia.
Qed.

Lemma chunks_one n l : length l = n -> 0 < n -> chunks n l = [l].
Proof. intros Hl Hn. rewrite <-(app_nil_r l) at 1. by rewrite chunks_app. Qed.

(** Four chunks. *)
Lemma chunks_four n l : length l = 4 * n -> 0 < n ->
  chunks n l = [take n l; take n (drop n l); take n (drop (2 * n) l); take n (drop (3 * n) l)].
Proof.
  intros Hl Hn. assert (Hne : forall k, k < 4 -> drop (k * n) l <> []).
  { intros k Hk He. apply (f_equal length) in He. rewrite length_drop in He. cbn in He. nia. }
  assert (Hs : forall k, k < 4 ->
    chunks n (drop (k * n) l) = take n (drop (k * n) l) :: chunks n (drop (S k * n) l)).
  { intros k Hk. rewrite chunks_step by auto. rewrite drop_drop. do 3 f_equal. lia. }
  rewrite <-(drop_0 l) at 1. change (drop 0 l) with (drop (0 * n) l) at 1.
  rewrite !Hs by lia. rewrite (drop_ge l (4 * n)) by lia.
  rewrite Nat.mul_0_l, Nat.mul_1_l, drop_0. done.
Qed.

Lemma chunks_mod m n l c : 0 < m -> 0 < n ->
  length l mod n = 0 -> c ∈ chunks (m * n) l -> length c mod n = 0.
Proof.
  intros Hm Hn. assert (Hmn : 0 < m * n) by lia.
  induction l as [l IH] using (induction_ltof1 _ (@length A)). unfold ltof in IH. intros Hl.
  destruct (decide (l = [])) as [->|Hne]; [by intros ?%not_elem_of_nil|].
  assert (0 < length l) by (destruct l; [done|cbn; lia]).
  rewrite chunks_step by done. intros [->|Hc]%elem_of_cons.
  - rewrite length_take. destruct (Nat.min_spec (m * n) (length l)) as [[_ ->]|[_ ->]]; [|done].
    apply Nat.Div0.mod_mul.
  - apply (IH (drop (m * n) l)); [rewrite length_drop; lia| |done].
    rewrite length_drop. destruct (Nat.le_gt_cases (m * n) (length l)) as [Hle|Hgt].
    + rewrite <-(Nat.Div0.mod_add _ m). by replace (length l - m * n + m * n) with (length l) by lia.
    + replace (length l - m * n) with 0 by lia. by apply Nat.Div0.mod_0_l.
Qed.
End Chunks.
