(* ===== verification/Polyval.v ===== *)
(** POLYVAL ([polyval.rs], [polyval/*.rs]): the three implementations and the
    function of RFC 8452 they compute.

    The portable one wraps the [polyval] crate, which is a parameter here; the
    other two are the crate's own code over vector instructions. *)

From S2P Require Import Prelude Gf2 Simd SivCommon.
From Stdlib Require Import Ring.
Local Open Scope N_scope.

(** * The reference: RFC 8452, section 3 *)

(** [x^128 + x^127 + x^126 + x^121 + 1]. *)
Definition field_poly : N := N.lor (2 ^ 128) (N.lor (2 ^ 127) (N.lor (2 ^ 126) (N.lor (2 ^ 121) 1))).

(** Division by [x^n] modulo [field_poly], one [x] at a time. *)
Fixpoint div_x (n : nat) (v : N) : N :=
  match n with
  | O => v
  | S n => div_x n (N.div2 (if N.odd v then N.lxor v field_poly else v))
  end.

(** [dot(a, b) = a * b * x^-128]. *)
Definition dot (a b : N) : N := div_x 128 (clmul a b).

(** POLYVAL of 16-byte blocks, from the accumulator [s]. *)
Definition polyval_blocks (h s : N) (l : list bytes) : N :=
  fold_left (fun s x => dot (N.lxor s (le_num x)) h) l s.

Definition pad16 (data : bytes) : bytes :=
  data ++ replicate ((16 - length data mod 16) mod 16) Byte.x00.

(** * The crate [polyval] *)

Class PolyvalCrate := {
  SoftPolyval : Type;
  soft_new : bytes -> SoftPolyval;
  soft_update : SoftPolyval -> bytes -> SoftPolyval;
  soft_update_padded : SoftPolyval -> bytes -> SoftPolyval;
  soft_finalize : SoftPolyval -> bytes;
}.

(** Documented: "implementation of POLYVAL, as specified in RFC 8452". [update]
    takes one block, [update_padded] bytes of any length. *)
Class PolyvalLaws `{PolyvalCrate} := {
  soft_holds : SoftPolyval -> N -> N -> Prop;
  soft_new_holds : forall key, length key = 16%nat -> soft_holds (soft_new key) (le_num key) 0;
  soft_update_holds : forall p h s data, soft_holds p h s -> length data = 16%nat ->
    soft_holds (soft_update p data) h (polyval_blocks h s (chunks 16 data));
  soft_update_padded_holds : forall p h s data, soft_holds p h s ->
    soft_holds (soft_update_padded p data) h (polyval_blocks h s (chunks 16 (pad16 data)));
  soft_finalize_holds : forall p h s, soft_holds p h s -> soft_finalize p = le_bytes 16 s;
}.

Module PolyvalSoft.
Section Operations.
Context `{PolyvalCrate}.

Definition new (key : bytes) : Siv.Result SoftPolyval :=
  if negb (length key =? 16)%nat then Err Siv.InvalidKeySize else Ok (soft_new key).

(** [data.into()], from a slice to the crate's 16-byte block, asserts the length. *)
Definition into_block (data : bytes) : Siv.Result bytes :=
  let? _ := rust_assert (length data =? 16)%nat in Ok data.

Definition update (p : SoftPolyval) (data : bytes) : Siv.Result SoftPolyval :=
  let? _ := rust_assert (length data mod 16 =? 0)%nat in
  let? block := into_block data in
  Ok (soft_update p block).

Definition update_padded (p : SoftPolyval) (data : bytes) : Siv.Result SoftPolyval :=
  Ok (soft_update_padded p data).

Definition finalize (p : SoftPolyval) : Siv.Result bytes := Ok (soft_finalize p).
End Operations.
End PolyvalSoft.

(** What the two vector implementations share word for word. *)
Section Vector.
Context (T : Type) (process_block : T -> bytes -> T).

Definition vec_update (p : T) (data : bytes) : Siv.Result T :=
  let? _ := rust_assert (length data mod 16 =? 0)%nat in
  Ok (fold_left process_block (chunks 16 data) p).

Definition vec_update_padded (p : T) (data : bytes) : Siv.Result T :=
  let full_blocks := (length data / 16)%nat in
  let remainder := (length data mod 16)%nat in
  let? head := slice 0 (full_blocks * 16) data in
  let? p := vec_update p head in
  if (0 <? remainder)%nat then
    let? rest := slice (full_blocks * 16) (length data) data in
    let rembytes := rest ++ replicate (16 - remainder) Byte.x00 in
    vec_update p rembytes
  else Ok p.
End Vector.

Module PolyvalClmul.
Record t := mk { h : N; s : N }.

Definition new (key : bytes) : Siv.Result t :=
  if negb (length key =? 16)%nat then Err Siv.InvalidKeySize
  else Ok (mk (mm_loadu_si128 key) mm_setzero_si128).

Definition process_block (p : t) (chunk : bytes) : t :=
  let poly := mm_set_epi32 (-0x3e000000) 0 0 0 in
  let h := h p in
  let input := mm_loadu_si128 chunk in
  let t := mm_xor_si128 (s p) input in
  let pm := mm_xor_si128 (mm_clmulepi64_si128 t h 0x01) (mm_clmulepi64_si128 t h 0x10) in
  let pl := mm_clmulepi64_si128 t h 0x00 in
  let ph := mm_clmulepi64_si128 t h 0x11 in
  let t0 := mm_xor_si128 (mm_slli_si128 pm 8) pl in
  let t1 := mm_xor_si128 (mm_srli_si128 pm 8) ph in
  let r0 := mm_xor_si128 (mm_shuffle_epi32 t0 0x4E) (mm_clmulepi64_si128 t0 poly 0x10) in
  let r1 := mm_xor_si128 (mm_shuffle_epi32 r0 0x4E) (mm_clmulepi64_si128 r0 poly 0x10) in
  mk h (mm_xor_si128 t1 r1).

Definition update : t -> bytes -> Siv.Result t := vec_update t process_block.
Definition update_padded : t -> bytes -> Siv.Result t := vec_update_padded t process_block.
Definition finalize (p : t) : Siv.Result bytes := Ok (vec_bytes (s p)).
End PolyvalClmul.

Module PolyvalPmul.
Record t := mk { h : N; s : N }.

Definition swap_halves (x : N) : N :=
  let hi := vgetq_lane_u64 x 1 in
  let lo := vgetq_lane_u64 x 0 in
  vcombine_u64 hi lo.

Definition new (key : bytes) : Siv.Result t :=
  if negb (length key =? 16)%nat then Err Siv.InvalidKeySize
  else Ok (mk (vld1q_u8 key) (vdupq_n_u8 0)).

Definition process_block (p : t) (chunk : bytes) : t :=
  let poly := 0xc200000000000000 in
  let h := h p in
  let h0 := vgetq_lane_u64 h 0 in
  let h1 := vgetq_lane_u64 h 1 in
  let input := vld1q_u8 chunk in
  let t := veorq_u8 (s p) input in
  let t0 := vgetq_lane_u64 t 0 in
  let t1 := vgetq_lane_u64 t 1 in
  let pl := vmull_p64 t0 h0 in
  let ph := vmull_p64 t1 h1 in
  let pm := veorq_u8 (vmull_p64 t0 h1) (vmull_p64 t1 h0) in
  let t0 := veorq_u8 (vextq_u8 (vdupq_n_u8 0) pm 8) pl in
  let t1 := veorq_u8 (vextq_u8 pm (vdupq_n_u8 0) 8) ph in
  let rp0 := vmull_p64 (vgetq_lane_u64 t0 0) poly in
  let r0 := veorq_u8 (swap_halves t0) rp0 in
  let rp1 := vmull_p64 (vgetq_lane_u64 r0 0) poly in
  let r1 := veorq_u8 (swap_halves r0) rp1 in
  mk h (veorq_u8 t1 r1).

Definition update : t -> bytes -> Siv.Result t := vec_update t process_block.
Definition update_padded : t -> bytes -> Siv.Result t := vec_update_padded t process_block.
Definition finalize (p : t) : Siv.Result bytes := Ok (vec_bytes (s p)).
End PolyvalPmul.

(** * The dispatch ([polyval.rs]) *)

Module Polyval.
Section Operations.
Context `{PolyvalCrate, Machine}.

Inductive t :=
  | Soft (p : SoftPolyval)
  | Clmul (p : PolyvalClmul.t)
  | Pmul (p : PolyvalPmul.t).

Definition new (key : bytes) : Siv.Result t :=
  if negb (length key =? 16)%nat then Err Siv.InvalidKeySize
  else
    let soft := let? p := PolyvalSoft.new key in Ok (Soft p) in
    match target with
    | TargetX86 =>
        if has_intel_aesni then let? p := PolyvalClmul.new key in Ok (Clmul p) else soft
    | TargetAarch64 =>
        if has_armv8_crypto then let? p := PolyvalPmul.new key in Ok (Pmul p) else soft
    | TargetOther => soft
    end.

Definition update (p : t) (data : bytes) : Siv.Result t :=
  if negb (length data mod 16 =? 0)%nat then Err Siv.InvalidInputSize
  else
    match p with
    | Soft p => let? p := PolyvalSoft.update p data in Ok (Soft p)
    | Clmul p => let? p := PolyvalClmul.update p data in Ok (Clmul p)
    | Pmul p => let? p := PolyvalPmul.update p data in Ok (Pmul p)
    end.

Definition update_padded (p : t) (data : bytes) : Siv.Result t :=
  match p with
  | Soft p => let? p := PolyvalSoft.update_padded p data in Ok (Soft p)
  | Clmul p => let? p := PolyvalClmul.update_padded p data in Ok (Clmul p)
  | Pmul p => let? p := PolyvalPmul.update_padded p data in Ok (Pmul p)
  end.

Definition finalize (p : t) : Siv.Result bytes :=
  match p with
  | Soft p => PolyvalSoft.finalize p
  | Clmul p => PolyvalClmul.finalize p
  | Pmul p => PolyvalPmul.finalize p
  end.
End Operations.
End Polyval.

(** * The reference: a field multiplication *)

Lemma field_poly_odd : N.odd field_poly = true.
Proof. reflexivity. Qed.

Lemma field_poly_log2 : N.log2 field_poly = 128.
Proof. reflexivity. Qed.

Lemma div_x_spec n v : exists q, N.shiftl (div_x n v) (N.of_nat n) = N.lxor v (clmul q field_poly).
Proof.
  revert v. induction n as [|n IH]; intros v.
  - exists 0. by rewrite N.shiftl_0_r, clmul_0_l, N.lxor_0_r.
  - cbn [div_x]. set (w := if N.odd v then N.lxor v field_poly else v).
    assert (Hw : exists b, w = N.lxor v (clmul b field_poly) /\ N.odd w = false).
    { unfold w. destruct (N.odd v) eqn:Hv.
      - exists 1. rewrite clmul_1_l. split; [done|].
        by rewrite <-N.bit0_odd, N.lxor_spec, !N.bit0_odd, Hv, field_poly_odd.
      - exists 0. by rewrite clmul_0_l, N.lxor_0_r. }
    destruct Hw as (b & Hw & Hodd). destruct (IH (N.div2 w)) as (q & Hq).
    exists (N.lxor b (N.double q)). rewrite Nat2N.inj_succ, N.shiftl_succ_r, Hq, double_lxor.
    assert (Hd : N.double (N.div2 w) = w).
    { pose proof (split_bit0 w) as Hs. unfold bit0 in Hs. by rewrite Hodd in Hs. }
    rewrite Hd, Hw, clmul_lxor_l, clmul_double_l. by rewrite N.lxor_assoc.
Qed.

Lemma div_x_lt n k v : v < 2 ^ (N.of_nat (n + k) + 128) -> div_x n v < 2 ^ (N.of_nat k + 128) .
Proof.
  revert v. induction n as [|n IH]; intros v Hv; [done|]. cbn [div_x]. apply IH.
  assert (Hw : (if N.odd v then N.lxor v field_poly else v) < 2 ^ (N.of_nat (S n + k) + 128)).
  { destruct (N.odd v); [|done]. apply lxor_lt; [done|].
    eapply (N.lt_le_trans _ (2 ^ 129)); [reflexivity|]. apply N.pow_le_mono_r; lia. }
  rewrite N.div2_spec. apply (shiftr_lt _ _ 1).
  by replace (N.of_nat (n + k) + 128 + 1) with (N.of_nat (S n + k) + 128) by lia.
Qed.

Lemma dot_lt a b : a < 2 ^ 128 -> b < 2 ^ 128 -> dot a b < 2 ^ 128.
Proof.
  intros Ha Hb. apply (div_x_lt 128 0). apply (clmul_lt a b 128 128 Ha Hb).
Qed.

(** [dot a b] is the only element of the field that is [a * b] when multiplied
    by [x^128]. *)
Lemma dot_unique a b c :
  a < 2 ^ 128 -> b < 2 ^ 128 -> c < 2 ^ 128 ->
  (exists q, N.shiftl c 128 = N.lxor (clmul a b) (clmul q field_poly)) <-> c = dot a b.
Proof.
  intros Ha Hb Hc. destruct (div_x_spec 128 (clmul a b)) as (q & Hq).
  change (N.of_nat 128) with 128 in Hq. split; [|by intros ->; exists q].
  intros (q' & Hq'). apply (remainder_unique c (dot a b) (N.lxor q' q) field_poly 128 128);
    [apply field_poly_odd|apply field_poly_log2|done|by apply dot_lt|].
  unfold dot. rewrite Hq', Hq, clmul_lxor_l. ring.
Qed.

(** * The vector code computes [dot]

    One folding step divides by [x^64]: [field_poly] is [1 + x^64 * p + x^128],
    so adding [low64 v] times it clears the low half. *)

Definition p64 : N := 0xc200000000000000.

Lemma field_poly_p64 : field_poly = N.lxor 1 (clmul (2 ^ 64) (N.lxor p64 (2 ^ 64))).
Proof. reflexivity. Qed.

Definition fold64 (v : N) : N := N.lxor (swap64 v) (clmul (low64 v) p64).

Lemma fold64_spec v : clmul (2 ^ 64) (fold64 v) = N.lxor v (clmul (low64 v) field_poly).
Proof.
  rewrite (split64 v) at 2. unfold fold64, swap64. rewrite <-clmul_pow2_l, field_poly_p64. ring.
Qed.

Lemma fold64_lt v : v < 2 ^ 128 -> fold64 v < 2 ^ 128.
Proof. intros. apply lxor_lt; [by apply swap64_lt|]. by apply (clmul_lt _ _ 64 64); [apply low64_lt|]. Qed.

(** The product of two 128-bit polynomials as two 128-bit halves. *)
Definition product_mid (t h : N) : N :=
  N.lxor (clmul (low64 t) (high64 h)) (clmul (high64 t) (low64 h)).
Definition product_low (t h : N) : N :=
  N.lxor (clmul (2 ^ 64) (low64 (product_mid t h))) (clmul (low64 t) (low64 h)).
Definition product_high (t h : N) : N :=
  N.lxor (high64 (product_mid t h)) (clmul (high64 t) (high64 h)).

Lemma product_halves t h :
  clmul t h = N.lxor (product_low t h) (clmul (clmul (2 ^ 64) (2 ^ 64)) (product_high t h)).
Proof.
  unfold product_low, product_high. rewrite (split64 t) at 1. rewrite (split64 h) at 1.
  transitivity (N.lxor (clmul (low64 t) (low64 h))
    (N.lxor (clmul (2 ^ 64) (product_mid t h))
       (clmul (clmul (2 ^ 64) (2 ^ 64)) (clmul (high64 t) (high64 h))))).
  - unfold product_mid. ring.
  - rewrite (split64 (product_mid t h)) at 1. ring.
Qed.

Lemma product_bounds t h : t < 2 ^ 128 -> h < 2 ^ 128 ->
  product_mid t h < 2 ^ 128 /\ product_low t h < 2 ^ 128 /\ product_high t h < 2 ^ 128.
Proof.
  intros Ht Hh. pose proof (low64_lt t). pose proof (low64_lt h).
  pose proof (high64_lt t Ht). pose proof (high64_lt h Hh).
  assert (Hm : product_mid t h < 2 ^ 128) by by apply lxor_lt; apply (clmul_lt _ _ 64 64).
  split_and!; [done|apply lxor_lt|apply lxor_lt]; try by apply (clmul_lt _ _ 64 64).
  - rewrite clmul_pow2_l. apply (shiftl_lt _ 64 64), low64_lt.
  - eapply N.lt_trans; [by apply high64_lt|done].
Qed.

Definition fold_product (t h : N) : N :=
  N.lxor (product_high t h) (fold64 (fold64 (product_low t h))).

Lemma fold_product_dot t h : t < 2 ^ 128 -> h < 2 ^ 128 -> fold_product t h = dot t h.
Proof.
  intros Ht Hh. destruct (product_bounds t h Ht Hh) as (_ & Hl & Hu).
  apply dot_unique; [done|done|by apply lxor_lt; [|apply fold64_lt, fold64_lt]|].
  exists (N.lxor (low64 (product_low t h)) (clmul (2 ^ 64) (low64 (fold64 (product_low t h))))).
  rewrite <-clmul_pow2_l, (product_halves t h). change (2 ^ 128) with (clmul (2 ^ 64) (2 ^ 64)).
  unfold fold_product.
  transitivity (N.lxor (clmul (clmul (2 ^ 64) (2 ^ 64)) (product_high t h))
    (clmul (2 ^ 64) (clmul (2 ^ 64) (fold64 (fold64 (product_low t h)))))); [ring|].
  rewrite fold64_spec. rewrite (clmul_lxor_r (2 ^ 64)), fold64_spec. ring.
Qed.

Lemma clmul_block (p : PolyvalClmul.t) chunk :
  PolyvalClmul.h p < 2 ^ 128 -> PolyvalClmul.s p < 2 ^ 128 -> length chunk = 16%nat ->
  PolyvalClmul.process_block p chunk
  = PolyvalClmul.mk (PolyvalClmul.h p)
      (dot (N.lxor (PolyvalClmul.s p) (le_num chunk)) (PolyvalClmul.h p)).
Proof.
  intros Hh Hs Hc. unfold PolyvalClmul.process_block. f_equal.
  assert (Hx : le_num chunk < 2 ^ 128) by (rewrite <-(take_ge chunk 16) by lia; apply load_lt).
  unfold mm_loadu_si128. rewrite take_ge by lia.
  set (t := N.lxor (PolyvalClmul.s p) (le_num chunk)).
  assert (Ht : t < 2 ^ 128) by by apply lxor_lt.
  rewrite <-fold_product_dot by done. destruct (product_bounds t _ Ht Hh) as (_ & Hl & _).
  change (mm_set_epi32 _ _ _ _) with (N.shiftl p64 64).
  unfold mm_xor_si128. fold t.
  destruct (clmul_imm t (PolyvalClmul.h p)) as (-> & -> & -> & ->).
  repeat match goal with |- context [mm_clmulepi64_si128 ?a ?b 0x10] =>
    rewrite (proj1 (proj2 (proj2 (clmul_imm a b)))) end.
  rewrite slli_low, srli_high, <-clmul_pow2_l.
  rewrite (N.lxor_comm (clmul (high64 t) _)). fold (product_mid t (PolyvalClmul.h p)).
  fold (product_low t (PolyvalClmul.h p)) (product_high t (PolyvalClmul.h p)).
  change (high64 (N.shiftl p64 64)) with p64.
  rewrite (shuffle_swap _ Hl). fold (fold64 (product_low t (PolyvalClmul.h p))).
  rewrite shuffle_swap by by apply fold64_lt. done.
Qed.

Lemma pmul_block (p : PolyvalPmul.t) chunk :
  PolyvalPmul.h p < 2 ^ 128 -> PolyvalPmul.s p < 2 ^ 128 -> length chunk = 16%nat ->
  PolyvalPmul.process_block p chunk
  = PolyvalPmul.mk (PolyvalPmul.h p)
      (dot (N.lxor (PolyvalPmul.s p) (le_num chunk)) (PolyvalPmul.h p)).
Proof.
  intros Hh Hs Hc. unfold PolyvalPmul.process_block. f_equal.
  assert (Hx : le_num chunk < 2 ^ 128) by (rewrite <-(take_ge chunk 16) by lia; apply load_lt).
  unfold vld1q_u8. rewrite take_ge by lia. unfold veorq_u8, vmull_p64.
  set (t := N.lxor (PolyvalPmul.s p) (le_num chunk)).
  assert (Ht : t < 2 ^ 128) by by apply lxor_lt.
  rewrite <-fold_product_dot by done.
  destruct (product_bounds t _ Ht Hh) as (Hm & Hl & _).
  unfold PolyvalPmul.swap_halves. rewrite dup_0, !lane_0, (lane_1 t), (lane_1 (PolyvalPmul.h p)) by done.
  fold (product_mid t (PolyvalPmul.h p)). rewrite ext_low, ext_high, <-clmul_pow2_l by done.
  fold (product_low t (PolyvalPmul.h p)) (product_high t (PolyvalPmul.h p)).
  rewrite (lane_1 _ Hl), (combine_swap _ Hl). fold p64. fold (fold64 (product_low t (PolyvalPmul.h p))).
  assert (Hf : fold64 (product_low t (PolyvalPmul.h p)) < 2 ^ 128) by by apply fold64_lt.
  by rewrite (lane_1 _ Hf), (combine_swap _ Hf).
Qed.

(** * Whole inputs

    Two views of a vector implementation's state: its key and accumulator. *)

Lemma le_num_block_lt x : length x = 16%nat -> le_num x < 2 ^ 128.
Proof. intros Hx. rewrite <-(take_ge x 16) by lia. apply load_lt. Qed.

Lemma polyval_blocks_cons h s x l :
  polyval_blocks h s (x :: l) = polyval_blocks h (dot (N.lxor s (le_num x)) h) l.
Proof. reflexivity. Qed.

Lemma polyval_blocks_app h s l1 l2 :
  polyval_blocks h s (l1 ++ l2) = polyval_blocks h (polyval_blocks h s l1) l2.
Proof. apply fold_left_app. Qed.

#[global] Opaque dot polyval_blocks.

Lemma polyval_blocks_lt h s l :
  h < 2 ^ 128 -> s < 2 ^ 128 -> (forall x, x ∈ l -> length x = 16%nat) -> polyval_blocks h s l < 2 ^ 128.
Proof.
  intros Hh. revert s. induction l as [|x l IH]; intros s Hs Hl; [done|]. rewrite polyval_blocks_cons.
  apply IH; [|intros y Hy; apply Hl; by right].
  apply dot_lt; [|done]. apply lxor_lt; [done|]. apply le_num_block_lt, Hl. by left.
Qed.

Lemma pad16_length data : (length (pad16 data) mod 16 = 0)%nat.
Proof.
  unfold pad16. rewrite length_app, length_replicate.
  pose proof (Nat.div_mod_eq (length data) 16). pose proof (Nat.mod_upper_bound (length data) 16).
  destruct (decide (length data mod 16 = 0)%nat) as [Hz|Hz].
  - rewrite Hz. change ((16 - 0) mod 16)%nat with 0%nat. by rewrite Nat.add_0_r.
  - rewrite (Nat.mod_small (16 - _)) by lia.
    replace (length data + (16 - length data mod 16))%nat with ((length data / 16 + 1) * 16)%nat by lia.
    apply Nat.Div0.mod_mul.
Qed.

Section Vector.
Context {T : Type} (process_block : T -> bytes -> T) (key acc : T -> N).
Context (process_block_dot : forall p chunk,
  key p < 2 ^ 128 -> acc p < 2 ^ 128 -> length chunk = 16%nat ->
  key (process_block p chunk) = key p /\
  acc (process_block p chunk) = dot (N.lxor (acc p) (le_num chunk)) (key p)).

Definition vec_holds (p : T) (h s : N) : Prop := key p = h /\ acc p = s /\ h < 2 ^ 128 /\ s < 2 ^ 128.

Lemma fold_blocks p h s l :
  vec_holds p h s -> (forall x, x ∈ l -> length x = 16%nat) ->
  vec_holds (fold_left process_block l p) h (polyval_blocks h s l).
Proof.
  revert p s. induction l as [|x l IH]; intros p s Hp Hl; [done|].
  cbn [fold_left]. rewrite polyval_blocks_cons. destruct Hp as (Hk & Ha & Hh & Hs).
  assert (Hx : length x = 16%nat) by (apply Hl; by left).
  destruct (process_block_dot p x) as [Hk' Ha']; [by rewrite Hk|by rewrite Ha|done|].
  apply IH; [|intros y Hy; apply Hl; by right].
  split_and!; [by rewrite Hk'|by rewrite Ha', Ha, Hk|done|].
  apply dot_lt; [|done]. apply lxor_lt; [done|]. by apply le_num_block_lt.
Qed.

Lemma vec_update_ok p h s data : vec_holds p h s -> (length data mod 16 = 0)%nat ->
  exists p', vec_update T process_block p data = Ok p' /\
    vec_holds p' h (polyval_blocks h s (chunks 16 data)).
Proof.
  intros Hp Hm. unfold vec_update. rewrite Hm. cbn [Nat.eqb rust_assert obind].
  eexists. split; [done|]. apply fold_blocks; [done|]. intros x. apply chunks_length; [lia|done].
Qed.

Lemma vec_update_padded_ok p h s data : vec_holds p h s ->
  exists p', vec_update_padded T process_block p data = Ok p' /\
    vec_holds p' h (polyval_blocks h s (chunks 16 (pad16 data))).
Proof.
  intros Hp. unfold vec_update_padded.
  pose proof (Nat.div_mod_eq (length data) 16) as Hdm.
  pose proof (Nat.mod_upper_bound (length data) 16) as Hub.
  set (n := (length data / 16 * 16)%nat) in *.
  rewrite slice_ok by lia. cbn [obind]. rewrite drop_0, Nat.sub_0_r.
  assert (Hln : length (take n data) = n) by (rewrite length_take; lia).
  destruct (vec_update_ok p h s (take n data) Hp) as (p1 & Hp1 & Hh1).
  { rewrite Hln. apply Nat.Div0.mod_mul. }
  rewrite Hp1. cbn [obind].
  destruct (Nat.ltb_spec 0 (length data mod 16)) as [Hr|Hr].
  - rewrite slice_ok by lia. cbn [obind]. rewrite (take_ge (drop n data)) by (rewrite length_drop; lia).
    destruct (vec_update_ok p1 h _ (drop n data ++ replicate (16 - length data mod 16) Byte.x00) Hh1)
      as (p2 & Hp2 & Hh2).
    { rewrite length_app, length_drop, length_replicate.
      by replace (length data - n + (16 - length data mod 16))%nat with 16%nat by lia. }
    exists p2. split; [done|]. replace (polyval_blocks h s (chunks 16 (pad16 data)))
      with (polyval_blocks h (polyval_blocks h s (chunks 16 (take n data)))
              (chunks 16 (drop n data ++ replicate (16 - length data mod 16) Byte.x00))); [done|].
    rewrite <-polyval_blocks_app. f_equal. rewrite <-chunks_split.
    + unfold pad16. by rewrite app_assoc, take_drop, (Nat.mod_small (16 - _)) by lia.
    + lia.
    + rewrite Hln. apply Nat.Div0.mod_mul.
  - exists p1. split; [done|]. unfold pad16. replace (length data mod 16)%nat with 0%nat by lia.
    rewrite app_nil_r. by rewrite take_ge in Hh1 by lia.
Qed.
End Vector.

Lemma clmul_dot (p : PolyvalClmul.t) chunk :
  PolyvalClmul.h p < 2 ^ 128 -> PolyvalClmul.s p < 2 ^ 128 -> length chunk = 16%nat ->
  PolyvalClmul.h (PolyvalClmul.process_block p chunk) = PolyvalClmul.h p /\
  PolyvalClmul.s (PolyvalClmul.process_block p chunk)
    = dot (N.lxor (PolyvalClmul.s p) (le_num chunk)) (PolyvalClmul.h p).
Proof. intros. by rewrite clmul_block. Qed.

Lemma pmul_dot (p : PolyvalPmul.t) chunk :
  PolyvalPmul.h p < 2 ^ 128 -> PolyvalPmul.s p < 2 ^ 128 -> length chunk = 16%nat ->
  PolyvalPmul.h (PolyvalPmul.process_block p chunk) = PolyvalPmul.h p /\
  PolyvalPmul.s (PolyvalPmul.process_block p chunk)
    = dot (N.lxor (PolyvalPmul.s p) (le_num chunk)) (PolyvalPmul.h p).
Proof. intros. by rewrite pmul_block. Qed.

(** * The dispatch *)

Section Dispatch.
Context `{PolyvalCrate, !PolyvalLaws, Machine}.

Definition holds (p : Polyval.t) (h s : N) : Prop :=
  match p with
  | Polyval.Soft p => soft_holds p h s
  | Polyval.Clmul p => vec_holds PolyvalClmul.h PolyvalClmul.s p h s
  | Polyval.Pmul p => vec_holds PolyvalPmul.h PolyvalPmul.s p h s
  end.

Definition is_soft (p : Polyval.t) : bool := match p with Polyval.Soft _ => true | _ => false end.

(** Whether this machine uses the portable implementation. *)
Definition portable : bool :=
  match target with
  | TargetX86 => negb has_intel_aesni
  | TargetAarch64 => negb has_armv8_crypto
  | TargetOther => true
  end.

Lemma polyval_new_ok key : length key = 16%nat ->
  exists p, Polyval.new key = Ok p /\ is_soft p = portable /\ holds p (le_num key) 0.
Proof.
  intros Hk. unfold Polyval.new, PolyvalSoft.new, PolyvalClmul.new, PolyvalPmul.new.
  rewrite Hk. cbn [negb Nat.eqb obind].
  assert (Hload : le_num (take 16 key) = le_num key) by (by rewrite take_ge by lia).
  unfold portable.
  destruct target; [destruct has_intel_aesni|destruct has_armv8_crypto|]; eexists;
    (split; [done|]); (split; [done|]); try by apply soft_new_holds.
  all: unfold holds, vec_holds; cbn; unfold mm_loadu_si128, vld1q_u8; rewrite Hload;
    split_and!; try done; by apply le_num_block_lt.
Qed.

(** What [update] takes: whole blocks, and exactly one in the portable case. *)
Definition whole (soft : bool) (data : bytes) : Prop :=
  (length data mod 16 = 0)%nat /\ (soft = true -> length data = 16%nat).

Lemma whole_block soft data : length data = 16%nat -> whole soft data.
Proof. intros Hd. split; [by rewrite Hd|done]. Qed.

Lemma polyval_update_ok p h s data : holds p h s -> whole (is_soft p) data ->
  exists p', Polyval.update p data = Ok p' /\ is_soft p' = is_soft p /\
    holds p' h (polyval_blocks h s (chunks 16 data)).
Proof.
  intros Hp [Hm Hs]. unfold Polyval.update. rewrite Hm. cbn [negb Nat.eqb].
  destruct p as [p|p|p]; cbn [holds is_soft] in Hp, Hs.
  - specialize (Hs eq_refl). unfold PolyvalSoft.update, PolyvalSoft.into_block. rewrite Hm, Hs.
    cbn [Nat.eqb rust_assert obind]. eexists. split; [done|]. split; [done|].
    by apply soft_update_holds.
  - destruct (vec_update_ok _ _ _ clmul_dot p h s data Hp Hm) as (p' & Hu & Hp').
    unfold PolyvalClmul.update. rewrite Hu. by exists (Polyval.Clmul p').
  - destruct (vec_update_ok _ _ _ pmul_dot p h s data Hp Hm) as (p' & Hu & Hp').
    unfold PolyvalPmul.update. rewrite Hu. by exists (Polyval.Pmul p').
Qed.

(** The portable implementation's [update] panics on any other number of blocks. *)
Lemma polyval_update_soft p data : is_soft p = true ->
  (length data mod 16 = 0)%nat -> length data <> 16%nat -> Polyval.update p data = Panic.
Proof.
  destruct p as [p| |]; [|done..]. intros _ Hm Hn. unfold Polyval.update, PolyvalSoft.update.
  rewrite Hm. cbn [negb Nat.eqb rust_assert obind]. unfold PolyvalSoft.into_block.
  by rewrite (proj2 (Nat.eqb_neq _ _) Hn).
Qed.

Lemma polyval_update_padded_ok p h s data : holds p h s ->
  exists p', Polyval.update_padded p data = Ok p' /\ is_soft p' = is_soft p /\
    holds p' h (polyval_blocks h s (chunks 16 (pad16 data))).
Proof.
  intros Hp. destruct p as [p|p|p]; cbn [holds] in Hp; cbn [Polyval.update_padded].
  - eexists. split; [done|]. split; [done|]. by apply soft_update_padded_holds.
  - destruct (vec_update_padded_ok _ _ _ clmul_dot p h s data Hp) as (p' & Hu & Hp').
    unfold PolyvalClmul.update_padded. rewrite Hu. by exists (Polyval.Clmul p').
  - destruct (vec_update_padded_ok _ _ _ pmul_dot p h s data Hp) as (p' & Hu & Hp').
    unfold PolyvalPmul.update_padded. rewrite Hu. by exists (Polyval.Pmul p').
Qed.

Lemma polyval_finalize_ok p h s : holds p h s -> Polyval.finalize p = Ok (le_bytes 16 s).
Proof.
  destruct p as [p|p|p]; cbn.
  - intros Hp. unfold PolyvalSoft.finalize. by rewrite (soft_finalize_holds p h s Hp).
  - by intros (_ & <- & _).
  - by intros (_ & <- & _).
Qed.

(** A sequence of calls: [update_padded] where the flag is set, else [update]. *)
Fixpoint run_updates (ops : list (bool * bytes)) (p : Polyval.t) : Siv.Result Polyval.t :=
  match ops with
  | [] => Ok p
  | (padded, data) :: ops =>
      let? p := if padded : bool then Polyval.update_padded p data else Polyval.update p data in
      run_updates ops p
  end.

Definition blocks_of (ops : list (bool * bytes)) : list bytes :=
  concat ((fun op : bool * bytes => chunks 16 (if op.1 then pad16 op.2 else op.2)) <$> ops).

(** What a call takes on this machine. *)
Definition takes (soft : bool) (op : bool * bytes) : Prop := op.1 = true \/ whole soft op.2.

Lemma run_updates_app ops1 ops2 p :
  run_updates (ops1 ++ ops2) p = (let? p := run_updates ops1 p in run_updates ops2 p).
Proof.
  revert p. induction ops1 as [|[padded data] ops1 IH]; intros p; [done|].
  cbn [app run_updates]. by destruct (if padded then _ else _); cbn [obind].
Qed.

Lemma run_updates_ok ops p h s :
  holds p h s -> Forall (takes (is_soft p)) ops ->
  exists p', run_updates ops p = Ok p' /\ is_soft p' = is_soft p /\
    holds p' h (polyval_blocks h s (blocks_of ops)).
Proof.
  revert p s. induction ops as [|[padded data] ops IH]; intros p s Hp Hops; [by exists p|].
  apply list.Forall_cons_1 in Hops as [Hop Hops].
  assert (Hstep : exists p1, (if padded then Polyval.update_padded p data else Polyval.update p data) = Ok p1 /\
    is_soft p1 = is_soft p /\
    holds p1 h (polyval_blocks h s (chunks 16 (if padded then pad16 data else data)))).
  { destruct padded; [by apply polyval_update_padded_ok|].
    destruct Hop as [|Hm]; [done|by apply polyval_update_ok]. }
  destruct Hstep as (p1 & Hp1 & Hs1 & Hh1). cbn [run_updates]. rewrite Hp1. cbn [obind].
  destruct (IH p1 _ Hh1) as (p2 & Hp2 & Hs2 & Hh2); [by rewrite Hs1|].
  exists p2. split; [done|]. split; [by rewrite Hs2|].
  unfold blocks_of. cbn [fmap list_fmap concat fst snd]. by rewrite polyval_blocks_app.
Qed.

(** C26: POLYVAL is POLYVAL, whichever implementation the processor selects (the
    portable crate, PCLMULQDQ or PMULL). With a 16-byte key, any sequence of
    [update_padded]s of anything and [update]s of whole blocks (any number for
    the vector code, exactly one for the portable crate) ends in the POLYVAL of
    RFC 8452 of the zero-padded inputs, without a panic; so the vector code,
    which multiplies with four 64-bit products and reduces by folding twice, is
    the field multiplication [dot(a, b) = a * b * x^-128] modulo the RFC's
    polynomial. A key of another length and a partial block in [update] are
    errors. On a machine that uses the portable crate, an [update] of no block
    or of several, after any such sequence, panics, though its assertion admits
    it. *)
Theorem polyval_is_rfc8452 key ops :
  (length key <> 16%nat -> Polyval.new key = Err Siv.InvalidKeySize) /\
  (length key = 16%nat -> Forall (takes portable) ops ->
   let run ops :=
     let? p := Polyval.new key in let? p := run_updates ops p in Polyval.finalize p in
   run ops = Ok (le_bytes 16 (polyval_blocks (le_num key) 0 (blocks_of ops))) /\
   (forall data, portable = true -> (length data mod 16 = 0)%nat -> length data <> 16%nat ->
      run (ops ++ [(false, data)]) = Panic)) /\
  (forall p data, (length data mod 16 <> 0)%nat -> Polyval.update p data = Err Siv.InvalidInputSize) /\
  (forall a b, a < 2 ^ 128 -> b < 2 ^ 128 -> dot a b < 2 ^ 128 /\
     exists q, N.shiftl (dot a b) 128 = N.lxor (clmul a b) (clmul q field_poly)).
Proof.
  split_and!.
  - intros Hk. unfold Polyval.new. by rewrite (proj2 (Nat.eqb_neq _ _) Hk).
  - intros Hk Hops run. destruct (polyval_new_ok key Hk) as (p & Hp & Hs & Hh).
    destruct (run_updates_ok ops p _ _ Hh) as (p' & Hp' & Hs' & Hh'); [by rewrite Hs|].
    unfold run. rewrite Hp. cbn [obind]. split.
    + rewrite Hp'. cbn [obind]. by eapply polyval_finalize_ok.
    + intros data Hport Hm Hn. rewrite run_updates_app, Hp'. cbn [obind run_updates].
      by rewrite (polyval_update_soft p' data) by (congruence || done).
  - intros p data Hm. unfold Polyval.update. by rewrite (proj2 (Nat.eqb_neq _ _) Hm).
  - intros a b Ha Hb. split; [by apply dot_lt|].
    by apply (dot_unique a b (dot a b) Ha Hb (dot_lt a b Ha Hb)).
Qed.
End Dispatch.

(** * The test vector of [polyval.rs] *)

Example polyval_kat :
  (let? p := PolyvalClmul.new (of_hex "25629347589242761d31f826ba4b757b") in
   let? p := PolyvalClmul.update p (of_hex "4f4f95668c83dfb6401762bb2d01a262") in
   let? p := PolyvalClmul.update p (of_hex "d1a24ddd2721d006bbe45f20d3c9f362") in
   PolyvalClmul.finalize p) = Ok (of_hex "f7a3b47b846119fae5b7866cf5e5b77e").
Proof. vm_compute. reflexivity. Qed.

Example polyval_kat_pmul :
  (let? p := PolyvalPmul.new (of_hex "25629347589242761d31f826ba4b757b") in
   let? p := PolyvalPmul.update p (of_hex "4f4f95668c83dfb6401762bb2d01a262") in
   let? p := PolyvalPmul.update_padded p (of_hex "d1a24ddd2721d006bbe45f20d3c9f362") in
   PolyvalPmul.finalize p) = Ok (of_hex "f7a3b47b846119fae5b7866cf5e5b77e").
Proof. vm_compute. reflexivity. Qed.
