(* ===== verification/Aes256.v ===== *)
(** AES-256 ([aes.rs], [aes/aarch64.rs]): the dispatch over the block cipher
    crates and the crate's own code over the ARMv8 AES instructions, against
    FIPS 197. *)

From S2P Require Import Prelude Gf2 Simd SivCommon.
Local Open Scope N_scope.

(** * FIPS 197 *)

Module Fips197.
(** Multiplication in GF(2^8), modulo [x^8 + x^4 + x^3 + x + 1]. *)
Fixpoint reduce8 (n : nat) (v : N) : N :=
  match n with
  | O => v
  | S n =>
      let i := N.of_nat n in
      reduce8 n (if N.testbit v (8 + i) then N.lxor v (N.shiftl 0x11b i) else v)
  end.
Definition gmul (a b : N) : N := reduce8 7 (clmul a b).

Fixpoint gpow (a : N) (n : nat) : N := match n with O => 1 | S n => gmul a (gpow a n) end.

Definition rotl8 (v n : N) : N := (v * 2 ^ n) mod 2 ^ 8 + v / 2 ^ (8 - n).

(** Inversion ([a^254], with 0 to 0), then the affine map. *)
Definition sbox_value (v : N) : N :=
  let b := gpow v 254 in
  N.lxor (N.lxor (N.lxor (N.lxor (N.lxor b (rotl8 b 1)) (rotl8 b 2)) (rotl8 b 3)) (rotl8 b 4)) 0x63.

Definition sbox_table : bytes :=
  Eval vm_compute in map (fun n => byte_of (sbox_value (N.of_nat n))) (seq 0 256).
Definition sbox (b : Byte.byte) : Byte.byte := nth (N.to_nat (Byte.to_N b)) sbox_table Byte.x00.

Definition xor8 (a b : Byte.byte) : Byte.byte := byte_of (N.lxor (Byte.to_N a) (Byte.to_N b)).
Definition xor_bytes (a b : bytes) : bytes := zip_with xor8 a b.

(** A state is 16 bytes, column by column. *)
Definition sub_bytes (s : bytes) : bytes := map sbox s.
Definition shift_rows (s : bytes) : bytes :=
  map (fun i => nth ((i + 4 * (i mod 4)) mod 16)%nat s Byte.x00) (seq 0 16).
Definition gmul_byte (c : N) (b : Byte.byte) : Byte.byte := byte_of (gmul c (Byte.to_N b)).
Definition mix_column (c : bytes) : bytes :=
  match c with
  | [a0; a1; a2; a3] =>
      [xor8 (xor8 (gmul_byte 2 a0) (gmul_byte 3 a1)) (xor8 a2 a3);
       xor8 (xor8 a0 (gmul_byte 2 a1)) (xor8 (gmul_byte 3 a2) a3);
       xor8 (xor8 a0 a1) (xor8 (gmul_byte 2 a2) (gmul_byte 3 a3));
       xor8 (xor8 (gmul_byte 3 a0) a1) (xor8 a2 (gmul_byte 2 a3))]
  | _ => c
  end.
Definition mix_columns (s : bytes) : bytes := concat (map mix_column (chunks 4 s)).

(** Key expansion for [Nk = 8]: word [i] from the words before it. *)
Definition rot_word (w : bytes) : bytes := match w with a :: w => w ++ [a] | [] => [] end.
Definition sub_word (w : bytes) : bytes := map sbox w.
Definition rcon (i : nat) : bytes := [byte_of (gpow 2 (i - 1)); Byte.x00; Byte.x00; Byte.x00].

Definition temp (i : nat) (w : bytes) : bytes :=
  if (i mod 8 =? 0)%nat then xor_bytes (sub_word (rot_word w)) (rcon (i / 8))
  else if (i mod 8 =? 4)%nat then sub_word w
  else w.

Fixpoint key_words (key : bytes) (n : nat) : list bytes :=
  match n with
  | O => chunks 4 key
  | S n =>
      let w := key_words key n in
      let i := (8 + n)%nat in
      w ++ [xor_bytes (nth (i - 8) w []) (temp i (nth (i - 1) w []))]
  end.

(** The 15 round keys. *)
Definition round_key (key : bytes) (r : nat) : bytes :=
  concat (take 4 (drop (4 * r) (key_words key 52))).

Definition round (s k : bytes) : bytes := xor_bytes (mix_columns (shift_rows (sub_bytes s))) k.
Definition final_round (s k : bytes) : bytes := xor_bytes (shift_rows (sub_bytes s)) k.

Definition cipher (key block : bytes) : bytes :=
  final_round
    (fold_left (fun s r => round s (round_key key r)) (seq 1 13) (xor_bytes block (round_key key 0)))
    (round_key key 14).
End Fips197.

(** Appendix C.3 of the standard. *)
Example fips197_c3 :
  Fips197.cipher (of_hex "000102030405060708090a0b0c0d0e0f101112131415161718191a1b1c1d1e1f")
    (of_hex "00112233445566778899aabbccddeeff") = of_hex "8ea2b7ca516745bfeafc49904b496089".
Proof. vm_compute. reflexivity. Qed.

(** * The ARMv8 instructions *)

(** AESE (with the key addition, ShiftRows and SubBytes) and AESMC. *)
Definition vaeseq_u8 (data key : N) : N :=
  le_num (Fips197.shift_rows (Fips197.sub_bytes (vec_bytes (N.lxor data key)))).
Definition vaesmcq_u8 (data : N) : N := le_num (Fips197.mix_columns (vec_bytes data)).
Definition vgetq_lane_u32 (v i : N) : N := N.shiftr v (32 * i) mod 2 ^ 32.

Definition rotate_left32 (x n : N) : N := (x * 2 ^ n) mod 2 ^ 32 + x / 2 ^ (32 - n).
Definition from_be_bytes (l : bytes) : N := le_num (rev l).
Definition swap_bytes (x : N) : N := le_num (rev (le_bytes 4 x)).

(** * [aes/aarch64.rs] *)

Module Aarch64.
(** [ek: [u32; 60]]. *)
Record t := mk { ek : list N }.

Definition se_word (x : N) : N :=
  let x4 := le_bytes 4 x ++ le_bytes 4 x ++ le_bytes 4 x ++ le_bytes 4 x in
  let a := vld1q_u8 x4 in
  let zero := vdupq_n_u8 0 in
  let sa := vaeseq_u8 a zero in
  vgetq_lane_u32 sa 0.

Definition rcon : list N :=
  [0x01000000; 0x02000000; 0x04000000; 0x08000000; 0x10000000; 0x20000000; 0x40000000;
   0x80000000; 0x1B000000; 0x36000000].

Definition load_key (key : bytes) (i : nat) (ek : list N) : Siv.Result (list N) :=
  let? b := slice (i * 4) (i * 4 + 4) key in
  vec_set ek i (from_be_bytes b).

Definition first_word (i : nat) (ek : list N) : Siv.Result (list N) :=
  let? a := unwrap (ek !! (i - 8)%nat) in
  let? r := unwrap (rcon !! ((i - 8) / 8)%nat) in
  let? p := unwrap (ek !! (i - 1)%nat) in
  vec_set ek i (N.lxor (N.lxor a r) (rotate_left32 (se_word p) 8)).

Definition other_word (i j : nat) (ek : list N) : Siv.Result (list N) :=
  if (i + j <? length ek)%nat then
    let? a := unwrap (ek !! (i + j - 8)%nat) in
    let? ek := vec_set ek (i + j) a in
    let? a := unwrap (ek !! (i + j)%nat) in
    let? p := unwrap (ek !! (i + j - 1)%nat) in
    vec_set ek (i + j) (N.lxor a (if (j =? 4)%nat then se_word p else p))
  else Ok ek.

Definition expand_from (i : nat) (ek : list N) : Siv.Result (list N) :=
  let? ek := first_word i ek in
  for_each (seq 1 7) (other_word i) ek.

(** The indices of [(8..60).step_by(8)]. *)
Definition step_by_8 : list nat := [8; 16; 24; 32; 40; 48; 56]%nat.

Definition new (key : bytes) : Siv.Result t :=
  if negb (length key =? 32)%nat then Err Siv.InvalidKeySize
  else
    let ek := replicate 60 0 in
    let? ek := for_each (seq 0 8) (load_key key) ek in
    let? ek := for_each step_by_8 expand_from ek in
    Ok (mk (map swap_bytes ek)).

(** [k0] to [k14], loaded from the memory of [ek]. *)
Definition load_round_key (c : t) (r : nat) : N :=
  vld1q_u8 (drop (16 * r) (concat (map (le_bytes 4) (ek c)))).

(** One block: thirteen times AESE and AESMC, then AESE and the last key. *)
Definition encrypt_block (k : nat -> N) (b0 : N) : N :=
  let b0 := fold_left (fun b0 r => vaesmcq_u8 (vaeseq_u8 b0 (k r))) (seq 0 13) b0 in
  veorq_u8 (vaeseq_u8 b0 (k 13%nat)) (k 14%nat).

(** Four blocks at a time, the instructions interleaved. *)
Definition round4 (k : N) (b : N * N * N * N) : N * N * N * N :=
  let '(b0, b1, b2, b3) := b in
  let b0 := vaesmcq_u8 (vaeseq_u8 b0 k) in
  let b1 := vaesmcq_u8 (vaeseq_u8 b1 k) in
  let b2 := vaesmcq_u8 (vaeseq_u8 b2 k) in
  let b3 := vaesmcq_u8 (vaeseq_u8 b3 k) in
  (b0, b1, b2, b3).

Definition encrypt_blocks4 (k : nat -> N) (b : N * N * N * N) : N * N * N * N :=
  let '(b0, b1, b2, b3) := fold_left (fun b r => round4 (k r) b) (seq 0 13) b in
  (veorq_u8 (vaeseq_u8 b0 (k 13%nat)) (k 14%nat), veorq_u8 (vaeseq_u8 b1 (k 13%nat)) (k 14%nat),
   veorq_u8 (vaeseq_u8 b2 (k 13%nat)) (k 14%nat), veorq_u8 (vaeseq_u8 b3 (k 13%nat)) (k 14%nat)).

Definition encrypt_chunk (k : nat -> N) (blocks : bytes) : bytes :=
  if (length blocks =? 64)%nat then
    let '(b0, b1, b2, b3) := encrypt_blocks4 k
      (vld1q_u8 blocks, vld1q_u8 (drop 16 blocks), vld1q_u8 (drop 32 blocks), vld1q_u8 (drop 48 blocks)) in
    vec_bytes b0 ++ vec_bytes b1 ++ vec_bytes b2 ++ vec_bytes b3
  else concat (map (fun block => vec_bytes (encrypt_block k (vld1q_u8 block))) (chunks 16 blocks)).

Definition encrypt (c : t) (buf : bytes) : Siv.Result bytes :=
  if negb (length buf mod 16 =? 0)%nat then Err Siv.InvalidOutputBuffer
  else Ok (concat (map (encrypt_chunk (load_round_key c)) (chunks 64 buf))).
End Aarch64.

Example aarch64_c3 :
  (let? c := Aarch64.new (of_hex "000102030405060708090a0b0c0d0e0f101112131415161718191a1b1c1d1e1f") in
   Aarch64.encrypt c (of_hex "00112233445566778899aabbccddeeff"))
  = Ok (of_hex "8ea2b7ca516745bfeafc49904b496089").
Proof. vm_compute. reflexivity. Qed.

(** * The block cipher crates and the dispatch *)

(** The traits [NewBlockCipher] and [BlockCipher] of a 32-byte key cipher with
    16-byte blocks. *)
Class BlockCipher := {
  CipherKey : Type;
  cipher_new : bytes -> CipherKey;
  par_blocks : nat;
  encrypt_block : CipherKey -> bytes -> bytes;
  encrypt_blocks : CipherKey -> list bytes -> list bytes;
}.

(** What the documentation of [aes_soft::Aes256] and [aesni::Aes256] says: the
    cipher is AES-256, several blocks at a time give the blocks one by one. *)
Class BlockCipherLaws `{BlockCipher} := {
  par_blocks_positive : (0 < par_blocks)%nat;
  encrypt_block_aes : forall key block, length key = 32%nat -> length block = 16%nat ->
    encrypt_block (cipher_new key) block = Fips197.cipher key block;
  encrypt_blocks_each : forall k blocks, length blocks = par_blocks ->
    encrypt_blocks k blocks = map (encrypt_block k) blocks;
}.

Section TraitEncrypt.
Context `{BlockCipher}.

Definition encrypt_run (k : CipherKey) (blocks : bytes) : bytes :=
  if (length blocks =? par_blocks * 16)%nat
  then concat (encrypt_blocks k (chunks 16 blocks))
  else concat (map (encrypt_block k) (chunks 16 blocks)).

Definition trait_encrypt (k : CipherKey) (buf : bytes) : bytes :=
  concat (map (encrypt_run k) (chunks (par_blocks * 16) buf)).
End TraitEncrypt.

(** The two crates of the portable and the x86 build. *)
Class AesCrates := { aes_soft : BlockCipher; aesni : BlockCipher }.
Class AesLaws `{AesCrates} := {
  aes_soft_laws : @BlockCipherLaws aes_soft;
  aesni_laws : @BlockCipherLaws aesni;
}.

Module Aes256.
Section Operations.
Context `{AesCrates, Machine}.

Inductive t :=
  | Soft (k : @CipherKey aes_soft)
  | AesNi (k : @CipherKey aesni)
  | Aarch64 (c : Aarch64.t).

Definition new (key : bytes) : Siv.Result t :=
  if negb (length key =? 32)%nat then Err Siv.InvalidKeySize
  else
    let soft := Ok (Soft (@cipher_new aes_soft key)) in
    match target with
    | TargetAarch64 => if has_armv8_crypto then let? c := Aarch64.new key in Ok (Aarch64 c) else soft
    | TargetX86 => if has_intel_aesni then Ok (AesNi (@cipher_new aesni key)) else soft
    | TargetOther => soft
    end.

Definition encrypt (c : t) (buf : bytes) : Siv.Result bytes :=
  if negb (length buf mod 16 =? 0)%nat then Err Siv.InvalidOutputBuffer
  else
    match c with
    | Soft k => Ok (@trait_encrypt aes_soft k buf)
    | AesNi k => Ok (@trait_encrypt aesni k buf)
    | Aarch64 c => Aarch64.encrypt c buf
    end.
End Operations.
End Aes256.

(** * Bytes and vectors *)

Lemma to_N_xor8 a b : Byte.to_N (Fips197.xor8 a b) = N.lxor (Byte.to_N a) (Byte.to_N b).
Proof.
  unfold Fips197.xor8. rewrite to_N_byte_of. apply N.mod_small.
  pose proof (Byte.to_N_bounded a). pose proof (Byte.to_N_bounded b). apply (lxor_lt _ _ 8); lia.
Qed.

Lemma le_num_cons b l : le_num (b :: l) = N.lxor (Byte.to_N b) (N.shiftl (le_num l) 8).
Proof.
  cbn [le_num]. rewrite N.mul_comm. pose proof (Byte.to_N_bounded b). apply (add_lxor _ _ 8). lia.
Qed.

Lemma le_num_xor a b : length a = length b ->
  le_num (Fips197.xor_bytes a b) = N.lxor (le_num a) (le_num b).
Proof.
  revert b. induction a as [|x a IH]; intros [|y b] Hl; try done. cbn in Hl.
  unfold Fips197.xor_bytes. cbn [zip_with]. fold (Fips197.xor_bytes a b).
  rewrite !le_num_cons, to_N_xor8, IH, N.shiftl_lxor by lia. ring.
Qed.

Lemma le_num_app l1 l2 : le_num (l1 ++ l2) = le_num l1 + 256 ^ N.of_nat (length l1) * le_num l2.
Proof.
  induction l1 as [|b l1 IH]; cbn [le_num app length].
  - rewrite N.add_0_l. symmetry. apply N.mul_1_l.
  - rewrite IH, Nat2N.inj_succ, N.pow_succ_r'. lia.
Qed.

Lemma xor_bytes_length a b n :
  length a = n -> length b = n -> length (Fips197.xor_bytes a b) = n.
Proof. unfold Fips197.xor_bytes. rewrite length_zip_with. lia. Qed.

Lemma sub_bytes_length s : length (Fips197.sub_bytes s) = length s.
Proof. apply length_map. Qed.

Lemma shift_rows_length s : length (Fips197.shift_rows s) = 16%nat.
Proof. reflexivity. Qed.

Lemma mix_columns_length s : length s = 16%nat -> length (Fips197.mix_columns s) = 16%nat.
Proof.
  intros Hs. do 16 (destruct s as [|? s]; [done|]). by destruct s.
Qed.

Lemma vec_bytes_num l : length l = 16%nat -> vec_bytes (le_num l) = l.
Proof. intros. by apply le_bytes_num. Qed.

Lemma aese_bytes s k : length s = 16%nat -> length k = 16%nat ->
  vaeseq_u8 (le_num s) (le_num k)
  = le_num (Fips197.shift_rows (Fips197.sub_bytes (Fips197.xor_bytes s k))).
Proof.
  intros Hs Hk. unfold vaeseq_u8. rewrite <-le_num_xor by lia.
  by rewrite vec_bytes_num by by apply xor_bytes_length.
Qed.

Lemma aesmc_bytes s : length s = 16%nat ->
  vaesmcq_u8 (le_num s) = le_num (Fips197.mix_columns s).
Proof. intros. unfold vaesmcq_u8. by rewrite vec_bytes_num. Qed.

#[global] Opaque vaeseq_u8 vaesmcq_u8.

(** * One block

    The instructions add the round key before the substitution where the
    standard adds it after the round: the two are a key apart at every round. *)

Section Block.
Context (rk : nat -> bytes) (rk_length : forall r, (r < 15)%nat -> length (rk r) = 16%nat).

Definition arm_round (s : bytes) (r : nat) : bytes :=
  Fips197.mix_columns (Fips197.shift_rows (Fips197.sub_bytes (Fips197.xor_bytes s (rk r)))).
Definition fips_rounds (n : nat) (block : bytes) : bytes :=
  fold_left (fun s r => Fips197.round s (rk r)) (seq 1 n) (Fips197.xor_bytes block (rk 0)).

Lemma arm_fips n block :
  fips_rounds n block = Fips197.xor_bytes (fold_left arm_round (seq 0 n) block) (rk n).
Proof.
  unfold fips_rounds. induction n as [|n IH]; [done|].
  rewrite !seq_S, !fold_left_app, IH. done.
Qed.

Lemma arm_rounds n block : (n <= 13)%nat -> length block = 16%nat ->
  fold_left (fun b r => vaesmcq_u8 (vaeseq_u8 b (le_num (rk r)))) (seq 0 n) (le_num block)
    = le_num (fold_left arm_round (seq 0 n) block) /\
  length (fold_left arm_round (seq 0 n) block) = 16%nat.
Proof.
  intros Hn Hb. induction n as [|n IH]; [done|]. destruct IH as [IH Hl]; [lia|].
  rewrite !seq_S, !fold_left_app, IH. cbn [fold_left Nat.add].
  rewrite aese_bytes by (try done; apply rk_length; lia).
  rewrite aesmc_bytes by apply shift_rows_length. split; [done|].
  by apply mix_columns_length, shift_rows_length.
Qed.

Lemma encrypt_block_fips block : length block = 16%nat ->
  Aarch64.encrypt_block (fun r => le_num (rk r)) (le_num block)
  = le_num (Fips197.final_round (fips_rounds 13 block) (rk 14)).
Proof.
  intros Hb. unfold Aarch64.encrypt_block. destruct (arm_rounds 13 block) as [-> Hl]; [lia|done|].
  rewrite aese_bytes by (try done; apply rk_length; lia).
  unfold veorq_u8. rewrite <-le_num_xor; [|by rewrite shift_rows_length, rk_length by lia].
  unfold Fips197.final_round. by rewrite arm_fips.
Qed.
End Block.

(** Four independent folds, interleaved or one after the other. *)
Lemma fold_interleaved {A} (f : A -> N -> N) (g : A -> N * N * N * N -> N * N * N * N) l :
  (forall r b0 b1 b2 b3, g r (b0, b1, b2, b3) = (f r b0, f r b1, f r b2, f r b3)) ->
  forall b0 b1 b2 b3, fold_left (fun b r => g r b) l (b0, b1, b2, b3)
    = (fold_left (fun b r => f r b) l b0, fold_left (fun b r => f r b) l b1,
       fold_left (fun b r => f r b) l b2, fold_left (fun b r => f r b) l b3).
Proof.
  intros Hg. induction l as [|r l IH]; intros; [done|]. cbn [fold_left]. by rewrite Hg, IH.
Qed.

Lemma round4_each k b0 b1 b2 b3 :
  Aarch64.round4 k (b0, b1, b2, b3)
  = (vaesmcq_u8 (vaeseq_u8 b0 k), vaesmcq_u8 (vaeseq_u8 b1 k),
     vaesmcq_u8 (vaeseq_u8 b2 k), vaesmcq_u8 (vaeseq_u8 b3 k)).
Proof. reflexivity. Qed.

Lemma encrypt_blocks4_each k b0 b1 b2 b3 :
  Aarch64.encrypt_blocks4 k (b0, b1, b2, b3)
  = (Aarch64.encrypt_block k b0, Aarch64.encrypt_block k b1,
     Aarch64.encrypt_block k b2, Aarch64.encrypt_block k b3).
Proof.
  unfold Aarch64.encrypt_blocks4.
  rewrite (fold_interleaved (fun r b => vaesmcq_u8 (vaeseq_u8 b (k r))) (fun r => Aarch64.round4 (k r)))
    by (intros; apply round4_each).
  reflexivity.
Qed.

(** * The key schedule

    [ek] holds the words of the standard as big-endian numbers, the first [n]
    expanded ones so far. *)

Definition be_word (w : bytes) : N := from_be_bytes w.

Lemma word4 (w : bytes) : length w = 4%nat -> exists a b c d, w = [a; b; c; d].
Proof. intros Hw. do 4 (destruct w as [|? w]; [done|]). destruct w; [eauto|done]. Qed.

Lemma be_word_xor a b : length a = 4%nat -> length b = 4%nat ->
  be_word (Fips197.xor_bytes a b) = N.lxor (be_word a) (be_word b).
Proof.
  intros Ha Hb. unfold be_word, from_be_bytes.
  rewrite <-le_num_xor by (rewrite !length_rev; lia). f_equal.
  destruct (word4 a Ha) as (?&?&?&?&->), (word4 b Hb) as (?&?&?&?&->). reflexivity.
Qed.

Lemma le_bytes_be w : length w = 4%nat -> le_bytes 4 (be_word w) = rev w.
Proof. intros Hw. apply le_bytes_num. by rewrite length_rev. Qed.

Lemma swap_bytes_be w : length w = 4%nat -> swap_bytes (be_word w) = le_num w.
Proof. intros Hw. unfold swap_bytes. by rewrite le_bytes_be, rev_involutive. Qed.

(** Repeating a word makes ShiftRows the identity, so one AESE substitutes the
    bytes of the word. *)
Lemma se_word_be w : length w = 4%nat -> Aarch64.se_word (be_word w) = be_word (Fips197.sub_word w).
Proof.
  intros Hw. unfold Aarch64.se_word. rewrite le_bytes_be by done.
  set (x := rev w). assert (Hx : length x = 4%nat) by (unfold x; by rewrite length_rev).
  unfold vld1q_u8. rewrite take_ge by (rewrite !length_app; lia). rewrite dup_0.
  change 0 with (le_num (replicate 16 Byte.x00)).
  rewrite aese_bytes by (rewrite ?length_app, ?length_replicate; lia).
  assert (Hs : Fips197.shift_rows (Fips197.sub_bytes (Fips197.xor_bytes (x ++ x ++ x ++ x) (replicate 16 Byte.x00)))
    = map Fips197.sbox x ++ map Fips197.sbox x ++ map Fips197.sbox x ++ map Fips197.sbox x).
  { assert (Hz : forall b, Fips197.xor8 b Byte.x00 = b).
    { intros b. unfold Fips197.xor8. cbn [Byte.to_N]. by rewrite N.lxor_0_r, byte_of_to_N. }
    destruct (word4 x Hx) as (a & b & c & d & ->).
    unfold Fips197.xor_bytes. cbn [app replicate zip_with]. rewrite !Hz. reflexivity. }
  rewrite Hs. unfold vgetq_lane_u32. rewrite N.mul_0_r, N.shiftr_0_r, le_num_app, length_map, Hx.
  change (256 ^ N.of_nat 4) with (2 ^ 32). rewrite (N.mul_comm (2 ^ 32)), N.Div0.mod_add.
  rewrite N.mod_small.
  - unfold be_word, from_be_bytes, Fips197.sub_word, x. by rewrite map_rev.
  - pose proof (le_num_lt (map Fips197.sbox x)) as Hlt. rewrite length_map, Hx in Hlt. exact Hlt.
Qed.

Lemma rotate_be w : length w = 4%nat -> rotate_left32 (be_word w) 8 = be_word (Fips197.rot_word w).
Proof.
  intros Hw. destruct (word4 w Hw) as (a & b & c & d & ->).
  unfold be_word, from_be_bytes, rotate_left32. cbn [rev app le_num Fips197.rot_word].
  pose proof (Byte.to_N_bounded a). pose proof (Byte.to_N_bounded b).
  pose proof (Byte.to_N_bounded c). pose proof (Byte.to_N_bounded d).
  set (x := Byte.to_N a) in *. set (y := Byte.to_N b) in *.
  set (z := Byte.to_N c) in *. set (u := Byte.to_N d) in *.
  change (2 ^ 8) with 256. change (2 ^ 32) with 4294967296. change (2 ^ (32 - 8)) with 16777216.
  set (r := u + 256 * (z + 256 * y)). assert (Hr : r < 16777216) by (unfold r; lia).
  replace (u + _) with (r + x * 16777216) by (unfold r; lia).
  rewrite N.div_add, (N.div_small r), N.add_0_l by lia.
  replace ((r + x * 16777216) * 256) with (r * 256 + x * 4294967296) by lia.
  rewrite N.Div0.mod_add, N.mod_small by lia. unfold r. lia.
Qed.

Lemma sub_word_length w : length (Fips197.sub_word w) = length w.
Proof. apply length_map. Qed.

Lemma rot_sub_word w : Fips197.rot_word (Fips197.sub_word w) = Fips197.sub_word (Fips197.rot_word w).
Proof. destruct w; [done|]. cbn. unfold Fips197.sub_word. by rewrite map_app. Qed.

Lemma explode32 (P : bytes -> Prop) :
  (forall b0 b1 b2 b3 b4 b5 b6 b7 b8 b9 b10 b11 b12 b13 b14 b15
          b16 b17 b18 b19 b20 b21 b22 b23 b24 b25 b26 b27 b28 b29 b30 b31,
     P [b0; b1; b2; b3; b4; b5; b6; b7; b8; b9; b10; b11; b12; b13; b14; b15;
        b16; b17; b18; b19; b20; b21; b22; b23; b24; b25; b26; b27; b28; b29; b30; b31]) ->
  forall k, length k = 32%nat -> P k.
Proof. intros HP k Hk. do 32 (destruct k as [|? k]; [done|]). destruct k; [apply HP|done]. Qed.


Section KeySchedule.
Context (key : bytes) (key_length : length key = 32%nat).

Lemma key_words_length n : length (Fips197.key_words key n) = (8 + n)%nat.
Proof.
  induction n as [|n IH].
  - revert key key_length. apply explode32. reflexivity.
  - cbn [Fips197.key_words]. rewrite length_app, IH. cbn [length]. lia.
Qed.

Lemma temp_length i w : length w = 4%nat -> length (Fips197.temp i w) = 4%nat.
Proof.
  intros Hw. destruct (word4 w Hw) as (a & b & c & d & ->). unfold Fips197.temp.
  by destruct (i mod 8 =? 0)%nat, (i mod 8 =? 4)%nat.
Qed.

Lemma key_words_4 n : Forall (fun w => length w = 4%nat) (Fips197.key_words key n).
Proof.
  induction n as [|n IH].
  - revert key key_length. apply explode32. intros. by repeat constructor.
  - cbn [Fips197.key_words]. apply Forall_app. split; [done|]. constructor; [|constructor].
    assert (Hn : forall j, (j < 8 + n)%nat -> length (nth j (Fips197.key_words key n) []) = 4%nat).
    { intros j Hj. rewrite <-(key_words_length n) in Hj. eapply list.Forall_forall in IH; [exact IH|].
      by apply list_elem_of_In, nth_In. }
    apply xor_bytes_length; [|apply temp_length]; apply Hn; lia.
Qed.

(** The array after [n] expanded words. *)
Definition expanded (n : nat) (ek : list N) : Prop :=
  ek = (be_word <$> Fips197.key_words key n) ++ replicate (52 - n) 0.

Lemma expanded_lookup n ek j : expanded n ek -> (j < 8 + n)%nat ->
  ek !! j = Some (be_word (nth j (Fips197.key_words key n) [])) /\
  length (nth j (Fips197.key_words key n) []) = 4%nat.
Proof.
  intros -> Hj. rewrite <-(key_words_length n) in Hj. split.
  - rewrite lookup_app_l by by rewrite length_fmap. rewrite list_lookup_fmap.
    destruct (nth_lookup_or_length (Fips197.key_words key n) j []) as [Hl|]; [|lia]. by rewrite Hl.
  - pose proof (key_words_4 n) as H4. eapply list.Forall_forall in H4; [exact H4|].
    by apply list_elem_of_In, nth_In.
Qed.

Lemma expanded_set n ek : expanded n ek -> (n < 52)%nat ->
  let i := (8 + n)%nat in
  let w := Fips197.key_words key n in
  exists ek', vec_set (E:=Siv.Error) ek i
      (be_word (Fips197.xor_bytes (nth (i - 8) w []) (Fips197.temp i (nth (i - 1) w [])))) = Ok ek' /\
    expanded (S n) ek'.
Proof.
  intros -> Hn i w. unfold vec_set. rewrite length_app, length_fmap, length_replicate, key_words_length.
  rewrite (proj2 (Nat.ltb_lt _ _)) by lia. eexists. split; [done|]. unfold expanded.
  cbn [Fips197.key_words]. rewrite fmap_app. cbn [fmap list_fmap].
  assert (Hl : i = length (be_word <$> w)) by (unfold i, w; rewrite length_fmap; by rewrite key_words_length).
  rewrite Hl at 1. rewrite <-(Nat.add_0_r (length (be_word <$> w))), insert_app_r.
  replace (52 - n)%nat with (S (52 - S n)) by lia. cbn [replicate]. by rewrite <-app_assoc.
Qed.

Lemma add_8_mod n : ((8 + n) mod 8 = n mod 8)%nat.
Proof. rewrite Nat.add_comm. apply (Nat.Div0.mod_add n 1 8). Qed.

Lemma add_8_div n : ((8 + n) / 8 = n / 8 + 1)%nat.
Proof. rewrite Nat.add_comm. by apply (Nat.div_add n 1 8). Qed.

(** The two shapes of a step. *)
Lemma first_word_ok n ek : expanded n ek -> (n < 52)%nat -> (n mod 8 = 0)%nat ->
  Aarch64.rcon !! (n / 8)%nat = Some (be_word (Fips197.rcon (n / 8 + 1))) ->
  exists ek', Aarch64.first_word (8 + n) ek = Ok ek' /\ expanded (S n) ek'.
Proof.
  intros Hek Hn Hm Hr. unfold Aarch64.first_word.
  destruct (expanded_lookup n ek (8 + n - 8) Hek) as [Ha H4a]; [lia|].
  destruct (expanded_lookup n ek (8 + n - 1) Hek) as [Hp H4p]; [lia|].
  rewrite Ha, Hp. cbn [unwrap obind]. replace ((8 + n - 8) / 8)%nat with (n / 8)%nat by (f_equal; lia).
  rewrite Hr. cbn [unwrap obind]. destruct (expanded_set n ek Hek Hn) as (ek' & Hset & Hek').
  exists ek'. split; [|done]. rewrite <-Hset. f_equal.
  unfold Fips197.temp. rewrite add_8_mod, add_8_div, Hm. cbn [Nat.eqb].
  set (w := nth (8 + n - 1) _ _) in *. rewrite se_word_be, rotate_be by (try done; by rewrite sub_word_length).
  rewrite rot_sub_word. set (sw := Fips197.sub_word (Fips197.rot_word w)).
  assert (Hsw : length sw = 4%nat).
  { unfold sw. rewrite sub_word_length. by destruct (word4 w H4p) as (? & ? & ? & ? & ->). }
  rewrite !be_word_xor by (try done; by apply xor_bytes_length). ring.
Qed.

Lemma other_word_ok n i j ek : expanded n ek -> (n < 52)%nat -> (i + j = 8 + n)%nat ->
  (n mod 8 = j)%nat -> (j <> 0)%nat ->
  exists ek', Aarch64.other_word i j ek = Ok ek' /\ expanded (S n) ek'.
Proof.
  intros Hek Hn Hij Hm Hj. unfold Aarch64.other_word. rewrite !Hij.
  assert (Hlen : length ek = 60%nat).
  { rewrite Hek, length_app, length_fmap, length_replicate, key_words_length. lia. }
  rewrite Hlen, (proj2 (Nat.ltb_lt _ _)) by lia.
  destruct (expanded_lookup n ek (8 + n - 8) Hek) as [Ha H4a]; [lia|].
  destruct (expanded_lookup n ek (8 + n - 1) Hek) as [Hp H4p]; [lia|].
  rewrite Ha. cbn [unwrap obind]. unfold vec_set at 1. rewrite Hlen, (proj2 (Nat.ltb_lt _ _)) by lia.
  cbn [obind]. rewrite list_lookup_insert_eq by lia. cbn [unwrap obind].
  rewrite list_lookup_insert_ne by lia. rewrite Hp. cbn [unwrap obind].
  destruct (expanded_set n ek Hek Hn) as (ek' & Hset & Hek'). exists ek'. split; [|done].
  rewrite <-Hset. unfold vec_set. rewrite length_insert, list_insert_insert_eq.
  destruct (_ <? _)%nat; [|done]. do 2 f_equal.
  unfold Fips197.temp. rewrite add_8_mod, Hm, (proj2 (Nat.eqb_neq _ _) Hj).
  rewrite be_word_xor by first [done|destruct (j =? 4)%nat; [by rewrite sub_word_length|done]].
  f_equal. destruct (j =? 4)%nat; [by apply se_word_be|done].
Qed.

Lemma other_words_ok n m ek : expanded (S n) ek -> (n < 52)%nat -> (n mod 8 = 0)%nat -> (m <= 7)%nat ->
  exists ek', for_each (seq 1 m) (Aarch64.other_word (8 + n)) ek = Ok ek' /\
    expanded (Nat.min 52 (S n + m)) ek'.
Proof.
  intros Hek Hn Hm. induction m as [|m IH]; intros Hle.
  - exists ek. split; [done|]. by replace (Nat.min 52 (S n + 0)) with (S n) by lia.
  - destruct IH as (ek1 & Hf & H1); [lia|]. rewrite seq_S, for_each_app, Hf. cbn [obind for_each].
    destruct (Nat.lt_ge_cases (S n + m) 52) as [Hlt|Hge].
    + rewrite Nat.min_r in H1 by lia.
      destruct (other_word_ok (S n + m) (8 + n) (1 + m) ek1 H1) as (ek2 & Ho & H2); [lia|lia| |lia|].
      { replace (S n + m)%nat with (1 + m + n)%nat by lia.
        rewrite <-Nat.Div0.add_mod_idemp_r, Hm, Nat.add_0_r. apply Nat.mod_small. lia. }
      rewrite Ho. exists ek2. split; [done|]. by replace (Nat.min 52 (S n + S m)) with (S (S n + m)) by lia.
    + rewrite Nat.min_l in H1 by lia. unfold Aarch64.other_word.
      assert (Hlen : length ek1 = 60%nat).
      { rewrite H1, length_app, length_fmap, key_words_length. cbn. lia. }
      rewrite Hlen, (proj2 (Nat.ltb_ge _ _)) by lia. exists ek1. split; [done|].
      by replace (Nat.min 52 (S n + S m)) with 52%nat by lia.
Qed.

Lemma expand_from_ok n ek : expanded n ek -> (n < 52)%nat -> (n mod 8 = 0)%nat ->
  Aarch64.rcon !! (n / 8)%nat = Some (be_word (Fips197.rcon (n / 8 + 1))) ->
  exists ek', Aarch64.expand_from (8 + n) ek = Ok ek' /\ expanded (Nat.min 52 (n + 8)) ek'.
Proof.
  intros Hek Hn Hm Hr. destruct (first_word_ok n ek Hek Hn Hm Hr) as (ek1 & Hf & H1).
  destruct (other_words_ok n 7 ek1 H1 Hn Hm) as (ek2 & Ho & H2); [lia|].
  exists ek2. unfold Aarch64.expand_from. rewrite Hf. cbn [obind]. split; [done|].
  by replace (n + 8)%nat with (S n + 7)%nat by lia.
Qed.

Lemma expand_steps_ok m ek : expanded 0 ek -> (m <= 7)%nat ->
  exists ek', for_each ((fun q => 8 + 8 * q)%nat <$> seq 0 m) Aarch64.expand_from ek = Ok ek' /\
    expanded (Nat.min 52 (8 * m)) ek'.
Proof.
  intros H0. induction m as [|m IH]; intros Hm; [by exists ek|].
  destruct IH as (ek1 & Hf & H1); [lia|]. rewrite Nat.min_r in H1 by lia.
  rewrite seq_S, fmap_app, for_each_app, Hf. cbn [obind fmap list_fmap for_each].
  rewrite Nat.add_0_l. destruct (expand_from_ok (8 * m) ek1 H1) as (ek2 & He & H2); [lia| | |].
  - rewrite Nat.mul_comm. apply Nat.Div0.mod_mul.
  - rewrite Nat.mul_comm, Nat.div_mul by lia. do 7 (destruct m as [|m]; [reflexivity|]). lia.
  - exists ek2. rewrite He. split; [done|]. by replace (8 * S m)%nat with (8 * m + 8)%nat by lia.
Qed.

Lemma load_key_ok : exists ek,
  for_each (seq 0 8) (Aarch64.load_key key) (replicate 60 0) = Ok ek /\ expanded 0 ek.
Proof. unfold expanded. revert key key_length. apply explode32. intros. eexists. split; reflexivity. Qed.

Lemma aarch64_new_ok : Aarch64.new key = Ok (Aarch64.mk (le_num <$> Fips197.key_words key 52)).
Proof.
  unfold Aarch64.new. rewrite key_length. cbn [Nat.eqb negb].
  destruct load_key_ok as (ek0 & -> & H0). cbn [obind].
  destruct (expand_steps_ok 7 ek0 H0) as (ek & Hf & Hek); [lia|].
  change Aarch64.step_by_8 with ((fun q => 8 + 8 * q)%nat <$> seq 0 7). rewrite Hf. cbn [obind].
  do 2 f_equal. rewrite Hek. change (Nat.min 52 (8 * 7)) with 52%nat. cbn [replicate Nat.sub].
  rewrite app_nil_r. pose proof (key_words_4 52) as H4.
  induction H4 as [|w l Hw _ IH]; [done|]. cbn [fmap list_fmap map]. by rewrite swap_bytes_be, IH.
Qed.

Lemma load_round_key_ok r :
  Aarch64.load_round_key (Aarch64.mk (le_num <$> Fips197.key_words key 52)) r
  = le_num (Fips197.round_key key r).
Proof.
  unfold Aarch64.load_round_key, vld1q_u8. cbn [Aarch64.ek].
  pose proof (key_words_4 52) as H4. f_equal.
  assert (Hm : map (le_bytes 4) (le_num <$> Fips197.key_words key 52) = Fips197.key_words key 52).
  { induction H4 as [|w l Hw _ IH]; [done|]. cbn [fmap list_fmap map]. by rewrite le_bytes_num, IH. }
  rewrite Hm. unfold Fips197.round_key.
  replace (16 * r)%nat with (4 * (4 * r))%nat by lia. rewrite (concat_drop 4) by done.
  apply (concat_take 4 _ 4). by apply Forall_drop.
Qed.

Lemma round_key_length r : (r < 15)%nat -> length (Fips197.round_key key r) = 16%nat.
Proof.
  intros Hr. unfold Fips197.round_key. pose proof (key_words_4 52) as H4.
  rewrite (concat_length 4) by by apply Forall_take, Forall_drop.
  rewrite length_take, length_drop, key_words_length. lia.
Qed.

(** * Whole buffers *)

(** AES-256 of each 16-byte block. *)
Definition ecb (buf : bytes) : bytes := concat (map (Fips197.cipher key) (chunks 16 buf)).

Lemma cipher_rounds block :
  Fips197.cipher key block
  = Fips197.final_round (fips_rounds (Fips197.round_key key) 13 block) (Fips197.round_key key 14).
Proof. unfold Fips197.cipher, fips_rounds. reflexivity. Qed.

#[local] Opaque Fips197.round_key Fips197.cipher.

Lemma fold_left_ext {A B} (f g : A -> B -> A) l a :
  (forall a b, f a b = g a b) -> fold_left f l a = fold_left g l a.
Proof. intros Hfg. revert a. induction l as [|b l IH]; intros a; [done|]. cbn [fold_left]. by rewrite Hfg, IH. Qed.

Lemma encrypt_block_ext (k k' : nat -> N) b :
  (forall r, k r = k' r) -> Aarch64.encrypt_block k b = Aarch64.encrypt_block k' b.
Proof.
  intros Hk. unfold Aarch64.encrypt_block. cbv zeta.
  rewrite (fold_left_ext _ (fun b0 r => vaesmcq_u8 (vaeseq_u8 b0 (k' r))) _ b) by (intros; by rewrite Hk).
  by rewrite (Hk 13%nat), (Hk 14%nat).
Qed.

Lemma final_round_length s k : length k = 16%nat -> length (Fips197.final_round s k) = 16%nat.
Proof. intros Hk. by apply xor_bytes_length; [apply shift_rows_length|]. Qed.

Lemma encrypt_block_ok block : length block = 16%nat ->
  vec_bytes (Aarch64.encrypt_block
    (Aarch64.load_round_key (Aarch64.mk (le_num <$> Fips197.key_words key 52))) (le_num block))
  = Fips197.cipher key block.
Proof.
  intros Hb. rewrite (encrypt_block_ext _ _ _ load_round_key_ok).
  rewrite (encrypt_block_fips _ round_key_length block Hb), cipher_rounds.
  apply vec_bytes_num, final_round_length, round_key_length. lia.
Qed.

Lemma encrypt_chunk_each k blocks : (length blocks mod 16 = 0)%nat ->
  Aarch64.encrypt_chunk k blocks
  = concat (map (fun block => vec_bytes (Aarch64.encrypt_block k (le_num block))) (chunks 16 blocks)).
Proof.
  intros Hm. unfold Aarch64.encrypt_chunk. destruct (Nat.eqb_spec (length blocks) 64) as [Hl|Hl].
  - rewrite encrypt_blocks4_each. rewrite (chunks_four 16) by lia.
    cbn [map concat Nat.mul Nat.add]. by rewrite app_nil_r.
  - f_equal. apply map_ext_in. intros block Hb%list_elem_of_In.
    apply chunks_length in Hb; [|lia|done]. unfold vld1q_u8. by rewrite take_ge by lia.
Qed.

(** Runs of blocks, then blocks, one after the other. *)
Lemma concat_map_runs (f : bytes -> bytes) (run : bytes -> bytes) m buf :
  (0 < m)%nat -> (length buf mod 16 = 0)%nat ->
  (forall blocks, (length blocks mod 16 = 0)%nat -> run blocks = concat (map f (chunks 16 blocks))) ->
  concat (map run (chunks (m * 16) buf)) = concat (map f (chunks 16 buf)).
Proof.
  intros Hm Hb Hrun. rewrite <-(chunks_chunks m 16 buf) by lia.
  rewrite concat_map, map_map.
  assert (Hall : forall c, c ∈ chunks (m * 16) buf -> (length c mod 16 = 0)%nat).
  { intros c. apply chunks_mod; [done|lia|done]. }
  induction (chunks (m * 16) buf) as [|c l IH]; [done|]. cbn [map concat].
  rewrite concat_app, Hrun, IH; [done| |].
  - intros c' Hc'. apply Hall. by right.
  - apply Hall. by left.
Qed.

Lemma ecb_map (f : bytes -> bytes) buf : (length buf mod 16 = 0)%nat ->
  (forall block, length block = 16%nat -> f block = Fips197.cipher key block) ->
  concat (map f (chunks 16 buf)) = ecb buf.
Proof.
  intros Hm Hf. unfold ecb. f_equal. apply map_ext_in. intros block Hb%list_elem_of_In.
  apply Hf. by apply chunks_length in Hb; [|lia|].
Qed.

Lemma aarch64_encrypt_ok buf : (length buf mod 16 = 0)%nat ->
  Aarch64.encrypt (Aarch64.mk (le_num <$> Fips197.key_words key 52)) buf = Ok (ecb buf).
Proof.
  intros Hm. unfold Aarch64.encrypt. rewrite Hm. cbn [Nat.eqb negb]. f_equal.
  change 64%nat with (4 * 16)%nat.
  erewrite concat_map_runs; [|lia|done|intros blocks Hb; by apply encrypt_chunk_each].
  apply ecb_map; [done|]. apply encrypt_block_ok.
Qed.

Section Trait.
Context `{BlockCipherLaws}.

Lemma encrypt_run_each k blocks : (length blocks mod 16 = 0)%nat ->
  encrypt_run k blocks = concat (map (encrypt_block k) (chunks 16 blocks)).
Proof.
  intros Hm. unfold encrypt_run. destruct (Nat.eqb_spec (length blocks) (par_blocks * 16)) as [Hl|]; [|done].
  rewrite encrypt_blocks_each; [done|]. apply chunks_count; [lia|done].
Qed.

Lemma trait_encrypt_ok buf : (length buf mod 16 = 0)%nat ->
  trait_encrypt (cipher_new key) buf = ecb buf.
Proof.
  intros Hm. unfold trait_encrypt.
  erewrite concat_map_runs; [|apply par_blocks_positive|done|intros blocks Hb; by apply encrypt_run_each].
  apply ecb_map; [done|]. intros block Hb. by apply encrypt_block_aes.
Qed.
End Trait.
End KeySchedule.

(** * The dispatch *)

Section Dispatch.
Context `{AesLaws, Machine}.

(** [c] encrypts as AES-256 under [key]. *)
Definition encrypts (c : Aes256.t) (key : bytes) : Prop :=
  forall buf, (length buf mod 16 = 0)%nat -> Aes256.encrypt c buf = Ok (ecb key buf).

Lemma encrypts_intro c key :
  (forall buf, (length buf mod 16 = 0)%nat ->
     match c with
     | Aes256.Soft k => Ok (@trait_encrypt aes_soft k buf)
     | Aes256.AesNi k => Ok (@trait_encrypt aesni k buf)
     | Aes256.Aarch64 c => Aarch64.encrypt c buf
     end = Ok (ecb key buf)) ->
  encrypts c key.
Proof. intros Hc buf Hm. unfold Aes256.encrypt. rewrite Hm. cbn [Nat.eqb negb]. by apply Hc. Qed.

Lemma soft_encrypts key : length key = 32%nat -> encrypts (Aes256.Soft (@cipher_new aes_soft key)) key.
Proof.
  intros Hk. apply encrypts_intro. intros buf Hm. f_equal.
  by apply (@trait_encrypt_ok key Hk aes_soft aes_soft_laws).
Qed.

Lemma aesni_encrypts key : length key = 32%nat -> encrypts (Aes256.AesNi (@cipher_new aesni key)) key.
Proof.
  intros Hk. apply encrypts_intro. intros buf Hm. f_equal.
  by apply (@trait_encrypt_ok key Hk aesni aesni_laws).
Qed.

Lemma aes256_new_ok key : length key = 32%nat -> exists c, Aes256.new key = Ok c /\ encrypts c key.
Proof.
  intros Hk. unfold Aes256.new. rewrite Hk. cbn [Nat.eqb negb].
  destruct target; [destruct has_intel_aesni|destruct has_armv8_crypto|];
    try (eexists; split; [done|]; by first [apply soft_encrypts|apply aesni_encrypts]).
  rewrite aarch64_new_ok by done. eexists. split; [done|].
  apply encrypts_intro. intros buf Hm. by apply aarch64_encrypt_ok.
Qed.

(** C27: AES-256 is AES-256, whichever implementation the processor selects: with
    a 32-byte key [new] succeeds and [encrypt] maps the cipher of FIPS 197 over
    the blocks of the buffer, in runs of eight or four blocks or one by one;
    in the crate's own AArch64 code the key schedule in place in 60 words, the
    byte swap and the round keys added before the substitution instead of
    after the round are the standard's key expansion and rounds. A key of
    another length and a buffer that is not whole blocks are errors. *)
Theorem aes256_is_fips197 key buf :
  (length key <> 32%nat -> Aes256.new key = Err Siv.InvalidKeySize) /\
  (length key = 32%nat -> (length buf mod 16 = 0)%nat ->
   (let? c := Aes256.new key in Aes256.encrypt c buf)
     = Ok (concat (map (Fips197.cipher key) (chunks 16 buf)))) /\
    (forall c, (length buf mod 16 <> 0)%nat -> Aes256.encrypt c buf = Err Siv.InvalidOutputBuffer).
Proof.
  split_and!.
  - intros Hk. unfold Aes256.new. by rewrite (proj2 (Nat.eqb_neq _ _) Hk).
  - intros Hk Hm. destruct (aes256_new_ok key Hk) as (c & -> & Hc). by apply Hc.
  - intros c Hm. unfold Aes256.encrypt. by rewrite (proj2 (Nat.eqb_neq _ _) Hm).
Qed.
End Dispatch.
