(* ===== verification/AesGcmSiv.v ===== *)
(** AES-256-GCM-SIV ([aes_gcm_siv.rs]): nonce-misuse-resistant authenticated
    encryption in place, against RFC 8452. *)

From S2P Require Import Prelude Crates Simd SivCommon Polyval Aes256.
Local Open Scope N_scope.

Definition NONCE_SIZE : nat := 12.
Definition TAG_SIZE : nat := 16.
Definition AAD_MAX : N := 2 ^ 36.
Definition PTEXT_MAX : N := 2 ^ 36.
Definition AES_BLOCK_SIZE : nat := 16.
Definition AES_KEY_SIZE : nat := 32.
Definition POLYVAL_KEY_SIZE : nat := 16.

(** * RFC 8452 *)

Module Rfc8452.
(** The first half of AES of the counter and the nonce. *)
Definition kdf_block (key nonce : bytes) (i : N) : bytes :=
  take 8 (Fips197.cipher key (le_bytes 4 i ++ nonce)).

(** Section 4: the message-encryption and message-authentication keys. *)
Definition derive_keys (key nonce : bytes) : bytes * bytes :=
  (concat (map (kdf_block key nonce) [2; 3; 4; 5]), concat (map (kdf_block key nonce) [0; 1])).

Definition clear_top (s : bytes) : bytes :=
  alter (fun b => byte_of (N.land (Byte.to_N b) 0x7f)) 15%nat s.
Definition set_top (s : bytes) : bytes :=
  alter (fun b => byte_of (N.lor (Byte.to_N b) 0x80)) 15%nat s.

Definition length_block (ad pt : bytes) : bytes :=
  le_bytes 8 (8 * N.of_nat (length ad)) ++ le_bytes 8 (8 * N.of_nat (length pt)).

Definition tag (enc_key auth_key nonce pt ad : bytes) : bytes :=
  let s_s := le_bytes 16 (polyval_blocks (le_num auth_key) 0
    (chunks 16 (pad16 ad) ++ chunks 16 (pad16 pt) ++ [length_block ad pt])) in
  let s_s := Fips197.xor_bytes (take 12 s_s) nonce ++ drop 12 s_s in
  Fips197.cipher enc_key (clear_top s_s).

(** The first four bytes of the block count up, modulo [2^32]. *)
Definition next_block (block : bytes) : bytes :=
  le_bytes 4 (le_num (take 4 block) + 1) ++ drop 4 block.

Fixpoint aes_ctr (key block : bytes) (input : list bytes) : bytes :=
  match input with
  | [] => []
  | x :: input => Fips197.xor_bytes x (Fips197.cipher key block) ++ aes_ctr key (next_block block) input
  end.

Definition ctr (enc_key tag input : bytes) : bytes := aes_ctr enc_key (set_top tag) (chunks 16 input).

(** Ciphertext and tag. *)
Definition encrypt (key nonce pt ad : bytes) : bytes * bytes :=
  let '(enc_key, auth_key) := derive_keys key nonce in
  let t := tag enc_key auth_key nonce pt ad in
  (ctr enc_key t pt, t).

Definition decrypt (key nonce ct t ad : bytes) : option bytes :=
  let '(enc_key, auth_key) := derive_keys key nonce in
  let pt := ctr enc_key t ct in
  if decide (tag enc_key auth_key nonce pt ad = t) then Some pt else None.
End Rfc8452.

(** Appendix C.2, the empty plaintext and an 8-byte one. *)
Example rfc8452_c2_empty :
  Rfc8452.encrypt (of_hex "0100000000000000000000000000000000000000000000000000000000000000")
    (of_hex "030000000000000000000000") [] [] = ([], of_hex "07f5f4169bbf55a8400cd47ea6fd400f").
Proof. vm_compute. reflexivity. Qed.

Example rfc8452_c2_eight :
  Rfc8452.encrypt (of_hex "0100000000000000000000000000000000000000000000000000000000000000")
    (of_hex "030000000000000000000000") (of_hex "0100000000000000") []
  = (of_hex "c2ef328e5c71c83b", of_hex "843122130f7364b761e0b97427e3df28").
Proof. vm_compute. reflexivity. Qed.

(** * The code *)

Module Aes256GcmSiv.
Section Operations.
Context `{BuildConfig, Crates, PolyvalCrate, AesCrates, Machine}.

Record t := mk { key_generator : Aes256.t }.

Definition new (key : bytes) : Siv.Result t :=
  let? k := Aes256.new key in Ok (mk k).

(** One input block of the key derivation: the counter, then the nonce. *)
Definition prepare_block (nonce : bytes) (i : nat) (pad : bytes) : Siv.Result bytes :=
  let? pad := copy_into (i * 16) (i * 16 + 4) (le_bytes 4 (N.of_nat i)) pad in
  copy_into (i * 16 + 4) (i * 16 + 16) nonce pad.

(** [dst[8 * i..8 * i + 8]] from [pad[from + 16 * i..]]. *)
Definition copy_half (pad : bytes) (from i : nat) (dst : bytes) : Siv.Result bytes :=
  let? half := slice (from + 16 * i) (from + 16 * i + 8) pad in
  copy_into (8 * i) (8 * i + 8) half dst.

Definition derive_keys (c : t) (nonce : bytes) : Siv.Result (bytes * bytes) :=
  if negb (length nonce =? NONCE_SIZE)%nat then Err Siv.InvalidNonceSize
  else
    let BLOCKS_NEEDED := 6%nat in
    let BLOCKS_USED := 8%nat in
    let pad := replicate (AES_BLOCK_SIZE * BLOCKS_USED) Byte.x00 in
    let? pad := for_each (seq 0 BLOCKS_NEEDED) (prepare_block nonce) pad in
    let? pad := Aes256.encrypt (key_generator c) pad in
    let polyval_key := replicate POLYVAL_KEY_SIZE Byte.x00 in
    let aes_key := replicate AES_KEY_SIZE Byte.x00 in
    let? polyval_key := for_each (seq 0 2) (copy_half pad 0) polyval_key in
    let? aes_key := for_each (seq 0 4) (copy_half pad 32) aes_key in
    Ok (aes_key, polyval_key).

(** [(l.len() as u64) * 8]. *)
Definition bits_u64 (l : bytes) : Siv.Result N :=
  let n := N.of_nat (length l) * 8 in
  if n <? 2 ^ 64 then Ok n else if overflow_checks then Panic else Ok (n mod 2 ^ 64).

(** [tag[i] ^= nonce[i]]. *)
Definition xor_at (nonce : bytes) (i : nat) (tag : bytes) : Siv.Result bytes :=
  let? n := unwrap (nonce !! i) in
  let? b := unwrap (tag !! i) in
  vec_set tag i (Fips197.xor8 b n).

Definition compute_tag (buffer associated_data nonce polyval_key : bytes) (aes256 : Aes256.t)
    : Siv.Result bytes :=
  let? associated_data_bits := bits_u64 associated_data in
  let? buffer_bits := bits_u64 buffer in
  let length_block := replicate 16 Byte.x00 in
  let? length_block := copy_into 0 8 (le_bytes 8 associated_data_bits) length_block in
  let? length_block := copy_into 8 16 (le_bytes 8 buffer_bits) length_block in
  let? polyval := Polyval.new polyval_key in
  let? polyval := Polyval.update_padded polyval associated_data in
  let? polyval := Polyval.update_padded polyval buffer in
  let? polyval := Polyval.update polyval length_block in
  let? tag := Polyval.finalize polyval in
  let? tag := for_each (seq 0 12) (xor_at nonce) tag in
  let? b := unwrap (tag !! 15%nat) in
  let? tag := vec_set tag 15 (byte_of (N.land (Byte.to_N b) 0x7f)) in
  Aes256.encrypt aes256 tag.

Definition PAR_BLOCKS : nat := 8.
Definition PAD_SIZE : nat := PAR_BLOCKS * AES_BLOCK_SIZE.

(** One counter block; [counter.wrapping_add(1)] is modulo [2^32]. *)
Definition counter_block (nonce : bytes) (b : nat) (s : bytes * N) : Siv.Result (bytes * N) :=
  let '(ctr, counter) := s in
  let? ctr := copy_into (AES_BLOCK_SIZE * b) (AES_BLOCK_SIZE * b + 4) (le_bytes 4 counter) ctr in
  let? rest := slice 4 (length nonce) nonce in
  let? ctr := copy_into (AES_BLOCK_SIZE * b + 4) (AES_BLOCK_SIZE * (b + 1)) rest ctr in
  let? top := unwrap (ctr !! (AES_BLOCK_SIZE * b + 15)%nat) in
  let? ctr := vec_set ctr (AES_BLOCK_SIZE * b + 15) (byte_of (N.lor (Byte.to_N top) 0x80)) in
  Ok (ctr, (counter + 1) mod 2 ^ 32).

(** [buffer[base + j] ^= pad[j]]. *)
Definition xor_pad (pad : bytes) (base j : nat) (buffer : bytes) : Siv.Result bytes :=
  let? p := unwrap (pad !! j) in
  let? x := unwrap (buffer !! (base + j)%nat) in
  vec_set buffer (base + j) (Fips197.xor8 x p).

Definition ctr32_pad (nonce : bytes) (aes256 : Aes256.t) (i : nat) (s : bytes * N)
    : ST Siv.Error bytes (bytes * N) :=
  let! s := st_lift (for_each (seq 0 PAR_BLOCKS) (counter_block nonce) s) in
  let '(ctr, counter) := s in
  let! pad := st_lift (Aes256.encrypt aes256 ctr) in
  let! rest := st_gets (fun buffer => usize_sub (length buffer) (i * PAD_SIZE)) in
  let to_xor := Nat.min PAD_SIZE rest in
  let! _ := st_update (for_each (seq 0 to_xor) (xor_pad pad (i * PAD_SIZE))) in
  st_ret (ctr, counter).

Definition ctr32 (nonce : bytes) (aes256 : Aes256.t) : ST Siv.Error bytes unit :=
  let! first := st_lift (slice 0 4 nonce) in
  let counter := le_num first in
  let! pads_required := st_gets (fun buffer => Ok ((length buffer + PAD_SIZE) / PAD_SIZE)%nat) in
  let! _ := st_for_each (seq 0 pads_required) (ctr32_pad nonce aes256)
              (replicate PAD_SIZE Byte.x00, counter) in
  st_ret tt.

(** [buffer.len() as u64 > PTEXT_MAX || associated_data.len() as u64 > AAD_MAX]. *)
Definition too_long (buffer associated_data : bytes) : bool :=
  (PTEXT_MAX <? N.of_nat (length buffer)) || (AAD_MAX <? N.of_nat (length associated_data)).

(** [buffer] is the state: the plaintext, then the ciphertext. *)
Definition encrypt (c : t) (nonce associated_data : bytes) : ST Siv.Error bytes bytes := fun buffer =>
  if too_long buffer associated_data then (Err Siv.InvalidInputSize, buffer)
  else
    (let! keys := st_lift (derive_keys c nonce) in
     let! aes256 := st_lift (Aes256.new keys.1) in
     let! tag := st_gets (fun buffer => compute_tag buffer associated_data nonce keys.2 aes256) in
     let! _ := ctr32 tag aes256 in
     st_ret tag) buffer.

Definition zero_buffer : ST Siv.Error bytes unit :=
  st_update (fun buffer => Ok (map (fun _ => Byte.x00) buffer)).

Definition decrypt (c : t) (nonce associated_data tag : bytes) : ST Siv.Error bytes unit := fun buffer =>
  if negb (length nonce =? NONCE_SIZE)%nat then (Err Siv.InvalidNonceSize, buffer)
  else if negb (length tag =? TAG_SIZE)%nat then (Err Siv.InvalidTag, buffer)
  else if too_long buffer associated_data then (Err Siv.InvalidInputSize, buffer)
  else
    (let! keys := st_lift (derive_keys c nonce) in
     let! aes256 := st_lift (Aes256.new keys.1) in
     let! _ := ctr32 tag aes256 in
     let! gtag := st_gets (fun buffer => compute_tag buffer associated_data nonce keys.2 aes256) in
     let tag_ok := ct_eq tag gtag in
     if negb tag_ok then
       let! _ := zero_buffer in st_lift (Err Siv.InvalidTag)
     else st_ret tt) buffer.
End Operations.
End Aes256GcmSiv.

(** * Bytes *)

Lemma le_num_mod n v : le_num (le_bytes n v) = v mod 256 ^ N.of_nat n.
Proof.
  revert v. induction n as [|n IH]; intros v; [by rewrite N.mod_1_r|].
  cbn [le_bytes le_num]. rewrite IH, to_N_byte_of, Nat2N.inj_succ, N.pow_succ_r'.
  rewrite N.Div0.mod_mod. symmetry. apply N.Div0.mod_mul_r.
Qed.

Lemma le_bytes_mod n v : le_bytes n (v mod 256 ^ N.of_nat n) = le_bytes n v.
Proof. rewrite <-le_num_mod. apply le_bytes_num, le_bytes_length. Qed.

Lemma xor8_cancel a b : Fips197.xor8 (Fips197.xor8 a b) b = a.
Proof.
  rewrite <-(byte_of_to_N a) at 2. unfold Fips197.xor8 at 1. rewrite to_N_xor8.
  by rewrite N.lxor_assoc, N.lxor_nilpotent, N.lxor_0_r.
Qed.

Lemma xor_bytes_cancel a k : (length a <= length k)%nat ->
  Fips197.xor_bytes (Fips197.xor_bytes a k) k = a.
Proof.
  revert k. induction a as [|x a IH]; intros [|y k] Hl; try done; [cbn in Hl; lia|].
  unfold Fips197.xor_bytes. cbn [zip_with]. rewrite xor8_cancel. f_equal. apply IH. cbn in Hl. lia.
Qed.

Lemma xor_bytes_app a1 a2 k1 k2 : length a1 = length k1 ->
  Fips197.xor_bytes (a1 ++ a2) (k1 ++ k2) = Fips197.xor_bytes a1 k1 ++ Fips197.xor_bytes a2 k2.
Proof. apply zip_with_app. Qed.

Lemma xor_bytes_length_l a k : (length a <= length k)%nat -> length (Fips197.xor_bytes a k) = length a.
Proof. intros Hl. unfold Fips197.xor_bytes. rewrite length_zip_with. lia. Qed.

Lemma xor_bytes_take a k : Fips197.xor_bytes a (take (length a) k) = Fips197.xor_bytes a k.
Proof.
  revert k. induction a as [|x a IH]; intros [|y k]; try done. cbn [length take].
  unfold Fips197.xor_bytes. cbn [zip_with]. f_equal. apply IH.
Qed.

Lemma xor_bytes_app_r a k1 k2 : (length a <= length k1)%nat ->
  Fips197.xor_bytes a (k1 ++ k2) = Fips197.xor_bytes a k1.
Proof.
  intros Hl. rewrite <-xor_bytes_take, take_app_le by done. apply xor_bytes_take.
Qed.

Lemma xor_pad_loop pad l1 l2 l3 : (length l2 <= length pad)%nat ->
  for_each (seq 0 (length l2)) (Aes256GcmSiv.xor_pad pad (length l1)) (l1 ++ l2 ++ l3)
  = Ok (l1 ++ Fips197.xor_bytes l2 pad ++ l3).
Proof.
  revert l3. induction l2 as [|x l2 IH] using rev_ind; intros l3 Hl; [done|].
  rewrite length_app in *. cbn [length] in *. rewrite Nat.add_1_r, seq_S, for_each_app.
  rewrite <-(app_assoc l2), IH by lia. cbn [obind for_each Nat.add].
  destruct (lookup_lt_is_Some_2 pad (length l2)) as [p Hp]; [lia|].
  unfold Aes256GcmSiv.xor_pad. rewrite Hp. cbn [unwrap obind].
  assert (Hx : length (Fips197.xor_bytes l2 pad) = length l2) by (apply xor_bytes_length_l; lia).
  assert (Hlook : forall y, (l1 ++ Fips197.xor_bytes l2 pad ++ [y] ++ l3) !! (length l1 + length l2)%nat = Some y).
  { intros y. rewrite lookup_app_r, lookup_app_r by lia. rewrite Hx.
    by replace (length l1 + length l2 - length l1 - length l2)%nat with 0%nat by lia. }
  rewrite Hlook. cbn [unwrap obind]. erewrite vec_set_ok by apply Hlook. cbn [obind]. f_equal.
  rewrite insert_app_r, <-Hx, <-(Nat.add_0_r (length (Fips197.xor_bytes l2 pad))), insert_app_r.
  cbn [insert list_insert app]. f_equal. rewrite <-(take_drop (length l2) pad) at 2.
  rewrite xor_bytes_app by (rewrite length_take; lia).
  rewrite (drop_S _ _ _ Hp), xor_bytes_take, <-app_assoc. done.
Qed.

(** * Blocks *)

#[local] Opaque Fips197.cipher.

Lemma cipher_length key block : length key = 32%nat -> length (Fips197.cipher key block) = 16%nat.
Proof.
  intros Hk. rewrite cipher_rounds. apply final_round_length, round_key_length; [done|lia].
Qed.

Lemma pieces_length {A B} n (f : A -> list B) (l : list A) :
  (forall a, length (f a) = n) -> Forall (fun w => length w = n) (map f l).
Proof. intros Hf. apply list.Forall_fmap, list.Forall_true. done. Qed.

Lemma ecb_pieces {A} key (f : A -> bytes) l : (forall a, length (f a) = 16%nat) ->
  ecb key (concat (map f l)) = concat (map (fun a => Fips197.cipher key (f a)) l).
Proof.
  intros Hf. unfold ecb. f_equal. induction l as [|a l IH]; [done|].
  cbn [map concat]. rewrite chunks_app by first [lia|done]. cbn [map]. by rewrite IH.
Qed.

Lemma encrypts_pieces {A} `{AesLaws, Machine} c key (f : A -> bytes) l :
  encrypts c key -> (forall a, length (f a) = 16%nat) ->
  Aes256.encrypt c (concat (map f l)) = Ok (concat (map (fun a => Fips197.cipher key (f a)) l)).
Proof.
  intros Hc Hf. rewrite Hc; [by rewrite ecb_pieces|].
  rewrite (concat_length 16) by by apply pieces_length.
  rewrite Nat.mul_comm. apply Nat.Div0.mod_mul.
Qed.

Lemma encrypts_block `{AesLaws, Machine} c key block :
  encrypts c key -> length block = 16%nat -> Aes256.encrypt c block = Ok (Fips197.cipher key block).
Proof.
  intros Hc Hb. rewrite Hc by by rewrite Hb. unfold ecb. rewrite chunks_one by first [lia|done].
  cbn [map concat]. by rewrite app_nil_r.
Qed.

(** Piece [i] of a list of pieces. *)
Lemma piece_at {B} n (f : nat -> list B) m i : (forall i, length (f i) = n) -> (i < m)%nat ->
  take n (drop (n * i) (concat (map f (seq 0 m)))) = f i.
Proof.
  intros Hf Hi. pose proof (pieces_length n f (seq 0 m) Hf) as Hp.
  rewrite concat_drop by done. rewrite <-(Nat.mul_1_r n) at 1.
  rewrite concat_take by by apply Forall_drop.
  assert (Hl : map f (seq 0 m) !! i = Some (f i)).
  { change (map f) with (fmap (M := list) f). rewrite list_lookup_fmap, lookup_seq_lt by done. done. }
  rewrite (drop_S _ _ _ Hl). cbn [take concat]. by rewrite app_nil_r.
Qed.

(** * Key derivation *)

Section Proofs.
Context `{BuildConfig, !Crates, !SubtleLaws, PolyvalCrate, !PolyvalLaws, AesCrates, !AesLaws, Machine}.

Section DeriveKeys.
Context (nonce : bytes) (nonce_length : length nonce = 12%nat).

(** The eight blocks of the pad: six with the counter and the nonce, two zero. *)
Definition kdf_input (i : nat) : bytes :=
  if (i <? 6)%nat then le_bytes 4 (N.of_nat i) ++ nonce else replicate 16 Byte.x00.

Lemma kdf_input_length i : length (kdf_input i) = 16%nat.
Proof.
  unfold kdf_input. destruct (i <? 6)%nat; [|done]. rewrite length_app, le_bytes_length. lia.
Qed.

Lemma prepare_block_at i l1 old l3 : length l1 = (16 * i)%nat -> length old = 16%nat -> (i < 6)%nat ->
  Aes256GcmSiv.prepare_block nonce i (l1 ++ old ++ l3) = Ok (l1 ++ kdf_input i ++ l3).
Proof.
  intros Hl1 Ho Hi. unfold Aes256GcmSiv.prepare_block, kdf_input. rewrite (proj2 (Nat.ltb_lt _ _) Hi).
  rewrite <-(take_drop 4 old), <-(app_assoc (take 4 old)).
  rewrite copy_into_app by (rewrite ?length_take, ?le_bytes_length; lia). cbn [obind].
  rewrite <-!(app_assoc (le_bytes 4 _)), (app_assoc l1).
  rewrite copy_into_app by (rewrite ?length_app, ?le_bytes_length, ?length_drop; lia).
  by rewrite <-!app_assoc.
Qed.

Lemma prepare_pad :
  for_each (seq 0 6) (Aes256GcmSiv.prepare_block nonce) (replicate (16 * 8) Byte.x00)
  = Ok (concat (map kdf_input (seq 0 8))).
Proof.
  rewrite (fill_pieces 16 (fun _ l => l) _ kdf_input _ 6 6); [| | |cbn; lia|lia].
  - f_equal. rewrite (seq_app 6 2), map_app, concat_app. reflexivity.
  - by intros i l1 old l3 Hl1 Ho Hi; apply prepare_block_at.
  - intros i _. apply kdf_input_length.
Qed.

(** Copying the first halves of [m] blocks of the pad, from block [b] on. *)
Lemma copy_halves (f : nat -> bytes) from b m dst :
  from = (16 * b)%nat -> (forall i, length (f i) = 16%nat) -> (b + m <= 8)%nat -> length dst = (8 * m)%nat ->
  for_each (seq 0 m) (Aes256GcmSiv.copy_half (concat (map f (seq 0 8))) from) dst
  = Ok (concat (map (fun i => take 8 (f (b + i)%nat)) (seq 0 m))).
Proof.
  intros -> Hf Hm Hd. rewrite (fill_pieces 8 (fun _ l => l) _ (fun i => take 8 (f (b + i)%nat)) _ m m); [| | |lia|lia].
  - rewrite <-Hd, drop_all. by rewrite app_nil_r.
  - intros i l1 old l3 Hl1 Ho Hi. unfold Aes256GcmSiv.copy_half.
    assert (Hp : length (concat (map f (seq 0 8))) = 128%nat).
    { rewrite (concat_length 16) by by apply pieces_length. by rewrite length_map, length_seq. }
    rewrite slice_ok by lia. cbn [obind].
    replace (16 * b + 16 * i + 8 - (16 * b + 16 * i))%nat with 8%nat by lia.
    replace (16 * b + 16 * i)%nat with (16 * (b + i))%nat by lia.
    assert (Hpi : take 8 (drop (16 * (b + i)) (concat (map f (seq 0 8)))) = take 8 (f (b + i)%nat)).
    { rewrite <-(piece_at 16 f 8 (b + i)) by first [done|lia]. by rewrite take_take. }
    rewrite Hpi. apply copy_into_app; rewrite ?length_take, ?Hf; lia.
  - intros i _. rewrite length_take, Hf. lia.
Qed.

Lemma kdf_half key i : (i < 6)%nat ->
  take 8 (Fips197.cipher key (kdf_input i)) = Rfc8452.kdf_block key nonce (N.of_nat i).
Proof. intros Hi. unfold Rfc8452.kdf_block, kdf_input. by rewrite (proj2 (Nat.ltb_lt _ _) Hi). Qed.

Lemma siv_derive_keys_ok c key : encrypts (Aes256GcmSiv.key_generator c) key -> length key = 32%nat ->
  Aes256GcmSiv.derive_keys c nonce = Ok (Rfc8452.derive_keys key nonce).
Proof.
  intros Hc Hk. unfold Aes256GcmSiv.derive_keys. rewrite nonce_length. cbn [Nat.eqb negb NONCE_SIZE].
  unfold AES_BLOCK_SIZE. rewrite prepare_pad. cbn [obind].
  rewrite (encrypts_pieces _ key) by first [done|apply kdf_input_length]. cbn [obind].
  assert (Hf : forall i, length (Fips197.cipher key (kdf_input i)) = 16%nat).
  { intros i. by apply cipher_length. }
  rewrite (copy_halves _ _ 0 2) by first [done|lia]. cbn [obind].
  rewrite (copy_halves _ _ 2 4) by first [done|lia]. cbn [obind].
  cbn [seq map concat Nat.add]. rewrite !kdf_half by lia. reflexivity.
Qed.

Lemma derived_lengths key : length key = 32%nat ->
  length (Rfc8452.derive_keys key nonce).1 = 32%nat /\
  length (Rfc8452.derive_keys key nonce).2 = 16%nat.
Proof.
  intros Hk. cbn [Rfc8452.derive_keys fst snd].
  assert (Hb : forall i, length (Rfc8452.kdf_block key nonce i) = 8%nat).
  { intros i. unfold Rfc8452.kdf_block. rewrite length_take, cipher_length by done. done. }
  split; by rewrite (concat_length 8) by by apply pieces_length.
Qed.
End DeriveKeys.

(** * The tag *)

Lemma bits_u64_ok l : N.of_nat (length l) < 2 ^ 61 ->
  Aes256GcmSiv.bits_u64 l = Ok (8 * N.of_nat (length l)).
Proof.
  intros Hl. unfold Aes256GcmSiv.bits_u64. rewrite (proj2 (N.ltb_lt _ _)); [by rewrite N.mul_comm|].
  change (2 ^ 64) with (2 ^ 61 * 8). lia.
Qed.

Lemma length_block_copied a b :
  (let? l := copy_into 0 8 (le_bytes 8 a) (replicate 16 Byte.x00) in copy_into 8 16 (le_bytes 8 b) l)
  = Ok (le_bytes 8 a ++ le_bytes 8 b).
Proof.
  change (replicate 16 Byte.x00) with ([] ++ replicate 8 Byte.x00 ++ replicate 8 Byte.x00).
  rewrite copy_into_app by (rewrite ?le_bytes_length; done). cbn [obind app].
  rewrite <-(app_nil_r (replicate 8 Byte.x00)).
  rewrite copy_into_app by (rewrite ?le_bytes_length; done). by rewrite app_nil_r.
Qed.

Lemma vec_set_alter (l : bytes) i f b : l !! i = Some b ->
  vec_set (E:=Siv.Error) l i (f b) = Ok (alter f i l).
Proof.
  intros Hl. rewrite (vec_set_ok _ _ _ _ Hl). f_equal. rewrite list_insert_alter.
  apply list_alter_ext; [|done]. intros x. rewrite Hl. by intros [= ->].
Qed.

Lemma xor_at_loop nonce s : length nonce = 12%nat -> length s = 16%nat ->
  for_each (seq 0 12) (Aes256GcmSiv.xor_at nonce) s
  = Ok (Fips197.xor_bytes (take 12 s) nonce ++ drop 12 s).
Proof.
  intros Hn Hs. pose proof (xor_pad_loop nonce [] (take 12 s) (drop 12 s)) as Hloop.
  rewrite length_take, Hs in Hloop. cbn [app] in Hloop. rewrite take_drop in Hloop.
  apply Hloop. cbn. lia.
Qed.

Lemma compute_tag_ok buffer ad nonce enc_key auth_key aes256 :
  encrypts aes256 enc_key -> length nonce = 12%nat -> length auth_key = 16%nat ->
  N.of_nat (length buffer) < 2 ^ 61 -> N.of_nat (length ad) < 2 ^ 61 ->
  Aes256GcmSiv.compute_tag buffer ad nonce auth_key aes256
  = Ok (Rfc8452.tag enc_key auth_key nonce buffer ad).
Proof.
  intros Henc Hn Hk Hb Ha. unfold Aes256GcmSiv.compute_tag.
  rewrite !bits_u64_ok by done. cbn [obind]. rewrite <-obind_assoc, length_block_copied. cbn [obind].
  destruct (polyval_new_ok auth_key Hk) as (p & -> & _ & Hp). cbn [obind].
  destruct (polyval_update_padded_ok p _ _ ad Hp) as (p1 & -> & _ & Hp1). cbn [obind].
  destruct (polyval_update_padded_ok p1 _ _ buffer Hp1) as (p2 & -> & _ & Hp2). cbn [obind].
  assert (Hlb : length (Rfc8452.length_block ad buffer) = 16%nat).
  { unfold Rfc8452.length_block. by rewrite length_app, !le_bytes_length. }
  destruct (polyval_update_ok p2 _ _ (Rfc8452.length_block ad buffer) Hp2) as (p3 & Hu & _ & Hp3);
    [by apply whole_block|].
  unfold Rfc8452.length_block in Hu at 1. rewrite Hu. cbn [obind].
  rewrite (polyval_finalize_ok p3 _ _ Hp3). cbn [obind].
  rewrite <-!polyval_blocks_app, (chunks_one 16 (Rfc8452.length_block _ _)) by first [lia|done].
  rewrite xor_at_loop by first [done|apply le_bytes_length]. cbn [obind].
  set (s := _ ++ drop 12 _). assert (Hs : length s = 16%nat).
  { unfold s. rewrite length_app, xor_bytes_length_l;
      rewrite length_take, ?length_drop, le_bytes_length; lia. }
  destruct (lookup_lt_is_Some_2 s 15) as [b Hb15]; [lia|]. rewrite Hb15. cbn [unwrap obind].
  rewrite (vec_set_alter s 15 (fun b => byte_of (N.land (Byte.to_N b) 0x7f)) b Hb15). cbn [obind].
  rewrite (encrypts_block _ enc_key); [done..|]. by rewrite length_alter.
Qed.

(** * Counter mode

    The code works on pads of eight blocks and on one more pad than the input
    may need; the RFC works block by block. Both add the same key stream. *)

Section Ctr.
Context (key tag : bytes) (key_length : length key = 32%nat) (tag_length : length tag = 16%nat).

(** Counter block [k]. *)
Definition block_at (k : nat) : bytes :=
  le_bytes 4 (le_num (take 4 tag) + N.of_nat k) ++ drop 4 (Rfc8452.set_top tag).
Definition keystream (k n : nat) : bytes := concat (map (fun i => Fips197.cipher key (block_at i)) (seq k n)).

Lemma block_at_length k : length (block_at k) = 16%nat.
Proof.
  unfold block_at, Rfc8452.set_top. rewrite length_app, le_bytes_length, length_drop, length_alter. lia.
Qed.

Lemma keystream_length k n : length (keystream k n) = (16 * n)%nat.
Proof.
  unfold keystream. rewrite (concat_length 16).
  - by rewrite length_map, length_seq.
  - apply pieces_length. intros i. by apply cipher_length.
Qed.

Lemma keystream_add k n m : keystream k (n + m) = keystream k n ++ keystream (k + n) m.
Proof. unfold keystream. by rewrite seq_app, map_app, concat_app. Qed.

Lemma block_at_0 : Rfc8452.set_top tag = block_at 0.
Proof.
  unfold block_at. rewrite N.add_0_r, le_bytes_num by (rewrite length_take; lia).
  assert (Ht : take 4 (Rfc8452.set_top tag) = take 4 tag) by (apply take_alter_ge; lia).
  by rewrite <-Ht, take_drop.
Qed.

Lemma next_block_at k : Rfc8452.next_block (block_at k) = block_at (S k).
Proof.
  unfold Rfc8452.next_block, block_at.
  rewrite take_app_length', drop_app_length' by (by rewrite le_bytes_length). f_equal.
  rewrite le_num_mod. etransitivity; [symmetry; apply le_bytes_mod|].
  rewrite N.Div0.add_mod_idemp_l, le_bytes_mod. f_equal. lia.
Qed.

Lemma aes_ctr_keystream input k n : (length input <= 16 * n)%nat ->
  Rfc8452.aes_ctr key (block_at k) (chunks 16 input) = Fips197.xor_bytes input (keystream k n).
Proof.
  revert input k. induction n as [|n IH]; intros input k Hl.
  - destruct input; [done|cbn in Hl; lia].
  - destruct (decide (input = [])) as [->|Hne]; [done|].
    rewrite chunks_step by first [lia|done]. cbn [Rfc8452.aes_ctr]. rewrite next_block_at.
    rewrite (IH (drop 16 input)) by (rewrite length_drop; lia).
    unfold keystream at 2. cbn [seq map concat]. fold (keystream (S k) n).
    pose proof (cipher_length key (block_at k) key_length) as Hc.
    destruct (Nat.lt_ge_cases (length input) 16) as [Hlt|Hge].
    + rewrite take_ge, drop_ge by lia. cbn [Fips197.xor_bytes zip_with]. rewrite app_nil_r.
      by rewrite xor_bytes_app_r by lia.
    + rewrite <-(take_drop 16 input) at 3. rewrite xor_bytes_app by (rewrite length_take; lia). done.
Qed.

Lemma ctr_keystream input n : (length input <= 16 * n)%nat ->
  Rfc8452.ctr key tag input = Fips197.xor_bytes input (keystream 0 n).
Proof. intros Hl. unfold Rfc8452.ctr. rewrite block_at_0. by apply aes_ctr_keystream. Qed.

Lemma ctr_length input : length (Rfc8452.ctr key tag input) = length input.
Proof.
  rewrite (ctr_keystream input (length input)) by lia.
  apply xor_bytes_length_l. rewrite keystream_length. lia.
Qed.

(** Counter mode is its own inverse. *)
Lemma ctr_involutive input : Rfc8452.ctr key tag (Rfc8452.ctr key tag input) = input.
Proof.
  rewrite (ctr_keystream _ (length input)) by (rewrite ctr_length; lia).
  rewrite (ctr_keystream input (length input)) by lia.
  apply xor_bytes_cancel. rewrite keystream_length. lia.
Qed.

Context (aes256 : Aes256.t) (aes256_encrypts : encrypts aes256 key).

Definition count (k : nat) : N := (le_num (take 4 tag) + N.of_nat k) mod 2 ^ 32.

Lemma count_S k : (count k + 1) mod 2 ^ 32 = count (S k).
Proof. unfold count. rewrite N.Div0.add_mod_idemp_l. f_equal. lia. Qed.

Lemma block_at_bytes k : block_at k = Rfc8452.set_top (le_bytes 4 (count k) ++ drop 4 tag).
Proof.
  unfold block_at, count. change (2 ^ 32) with (256 ^ N.of_nat 4). rewrite le_bytes_mod.
  unfold Rfc8452.set_top at 2. rewrite alter_app_r_alt by (rewrite le_bytes_length; lia).
  rewrite le_bytes_length. f_equal. unfold Rfc8452.set_top.
  rewrite <-(take_drop 4 tag) at 1.
  assert (Ht : length (take 4 tag) = 4%nat) by (rewrite length_take; lia).
  rewrite alter_app_r_alt by lia. rewrite Ht, drop_app_length' by lia. done.
Qed.

(** Writing one counter block into the pad. *)
Lemma counter_block_at base b l1 old l3 :
  length l1 = (16 * b)%nat -> length old = 16%nat ->
  Aes256GcmSiv.counter_block tag b (l1 ++ old ++ l3, count (base + b))
  = Ok (l1 ++ block_at (base + b) ++ l3, count (base + S b)).
Proof.
  intros Hl1 Ho. unfold Aes256GcmSiv.counter_block, AES_BLOCK_SIZE.
  rewrite <-(take_drop 4 old), <-(app_assoc (take 4 old)).
  rewrite copy_into_app by (rewrite ?length_take, ?le_bytes_length; lia). cbn [obind].
  rewrite slice_ok by lia. cbn [obind]. rewrite (take_ge (drop 4 tag)) by (rewrite length_drop; lia).
  rewrite (app_assoc l1).
  rewrite copy_into_app by (rewrite ?length_app, ?le_bytes_length, ?length_drop; lia). cbn [obind].
  rewrite <-app_assoc, (app_assoc (le_bytes 4 _)), block_at_bytes.
  set (x := le_bytes 4 _ ++ drop 4 tag).
  assert (Hx : length x = 16%nat) by (unfold x; rewrite length_app, le_bytes_length, length_drop; lia).
  destruct (lookup_lt_is_Some_2 x 15) as [y Hy]; [lia|].
  rewrite <-Hl1. rewrite (lookup_app_r l1) by lia.
  replace (length l1 + 15 - length l1)%nat with 15%nat by lia.
  rewrite lookup_app_l, Hy by lia. cbn [unwrap obind]. unfold vec_set.
  rewrite (proj2 (Nat.ltb_lt _ _)) by (rewrite !length_app; lia). cbn [obind].
  rewrite insert_app_r, insert_app_l by lia. rewrite Nat.add_succ_r, count_S. do 4 f_equal.
  unfold Rfc8452.set_top. rewrite list_insert_alter.
  apply list_alter_ext; [|done]. intros z. rewrite Hy. by intros [= ->].
Qed.

Lemma counter_pad base ctr : length ctr = 128%nat ->
  for_each (seq 0 Aes256GcmSiv.PAR_BLOCKS) (Aes256GcmSiv.counter_block tag) (ctr, count base)
  = Ok (concat (map block_at (seq base 8)), count (base + 8)).
Proof.
  intros Hc. rewrite <-(Nat.add_0_r base) at 1.
  rewrite (fill_pieces 16 (fun b l => (l, count (base + b))) _ (fun b => block_at (base + b)) ctr 8 8);
    [| | |lia|lia].
  - rewrite drop_ge, app_nil_r by lia. do 3 f_equal.
    rewrite <-(map_map (Nat.add base) block_at). f_equal.
    pose proof (fmap_add_seq base 0 8) as Hseq. by rewrite Nat.add_0_r in Hseq.
  - intros b l1 old l3 Hl1 Ho _. by apply counter_block_at.
  - intros b _. apply block_at_length.
Qed.

(** The buffer after [i] pads of a loop over [input]. *)
Definition xored (input : bytes) (i : nat) : bytes :=
  Fips197.xor_bytes (take (128 * i) input) (keystream 0 (8 * i)) ++ drop (128 * i) input.

Lemma ctr32_pad_at input i ctr : (128 * i <= length input)%nat -> length ctr = 128%nat ->
  exists ctr', Aes256GcmSiv.ctr32_pad tag aes256 i (ctr, count (8 * i)) (xored input i)
    = (Ok (ctr', count (8 * S i)), xored input (S i)) /\ length ctr' = 128%nat.
Proof.
  intros Hi Hc. exists (concat (map block_at (seq (8 * i) 8))). split.
  2: { rewrite (concat_length 16) by by apply pieces_length, block_at_length.
       by rewrite length_map, length_seq. }
  unfold Aes256GcmSiv.ctr32_pad, st_bind, st_lift, st_gets, st_update, st_ret.
  rewrite counter_pad by done. rewrite (encrypts_pieces _ key) by first [done|apply block_at_length].
  fold (keystream (8 * i) 8).
  assert (Hx : length (Fips197.xor_bytes (take (128 * i) input) (keystream 0 (8 * i))) = (128 * i)%nat).
  { rewrite xor_bytes_length_l; rewrite ?length_take, ?keystream_length; lia. }
  change (i * Aes256GcmSiv.PAD_SIZE)%nat with (i * 128)%nat. rewrite (Nat.mul_comm i 128).
  assert (Hlen : length (xored input i) = length input).
  { unfold xored. rewrite length_app, Hx, length_drop. lia. }
  rewrite Hlen. unfold usize_sub. rewrite (proj2 (Nat.leb_le _ _)) by lia.
  change Aes256GcmSiv.PAD_SIZE with 128%nat. unfold xored at 1 2.
  pose proof (xor_pad_loop (keystream (8 * i) 8)
    (Fips197.xor_bytes (take (128 * i) input) (keystream 0 (8 * i)))
    (take 128 (drop (128 * i) input)) (drop 128 (drop (128 * i) input))) as Hloop.
  rewrite Hx, length_take, length_drop, take_drop in Hloop.
  rewrite Hloop by (rewrite keystream_length; lia). do 2 f_equal; [do 2 f_equal; lia|].
  unfold xored. replace (8 * S i)%nat with (8 * i + 8)%nat by lia.
  replace (128 * S i)%nat with (128 * i + 128)%nat by lia.
  rewrite keystream_add, <-take_take_drop, drop_drop, xor_bytes_app, <-app_assoc; [done|].
  rewrite length_take, keystream_length. lia.
Qed.

Lemma ctr32_loop input n ctr : (128 * n <= length input + 128)%nat -> length ctr = 128%nat ->
  exists ctr', st_for_each (seq 0 n) (Aes256GcmSiv.ctr32_pad tag aes256) (ctr, count 0) input
    = (Ok (ctr', count (8 * n)), xored input n) /\ length ctr' = 128%nat.
Proof.
  intros Hn Hc. induction n as [|n IH]; [by exists ctr|].
  destruct IH as (ctr1 & IH & H1c); [lia|].
  destruct (ctr32_pad_at input n ctr1) as (ctr2 & Hp & H2c); [lia|done|].
  exists ctr2. split; [|done]. rewrite seq_S, st_for_each_snoc, (st_bind_eq _ _ _ _ _ IH). exact Hp.
Qed.

Lemma ctr32_ok input : Aes256GcmSiv.ctr32 tag aes256 input = (Ok tt, Rfc8452.ctr key tag input).
Proof.
  unfold Aes256GcmSiv.ctr32, st_bind, st_lift, st_gets, st_ret. rewrite slice_ok by lia. rewrite drop_0.
  change Aes256GcmSiv.PAD_SIZE with 128%nat. set (pads := ((length input + 128) / 128)%nat).
  pose proof (Nat.div_mod_eq (length input + 128) 128) as Hdm. fold pads in Hdm.
  pose proof (Nat.mod_upper_bound (length input + 128) 128) as Hub.
  destruct (ctr32_loop input pads (replicate 128 Byte.x00)) as (ctr' & Hloop & _); [lia|done|].
  assert (H0c : count 0 = le_num (take (4 - 0) tag)).
  { unfold count. rewrite N.add_0_r. apply N.mod_small.
    pose proof (le_num_lt (take 4 tag)) as Hlt. rewrite length_take, Nat.min_l in Hlt by lia. exact Hlt. }
  rewrite <-H0c, Hloop. f_equal. unfold xored.
  rewrite take_ge, drop_ge, app_nil_r by lia. symmetry. apply ctr_keystream. lia.
Qed.
End Ctr.

(** * Encryption and decryption *)

Lemma new_ok key : length key = 32%nat ->
  exists c, Aes256GcmSiv.new key = Ok c /\ encrypts (Aes256GcmSiv.key_generator c) key.
Proof.
  intros Hk. destruct (aes256_new_ok key Hk) as (k & Hn & He).
  exists (Aes256GcmSiv.mk k). unfold Aes256GcmSiv.new. by rewrite Hn.
Qed.

Lemma not_too_long buffer ad : Aes256GcmSiv.too_long buffer ad = false ->
  N.of_nat (length buffer) < 2 ^ 61 /\ N.of_nat (length ad) < 2 ^ 61.
Proof.
  unfold Aes256GcmSiv.too_long, PTEXT_MAX, AAD_MAX. intros [Hb Ha]%orb_false_iff.
  apply N.ltb_ge in Hb, Ha. change (2 ^ 61) with (2 ^ 36 * 2 ^ 25). lia.
Qed.

Lemma tag_length enc_key auth_key nonce pt ad : length enc_key = 32%nat ->
  length (Rfc8452.tag enc_key auth_key nonce pt ad) = 16%nat.
Proof. intros Hk. by apply cipher_length. Qed.

Lemma encrypt_ok c key nonce ad buffer :
  encrypts (Aes256GcmSiv.key_generator c) key -> length key = 32%nat -> length nonce = 12%nat ->
  Aes256GcmSiv.too_long buffer ad = false ->
  Aes256GcmSiv.encrypt c nonce ad buffer
  = (Ok (Rfc8452.encrypt key nonce buffer ad).2, (Rfc8452.encrypt key nonce buffer ad).1).
Proof.
  intros Hc Hk Hn Hl. unfold Aes256GcmSiv.encrypt, Rfc8452.encrypt. rewrite Hl.
  destruct (derived_lengths nonce key Hk) as [He32 Ha16].
  pose proof (siv_derive_keys_ok nonce Hn c key Hc Hk) as Hd.
  destruct (Rfc8452.derive_keys key nonce) as [enc_key auth_key]. cbn [fst snd] in *.
  destruct (aes256_new_ok enc_key He32) as (aes & Hnew & Henc). destruct (not_too_long _ _ Hl).
  unfold st_bind, st_lift, st_gets, st_ret. rewrite Hd. cbn [fst snd]. rewrite Hnew.
  rewrite (compute_tag_ok _ _ _ enc_key) by done.
  rewrite (ctr32_ok enc_key) by first [done|by apply tag_length]. done.
Qed.

Lemma decrypt_ok c key nonce ad tag buffer :
  encrypts (Aes256GcmSiv.key_generator c) key -> length key = 32%nat -> length nonce = 12%nat ->
  length tag = 16%nat -> Aes256GcmSiv.too_long buffer ad = false ->
  Aes256GcmSiv.decrypt c nonce ad tag buffer
  = match Rfc8452.decrypt key nonce buffer tag ad with
    | Some plaintext => (Ok tt, plaintext)
    | None => (Err Siv.InvalidTag, replicate (length buffer) Byte.x00)
    end.
Proof.
  intros Hc Hk Hn Ht Hl. unfold Aes256GcmSiv.decrypt, Rfc8452.decrypt. rewrite Hl.
  unfold NONCE_SIZE, TAG_SIZE. rewrite Hn, Ht. cbn [Nat.eqb negb].
  destruct (derived_lengths nonce key Hk) as [He32 Ha16].
  pose proof (siv_derive_keys_ok nonce Hn c key Hc Hk) as Hd.
  destruct (Rfc8452.derive_keys key nonce) as [enc_key auth_key]. cbn [fst snd] in *.
  destruct (aes256_new_ok enc_key He32) as (aes & Hnew & Henc). destruct (not_too_long _ _ Hl).
  unfold st_bind, st_lift, st_gets, st_ret. rewrite Hd. cbn [fst snd]. rewrite Hnew.
  rewrite (ctr32_ok enc_key) by done.
  rewrite (compute_tag_ok _ _ _ enc_key) by first [done|by rewrite ctr_length]. rewrite ct_eq_spec.
  destruct (decide _) as [Heq|Hne].
  - by rewrite bool_decide_eq_true_2.
  - rewrite bool_decide_eq_false_2 by done. cbn [negb].
    unfold Aes256GcmSiv.zero_buffer, st_update. f_equal.
    rewrite <-(ctr_length enc_key tag He32 Ht buffer). clear.
    induction (Rfc8452.ctr enc_key tag buffer) as [|x l IH]; [done|]. cbn [map length replicate]. by rewrite IH.
Qed.

Lemma rfc_roundtrip key nonce pt ad : length key = 32%nat ->
  Rfc8452.decrypt key nonce (Rfc8452.encrypt key nonce pt ad).1 (Rfc8452.encrypt key nonce pt ad).2 ad = Some pt.
Proof.
  intros Hk. unfold Rfc8452.decrypt, Rfc8452.encrypt.
  destruct (derived_lengths nonce key Hk) as [He32 _].
  destruct (Rfc8452.derive_keys key nonce) as [enc_key auth_key]. cbn [fst snd] in *.
  rewrite ctr_involutive by first [done|by apply tag_length]. by rewrite decide_True.
Qed.

Lemma rfc_decrypt_some key nonce ct tag ad pt : length key = 32%nat -> length tag = 16%nat ->
  Rfc8452.decrypt key nonce ct tag ad = Some pt -> Rfc8452.encrypt key nonce pt ad = (ct, tag).
Proof.
  intros Hk Ht. unfold Rfc8452.decrypt, Rfc8452.encrypt.
  destruct (derived_lengths nonce key Hk) as [He32 _].
  destruct (Rfc8452.derive_keys key nonce) as [enc_key auth_key]. cbn [fst snd] in *.
  destruct (decide _) as [Heq|]; [|done]. intros [= <-]. rewrite Heq.
  by rewrite ctr_involutive.
Qed.

Lemma rfc_tag_length key nonce pt ad : length key = 32%nat ->
  length (Rfc8452.encrypt key nonce pt ad).2 = 16%nat.
Proof.
  intros Hk. unfold Rfc8452.encrypt. destruct (derived_lengths nonce key Hk) as [He32 _].
  destruct (Rfc8452.derive_keys key nonce) as [enc_key auth_key]. by apply tag_length.
Qed.

Lemma rfc_ct_length key nonce pt ad : length key = 32%nat ->
  length (Rfc8452.encrypt key nonce pt ad).1 = length pt.
Proof.
  intros Hk. unfold Rfc8452.encrypt. destruct (derived_lengths nonce key Hk) as [He32 _].
  destruct (Rfc8452.derive_keys key nonce) as [enc_key auth_key].
  apply ctr_length; [done|by apply tag_length].
Qed.

Lemma too_long_length b1 b2 ad : length b1 = length b2 ->
  Aes256GcmSiv.too_long b1 ad = Aes256GcmSiv.too_long b2 ad.
Proof. unfold Aes256GcmSiv.too_long. by intros ->. Qed.

Lemma encrypt_inv c nonce ad buffer tag ct : Aes256GcmSiv.encrypt c nonce ad buffer = (Ok tag, ct) ->
  Aes256GcmSiv.too_long buffer ad = false /\ length nonce = 12%nat.
Proof.
  unfold Aes256GcmSiv.encrypt. destruct (Aes256GcmSiv.too_long buffer ad); [done|].
  unfold Aes256GcmSiv.derive_keys, NONCE_SIZE. by destruct (Nat.eqb_spec (length nonce) 12).
Qed.

Lemma decrypt_inv c nonce ad tag buffer pt : Aes256GcmSiv.decrypt c nonce ad tag buffer = (Ok tt, pt) ->
  length nonce = 12%nat /\ length tag = 16%nat /\ Aes256GcmSiv.too_long buffer ad = false.
Proof.
  unfold Aes256GcmSiv.decrypt, NONCE_SIZE, TAG_SIZE. destruct (Nat.eqb_spec (length nonce) 12); [|done].
  destruct (Nat.eqb_spec (length tag) 16); [|done]. by destruct (Aes256GcmSiv.too_long buffer ad).
Qed.

Lemma encrypt_cases c key nonce ad buffer :
  encrypts (Aes256GcmSiv.key_generator c) key -> length key = 32%nat ->
  Aes256GcmSiv.encrypt c nonce ad buffer =
    if Aes256GcmSiv.too_long buffer ad then (Err Siv.InvalidInputSize, buffer)
    else if negb (length nonce =? 12)%nat then (Err Siv.InvalidNonceSize, buffer)
    else let '(ct, tag) := Rfc8452.encrypt key nonce buffer ad in (Ok tag, ct).
Proof.
  intros Hc Hk. destruct (Aes256GcmSiv.too_long buffer ad) eqn:Hl.
  { unfold Aes256GcmSiv.encrypt. by rewrite Hl. }
  destruct (Nat.eqb_spec (length nonce) 12) as [Hn|Hn]; cbn [negb].
  - rewrite (encrypt_ok c key) by done. by destruct (Rfc8452.encrypt _ _ _ _).
  - unfold Aes256GcmSiv.encrypt, Aes256GcmSiv.derive_keys, NONCE_SIZE.
    by rewrite Hl, (proj2 (Nat.eqb_neq _ _) Hn).
Qed.

Lemma decrypt_cases c key nonce ad tag buffer :
  encrypts (Aes256GcmSiv.key_generator c) key -> length key = 32%nat ->
  Aes256GcmSiv.decrypt c nonce ad tag buffer =
    if negb (length nonce =? 12)%nat then (Err Siv.InvalidNonceSize, buffer)
    else if negb (length tag =? 16)%nat then (Err Siv.InvalidTag, buffer)
    else if Aes256GcmSiv.too_long buffer ad then (Err Siv.InvalidInputSize, buffer)
    else match Rfc8452.decrypt key nonce buffer tag ad with
         | Some plaintext => (Ok tt, plaintext)
         | None => (Err Siv.InvalidTag, replicate (length buffer) Byte.x00)
         end.
Proof.
  intros Hc Hk.
  destruct (Nat.eqb_spec (length nonce) 12) as [Hn|Hn]; cbn [negb].
  2: { unfold Aes256GcmSiv.decrypt, NONCE_SIZE. by rewrite (proj2 (Nat.eqb_neq _ _) Hn). }
  destruct (Nat.eqb_spec (length tag) 16) as [Ht|Ht]; cbn [negb].
  2: { unfold Aes256GcmSiv.decrypt, NONCE_SIZE, TAG_SIZE.
       by rewrite Hn, (proj2 (Nat.eqb_neq _ _) Ht). }
  destruct (Aes256GcmSiv.too_long buffer ad) eqn:Hl; [|by apply decrypt_ok].
  unfold Aes256GcmSiv.decrypt, NONCE_SIZE, TAG_SIZE. by rewrite Hn, Ht, Hl.
Qed.

(** C24: the code is RFC 8452, in place and whichever processor it runs on.
    With a 32-byte key, [encrypt] leaves in the buffer the ciphertext and
    returns the tag of AEAD_AES_256_GCM_SIV; [decrypt] leaves the plaintext of
    the RFC's decryption, and where the RFC fails the error is [InvalidTag] and
    every byte of the buffer is zero, so that no unauthenticated plaintext is
    released. The key derivation over eight blocks instead of six, the in-place
    counter pads of eight blocks, the last one possibly empty, and the 32-bit
    counter that wraps make no difference. The checks come in the code's order,
    decryption's before the buffer is touched; nothing panics. *)
Theorem aes_gcm_siv_is_rfc8452 key nonce ad tag buffer :
  (length key <> 32%nat -> Aes256GcmSiv.new key = Err Siv.InvalidKeySize) /\
  (length key = 32%nat -> exists c, Aes256GcmSiv.new key = Ok c /\
    Aes256GcmSiv.encrypt c nonce ad buffer =
      (if (2 ^ 36 <? N.of_nat (length buffer)) || (2 ^ 36 <? N.of_nat (length ad)) then
         (Err Siv.InvalidInputSize, buffer)
       else if negb (length nonce =? 12)%nat then (Err Siv.InvalidNonceSize, buffer)
       else let '(ct, tag) := Rfc8452.encrypt key nonce buffer ad in (Ok tag, ct)) /\
    Aes256GcmSiv.decrypt c nonce ad tag buffer =
      (if negb (length nonce =? 12)%nat then (Err Siv.InvalidNonceSize, buffer)
       else if negb (length tag =? 16)%nat then (Err Siv.InvalidTag, buffer)
       else if (2 ^ 36 <? N.of_nat (length buffer)) || (2 ^ 36 <? N.of_nat (length ad)) then
         (Err Siv.InvalidInputSize, buffer)
       else match Rfc8452.decrypt key nonce buffer tag ad with
            | Some plaintext => (Ok tt, plaintext)
            | None => (Err Siv.InvalidTag, replicate (length buffer) Byte.x00)
            end)).
Proof.
  split; intros Hk.
  { unfold Aes256GcmSiv.new, Aes256.new. by rewrite (proj2 (Nat.eqb_neq _ _) Hk). }
  destruct (new_ok key Hk) as (c & Hnew & Hc). exists c. split; [done|].
  split; [exact (encrypt_cases c key nonce ad buffer Hc Hk)|exact (decrypt_cases c key nonce ad tag buffer Hc Hk)].
Qed.

(** C25: decryption accepts exactly what encryption makes. What [encrypt] leaves in
    the buffer, [decrypt] with its tag, nonce and associated data turns back
    into the plaintext; and when [decrypt] succeeds on any bytes at all, the
    plaintext it leaves encrypts to those bytes and that tag: there is no
    second ciphertext or tag of a plaintext. *)
Theorem aes_gcm_siv_roundtrip key c nonce ad :
  Aes256GcmSiv.new key = Ok c ->
  (forall pt tag ct, Aes256GcmSiv.encrypt c nonce ad pt = (Ok tag, ct) ->
     Aes256GcmSiv.decrypt c nonce ad tag ct = (Ok tt, pt)) /\
  (forall tag ct pt, Aes256GcmSiv.decrypt c nonce ad tag ct = (Ok tt, pt) ->
     Aes256GcmSiv.encrypt c nonce ad pt = (Ok tag, ct)).
Proof.
  intros Hnew. destruct (decide (length key = 32%nat)) as [Hk|Hk].
  2: { unfold Aes256GcmSiv.new, Aes256.new in Hnew. by rewrite (proj2 (Nat.eqb_neq _ _) Hk) in Hnew. }
  destruct (new_ok key Hk) as (c' & Hnew' & Hc). assert (c' = c) as -> by congruence. split.
  - intros pt tag ct Henc. destruct (encrypt_inv _ _ _ _ _ _ Henc) as [Hl Hn].
    rewrite (encrypt_ok c key) in Henc by done.
    pose proof (rfc_roundtrip key nonce pt ad Hk) as Hr.
    pose proof (rfc_tag_length key nonce pt ad Hk) as Ht.
    pose proof (rfc_ct_length key nonce pt ad Hk) as Hlen.
    destruct (Rfc8452.encrypt key nonce pt ad) as [ct' tag']. cbn [fst snd] in *.
    assert (ct' = ct /\ tag' = tag) as [-> ->] by (split; congruence).
    rewrite (decrypt_ok c key); [by rewrite Hr|done..|]. by rewrite (too_long_length _ _ _ Hlen).
  - intros tag ct pt Hdec. destruct (decrypt_inv _ _ _ _ _ _ Hdec) as (Hn & Ht & Hl).
    rewrite (decrypt_ok c key) in Hdec by done.
    destruct (Rfc8452.decrypt key nonce ct tag ad) as [pt'|] eqn:Hd; [|done]. injection Hdec as ->.
    apply rfc_decrypt_some in Hd; [|done..].
    pose proof (rfc_ct_length key nonce pt ad Hk) as Hlen. rewrite Hd in Hlen. cbn [fst] in Hlen.
    rewrite (encrypt_ok c key); [by rewrite Hd|done..|]. by rewrite <-(too_long_length _ _ _ Hlen).
Qed.
End Proofs.
