(* ===== verification/SivInstances.v ===== *)
(** The crates under AES-GCM-SIV as concrete functions: POLYVAL and the block
    cipher by their specifications, so that the laws hold and the definitions
    run; the machines a build may run on; and the test vectors of RFC 8452 on
    each of them. *)

From S2P Require Import Prelude Crates Instances Simd SivCommon Polyval Aes256 AesGcmSiv.
Local Open Scope N_scope.

(** ** Crates *)

Definition spec_polyval : PolyvalCrate := {|
  SoftPolyval := N * N;
  soft_new key := (le_num key, 0);
  soft_update p block := (p.1, polyval_blocks p.1 p.2 (chunks 16 block));
  soft_update_padded p data := (p.1, polyval_blocks p.1 p.2 (chunks 16 (pad16 data)));
  soft_finalize p := le_bytes 16 p.2;
|}.

Lemma spec_polyval_laws : @PolyvalLaws spec_polyval.
Proof.
  refine (Build_PolyvalLaws spec_polyval (fun p h s => p = (h, s)) _ _ _ _).
  - done.
  - by intros p h s data ->.
  - by intros p h s data ->.
  - by intros p h s ->.
Qed.

Definition spec_cipher (par : nat) : BlockCipher := {|
  CipherKey := bytes;
  cipher_new key := key;
  par_blocks := par;
  encrypt_block := Fips197.cipher;
  encrypt_blocks k := map (Fips197.cipher k);
|}.

#[local] Opaque Fips197.cipher.

Lemma spec_cipher_laws par : (0 < par)%nat -> @BlockCipherLaws (spec_cipher par).
Proof.
  intros Hpar. constructor; [exact Hpar|intros key block _ _; reflexivity|intros k blocks _; reflexivity].
Qed.

(** Both crates take eight blocks at a time. *)
Definition spec_aes : AesCrates := {| aes_soft := spec_cipher 8; aesni := spec_cipher 8 |}.

Lemma spec_aes_laws : @AesLaws spec_aes.
Proof. constructor; apply spec_cipher_laws; lia. Qed.

(** ** Machines *)

Definition plain_machine : Machine :=
  {| target := TargetOther; cpu_aes := false; cpu_pclmulqdq := false; cpu_ssse3 := false; hwcap := 0%Z |}.
Definition x86_machine : Machine :=
  {| target := TargetX86; cpu_aes := true; cpu_pclmulqdq := true; cpu_ssse3 := true; hwcap := 0%Z |}.
Definition arm_machine : Machine :=
  {| target := TargetAarch64; cpu_aes := false; cpu_pclmulqdq := false; cpu_ssse3 := false; hwcap := 0xfb%Z |}.

(** ** Test vectors, on each machine *)

#[local] Existing Instances toy_build toy_crates spec_polyval spec_aes.

(** Encryption in place, then decryption in place. *)
Definition there_and_back (m : Machine) (key nonce ad pt : bytes) : Siv.Result (bytes * bytes * bytes) :=
  let? c := @Aes256GcmSiv.new spec_aes m key in
  let '(tag, ct) := Aes256GcmSiv.encrypt c nonce ad pt in
  let? tag := tag in
  let '(r, pt) := Aes256GcmSiv.decrypt c nonce ad tag ct in
  let? _ := r in Ok (ct, tag, pt).

(** Cases 90 and 101 of [tests/data/aes_gcm_siv_test.json]; in the second the
    counter starts at its maximum and wraps. *)
Example vector_90 :
  map (fun m => there_and_back m
    (of_hex "0100000000000000000000000000000000000000000000000000000000000000")
    (of_hex "030000000000000000000000")
    (of_hex "010000000000000000000000000000000200") (of_hex "0300000000000000000000000000000004000000"))
    [plain_machine; x86_machine; arm_machine]
  = replicate 3 (Ok (of_hex "43dd0163cdb48f9fe3212bf61b201976067f342b",
      of_hex "b879ad976d8242acc188ab59cabfe307", of_hex "0300000000000000000000000000000004000000")).
Proof. vm_compute. reflexivity. Qed.

Example vector_101 :
  map (fun m => there_and_back m (replicate 32 Byte.x00) (replicate 12 Byte.x00) []
    (of_hex "eb3640277c7ffd1303c7a542d02d3e4c0000000000000000"))
    [plain_machine; x86_machine; arm_machine]
  = replicate 3 (Ok (of_hex "18ce4f0b8cb4d0cac65fea8f79257b20888e53e72299e56d",
      of_hex "ffffffff000000000000000000000000", of_hex "eb3640277c7ffd1303c7a542d02d3e4c0000000000000000")).
Proof. vm_compute. reflexivity. Qed.
