(* ===== verification/BridgeMemory.v ===== *)
(** The memory that a bridge and its caller share: boxed objects, byte buffers,
    strings and variables at addresses, and computations over it.

    A pointer is an address.  A cell holds one typed thing, and a dereference
    at another type, of an address where nothing is allocated, or past the end
    of a buffer is undefined behaviour, which is a way a computation can end of
    its own ([Undefined]), distinct from an error and from a panic.  The code
    has no such stop, it goes on with any effect at all: where a computation
    ends so, nothing it did before stands for the code's, so the theorems say
    of such a call that its behaviour is undefined, and no more.  Pointers
    into the middle of a buffer are not represented. *)

From S2P Require Import Prelude Error Crates Curve Protocol PreKeys SessionState SenderKeys Fingerprint.

(** * [SignalFfiError]

    The payload of a panic is the [&'static str] it carries, if it is one. *)

Inductive SignalFfiError :=
  | Signal (e : SignalProtocolError)
  | InsufficientOutputSize (needed provided : nat)
  | NullPointer
  | InvalidUtf8String
  | UnexpectedPanic (payload : option string)
  | CallbackError (code : Z)
  | InvalidType.

#[export] Instance SignalFfiError_eq_dec : EqDecision SignalFfiError.
Proof. solve_decision. Defined.

(** * Cells *)

(** The types that are handed to C as [Box::into_raw(Box::new(x))]. *)
Inductive Object :=
  | ObjProtocolAddress (x : ProtocolAddress)
  | ObjPublicKey (x : PublicKey)
  | ObjPrivateKey (x : PrivateKey)
  | ObjSessionRecord (x : SessionRecord)
  | ObjFingerprint (x : Fingerprint.t)
  | ObjSignalMessage (x : SignalMessage)
  | ObjPreKeySignalMessage (x : PreKeySignalMessage)
  | ObjSenderKeyMessage (x : SenderKeyMessage)
  | ObjSenderKeyDistributionMessage (x : SenderKeyDistributionMessage)
  | ObjPreKeyBundle (x : PreKeyBundle)
  | ObjSignedPreKeyRecord (x : SignedPreKeyRecord)
  | ObjPreKeyRecord (x : PreKeyRecord)
  | ObjSenderKeyName (x : SenderKeyName)
  | ObjSenderKeyRecord (x : SenderKeyRecord)
  | ObjCiphertextMessage (x : CiphertextMessage)
  | ObjSignalFfiError (x : SignalFfiError).

(** The types of the C variables that the interface reads or writes. *)
Inductive VarType := PtrVar | U8Var | U32Var | U64Var | SizeVar | I32Var | BoolVar.

#[export] Instance VarType_eq_dec : EqDecision VarType.
Proof. solve_decision. Defined.

Abbreviation Ptr := Z (only parsing).
Definition null : Ptr := 0%Z.
Definition is_null (p : Ptr) : bool := (p =? null)%Z.

(** [BoxedSlice] and [OwnedString] (its NUL byte left out) belong to Rust, which
    frees them; [Bytes] is an array of the C program. *)
Inductive Cell :=
  | Boxed (o : Object)
  | BoxedSlice (b : bytes)
  | OwnedString (b : bytes)
  | Bytes (b : bytes)
  | Var (t : VarType) (v : Z).

Abbreviation Memory := (gmap Z Cell).

(** The bytes one can read from a cell on. *)
Definition cell_bytes (c : Cell) : option bytes :=
  match c with
  | BoxedSlice b | Bytes b => Some b
  | OwnedString b => Some (b ++ [Byte.x00])
  | _ => None
  end.

(** ** Boxed types *)

Class Boxable (T : Type) := {
  inject : T -> Object;
  project : Object -> option T;
  project_inject : forall x, project (inject x) = Some x;
  project_some : forall o x, project o = Some x -> o = inject x;
}.

Ltac boxable := first [done | by intros [] ? [= ->]].

#[export] Program Instance ProtocolAddress_boxable : Boxable ProtocolAddress := {
  inject := ObjProtocolAddress;
  project o := match o with ObjProtocolAddress x => Some x | _ => None end;
}.
Solve Obligations with boxable.
#[export] Program Instance PublicKey_boxable : Boxable PublicKey := {
  inject := ObjPublicKey;
  project o := match o with ObjPublicKey x => Some x | _ => None end;
}.
Solve Obligations with boxable.
#[export] Program Instance PrivateKey_boxable : Boxable PrivateKey := {
  inject := ObjPrivateKey;
  project o := match o with ObjPrivateKey x => Some x | _ => None end;
}.
Solve Obligations with boxable.
#[export] Program Instance SessionRecord_boxable : Boxable SessionRecord := {
  inject := ObjSessionRecord;
  project o := match o with ObjSessionRecord x => Some x | _ => None end;
}.
Solve Obligations with boxable.
#[export] Program Instance Fingerprint_boxable : Boxable Fingerprint.t := {
  inject := ObjFingerprint;
  project o := match o with ObjFingerprint x => Some x | _ => None end;
}.
Solve Obligations with boxable.
#[export] Program Instance SignalMessage_boxable : Boxable SignalMessage := {
  inject := ObjSignalMessage;
  project o := match o with ObjSignalMessage x => Some x | _ => None end;
}.
Solve Obligations with boxable.
#[export] Program Instance PreKeySignalMessage_boxable : Boxable PreKeySignalMessage := {
  inject := ObjPreKeySignalMessage;
  project o := match o with ObjPreKeySignalMessage x => Some x | _ => None end;
}.
Solve Obligations with boxable.
#[export] Program Instance SenderKeyMessage_boxable : Boxable SenderKeyMessage := {
  inject := ObjSenderKeyMessage;
  project o := match o with ObjSenderKeyMessage x => Some x | _ => None end;
}.
Solve Obligations with boxable.
#[export] Program Instance SenderKeyDistributionMessage_boxable :
    Boxable SenderKeyDistributionMessage := {
  inject := ObjSenderKeyDistributionMessage;
  project o := match o with ObjSenderKeyDistributionMessage x => Some x | _ => None end;
}.
Solve Obligations with boxable.
#[export] Program Instance PreKeyBundle_boxable : Boxable PreKeyBundle := {
  inject := ObjPreKeyBundle;
  project o := match o with ObjPreKeyBundle x => Some x | _ => None end;
}.
Solve Obligations with boxable.
#[export] Program Instance SignedPreKeyRecord_boxable : Boxable SignedPreKeyRecord := {
  inject := ObjSignedPreKeyRecord;
  project o := match o with ObjSignedPreKeyRecord x => Some x | _ => None end;
}.
Solve Obligations with boxable.
#[export] Program Instance PreKeyRecord_boxable : Boxable PreKeyRecord := {
  inject := ObjPreKeyRecord;
  project o := match o with ObjPreKeyRecord x => Some x | _ => None end;
}.
Solve Obligations with boxable.
#[export] Program Instance SenderKeyName_boxable : Boxable SenderKeyName := {
  inject := ObjSenderKeyName;
  project o := match o with ObjSenderKeyName x => Some x | _ => None end;
}.
Solve Obligations with boxable.
#[export] Program Instance SenderKeyRecord_boxable : Boxable SenderKeyRecord := {
  inject := ObjSenderKeyRecord;
  project o := match o with ObjSenderKeyRecord x => Some x | _ => None end;
}.
Solve Obligations with boxable.
#[export] Program Instance CiphertextMessage_boxable : Boxable CiphertextMessage := {
  inject := ObjCiphertextMessage;
  project o := match o with ObjCiphertextMessage x => Some x | _ => None end;
}.
Solve Obligations with boxable.
#[export] Program Instance SignalFfiError_boxable : Boxable SignalFfiError := {
  inject := ObjSignalFfiError;
  project o := match o with ObjSignalFfiError x => Some x | _ => None end;
}.
Solve Obligations with boxable.

(** * The allocator, and the payload of panics

    Where the allocator puts a new block is up to it; it runs the process down
    when there is no memory.  What a panic carries is not part of the outcome
    of a call into the protocol crate, so it is a parameter too. *)

Class Platform := {
  alloc_address : Memory -> Ptr;
  panic_payload : option string;
}.

Class AllocLaws `{Platform} : Prop := {
  alloc_nonnull : forall m, alloc_address m <> null;
  alloc_unused : forall m, m !! alloc_address m = None;
}.

(** * Computations

    Over the memory and the rest [W] of the world: the generator, the stores.  A
    computation fails with an error of the bridge, of type [E]. *)

Inductive Stop (E : Type) := Fail (e : E) | Undefined.
Arguments Fail {E} e.
Arguments Undefined {E}.

Definition Native (E W A : Type) : Type := ST (Stop E) (Memory * W) A.

(** Those of the C interface. *)
Abbreviation Ffi := (Native SignalFfiError).

Section Operations.
Context {E W : Type}.

Definition fail {A} (e : E) : Native E W A := st_lift (Err (Fail e)).
(** The memory is left as it is because nothing follows: no theorem is about it. *)
Definition undefined {A} : Native E W A := st_lift (Err Undefined).

(** A call whose [Result] is a value: only a panic ends the computation. *)
Definition evaluate {A} (r : Result A) : Native E W (Result A) :=
  match r with
  | Panic => st_lift Panic
  | r => st_ret r
  end.

(** The cell a pointer designates. *)
Definition deref (p : Ptr) : Native E W Cell :=
  if is_null p then undefined else st_gets (fun s => ok_or (s.1 !! p) Undefined).
Definition put (p : Ptr) (c : Cell) : Native E W unit :=
  fun s => (Ok tt, (<[p := c]> s.1, s.2)).
Definition dealloc (p : Ptr) : Native E W unit :=
  fun s => (Ok tt, (delete p s.1, s.2)).

(** [*p] for a variable of the caller. *)
Definition load_var (t : VarType) (p : Ptr) : Native E W Z :=
  let! c := deref p in
  match c with
  | Var t' v => if decide (t' = t) then st_ret v else undefined
  | _ => undefined
  end.

(** [*p = v]. *)
Definition store_var (t : VarType) (p : Ptr) (v : Z) : Native E W unit :=
  let! _ := load_var t p in
  put p (Var t v).

(** [&*p] for a boxed object. *)
Definition deref_object (T : Type) `{Boxable T} (p : Ptr) : Native E W T :=
  let! c := deref p in
  match c with
  | Boxed o => st_lift (ok_or (project o) Undefined)
  | _ => undefined
  end.

(** The [len] bytes from [p] on. *)
Definition read_bytes (p : Ptr) (len : nat) : Native E W bytes :=
  let! c := deref p in
  match cell_bytes c with
  | Some b => if len <=? length b then st_ret (take len b) else undefined
  | None => undefined
  end.

Section Allocation.
Context `{Platform}.

Definition alloc (c : Cell) : Native E W Ptr :=
  fun s => let p := alloc_address s.1 in (Ok p, (<[p := c]> s.1, s.2)).

(** [Box::into_raw(Box::new(x))]. *)
Definition box_into_raw {T} `{Boxable T} (x : T) : Native E W Ptr := alloc (Boxed (inject x)).

(** [Box::from_raw(p)] of a [T], dropped. *)
Definition box_drop (T : Type) `{Boxable T} (p : Ptr) : Native E W unit :=
  let! _ := deref_object T p in dealloc p.

(** [Box::into_raw] of a [Box<\[u8\]>], of which the pointer to the bytes is
    taken: an empty slice is not allocated, its pointer is the dangling address
    of a type aligned to one byte. *)
Definition slice_into_raw (b : bytes) : Native E W Ptr :=
  if length b =? 0 then st_ret 1%Z else alloc (BoxedSlice b).
End Allocation.
End Operations.
