(* ===== verification/FfiUtil.v ===== *)
(** The helpers of the C interface ([bridge/ffi/src/util.rs]): error codes, the
    guard against panics, the conversions of arguments and results, and the
    macros, which are definitions that take the Rust function they wrap. *)

From S2P Require Import Prelude Error Crates RatchetKeys BridgeMemory.
From stdpp Require Import pretty.

(** * [SignalErrorCode] *)

Inductive SignalErrorCode :=
  | UnknownErrorCode | InvalidStateCode | InternalErrorCode | NullParameterCode
  | InvalidArgumentCode | InvalidTypeCode | InvalidUtf8StringCode | InsufficientOutputSizeCode
  | ProtobufErrorCode
  | InvalidCiphertextCode | LegacyCiphertextVersionCode | UnknownCiphertextVersionCode
  | UnrecognizedMessageVersionCode | InvalidMessageCode
  | InvalidKeyCode | InvalidSignatureCode
  | FingerprintIdentifierMismatchCode | FingerprintVersionMismatchCode
  | UntrustedIdentityCode | InvalidKeyIdentifierCode | SessionNotFoundCode
  | DuplicatedMessageCode | CallbackErrorCode.

#[export] Instance SignalErrorCode_eq_dec : EqDecision SignalErrorCode.
Proof. solve_decision. Defined.

(** [code as u32]. *)
Definition code_value (c : SignalErrorCode) : Z :=
  match c with
  | UnknownErrorCode => 1
  | InvalidStateCode => 2
  | InternalErrorCode => 3
  | NullParameterCode => 4
  | InvalidArgumentCode => 5
  | InvalidTypeCode => 6
  | InvalidUtf8StringCode => 7
  | InsufficientOutputSizeCode => 8
  | ProtobufErrorCode => 10
  | InvalidCiphertextCode => 20
  | LegacyCiphertextVersionCode => 21
  | UnknownCiphertextVersionCode => 22
  | UnrecognizedMessageVersionCode => 23
  | InvalidMessageCode => 30
  | InvalidKeyCode => 40
  | InvalidSignatureCode => 41
  | FingerprintIdentifierMismatchCode => 50
  | FingerprintVersionMismatchCode => 51
  | UntrustedIdentityCode => 60
  | InvalidKeyIdentifierCode => 70
  | SessionNotFoundCode => 80
  | DuplicatedMessageCode => 90
  | CallbackErrorCode => 100
  end%Z.

(** [From<&SignalFfiError> for SignalErrorCode]. *)
Definition error_code (err : SignalFfiError) : SignalErrorCode :=
  match err with
  | NullPointer => NullParameterCode
  | BridgeMemory.InvalidType => InvalidTypeCode
  | UnexpectedPanic _ => InternalErrorCode
  | BridgeMemory.CallbackError _ => CallbackErrorCode
  | BridgeMemory.InvalidUtf8String => InvalidUtf8StringCode
  | InsufficientOutputSize _ _ => InsufficientOutputSizeCode
  | Signal (ProtobufEncodingError _) | Signal (ProtobufDecodingError _) => ProtobufErrorCode
  | Signal (DuplicatedMessage _ _) => DuplicatedMessageCode
  | Signal InvalidPreKeyId | Signal InvalidSignedPreKeyId | Signal InvalidSenderKeyId =>
      InvalidKeyIdentifierCode
  | Signal SignatureValidationFailed => InvalidSignatureCode
  | Signal NoKeyTypeIdentifier | Signal (BadKeyType _) | Signal (BadKeyLength _ _) =>
      InvalidKeyCode
  | Signal SessionNotFound => SessionNotFoundCode
  | Signal FingerprintIdentifierMismatch => FingerprintIdentifierMismatchCode
  | Signal FingerprintVersionMismatch => FingerprintVersionMismatchCode
  | Signal (CiphertextMessageTooShort _) | Signal InvalidCiphertext => InvalidCiphertextCode
  | Signal (UnrecognizedMessageVersion _) => UnrecognizedMessageVersionCode
  | Signal (UnrecognizedCiphertextVersion _) => UnknownCiphertextVersionCode
  | Signal (InvalidMessage _) | Signal InvalidProtobufEncoding => InvalidMessageCode
  | Signal (LegacyCiphertextVersion _) => LegacyCiphertextVersionCode
  | Signal (UntrustedIdentity _) => UntrustedIdentityCode
  | Signal (InvalidState _ _) | Signal NoSenderKeyState | Signal InvalidSessionStructure =>
      InvalidStateCode
  | Signal (InvalidArgument _) => InvalidArgumentCode
  | _ => UnknownErrorCode
  end.

(** [impl fmt::Display for SignalFfiError]. *)
Definition ffi_error_display (err : SignalFfiError) : string :=
  (match err with
   | Signal s => error_display s
   | BridgeMemory.CallbackError c => "callback invocation returned error code " +:+ pretty c
   | NullPointer => "null pointer"
   | BridgeMemory.InvalidType => "invalid type"
   | BridgeMemory.InvalidUtf8String => "invalid UTF8 string"
   | InsufficientOutputSize n h =>
       "needed " +:+ pretty n +:+ " elements only " +:+ pretty h +:+ " provided"
   | UnexpectedPanic (Some s) => "unexpected panic: " +:+ s
   | UnexpectedPanic None => "unknown unexpected panic"
   end)%string.

(** * Strings

    A string of the model holds the UTF-8 bytes of the Rust string. *)

Definition in_range (lo hi : Z) (b : Byte.byte) : bool :=
  ((lo <=? u8_val b) && (u8_val b <=? hi))%Z.

(** [str::from_utf8]: well-formed UTF-8 (table 3-7 of the Unicode standard). *)
Fixpoint utf8_valid (b : bytes) : bool :=
  match b with
  | [] => true
  | b0 :: r =>
      if in_range 0 127 b0 then utf8_valid r
      else match r with
      | [] => false
      | b1 :: r =>
          if in_range 194 223 b0 then in_range 128 191 b1 && utf8_valid r
          else match r with
          | [] => false
          | b2 :: r =>
              if in_range 224 239 b0 then
                in_range (if in_range 224 224 b0 then 160 else 128)
                         (if in_range 237 237 b0 then 159 else 191) b1
                && in_range 128 191 b2 && utf8_valid r
              else match r with
              | [] => false
              | b3 :: r =>
                  in_range 240 244 b0
                  && in_range (if in_range 240 240 b0 then 144 else 128)
                              (if in_range 244 244 b0 then 143 else 191) b1
                  && in_range 128 191 b2 && in_range 128 191 b3 && utf8_valid r
              end
          end
      end
  end.

(** The bytes before the first NUL; none when there is no NUL. *)
Fixpoint until_nul (b : bytes) : option bytes :=
  match b with
  | [] => None
  | c :: b => if decide (c = Byte.x00) then Some [] else cons c <$> until_nul b
  end.

(** * The guard and the conversions *)

Section Util.
Context {W : Type} `{Platform}.

(** [?] on a call into the protocol crate, through [From]. *)
Definition signal {A} (r : Result A) : Ffi W A :=
  match r with
  | Ok a => st_ret a
  | Err e => fail (Signal e)
  | Panic => st_lift Panic
  end.

(** [expect_ready] of an [async] function of the protocol crate: the futures it
    awaits are those of the stores, which are ready when first polled. *)
Definition expect_ready {A} (m : StateResult W A) : Ffi W (Result A) :=
  fun s => let '(r, w) := m s.2 in evaluate r (s.1, w).

Definition run_ffi_safe (f : Ffi W unit) : Ffi W Ptr :=
  fun s =>
    match f s with
    | (Ok _, s) => (Ok null, s)
    | (Err (Fail e), s) => box_into_raw e s
    | (Panic, s) => box_into_raw (UnexpectedPanic panic_payload) s
    | (Err Undefined, s) => (Err Undefined, s)
    end.

Definition box_object {T} `{Boxable T} (p : Ptr) (obj : Result T) : Ffi W unit :=
  if is_null p then fail NullPointer
  else
    match obj with
    | Ok o => let! q := box_into_raw o in store_var PtrVar p q
    | Err e => let! _ := store_var PtrVar p null in fail (Signal e)
    | Panic => st_lift Panic
    end.

Definition box_optional_object {T} `{Boxable T} (p : Ptr) (obj : Result (option T))
    : Ffi W unit :=
  if is_null p then fail NullPointer
  else
    match obj with
    | Ok (Some o) => let! q := box_into_raw o in store_var PtrVar p q
    | Ok None => store_var PtrVar p null
    | Err e => let! _ := store_var PtrVar p null in fail (Signal e)
    | Panic => st_lift Panic
    end.

(** [slice::from_raw_parts]: any non-null pointer will do for an empty slice. *)
Definition from_raw_parts (p : Ptr) (len : nat) : Ffi W bytes :=
  if len =? 0 then st_ret [] else read_bytes p len.

Definition as_slice (input : Ptr) (input_len : nat) : Ffi W bytes :=
  if is_null input then
    if negb (input_len =? 0) then fail NullPointer else st_ret []
  else from_raw_parts input input_len.

(** A mutable slice is the place it designates; making one of bytes that are not
    there is undefined. *)
Record SliceMut := { slice_base : Ptr; slice_len : nat }.

Definition as_slice_mut (input : Ptr) (input_len : nat) : Ffi W SliceMut :=
  if is_null input then
    if negb (input_len =? 0) then fail NullPointer
    else st_ret {| slice_base := null; slice_len := 0 |}
  else
    let! _ := from_raw_parts input input_len in
    st_ret {| slice_base := input; slice_len := input_len |}.

(** [<\[u8\]>::copy_from_slice] panics when the lengths differ. *)
Definition copy_from_slice (d : SliceMut) (src : bytes) : Ffi W unit :=
  if negb (slice_len d =? length src) then st_lift Panic
  else if slice_len d =? 0 then st_ret tt
  else
    let! c := deref (slice_base d) in
    match c with
    | Bytes b => put (slice_base d) (Bytes (src ++ list.drop (length src) b))
    | BoxedSlice b => put (slice_base d) (BoxedSlice (src ++ list.drop (length src) b))
    | _ => undefined
    end.

Definition native_handle_cast_optional (T : Type) `{Boxable T} (handle : Ptr)
    : Ffi W (option T) :=
  if is_null handle then st_ret None
  else let! x := deref_object T handle in st_ret (Some x).

Definition native_handle_cast (T : Type) `{Boxable T} (handle : Ptr) : Ffi W T :=
  if is_null handle then fail NullPointer else deref_object T handle.

(** The object behind [native_handle_cast_mut], changed by a method [f]. *)
Definition native_handle_cast_mut {T : Type} `{Boxable T} (handle : Ptr) (f : T -> Result T)
    : Ffi W unit :=
  if is_null handle then fail NullPointer
  else
    let! x := deref_object T handle in
    let! x := signal (f x) in
    put handle (Boxed (inject x)).

Definition get_optional_uint32 (p : Ptr) : Ffi W (option Z) :=
  if is_null p then st_ret None
  else
    let! v := load_var U32Var p in
    if (v =? u32_max)%Z then st_ret None else st_ret (Some v).

Definition read_c_string (cstr : Ptr) : Ffi W string :=
  if is_null cstr then fail NullPointer
  else
    let! c := deref cstr in
    let! b := st_lift (ok_or (cell_bytes c ≫= until_nul) Undefined) in
    if utf8_valid b then st_ret (String.string_of_list_byte b) else fail InvalidUtf8String.

(** [CString::new], whose error is unwrapped with [expect]. *)
Definition cstring_new (value : string) : Ffi W bytes :=
  if bool_decide (Byte.x00 ∈ string_bytes value) then st_lift Panic
  else st_ret (string_bytes value).

Definition write_cstr_to (out : Ptr) (value : Result string) : Ffi W unit :=
  if is_null out then fail NullPointer
  else
    let! value := signal value in
    let! cstr := cstring_new value in
    let! p := alloc (OwnedString cstr) in
    store_var PtrVar out p.

Definition write_uint32_to (out : Ptr) (value : Result Z) : Ffi W unit :=
  if is_null out then fail NullPointer
  else let! value := signal value in store_var U32Var out value.

Definition write_optional_uint32_to (out : Ptr) (value : Result (option Z)) : Ffi W unit :=
  if is_null out then fail NullPointer
  else let! value := signal value in store_var U32Var out (default u32_max value).

Definition write_uint64_to (out : Ptr) (value : Result Z) : Ffi W unit :=
  if is_null out then fail NullPointer
  else let! value := signal value in store_var U64Var out value.

Definition write_bytearray_to (out out_len : Ptr) (value : Result bytes) : Ffi W unit :=
  if is_null out || is_null out_len then fail NullPointer
  else
    let! value := signal value in
    let! _ := store_var SizeVar out_len (Z.of_nat (length value)) in
    let! mem := slice_into_raw value in
    store_var PtrVar out mem.

(** * The macros

    An argument that is a call is evaluated before the helper it is passed to,
    so its panic comes first. *)

Definition ffi_fn_deserialize {T} `{Boxable T} (func : bytes -> Result T)
    (p data : Ptr) (data_len : nat) : Ffi W Ptr :=
  run_ffi_safe
    (if is_null data then fail NullPointer
     else
       let! data := from_raw_parts data data_len in
       let! obj := evaluate (func data) in
       box_object p obj).

Definition ffi_fn_get_new_boxed_obj {R T} `{Boxable R, Boxable T} (body : T -> Result R)
    (new_obj obj : Ptr) : Ffi W Ptr :=
  run_ffi_safe
    (let! obj := native_handle_cast T obj in
     let! r := evaluate (body obj) in
     box_object new_obj r).

Definition ffi_fn_clone (T : Type) `{Boxable T} (new_obj obj : Ptr) : Ffi W Ptr :=
  run_ffi_safe
    (let! obj := native_handle_cast T obj in
     box_object new_obj (Ok obj)).

Definition ffi_fn_get_new_boxed_optional_obj {R T} `{Boxable R, Boxable T}
    (body : T -> Result (option R)) (new_obj obj : Ptr) : Ffi W Ptr :=
  run_ffi_safe
    (let! obj := native_handle_cast T obj in
     let! r := evaluate (body obj) in
     box_optional_object new_obj r).

Definition ffi_fn_get_uint32 {T} `{Boxable T} (body : T -> Result Z) (obj out : Ptr)
    : Ffi W Ptr :=
  run_ffi_safe
    (let! obj := native_handle_cast T obj in
     let! r := evaluate (body obj) in
     write_uint32_to out r).

Definition ffi_fn_get_optional_uint32 {T} `{Boxable T} (body : T -> Result (option Z))
    (obj out : Ptr) : Ffi W Ptr :=
  run_ffi_safe
    (let! obj := native_handle_cast T obj in
     let! r := evaluate (body obj) in
     write_optional_uint32_to out r).

Definition ffi_fn_get_uint64 {T} `{Boxable T} (body : T -> Result Z) (obj out : Ptr)
    : Ffi W Ptr :=
  run_ffi_safe
    (let! obj := native_handle_cast T obj in
     let! r := evaluate (body obj) in
     write_uint64_to out r).

Definition ffi_fn_get_bytearray {T} `{Boxable T} (body : T -> Result bytes)
    (obj out out_len : Ptr) : Ffi W Ptr :=
  run_ffi_safe
    (let! obj := native_handle_cast T obj in
     let! r := evaluate (body obj) in
     write_bytearray_to out out_len r).

Definition ffi_fn_get_cstring {T} `{Boxable T} (body : T -> Result string) (obj out : Ptr)
    : Ffi W Ptr :=
  run_ffi_safe
    (let! obj := native_handle_cast T obj in
     let! r := evaluate (body obj) in
     write_cstr_to out r).

Definition ffi_fn_destroy (T : Type) `{Boxable T} (p : Ptr) : Ffi W Ptr :=
  run_ffi_safe (if negb (is_null p) then box_drop T p else st_ret tt).
End Util.
