(* ===== verification/FfiStores.v ===== *)
(** The stores of the C interface ([bridge/ffi/src/lib.rs]): each is a table of
    callbacks of the C program, and implements the store trait of the protocol
    crate by calling them.

    The callbacks are a parameter, a class of functions over [A], the type of what
    the [ctx] pointer of the table designates: the store of the C program.  An
    out-parameter of a callback is a local variable of the caller, initialised to
    null or zero: a callback answers with its return code and the object, if any,
    that it leaves there, which the caller takes over with [Box::from_raw]; such
    boxes do not outlive the call and are not in the memory.  A callback behind a
    [&self] method reads the store.  The contexts of two tables are taken to be
    different stores. *)

From S2P Require Import Prelude Error Crates Curve IdentityKey PreKeys SessionState SenderKeys Storage.
From S2P Require Import BridgeMemory FfiUtil.

(** [Context] is [Option<*mut c_void>]. *)
Definition ctx_pointer (ctx : Context) : Ptr := default null ctx.

(** [*p.as_ref().ok_or(SignalFfiError::NullPointer)?] of a pointer to a table,
    which is null or designates one. *)
Definition as_ref {W A} (p : option A) : Ffi W A :=
  match p with Some a => st_ret a | None => fail NullPointer end.

(** A return code that is not 0 is an error. *)
Definition callback_ok (name : string) (result : Z) : Result unit :=
  if negb (result =? 0)%Z then Err (ApplicationCallbackReturnedIntegerError name result)
  else Ok tt.

(** [match result { 0 => Ok(false), 1 => Ok(true), r => Err(..) }]. *)
Definition callback_bool (name : string) (result : Z) : Result bool :=
  if (result =? 0)%Z then Ok false
  else if (result =? 1)%Z then Ok true
  else Err (ApplicationCallbackReturnedIntegerError name result).

(** [#\[repr(C)\] enum FfiDirection]. *)
Inductive FfiDirection := FfiSending | FfiReceiving.
Definition direction_value (d : FfiDirection) : Z :=
  match d with FfiSending => 0 | FfiReceiving => 1 end%Z.

(** * Identities *)

Class FfiIdentityKeyStoreStruct (A : Type) := {
  get_identity_key_pair_cb : A -> Ptr -> Z * option PrivateKey;
  get_local_registration_id_cb : A -> Ptr -> Z * Z;
  save_identity_cb : A -> ProtocolAddress -> PublicKey -> Ptr -> Z * A;
  get_identity_cb : A -> ProtocolAddress -> Ptr -> Z * option PublicKey;
  is_trusted_identity_cb : A -> ProtocolAddress -> PublicKey -> Z -> Ptr -> Z;
}.

Module FfiIdentityKeyStore.
Definition new {W A} (store : option (FfiIdentityKeyStoreStruct A))
    : Ffi W (FfiIdentityKeyStoreStruct A) := as_ref store.

Section Operations.
Context `{FfiIdentityKeyStoreStruct A, Crates}.

Definition ffi_get_identity_key_pair (ctx : Context) (store_ctx : A) : Result IdentityKeyPair :=
  let '(result, key) := get_identity_key_pair_cb store_ctx (ctx_pointer ctx) in
  let? _ := callback_ok "get_identity_key_pair" result in
  match key with
  | None => Err (InternalError "No identity key pair")
  | Some priv_key =>
      let? pub_key := PrivateKey.public_key priv_key in
      Ok (IdentityKeyPair.new (IdentityKey.new pub_key) priv_key)
  end.

Definition ffi_get_local_registration_id (ctx : Context) (store_ctx : A) : Result Z :=
  let '(result, id) := get_local_registration_id_cb store_ctx (ctx_pointer ctx) in
  let? _ := callback_ok "get_local_registration_id" result in
  Ok id.

Definition ffi_save_identity (address : ProtocolAddress) (identity : IdentityKey) (ctx : Context)
    : StateResult A bool :=
  fun store_ctx =>
    let '(result, store_ctx) := save_identity_cb store_ctx address
      (IdentityKey.public_key identity) (ctx_pointer ctx) in
    (callback_bool "save_identity" result, store_ctx).

Definition ffi_is_trusted_identity (address : ProtocolAddress) (identity : IdentityKey)
    (direction : Direction) (ctx : Context) (store_ctx : A) : Result bool :=
  let direction := match direction with Sending => FfiSending | Receiving => FfiReceiving end in
  callback_bool "is_trusted_identity"
    (is_trusted_identity_cb store_ctx address (IdentityKey.public_key identity)
       (direction_value direction) (ctx_pointer ctx)).

Definition ffi_get_identity (address : ProtocolAddress) (ctx : Context) (store_ctx : A)
    : Result (option IdentityKey) :=
  let '(result, key) := get_identity_cb store_ctx address (ctx_pointer ctx) in
  let? _ := callback_ok "get_identity" result in
  match key with
  | None => Ok None
  | Some pk => Ok (Some (IdentityKey.new pk))
  end.

#[global] Instance store : IdentityKeyStore A := {
  get_identity_key_pair := ffi_get_identity_key_pair;
  get_local_registration_id := ffi_get_local_registration_id;
  save_identity := ffi_save_identity;
  is_trusted_identity := ffi_is_trusted_identity;
  get_identity := ffi_get_identity;
}.
End Operations.
End FfiIdentityKeyStore.

(** * Pre-keys *)

Class FfiPreKeyStoreStruct (A : Type) := {
  load_pre_key_cb : A -> Z -> Ptr -> Z * option PreKeyRecord;
  store_pre_key_cb : A -> Z -> PreKeyRecord -> Ptr -> Z * A;
  remove_pre_key_cb : A -> Z -> Ptr -> Z * A;
}.

Module FfiPreKeyStore.
Definition new {W A} (store : option (FfiPreKeyStoreStruct A))
    : Ffi W (FfiPreKeyStoreStruct A) := as_ref store.

Section Operations.
Context `{FfiPreKeyStoreStruct A}.

Definition ffi_get_pre_key (prekey_id : Z) (ctx : Context) (store_ctx : A) : Result PreKeyRecord :=
  let '(result, record) := load_pre_key_cb store_ctx prekey_id (ctx_pointer ctx) in
  let? _ := callback_ok "load_pre_key" result in
  ok_or record InvalidPreKeyId.

Definition ffi_save_pre_key (prekey_id : Z) (record : PreKeyRecord) (ctx : Context)
    : StateResult A unit :=
  fun store_ctx =>
    let '(result, store_ctx) := store_pre_key_cb store_ctx prekey_id record (ctx_pointer ctx) in
    (callback_ok "store_pre_key" result, store_ctx).

Definition ffi_remove_pre_key (prekey_id : Z) (ctx : Context) : StateResult A unit :=
  fun store_ctx =>
    let '(result, store_ctx) := remove_pre_key_cb store_ctx prekey_id (ctx_pointer ctx) in
    (callback_ok "remove_pre_key" result, store_ctx).

#[global] Instance store : PreKeyStore A := {
  get_pre_key := ffi_get_pre_key;
  save_pre_key := ffi_save_pre_key;
  remove_pre_key := ffi_remove_pre_key;
}.
End Operations.
End FfiPreKeyStore.

Class FfiSignedPreKeyStoreStruct (A : Type) := {
  load_signed_pre_key_cb : A -> Z -> Ptr -> Z * option SignedPreKeyRecord;
  store_signed_pre_key_cb : A -> Z -> SignedPreKeyRecord -> Ptr -> Z * A;
}.

Module FfiSignedPreKeyStore.
Definition new {W A} (store : option (FfiSignedPreKeyStoreStruct A))
    : Ffi W (FfiSignedPreKeyStoreStruct A) := as_ref store.

Section Operations.
Context `{FfiSignedPreKeyStoreStruct A}.

Definition ffi_get_signed_pre_key (prekey_id : Z) (ctx : Context) (store_ctx : A)
    : Result SignedPreKeyRecord :=
  let '(result, record) := load_signed_pre_key_cb store_ctx prekey_id (ctx_pointer ctx) in
  let? _ := callback_ok "load_signed_pre_key" result in
  ok_or record InvalidSignedPreKeyId.

Definition ffi_save_signed_pre_key (prekey_id : Z) (record : SignedPreKeyRecord) (ctx : Context)
    : StateResult A unit :=
  fun store_ctx =>
    let '(result, store_ctx) :=
      store_signed_pre_key_cb store_ctx prekey_id record (ctx_pointer ctx) in
    (callback_ok "store_signed_pre_key" result, store_ctx).

#[global] Instance store : SignedPreKeyStore A := {
  get_signed_pre_key := ffi_get_signed_pre_key;
  save_signed_pre_key := ffi_save_signed_pre_key;
}.
End Operations.
End FfiSignedPreKeyStore.

(** * Sessions *)

Class FfiSessionStoreStruct (A : Type) := {
  load_session_cb : A -> ProtocolAddress -> Ptr -> Z * option SessionRecord;
  store_session_cb : A -> ProtocolAddress -> SessionRecord -> Ptr -> Z * A;
}.

Module FfiSessionStore.
Definition new {W A} (store : option (FfiSessionStoreStruct A))
    : Ffi W (FfiSessionStoreStruct A) := as_ref store.

Section Operations.
Context `{FfiSessionStoreStruct A}.

Definition ffi_load_session (address : ProtocolAddress) (ctx : Context) (store_ctx : A)
    : Result (option SessionRecord) :=
  let '(result, record) := load_session_cb store_ctx address (ctx_pointer ctx) in
  let? _ := callback_ok "load_session" result in
  match record with
  | None => Ok None
  | Some record => Ok (Some record)
  end.

Definition ffi_store_session (address : ProtocolAddress) (record : SessionRecord) (ctx : Context)
    : StateResult A unit :=
  fun store_ctx =>
    let '(result, store_ctx) := store_session_cb store_ctx address record (ctx_pointer ctx) in
    (callback_ok "store_session" result, store_ctx).

#[global] Instance store : SessionStore A := {
  load_session := ffi_load_session;
  store_session := ffi_store_session;
}.
End Operations.
End FfiSessionStore.

(** * Sender keys: [load_sender_key] is a [&mut self] method *)

Class FfiSenderKeyStoreStruct (A : Type) := {
  load_sender_key_cb : A -> SenderKeyName -> Ptr -> Z * option SenderKeyRecord * A;
  store_sender_key_cb : A -> SenderKeyName -> SenderKeyRecord -> Ptr -> Z * A;
}.

Module FfiSenderKeyStore.
Definition new {W A} (store : option (FfiSenderKeyStoreStruct A))
    : Ffi W (FfiSenderKeyStoreStruct A) := as_ref store.

Section Operations.
Context `{FfiSenderKeyStoreStruct A}.

Definition ffi_store_sender_key (sender_key_name : SenderKeyName) (record : SenderKeyRecord)
    (ctx : Context) : StateResult A unit :=
  fun store_ctx =>
    let '(result, store_ctx) :=
      store_sender_key_cb store_ctx sender_key_name record (ctx_pointer ctx) in
    (callback_ok "store_sender_key" result, store_ctx).

Definition ffi_load_sender_key (sender_key_name : SenderKeyName) (ctx : Context)
    : StateResult A (option SenderKeyRecord) :=
  fun store_ctx =>
    let '(result, record, store_ctx) :=
      load_sender_key_cb store_ctx sender_key_name (ctx_pointer ctx) in
    (let? _ := callback_ok "load_sender_key" result in
     match record with
     | None => Ok None
     | Some record => Ok (Some record)
     end, store_ctx).

#[global] Instance store : SenderKeyStore A := {
  store_sender_key := ffi_store_sender_key;
  load_sender_key := ffi_load_sender_key;
}.
End Operations.
End FfiSenderKeyStore.
