(* ===== verification/FfiLaws.v ===== *)
(** What the C program promises of its callbacks, and that its tables are then
    stores that keep the promises the protocol crate relies on. *)

From S2P Require Import Prelude Error Crates Curve IdentityKey PreKeys SessionState SenderKeys Storage.
From S2P Require Import BridgeMemory FfiUtil FfiStores.

(** Each callback answers 0, and the store behind the table is a map. *)
Class FfiSessionStoreLaws (A : Type) `{FfiSessionStoreStruct A} := {
  c_sessions : A -> ProtocolAddress -> option SessionRecord;
  load_session_cb_map : forall s a ctx, load_session_cb s a ctx = (0%Z, c_sessions s a);
  store_session_cb_map : forall s a r ctx, exists s',
    store_session_cb s a r ctx = (0%Z, s') /\ c_sessions s' a = Some r /\
    forall b, b <> a -> c_sessions s' b = c_sessions s b;
}.

Class FfiPreKeyStoreLaws (A : Type) `{FfiPreKeyStoreStruct A} := {
  c_pre_keys : A -> Z -> option PreKeyRecord;
  load_pre_key_cb_map : forall s id ctx, load_pre_key_cb s id ctx = (0%Z, c_pre_keys s id);
  store_pre_key_cb_map : forall s id r ctx, exists s',
    store_pre_key_cb s id r ctx = (0%Z, s') /\ c_pre_keys s' id = Some r /\
    forall j, j <> id -> c_pre_keys s' j = c_pre_keys s j;
  remove_pre_key_cb_map : forall s id ctx, exists s',
    remove_pre_key_cb s id ctx = (0%Z, s') /\ c_pre_keys s' id = None /\
    forall j, j <> id -> c_pre_keys s' j = c_pre_keys s j;
}.

Class FfiSignedPreKeyStoreLaws (A : Type) `{FfiSignedPreKeyStoreStruct A} := {
  c_signed_pre_keys : A -> Z -> option SignedPreKeyRecord;
  load_signed_pre_key_cb_map : forall s id ctx,
    load_signed_pre_key_cb s id ctx = (0%Z, c_signed_pre_keys s id);
  store_signed_pre_key_cb_map : forall s id r ctx, exists s',
    store_signed_pre_key_cb s id r ctx = (0%Z, s') /\ c_signed_pre_keys s' id = Some r /\
    forall j, j <> id -> c_signed_pre_keys s' j = c_signed_pre_keys s j;
}.

Class FfiSenderKeyStoreLaws (A : Type) `{FfiSenderKeyStoreStruct A} := {
  c_sender_keys : A -> SenderKeyName -> option SenderKeyRecord;
  load_sender_key_cb_map : forall s n ctx, load_sender_key_cb s n ctx = (0%Z, c_sender_keys s n, s);
  store_sender_key_cb_map : forall s n r ctx, exists s',
    store_sender_key_cb s n r ctx = (0%Z, s') /\ c_sender_keys s' n = Some r /\
    forall m, m <> n -> c_sender_keys s' m = c_sender_keys s m;
}.

(** [save_identity] answers 1 when it replaces another key, [is_trusted_identity]
    answers 1 for a first or unchanged key and else 0. *)
Class FfiIdentityKeyStoreLaws (A : Type) `{FfiIdentityKeyStoreStruct A} := {
  c_identities : A -> ProtocolAddress -> option PublicKey;
  c_own_key : A -> PrivateKey;
  c_own_registration_id : A -> Z;
  get_identity_key_pair_cb_own : forall s ctx,
    get_identity_key_pair_cb s ctx = (0%Z, Some (c_own_key s));
  get_local_registration_id_cb_own : forall s ctx,
    get_local_registration_id_cb s ctx = (0%Z, c_own_registration_id s);
  get_identity_cb_map : forall s a ctx, get_identity_cb s a ctx = (0%Z, c_identities s a);
  save_identity_cb_map : forall s a k ctx, exists s',
    save_identity_cb s a k ctx
      = (match c_identities s a with
         | Some j => if decide (j = k) then 0 else 1
         | None => 0
         end%Z, s') /\
    c_identities s' a = Some k /\
    (forall b, b <> a -> c_identities s' b = c_identities s b) /\
    c_own_key s' = c_own_key s /\ c_own_registration_id s' = c_own_registration_id s;
  is_trusted_identity_cb_map : forall s a k d ctx,
    is_trusted_identity_cb s a k d ctx
      = match c_identities s a with
        | Some j => if decide (j = k) then 1 else 0
        | None => 1
        end%Z;
}.

(** * The tables as stores *)

#[export] Program Instance ffi_session_store_laws `{FfiSessionStoreStruct A, !FfiSessionStoreLaws A} :
    SessionStoreLaws A := {
  session_store_map := c_sessions;
}.
Next Obligation.
  intros A H L a ctx s. cbn. unfold FfiSessionStore.ffi_load_session.
  rewrite load_session_cb_map. cbn. by destruct (c_sessions s a).
Qed.
Next Obligation.
  intros A H L a r ctx s. destruct (store_session_cb_map s a r (ctx_pointer ctx)) as (s' & Hs & Hr).
  exists s'. split; [|done]. cbn. unfold FfiSessionStore.ffi_store_session. by rewrite Hs.
Qed.

#[export] Program Instance ffi_pre_key_store_laws `{FfiPreKeyStoreStruct A, !FfiPreKeyStoreLaws A} :
    PreKeyStoreLaws A := {
  pre_key_store_map := c_pre_keys;
}.
Next Obligation.
  intros A H L id ctx s. cbn. unfold FfiPreKeyStore.ffi_get_pre_key. by rewrite load_pre_key_cb_map.
Qed.
Next Obligation.
  intros A H L id r ctx s. destruct (store_pre_key_cb_map s id r (ctx_pointer ctx)) as (s' & Hs & Hr).
  exists s'. split; [|done]. cbn. unfold FfiPreKeyStore.ffi_save_pre_key. by rewrite Hs.
Qed.
Next Obligation.
  intros A H L id ctx s. destruct (remove_pre_key_cb_map s id (ctx_pointer ctx)) as (s' & Hs & Hr).
  exists s'. split; [|done]. cbn. unfold FfiPreKeyStore.ffi_remove_pre_key. by rewrite Hs.
Qed.

#[export] Program Instance ffi_signed_pre_key_store_laws
    `{FfiSignedPreKeyStoreStruct A, !FfiSignedPreKeyStoreLaws A} : SignedPreKeyStoreLaws A := {
  signed_pre_key_store_map := c_signed_pre_keys;
}.
Next Obligation.
  intros A H L id ctx s. cbn. unfold FfiSignedPreKeyStore.ffi_get_signed_pre_key.
  by rewrite load_signed_pre_key_cb_map.
Qed.
Next Obligation.
  intros A H L id r ctx s.
  destruct (store_signed_pre_key_cb_map s id r (ctx_pointer ctx)) as (s' & Hs & Hr).
  exists s'. split; [|done]. cbn. unfold FfiSignedPreKeyStore.ffi_save_signed_pre_key. by rewrite Hs.
Qed.

#[export] Program Instance ffi_sender_key_store_laws
    `{FfiSenderKeyStoreStruct A, !FfiSenderKeyStoreLaws A} : SenderKeyStoreLaws A := {
  sender_key_store_map := c_sender_keys;
}.
Next Obligation.
  intros A H L n ctx s. cbn. unfold FfiSenderKeyStore.ffi_load_sender_key.
  rewrite load_sender_key_cb_map. cbn. by destruct (c_sender_keys s n).
Qed.
Next Obligation.
  intros A H L n r ctx s. destruct (store_sender_key_cb_map s n r (ctx_pointer ctx)) as (s' & Hs & Hr).
  exists s'. split; [|done]. cbn. unfold FfiSenderKeyStore.ffi_store_sender_key. by rewrite Hs.
Qed.

(** The public half of the key pair is computed from the private one. *)
Definition derived_public_key `{Crates} (k : PrivateKey) : PublicKey :=
  PublicKey.new (PublicKey.DjbPublicKey (Curve25519.derive_public_key (PrivateKey.serialize k))).

Lemma private_key_public_key `{Crates} k : PrivateKey.public_key k = Ok (derived_public_key k).
Proof. by destruct k as [[]]. Qed.

#[export] Program Instance ffi_identity_key_store_laws
    `{Crates, FfiIdentityKeyStoreStruct A, !FfiIdentityKeyStoreLaws A} : IdentityKeyStoreLaws A := {
  known_identity s a := IdentityKey.new <$> c_identities s a;
  own_identity s :=
    IdentityKeyPair.new (IdentityKey.new (derived_public_key (c_own_key s))) (c_own_key s);
  own_registration_id := c_own_registration_id;
}.
Next Obligation.
  intros C A H L ctx s. cbn. unfold FfiIdentityKeyStore.ffi_get_identity_key_pair.
  rewrite get_identity_key_pair_cb_own. cbn. by rewrite private_key_public_key.
Qed.
Next Obligation.
  intros C A H L ctx s. cbn. unfold FfiIdentityKeyStore.ffi_get_local_registration_id.
  by rewrite get_local_registration_id_cb_own.
Qed.
Next Obligation.
  intros C A H L a ctx s. cbn. unfold FfiIdentityKeyStore.ffi_get_identity.
  rewrite get_identity_cb_map. cbn. by destruct (c_identities s a).
Qed.
Next Obligation.
  intros C A H L a i ctx s. cbn. unfold FfiIdentityKeyStore.ffi_save_identity.
  destruct (save_identity_cb_map s a (IdentityKey.public_key i) (ctx_pointer ctx))
    as (s' & Hs & Hk & Ho & Hown & Hreg). rewrite Hs.
  assert (Hpair : IdentityKeyPair.new (IdentityKey.new (derived_public_key (c_own_key s'))) (c_own_key s')
    = IdentityKeyPair.new (IdentityKey.new (derived_public_key (c_own_key s))) (c_own_key s))
    by by rewrite Hown.
  assert (Hki : IdentityKey.new <$> c_identities s' a = Some i) by (rewrite Hk; by destruct i).
  assert (Hob : forall b, b <> a ->
    IdentityKey.new <$> c_identities s' b = IdentityKey.new <$> c_identities s b)
    by (intros b Hb; by rewrite Ho).
  destruct (c_identities s a) as [k|] eqn:Hka; [destruct (decide (k = _)) as [->|Hne]|];
    (do 2 eexists; split; [reflexivity|split_and!; try done]); cbn.
  - split; [done|]. intros (j & [= <-] & Hj). by destruct i.
  - split; [|done]. intros _. exists (IdentityKey.new k). split; [done|]. by intros <-.
  - split; [done|]. by intros (j & ? & _).
Qed.
Next Obligation.
  intros C A H L a i d ctx s. cbn. unfold FfiIdentityKeyStore.ffi_is_trusted_identity.
  rewrite is_trusted_identity_cb_map.
  destruct (c_identities s a) as [k|]; [destruct (decide (k = _)) as [->|Hne]|]; cbn;
    (eexists; split; [reflexivity|]).
  - split; [|done]. intros _. right. by destruct i.
  - split; [done|]. intros [|[= <-]]; [done|]. by destruct Hne.
  - split; [|done]. by left.
Qed.
