(* ===== verification/FfiEntry.v ===== *)
(** The entry points of the C interface ([bridge/ffi/src/lib.rs]) on keys,
    messages and records, in the order of the source.  An entry point takes the
    pointers and numbers that C passes and answers a pointer to an error, or null;
    those that draw random numbers run in a world that is the generator. *)

From S2P Require Import Prelude Error Crates Crypto Curve IdentityKey Proto Protocol PreKeys SessionState SenderKeys.
From S2P Require Import Fingerprint BridgeMemory FfiUtil.

Section Entry.
Context {W : Type} `{BuildConfig, Crates, ProtoCodecs, Platform}.

(** * Freeing, and errors *)

Definition signal_free_string (buf : Ptr) : Ffi W unit :=
  if is_null buf then st_ret tt
  else
    let! c := deref buf in
    match c with
    | OwnedString _ => dealloc buf
    | _ => undefined
    end.

(** The box of an empty slice owns no memory. *)
Definition signal_free_buffer (buf : Ptr) (buf_len : nat) : Ffi W unit :=
  if is_null buf then st_ret tt
  else if buf_len =? 0 then st_ret tt
  else
    let! c := deref buf in
    match c with
    | BoxedSlice b => if length b =? buf_len then dealloc buf else undefined
    | _ => undefined
    end.

(** Outside of [run_ffi_safe]: an error is boxed, a panic is not caught. *)
Definition signal_error_get_message (err out : Ptr) : Ffi W Ptr :=
  fun s =>
    match
      (if is_null err then fail NullPointer
       else
         let! e := deref_object SignalFfiError err in
         let msg := ffi_error_display e in
         write_cstr_to out (Ok msg)) s
    with
    | (Ok _, s) => (Ok null, s)
    | (Err (Fail e), s) => box_into_raw e s
    | (Panic, s) => (Panic, s)
    | (Err Undefined, s) => (Err Undefined, s)
    end.

Definition signal_error_get_type (err : Ptr) : Ffi W Z :=
  if is_null err then st_ret 0%Z
  else
    let! err := deref_object SignalFfiError err in
    st_ret (code_value (error_code err)).

Definition signal_error_free (err : Ptr) : Ffi W unit :=
  if negb (is_null err) then box_drop SignalFfiError err else st_ret tt.

(** * Key derivation *)

Definition signal_hkdf_derive (output : Ptr) (output_length : nat) (version : Z)
    (input_key_material : Ptr) (input_key_material_len : nat) (salt : Ptr) (salt_len : nat)
    (info : Ptr) (info_len : nat) : Ffi W Ptr :=
  run_ffi_safe
    (if is_null input_key_material then fail NullPointer
     else
       let! output_buffer := as_slice_mut output output_length in
       let! input_key_material := as_slice input_key_material input_key_material_len in
       let! salt := as_slice salt salt_len in
       let! info := as_slice info info_len in
       let! hkdf := signal (HKDF.new (u32_of_i32 version)) in
       let! kdf_output := signal (HKDF.derive_salted_secrets hkdf input_key_material salt info
         output_length) in
       copy_from_slice output_buffer kdf_output).

(** * Addresses *)

Definition signal_address_new (address name : Ptr) (device_id : Z) : Ffi W Ptr :=
  run_ffi_safe
    (let! name := read_c_string name in
     box_object address (Ok (ProtocolAddress.new name device_id))).

Definition signal_address_get_name : Ptr -> Ptr -> Ffi W Ptr :=
  ffi_fn_get_cstring (fun p => Ok (ProtocolAddress.name p)).
Definition signal_address_get_device_id : Ptr -> Ptr -> Ffi W Ptr :=
  ffi_fn_get_uint32 (fun obj => Ok (ProtocolAddress.device_id obj)).
Definition signal_address_destroy : Ptr -> Ffi W Ptr := ffi_fn_destroy ProtocolAddress.
Definition signal_address_clone : Ptr -> Ptr -> Ffi W Ptr := ffi_fn_clone ProtocolAddress.

(** * Public keys *)

Definition signal_publickey_deserialize : Ptr -> Ptr -> nat -> Ffi W Ptr :=
  ffi_fn_deserialize PublicKey.deserialize.
Definition signal_publickey_serialize : Ptr -> Ptr -> Ptr -> Ffi W Ptr :=
  ffi_fn_get_bytearray (fun k => Ok (PublicKey.serialize k)).
Definition signal_publickey_get_public_key_bytes : Ptr -> Ptr -> Ptr -> Ffi W Ptr :=
  ffi_fn_get_bytearray (fun k => let? b := PublicKey.public_key_bytes k in Ok b).

Definition signal_publickey_compare (result key1 key2 : Ptr) : Ffi W Ptr :=
  run_ffi_safe
    (let! key1 := native_handle_cast PublicKey key1 in
     let! key2 := native_handle_cast PublicKey key2 in
     let! ord := signal (PublicKey.cmp key1 key2) in
     store_var I32Var result (match ord with Lt => -1 | Eq => 0 | Gt => 1 end)).

Definition signal_publickey_verify (key result message : Ptr) (message_len : nat)
    (signature : Ptr) (signature_len : nat) : Ffi W Ptr :=
  run_ffi_safe
    (let! _ := store_var BoolVar result 0 in
     let! key := native_handle_cast PublicKey key in
     let! message := as_slice message message_len in
     let! signature := as_slice signature signature_len in
     let! valid := signal (PublicKey.verify_signature key message signature) in
     store_var BoolVar result (Z.b2z valid)).

Definition signal_publickey_destroy : Ptr -> Ffi W Ptr := ffi_fn_destroy PublicKey.
Definition signal_publickey_clone : Ptr -> Ptr -> Ffi W Ptr := ffi_fn_clone PublicKey.

(** * Private keys *)

Definition signal_privatekey_deserialize : Ptr -> Ptr -> nat -> Ffi W Ptr :=
  ffi_fn_deserialize PrivateKey.deserialize.
Definition signal_privatekey_serialize : Ptr -> Ptr -> Ptr -> Ffi W Ptr :=
  ffi_fn_get_bytearray (fun k => Ok (PrivateKey.serialize k)).
Definition signal_privatekey_get_public_key : Ptr -> Ptr -> Ffi W Ptr :=
  ffi_fn_get_new_boxed_obj PrivateKey.public_key.

Definition signal_privatekey_agree (shared_secret shared_secret_len private_key public_key : Ptr)
    : Ffi W Ptr :=
  run_ffi_safe
    (let! private_key := native_handle_cast PrivateKey private_key in
     let! public_key := native_handle_cast PublicKey public_key in
     let! dh_secret := evaluate (PrivateKey.calculate_agreement private_key public_key) in
     write_bytearray_to shared_secret shared_secret_len dh_secret).

Definition signal_privatekey_destroy : Ptr -> Ffi W Ptr := ffi_fn_destroy PrivateKey.
Definition signal_privatekey_clone : Ptr -> Ptr -> Ffi W Ptr := ffi_fn_clone PrivateKey.

(** * Identity key pairs *)

Definition signal_identitykeypair_serialize (output output_len private_key public_key : Ptr)
    : Ffi W Ptr :=
  run_ffi_safe
    (let! private_key := native_handle_cast PrivateKey private_key in
     let! public_key := native_handle_cast PublicKey public_key in
     let identity_key_pair := IdentityKeyPair.new (IdentityKey.new public_key) private_key in
     write_bytearray_to output output_len (Ok (IdentityKeyPair.serialize identity_key_pair))).

Definition signal_identitykeypair_deserialize (private_key public_key input : Ptr)
    (input_len : nat) : Ffi W Ptr :=
  run_ffi_safe
    (let! input := as_slice input input_len in
     let! identity_key_pair := signal (IdentityKeyPair.try_from input) in
     let! _ := box_object public_key (Ok (IdentityKeyPair.public_key identity_key_pair)) in
     box_object private_key (Ok (IdentityKeyPair.private_key identity_key_pair))).

(** * Session records *)

Definition signal_session_record_deserialize : Ptr -> Ptr -> nat -> Ffi W Ptr :=
  ffi_fn_deserialize SessionRecord.deserialize.
Definition signal_session_record_serialize : Ptr -> Ptr -> Ptr -> Ffi W Ptr :=
  ffi_fn_get_bytearray SessionRecord.serialize.
Definition signal_session_record_get_remote_registration_id : Ptr -> Ptr -> Ffi W Ptr :=
  ffi_fn_get_uint32 (fun s =>
    let? state := SessionRecord.session_state s in SessionState.remote_registration_id state).

Definition signal_session_record_archive_current_state (session_record : Ptr) : Ffi W Ptr :=
  run_ffi_safe (native_handle_cast_mut session_record SessionRecord.archive_current_state).

Definition signal_session_record_destroy : Ptr -> Ffi W Ptr := ffi_fn_destroy SessionRecord.
Definition signal_session_record_clone : Ptr -> Ptr -> Ffi W Ptr := ffi_fn_clone SessionRecord.

(** * Fingerprints *)

Definition signal_fingerprint_format (fprint local : Ptr) (local_len : nat) (remote : Ptr)
    (remote_len : nat) : Ffi W Ptr :=
  run_ffi_safe
    (let! local := as_slice local local_len in
     let! remote := as_slice remote remote_len in
     let! fingerprint := evaluate
       (let? f := DisplayableFingerprint.new local remote in
        Ok (DisplayableFingerprint.display f)) in
     write_cstr_to fprint fingerprint).

Definition signal_fingerprint_new (obj : Ptr) (iterations version : Z) (local_identifier : Ptr)
    (local_identifier_len : nat) (local_key remote_identifier : Ptr)
    (remote_identifier_len : nat) (remote_key : Ptr) : Ffi W Ptr :=
  run_ffi_safe
    (let! local_identifier := as_slice local_identifier local_identifier_len in
     let! local_key := native_handle_cast PublicKey local_key in
     let! remote_identifier := as_slice remote_identifier remote_identifier_len in
     let! remote_key := native_handle_cast PublicKey remote_key in
     let! fprint := evaluate (Fingerprint.new version iterations local_identifier
       (IdentityKey.new local_key) remote_identifier (IdentityKey.new remote_key)) in
     box_object obj fprint).

Definition signal_fingerprint_destroy : Ptr -> Ffi W Ptr := ffi_fn_destroy Fingerprint.t.
Definition signal_fingerprint_clone : Ptr -> Ptr -> Ffi W Ptr := ffi_fn_clone Fingerprint.t.
Definition signal_fingerprint_display_string : Ptr -> Ptr -> Ffi W Ptr :=
  ffi_fn_get_cstring Fingerprint.display_string.
Definition signal_fingerprint_scannable_encoding : Ptr -> Ptr -> Ptr -> Ffi W Ptr :=
  ffi_fn_get_bytearray (fun f => ScannableFingerprint.serialize (Fingerprint.scannable f)).

Definition signal_fingerprint_compare (result fprint1 : Ptr) (fprint1_len : nat) (fprint2 : Ptr)
    (fprint2_len : nat) : Ffi W Ptr :=
  run_ffi_safe
    (if is_null fprint1 || is_null fprint2 || is_null result then fail NullPointer
     else
       let! fprint1 := as_slice fprint1 fprint1_len in
       let! fprint2 := as_slice fprint2 fprint2_len in
       let! fprint1 := signal (ScannableFingerprint.deserialize fprint1) in
       let! same := signal (ScannableFingerprint.compare fprint1 fprint2) in
       store_var BoolVar result (Z.b2z same)).

(** * Signal messages *)

Definition signal_message_deserialize : Ptr -> Ptr -> nat -> Ffi W Ptr :=
  ffi_fn_deserialize SignalMessage.try_from.

Definition signal_message_new (obj : Ptr) (message_version : Z) (mac_key : Ptr)
    (mac_key_len : nat) (sender_ratchet_key : Ptr) (counter previous_counter : Z)
    (ciphertext : Ptr) (ciphertext_len : nat) (sender_identity_key receiver_identity_key : Ptr)
    : Ffi W Ptr :=
  run_ffi_safe
    (let! mac_key := as_slice mac_key mac_key_len in
     let! sender_ratchet_key := native_handle_cast PublicKey sender_ratchet_key in
     let! ciphertext := as_slice ciphertext ciphertext_len in
     let! sender_identity_key := native_handle_cast PublicKey sender_identity_key in
     let! receiver_identity_key := native_handle_cast PublicKey receiver_identity_key in
     let! msg := evaluate (SignalMessage.new message_version mac_key sender_ratchet_key counter
       previous_counter ciphertext (IdentityKey.new sender_identity_key)
       (IdentityKey.new receiver_identity_key)) in
     box_object obj msg).

Definition signal_message_destroy : Ptr -> Ffi W Ptr := ffi_fn_destroy SignalMessage.
Definition signal_message_clone : Ptr -> Ptr -> Ffi W Ptr := ffi_fn_clone SignalMessage.
Definition signal_message_get_sender_ratchet_key : Ptr -> Ptr -> Ffi W Ptr :=
  ffi_fn_get_new_boxed_obj (fun p => Ok (SignalMessage.sender_ratchet_key p)).
Definition signal_message_get_body : Ptr -> Ptr -> Ptr -> Ffi W Ptr :=
  ffi_fn_get_bytearray (fun m => Ok (SignalMessage.body m)).
Definition signal_message_get_serialized : Ptr -> Ptr -> Ptr -> Ffi W Ptr :=
  ffi_fn_get_bytearray (fun m => Ok (SignalMessage.serialized m)).
Definition signal_message_get_message_version : Ptr -> Ptr -> Ffi W Ptr :=
  ffi_fn_get_uint32 (fun msg => Ok (SignalMessage.message_version msg)).
Definition signal_message_get_counter : Ptr -> Ptr -> Ffi W Ptr :=
  ffi_fn_get_uint32 (fun msg => Ok (SignalMessage.counter msg)).

Definition signal_message_verify_mac (result handle sender_identity_key receiver_identity_key
    mac_key : Ptr) (mac_key_len : nat) : Ffi W Ptr :=
  run_ffi_safe
    (let! msg := native_handle_cast SignalMessage handle in
     let! sender_identity_key := native_handle_cast PublicKey sender_identity_key in
     let! receiver_identity_key := native_handle_cast PublicKey receiver_identity_key in
     let! mac_key := as_slice mac_key mac_key_len in
     let! valid := signal (SignalMessage.verify_mac msg (IdentityKey.new sender_identity_key)
       (IdentityKey.new receiver_identity_key) mac_key) in
     store_var BoolVar result (Z.b2z valid)).

(** * Pre-key messages *)

Definition signal_pre_key_signal_message_deserialize : Ptr -> Ptr -> nat -> Ffi W Ptr :=
  ffi_fn_deserialize PreKeySignalMessage.try_from.

Definition signal_pre_key_signal_message_new (obj : Ptr) (message_version registration_id : Z)
    (pre_key_id : Ptr) (signed_pre_key_id : Z) (base_key identity_key signal_message : Ptr)
    : Ffi W Ptr :=
  run_ffi_safe
    (let! pre_key_id := get_optional_uint32 pre_key_id in
     let! base_key := native_handle_cast PublicKey base_key in
     let! identity_key := native_handle_cast PublicKey identity_key in
     let! signal_message := native_handle_cast SignalMessage signal_message in
     let! msg := evaluate (PreKeySignalMessage.new message_version registration_id pre_key_id
       signed_pre_key_id base_key (IdentityKey.new identity_key) signal_message) in
     box_object obj msg).

Definition signal_pre_key_signal_message_destroy : Ptr -> Ffi W Ptr :=
  ffi_fn_destroy PreKeySignalMessage.
Definition signal_pre_key_signal_message_clone : Ptr -> Ptr -> Ffi W Ptr :=
  ffi_fn_clone PreKeySignalMessage.
Definition signal_pre_key_signal_message_get_version : Ptr -> Ptr -> Ffi W Ptr :=
  ffi_fn_get_uint32 (fun m => Ok (PreKeySignalMessage.message_version m)).
Definition signal_pre_key_signal_message_get_registration_id : Ptr -> Ptr -> Ffi W Ptr :=
  ffi_fn_get_uint32 (fun m => Ok (PreKeySignalMessage.registration_id m)).
Definition signal_pre_key_signal_message_get_pre_key_id : Ptr -> Ptr -> Ffi W Ptr :=
  ffi_fn_get_optional_uint32 (fun m => Ok (PreKeySignalMessage.pre_key_id m)).
Definition signal_pre_key_signal_message_get_signed_pre_key_id : Ptr -> Ptr -> Ffi W Ptr :=
  ffi_fn_get_uint32 (fun m => Ok (PreKeySignalMessage.signed_pre_key_id m)).
Definition signal_pre_key_signal_message_get_base_key : Ptr -> Ptr -> Ffi W Ptr :=
  ffi_fn_get_new_boxed_obj (fun p => Ok (PreKeySignalMessage.base_key p)).
Definition signal_pre_key_signal_message_get_identity_key : Ptr -> Ptr -> Ffi W Ptr :=
  ffi_fn_get_new_boxed_obj (fun p =>
    Ok (IdentityKey.public_key (PreKeySignalMessage.identity_key p))).
Definition signal_pre_key_signal_message_get_signal_message : Ptr -> Ptr -> Ffi W Ptr :=
  ffi_fn_get_new_boxed_obj (fun p => Ok (PreKeySignalMessage.message p)).
Definition signal_pre_key_signal_message_serialize : Ptr -> Ptr -> Ptr -> Ffi W Ptr :=
  ffi_fn_get_bytearray (fun m => Ok (PreKeySignalMessage.serialized m)).

(** * Sender key messages *)

Definition signal_sender_key_message_deserialize : Ptr -> Ptr -> nat -> Ffi W Ptr :=
  ffi_fn_deserialize SenderKeyMessage.try_from.
Definition signal_sender_key_message_destroy : Ptr -> Ffi W Ptr := ffi_fn_destroy SenderKeyMessage.
Definition signal_sender_key_message_clone : Ptr -> Ptr -> Ffi W Ptr :=
  ffi_fn_clone SenderKeyMessage.
Definition signal_sender_key_message_get_key_id : Ptr -> Ptr -> Ffi W Ptr :=
  ffi_fn_get_uint32 (fun m => Ok (SenderKeyMessage.key_id m)).
Definition signal_sender_key_message_get_iteration : Ptr -> Ptr -> Ffi W Ptr :=
  ffi_fn_get_uint32 (fun m => Ok (SenderKeyMessage.iteration m)).
Definition signal_sender_key_message_get_cipher_text : Ptr -> Ptr -> Ptr -> Ffi W Ptr :=
  ffi_fn_get_bytearray (fun m => Ok (SenderKeyMessage.ciphertext m)).
Definition signal_sender_key_message_serialize : Ptr -> Ptr -> Ptr -> Ffi W Ptr :=
  ffi_fn_get_bytearray (fun m => Ok (SenderKeyMessage.serialized m)).

Definition signal_sender_key_message_verify_signature (result skm pubkey : Ptr) : Ffi W Ptr :=
  run_ffi_safe
    (let! skm := native_handle_cast SenderKeyMessage skm in
     let! pubkey := native_handle_cast PublicKey pubkey in
     let! valid := signal (SenderKeyMessage.verify_signature skm pubkey) in
     store_var BoolVar result (Z.b2z valid)).

(** * Sender key distribution messages *)

Definition signal_sender_key_distribution_message_new (obj : Ptr) (key_id iteration : Z)
    (chainkey : Ptr) (chainkey_len : nat) (pk : Ptr) : Ffi W Ptr :=
  run_ffi_safe
    (let! chainkey := as_slice chainkey chainkey_len in
     let! signature_key := native_handle_cast PublicKey pk in
     let! skdm := evaluate (SenderKeyDistributionMessage.new key_id iteration chainkey
       signature_key) in
     box_object obj skdm).

Definition signal_sender_key_distribution_message_deserialize : Ptr -> Ptr -> nat -> Ffi W Ptr :=
  ffi_fn_deserialize SenderKeyDistributionMessage.try_from.
Definition signal_sender_key_distribution_message_destroy : Ptr -> Ffi W Ptr :=
  ffi_fn_destroy SenderKeyDistributionMessage.
Definition signal_sender_key_distribution_message_clone : Ptr -> Ptr -> Ffi W Ptr :=
  ffi_fn_clone SenderKeyDistributionMessage.
Definition signal_sender_key_distribution_message_get_id : Ptr -> Ptr -> Ffi W Ptr :=
  ffi_fn_get_uint32 (fun m => Ok (SenderKeyDistributionMessage.id m)).
Definition signal_sender_key_distribution_message_get_iteration : Ptr -> Ptr -> Ffi W Ptr :=
  ffi_fn_get_uint32 (fun m => Ok (SenderKeyDistributionMessage.iteration m)).
Definition signal_sender_key_distribution_message_get_chain_key : Ptr -> Ptr -> Ptr -> Ffi W Ptr :=
  ffi_fn_get_bytearray (fun m => Ok (SenderKeyDistributionMessage.chain_key m)).
Definition signal_sender_key_distribution_message_get_signature_key : Ptr -> Ptr -> Ffi W Ptr :=
  ffi_fn_get_new_boxed_obj (fun m => Ok (SenderKeyDistributionMessage.signing_key m)).
Definition signal_sender_key_distribution_message_serialize : Ptr -> Ptr -> Ptr -> Ffi W Ptr :=
  ffi_fn_get_bytearray (fun m => Ok (SenderKeyDistributionMessage.serialized m)).

(** * Pre-key bundles *)

Definition signal_pre_key_bundle_new (obj : Ptr) (registration_id device_id : Z)
    (prekey_id prekey : Ptr) (signed_prekey_id : Z) (signed_prekey signed_prekey_signature : Ptr)
    (signed_prekey_signature_len : nat) (identity_key : Ptr) : Ffi W Ptr :=
  run_ffi_safe
    (let! signed_prekey := native_handle_cast PublicKey signed_prekey in
     let! signed_prekey_signature :=
       as_slice signed_prekey_signature signed_prekey_signature_len in
     let! prekey := native_handle_cast_optional PublicKey prekey in
     let! prekey_id := get_optional_uint32 prekey_id in
     let! identity_key := deref_object PublicKey identity_key in
     let! bundle := evaluate (PreKeyBundle.new registration_id device_id prekey_id prekey
       signed_prekey_id signed_prekey signed_prekey_signature (IdentityKey.new identity_key)) in
     box_object obj bundle).

Definition signal_pre_key_bundle_destroy : Ptr -> Ffi W Ptr := ffi_fn_destroy PreKeyBundle.
Definition signal_pre_key_bundle_clone : Ptr -> Ptr -> Ffi W Ptr := ffi_fn_clone PreKeyBundle.
Definition signal_pre_key_bundle_get_registration_id : Ptr -> Ptr -> Ffi W Ptr :=
  ffi_fn_get_uint32 PreKeyBundle.registration_id.
Definition signal_pre_key_bundle_get_device_id : Ptr -> Ptr -> Ffi W Ptr :=
  ffi_fn_get_uint32 PreKeyBundle.device_id.
Definition signal_pre_key_bundle_get_signed_pre_key_id : Ptr -> Ptr -> Ffi W Ptr :=
  ffi_fn_get_uint32 PreKeyBundle.signed_pre_key_id.
Definition signal_pre_key_bundle_get_pre_key_id : Ptr -> Ptr -> Ffi W Ptr :=
  ffi_fn_get_optional_uint32 PreKeyBundle.pre_key_id.
Definition signal_pre_key_bundle_get_pre_key_public : Ptr -> Ptr -> Ffi W Ptr :=
  ffi_fn_get_new_boxed_optional_obj PreKeyBundle.pre_key_public.
Definition signal_pre_key_bundle_get_signed_pre_key_public : Ptr -> Ptr -> Ffi W Ptr :=
  ffi_fn_get_new_boxed_obj (fun p => let? k := PreKeyBundle.signed_pre_key_public p in Ok k).
Definition signal_pre_key_bundle_get_identity_key : Ptr -> Ptr -> Ffi W Ptr :=
  ffi_fn_get_new_boxed_obj (fun p =>
    let? k := PreKeyBundle.identity_key p in Ok (IdentityKey.public_key k)).
Definition signal_pre_key_bundle_get_signed_pre_key_signature : Ptr -> Ptr -> Ptr -> Ffi W Ptr :=
  ffi_fn_get_bytearray (fun m => let? s := PreKeyBundle.signed_pre_key_signature m in Ok s).

(** * Signed pre-key records *)

Definition signal_signed_pre_key_record_new (obj : Ptr) (id timestamp : Z)
    (pub_key priv_key signature : Ptr) (signature_len : nat) : Ffi W Ptr :=
  run_ffi_safe
    (let! pub_key := native_handle_cast PublicKey pub_key in
     let! priv_key := native_handle_cast PrivateKey priv_key in
     let keypair := KeyPair.new pub_key priv_key in
     let! signature := as_slice signature signature_len in
     let spkr := SignedPreKeyRecord.new id timestamp keypair signature in
     box_object obj (Ok spkr)).

Definition signal_signed_pre_key_record_deserialize : Ptr -> Ptr -> nat -> Ffi W Ptr :=
  ffi_fn_deserialize SignedPreKeyRecord.deserialize.
Definition signal_signed_pre_key_record_get_id : Ptr -> Ptr -> Ffi W Ptr :=
  ffi_fn_get_uint32 SignedPreKeyRecord.id.
Definition signal_signed_pre_key_record_get_timestamp : Ptr -> Ptr -> Ffi W Ptr :=
  ffi_fn_get_uint64 SignedPreKeyRecord.timestamp.
Definition signal_signed_pre_key_record_get_public_key : Ptr -> Ptr -> Ffi W Ptr :=
  ffi_fn_get_new_boxed_obj SignedPreKeyRecord.public_key.
Definition signal_signed_pre_key_record_get_private_key : Ptr -> Ptr -> Ffi W Ptr :=
  ffi_fn_get_new_boxed_obj SignedPreKeyRecord.private_key.
Definition signal_signed_pre_key_record_get_signature : Ptr -> Ptr -> Ptr -> Ffi W Ptr :=
  ffi_fn_get_bytearray SignedPreKeyRecord.signature.
Definition signal_signed_pre_key_record_serialize : Ptr -> Ptr -> Ptr -> Ffi W Ptr :=
  ffi_fn_get_bytearray SignedPreKeyRecord.serialize.
Definition signal_signed_pre_key_record_destroy : Ptr -> Ffi W Ptr :=
  ffi_fn_destroy SignedPreKeyRecord.
Definition signal_signed_pre_key_record_clone : Ptr -> Ptr -> Ffi W Ptr :=
  ffi_fn_clone SignedPreKeyRecord.

(** * Pre-key records *)

Definition signal_pre_key_record_new (obj : Ptr) (id : Z) (pub_key priv_key : Ptr) : Ffi W Ptr :=
  run_ffi_safe
    (let! pub_key := native_handle_cast PublicKey pub_key in
     let! priv_key := native_handle_cast PrivateKey priv_key in
     let keypair := KeyPair.new pub_key priv_key in
     let pkr := PreKeyRecord.new id keypair in
     box_object obj (Ok pkr)).

Definition signal_pre_key_record_deserialize : Ptr -> Ptr -> nat -> Ffi W Ptr :=
  ffi_fn_deserialize PreKeyRecord.deserialize.
Definition signal_pre_key_record_get_id : Ptr -> Ptr -> Ffi W Ptr :=
  ffi_fn_get_uint32 PreKeyRecord.id.
Definition signal_pre_key_record_get_public_key : Ptr -> Ptr -> Ffi W Ptr :=
  ffi_fn_get_new_boxed_obj PreKeyRecord.public_key.
Definition signal_pre_key_record_get_private_key : Ptr -> Ptr -> Ffi W Ptr :=
  ffi_fn_get_new_boxed_obj PreKeyRecord.private_key.
Definition signal_pre_key_record_serialize : Ptr -> Ptr -> Ptr -> Ffi W Ptr :=
  ffi_fn_get_bytearray PreKeyRecord.serialize.
Definition signal_pre_key_record_destroy : Ptr -> Ffi W Ptr := ffi_fn_destroy PreKeyRecord.
Definition signal_pre_key_record_clone : Ptr -> Ptr -> Ffi W Ptr := ffi_fn_clone PreKeyRecord.

(** * Sender key names and records *)

Definition signal_sender_key_name_new (obj group_id sender_name : Ptr) (sender_device_id : Z)
    : Ffi W Ptr :=
  run_ffi_safe
    (let! group_id := read_c_string group_id in
     let! sender_name := read_c_string sender_name in
     let! name := evaluate (SenderKeyName.new group_id
       (ProtocolAddress.new sender_name sender_device_id)) in
     box_object obj name).

Definition signal_sender_key_name_destroy : Ptr -> Ffi W Ptr := ffi_fn_destroy SenderKeyName.
Definition signal_sender_key_name_clone : Ptr -> Ptr -> Ffi W Ptr := ffi_fn_clone SenderKeyName.
Definition signal_sender_key_name_get_group_id : Ptr -> Ptr -> Ffi W Ptr :=
  ffi_fn_get_cstring SenderKeyName.group_id.
Definition signal_sender_key_name_get_sender_name : Ptr -> Ptr -> Ffi W Ptr :=
  ffi_fn_get_cstring (fun skn =>
    let? a := SenderKeyName.sender skn in Ok (ProtocolAddress.name a)).
Definition signal_sender_key_name_get_sender_device_id : Ptr -> Ptr -> Ffi W Ptr :=
  ffi_fn_get_uint32 (fun m =>
    let? a := SenderKeyName.sender m in Ok (ProtocolAddress.device_id a)).

Definition signal_sender_key_record_new_fresh (obj : Ptr) : Ffi W Ptr :=
  run_ffi_safe (box_object obj (Ok SenderKeyRecord.new_empty)).
Definition signal_sender_key_record_clone : Ptr -> Ptr -> Ffi W Ptr :=
  ffi_fn_clone SenderKeyRecord.
Definition signal_sender_key_record_destroy : Ptr -> Ffi W Ptr := ffi_fn_destroy SenderKeyRecord.
Definition signal_sender_key_record_deserialize : Ptr -> Ptr -> nat -> Ffi W Ptr :=
  ffi_fn_deserialize SenderKeyRecord.deserialize.
Definition signal_sender_key_record_serialize : Ptr -> Ptr -> Ptr -> Ffi W Ptr :=
  ffi_fn_get_bytearray SenderKeyRecord.serialize.
End Entry.

(** * With the generator of the operating system *)

Section Random.
Context `{Crates, ProtoCodecs, Platform}.

(** A function that is given [OsRng]. *)
Definition with_os_rng {A} (f : Csprng -> Result A * Csprng) : Ffi Csprng (Result A) :=
  fun s => let '(r, c) := f s.2 in evaluate r (s.1, c).

Definition signal_privatekey_generate (key : Ptr) : Ffi Csprng Ptr :=
  run_ffi_safe
    (let! keypair := with_os_rng (fun rng => let '(kp, c) := KeyPair.generate rng in
       (Ok (KeyPair.private_key kp), c)) in
     box_object key keypair).

Definition signal_privatekey_sign (signature signature_len key message : Ptr) (message_len : nat)
    : Ffi Csprng Ptr :=
  run_ffi_safe
    (let! message := as_slice message message_len in
     let! key := native_handle_cast PrivateKey key in
     let! sig := with_os_rng (PrivateKey.calculate_signature key message) in
     write_bytearray_to signature signature_len sig).

Definition signal_sender_key_message_new (obj : Ptr) (key_id iteration : Z) (ciphertext : Ptr)
    (ciphertext_len : nat) (pk : Ptr) : Ffi Csprng Ptr :=
  run_ffi_safe
    (let! ciphertext := as_slice ciphertext ciphertext_len in
     let! signature_key := native_handle_cast PrivateKey pk in
     let! skm := with_os_rng (fun csprng =>
       SenderKeyMessage.new key_id iteration ciphertext csprng signature_key) in
     box_object obj skm).
End Random.
