(* ===== verification/FfiSession.v ===== *)
(** The entry points of the C interface that run on the stores of the C program:
    sessions and groups ([bridge/ffi/src/lib.rs]).  Their world holds, for each
    store, what the [ctx] of its table designates, and the generator of the
    operating system; a function of the protocol crate runs on the stores that the
    tables make of these. *)

From S2P Require Import Prelude Error Crates Proto Protocol PreKeys SessionState SenderKeys Storage StoreAccess Session.
From S2P Require Import SessionCipher GroupCipher BridgeMemory FfiUtil FfiStores.

(** [#\[repr(C)\] enum FfiCiphertextMessageType]. *)
Inductive FfiCiphertextMessageType := FfiWhisper | FfiPreKey | FfiSenderKey | FfiSenderKeyDistribution.

Definition ffi_type_value (ty : FfiCiphertextMessageType) : Z :=
  match ty with
  | FfiWhisper => 2
  | FfiPreKey => 3
  | FfiSenderKey => 4
  | FfiSenderKeyDistribution => 5
  end%Z.

(** The [const_assert_eq!]s. *)
Definition ffi_types_agree : bool :=
  (ffi_type_value FfiWhisper =? CiphertextMessage.type_value CiphertextMessage.Whisper)%Z
  && (ffi_type_value FfiPreKey =? CiphertextMessage.type_value CiphertextMessage.PreKey)%Z
  && (ffi_type_value FfiSenderKey =? CiphertextMessage.type_value CiphertextMessage.SenderKey)%Z
  && (ffi_type_value FfiSenderKeyDistribution
        =? CiphertextMessage.type_value CiphertextMessage.SenderKeyDistribution)%Z.

Example ffi_types_agree_holds : ffi_types_agree = true.
Proof. reflexivity. Qed.

(** * Ciphertext messages *)

Section Ciphertext.
Context {W : Type} `{Platform}.

Definition signal_ciphertext_message_destroy : Ptr -> Ffi W Ptr := ffi_fn_destroy CiphertextMessage.

Definition signal_ciphertext_message_type (typ msg : Ptr) : Ffi W Ptr :=
  run_ffi_safe
    (let! msg := native_handle_cast CiphertextMessage msg in
     store_var U8Var typ (CiphertextMessage.type_value (CiphertextMessage.message_type msg))).

Definition signal_ciphertext_message_serialize (result result_len msg : Ptr) : Ffi W Ptr :=
  run_ffi_safe
    (let! msg := native_handle_cast CiphertextMessage msg in
     let bits := CiphertextMessage.serialize msg in
     write_bytearray_to result result_len (Ok bits)).
End Ciphertext.

(** * Sessions *)

Section Sessions.
Context {A B C D : Type} `{BuildConfig, Crates, ProtoCodecs, Platform}.

Definition signal_process_prekey_bundle (bundle protocol_address : Ptr)
    (session_store : option (FfiSessionStoreStruct A))
    (identity_key_store : option (FfiIdentityKeyStoreStruct B)) (ctx : Ptr)
    : Ffi (World A B C D) Ptr :=
  run_ffi_safe
    (let! bundle := native_handle_cast PreKeyBundle bundle in
     let! protocol_address := native_handle_cast ProtocolAddress protocol_address in
     let! identity_key_store := FfiIdentityKeyStore.new identity_key_store in
     let! session_store := FfiSessionStore.new session_store in
     let! r := expect_ready (process_prekey_bundle protocol_address bundle (Some ctx)) in
     signal r).

Definition signal_encrypt_message (msg ptext : Ptr) (ptext_len : nat) (protocol_address : Ptr)
    (session_store : option (FfiSessionStoreStruct A))
    (identity_key_store : option (FfiIdentityKeyStoreStruct B)) (ctx : Ptr)
    : Ffi (World A B C D) Ptr :=
  run_ffi_safe
    (let! ptext := as_slice ptext ptext_len in
     let! protocol_address := native_handle_cast ProtocolAddress protocol_address in
     let! identity_key_store := FfiIdentityKeyStore.new identity_key_store in
     let! session_store := FfiSessionStore.new session_store in
     let! ctext := expect_ready (message_encrypt ptext protocol_address (Some ctx)) in
     box_object msg ctext).

Definition signal_decrypt_message (result result_len message protocol_address : Ptr)
    (session_store : option (FfiSessionStoreStruct A))
    (identity_key_store : option (FfiIdentityKeyStoreStruct B)) (ctx : Ptr)
    : Ffi (World A B C D) Ptr :=
  run_ffi_safe
    (let! message := native_handle_cast SignalMessage message in
     let! protocol_address := native_handle_cast ProtocolAddress protocol_address in
     let! identity_key_store := FfiIdentityKeyStore.new identity_key_store in
     let! session_store := FfiSessionStore.new session_store in
     let! ptext := expect_ready (message_decrypt_signal message protocol_address (Some ctx)) in
     write_bytearray_to result result_len ptext).

Definition signal_decrypt_pre_key_message (result result_len message protocol_address : Ptr)
    (session_store : option (FfiSessionStoreStruct A))
    (identity_key_store : option (FfiIdentityKeyStoreStruct B))
    (prekey_store : option (FfiPreKeyStoreStruct C))
    (signed_prekey_store : option (FfiSignedPreKeyStoreStruct D)) (ctx : Ptr)
    : Ffi (World A B C D) Ptr :=
  run_ffi_safe
    (let! message := native_handle_cast PreKeySignalMessage message in
     let! protocol_address := native_handle_cast ProtocolAddress protocol_address in
     let! identity_key_store := FfiIdentityKeyStore.new identity_key_store in
     let! session_store := FfiSessionStore.new session_store in
     let! prekey_store := FfiPreKeyStore.new prekey_store in
     let! signed_prekey_store := FfiSignedPreKeyStore.new signed_prekey_store in
     let! ptext := expect_ready (message_decrypt_prekey message protocol_address (Some ctx)) in
     write_bytearray_to result result_len ptext).
End Sessions.

(** * Groups *)

Section Groups.
Context {A : Type} `{BuildConfig, Crates, ProtoCodecs, Platform}.

Definition signal_create_sender_key_distribution_message (obj sender_key_name : Ptr)
    (store : option (FfiSenderKeyStoreStruct A)) (ctx : Ptr) : Ffi (A * Csprng) Ptr :=
  run_ffi_safe
    (if is_null sender_key_name || match store with None => true | Some _ => false end then fail NullPointer
     else
       let! sender_key_name := native_handle_cast SenderKeyName sender_key_name in
       let! sender_key_store := FfiSenderKeyStore.new store in
       let! skdm := expect_ready (create_sender_key_distribution_message sender_key_name (Some ctx)) in
       box_object obj skdm).

Definition signal_process_sender_key_distribution_message
    (sender_key_name sender_key_distribution_message : Ptr)
    (store : option (FfiSenderKeyStoreStruct A)) (ctx : Ptr) : Ffi (A * Csprng) Ptr :=
  run_ffi_safe
    (let! sender_key_name := native_handle_cast SenderKeyName sender_key_name in
     let! sender_key_distribution_message :=
       native_handle_cast SenderKeyDistributionMessage sender_key_distribution_message in
     let! sender_key_store := FfiSenderKeyStore.new store in
     let! r := expect_ready (process_sender_key_distribution_message
       sender_key_name sender_key_distribution_message (Some ctx)) in
     signal r).

Definition signal_group_encrypt_message (out out_len sender_key_name message : Ptr)
    (message_len : nat) (store : option (FfiSenderKeyStoreStruct A)) (ctx : Ptr)
    : Ffi (A * Csprng) Ptr :=
  run_ffi_safe
    (let! sender_key_name := native_handle_cast SenderKeyName sender_key_name in
     let! message := as_slice message message_len in
     let! sender_key_store := FfiSenderKeyStore.new store in
     let! ctext := expect_ready (group_encrypt sender_key_name message (Some ctx)) in
     write_bytearray_to out out_len ctext).

Definition signal_group_decrypt_message (out out_len sender_key_name message : Ptr)
    (message_len : nat) (store : option (FfiSenderKeyStoreStruct A)) (ctx : Ptr)
    : Ffi (A * Csprng) Ptr :=
  run_ffi_safe
    (let! sender_key_name := native_handle_cast SenderKeyName sender_key_name in
     let! message := as_slice message message_len in
     let! sender_key_store := FfiSenderKeyStore.new store in
     let! ptext := expect_ready (group_decrypt message sender_key_name (Some ctx)) in
     write_bytearray_to out out_len ptext).
End Groups.
