(* ===== verification/FfiFrame.v ===== *)
(** What the entry points of the C interface leave alone: every cell that is not
    behind one of the pointers they are given to write through, whatever the other
    arguments are, so that a handle stays valid until it is destroyed. *)

From S2P Require Import Prelude Error Crates Crypto Curve IdentityKey Proto Protocol PreKeys SessionState SenderKeys.
From S2P Require Import Fingerprint Storage StoreAccess Session BridgeMemory FfiUtil FfiStores FfiEntry FfiSession.

(** * The frame of a computation *)

(** The cells of [m] that are not behind [ps] are still there in [m']. *)
Definition unchanged (ps : list Ptr) (m m' : Memory) : Prop :=
  forall p c, m !! p = Some c -> p ∉ ps -> m' !! p = Some c.

#[export] Instance unchanged_preorder ps : PreOrder (unchanged ps).
Proof.
  split; [by intros m p c|]. intros m1 m2 m3 H1 H2 p c Hp Hn. by apply H2; [apply H1|].
Qed.

Lemma unchanged_mono ps qs m m' : ps ⊆ qs -> unchanged ps m m' -> unchanged qs m m'.
Proof. intros Hs Hu p c Hp Hn. apply Hu; [done|]. set_solver. Qed.

Lemma unchanged_put p ps c m : p ∈ ps -> unchanged ps m (<[p := c]> m).
Proof. intros Hp q d Hq Hn. rewrite lookup_insert_ne; [done|]. by intros ->. Qed.

Lemma unchanged_delete p ps m : p ∈ ps -> unchanged ps m (delete p m).
Proof. intros Hp q d Hq Hn. rewrite lookup_delete_ne; [done|]. by intros ->. Qed.

Lemma unchanged_fresh p ps c m : m !! p = None -> unchanged ps m (<[p := c]> m).
Proof. intros Hp q d Hq Hn. rewrite lookup_insert_ne; [done|]. intros ->. congruence. Qed.

(** A computation that changes cells behind [ps] only, however it ends. *)
Definition writes_only {E W A} (ps : list Ptr) (f : Native E W A) : Prop :=
  forall m, preserves (fun s => unchanged ps m s.1) f.

Create HintDb frame discriminated.

Section Frame.
Context {E W : Type} (ps : list Ptr).

Lemma writes_only_intro {A} (f : Native E W A) :
  (forall s, unchanged ps s.1 (f s).2.1) -> writes_only ps f.
Proof. intros Hf m s Hs. etrans; [exact Hs|apply Hf]. Qed.

Lemma frame_ret {A} (a : A) : writes_only (E:=E) (W:=W) ps (st_ret a).
Proof. intros m. apply preserves_ret. Qed.
Lemma frame_lift {A} (r : outcome (Stop E) A) : writes_only (E:=E) (W:=W) ps (st_lift r).
Proof. intros m. apply preserves_lift. Qed.
Lemma frame_fail {A} e : writes_only ps (fail e : Native E W A).
Proof. apply frame_lift. Qed.
Lemma frame_undefined {A} : writes_only ps (undefined : Native E W A).
Proof. apply frame_lift. Qed.

Lemma frame_bind {A B} (f : Native E W A) (k : A -> Native E W B) :
  writes_only ps f -> (forall a, writes_only ps (k a)) -> writes_only ps (st_bind f k).
Proof. intros Hf Hk m. apply preserves_bind; [apply Hf|]. intros a. apply Hk. Qed.

Lemma frame_if {A} (b : bool) (f g : Native E W A) :
  writes_only ps f -> writes_only ps g -> writes_only ps (if b then f else g).
Proof. by destruct b. Qed.

Lemma frame_deref p : writes_only ps (deref p : Native E W Cell).
Proof. apply frame_if; [apply frame_undefined|]. intros m. apply preserves_gets. Qed.

Lemma frame_put p c : p ∈ ps -> writes_only ps (put p c : Native E W unit).
Proof. intros Hp. apply writes_only_intro. intros s. by apply unchanged_put. Qed.

Lemma frame_dealloc p : p ∈ ps -> writes_only ps (dealloc p : Native E W unit).
Proof. intros Hp. apply writes_only_intro. intros s. by apply unchanged_delete. Qed.

Lemma frame_alloc `{Platform, !AllocLaws} c : writes_only ps (alloc c : Native E W Ptr).
Proof. apply writes_only_intro. intros s. apply unchanged_fresh, alloc_unused. Qed.

End Frame.

Section FrameGuarded.
Context {W : Type} (ps : list Ptr).

Lemma frame_signal {A} (r : Result A) : writes_only ps (signal r : Ffi W A).
Proof. destruct r; [apply frame_ret|apply frame_fail|apply frame_lift]. Qed.

Lemma frame_evaluate {A} (r : Result A) : writes_only ps (evaluate r : Ffi W (Result A)).
Proof. destruct r; apply frame_lift. Qed.

Lemma frame_expect_ready {A} (f : StateResult W A) : writes_only ps (expect_ready f).
Proof.
  apply writes_only_intro. intros s. unfold expect_ready. destruct (f s.2) as [[] ?]; by cbn.
Qed.

Lemma frame_as_ref {A} (p : option A) : writes_only ps (as_ref p : Ffi W A).
Proof. destruct p; [apply frame_ret|apply frame_fail]. Qed.
End FrameGuarded.

#[export] Hint Resolve frame_ret frame_lift frame_fail frame_undefined frame_bind frame_if
  frame_deref frame_put frame_dealloc frame_alloc frame_signal frame_evaluate
  frame_expect_ready frame_as_ref : frame.
#[export] Hint Extern 1 (_ ∈ _) => set_solver : frame.

(** [frame] takes a computation apart, along binds, tests and matches. *)
Ltac frame_step :=
  match goal with
  | |- writes_only _ (st_bind _ _) => apply frame_bind; [|intros ?]
  | |- writes_only _ (if _ then _ else _) => apply frame_if
  | |- writes_only _ (match ?x with _ => _ end) => destruct x
  | |- writes_only _ (let '(_, _) := ?x in _) => destruct x
  | |- writes_only _ _ => by auto with frame
  end.
Ltac frame := repeat frame_step.

Section FrameUtil.
Context {W : Type} `{Platform, !AllocLaws} (ps : list Ptr).

Lemma frame_load_var t p : writes_only ps (load_var t p : Ffi W Z).
Proof. unfold load_var. frame. Qed.
Lemma frame_store_var t p v : p ∈ ps -> writes_only ps (store_var t p v : Ffi W unit).
Proof. intros Hp. unfold store_var. apply frame_bind; [apply frame_load_var|intros _]. frame. Qed.
Lemma frame_deref_object T `{Boxable T} p : writes_only ps (deref_object T p : Ffi W T).
Proof. unfold deref_object. frame. Qed.
Lemma frame_read_bytes p n : writes_only ps (read_bytes p n : Ffi W bytes).
Proof. unfold read_bytes. frame. Qed.
Lemma frame_box_into_raw {T} `{Boxable T} (x : T) : writes_only ps (box_into_raw x : Ffi W Ptr).
Proof. unfold box_into_raw. frame. Qed.
Lemma frame_slice_into_raw b : writes_only ps (slice_into_raw b : Ffi W Ptr).
Proof. unfold slice_into_raw. frame. Qed.
Hint Resolve frame_load_var frame_store_var frame_deref_object frame_read_bytes
  frame_box_into_raw frame_slice_into_raw : frame.

Lemma frame_box_drop T `{Boxable T} p : p ∈ ps -> writes_only ps (box_drop T p : Ffi W unit).
Proof. intros Hp. unfold box_drop. frame. Qed.
Lemma frame_from_raw_parts p n : writes_only ps (from_raw_parts p n : Ffi W bytes).
Proof. unfold from_raw_parts. frame. Qed.
Hint Resolve frame_from_raw_parts : frame.
Lemma frame_as_slice p n : writes_only ps (as_slice p n : Ffi W bytes).
Proof. unfold as_slice. frame. Qed.
Lemma frame_native_handle_cast T `{Boxable T} p : writes_only ps (native_handle_cast T p : Ffi W T).
Proof. unfold native_handle_cast. frame. Qed.
Lemma frame_native_handle_cast_optional T `{Boxable T} p :
  writes_only ps (native_handle_cast_optional T p : Ffi W (option T)).
Proof. unfold native_handle_cast_optional. frame. Qed.
Lemma frame_native_handle_cast_mut {T} `{Boxable T} p (f : T -> Result T) :
  p ∈ ps -> writes_only ps (native_handle_cast_mut p f : Ffi W unit).
Proof. intros Hp. unfold native_handle_cast_mut. frame. Qed.
Lemma frame_get_optional_uint32 p : writes_only ps (get_optional_uint32 p : Ffi W (option Z)).
Proof. unfold get_optional_uint32. frame. Qed.
Lemma frame_read_c_string p : writes_only ps (read_c_string p : Ffi W string).
Proof. unfold read_c_string. frame. Qed.
Lemma frame_cstring_new s : writes_only ps (cstring_new s : Ffi W bytes).
Proof. unfold cstring_new. frame. Qed.
Hint Resolve frame_cstring_new : frame.

(** A continuation that needs to know what the first part answers. *)
Lemma frame_bind_post {A B} (Q : A -> Prop) (f : Ffi W A) (k : A -> Ffi W B) :
  (forall s a s', f s = (Ok a, s') -> Q a) ->
  writes_only ps f -> (forall a, Q a -> writes_only ps (k a)) -> writes_only ps (st_bind f k).
Proof.
  intros HQ Hf Hk m s Hs. unfold st_bind. specialize (Hf m s Hs).
  destruct (f s) as [[a| |] s'] eqn:Heq; cbn in *; [|done..]. by eapply Hk; [eapply HQ|].
Qed.

Lemma frame_as_slice_mut p n : writes_only ps (as_slice_mut p n : Ffi W SliceMut).
Proof. unfold as_slice_mut. frame. Qed.

Lemma as_slice_mut_base p n s d s' :
  (as_slice_mut p n : Ffi W SliceMut) s = (Ok d, s') -> slice_base d = p \/ slice_len d = 0.
Proof.
  unfold as_slice_mut. destruct (is_null p).
  - destruct (negb _); [done|]. intros [= <- _]. by right.
  - intros (? & ? & _ & [= <- _])%st_bind_ok. by left.
Qed.

Lemma frame_copy_from_slice d src :
  slice_base d ∈ ps \/ slice_len d = 0 -> writes_only ps (copy_from_slice d src : Ffi W unit).
Proof.
  intros Hd. unfold copy_from_slice. apply frame_if; [apply frame_lift|].
  destruct Hd as [Hd| ->]; [frame|apply frame_ret].
Qed.

Lemma frame_box_object {T} `{Boxable T} p (r : Result T) :
  p ∈ ps -> writes_only ps (box_object p r : Ffi W unit).
Proof. intros Hp. unfold box_object. frame. Qed.
Lemma frame_box_optional_object {T} `{Boxable T} p (r : Result (option T)) :
  p ∈ ps -> writes_only ps (box_optional_object p r : Ffi W unit).
Proof. intros Hp. unfold box_optional_object. frame. Qed.
Lemma frame_write_cstr_to p r : p ∈ ps -> writes_only ps (write_cstr_to p r : Ffi W unit).
Proof. intros Hp. unfold write_cstr_to. frame. Qed.
Lemma frame_write_uint32_to p r : p ∈ ps -> writes_only ps (write_uint32_to p r : Ffi W unit).
Proof. intros Hp. unfold write_uint32_to. frame. Qed.
Lemma frame_write_optional_uint32_to p r :
  p ∈ ps -> writes_only ps (write_optional_uint32_to p r : Ffi W unit).
Proof. intros Hp. unfold write_optional_uint32_to. frame. Qed.
Lemma frame_write_uint64_to p r : p ∈ ps -> writes_only ps (write_uint64_to p r : Ffi W unit).
Proof. intros Hp. unfold write_uint64_to. frame. Qed.
Lemma frame_write_bytearray_to p n r :
  p ∈ ps -> n ∈ ps -> writes_only ps (write_bytearray_to p n r : Ffi W unit).
Proof. intros Hp Hn. unfold write_bytearray_to. frame. Qed.
End FrameUtil.

#[export] Hint Resolve frame_store_var frame_deref_object frame_as_slice frame_native_handle_cast
  frame_native_handle_cast_optional frame_native_handle_cast_mut frame_get_optional_uint32
  frame_read_c_string frame_box_drop frame_from_raw_parts frame_box_into_raw
  frame_box_object frame_box_optional_object frame_write_cstr_to frame_write_uint32_to
  frame_write_optional_uint32_to frame_write_uint64_to frame_write_bytearray_to : frame.

Lemma frame_with_os_rng `{Crates} ps {A} (f : Csprng -> Result A * Csprng) :
  writes_only ps (with_os_rng f).
Proof.
  apply writes_only_intro. intros s. unfold with_os_rng. destruct (f s.2) as [[] ?]; by cbn.
Qed.
#[export] Hint Resolve frame_with_os_rng : frame.

(** * The guard *)

(** A result of an entry point: null, or a pointer to an error that was not
    allocated before. *)
Definition error_result (ps : list Ptr) (q : Ptr) (m m' : Memory) : Prop :=
  q = null \/
  exists e : SignalFfiError, m' !! q = Some (Boxed (inject e)) /\ (q ∉ ps -> m !! q = None).

(** Guarded computations that write through [ps] only: what every entry point is. *)
Definition contained {W} (ps : list Ptr) (f : Ffi W Ptr) : Prop :=
  forall m w, match f (m, w) with
  | (r, (m', _)) => unchanged ps m m' /\ r <> Panic /\ (forall e, r <> Err (Fail e)) /\
      forall q, r = Ok q -> error_result ps q m m'
  end.

Lemma run_ffi_safe_contained {W} `{Platform, !AllocLaws} ps (f : Ffi W unit) :
  writes_only ps f -> contained ps (run_ffi_safe f).
Proof.
  intros Hf m w. specialize (Hf m (m, w) (reflexivity m)).
  unfold run_ffi_safe, box_into_raw, alloc.
  assert (Hbox : forall (e : SignalFfiError) (m1 : Memory), unchanged ps m m1 ->
    let q := alloc_address m1 in
    unchanged ps m (<[q := Boxed (inject e)]> m1) /\
    error_result ps q m (<[q := Boxed (inject e)]> m1)).
  { intros e m1 Hu q. pose proof (alloc_unused m1) as Hq. fold q in Hq. split.
    - etrans; [exact Hu|by apply unchanged_fresh].
    - right. exists e. split; [apply lookup_insert_eq|]. intros Hn.
      destruct (m !! q) as [c|] eqn:Hc; [|done]. rewrite (Hu q c Hc Hn) in Hq. done. }
  destruct (f (m, w)) as [[[]|[e|]|] [m1 w1]]; cbn in *.
  - split_and!; try done. intros q [= <-]. by left.
  - destruct (Hbox e m1 Hf). split_and!; try done. by intros q [= <-].
  - by split_and!.
  - destruct (Hbox (UnexpectedPanic panic_payload) m1 Hf). split_and!; try done. by intros q [= <-].
Qed.
