(* ===== verification/FfiSpec.v ===== *)
(** What the helpers of the C interface do when their pointers are good, and what
    a call reports to its caller. *)

From S2P Require Import Prelude Error Crates RatchetKeys BridgeMemory FfiUtil FfiEntry FfiFrame.

(** * Good pointers *)

(** A handle to [x], and a variable of the caller of type [t]. *)
Definition handle {T} `{Boxable T} (m : Memory) (p : Ptr) (x : T) : Prop :=
  p <> null /\ m !! p = Some (Boxed (inject x)).
Definition variable (m : Memory) (t : VarType) (p : Ptr) : Prop :=
  p <> null /\ exists v, m !! p = Some (Var t v).

(** [n] bytes from [p] on. *)
Definition bytes_at (m : Memory) (p : Ptr) (b : bytes) : Prop :=
  p <> null /\ (b = [] \/ exists c rest, m !! p = Some c /\ cell_bytes c = Some (b ++ rest)).

Lemma is_null_false p : p <> null -> is_null p = false.
Proof. apply Z.eqb_neq. Qed.

Section Steps.
Context {E W : Type}.

Lemma deref_eq m (w : W) p c : p <> null -> m !! p = Some c -> deref (E:=E) p (m, w) = (Ok c, (m, w)).
Proof. intros Hp Hc. unfold deref. rewrite is_null_false by done. unfold st_gets. cbn. by rewrite Hc. Qed.

Lemma store_var_eq m (w : W) t p v :
  variable m t p -> store_var (E:=E) t p v (m, w) = (Ok tt, (<[p := Var t v]> m, w)).
Proof.
  intros [Hp [u Hu]]. unfold store_var, load_var.
  rewrite st_bind_assoc_eq. rewrite (st_bind_eq _ _ _ _ _ (deref_eq m w p _ Hp Hu)).
  cbn. by rewrite decide_True.
Qed.

Lemma load_var_eq m (w : W) t p v :
  p <> null -> m !! p = Some (Var t v) -> load_var (E:=E) t p (m, w) = (Ok v, (m, w)).
Proof.
  intros Hp Hv. unfold load_var. rewrite (st_bind_eq _ _ _ _ _ (deref_eq m w p _ Hp Hv)).
  by rewrite decide_True.
Qed.

Lemma deref_object_eq {T} `{Boxable T} m (w : W) p (x : T) :
  handle m p x -> deref_object (E:=E) T p (m, w) = (Ok x, (m, w)).
Proof.
  intros [Hp Hx]. unfold deref_object. rewrite (st_bind_eq _ _ _ _ _ (deref_eq m w p _ Hp Hx)).
  unfold st_lift. by rewrite project_inject.
Qed.

End Steps.

Section Casts.
Context {W : Type}.

Lemma native_handle_cast_eq {T} `{Boxable T} m (w : W) p (x : T) :
  handle m p x -> native_handle_cast T p (m, w) = (Ok x, (m, w)).
Proof.
  intros Hx. unfold native_handle_cast. rewrite is_null_false by apply Hx. by apply deref_object_eq.
Qed.

Lemma from_raw_parts_eq m (w : W) p b :
  bytes_at m p b -> from_raw_parts p (length b) (m, w) = (Ok b, (m, w)).
Proof.
  intros [Hp Hb]. unfold from_raw_parts. destruct (length b =? 0) eqn:Hz.
  - apply Nat.eqb_eq, nil_length_inv in Hz. by subst.
  - destruct Hb as [->|(c & rest & Hc & Hb)]; [done|].
    unfold read_bytes. rewrite (st_bind_eq _ _ _ _ _ (deref_eq m w p _ Hp Hc)), Hb.
    rewrite (proj2 (Nat.leb_le _ _)) by (rewrite length_app; lia).
    by rewrite take_app_length.
Qed.

Lemma as_slice_eq m (w : W) p b :
  bytes_at m p b -> as_slice p (length b) (m, w) = (Ok b, (m, w)).
Proof.
  intros Hb. unfold as_slice. rewrite is_null_false by apply Hb. by apply from_raw_parts_eq.
Qed.
End Casts.

(** * Results *)

Section Results.
Context {W : Type} `{Platform, !AllocLaws}.

(** An object handed out through [p]: a new box, and nothing else changed. *)
Definition delivers_object {T} `{Boxable T} (p : Ptr) (m : Memory) (x : T) (m' : Memory) : Prop :=
  exists q, q <> null /\ m !! q = None /\
    m' = <[p := Var PtrVar q]> (<[q := Boxed (inject x)]> m).

(** A byte array handed out: its address and length, and a new block unless it is
    empty. *)
Definition delivers_bytes (out out_len : Ptr) (m : Memory) (b : bytes) (m' : Memory) : Prop :=
  exists q, bytes_at m' q b /\
    let m1 := <[out_len := Var SizeVar (Z.of_nat (length b))]> m in
    if length b =? 0 then m' = <[out := Var PtrVar q]> m1
    else m !! q = None /\ m' = <[out := Var PtrVar q]> (<[q := BoxedSlice b]> m1).

(** An error handed out, after changes to the cells behind [ps] only. *)
Definition reports (ps : list Ptr) (m : Memory) (e : SignalFfiError) (q : Ptr) (m' : Memory)
    : Prop :=
  handle m' q e /\ unchanged ps m m' /\ (q ∉ ps -> m !! q = None).

Lemma variable_ne m t p q c : variable m t p -> m !! q = None -> variable (<[q := c]> m) t p.
Proof.
  intros [Hp [v Hv]] Hq. split; [done|]. exists v. rewrite lookup_insert_ne; [done|].
  intros ->. congruence.
Qed.

Lemma variable_other m t p q c : variable m t p -> p <> q -> variable (<[q := c]> m) t p.
Proof. intros [Hp [v Hv]] Hq. split; [done|]. exists v. by rewrite lookup_insert_ne. Qed.

Lemma variable_types m t u p q : variable m t p -> variable m u q -> t <> u -> p <> q.
Proof. intros [_ [v Hv]] [_ [v' Hv']] Ht ->. congruence. Qed.

Lemma box_object_delivers {T} `{Boxable T} m (w : W) p (x : T) :
  variable m PtrVar p ->
  exists m', box_object p (Ok x) (m, w) = (Ok tt, (m', w)) /\ delivers_object p m x m'.
Proof.
  intros Hp. eexists. split.
  - unfold box_object. rewrite is_null_false by apply Hp. unfold box_into_raw.
    rewrite (st_bind_eq _ _ _ (alloc_address m) (<[alloc_address m := Boxed (inject x)]> m, w))
      by done.
    by apply store_var_eq, variable_ne, alloc_unused.
  - exists (alloc_address m). split_and!; [apply alloc_nonnull|apply alloc_unused|done].
Qed.

Lemma box_object_fails {T} `{Boxable T} m (w : W) p e :
  variable m PtrVar p ->
  box_object (T:=T) p (Err e) (m, w) = (Err (Fail (Signal e)), (<[p := Var PtrVar null]> m, w)).
Proof.
  intros Hp. unfold box_object. rewrite is_null_false by apply Hp.
  by rewrite (st_bind_eq _ _ _ _ _ (store_var_eq m w PtrVar p null Hp)).
Qed.

Lemma write_bytearray_delivers m (w : W) out out_len b :
  variable m PtrVar out -> variable m SizeVar out_len ->
  exists m', write_bytearray_to out out_len (Ok b) (m, w) = (Ok tt, (m', w)) /\
    delivers_bytes out out_len m b m'.
Proof.
  intros Ho Hl. pose proof (variable_types _ _ _ _ _ Ho Hl ltac:(done)) as Hne.
  set (m1 := <[out_len := Var SizeVar (Z.of_nat (length b))]> m).
  assert (Ho1 : variable m1 PtrVar out) by by apply variable_other.
  assert (Hq : forall q, m1 !! q = None -> m !! q = None).
  { intros q. unfold m1. destruct (decide (q = out_len)) as [->|]; [by rewrite lookup_insert_eq|].
    by rewrite lookup_insert_ne. }
  unfold write_bytearray_to. rewrite !is_null_false by first [apply Ho|apply Hl]. cbn [orb signal].
  rewrite (st_bind_eq _ _ _ b (m, w)) by done.
  rewrite (st_bind_eq _ _ _ _ _ (store_var_eq m w SizeVar out_len _ Hl)). fold m1.
  unfold slice_into_raw, delivers_bytes. fold m1. destruct (length b =? 0) eqn:Hz.
  - rewrite (st_bind_eq _ _ _ 1%Z (m1, w)) by done. eexists. split; [by apply store_var_eq|].
    exists 1%Z. split; [|done]. split; [done|]. left.
    by apply Nat.eqb_eq, nil_length_inv in Hz.
  - pose proof (alloc_unused m1) as Hun. set (q := alloc_address m1) in *.
    rewrite (st_bind_eq _ _ _ q (<[q := BoxedSlice b]> m1, w)) by done.
    eexists. split; [by apply store_var_eq, variable_ne|]. exists q. split; [|by split; [apply Hq|]].
    split; [apply alloc_nonnull|]. right. exists (BoxedSlice b), []. rewrite app_nil_r. split; [|done].
    rewrite lookup_insert_ne, lookup_insert_eq; [done|]. intros <-. destruct Ho1 as [_ [v Hv]]. congruence.
Qed.

Lemma write_bytearray_fails m (w : W) out out_len e :
  out <> null -> out_len <> null ->
  write_bytearray_to out out_len (Err e) (m, w) = (Err (Fail (Signal e)), (m, w)).
Proof. intros Ho Hl. unfold write_bytearray_to. by rewrite !is_null_false. Qed.

(** ** The guard, by what the computation does *)

Lemma run_ffi_safe_ok (f : Ffi W unit) s s' : f s = (Ok tt, s') -> run_ffi_safe f s = (Ok null, s').
Proof. unfold run_ffi_safe. by intros ->. Qed.

Lemma reports_box ps m (w : W) m1 (w1 : W) e :
  unchanged ps m m1 ->
  exists q m', box_into_raw (E:=SignalFfiError) e (m1, w1) = (Ok q, (m', w1)) /\ reports ps m e q m'.
Proof.
  intros Hu. exists (alloc_address m1), (<[alloc_address m1 := Boxed (inject e)]> m1).
  split; [done|]. pose proof (alloc_unused m1) as Hun. split_and!.
  - split; [apply alloc_nonnull|apply lookup_insert_eq].
  - etrans; [exact Hu|by apply unchanged_fresh].
  - intros Hn. destruct (m !! _) as [c|] eqn:Hc; [|done]. rewrite (Hu _ c Hc Hn) in Hun. done.
Qed.

Lemma run_ffi_safe_fail ps (f : Ffi W unit) m w m1 w1 e :
  f (m, w) = (Err (Fail e), (m1, w1)) -> unchanged ps m m1 ->
  exists q m', run_ffi_safe f (m, w) = (Ok q, (m', w1)) /\ reports ps m e q m'.
Proof. intros Hf Hu. unfold run_ffi_safe. rewrite Hf. by eapply reports_box. Qed.

Lemma run_ffi_safe_panic ps (f : Ffi W unit) m w m1 w1 :
  f (m, w) = (Panic, (m1, w1)) -> unchanged ps m m1 ->
  exists q m', run_ffi_safe f (m, w) = (Ok q, (m', w1)) /\
    reports ps m (UnexpectedPanic panic_payload) q m'.
Proof. intros Hf Hu. unfold run_ffi_safe. rewrite Hf. by eapply reports_box. Qed.
End Results.

(** * Errors *)

Lemma error_code_range e : (1 <= code_value (error_code e) <= 100)%Z.
Proof. destruct (error_code e); cbn; lia. Qed.

(** The errors that have no code of their own. *)
Definition uncoded (e : SignalProtocolError) : bool :=
  match e with
  | MismatchedKeyTypes _ _ | MismatchedSignatureLengthForKey _ _ | SignaturePubkeyMissing
  | InvalidPreKeyBundle | InvalidRootKeyLength _ | InvalidChainKeyLength _ | InvalidMacKeyLength _
  | InvalidCipherCryptographicParameters _ _ | SenderKeySigningKeyMissing | InternalError _
  | FfiBindingError _ | ApplicationCallbackThrewException _ _ _
  | ApplicationCallbackReturnedIntegerError _ _ => true
  | _ => false
  end.

Lemma error_code_unknown e :
  code_value (error_code e) = 1%Z <-> exists s, e = Signal s /\ uncoded s = true.
Proof.
  split.
  - destruct e as [[]| | | | | |]; cbn; try done; intros _; by eexists.
  - intros (s & -> & Hs). by destruct s.
Qed.

Section Errors.
Context {W : Type} `{Platform, !AllocLaws}.

Lemma error_message_delivered m (w : W) q e out :
  handle m q e -> variable m PtrVar out ->
  Byte.x00 ∉ string_bytes (ffi_error_display e) ->
  exists s, s <> null /\ m !! s = None /\
    let m1 := <[out := Var PtrVar s]> (<[s := OwnedString (string_bytes (ffi_error_display e))]> m) in
    signal_error_get_message q out (m, w) = (Ok null, (m1, w)) /\
    signal_free_string s (m1, w) = (Ok tt, (delete s m1, w)).
Proof.
  intros Hq Ho Hnul. pose proof (alloc_unused m) as Hun. exists (alloc_address m).
  split_and!; [apply alloc_nonnull|done|]. intros m1. split.
  - unfold signal_error_get_message. rewrite is_null_false by apply Hq.
    rewrite (st_bind_eq _ _ _ _ _ (deref_object_eq m w q e Hq)). unfold write_cstr_to.
    rewrite is_null_false by apply Ho. cbn [signal].
    rewrite (st_bind_eq _ _ _ (ffi_error_display e) (m, w)) by done.
    unfold cstring_new. rewrite bool_decide_false by done.
    rewrite (st_bind_eq _ _ _ (string_bytes (ffi_error_display e)) (m, w)) by done.
    rewrite (st_bind_eq _ _ _ (alloc_address m)
      (<[alloc_address m := OwnedString (string_bytes (ffi_error_display e))]> m, w)) by done.
    by rewrite store_var_eq by by apply variable_ne.
  - unfold signal_free_string. rewrite is_null_false by apply alloc_nonnull.
    rewrite (st_bind_eq _ _ _ _ _ (deref_eq m1 w _ (OwnedString _) (alloc_nonnull m) ltac:(
      unfold m1; rewrite lookup_insert_ne, lookup_insert_eq; [reflexivity|];
      intros Heq; destruct Ho as [_ [v Hv]]; congruence))).
    done.
Qed.

(** What the caller can do with a fresh error object. *)
Definition usable_error (e : SignalFfiError) (m1 : Memory) (w1 : W) (q : Ptr) : Prop :=
  let m2 := <[q := Boxed (inject e)]> m1 in
  signal_error_get_type q (m2, w1) = (Ok (code_value (error_code e)), (m2, w1)) /\
  (1 <= code_value (error_code e) <= 100)%Z /\
  (code_value (error_code e) = 1%Z <-> exists s, e = Signal s /\ uncoded s = true) /\
  signal_error_free q (m2, w1) = (Ok tt, (m1, w1)) /\
  forall out, variable m1 PtrVar out -> Byte.x00 ∉ string_bytes (ffi_error_display e) ->
    exists s, s <> null /\ m2 !! s = None /\
      let m3 := <[out := Var PtrVar s]>
        (<[s := OwnedString (string_bytes (ffi_error_display e))]> m2) in
      signal_error_get_message q out (m2, w1) = (Ok null, (m3, w1)) /\
      signal_free_string s (m3, w1) = (Ok tt, (delete s m3, w1)).

Lemma box_error_usable (e : SignalFfiError) m1 (w1 : W) :
  exists q, q <> null /\ m1 !! q = None /\
    box_into_raw (E:=SignalFfiError) e (m1, w1) = (Ok q, (<[q := Boxed (inject e)]> m1, w1)) /\
    usable_error e m1 w1 q.
Proof.
  pose proof (alloc_unused m1) as Hun. pose proof (alloc_nonnull m1) as Hnn.
  exists (alloc_address m1). split_and!; [done..|].
  assert (Hh : handle (<[alloc_address m1 := Boxed (inject e)]> m1) (alloc_address m1) e)
    by (split; [done|apply lookup_insert_eq]).
  split_and!; [|apply error_code_range..|apply error_code_unknown| |].
  - unfold signal_error_get_type. rewrite is_null_false by done.
    by rewrite (st_bind_eq _ _ _ _ _ (deref_object_eq _ w1 _ e Hh)).
  - unfold signal_error_free, box_drop. rewrite is_null_false by done. cbn [negb].
    rewrite (st_bind_eq _ _ _ _ _ (deref_object_eq _ w1 _ e Hh)). unfold dealloc. cbn.
    by rewrite delete_insert_id by done.
  - intros out Ho Hnul. apply error_message_delivered; [done|by apply variable_ne|done].
Qed.

(** C14: errors reach the caller.  A guarded computation that succeeds answers null;
    one that fails or panics answers a new error object, whose type is the code of
    the error, between 1 and 100 (that of an internal error for a panic), whose
    message is its text (if that has no NUL byte), in a string the caller can free, and
    which the caller can free without a trace.  The code is that of an unknown error for exactly the
    thirteen errors of the crate that have none of their own, among them a failed
    callback. *)
Theorem errors_are_reported (f : Ffi W unit) m w :
  let '(r, (m1, w1)) := f (m, w) in
  match r with
  | Ok _ => run_ffi_safe f (m, w) = (Ok null, (m1, w1))
  | Err Undefined => run_ffi_safe f (m, w) = (Err Undefined, (m1, w1))
  | _ =>
      let e := match r with Err (Fail e) => e | _ => UnexpectedPanic panic_payload end in
      (r = Panic -> code_value (error_code e) = 3%Z) /\
      exists q, q <> null /\ m1 !! q = None /\
        run_ffi_safe f (m, w) = (Ok q, (<[q := Boxed (inject e)]> m1, w1)) /\
        usable_error e m1 w1 q
  end.
Proof.
  destruct (f (m, w)) as [r [m1 w1]] eqn:Hf. unfold run_ffi_safe. rewrite Hf.
  destruct r as [[]|[e|]|]; [done| |done|]; (split; [done|apply box_error_usable]).
Qed.
End Errors.
