(* ===== verification/FfiApi.v ===== *)
(** The C interface as a whole: the calls a program can make, each with the
    pointers it may write through, and the traces of a program that makes them. *)

From S2P Require Import Prelude Error Crates RatchetKeys Crypto Curve IdentityKey Proto Protocol PreKeys SessionState SenderKeys.
From S2P Require Import Fingerprint Storage StoreAccess Session BridgeMemory FfiUtil FfiStores FfiEntry FfiSession FfiFrame FfiSpec.

Section Api.
Context `{BuildConfig, Crates, ProtoCodecs, Platform}.

(** The entry points under the guard: a constructor for each macro, with any type
    and function it is used at, and one for each that is written out. *)
Inductive api : forall W : Type, list Ptr -> Ffi W Ptr -> Prop :=
  | api_deserialize W T `{Boxable T} func p data len :
      api W [p] (ffi_fn_deserialize func p data len)
  | api_new_boxed_obj W R T `{Boxable R, Boxable T} body p obj :
      api W [p] (ffi_fn_get_new_boxed_obj (R:=R) (T:=T) body p obj)
  | api_clone W T `{Boxable T} p obj : api W [p] (ffi_fn_clone T p obj)
  | api_new_boxed_optional_obj W R T `{Boxable R, Boxable T} body p obj :
      api W [p] (ffi_fn_get_new_boxed_optional_obj (R:=R) (T:=T) body p obj)
  | api_get_uint32 W T `{Boxable T} body obj out : api W [out] (ffi_fn_get_uint32 body obj out)
  | api_get_optional_uint32 W T `{Boxable T} body obj out :
      api W [out] (ffi_fn_get_optional_uint32 body obj out)
  | api_get_uint64 W T `{Boxable T} body obj out : api W [out] (ffi_fn_get_uint64 body obj out)
  | api_get_bytearray W T `{Boxable T} body obj out out_len :
      api W [out; out_len] (ffi_fn_get_bytearray body obj out out_len)
  | api_get_cstring W T `{Boxable T} body obj out : api W [out] (ffi_fn_get_cstring body obj out)
  | api_destroy W T `{Boxable T} p : api W [p] (ffi_fn_destroy T p)
  | api_hkdf_derive W output output_length version ikm ikm_len salt salt_len info info_len :
      api W [output] (signal_hkdf_derive output output_length version ikm ikm_len salt salt_len
        info info_len)
  | api_address_new W address name device_id :
      api W [address] (signal_address_new address name device_id)
  | api_publickey_compare W result key1 key2 :
      api W [result] (signal_publickey_compare result key1 key2)
  | api_publickey_verify W key result message message_len signature signature_len :
      api W [result] (signal_publickey_verify key result message message_len signature signature_len)
  | api_privatekey_agree W out out_len private_key public_key :
      api W [out; out_len] (signal_privatekey_agree out out_len private_key public_key)
  | api_privatekey_generate key : api Csprng [key] (signal_privatekey_generate key)
  | api_privatekey_sign out out_len key message message_len :
      api Csprng [out; out_len] (signal_privatekey_sign out out_len key message message_len)
  | api_identitykeypair_serialize W out out_len private_key public_key :
      api W [out; out_len] (signal_identitykeypair_serialize out out_len private_key public_key)
  | api_identitykeypair_deserialize W private_key public_key input input_len :
      api W [private_key; public_key]
        (signal_identitykeypair_deserialize private_key public_key input input_len)
  | api_session_record_archive_current_state W r :
      api W [r] (signal_session_record_archive_current_state r)
  | api_fingerprint_format W fprint local local_len remote remote_len :
      api W [fprint] (signal_fingerprint_format fprint local local_len remote remote_len)
  | api_fingerprint_new W obj iterations version local_id local_len local_key remote_id remote_len
      remote_key :
      api W [obj] (signal_fingerprint_new obj iterations version local_id local_len local_key
        remote_id remote_len remote_key)
  | api_fingerprint_compare W result fprint1 fprint1_len fprint2 fprint2_len :
      api W [result] (signal_fingerprint_compare result fprint1 fprint1_len fprint2 fprint2_len)
  | api_message_new W obj version mac_key mac_key_len ratchet_key counter previous_counter
      ciphertext ciphertext_len sender_key receiver_key :
      api W [obj] (signal_message_new obj version mac_key mac_key_len ratchet_key counter
        previous_counter ciphertext ciphertext_len sender_key receiver_key)
  | api_message_verify_mac W result handle sender_key receiver_key mac_key mac_key_len :
      api W [result] (signal_message_verify_mac result handle sender_key receiver_key mac_key
        mac_key_len)
  | api_pre_key_signal_message_new W obj version registration_id pre_key_id signed_pre_key_id
      base_key identity_key message :
      api W [obj] (signal_pre_key_signal_message_new obj version registration_id pre_key_id
        signed_pre_key_id base_key identity_key message)
  | api_sender_key_message_new obj key_id iteration ciphertext ciphertext_len pk :
      api Csprng [obj] (signal_sender_key_message_new obj key_id iteration ciphertext
        ciphertext_len pk)
  | api_sender_key_message_verify_signature W result skm pubkey :
      api W [result] (signal_sender_key_message_verify_signature result skm pubkey)
  | api_sender_key_distribution_message_new W obj key_id iteration chainkey chainkey_len pk :
      api W [obj] (signal_sender_key_distribution_message_new obj key_id iteration chainkey
        chainkey_len pk)
  | api_pre_key_bundle_new W obj registration_id device_id prekey_id prekey signed_prekey_id
      signed_prekey signature signature_len identity_key :
      api W [obj] (signal_pre_key_bundle_new obj registration_id device_id prekey_id prekey
        signed_prekey_id signed_prekey signature signature_len identity_key)
  | api_signed_pre_key_record_new W obj id timestamp pub_key priv_key signature signature_len :
      api W [obj] (signal_signed_pre_key_record_new obj id timestamp pub_key priv_key signature
        signature_len)
  | api_pre_key_record_new W obj id pub_key priv_key :
      api W [obj] (signal_pre_key_record_new obj id pub_key priv_key)
  | api_sender_key_name_new W obj group_id sender_name sender_device_id :
      api W [obj] (signal_sender_key_name_new obj group_id sender_name sender_device_id)
  | api_sender_key_record_new_fresh W obj : api W [obj] (signal_sender_key_record_new_fresh obj)
  | api_ciphertext_message_type W typ msg : api W [typ] (signal_ciphertext_message_type typ msg)
  | api_ciphertext_message_serialize W out out_len msg :
      api W [out; out_len] (signal_ciphertext_message_serialize out out_len msg)
  | api_process_prekey_bundle A B C D bundle address sessions identities ctx :
      api (World A B C D) [] (signal_process_prekey_bundle bundle address sessions identities ctx)
  | api_encrypt_message A B C D msg ptext ptext_len address sessions identities ctx :
      api (World A B C D) [msg]
        (signal_encrypt_message msg ptext ptext_len address sessions identities ctx)
  | api_decrypt_message A B C D out out_len message address sessions identities ctx :
      api (World A B C D) [out; out_len]
        (signal_decrypt_message out out_len message address sessions identities ctx)
  | api_decrypt_pre_key_message A B C D out out_len message address sessions identities prekeys
      signed_prekeys ctx :
      api (World A B C D) [out; out_len]
        (signal_decrypt_pre_key_message out out_len message address sessions identities prekeys
           signed_prekeys ctx)
  | api_create_sender_key_distribution_message A obj name store ctx :
      api (A * Csprng) [obj] (signal_create_sender_key_distribution_message obj name store ctx)
  | api_process_sender_key_distribution_message A name message store ctx :
      api (A * Csprng) [] (signal_process_sender_key_distribution_message name message store ctx)
  | api_group_encrypt_message A out out_len name message message_len store ctx :
      api (A * Csprng) [out; out_len]
        (signal_group_encrypt_message out out_len name message message_len store ctx)
  | api_group_decrypt_message A out out_len name message message_len store ctx :
      api (A * Csprng) [out; out_len]
        (signal_group_decrypt_message out out_len name message message_len store ctx).

(** The error in [err] has a text that is no C string. *)
Definition nul_message (err out : Ptr) (m : Memory) : Prop :=
  err <> null /\ out <> null /\ exists e : SignalFfiError,
    m !! err = Some (Boxed (inject e)) /\ Byte.x00 ∈ string_bytes (ffi_error_display e).

(** The five that are not: the pointer each writes through or frees, and when it
    lets a panic out. *)
Inductive unguarded (W : Type) : forall A : Type, list Ptr -> (Memory -> Prop) -> Ffi W A -> Prop :=
  | unguarded_free_string buf : unguarded W unit [buf] (const False) (signal_free_string buf)
  | unguarded_free_buffer buf len :
      unguarded W unit [buf] (const False) (signal_free_buffer buf len)
  | unguarded_error_get_message err out :
      unguarded W Ptr [out] (nul_message err out) (signal_error_get_message err out)
  | unguarded_error_get_type err : unguarded W Z [] (const False) (signal_error_get_type err)
  | unguarded_error_free err : unguarded W unit [err] (const False) (signal_error_free err).

Context `{!AllocLaws}.

#[local] Hint Extern 1 (writes_only _ (_ _)) => apply frame_as_ref : frame.

Lemma hkdf_derive_contained W output output_length version ikm ikm_len salt salt_len info info_len :
  contained (W:=W) [output] (signal_hkdf_derive output output_length version ikm ikm_len salt
    salt_len info info_len).
Proof.
  apply run_ffi_safe_contained, frame_if; [apply frame_fail|].
  eapply (frame_bind_post _ (fun d => slice_base d = output \/ slice_len d = 0)).
  - intros ???. apply as_slice_mut_base.
  - apply frame_as_slice_mut.
  - intros d Hd. frame. apply frame_copy_from_slice. destruct Hd as [->|]; [left; set_solver|by right].
Qed.

Lemma api_contained W ps (f : Ffi W Ptr) : api W ps f -> contained ps f.
Proof.
  intros Hf. destruct Hf; try apply hkdf_derive_contained;
    apply run_ffi_safe_contained; cbv zeta; frame.
Qed.

(** An entry point whose behaviour is defined answers null or a new error object,
    without a panic, and changes nothing but what it writes through. *)
Lemma entry_points_contained W ps (f : Ffi W Ptr) m w :
  api W ps f ->
  let '(r, (m', _)) := f (m, w) in
  r = Err Undefined \/ exists q, r = Ok q /\ unchanged ps m m' /\ error_result ps q m m'.
Proof.
  intros Hf. pose proof (api_contained W ps f Hf m w) as Hc.
  destruct (f (m, w)) as [[q|[e|]|] [m' w']]; destruct Hc as (Hu & Hp & He & Hq); try done.
  - right. exists q. by split_and!; [|apply Hu|apply Hq].
  - by destruct (He e).
  - by left.
Qed.

(** ** The calls outside of the guard *)

Lemma error_get_message_writes W err out :
  writes_only (W:=W) [out] (signal_error_get_message err out).
Proof.
  apply writes_only_intro. intros s. unfold signal_error_get_message.
  assert (Hbody : writes_only (W:=W) [out]
    (if is_null err then fail NullPointer
     else let! e := deref_object SignalFfiError err in
          let msg := ffi_error_display e in write_cstr_to out (Ok msg))) by (cbv zeta; frame).
  specialize (Hbody s.1 s (reflexivity _)). revert Hbody.
  destruct (_ s) as [[[]|[e|]|] s']; intros Hbody; cbn in *; try done.
  etrans; [exact Hbody|]. apply unchanged_fresh, alloc_unused.
Qed.

Lemma unguarded_writes W A ps panics (f : Ffi W A) : unguarded W A ps panics f -> writes_only ps f.
Proof.
  intros []; [| |apply error_get_message_writes|..].
  - unfold signal_free_string. frame.
  - unfold signal_free_buffer. frame.
  - unfold signal_error_get_type. cbv zeta. frame.
  - unfold signal_error_free. frame.
Qed.

(** A dereference at a type: the object, or undefined behaviour. *)
Lemma deref_object_cases T `{Boxable T} {W : Type} p (m : Memory) (w : W) :
  deref_object (E:=SignalFfiError) T p (m, w) = (Err Undefined, (m, w)) \/
  exists x, p <> null /\ m !! p = Some (Boxed (inject x)) /\
    deref_object (E:=SignalFfiError) T p (m, w) = (Ok x, (m, w)).
Proof.
  unfold deref_object, deref, is_null. destruct (Z.eqb_spec p null) as [|Hn]; [by left|].
  unfold st_bind, st_gets. cbn. destruct (m !! p) as [[o| | | |]|] eqn:Hp; cbn; try by left.
  destruct (project o) as [x|] eqn:Hx; [|by left]. apply project_some in Hx as ->. right. by exists x.
Qed.

Lemma store_var_defined {W : Type} t p v (s : Memory * W) :
  (store_var (E:=SignalFfiError) t p v s).1 <> Panic.
Proof.
  unfold store_var, load_var, deref, is_null, st_bind, st_gets.
  destruct (p =? null)%Z; [done|]. cbn. destruct (s.1 !! p) as [[| | | |t' v']|]; cbn; try done.
  by destruct (decide (t' = t)).
Qed.

Lemma error_get_message_panics {W : Type} err out (m : Memory) (w : W) :
  (signal_error_get_message err out (m, w)).1 = Panic <-> nul_message err out m.
Proof.
  unfold signal_error_get_message, nul_message. destruct (is_null err) eqn:He.
  { apply Z.eqb_eq in He as ->. cbn. split; [done|by intros [? _]]. }
  unfold st_bind at 1.
  destruct (deref_object_cases SignalFfiError err m w) as [Hu | (e & Hn & Hp & Hu)]; rewrite Hu.
  { cbn. split; [done|]. intros (Hn & _ & e & Hp & _).
    pose proof (deref_object_eq (E:=SignalFfiError) m w err e (conj Hn Hp)). congruence. }
  unfold write_cstr_to. destruct (is_null out) eqn:Ho.
  { apply Z.eqb_eq in Ho as ->. cbn. split; [done|by intros (_ & ? & _)]. }
  apply Z.eqb_neq in Ho. unfold st_bind at 1. cbn [signal st_ret]. unfold st_bind at 1, cstring_new.
  case_bool_decide as Hnul; cbn [st_lift st_ret].
  - cbn. split; [|done]. intros _. split; [done|]. split; [done|]. by exists e.
  - split.
    + unfold st_bind, alloc. cbn.
      set (s1 := (<[_ := _]> m, w)). pose proof (store_var_defined PtrVar out (alloc_address m) s1).
      destruct (store_var PtrVar out (alloc_address m) s1) as [[[]|[]|] ?]; done.
    + intros (_ & _ & e' & Hp' & Hnul'). rewrite Hp in Hp'. injection Hp' as Heq.
      by subst e'.
Qed.

Lemma free_string_defined {W : Type} buf (s : Memory * W) : (signal_free_string buf s).1 <> Panic.
Proof.
  unfold signal_free_string, deref, is_null. destruct (buf =? null)%Z; [done|].
  unfold st_bind, st_gets. cbn. by destruct (s.1 !! buf) as [[]|].
Qed.

Lemma free_buffer_defined {W : Type} buf n (s : Memory * W) : (signal_free_buffer buf n s).1 <> Panic.
Proof.
  unfold signal_free_buffer, deref, is_null. destruct (buf =? null)%Z; [done|].
  destruct (n =? 0); [done|]. unfold st_bind, st_gets. cbn.
  destruct (s.1 !! buf) as [[]|]; cbn; try done. by destruct (_ =? n).
Qed.

Lemma unguarded_panics W A ps panics (f : Ffi W A) m w :
  unguarded W A ps panics f -> (f (m, w)).1 = Panic <-> panics m.
Proof.
  intros []; [| |apply error_get_message_panics|..]; (split; [|done]); intros Hp; exfalso.
  - by eapply free_string_defined.
  - by eapply free_buffer_defined.
  - revert Hp. unfold signal_error_get_type. destruct (is_null err); [done|]. unfold st_bind.
    by destruct (deref_object_cases SignalFfiError err m w) as [-> | (e & _ & _ & ->)].
  - revert Hp. unfold signal_error_free. destruct (is_null err); [done|]. cbn [negb].
    unfold box_drop, st_bind.
    by destruct (deref_object_cases SignalFfiError err m w) as [-> | (e & _ & _ & ->)].
Qed.

(** * Traces

    A program alternates calls whose behaviour is defined with accesses to its own
    variables and arrays; the list collects what was written through, freed or
    destroyed. *)

Definition client_cell (c : Cell) : Prop :=
  match c with Bytes _ | Var _ _ => True | _ => False end.

Inductive client_step : list Ptr -> Memory -> Memory -> Prop :=
  | step_call W ps (f : Ffi W Ptr) m w q m' w' :
      api W ps f -> f (m, w) = (Ok q, (m', w')) -> client_step ps m m'
  | step_unguarded W A ps panics (f : Ffi W A) m w a m' w' :
      unguarded W A ps panics f -> f (m, w) = (Ok a, (m', w')) -> client_step ps m m'
  | step_write p c m :
      client_cell c -> (forall d, m !! p = Some d -> client_cell d) ->
      client_step [] m (<[p := c]> m)
  | step_drop p c m : m !! p = Some c -> client_cell c -> client_step [] m (delete p m).

Inductive trace : list Ptr -> Memory -> Memory -> Prop :=
  | trace_nil m : trace [] m m
  | trace_step ps qs m1 m2 m3 :
      client_step ps m1 m2 -> trace qs m2 m3 -> trace (ps ++ qs) m1 m3.

Lemma writes_only_result {W A} ps (f : Ffi W A) m w r m' w' :
  writes_only ps f -> f (m, w) = (r, (m', w')) -> unchanged ps m m'.
Proof. intros Hf Heq. specialize (Hf m (m, w) (reflexivity m)). by rewrite Heq in Hf. Qed.

(** What a step of the program does to the objects Rust owns. *)
Lemma client_step_boxed ps m m' p o :
  client_step ps m m' -> m !! p = Some (Boxed o) -> p ∉ ps -> m' !! p = Some (Boxed o).
Proof.
  intros Hs Hp Hn.
  destruct Hs as [W ps f m w q m' w' Hf Heq|W A ps panics f m w a m' w' Hf Heq
    |q c m Hc Hown|q c m Hq Hc].
  - pose proof (api_contained W ps f Hf m w) as Hc. rewrite Heq in Hc. by apply Hc.
  - by eapply writes_only_result; [eapply unguarded_writes| |..].
  - rewrite lookup_insert_ne; [done|]. intros ->. by apply (Hown _ Hp).
  - rewrite lookup_delete_ne; [done|]. intros ->. rewrite Hp in Hq. by injection Hq as <-.
Qed.

(** What Rust owns, along a trace. *)
Lemma trace_boxed ps m m' p o :
  trace ps m m' -> m !! p = Some (Boxed o) -> p ∉ ps -> m' !! p = Some (Boxed o).
Proof.
  intros Htr Hp Hn. induction Htr as [m|qs rs m1 m2 m3 Hs _ IH]; [done|].
  rewrite elem_of_app in Hn. apply IH; [|tauto]. eapply client_step_boxed; eauto.
Qed.

(** C13: the C interface contains its calls.  A call of a guarded entry point with
    any arguments either is undefined behaviour (a pointer that does not point to
    what the call takes it to, about which nothing is said), or returns: null or a
    pointer to a new error object, without a panic unwinding into the caller, and
    memory that was allocated before changed only behind the pointers the call
    writes through.  The five calls outside of the guard change nothing else
    either, and of these only [signal_error_get_message] can panic, exactly on an
    error whose text has a NUL byte.  And a handle stays good: along every trace of
    a program of such calls with defined behaviour and accesses to its own
    variables in between, the object behind a pointer that was handed out is the
    same until the program passes that pointer where an object is destroyed,
    archived or a result written. *)
Theorem handles_survive ps m m' p T `{Boxable T} (x : T) :
  (forall W qs (f : Ffi W Ptr) w, api W qs f ->
     let '(r, (m1, _)) := f (m, w) in
     r = Err Undefined \/ exists q, r = Ok q /\
       (forall a c, m !! a = Some c -> a ∉ qs -> m1 !! a = Some c) /\
       (q = null \/ exists e : SignalFfiError,
          m1 !! q = Some (Boxed (inject e)) /\ (q ∉ qs -> m !! q = None))) /\
  (forall W A qs panics (f : Ffi W A) w, unguarded W A qs panics f ->
     let '(r, (m1, _)) := f (m, w) in
     (r = Panic <-> panics m) /\
     (r = Err Undefined \/ forall a c, m !! a = Some c -> a ∉ qs -> m1 !! a = Some c)) /\
  (trace ps m m' -> m !! p = Some (Boxed (inject x)) -> p ∉ ps -> p <> null ->
   m' !! p = Some (Boxed (inject x)) /\
   forall W (w : W), native_handle_cast T p (m', w) = (Ok x, (m', w))).
Proof.
  split; [intros W qs f w; apply entry_points_contained|]. split.
  { intros W A qs panics f w Hf. pose proof (unguarded_panics W A qs panics f m w Hf) as Hp.
    destruct (f (m, w)) as [r [m1 w1]] eqn:Heq. split; [exact Hp|]. right.
    eapply writes_only_result; [by eapply unguarded_writes|exact Heq]. }
  intros Htr Hp Hn Hnull. pose proof (trace_boxed ps m m' p (inject x) Htr Hp Hn) as Hm'.
  split; [done|]. intros W w. by apply (native_handle_cast_eq m' w p x).
Qed.
End Api.
