(* ===== verification/FfiProofs.v ===== *)
(** What the calls of the C interface achieve: objects travel through it as bytes
    unchanged and leave nothing behind, the calls on sessions and groups are the
    operations of the protocol crate on the stores of the program, and the first
    contact of two parties works through it. *)

From S2P Require Import Prelude Error Crates Curve IdentityKey Proto Protocol PreKeys SessionState SenderKeys.
From S2P Require Import Storage StoreAccess Session SessionCipher GroupCipher FirstContact.
From S2P Require Import SessionInvariant SessionRecordFacts Replay StoreProofs Conversation BridgeMemory FfiUtil FfiStores FfiLaws FfiEntry FfiSession FfiFrame FfiSpec.

(** * Objects as bytes *)

Section Bytes.
Context {W : Type} `{Platform, !AllocLaws}.

Lemma handle_other {T} `{Boxable T} m p (x : T) q c :
  handle m p x -> p <> q -> handle (<[q := c]> m) p x.
Proof. intros [Hp Hx] Hq. split; [done|]. by rewrite lookup_insert_ne. Qed.

Lemma handle_variable_ne {T} `{Boxable T} m p (x : T) t q : handle m p x -> variable m t q -> p <> q.
Proof. intros [_ Hx] [_ [v Hv]] ->. congruence. Qed.

Lemma handle_fresh {T} `{Boxable T} m p (x : T) q c :
  handle m p x -> m !! q = None -> handle (<[q := c]> m) p x.
Proof. intros Hx Hq. apply handle_other; [done|]. intros ->. destruct Hx. congruence. Qed.

(** A getter of bytes that succeeds. *)
Lemma get_bytearray_ok {T} `{Boxable T} (ser : T -> Result bytes) x b m (w : W) obj out out_len :
  ser x = Ok b -> handle m obj x -> variable m PtrVar out -> variable m SizeVar out_len ->
  exists m', ffi_fn_get_bytearray ser obj out out_len (m, w) = (Ok null, (m', w)) /\
    delivers_bytes out out_len m b m'.
Proof.
  intros Hser Hx Ho Hl. destruct (write_bytearray_delivers m w out out_len b Ho Hl) as (m' & Hw & Hd).
  exists m'. split; [|done]. apply run_ffi_safe_ok.
  rewrite (st_bind_eq _ _ _ _ _ (native_handle_cast_eq m w obj x Hx)), Hser.
  by rewrite (st_bind_eq _ _ _ (Ok b) (m, w)).
Qed.

Lemma deserialize_ok {T} `{Boxable T} (de : bytes -> Result T) x b m (w : W) p q :
  de b = Ok x -> bytes_at m q b -> variable m PtrVar p ->
  exists m', ffi_fn_deserialize de p q (length b) (m, w) = (Ok null, (m', w)) /\
    delivers_object p m x m'.
Proof.
  intros Hde Hq Hp. destruct (box_object_delivers m w p x Hp) as (m' & Hb & Hd).
  exists m'. split; [|done]. apply run_ffi_safe_ok. rewrite is_null_false by apply Hq.
  rewrite (st_bind_eq _ _ _ _ _ (from_raw_parts_eq m w q b Hq)), Hde.
  by rewrite (st_bind_eq _ _ _ (Ok x) (m, w)).
Qed.

Lemma destroy_ok {T} `{Boxable T} m (w : W) p (x : T) :
  handle m p x -> ffi_fn_destroy T p (m, w) = (Ok null, (delete p m, w)).
Proof.
  intros Hx. apply run_ffi_safe_ok. rewrite is_null_false by apply Hx. cbn [negb]. unfold box_drop.
  by rewrite (st_bind_eq _ _ _ _ _ (deref_object_eq m w p x Hx)).
Qed.

Lemma free_buffer_ok m (w : W) q b :
  q <> null -> m !! q = Some (BoxedSlice b) -> b <> [] ->
  signal_free_buffer q (length b) (m, w) = (Ok tt, (delete q m, w)).
Proof.
  intros Hq Hb Hne. unfold signal_free_buffer. rewrite is_null_false by done.
  destruct (length b =? 0) eqn:Hz; [by apply Nat.eqb_eq, nil_length_inv in Hz|].
  rewrite (st_bind_eq _ _ _ _ _ (deref_eq m w q _ Hq Hb)). by rewrite Nat.eqb_refl.
Qed.

(** An address in use is not one where nothing is. *)
Lemma used_unused (m : Memory) p q c : m !! p = Some c -> m !! q = None -> p <> q.
Proof. congruence. Qed.

Lemma variable_unused m t p q : variable m t p -> m !! q = None -> p <> q.
Proof. intros [_ [v Hv]]. by eapply used_unused. Qed.

(** Releasing the two blocks of a round trip leaves the variables only. *)
Lemma release_blocks (m : Memory) p q r out out_len cp cq cr co cl :
  m !! q = None -> m !! r = None -> q <> r -> p <> q -> p <> r -> out <> q -> out <> r ->
  out_len <> q -> out_len <> r ->
  delete r (delete q (<[p := cp]> (<[r := cr]> (<[out := co]> (<[q := cq]> (<[out_len := cl]> m))))))
  = <[p := cp]> (<[out := co]> (<[out_len := cl]> m)).
Proof.
  intros. rewrite (delete_insert_ne _ q p), (delete_insert_ne _ q r), (delete_insert_ne _ q out) by done.
  rewrite (delete_insert_id _ q) by by rewrite lookup_insert_ne.
  rewrite (delete_insert_ne _ r p) by done. rewrite delete_insert_id; [done|].
  by rewrite !lookup_insert_ne.
Qed.

(** Parsing bytes into a new object, which can be destroyed as long as it is there. *)
Lemma parsed_object {T} `{Boxable T} (de : bytes -> Result T) x b m (w : W) p q obj :
  de b = Ok x -> bytes_at m q b -> variable m PtrVar p -> handle m obj x ->
  exists r m', ffi_fn_deserialize de p q (length b) (m, w) = (Ok null, (m', w)) /\
    m !! r = None /\ m' = <[p := Var PtrVar r]> (<[r := Boxed (inject x)]> m) /\
    m' !! p = Some (Var PtrVar r) /\ r <> p /\ r <> obj /\ handle m' r x /\ handle m' obj x /\
    forall m1, m1 !! r = m' !! r -> ffi_fn_destroy T r (m1, w) = (Ok null, (delete r m1, w)).
Proof.
  intros Hde Hq Hp Hx. destruct (deserialize_ok de x b m w p q Hde Hq Hp) as (m' & Hd & r & Hr & Hru & ->).
  pose proof (variable_unused _ _ _ _ Hp Hru) as Hpr. pose proof (handle_variable_ne _ _ _ _ _ Hx Hp).
  set (m' := <[p := _]> _) in *.
  assert (Hrx : handle m' r x) by (split; [done|]; unfold m'; by rewrite lookup_insert_ne, lookup_insert_eq).
  exists r, m'. split_and!; try done.
  - unfold m'. by rewrite lookup_insert_eq.
  - intros ->. destruct Hx. congruence.
  - apply handle_other; [by apply handle_fresh|done].
  - intros m1 Hm1. apply (destroy_ok _ _ _ x). destruct Hrx as [? Hrx]. split; [done|]. by rewrite Hm1.
Qed.

(** C16: objects travel through the C interface as bytes.  For every type with a
    serialiser and a parser that undo each other on [x], through good handles and
    variables, and for no bytes as for any (a new sender key record serialises to
    none, which are not allocated): serialising answers a byte array and its
    length; parsing these makes a new handle to the same object, with the old one
    still good; and when the program has freed the array and destroyed the new
    object, its memory is as before but for the three variables it passed. *)
Theorem objects_survive_as_bytes {T} `{Boxable T} (ser : T -> Result bytes)
    (de : bytes -> Result T) x b m (w : W) obj out out_len p :
  ser x = Ok b -> de b = Ok x ->
  handle m obj x -> variable m PtrVar out -> variable m SizeVar out_len ->
  variable m PtrVar p -> p <> out ->
  exists q r m1 m2 m3,
    ffi_fn_get_bytearray ser obj out out_len (m, w) = (Ok null, (m1, w)) /\
    m1 !! out = Some (Var PtrVar q) /\
    m1 !! out_len = Some (Var SizeVar (Z.of_nat (length b))) /\
    ffi_fn_deserialize de p q (length b) (m1, w) = (Ok null, (m2, w)) /\
    m2 !! p = Some (Var PtrVar r) /\ r <> obj /\ handle m2 r x /\ handle m2 obj x /\
    signal_free_buffer q (length b) (m2, w) = (Ok tt, (m3, w)) /\
    ffi_fn_destroy T r (m3, w) = (Ok null, (delete r m3, w)) /\
    delete r m3 = <[p := Var PtrVar r]> (<[out := Var PtrVar q]>
      (<[out_len := Var SizeVar (Z.of_nat (length b))]> m)).
Proof.
  intros Hser Hde Hx Ho Hl Hp Hpo.
  destruct (get_bytearray_ok ser x b m w obj out out_len Hser Hx Ho Hl) as (m1 & Hget & q & Hq & Hm1).
  cbv zeta in Hm1. set (l := Var SizeVar _) in *.
  pose proof (variable_types _ _ _ _ _ Ho Hl ltac:(done)).
  pose proof (variable_types _ _ _ _ _ Hp Hl ltac:(done)).
  pose proof (handle_variable_ne _ _ _ _ _ Hx Ho). pose proof (handle_variable_ne _ _ _ _ _ Hx Hl).
  destruct (length b =? 0) eqn:Hz.
  - destruct (parsed_object de x b m1 w p q obj Hde Hq) as
      (r & m2 & Hdes & Hru & Hm2 & Hpr & Hrp & Hro & Hrx & Hx2 & Hdel);
      [subst m1; by do 2 (apply variable_other; [|done])|subst m1; by do 2 (apply handle_other; [|done])|].
    exists q, r, m1, m2, m2. split_and!; try done; try by apply Hdel.
    + subst m1. by rewrite lookup_insert_eq.
    + subst m1. by rewrite lookup_insert_ne, lookup_insert_eq.
    + unfold signal_free_buffer. rewrite is_null_false by apply Hq. by rewrite Hz.
    + rewrite Hm2, delete_insert_ne, delete_insert_id, Hm1 by done. done.
  - destruct Hm1 as [Hqu Hm1].
    pose proof (variable_unused _ _ _ _ Ho Hqu). pose proof (variable_unused _ _ _ _ Hl Hqu).
    pose proof (variable_unused _ _ _ _ Hp Hqu). pose proof (used_unused m obj q _ (proj2 Hx) Hqu).
    destruct (parsed_object de x b m1 w p q obj Hde Hq) as
      (r & m2 & Hdes & Hru & Hm2 & Hpr & Hrp & Hro & Hrx & Hx2 & Hdel);
      [subst m1; by do 3 (apply variable_other; [|done])|subst m1; by do 3 (apply handle_other; [|done])|].
    assert (Hq1 : m1 !! q = Some (BoxedSlice b)) by (subst m1; by rewrite lookup_insert_ne, lookup_insert_eq).
    assert (Hqr : q <> r) by by eapply used_unused.
    exists q, r, m1, m2, (delete q m2). split_and!; try done.
    + subst m1. by rewrite lookup_insert_eq.
    + subst m1. by rewrite !lookup_insert_ne, lookup_insert_eq by done.
    + apply free_buffer_ok; [apply Hq| |by intros ->]. rewrite Hm2. by rewrite !lookup_insert_ne.
    + apply Hdel. by rewrite lookup_delete_ne.
    + subst m1. apply lookup_insert_None in Hru as [Hru ?]. apply lookup_insert_None in Hru as [Hru ?].
      apply lookup_insert_None in Hru as [? ?]. rewrite Hm2. by apply release_blocks.
Qed.
End Bytes.

(** * Calls into the protocol crate *)

Section Outcomes.
Context {W : Type} `{Platform, !AllocLaws}.

(** How a call reports an outcome of the protocol crate: the world is the one the
    operation leaves; a value is delivered and the answer is null; an error or a
    panic is reported. *)
Definition outcome_reported {A} (ps : list Ptr) (deliver : Memory -> A -> Memory -> Prop)
    (m : Memory) (r : Result A * W) (c : outcome (Stop SignalFfiError) Ptr * (Memory * W)) : Prop :=
  match r with
  | (Ok a, w') => exists m', c = (Ok null, (m', w')) /\ deliver m a m'
  | (Err e, w') => exists q m', c = (Ok q, (m', w')) /\ reports ps m (Signal e) q m'
  | (Panic, w') =>
      exists q m', c = (Ok q, (m', w')) /\ reports ps m (UnexpectedPanic panic_payload) q m'
  end.

Lemma run_ffi_safe_bind {A} (f : Ffi W A) (k : A -> Ffi W unit) s a s' :
  f s = (Ok a, s') -> run_ffi_safe (let! x := f in k x) s = run_ffi_safe (k a) s'.
Proof. intros Hf. unfold run_ffi_safe. by rewrite (st_bind_eq _ _ _ _ _ Hf). Qed.

(** A step of the prologue of a call, whose argument is good. *)
Lemma outcome_after {A B} ps (deliver : Memory -> B -> Memory -> Prop) (f : Ffi W A)
    (k : A -> Ffi W unit) m w a r :
  f (m, w) = (Ok a, (m, w)) ->
  outcome_reported ps deliver m r (run_ffi_safe (k a) (m, w)) ->
  outcome_reported ps deliver m r (run_ffi_safe (let! x := f in k x) (m, w)).
Proof. intros Hf. by rewrite (run_ffi_safe_bind _ _ _ _ _ Hf). Qed.

Lemma expect_ready_eq {A} m (f : StateResult W A) w r w' :
  f w = (r, w') -> expect_ready f (m, w) = evaluate r (m, w').
Proof. intros Hf. unfold expect_ready. cbn. by rewrite Hf. Qed.

Lemma outcome_bytes m w (f : StateResult W bytes) out out_len :
  variable m PtrVar out -> variable m SizeVar out_len ->
  outcome_reported [out; out_len] (delivers_bytes out out_len) m (f w)
    (run_ffi_safe (let! r := expect_ready f in write_bytearray_to out out_len r) (m, w)).
Proof.
  intros Ho Hl. destruct (f w) as [r w'] eqn:Hf.
  pose proof (expect_ready_eq m f w r w' Hf) as Hc.
  destruct r as [b|e|]; cbn [outcome_reported].
  - rewrite (run_ffi_safe_bind _ _ _ _ _ Hc).
    destruct (write_bytearray_delivers m w' out out_len b Ho Hl) as (m' & Hw & Hd).
    exists m'. split; [by apply run_ffi_safe_ok|done].
  - rewrite (run_ffi_safe_bind _ _ _ _ _ Hc). eapply run_ffi_safe_fail; [|reflexivity].
    apply write_bytearray_fails; [apply Ho|apply Hl].
  - eapply run_ffi_safe_panic; [|reflexivity]. unfold st_bind. by rewrite Hc.
Qed.

Lemma outcome_object {T} `{Boxable T} m w (f : StateResult W T) p :
  variable m PtrVar p ->
  outcome_reported [p] (delivers_object p) m (f w)
    (run_ffi_safe (let! r := expect_ready f in box_object p r) (m, w)).
Proof.
  intros Hp. destruct (f w) as [r w'] eqn:Hf.
  pose proof (expect_ready_eq m f w r w' Hf) as Hc.
  destruct r as [x|e|]; cbn [outcome_reported].
  - rewrite (run_ffi_safe_bind _ _ _ _ _ Hc).
    destruct (box_object_delivers m w' p x Hp) as (m' & Hw & Hd).
    exists m'. split; [by apply run_ffi_safe_ok|done].
  - rewrite (run_ffi_safe_bind _ _ _ _ _ Hc). eapply run_ffi_safe_fail; [by apply box_object_fails|].
    apply unchanged_put. set_solver.
  - eapply run_ffi_safe_panic; [|reflexivity]. unfold st_bind. by rewrite Hc.
Qed.

Lemma outcome_unit m w (f : StateResult W unit) :
  outcome_reported [] (fun m _ m' => m' = m) m (f w)
    (run_ffi_safe (let! r := expect_ready f in signal r) (m, w)).
Proof.
  destruct (f w) as [r w'] eqn:Hf.
  pose proof (expect_ready_eq m f w r w' Hf) as Hc.
  destruct r as [[]|e|]; cbn [outcome_reported].
  - rewrite (run_ffi_safe_bind _ _ _ _ _ Hc). by exists m.
  - rewrite (run_ffi_safe_bind _ _ _ _ _ Hc). by eapply run_ffi_safe_fail.
  - eapply run_ffi_safe_panic; [|reflexivity]. unfold st_bind. by rewrite Hc.
Qed.
End Outcomes.

(** The prologue of a call: one step for each argument. *)
Ltac prologue :=
  repeat (eapply outcome_after;
    [first [ eapply native_handle_cast_eq; eassumption | eapply as_slice_eq; eassumption
           | reflexivity ] | cbv beta]).

Section Calls.
Context {A B C D : Type} `{BuildConfig, Crates, ProtoCodecs, Platform, !AllocLaws}.
Context {sessions : FfiSessionStoreStruct A} {identities : FfiIdentityKeyStoreStruct B}
  {prekeys : FfiPreKeyStoreStruct C} {signed_prekeys : FfiSignedPreKeyStoreStruct D}.
Implicit Types w : World A B C D.

Lemma process_prekey_bundle_call m w bundle_p bundle address_p address ctx :
  handle m bundle_p bundle -> handle m address_p address ->
  outcome_reported [] (fun m _ m' => m' = m) m (process_prekey_bundle address bundle (Some ctx) w)
    (signal_process_prekey_bundle bundle_p address_p (Some sessions) (Some identities) ctx (m, w)).
Proof. intros Hb Ha. unfold signal_process_prekey_bundle. prologue. apply outcome_unit. Qed.

Lemma encrypt_message_call m w msg ptext_p ptext address_p address ctx :
  variable m PtrVar msg -> bytes_at m ptext_p ptext -> handle m address_p address ->
  outcome_reported [msg] (delivers_object msg) m (message_encrypt ptext address (Some ctx) w)
    (signal_encrypt_message msg ptext_p (length ptext) address_p (Some sessions) (Some identities)
       ctx (m, w)).
Proof. intros Hm Hp Ha. unfold signal_encrypt_message. prologue. by apply outcome_object. Qed.

Lemma decrypt_message_call m w out out_len message_p message address_p address ctx :
  variable m PtrVar out -> variable m SizeVar out_len ->
  handle m message_p message -> handle m address_p address ->
  outcome_reported [out; out_len] (delivers_bytes out out_len) m
    (message_decrypt_signal message address (Some ctx) w)
    (signal_decrypt_message out out_len message_p address_p (Some sessions) (Some identities)
       ctx (m, w)).
Proof. intros Ho Hl Hm Ha. unfold signal_decrypt_message. prologue. by apply outcome_bytes. Qed.

Lemma decrypt_pre_key_message_call m w out out_len message_p message address_p address ctx :
  variable m PtrVar out -> variable m SizeVar out_len ->
  handle m message_p message -> handle m address_p address ->
  outcome_reported [out; out_len] (delivers_bytes out out_len) m
    (message_decrypt_prekey message address (Some ctx) w)
    (signal_decrypt_pre_key_message out out_len message_p address_p (Some sessions)
       (Some identities) (Some prekeys) (Some signed_prekeys) ctx (m, w)).
Proof. intros Ho Hl Hm Ha. unfold signal_decrypt_pre_key_message. prologue. by apply outcome_bytes. Qed.
End Calls.

Section GroupCalls.
Context {A : Type} `{BuildConfig, Crates, ProtoCodecs, Platform, !AllocLaws}.
Context {store : FfiSenderKeyStoreStruct A}.
Implicit Types w : A * Csprng.

Lemma create_distribution_call m w obj name_p name ctx :
  variable m PtrVar obj -> handle m name_p name ->
  outcome_reported [obj] (delivers_object obj) m
    (create_sender_key_distribution_message name (Some ctx) w)
    (signal_create_sender_key_distribution_message obj name_p (Some store) ctx (m, w)).
Proof.
  intros Ho Hn. unfold signal_create_sender_key_distribution_message.
  rewrite is_null_false by apply Hn. cbn [orb]. prologue. by apply outcome_object.
Qed.

Lemma process_distribution_call m w name_p name message_p message ctx :
  handle m name_p name -> handle m message_p message ->
  outcome_reported [] (fun m _ m' => m' = m) m
    (process_sender_key_distribution_message name message (Some ctx) w)
    (signal_process_sender_key_distribution_message name_p message_p (Some store) ctx (m, w)).
Proof.
  intros Hn Hm. unfold signal_process_sender_key_distribution_message. prologue. apply outcome_unit.
Qed.

Lemma group_encrypt_call m w out out_len name_p name message_p message ctx :
  variable m PtrVar out -> variable m SizeVar out_len -> handle m name_p name ->
  bytes_at m message_p message ->
  outcome_reported [out; out_len] (delivers_bytes out out_len) m
    (group_encrypt name message (Some ctx) w)
    (signal_group_encrypt_message out out_len name_p message_p (length message) (Some store) ctx
       (m, w)).
Proof. intros Ho Hl Hn Hm. unfold signal_group_encrypt_message. prologue. by apply outcome_bytes. Qed.

Lemma group_decrypt_call m w out out_len name_p name message_p message ctx :
  variable m PtrVar out -> variable m SizeVar out_len -> handle m name_p name ->
  bytes_at m message_p message ->
  outcome_reported [out; out_len] (delivers_bytes out out_len) m
    (group_decrypt message name (Some ctx) w)
    (signal_group_decrypt_message out out_len name_p message_p (length message) (Some store) ctx
       (m, w)).
Proof. intros Ho Hl Hn Hm. unfold signal_group_decrypt_message. prologue. by apply outcome_bytes. Qed.
End GroupCalls.

(** * The calls are the operations *)

Section Refinement.
Context {A B C D G : Type} `{BuildConfig, Crates, ProtoCodecs, Platform, !AllocLaws}.
Context {sessions : FfiSessionStoreStruct A} {identities : FfiIdentityKeyStoreStruct B}
  {prekeys : FfiPreKeyStoreStruct C} {signed_prekeys : FfiSignedPreKeyStoreStruct D}
  {sender_keys : FfiSenderKeyStoreStruct G}.

(** C15: the calls of the C interface on sessions and groups implement the operations
    of the protocol crate on the stores of the program, whatever its callbacks do.
    Given good handles, byte arrays and variables, a call leaves the stores and the
    generator as the operation does; when the operation succeeds the call answers
    null and delivers the value, as a new object or byte array; when it fails or
    panics the call answers a new error object with that error, or with the
    unexpected panic, and no other memory changes but the result variables. *)
Theorem calls_implement_operations m (w : World A B C D) (g : G * Csprng) ctx address_p address
    name_p name text_p text obj out out_len :
  handle m address_p address -> handle m name_p name -> bytes_at m text_p text ->
  variable m PtrVar obj -> variable m PtrVar out -> variable m SizeVar out_len ->
  (forall bundle_p bundle, handle m bundle_p bundle ->
     outcome_reported [] (fun m _ m' => m' = m) m
       (process_prekey_bundle address bundle (Some ctx) w)
       (signal_process_prekey_bundle bundle_p address_p (Some sessions) (Some identities) ctx (m, w))) /\
  outcome_reported [obj] (delivers_object obj) m (message_encrypt text address (Some ctx) w)
    (signal_encrypt_message obj text_p (length text) address_p (Some sessions) (Some identities)
       ctx (m, w)) /\
  (forall message_p message, handle m message_p message ->
     outcome_reported [out; out_len] (delivers_bytes out out_len) m
       (message_decrypt_signal message address (Some ctx) w)
       (signal_decrypt_message out out_len message_p address_p (Some sessions) (Some identities)
          ctx (m, w))) /\
  (forall message_p message, handle m message_p message ->
     outcome_reported [out; out_len] (delivers_bytes out out_len) m
       (message_decrypt_prekey message address (Some ctx) w)
       (signal_decrypt_pre_key_message out out_len message_p address_p (Some sessions)
          (Some identities) (Some prekeys) (Some signed_prekeys) ctx (m, w))) /\
  outcome_reported [obj] (delivers_object obj) m
    (create_sender_key_distribution_message name (Some ctx) g)
    (signal_create_sender_key_distribution_message obj name_p (Some sender_keys) ctx (m, g)) /\
  (forall message_p message, handle m message_p message ->
     outcome_reported [] (fun m _ m' => m' = m) m
       (process_sender_key_distribution_message name message (Some ctx) g)
       (signal_process_sender_key_distribution_message name_p message_p (Some sender_keys) ctx
          (m, g))) /\
  outcome_reported [out; out_len] (delivers_bytes out out_len) m
    (group_encrypt name text (Some ctx) g)
    (signal_group_encrypt_message out out_len name_p text_p (length text) (Some sender_keys) ctx
       (m, g)) /\
  outcome_reported [out; out_len] (delivers_bytes out out_len) m
    (group_decrypt text name (Some ctx) g)
    (signal_group_decrypt_message out out_len name_p text_p (length text) (Some sender_keys) ctx
       (m, g)).
Proof.
  intros Ha Hn Ht Hobj Hout Hlen. split_and!.
  - intros p b Hb. by apply process_prekey_bundle_call.
  - by apply encrypt_message_call.
  - intros p b Hb. by apply decrypt_message_call.
  - intros p b Hb. by apply decrypt_pre_key_message_call.
  - by apply create_distribution_call.
  - intros p b Hb. by apply process_distribution_call.
  - by apply group_encrypt_call.
  - by apply group_decrypt_call.
Qed.
End Refinement.

(** * First contact through the C interface *)

Section Delivered.
Context {W : Type} `{Platform, !AllocLaws}.

(** What a delivery leaves in the variables. *)
Lemma delivers_object_result {T} `{Boxable T} p m (x : T) m' :
  delivers_object p m x m' -> variable m PtrVar p ->
  exists q, m' !! p = Some (Var PtrVar q) /\ handle m' q x /\ unchanged [p] m m'.
Proof.
  intros (q & Hq & Hun & ->) Hp. exists q. pose proof (variable_unused _ _ _ _ Hp Hun).
  split_and!; [by rewrite lookup_insert_eq| |].
  - split; [done|]. by rewrite lookup_insert_ne, lookup_insert_eq.
  - etrans; [by apply unchanged_fresh|]. apply unchanged_put. set_solver.
Qed.

Lemma delivers_bytes_result out out_len m b m' :
  delivers_bytes out out_len m b m' -> variable m PtrVar out -> variable m SizeVar out_len ->
  exists q, m' !! out = Some (Var PtrVar q) /\
    m' !! out_len = Some (Var SizeVar (Z.of_nat (length b))) /\ bytes_at m' q b.
Proof.
  intros (q & Hq & Hm) Ho Hl. pose proof (variable_types _ _ _ _ _ Ho Hl ltac:(done)).
  exists q. cbv zeta in Hm. destruct (length b =? 0).
  - subst m'. split_and!; [by rewrite lookup_insert_eq| |done].
    by rewrite lookup_insert_ne, lookup_insert_eq.
  - destruct Hm as [Hun ->]. pose proof (variable_unused _ _ _ _ Hl Hun).
    split_and!; [by rewrite lookup_insert_eq| |done].
    do 2 rewrite lookup_insert_ne by done. by rewrite lookup_insert_eq.
Qed.

Lemma not_in_singleton (p q : Ptr) : p <> q -> p ∉ [q].
Proof. set_solver. Qed.

Lemma variable_unchanged_1 q m m' t p :
  unchanged [q] m m' -> variable m t p -> p <> q -> variable m' t p.
Proof. intros Hu [Hp [v Hv]] Hn. split; [done|]. exists v. by apply Hu, not_in_singleton. Qed.

Lemma handle_unchanged_1 {T} `{Boxable T} q m m' p (x : T) :
  unchanged [q] m m' -> handle m p x -> p <> q -> handle m' p x.
Proof. intros Hu [Hp Hx] Hn. split; [done|]. by apply Hu, not_in_singleton. Qed.

(** The bytes of an encrypted message. *)
Lemma ciphertext_serialize_call m (w : W) out out_len msg_p msg :
  variable m PtrVar out -> variable m SizeVar out_len -> handle m msg_p msg ->
  exists m', signal_ciphertext_message_serialize out out_len msg_p (m, w) = (Ok null, (m', w)) /\
    delivers_bytes out out_len m (CiphertextMessage.serialize msg) m'.
Proof.
  intros Ho Hl Hm.
  destruct (write_bytearray_delivers m w out out_len (CiphertextMessage.serialize msg) Ho Hl)
    as (m' & Hw & Hd).
  exists m'. split; [|done]. apply run_ffi_safe_ok.
  by rewrite (st_bind_eq _ _ _ _ _ (native_handle_cast_eq m w msg_p msg Hm)).
Qed.
End Delivered.

Section FirstContact.
Context {A B C D : Type} `{BuildConfig, Crates, ProtoCodecs, Platform, !AllocLaws}
  `{!HashLaws, !X25519Laws, !CbcLaws, !SubtleLaws, !ProtoLaws}.
Context {sessions : FfiSessionStoreStruct A} {identities : FfiIdentityKeyStoreStruct B}
  {prekeys : FfiPreKeyStoreStruct C} {signed_prekeys : FfiSignedPreKeyStoreStruct D}.
Context `{!FfiSessionStoreLaws A, !FfiIdentityKeyStoreLaws B, !FfiPreKeyStoreLaws C,
  !FfiSignedPreKeyStoreLaws D}.

(** The calls of the initiator, when the operations succeed. *)
Lemma initiator_calls (wa wa1 wa2 : World A B C D) ma address bundle ptext ctx bundle_p address_p
    ptext_p msg out out_len c :
  process_prekey_bundle address bundle (Some ctx) wa = (Ok tt, wa1) ->
  message_encrypt ptext address (Some ctx) wa1 = (Ok c, wa2) ->
  handle ma bundle_p bundle -> handle ma address_p address -> bytes_at ma ptext_p ptext ->
  variable ma PtrVar msg -> variable ma PtrVar out -> variable ma SizeVar out_len -> out <> msg ->
  exists ma1 ma2 msg_p q,
    signal_process_prekey_bundle bundle_p address_p (Some sessions) (Some identities) ctx (ma, wa)
      = (Ok null, (ma, wa1)) /\
    signal_encrypt_message msg ptext_p (length ptext) address_p (Some sessions) (Some identities)
      ctx (ma, wa1) = (Ok null, (ma1, wa2)) /\
    ma1 !! msg = Some (Var PtrVar msg_p) /\
    signal_ciphertext_message_serialize out out_len msg_p (ma1, wa2) = (Ok null, (ma2, wa2)) /\
    ma2 !! out = Some (Var PtrVar q) /\
    ma2 !! out_len = Some (Var SizeVar (Z.of_nat (length (CiphertextMessage.serialize c)))) /\
    bytes_at ma2 q (CiphertextMessage.serialize c).
Proof.
  intros Hp He Hbundle Haddr Hptext Hmsg Hout Hlen Hne.
  pose proof (process_prekey_bundle_call ma wa bundle_p bundle address_p address ctx Hbundle Haddr)
    as Hcall1. rewrite Hp in Hcall1. destruct Hcall1 as (? & Hcall1 & ->).
  pose proof (encrypt_message_call ma wa1 msg ptext_p ptext address_p address ctx Hmsg Hptext Haddr)
    as Hcall2. rewrite He in Hcall2. destruct Hcall2 as (ma1 & Hcall2 & Hdel).
  destruct (delivers_object_result _ _ _ _ Hdel Hmsg) as (msg_p & Hvar & Hhandle & Hun).
  pose proof (variable_unchanged_1 _ _ _ _ _ Hun Hout Hne) as Hout1.
  pose proof (variable_unchanged_1 _ _ _ _ _ Hun Hlen
    (not_eq_sym (variable_types _ _ _ _ _ Hmsg Hlen ltac:(done)))) as Hlen1.
  destruct (ciphertext_serialize_call ma1 wa2 out out_len msg_p _ Hout1 Hlen1 Hhandle)
    as (ma2 & Hcall3 & Hdel3).
  destruct (delivers_bytes_result _ _ _ _ _ Hdel3 Hout1 Hlen1) as (q & Hq).
  by exists ma1, ma2, msg_p, q.
Qed.

(** The calls of the responder. *)
Lemma responder_calls (wb wb1 : World A B C D) mb address m ptext ctx address_p received message
    out out_len :
  PreKeySignalMessage.try_from (PreKeySignalMessage.serialized m) = Ok m ->
  message_decrypt_prekey m address (Some ctx) wb = (Ok ptext, wb1) ->
  bytes_at mb received (PreKeySignalMessage.serialized m) -> handle mb address_p address ->
  variable mb PtrVar message -> variable mb PtrVar out -> variable mb SizeVar out_len ->
  out <> message ->
  exists mb1 mb2 message_p q,
    signal_pre_key_signal_message_deserialize message received
      (length (PreKeySignalMessage.serialized m)) (mb, wb) = (Ok null, (mb1, wb)) /\
    mb1 !! message = Some (Var PtrVar message_p) /\
    signal_decrypt_pre_key_message out out_len message_p address_p (Some sessions)
      (Some identities) (Some prekeys) (Some signed_prekeys) ctx (mb1, wb)
      = (Ok null, (mb2, wb1)) /\
    mb2 !! out = Some (Var PtrVar q) /\
    mb2 !! out_len = Some (Var SizeVar (Z.of_nat (length ptext))) /\ bytes_at mb2 q ptext.
Proof.
  intros Hwire Hd Hrecv Haddr Hmsg Hout Hlen Hne.
  destruct (deserialize_ok PreKeySignalMessage.try_from m _ mb wb message received Hwire Hrecv Hmsg)
    as (mb1 & Hcall1 & Hdel1).
  destruct (delivers_object_result _ _ _ _ Hdel1 Hmsg) as (message_p & Hvar & Hhandle & Hun).
  pose proof (variable_unchanged_1 _ _ _ _ _ Hun Hout Hne) as Hout1.
  pose proof (variable_unchanged_1 _ _ _ _ _ Hun Hlen
    (not_eq_sym (variable_types _ _ _ _ _ Hmsg Hlen ltac:(done)))) as Hlen1.
  pose proof (handle_unchanged_1 _ _ _ _ _ Hun Haddr (handle_variable_ne _ _ _ _ _ Haddr Hmsg))
    as Haddr1.
  pose proof (decrypt_pre_key_message_call mb1 wb out out_len message_p m address_p address ctx
    Hout1 Hlen1 Hhandle Haddr1) as Hcall2.
  rewrite Hd in Hcall2. destruct Hcall2 as (mb2 & Hcall2 & Hdel2).
  destruct (delivers_bytes_result _ _ _ _ _ Hdel2 Hout1 Hlen1) as (q & Hq).
  by exists mb1, mb2, message_p, q.
Qed.

(** C4: first contact through the C interface, from bundle to plaintext, with the
    message travelling as bytes between two memories.  The callbacks of both
    programs keep maps; Bob has published the bundle Alice has a handle to; each
    side trusts the other's identity, the record Alice may have for Bob has at most
    forty archived sessions, no session that Bob may have with Alice was begun with the
    base key that her generator gives next, and the key that his gives next is not his
    signed pre-key.  Then Alice's calls to process the bundle, to encrypt and to serialise the message
    answer null; wherever these bytes arrive, Bob's calls to parse and to decrypt
    them answer null and his variables hold the plaintext and its length; and the
    one-time pre-key is gone from his store. *)
Theorem first_contact_through_c (wa wb : World A B C D) ma alice_address bob_address bundle signed
    one_time ptext ctx ctx' bundle_p bob_p ptext_p msg out out_len :
  published wb bundle signed one_time -> IdentityKeyPair.matching (own_identity (World.identity_store wa)) ->
  trusted wa bob_address (IdentityKeyPair.identity_key (own_identity (World.identity_store wb))) ->
  trusted wb alice_address (IdentityKeyPair.identity_key (own_identity (World.identity_store wa))) ->
  record_bounded (loaded_record wa bob_address) ->
  open_to (loaded_record wb alice_address) (KeyPair.public_key (KeyPair.generate (World.csprng wa)).1) ->
  KeyPair.public_key (KeyPair.generate (World.csprng wb)).1 <> KeyPair.public_key signed ->
  contact_ids wa bundle ->
  handle ma bundle_p bundle -> handle ma bob_p bob_address -> bytes_at ma ptext_p ptext ->
  variable ma PtrVar msg -> variable ma PtrVar out -> variable ma SizeVar out_len -> out <> msg ->
  exists wa1 wa2 wb1 ma1 ma2 msg_p b,
    signal_process_prekey_bundle bundle_p bob_p (Some sessions) (Some identities) ctx (ma, wa)
      = (Ok null, (ma, wa1)) /\
    signal_encrypt_message msg ptext_p (length ptext) bob_p (Some sessions) (Some identities) ctx
      (ma, wa1) = (Ok null, (ma1, wa2)) /\
    ma1 !! msg = Some (Var PtrVar msg_p) /\
    signal_ciphertext_message_serialize out out_len msg_p (ma1, wa2) = (Ok null, (ma2, wa2)) /\
    (exists q, ma2 !! out = Some (Var PtrVar q) /\
       ma2 !! out_len = Some (Var SizeVar (Z.of_nat (length b))) /\ bytes_at ma2 q b) /\
    (forall mb received alice_p message bob_out bob_out_len,
       bytes_at mb received b -> handle mb alice_p alice_address -> variable mb PtrVar message ->
       variable mb PtrVar bob_out -> variable mb SizeVar bob_out_len -> bob_out <> message ->
       exists mb1 mb2 message_p q,
         signal_pre_key_signal_message_deserialize message received (length b) (mb, wb)
           = (Ok null, (mb1, wb)) /\
         mb1 !! message = Some (Var PtrVar message_p) /\
         signal_decrypt_pre_key_message bob_out bob_out_len message_p alice_p (Some sessions)
           (Some identities) (Some prekeys) (Some signed_prekeys) ctx' (mb1, wb)
           = (Ok null, (mb2, wb1)) /\
         mb2 !! bob_out = Some (Var PtrVar q) /\
         mb2 !! bob_out_len = Some (Var SizeVar (Z.of_nat (length ptext))) /\
         bytes_at mb2 q ptext) /\
    (forall id, PreKeyBundle.pre_key_id_ bundle = Some id ->
       c_pre_keys (World.pre_key_store wb1) id = None).
Proof.
  intros Hpub Hma Htra Htrb Hbound Hopen Hfresh Hids Hbundle Hbob Hptext Hmsg Hout Hlen Hne.
  destruct (first_contact wa wb alice_address bob_address bundle signed one_time ptext (Some ctx)
    (Some ctx')) as (wa1 & m & wa2 & wb1 & Hp & He & Hwire & Hd & Hgone & _); [done..|].
  destruct (initiator_calls wa wa1 wa2 ma bob_address bundle ptext ctx bundle_p bob_p ptext_p msg out
    out_len _ Hp He) as (ma1 & ma2 & msg_p & q & Hc1 & Hc2 & Hv & Hc3 & Hq); [done..|].
  exists wa1, wa2, wb1, ma1, ma2, msg_p, (PreKeySignalMessage.serialized m).
  split_and!; try done; [by exists q|].
  intros mb received alice_p message bob_out bob_out_len Hrecv ?????.
  by apply (responder_calls wb wb1 mb alice_address m); [apply Hwire|..].
Qed.
End FirstContact.
