(* ===== verification/FfiInstances.v ===== *)
(** A C program for the witnesses: an allocator that takes the first free address,
    and callbacks over finite maps. *)

From S2P Require Import Prelude Error Crates Curve IdentityKey PreKeys SessionState SenderKeys Storage.
From S2P Require Import BridgeMemory FfiUtil FfiStores FfiLaws.

(** The address after the highest in use. *)
Definition toy_address {V} (m : gmap Z V) : Z :=
  (map_fold (fun p _ a => Z.max p a) 4096 m + 1)%Z.

Definition toy_platform : Platform := {|
  alloc_address m := toy_address m;
  panic_payload := None;
|}.

Lemma toy_address_above {V} (m : gmap Z V) :
  (4096 <= map_fold (fun p (_ : V) a => Z.max p a) 4096 m)%Z /\
  forall p c, m !! p = Some c -> (p <= map_fold (fun p (_ : V) a => Z.max p a) 4096 m)%Z.
Proof.
  apply (map_fold_weak_ind (fun a (m : gmap Z V) =>
    (4096 <= a)%Z /\ forall p c, m !! p = Some c -> (p <= a)%Z)).
  - split; [done|]. by intros p c ?%lookup_empty_Some.
  - intros q d m' a Hq [Ha Hm]. split; [lia|]. intros p c.
    rewrite lookup_insert_Some. intros [[-> _]|[_ Hp]]; [lia|]. specialize (Hm p c Hp). lia.
Qed.

Lemma toy_address_fresh {V} (m : gmap Z V) : toy_address m <> 0%Z /\ m !! toy_address m = None.
Proof.
  destruct (toy_address_above m) as [Hlow Hm]. unfold toy_address. split; [lia|].
  destruct (m !! _) as [c|] eqn:Hc; [|done]. specialize (Hm _ _ Hc). lia.
Qed.

Lemma toy_alloc_laws : @AllocLaws toy_platform.
Proof. split; intros m; apply (toy_address_fresh (m : gmap Z Cell)). Qed.

(** * Callbacks over maps *)

Definition toy_sessions : FfiSessionStoreStruct (gmap ProtocolAddress SessionRecord) := {|
  load_session_cb s a ctx := (0%Z, s !! a);
  store_session_cb s a r ctx := (0%Z, <[a := r]> s);
|}.

Definition toy_pre_keys : FfiPreKeyStoreStruct (gmap Z PreKeyRecord) := {|
  load_pre_key_cb s id ctx := (0%Z, s !! id);
  store_pre_key_cb s id r ctx := (0%Z, <[id := r]> s);
  remove_pre_key_cb s id ctx := (0%Z, delete id s);
|}.

Definition toy_signed_pre_keys : FfiSignedPreKeyStoreStruct (gmap Z SignedPreKeyRecord) := {|
  load_signed_pre_key_cb s id ctx := (0%Z, s !! id);
  store_signed_pre_key_cb s id r ctx := (0%Z, <[id := r]> s);
|}.

Definition toy_sender_keys : FfiSenderKeyStoreStruct (gmap SenderKeyName SenderKeyRecord) := {|
  load_sender_key_cb s n ctx := (0%Z, s !! n, s);
  store_sender_key_cb s n r ctx := (0%Z, <[n := r]> s);
|}.

Record ToyIdentities := {
  toy_own_key : PrivateKey;
  toy_registration_id : Z;
  toy_known : gmap ProtocolAddress PublicKey;
}.

Definition toy_identities : FfiIdentityKeyStoreStruct ToyIdentities := {|
  get_identity_key_pair_cb s ctx := (0%Z, Some (toy_own_key s));
  get_local_registration_id_cb s ctx := (0%Z, toy_registration_id s);
  save_identity_cb s a k ctx :=
    (match toy_known s !! a with Some j => if decide (j = k) then 0 else 1 | None => 0 end%Z,
     Build_ToyIdentities (toy_own_key s) (toy_registration_id s) (<[a := k]> (toy_known s)));
  get_identity_cb s a ctx := (0%Z, toy_known s !! a);
  is_trusted_identity_cb s a k d ctx :=
    match toy_known s !! a with Some j => if decide (j = k) then 1 else 0 | None => 1 end%Z;
|}.

Ltac toy_insert :=
  intros; eexists; split; [reflexivity|]; cbn; split_and!; try done;
  first [by rewrite lookup_insert_eq | by rewrite lookup_delete_eq
        | intros ? ?; by first [rewrite lookup_insert_ne | rewrite lookup_delete_ne]].

Program Definition toy_sessions_laws :
    @FfiSessionStoreLaws (gmap ProtocolAddress SessionRecord) toy_sessions := {|
  c_sessions s a := s !! a;
|}.
Solve Obligations with first [done | toy_insert].

Program Definition toy_pre_keys_laws : @FfiPreKeyStoreLaws (gmap Z PreKeyRecord) toy_pre_keys := {|
  c_pre_keys s a := s !! a;
|}.
Solve Obligations with first [done | toy_insert].

Program Definition toy_signed_pre_keys_laws :
    @FfiSignedPreKeyStoreLaws (gmap Z SignedPreKeyRecord) toy_signed_pre_keys := {|
  c_signed_pre_keys s a := s !! a;
|}.
Solve Obligations with first [done | toy_insert].

Program Definition toy_sender_keys_laws :
    @FfiSenderKeyStoreLaws (gmap SenderKeyName SenderKeyRecord) toy_sender_keys := {|
  c_sender_keys s a := s !! a;
|}.
Solve Obligations with first [done | toy_insert].

Program Definition toy_identities_laws : @FfiIdentityKeyStoreLaws ToyIdentities toy_identities := {|
  c_identities s a := toy_known s !! a;
  c_own_key := toy_own_key;
  c_own_registration_id := toy_registration_id;
|}.
Solve Obligations with first [done | toy_insert].
