(* ===== verification/StoreSimulation.v ===== *)
(** The functions of the protocol crate see their stores only through the store
    interfaces: where the operations of two sets of stores answer alike and keep two
    states related, so do the functions that run on them. *)

From S2P Require Import Prelude Error Crates Curve IdentityKey Proto Protocol SessionState Ratchet PreKeys SenderKeys Storage StoreAccess.
From S2P Require Import Session SessionCipher GroupCipher.

(** Related computations answer alike from related states, and leave related states,
    also when they fail.  They need to only where the second one ends in a good state;
    a state that is not good stays so, which it says with a store that has been given
    what the first one cannot keep. *)
Definition related {W1 W2 A : Type} (R : W1 -> W2 -> Prop) (good : W2 -> Prop)
    (m1 : StateResult W1 A) (m2 : StateResult W2 A) : Prop :=
  (forall w2, good (m2 w2).2 -> good w2) /\
  forall w1 w2, R w1 w2 -> good (m2 w2).2 ->
    (m1 w1).1 = (m2 w2).1 /\ R (m1 w1).2 (m2 w2).2.

Definition always {W : Type} (w : W) : Prop := True.

(** Where every state is good, that is all. *)
Lemma related_always {W1 W2 A : Type} (R : W1 -> W2 -> Prop)
    (m1 : StateResult W1 A) (m2 : StateResult W2 A) :
  (forall w1 w2, R w1 w2 -> (m1 w1).1 = (m2 w2).1 /\ R (m1 w1).2 (m2 w2).2) ->
  related R always m1 m2.
Proof. intros Hm. split; [done|]. intros w1 w2 Hw _. by apply Hm. Qed.

Create HintDb related discriminated.

Section Related.
Context {W1 W2 : Type} (R : W1 -> W2 -> Prop) (good : W2 -> Prop).

Lemma related_ret {A} (a : A) : related R good (st_ret a) (st_ret a).
Proof. by split. Qed.

Lemma related_lift {A} (r : Result A) : related R good (st_lift r) (st_lift r).
Proof. by split. Qed.

Lemma related_bind {A B} (m1 : StateResult W1 A) m2 (k1 : A -> StateResult W1 B) k2 :
  related R good m1 m2 -> (forall a, related R good (k1 a) (k2 a)) ->
  related R good (st_bind m1 k1) (st_bind m2 k2).
Proof.
  intros [Hm Hmr] Hk. split.
  - intros w2. unfold st_bind. specialize (Hm w2). destruct (m2 w2) as [[a|e|] w2']; [|done..].
    intros Hg. by apply Hm, (Hk a).
  - intros w1 w2 Hw. unfold st_bind. specialize (Hmr w1 w2 Hw).
    destruct (m1 w1) as [r1 w1'], (m2 w2) as [r2 w2']. cbn in Hmr. destruct r2 as [a|e|].
    + intros Hg. destruct (Hmr (proj1 (Hk a) _ Hg)) as [-> Hw']. by apply Hk.
    + intros Hg. by destruct (Hmr Hg) as [-> Hw'].
    + intros Hg. by destruct (Hmr Hg) as [-> Hw'].
Qed.

(** ** Related stores *)

Class RelatedSessions `{!Stores.Sessions W1, !Stores.Sessions W2} : Prop := {
  related_load_session : forall a ctx,
    related R good (Stores.load_session a ctx) (Stores.load_session a ctx);
  related_store_session : forall a r ctx,
    related R good (Stores.store_session a r ctx) (Stores.store_session a r ctx);
}.

Class RelatedIdentities `{!Stores.Identities W1, !Stores.Identities W2} : Prop := {
  related_get_identity_key_pair : forall ctx,
    related R good (Stores.get_identity_key_pair ctx) (Stores.get_identity_key_pair ctx);
  related_get_local_registration_id : forall ctx,
    related R good (Stores.get_local_registration_id ctx) (Stores.get_local_registration_id ctx);
  related_save_identity : forall a i ctx,
    related R good (Stores.save_identity a i ctx) (Stores.save_identity a i ctx);
  related_is_trusted_identity : forall a i d ctx,
    related R good (Stores.is_trusted_identity a i d ctx) (Stores.is_trusted_identity a i d ctx);
}.

Class RelatedPreKeys `{!Stores.PreKeys W1, !Stores.PreKeys W2} : Prop := {
  related_get_pre_key : forall id ctx,
    related R good (Stores.get_pre_key id ctx) (Stores.get_pre_key id ctx);
  related_remove_pre_key : forall id ctx,
    related R good (Stores.remove_pre_key id ctx) (Stores.remove_pre_key id ctx);
}.

Class RelatedSignedPreKeys `{!Stores.SignedPreKeys W1, !Stores.SignedPreKeys W2} : Prop := {
  related_get_signed_pre_key : forall id ctx,
    related R good (Stores.get_signed_pre_key id ctx) (Stores.get_signed_pre_key id ctx);
}.

Class RelatedSenderKeys `{!Stores.SenderKeys W1, !Stores.SenderKeys W2} : Prop := {
  related_load_sender_key : forall n ctx,
    related R good (Stores.load_sender_key n ctx) (Stores.load_sender_key n ctx);
  related_store_sender_key : forall n r ctx,
    related R good (Stores.store_sender_key n r ctx) (Stores.store_sender_key n r ctx);
}.

Class RelatedRng `{Crates, !Stores.Rng W1, !Stores.Rng W2} : Prop := {
  related_with_rng : forall A (f : Csprng -> Result A * Csprng),
    related R good (Stores.with_rng f) (Stores.with_rng f);
}.
End Related.

#[export] Hint Resolve related_ret related_lift related_load_session related_store_session
  related_get_identity_key_pair related_get_local_registration_id related_save_identity
  related_is_trusted_identity related_get_pre_key related_remove_pre_key
  related_get_signed_pre_key related_load_sender_key related_store_sender_key
  related_with_rng : related.

(** Along binds, tests and matches. *)
Ltac related_step :=
  match goal with
  | |- related _ _ (st_bind _ _) (st_bind _ _) => apply related_bind; [|intros ?]
  | |- related _ _ (let '(_, _) := ?x in _) _ => destruct x
  | |- related _ _ (match ?x with _ => _ end) _ => destruct x
  | |- related _ _ _ _ => by auto with related
  end.
Ltac related := repeat (cbv zeta; related_step).

Section Functions.
Context {W1 W2 : Type} (R : W1 -> W2 -> Prop) (good : W2 -> Prop)
  `{BuildConfig, Crates, ProtoCodecs}.

Section Sessions.
Context `{RelatedSessions W1 W2 R good, !Stores.Identities W1, !Stores.Identities W2,
  !RelatedIdentities R good, !Stores.Rng W1, !Stores.Rng W2, !RelatedRng R good}.

Lemma related_process_prekey_bundle a bundle ctx :
  related R good (process_prekey_bundle a bundle ctx) (process_prekey_bundle a bundle ctx).
Proof. unfold process_prekey_bundle. related. Qed.

Lemma related_message_encrypt ptext a ctx :
  related R good (message_encrypt ptext a ctx) (message_encrypt ptext a ctx).
Proof. unfold message_encrypt. related. Qed.

Lemma related_decrypt_record record m :
  related R good (decrypt_record record m) (decrypt_record record m).
Proof. unfold decrypt_record. related. Qed.
Hint Resolve related_decrypt_record : related.

Lemma related_message_decrypt_signal m a ctx :
  related R good (message_decrypt_signal m a ctx) (message_decrypt_signal m a ctx).
Proof. unfold message_decrypt_signal. related. Qed.

Context `{!Stores.PreKeys W1, !Stores.PreKeys W2, !RelatedPreKeys R good,
  !Stores.SignedPreKeys W1, !Stores.SignedPreKeys W2, !RelatedSignedPreKeys R good}.

Lemma related_process_prekey m a record ctx :
  related R good (process_prekey m a record ctx) (process_prekey m a record ctx).
Proof. unfold process_prekey, process_prekey_v3. related. Qed.
Hint Resolve related_process_prekey : related.

Lemma related_message_decrypt_prekey m a ctx :
  related R good (message_decrypt_prekey m a ctx) (message_decrypt_prekey m a ctx).
Proof. unfold message_decrypt_prekey. related. Qed.
End Sessions.

Section Groups.
Context `{RelatedSenderKeys W1 W2 R good, !Stores.Rng W1, !Stores.Rng W2, !RelatedRng R good}.

Lemma related_on_record {A} record (m : StateResult SenderKeyRecord A) :
  related R good (on_record record m) (on_record record m).
Proof. unfold on_record. related. Qed.
Hint Resolve related_on_record : related.

Lemma related_group_encrypt n p ctx : related R good (group_encrypt n p ctx) (group_encrypt n p ctx).
Proof. unfold group_encrypt. related. Qed.

Lemma related_group_decrypt b n ctx : related R good (group_decrypt b n ctx) (group_decrypt b n ctx).
Proof. unfold group_decrypt. related. Qed.

Lemma related_process_distribution n skdm ctx :
  related R good (process_sender_key_distribution_message n skdm ctx)
    (process_sender_key_distribution_message n skdm ctx).
Proof. unfold process_sender_key_distribution_message. related. Qed.

Lemma related_create_distribution n ctx :
  related R good (create_sender_key_distribution_message n ctx)
    (create_sender_key_distribution_message n ctx).
Proof. unfold create_sender_key_distribution_message. related. Qed.
End Groups.
End Functions.
