(* ===== verification/JniUtil.v ===== *)
(** The helpers of the Java interface ([bridge/jni/src/util.rs]): the exception
    thrown for each error, the guard, the conversions of integers and arrays, the
    calls back into Java, and the macros, which are definitions that take the Rust
    function they wrap.

    The Java virtual machine and the crate [jni] are a parameter, the class
    [JNIEnv].  Its methods run on the native memory as well as on the state [J] of
    the machine, since a Java method that is called back, or a constructor, may call
    native methods of its own, and so make and destroy native objects. *)

From S2P Require Import Prelude Error Crates BridgeMemory.
From stdpp Require Import pretty.

(** * Integers: [as] between machine types *)

Definition signed (bits z : Z) : Z :=
  (let r := z mod 2 ^ bits in if r <? 2 ^ (bits - 1) then r else r - 2 ^ bits)%Z.
Definition as_u8 (z : Z) : Z := (z mod 2 ^ 8)%Z.
Definition as_i8 (z : Z) : Z := signed 8 z.
Definition as_u32 (z : Z) : Z := (z mod 2 ^ 32)%Z.
Definition as_jint (z : Z) : Z := signed 32 z.
Definition as_u64 (z : Z) : Z := (z mod 2 ^ 64)%Z.
Definition as_usize (z : Z) : Z := as_u64 z.
Definition as_jlong (z : Z) : Z := signed 64 z.

(** * The Java virtual machine *)

(** A reference to a Java object, null or not. *)
Abbreviation jobject := Z (only parsing).

(** The variants of the crate's [JValue] that the code tells apart. *)
Inductive JValue :=
  | JObject (o : jobject)
  | JInt (i : Z)
  | JLong (l : Z)
  | JBool (b : Z)
  | JOther (ty : string).

Module JNIEnv.
Class t (E J : Type) := {
  display_error : E -> string;
  type_name : JValue -> string;
  get_string : jobject -> ST E (Memory * J) string;
  new_string : string -> ST E (Memory * J) jobject;
  convert_byte_array : jobject -> ST E (Memory * J) bytes;
  new_byte_array : Z -> ST E (Memory * J) jobject;
  set_byte_array_region : jobject -> Z -> list Z -> ST E (Memory * J) unit;
  call_method : jobject -> string -> string -> list JValue -> ST E (Memory * J) JValue;
  find_class : string -> ST E (Memory * J) jobject;
  is_instance_of : jobject -> jobject -> ST E (Memory * J) bool;
  new_object : jobject -> string -> list JValue -> ST E (Memory * J) jobject;
  get_static_field : jobject -> string -> string -> ST E (Memory * J) JValue;
  exception_check : ST E (Memory * J) bool;
  exception_occurred : ST E (Memory * J) jobject;
  exception_clear : ST E (Memory * J) unit;
  throw_new : string -> string -> ST E (Memory * J) unit;
}.
End JNIEnv.
Abbreviation JNIEnv := JNIEnv.t.

(** * [SignalJniError] *)

Inductive SignalJniError {E : Type} :=
  | Signal (e : SignalProtocolError)
  | Jni (e : E)
  | BadJniParameter (class_name : string)
  | UnexpectedJniResultType (method type_name : string)
  | NullHandle
  | IntegerOverflow (msg : string)
  | UnexpectedPanic (payload : option string)
  | ExceptionDuringCallback (msg : string).
Arguments SignalJniError E : clear implicits.

Section Errors.
Context {E J : Type} `{!JNIEnv E J}.

(** [impl fmt::Display for SignalJniError]. *)
Definition jni_error_display (e : SignalJniError E) : string :=
  (match e with
   | Signal s => error_display s
   | Jni s => "JNI error " +:+ JNIEnv.display_error s
   | ExceptionDuringCallback s => "exception recieved during callback " +:+ s
   | NullHandle => "null handle"
   | BadJniParameter m => "bad parameter type " +:+ m
   | UnexpectedJniResultType m t => "calling " +:+ m +:+ " returned unexpected type " +:+ t
   | IntegerOverflow m => "integer overflow during conversion of " +:+ m
   | UnexpectedPanic (Some s) => "unexpected panic: " +:+ s
   | UnexpectedPanic None => "unknown unexpected panic"
   end)%string.

(** [SignalJniError::to_signal_protocol_error]. *)
Definition to_signal_protocol_error (e : SignalJniError E) : SignalProtocolError :=
  match e with
  | Signal e => e
  | Jni e => FfiBindingError (JNIEnv.display_error e)
  | BadJniParameter m => InvalidArgument m
  | _ => FfiBindingError (jni_error_display e)
  end.

(** [From<SignalJniError> for SignalProtocolError]. *)
Definition signal_from_jni (err : SignalJniError E) : SignalProtocolError :=
  match err with
  | Signal e => e
  | Jni e => FfiBindingError (JNIEnv.display_error e)
  | BadJniParameter m => InvalidArgument m
  | _ => FfiBindingError (jni_error_display err)
  end.

(** The class of the exception that [throw_error] throws. *)
Definition exception_type (error : SignalJniError E) : string :=
  match error with
  | NullHandle => "java/lang/NullPointerException"
  | UnexpectedPanic _ => "java/lang/AssertionError"
  | BadJniParameter _ => "java/lang/AssertionError"
  | UnexpectedJniResultType _ _ => "java/lang/AssertionError"
  | IntegerOverflow _ => "java/lang/RuntimeException"
  | ExceptionDuringCallback _ => "java/lang/RuntimeException"
  | Signal (DuplicatedMessage _ _) => "org/whispersystems/libsignal/DuplicateMessageException"
  | Signal InvalidPreKeyId | Signal InvalidSignedPreKeyId | Signal InvalidSenderKeyId =>
      "org/whispersystems/libsignal/InvalidKeyIdException"
  | Signal NoKeyTypeIdentifier | Signal SignatureValidationFailed | Signal (BadKeyType _)
  | Signal (BadKeyLength _ _) => "org/whispersystems/libsignal/InvalidKeyException"
  | Signal SessionNotFound => "org/whispersystems/libsignal/NoSessionException"
  | Signal (InvalidMessage _) | Signal (CiphertextMessageTooShort _)
  | Signal (UnrecognizedCiphertextVersion _) | Signal (UnrecognizedMessageVersion _)
  | Signal InvalidCiphertext | Signal InvalidProtobufEncoding =>
      "org/whispersystems/libsignal/InvalidMessageException"
  | Signal (LegacyCiphertextVersion _) => "org/whispersystems/libsignal/LegacyMessageException"
  | Signal (UntrustedIdentity _) => "org/whispersystems/libsignal/UntrustedIdentityException"
  | Signal (InvalidState _ _) | Signal NoSenderKeyState | Signal InvalidSessionStructure =>
      "java/lang/IllegalStateException"
  | Signal (InvalidArgument _) => "java/lang/IllegalArgumentException"
  | Signal _ => "java/lang/RuntimeException"
  | Jni _ => "java/lang/RuntimeException"
  end.

(** Its message. *)
Definition error_string (error : SignalJniError E) : string :=
  match error with
  | Signal (UntrustedIdentity addr) => ProtocolAddress.name addr
  | e => jni_error_display e
  end.
End Errors.

(** * Computations *)

Abbreviation JniM E := (Native (SignalJniError E)).

Section Util.
Context {E J : Type} `{!JNIEnv E J, Platform}.

(** [?] on a method of [JNIEnv], through [From]. *)
Definition jni {A} (m : ST E (Memory * J) A) : JniM E J A :=
  fun s =>
    match m s with
    | (Ok a, s) => (Ok a, s)
    | (Err e, s) => (Err (Fail (Jni e)), s)
    | (Panic, s) => (Panic, s)
    end.

(** [?] on a call into the protocol crate, through [From]. *)
Definition signal {A} (r : Result A) : JniM E J A :=
  match r with
  | Ok a => st_ret a
  | Err e => fail (Signal e)
  | Panic => st_lift Panic
  end.

(** [Result::ok], and [if let Ok(x) = ..]. *)
Definition result_ok {A} (m : JniM E J A) : JniM E J (option A) :=
  fun s =>
    match m s with
    | (Ok a, s) => (Ok (Some a), s)
    | (Err (Fail _), s) => (Ok None, s)
    | (Err Undefined, s) => (Err Undefined, s)
    | (Panic, s) => (Panic, s)
    end.

Definition throw_error (error : SignalJniError E) : JniM E J unit :=
  let! _ := result_ok (jni (JNIEnv.throw_new (exception_type error) (error_string error))) in
  st_ret tt.

Definition native_handle_cast (T : Type) `{Boxable T} (handle : Ptr) : JniM E J T :=
  if (handle =? 0)%Z then fail NullHandle else deref_object T handle.

Definition native_handle_cast_optional (T : Type) `{Boxable T} (handle : Ptr)
    : JniM E J (option T) :=
  if (handle =? 0)%Z then st_ret None
  else let! x := deref_object T handle in st_ret (Some x).

(** [JniDummyValue]: an [ObjectHandle], a [jint], a [jboolean] and a reference are
    numbers here, the null reference 0. *)
Class JniDummyValue (R : Type) := { dummy_value : R }.
#[global] Instance dummy_number : JniDummyValue Z := { dummy_value := 0%Z }.
#[global] Instance dummy_unit : JniDummyValue unit := { dummy_value := tt }.

Definition run_ffi_safe {R} `{JniDummyValue R} (f : JniM E J R) : JniM E J R :=
  fun s =>
    match f s with
    | (Ok r, s) => (Ok r, s)
    | (Err (Fail e), s) => (let! _ := throw_error e in st_ret dummy_value) s
    | (Panic, s) => (let! _ := throw_error (UnexpectedPanic panic_payload) in st_ret dummy_value) s
    | (Err Undefined, s) => (Err Undefined, s)
    end.

(** A function of the protocol crate runs on the native memory, the machine, and a
    flag: undefined behaviour in a store that it is given is its own way to end,
    which the flag tells from a panic. *)
Abbreviation CallState := (Memory * J * bool)%type.

(** [Ok(self.do_..(..)?)] in a store, whose errors go through [From]. *)
Definition in_store {A} (m : JniM E J A) : StateResult CallState A :=
  fun '(s, u) =>
    match m s with
    | (Ok a, s) => (Ok a, (s, u))
    | (Err (Fail e), s) => (Err (signal_from_jni e), (s, u))
    | (Err Undefined, s) => (Panic, (s, true))
    | (Panic, s) => (Panic, (s, u))
    end.

(** [expect_ready]: the futures of the stores are ready when first polled. *)
Definition expect_ready {A} (m : StateResult CallState A) : JniM E J (Result A) :=
  fun s =>
    let '(r, (s, u)) := m (s, false) in
    if u then (Err Undefined, s) else evaluate r s.

Definition box_object {T} `{Boxable T} (t : Result T) : JniM E J Ptr :=
  match t with
  | Ok t => box_into_raw t
  | Err e => fail (Signal e)
  | Panic => st_lift Panic
  end.

(** The length is cut to 32 bits, and the bytes are the Java ones, which are signed. *)
Definition to_jbytearray (data : Result bytes) : JniM E J jobject :=
  let! data := signal data in
  let! out := jni (JNIEnv.new_byte_array (as_jint (Z.of_nat (length data)))) in
  let buf := map (fun i => as_i8 (u8_val i)) data in
  let! _ := jni (JNIEnv.set_byte_array_region out 0 buf) in
  st_ret out.

Definition jint_to_u32 (v : Z) : JniM E J Z :=
  if (v <? 0)%Z then fail (IntegerOverflow (pretty v +:+ " to u32")) else st_ret (as_u32 v).

Definition jint_to_u8 (v : Z) : JniM E J Z :=
  if ((0 <=? v) && (v <=? 255))%Z then st_ret v
  else fail (IntegerOverflow (pretty v +:+ " to u8")).

Definition jint_from_u32 (value : Result Z) : JniM E J Z :=
  match value with
  | Ok value =>
      let result := as_jint value in
      if negb (as_u32 result =? value)%Z
      then fail (IntegerOverflow (pretty value +:+ " to jint"))
      else st_ret result
  | Err e => fail (Signal e)
  | Panic => st_lift Panic
  end.

Definition jlong_from_u64 (value : Result Z) : JniM E J Z :=
  match value with
  | Ok value =>
      let result := as_jlong value in
      if negb (as_u64 result =? value)%Z
      then fail (IntegerOverflow (pretty value +:+ " to jlong"))
      else st_ret result
  | Err e => fail (Signal e)
  | Panic => st_lift Panic
  end.

(** * Calls back into Java *)

Definition exception_class_name (exn : jobject) : JniM E J string :=
  let! class_type := jni (JNIEnv.call_method exn "getClass" "()Ljava/lang/Class;" []) in
  match class_type with
  | JObject class_type =>
      let! class_name :=
        jni (JNIEnv.call_method class_type "getCanonicalName" "()Ljava/lang/String;" []) in
      match class_name with
      | JObject class_name => jni (JNIEnv.get_string class_name)
      | v => fail (UnexpectedJniResultType "getCanonicalName" (JNIEnv.type_name v))
      end
  | v => fail (UnexpectedJniResultType "getClass" (JNIEnv.type_name v))
  end.

Definition exception_check (fn_name : string) : JniM E J unit :=
  let! pending := jni JNIEnv.exception_check in
  if pending : bool then
    let! throwable := jni JNIEnv.exception_occurred in
    let! _ := jni JNIEnv.exception_clear in
    let! exn_type := result_ok (exception_class_name throwable) in
    let! jmessage :=
      result_ok (jni (JNIEnv.call_method throwable "getMessage" "()Ljava/lang/String;" [])) in
    match jmessage with
    | Some (JObject o) =>
        let! message := jni (JNIEnv.get_string o) in
        fail (Signal (ApplicationCallbackThrewException fn_name exn_type message))
    | _ =>
        fail (Signal (ApplicationCallbackThrewException fn_name exn_type
          "<exception did not implement getMessage>"))
    end
  else st_ret tt.

Definition check_jobject_type (obj : jobject) (class_name : string) : JniM E J unit :=
  if (obj =? 0)%Z then fail NullHandle
  else
    let! class := jni (JNIEnv.find_class class_name) in
    let! instance := jni (JNIEnv.is_instance_of obj class) in
    if negb instance then fail (BadJniParameter class_name) else st_ret tt.

Definition get_object_with_native_handle (T : Type) `{Boxable T} (store_obj : jobject)
    (callback_args : list JValue) (callback_sig callback_fn : string) : JniM E J (option T) :=
  let! rvalue := jni (JNIEnv.call_method store_obj callback_fn callback_sig callback_args) in
  let! _ := exception_check callback_fn in
  let! obj :=
    match rvalue with
    | JObject o => st_ret o
    | v => fail (UnexpectedJniResultType callback_fn (JNIEnv.type_name v))
    end in
  if (obj =? 0)%Z then st_ret None
  else
    let! handle := jni (JNIEnv.call_method obj "nativeHandle" "()J" []) in
    let! _ := exception_check "nativeHandle" in
    match handle with
    | JLong handle =>
        if (handle =? 0)%Z then st_ret None
        else let! object := native_handle_cast T handle in st_ret (Some object)
    | v => fail (UnexpectedJniResultType "nativeHandle" (JNIEnv.type_name v))
    end.

Definition get_object_with_serialization (store_obj : jobject) (callback_args : list JValue)
    (callback_sig callback_fn : string) : JniM E J (option bytes) :=
  let! rvalue := jni (JNIEnv.call_method store_obj callback_fn callback_sig callback_args) in
  let! _ := exception_check callback_fn in
  let! obj :=
    match rvalue with
    | JObject o => st_ret o
    | v => fail (UnexpectedJniResultType callback_fn (JNIEnv.type_name v))
    end in
  if (obj =? 0)%Z then st_ret None
  else
    let! bytes := jni (JNIEnv.call_method obj "serialize" "()[B" []) in
    let! _ := exception_check "serialize" in
    match bytes with
    | JObject o => let! b := jni (JNIEnv.convert_byte_array o) in st_ret (Some b)
    | v => fail (UnexpectedJniResultType "serialize" (JNIEnv.type_name v))
    end.

Definition jobject_from_serialized (class_name : string) (serialized : bytes)
    : JniM E J jobject :=
  let! class_type := jni (JNIEnv.find_class class_name) in
  let! array := to_jbytearray (Ok serialized) in
  jni (JNIEnv.new_object class_type "([B)V" [JObject array]).

Definition jobject_from_native_handle (class_name : string) (boxed_handle : Ptr)
    : JniM E J jobject :=
  let! class_type := jni (JNIEnv.find_class class_name) in
  jni (JNIEnv.new_object class_type "(J)V" [JLong boxed_handle]).

(** * The macros *)

Definition jni_fn_deserialize {T} `{Boxable T} (func : bytes -> Result T) (data : jobject)
    : JniM E J Ptr :=
  run_ffi_safe
    (let! data := jni (JNIEnv.convert_byte_array data) in
     let! t := evaluate (func data) in
     box_object t).

Definition jni_fn_get_new_boxed_obj {R T} `{Boxable R, Boxable T} (body : T -> Result R)
    (handle : Ptr) : JniM E J Ptr :=
  run_ffi_safe
    (let! obj := native_handle_cast T handle in
     let! r := evaluate (body obj) in
     box_object r).

Definition jni_fn_get_new_boxed_optional_obj {R T} `{Boxable R, Boxable T}
    (body : T -> Result (option R)) (handle : Ptr) : JniM E J Ptr :=
  run_ffi_safe
    (let! obj := native_handle_cast T handle in
     let! result := signal (body obj) in
     match result with
     | Some result => box_object (Ok result)
     | None => st_ret 0%Z
     end).

Definition jni_fn_get_jint {T} `{Boxable T} (body : T -> Result Z) (handle : Ptr)
    : JniM E J Z :=
  run_ffi_safe
    (let! obj := native_handle_cast T handle in
     let! r := evaluate (body obj) in
     jint_from_u32 r).

Definition jni_fn_get_jboolean {T} `{Boxable T} (body : T -> Result bool) (handle : Ptr)
    : JniM E J Z :=
  run_ffi_safe
    (let! obj := native_handle_cast T handle in
     let! r := signal (body obj) in
     st_ret (Z.b2z r)).

Definition jni_fn_get_jstring {T} `{Boxable T} (body : T -> Result string) (handle : Ptr)
    : JniM E J jobject :=
  run_ffi_safe
    (let! obj := native_handle_cast T handle in
     let! s := signal (body obj) in
     jni (JNIEnv.new_string s)).

Definition jni_fn_get_jbytearray {T} `{Boxable T} (body : T -> Result bytes) (handle : Ptr)
    : JniM E J jobject :=
  run_ffi_safe
    (let! obj := native_handle_cast T handle in
     let! r := evaluate (body obj) in
     to_jbytearray r).

(** Not behind the guard. *)
Definition jni_fn_destroy (T : Type) `{Boxable T} (handle : Ptr) : JniM E J unit :=
  if negb (handle =? 0)%Z then box_drop T handle else st_ret tt.
End Util.
