(* ===== verification/JniStores.v ===== *)
(** The stores of the Java interface ([bridge/jni/src/lib.rs]): each is a Java
    object, and implements the store trait of the protocol crate by calling its
    methods, with arguments that it makes out of the Rust values.

    All stores share one virtual machine: a store is a reference, and its
    operations run on the native memory and the machine. *)

From S2P Require Import Prelude Error Crates Curve IdentityKey Proto PreKeys SessionState SenderKeys Storage StoreAccess.
From S2P Require Import BridgeMemory JniUtil.

Section Conversions.
Context {E J : Type} `{!JNIEnv E J, Platform}.

Definition sender_key_name_to_jobject (sender_key_name : SenderKeyName) : JniM E J jobject :=
  let! sender_key_name_class :=
    jni (JNIEnv.find_class "org/whispersystems/libsignal/groups/SenderKeyName") in
  let! group_id := signal (SenderKeyName.group_id sender_key_name) in
  let! group_id := jni (JNIEnv.new_string group_id) in
  let! sender_name := signal (SenderKeyName.sender_name sender_key_name) in
  let! sender_name := jni (JNIEnv.new_string sender_name) in
  let! sender_device_id := jint_from_u32 (SenderKeyName.sender_device_id sender_key_name) in
  let sender_key_name_ctor_args := [JObject group_id; JObject sender_name; JInt sender_device_id] in
  let sender_key_name_ctor_sig := "(Ljava/lang/String;Ljava/lang/String;I)V" in
  jni (JNIEnv.new_object sender_key_name_class sender_key_name_ctor_sig sender_key_name_ctor_args).

Definition protocol_address_to_jobject (address : ProtocolAddress) : JniM E J jobject :=
  let! address_class :=
    jni (JNIEnv.find_class "org/whispersystems/libsignal/SignalProtocolAddress") in
  let! name := jni (JNIEnv.new_string (ProtocolAddress.name address)) in
  let! device_id := jint_from_u32 (Ok (ProtocolAddress.device_id address)) in
  let address_ctor_args := [JObject name; JInt device_id] in
  let address_ctor_sig := "(Ljava/lang/String;I)V" in
  jni (JNIEnv.new_object address_class address_ctor_sig address_ctor_args).

(** [match result { JValue::Bool(b) => Ok(b != 0), _ => Err(..) }]. *)
Definition bool_result (callback_fn : string) (result : JValue) : JniM E J bool :=
  match result with
  | JBool b => st_ret (negb (b =? 0)%Z)
  | v => fail (UnexpectedJniResultType callback_fn (JNIEnv.type_name v))
  end.
End Conversions.

(** * Identities *)

Class JniIdentityKeyStore := { identity_store_object : jobject }.

Module JniIdentityKeyStore.
Section Operations.
Context {E J : Type} `{!JNIEnv E J, Platform, Crates, ProtoCodecs}.

Definition new (store : jobject) : JniM E J JniIdentityKeyStore :=
  let! _ := check_jobject_type store "org/whispersystems/libsignal/state/IdentityKeyStore" in
  st_ret {| identity_store_object := store |}.

Context `{self : JniIdentityKeyStore}.

Definition do_get_identity_key_pair : JniM E J IdentityKeyPair :=
  let callback_sig := "()Lorg/whispersystems/libsignal/IdentityKeyPair;" in
  let! bits :=
    get_object_with_serialization identity_store_object [] callback_sig "getIdentityKeyPair" in
  match bits with
  | None => fail (Signal (InternalError "getIdentityKeyPair returned null"))
  | Some k => signal (IdentityKeyPair.try_from k)
  end.

Definition do_get_local_registration_id : JniM E J Z :=
  let callback_sig := "()I" in
  let! rvalue :=
    jni (JNIEnv.call_method identity_store_object "getLocalRegistrationId" callback_sig []) in
  let! _ := exception_check "getLocalRegistrationId" in
  match rvalue with
  | JInt i => jint_to_u32 i
  | v => fail (UnexpectedJniResultType "getLocalRegistrationId" (JNIEnv.type_name v))
  end.

Definition do_save_identity (address : ProtocolAddress) (identity : IdentityKey)
    : JniM E J bool :=
  let! address_jobject := protocol_address_to_jobject address in
  let! key_jobject := jobject_from_serialized "org/whispersystems/libsignal/IdentityKey"
    (IdentityKey.serialize identity) in
  let callback_sig := "(Lorg/whispersystems/libsignal/SignalProtocolAddress;Lorg/whispersystems/libsignal/IdentityKey;)Z" in
  let callback_args := [JObject address_jobject; JObject key_jobject] in
  let! result :=
    jni (JNIEnv.call_method identity_store_object "saveIdentity" callback_sig callback_args) in
  let! _ := exception_check "saveIdentity" in
  bool_result "saveIdentity" result.

Definition do_is_trusted_identity (address : ProtocolAddress) (identity : IdentityKey)
    (direction : Direction) : JniM E J bool :=
  let! address_jobject := protocol_address_to_jobject address in
  let! key_jobject := jobject_from_serialized "org/whispersystems/libsignal/IdentityKey"
    (IdentityKey.serialize identity) in
  let! direction_class :=
    jni (JNIEnv.find_class "org/whispersystems/libsignal/state/IdentityKeyStore$Direction") in
  let field_name := match direction with Sending => "SENDING" | Receiving => "RECEIVING" end in
  let! field_value := jni (JNIEnv.get_static_field direction_class field_name
    "Lorg/whispersystems/libsignal/state/IdentityKeyStore$Direction;") in
  let callback_sig := "(Lorg/whispersystems/libsignal/SignalProtocolAddress;Lorg/whispersystems/libsignal/IdentityKey;Lorg/whispersystems/libsignal/state/IdentityKeyStore$Direction;)Z" in
  let callback_args := [JObject address_jobject; JObject key_jobject; field_value] in
  let! result :=
    jni (JNIEnv.call_method identity_store_object "isTrustedIdentity" callback_sig callback_args) in
  let! _ := exception_check "isTrustedIdentity" in
  bool_result "isTrustedIdentity" result.

Definition do_get_identity (address : ProtocolAddress) : JniM E J (option IdentityKey) :=
  let! address_jobject := protocol_address_to_jobject address in
  let callback_sig := "(Lorg/whispersystems/libsignal/SignalProtocolAddress;)Lorg/whispersystems/libsignal/IdentityKey;" in
  let callback_args := [JObject address_jobject] in
  let! bits :=
    get_object_with_serialization identity_store_object callback_args callback_sig "getIdentity" in
  match bits with
  | None => st_ret None
  | Some k => let! i := signal (IdentityKey.decode k) in st_ret (Some i)
  end.

#[global] Instance store : Stores.Identities (Memory * J * bool) := {
  Stores.get_identity_key_pair _ctx := in_store do_get_identity_key_pair;
  Stores.get_local_registration_id _ctx := in_store do_get_local_registration_id;
  Stores.save_identity address identity _ctx := in_store (do_save_identity address identity);
  Stores.is_trusted_identity address identity direction _ctx :=
    in_store (do_is_trusted_identity address identity direction);
  Stores.get_identity address _ctx := in_store (do_get_identity address);
}.
End Operations.
End JniIdentityKeyStore.

(** * Pre-keys *)

Class JniPreKeyStore := { pre_key_store_object : jobject }.

Module JniPreKeyStore.
Section Operations.
Context {E J : Type} `{!JNIEnv E J, Platform, Crates, ProtoCodecs}.

Definition new (store : jobject) : JniM E J JniPreKeyStore :=
  let! _ := check_jobject_type store "org/whispersystems/libsignal/state/PreKeyStore" in
  st_ret {| pre_key_store_object := store |}.

Context `{self : JniPreKeyStore}.

Definition do_get_pre_key (prekey_id : Z) : JniM E J PreKeyRecord :=
  let callback_sig := "(I)Lorg/whispersystems/libsignal/state/PreKeyRecord;" in
  let! id := jint_from_u32 (Ok prekey_id) in
  let callback_args := [JInt id] in
  let! pk := get_object_with_native_handle PreKeyRecord pre_key_store_object callback_args
    callback_sig "loadPreKey" in
  match pk with
  | Some pk => st_ret pk
  | None => fail (Signal InvalidPreKeyId)
  end.

Definition do_save_pre_key (prekey_id : Z) (record : PreKeyRecord) : JniM E J unit :=
  let! bits := signal (PreKeyRecord.serialize record) in
  let! jobject_record :=
    jobject_from_serialized "org/whispersystems/libsignal/state/PreKeyRecord" bits in
  let callback_sig := "(I,Lorg/whispersystems/libsignal/state/PreKeyRecord;)V" in
  let! id := jint_from_u32 (Ok prekey_id) in
  let callback_args := [JInt id; JObject jobject_record] in
  let! _ :=
    jni (JNIEnv.call_method pre_key_store_object "storePreKey" callback_sig callback_args) in
  exception_check "storePreKey".

Definition do_remove_pre_key (prekey_id : Z) : JniM E J unit :=
  let callback_sig := "(I)V" in
  let! id := jint_from_u32 (Ok prekey_id) in
  let callback_args := [JInt id] in
  let! _ :=
    jni (JNIEnv.call_method pre_key_store_object "removePreKey" callback_sig callback_args) in
  exception_check "removePreKey".

#[global] Instance store : Stores.PreKeys (Memory * J * bool) := {
  Stores.get_pre_key prekey_id _ctx := in_store (do_get_pre_key prekey_id);
  Stores.save_pre_key prekey_id record _ctx := in_store (do_save_pre_key prekey_id record);
  Stores.remove_pre_key prekey_id _ctx := in_store (do_remove_pre_key prekey_id);
}.
End Operations.
End JniPreKeyStore.

Class JniSignedPreKeyStore := { signed_pre_key_store_object : jobject }.

Module JniSignedPreKeyStore.
Section Operations.
Context {E J : Type} `{!JNIEnv E J, Platform, Crates, ProtoCodecs}.

Definition new (store : jobject) : JniM E J JniSignedPreKeyStore :=
  let! _ := check_jobject_type store "org/whispersystems/libsignal/state/SignedPreKeyStore" in
  st_ret {| signed_pre_key_store_object := store |}.

Context `{self : JniSignedPreKeyStore}.

Definition do_get_signed_pre_key (prekey_id : Z) : JniM E J SignedPreKeyRecord :=
  let callback_sig := "(I)Lorg/whispersystems/libsignal/state/SignedPreKeyRecord;" in
  let! id := jint_from_u32 (Ok prekey_id) in
  let callback_args := [JInt id] in
  let! spk := get_object_with_native_handle SignedPreKeyRecord signed_pre_key_store_object
    callback_args callback_sig "loadSignedPreKey" in
  match spk with
  | Some spk => st_ret spk
  | None => fail (Signal InvalidSignedPreKeyId)
  end.

Definition do_save_signed_pre_key (prekey_id : Z) (record : SignedPreKeyRecord)
    : JniM E J unit :=
  let! bits := signal (SignedPreKeyRecord.serialize record) in
  let! jobject_record :=
    jobject_from_serialized "org/whispersystems/libsignal/state/SignedPreKeyRecord" bits in
  let callback_sig := "(I,Lorg/whispersystems/libsignal/state/SignedPreKeyRecord;)V" in
  let! id := jint_from_u32 (Ok prekey_id) in
  let callback_args := [JInt id; JObject jobject_record] in
  let! _ := jni (JNIEnv.call_method signed_pre_key_store_object "storeSignedPreKey" callback_sig
    callback_args) in
  exception_check "storeSignedPreKey".

#[global] Instance store : Stores.SignedPreKeys (Memory * J * bool) := {
  Stores.get_signed_pre_key prekey_id _ctx := in_store (do_get_signed_pre_key prekey_id);
  Stores.save_signed_pre_key prekey_id record _ctx :=
    in_store (do_save_signed_pre_key prekey_id record);
}.
End Operations.
End JniSignedPreKeyStore.

(** * Sessions *)

Class JniSessionStore := { session_store_object : jobject }.

Module JniSessionStore.
Section Operations.
Context {E J : Type} `{!JNIEnv E J, Platform, Crates, ProtoCodecs}.

Definition new (store : jobject) : JniM E J JniSessionStore :=
  let! _ := check_jobject_type store "org/whispersystems/libsignal/state/SessionStore" in
  st_ret {| session_store_object := store |}.

Context `{self : JniSessionStore}.

Definition do_load_session (address : ProtocolAddress) : JniM E J (option SessionRecord) :=
  let! address_jobject := protocol_address_to_jobject address in
  let callback_sig := "(Lorg/whispersystems/libsignal/SignalProtocolAddress;)Lorg/whispersystems/libsignal/state/SessionRecord;" in
  let callback_args := [JObject address_jobject] in
  let! session :=
    get_object_with_serialization session_store_object callback_args callback_sig "loadSession" in
  match session with
  | None => st_ret None
  | Some s => let! r := signal (SessionRecord.deserialize s) in st_ret (Some r)
  end.

Definition do_store_session (address : ProtocolAddress) (record : SessionRecord)
    : JniM E J unit :=
  let! address_jobject := protocol_address_to_jobject address in
  let! bits := signal (SessionRecord.serialize record) in
  let! session_jobject :=
    jobject_from_serialized "org/whispersystems/libsignal/state/SessionRecord" bits in
  let callback_sig := "(Lorg/whispersystems/libsignal/SignalProtocolAddress;Lorg/whispersystems/libsignal/state/SessionRecord;)V" in
  let callback_args := [JObject address_jobject; JObject session_jobject] in
  let! _ :=
    jni (JNIEnv.call_method session_store_object "storeSession" callback_sig callback_args) in
  exception_check "storeSession".

#[global] Instance store : Stores.Sessions (Memory * J * bool) := {
  Stores.load_session address _ctx := in_store (do_load_session address);
  Stores.store_session address record _ctx := in_store (do_store_session address record);
}.
End Operations.
End JniSessionStore.

(** * Sender keys *)

Class JniSenderKeyStore := { sender_key_store_object : jobject }.

Module JniSenderKeyStore.
Section Operations.
Context {E J : Type} `{!JNIEnv E J, Platform, Crates, ProtoCodecs}.

Definition new (store : jobject) : JniM E J JniSenderKeyStore :=
  let! _ := check_jobject_type store "org/whispersystems/libsignal/groups/state/SenderKeyStore" in
  st_ret {| sender_key_store_object := store |}.

Context `{self : JniSenderKeyStore}.

Definition do_store_sender_key (sender_key_name : SenderKeyName) (record : SenderKeyRecord)
    : JniM E J unit :=
  let! sender_key_name_jobject := sender_key_name_to_jobject sender_key_name in
  let! boxed := box_object (Ok record) in
  let! sender_key_record_jobject :=
    jobject_from_native_handle "org/whispersystems/libsignal/groups/state/SenderKeyRecord" boxed in
  let callback_args := [JObject sender_key_name_jobject; JObject sender_key_record_jobject] in
  let callback_sig := "(Lorg/whispersystems/libsignal/groups/SenderKeyName;Lorg/whispersystems/libsignal/groups/state/SenderKeyRecord;)V" in
  let! _ :=
    jni (JNIEnv.call_method sender_key_store_object "storeSenderKey" callback_sig callback_args) in
  exception_check "storeSenderKey".

Definition do_load_sender_key (sender_key_name : SenderKeyName)
    : JniM E J (option SenderKeyRecord) :=
  let! sender_key_name_jobject := sender_key_name_to_jobject sender_key_name in
  let callback_args := [JObject sender_key_name_jobject] in
  let callback_sig := "(Lorg/whispersystems/libsignal/groups/SenderKeyName;)Lorg/whispersystems/libsignal/groups/state/SenderKeyRecord;" in
  get_object_with_native_handle SenderKeyRecord sender_key_store_object callback_args callback_sig
    "loadSenderKey".

#[global] Instance store : Stores.SenderKeys (Memory * J * bool) := {
  Stores.store_sender_key sender_key_name record _ctx :=
    in_store (do_store_sender_key sender_key_name record);
  Stores.load_sender_key sender_key_name _ctx := in_store (do_load_sender_key sender_key_name);
}.
End Operations.
End JniSenderKeyStore.

(** * The generator of the operating system, which Java code may use as well *)

Class OsRng (J : Type) `{Crates} := {
  os_rng : J -> Csprng;
  set_os_rng : Csprng -> J -> J;
}.

Section Random.
Context {E J : Type} `{OsRng J}.

#[global] Instance jni_rng : Stores.Rng (Memory * J * bool) := {
  Stores.with_rng A f := fun '((m, j), u) =>
    let '(r, c) := f (os_rng j) in (r, ((m, set_os_rng c j), u));
}.

(** A function that is given [OsRng]. *)
Definition with_os_rng {A} (f : Csprng -> Result A * Csprng) : JniM E J (Result A) :=
  fun s => let '(r, c) := f (os_rng s.2) in evaluate r (s.1, set_os_rng c s.2).
End Random.
