(* ===== verification/JniEntry.v ===== *)
(** The entry points of the Java interface on addresses, keys, fingerprints,
    messages and records ([bridge/jni/src/lib.rs]): the native methods of the class
    [org.signal.client.internal.Native], without the prefix
    [Java_org_signal_client_internal_Native_] of their symbols. *)

From S2P Require Import Prelude Error Crates Crypto Curve IdentityKey Proto Protocol PreKeys SessionState SenderKeys.
From S2P Require Import Fingerprint StoreAccess BridgeMemory JniUtil JniStores.

Module Native.
Section Entry.
Context {E J : Type} `{!JNIEnv E J, Platform, BuildConfig, Crates, ProtoCodecs}.

(** * Addresses *)

Definition ProtocolAddress_New (name : jobject) (device_id : Z) : JniM E J Ptr :=
  run_ffi_safe
    (let! name := jni (JNIEnv.get_string name) in
     let! device_id := jint_to_u32 device_id in
     let address := ProtocolAddress.new name device_id in
     box_object (Ok address)).

Definition ProtocolAddress_Destroy : Ptr -> JniM E J unit := jni_fn_destroy ProtocolAddress.
Definition ProtocolAddress_Name : Ptr -> JniM E J jobject :=
  jni_fn_get_jstring (fun p => Ok (ProtocolAddress.name p)).
Definition ProtocolAddress_DeviceId : Ptr -> JniM E J Z :=
  jni_fn_get_jint (fun obj => Ok (ProtocolAddress.device_id obj)).

(** * Keys *)

(** [&data\[offset..\]] panics when the offset is past the end. *)
Definition ECPublicKey_Deserialize (data : jobject) (offset : Z) : JniM E J Ptr :=
  run_ffi_safe
    (let! offset := jint_to_u32 offset in
     let! data := jni (JNIEnv.convert_byte_array data) in
     if (Z.of_nat (length data) <? offset)%Z then st_lift Panic
     else
       let! key := signal (PublicKey.deserialize (drop (Z.to_nat offset) data)) in
       box_object (Ok key)).

Definition ECPublicKey_Compare (key1 key2 : Ptr) : JniM E J Z :=
  run_ffi_safe
    (let! key1 := native_handle_cast PublicKey key1 in
     let! key2 := native_handle_cast PublicKey key2 in
     let! ord := signal (PublicKey.cmp key1 key2) in
     st_ret (match ord with Lt => -1 | Eq => 0 | Gt => 1 end)%Z).

Definition ECPublicKey_Serialize : Ptr -> JniM E J jobject :=
  jni_fn_get_jbytearray (fun k => Ok (PublicKey.serialize k)).
Definition ECPublicKey_GetPublicKeyBytes : Ptr -> JniM E J jobject :=
  jni_fn_get_jbytearray PublicKey.public_key_bytes.

Definition ECPublicKey_Verify (handle : Ptr) (message signature : jobject) : JniM E J Z :=
  run_ffi_safe
    (let! key := native_handle_cast PublicKey handle in
     let! message := jni (JNIEnv.convert_byte_array message) in
     let! signature := jni (JNIEnv.convert_byte_array signature) in
     let! valid := signal (PublicKey.verify_signature key message signature) in
     st_ret (Z.b2z valid)).

Definition ECPublicKey_Destroy : Ptr -> JniM E J unit := jni_fn_destroy PublicKey.

Definition ECPrivateKey_Deserialize : jobject -> JniM E J Ptr :=
  jni_fn_deserialize PrivateKey.deserialize.
Definition ECPrivateKey_Serialize : Ptr -> JniM E J jobject :=
  jni_fn_get_jbytearray (fun k => Ok (PrivateKey.serialize k)).

Definition ECPrivateKey_Generate `{!OsRng J} : JniM E J Ptr :=
  run_ffi_safe
    (let! private_key := with_os_rng (fun rng => let '(keypair, rng) := KeyPair.generate rng in
       (Ok (KeyPair.private_key keypair), rng)) in
     box_object private_key).

Definition ECPrivateKey_GetPublicKey : Ptr -> JniM E J Ptr :=
  jni_fn_get_new_boxed_obj PrivateKey.public_key.

Definition ECPrivateKey_Sign `{!OsRng J} (handle : Ptr) (message : jobject) : JniM E J jobject :=
  run_ffi_safe
    (let! message := jni (JNIEnv.convert_byte_array message) in
     let! key := native_handle_cast PrivateKey handle in
     let! sig := with_os_rng (PrivateKey.calculate_signature key message) in
     let! sig := signal sig in
     to_jbytearray (Ok sig)).

Definition ECPrivateKey_Agree (private_key_handle public_key_handle : Ptr) : JniM E J jobject :=
  run_ffi_safe
    (let! private_key := native_handle_cast PrivateKey private_key_handle in
     let! public_key := native_handle_cast PublicKey public_key_handle in
     let! shared_secret := signal (PrivateKey.calculate_agreement private_key public_key) in
     to_jbytearray (Ok shared_secret)).

Definition ECPrivateKey_Destroy : Ptr -> JniM E J unit := jni_fn_destroy PrivateKey.

Definition IdentityKeyPair_Serialize (public_key_handle private_key_handle : Ptr)
    : JniM E J jobject :=
  run_ffi_safe
    (let! public_key := native_handle_cast PublicKey public_key_handle in
     let! private_key := native_handle_cast PrivateKey private_key_handle in
     let identity_key := IdentityKey.new public_key in
     let identity_key_pair := IdentityKeyPair.new identity_key private_key in
     to_jbytearray (Ok (IdentityKeyPair.serialize identity_key_pair))).

(** * Fingerprints *)

Definition DisplayableFingerprint_Format (local remote : jobject) : JniM E J jobject :=
  run_ffi_safe
    (let! local := jni (JNIEnv.convert_byte_array local) in
     let! remote := jni (JNIEnv.convert_byte_array remote) in
     let! fingerprint := signal (DisplayableFingerprint.new local remote) in
     jni (JNIEnv.new_string (DisplayableFingerprint.display fingerprint))).

Definition NumericFingerprintGenerator_New (iterations version : Z)
    (local_identifier local_key remote_identifier remote_key : jobject) : JniM E J Ptr :=
  run_ffi_safe
    (let! version := jint_to_u32 version in
     let! iterations := jint_to_u32 iterations in
     let! local_identifier := jni (JNIEnv.convert_byte_array local_identifier) in
     let! local_key := jni (JNIEnv.convert_byte_array local_key) in
     let! remote_identifier := jni (JNIEnv.convert_byte_array remote_identifier) in
     let! remote_key := jni (JNIEnv.convert_byte_array remote_key) in
     let! local_key := signal (IdentityKey.decode local_key) in
     let! remote_key := signal (IdentityKey.decode remote_key) in
     let! fprint := signal (Fingerprint.new version iterations local_identifier local_key
       remote_identifier remote_key) in
     box_object (Ok fprint)).

Definition NumericFingerprintGenerator_Destroy : Ptr -> JniM E J unit :=
  jni_fn_destroy Fingerprint.t.
Definition NumericFingerprintGenerator_GetDisplayString : Ptr -> JniM E J jobject :=
  jni_fn_get_jstring Fingerprint.display_string.
Definition NumericFingerprintGenerator_GetScannableEncoding : Ptr -> JniM E J jobject :=
  jni_fn_get_jbytearray (fun f => ScannableFingerprint.serialize (Fingerprint.scannable f)).

Definition ScannableFingerprint_Compare (fprint1 fprint2 : jobject) : JniM E J Z :=
  run_ffi_safe
    (let! fprint1 := jni (JNIEnv.convert_byte_array fprint1) in
     let! fprint2 := jni (JNIEnv.convert_byte_array fprint2) in
     let! fprint1 := signal (ScannableFingerprint.deserialize fprint1) in
     let! same := signal (ScannableFingerprint.compare fprint1 fprint2) in
     st_ret (Z.b2z same)).

(** * Key derivation *)

(** [output_length as usize] makes a negative length a very large one. *)
Definition HKDF_DeriveSecrets (version : Z) (input_key_material salt info : jobject)
    (output_length : Z) : JniM E J jobject :=
  run_ffi_safe
    (let! version := jint_to_u32 version in
     let output_length := Z.to_nat (as_usize output_length) in
     let! input_key_material := jni (JNIEnv.convert_byte_array input_key_material) in
     let! salt :=
       if (salt =? 0)%Z then st_ret None
       else let! salt := jni (JNIEnv.convert_byte_array salt) in st_ret (Some salt) in
     let! info := if (info =? 0)%Z then st_ret [] else jni (JNIEnv.convert_byte_array info) in
     let! hkdf := signal (HKDF.new version) in
     let! derived := evaluate
       (match salt with
        | Some salt => HKDF.derive_salted_secrets hkdf input_key_material salt info output_length
        | None => HKDF.derive_secrets hkdf input_key_material info output_length
        end) in
     to_jbytearray derived).

(** * Signal messages *)

Definition SignalMessage_Deserialize : jobject -> JniM E J Ptr :=
  jni_fn_deserialize SignalMessage.try_from.

Definition SignalMessage_New (message_version : Z) (mac_key : jobject) (sender_ratchet_key : Ptr)
    (counter previous_counter : Z) (ciphertext : jobject)
    (sender_identity_key receiver_identity_key : Ptr) : JniM E J Ptr :=
  run_ffi_safe
    (let! message_version := jint_to_u8 message_version in
     let! mac_key := jni (JNIEnv.convert_byte_array mac_key) in
     let! sender_ratchet_key := native_handle_cast PublicKey sender_ratchet_key in
     let! counter := jint_to_u32 counter in
     let! previous_counter := jint_to_u32 previous_counter in
     let! ciphertext := jni (JNIEnv.convert_byte_array ciphertext) in
     let! sender_identity_key := native_handle_cast PublicKey sender_identity_key in
     let! receiver_identity_key := native_handle_cast PublicKey receiver_identity_key in
     let! msg := signal (SignalMessage.new message_version mac_key sender_ratchet_key counter
       previous_counter ciphertext (IdentityKey.new sender_identity_key)
       (IdentityKey.new receiver_identity_key)) in
     box_object (Ok msg)).

Definition SignalMessage_Destroy : Ptr -> JniM E J unit := jni_fn_destroy SignalMessage.
Definition SignalMessage_GetSenderRatchetKey : Ptr -> JniM E J jobject :=
  jni_fn_get_jbytearray (fun m => Ok (PublicKey.serialize (SignalMessage.sender_ratchet_key m))).
Definition SignalMessage_GetBody : Ptr -> JniM E J jobject :=
  jni_fn_get_jbytearray (fun m => Ok (SignalMessage.body m)).
Definition SignalMessage_GetSerialized : Ptr -> JniM E J jobject :=
  jni_fn_get_jbytearray (fun m => Ok (SignalMessage.serialized m)).
Definition SignalMessage_GetMessageVersion : Ptr -> JniM E J Z :=
  jni_fn_get_jint (fun msg => Ok (SignalMessage.message_version msg)).
Definition SignalMessage_GetCounter : Ptr -> JniM E J Z :=
  jni_fn_get_jint (fun msg => Ok (SignalMessage.counter msg)).

Definition SignalMessage_VerifyMac (handle sender_identity_key receiver_identity_key : Ptr)
    (mac_key : jobject) : JniM E J Z :=
  run_ffi_safe
    (let! msg := native_handle_cast SignalMessage handle in
     let! sender_identity_key := native_handle_cast PublicKey sender_identity_key in
     let! receiver_identity_key := native_handle_cast PublicKey receiver_identity_key in
     let! mac_key := jni (JNIEnv.convert_byte_array mac_key) in
     let! valid := signal (SignalMessage.verify_mac msg (IdentityKey.new sender_identity_key)
       (IdentityKey.new receiver_identity_key) mac_key) in
     st_ret (Z.b2z valid)).

(** * Pre-key messages *)

Definition PreKeySignalMessage_Deserialize : jobject -> JniM E J Ptr :=
  jni_fn_deserialize PreKeySignalMessage.try_from.

(** A negative pre-key id stands for none; the version is cut to eight bits. *)
Definition PreKeySignalMessage_New (message_version registration_id pre_key_id signed_pre_key_id : Z)
    (base_key_handle identity_key_handle signal_message_handle : Ptr) : JniM E J Ptr :=
  run_ffi_safe
    (let message_version := as_u8 message_version in
     let! registration_id := jint_to_u32 registration_id in
     let! pre_key_id :=
       if (pre_key_id <? 0)%Z then st_ret None
       else let! id := jint_to_u32 pre_key_id in st_ret (Some id) in
     let! signed_pre_key_id := jint_to_u32 signed_pre_key_id in
     let! base_key := native_handle_cast PublicKey base_key_handle in
     let! identity_key := native_handle_cast PublicKey identity_key_handle in
     let! signal_message := native_handle_cast SignalMessage signal_message_handle in
     let! msg := evaluate (PreKeySignalMessage.new message_version registration_id pre_key_id
       signed_pre_key_id base_key (IdentityKey.new identity_key) signal_message) in
     box_object msg).

Definition PreKeySignalMessage_Destroy : Ptr -> JniM E J unit := jni_fn_destroy PreKeySignalMessage.
Definition PreKeySignalMessage_GetVersion : Ptr -> JniM E J Z :=
  jni_fn_get_jint (fun m => Ok (PreKeySignalMessage.message_version m)).
Definition PreKeySignalMessage_GetRegistrationId : Ptr -> JniM E J Z :=
  jni_fn_get_jint (fun m => Ok (PreKeySignalMessage.registration_id m)).

Definition PreKeySignalMessage_GetPreKeyId (handle : Ptr) : JniM E J Z :=
  run_ffi_safe
    (let! pksm := native_handle_cast PreKeySignalMessage handle in
     match PreKeySignalMessage.pre_key_id pksm with
     | Some id => jint_from_u32 (Ok id)
     | None => st_ret (-1)%Z
     end).

Definition PreKeySignalMessage_GetSignedPreKeyId : Ptr -> JniM E J Z :=
  jni_fn_get_jint (fun m => Ok (PreKeySignalMessage.signed_pre_key_id m)).
Definition PreKeySignalMessage_GetBaseKey : Ptr -> JniM E J jobject :=
  jni_fn_get_jbytearray (fun m => Ok (PublicKey.serialize (PreKeySignalMessage.base_key m))).
Definition PreKeySignalMessage_GetIdentityKey : Ptr -> JniM E J jobject :=
  jni_fn_get_jbytearray (fun m => Ok (IdentityKey.serialize (PreKeySignalMessage.identity_key m))).
Definition PreKeySignalMessage_GetSignalMessage : Ptr -> JniM E J jobject :=
  jni_fn_get_jbytearray (fun m => Ok (SignalMessage.serialized (PreKeySignalMessage.message m))).
Definition PreKeySignalMessage_GetSerialized : Ptr -> JniM E J jobject :=
  jni_fn_get_jbytearray (fun m => Ok (PreKeySignalMessage.serialized m)).

(** * Sender key messages *)

Definition SenderKeyMessage_Deserialize : jobject -> JniM E J Ptr :=
  jni_fn_deserialize SenderKeyMessage.try_from.

Definition SenderKeyMessage_New `{!OsRng J} (key_id iteration : Z) (ciphertext : jobject)
    (pk_handle : Ptr) : JniM E J Ptr :=
  run_ffi_safe
    (let! key_id := jint_to_u32 key_id in
     let! iteration := jint_to_u32 iteration in
     let! ciphertext := jni (JNIEnv.convert_byte_array ciphertext) in
     let! signature_key := native_handle_cast PrivateKey pk_handle in
     let! skm := with_os_rng (fun csprng =>
       SenderKeyMessage.new key_id iteration ciphertext csprng signature_key) in
     box_object skm).

Definition SenderKeyMessage_Destroy : Ptr -> JniM E J unit := jni_fn_destroy SenderKeyMessage.
Definition SenderKeyMessage_GetKeyId : Ptr -> JniM E J Z :=
  jni_fn_get_jint (fun m => Ok (SenderKeyMessage.key_id m)).
Definition SenderKeyMessage_GetIteration : Ptr -> JniM E J Z :=
  jni_fn_get_jint (fun m => Ok (SenderKeyMessage.iteration m)).
Definition SenderKeyMessage_GetCipherText : Ptr -> JniM E J jobject :=
  jni_fn_get_jbytearray (fun m => Ok (SenderKeyMessage.ciphertext m)).
Definition SenderKeyMessage_GetSerialized : Ptr -> JniM E J jobject :=
  jni_fn_get_jbytearray (fun m => Ok (SenderKeyMessage.serialized m)).

Definition SenderKeyMessage_VerifySignature (handle pubkey_handle : Ptr) : JniM E J Z :=
  run_ffi_safe
    (let! skm := native_handle_cast SenderKeyMessage handle in
     let! pubkey := native_handle_cast PublicKey pubkey_handle in
     let! valid := signal (SenderKeyMessage.verify_signature skm pubkey) in
     st_ret (Z.b2z valid)).

(** * Sender key distribution messages *)

Definition SenderKeyDistributionMessage_Deserialize : jobject -> JniM E J Ptr :=
  jni_fn_deserialize SenderKeyDistributionMessage.try_from.

Definition SenderKeyDistributionMessage_New (key_id iteration : Z) (chainkey : jobject)
    (pk_handle : Ptr) : JniM E J Ptr :=
  run_ffi_safe
    (let! key_id := jint_to_u32 key_id in
     let! iteration := jint_to_u32 iteration in
     let! chainkey := jni (JNIEnv.convert_byte_array chainkey) in
     let! signature_key := native_handle_cast PublicKey pk_handle in
     let! skdm := evaluate
       (SenderKeyDistributionMessage.new key_id iteration chainkey signature_key) in
     box_object skdm).

Definition SenderKeyDistributionMessage_Destroy : Ptr -> JniM E J unit :=
  jni_fn_destroy SenderKeyDistributionMessage.
Definition SenderKeyDistributionMessage_GetId : Ptr -> JniM E J Z :=
  jni_fn_get_jint (fun m => Ok (SenderKeyDistributionMessage.id m)).
Definition SenderKeyDistributionMessage_GetIteration : Ptr -> JniM E J Z :=
  jni_fn_get_jint (fun m => Ok (SenderKeyDistributionMessage.iteration m)).
Definition SenderKeyDistributionMessage_GetChainKey : Ptr -> JniM E J jobject :=
  jni_fn_get_jbytearray (fun m => Ok (SenderKeyDistributionMessage.chain_key m)).
Definition SenderKeyDistributionMessage_GetSignatureKey : Ptr -> JniM E J jobject :=
  jni_fn_get_jbytearray (fun m =>
    Ok (PublicKey.serialize (SenderKeyDistributionMessage.signing_key m))).
Definition SenderKeyDistributionMessage_GetSerialized : Ptr -> JniM E J jobject :=
  jni_fn_get_jbytearray (fun m => Ok (SenderKeyDistributionMessage.serialized m)).

(** * Pre-key bundles *)

(** The handle of the identity key is dereferenced without a test. *)
Definition PreKeyBundle_New (registration_id device_id prekey_id : Z) (prekey_handle : Ptr)
    (signed_prekey_id : Z) (signed_prekey_handle : Ptr) (signed_prekey_signature : jobject)
    (identity_key_handle : Ptr) : JniM E J Ptr :=
  run_ffi_safe
    (let! registration_id := jint_to_u32 registration_id in
     let! device_id := jint_to_u32 device_id in
     let! signed_prekey_id := jint_to_u32 signed_prekey_id in
     let! signed_prekey := native_handle_cast PublicKey signed_prekey_handle in
     let! signed_prekey_signature := jni (JNIEnv.convert_byte_array signed_prekey_signature) in
     let! prekey := native_handle_cast_optional PublicKey prekey_handle in
     let! prekey_id :=
       if (prekey_id <? 0)%Z then st_ret None
       else let! id := jint_to_u32 prekey_id in st_ret (Some id) in
     let! identity_key := deref_object PublicKey identity_key_handle in
     let! bundle := evaluate (PreKeyBundle.new registration_id device_id prekey_id prekey
       signed_prekey_id signed_prekey signed_prekey_signature (IdentityKey.new identity_key)) in
     box_object bundle).

Definition PreKeyBundle_Destroy : Ptr -> JniM E J unit := jni_fn_destroy PreKeyBundle.
Definition PreKeyBundle_GetRegistrationId : Ptr -> JniM E J Z :=
  jni_fn_get_jint PreKeyBundle.registration_id.
Definition PreKeyBundle_GetDeviceId : Ptr -> JniM E J Z := jni_fn_get_jint PreKeyBundle.device_id.
Definition PreKeyBundle_GetSignedPreKeyId : Ptr -> JniM E J Z :=
  jni_fn_get_jint PreKeyBundle.signed_pre_key_id.

Definition PreKeyBundle_GetPreKeyId (handle : Ptr) : JniM E J Z :=
  run_ffi_safe
    (let! bundle := native_handle_cast PreKeyBundle handle in
     let! id := signal (PreKeyBundle.pre_key_id bundle) in
     match id with
     | Some prekey_id => jint_from_u32 (Ok prekey_id)
     | None => st_ret (-1)%Z
     end).

Definition PreKeyBundle_GetPreKeyPublic : Ptr -> JniM E J Ptr :=
  jni_fn_get_new_boxed_optional_obj PreKeyBundle.pre_key_public.
Definition PreKeyBundle_GetSignedPreKeyPublic : Ptr -> JniM E J Ptr :=
  jni_fn_get_new_boxed_obj (fun p => let? k := PreKeyBundle.signed_pre_key_public p in Ok k).
Definition PreKeyBundle_GetIdentityKey : Ptr -> JniM E J Ptr :=
  jni_fn_get_new_boxed_obj (fun p =>
    let? k := PreKeyBundle.identity_key p in Ok (IdentityKey.public_key k)).
Definition PreKeyBundle_GetSignedPreKeySignature : Ptr -> JniM E J jobject :=
  jni_fn_get_jbytearray (fun m => let? s := PreKeyBundle.signed_pre_key_signature m in Ok s).

(** * Signed pre-key records *)

Definition SignedPreKeyRecord_New (id timestamp : Z) (pub_key_handle priv_key_handle : Ptr)
    (signature : jobject) : JniM E J Ptr :=
  run_ffi_safe
    (let! pub_key := native_handle_cast PublicKey pub_key_handle in
     let! priv_key := native_handle_cast PrivateKey priv_key_handle in
     let! id := jint_to_u32 id in
     let timestamp := as_u64 timestamp in
     let keypair := KeyPair.new pub_key priv_key in
     let! signature := jni (JNIEnv.convert_byte_array signature) in
     let spkr := SignedPreKeyRecord.new id timestamp keypair signature in
     box_object (Ok spkr)).

Definition SignedPreKeyRecord_Deserialize : jobject -> JniM E J Ptr :=
  jni_fn_deserialize SignedPreKeyRecord.deserialize.
Definition SignedPreKeyRecord_GetId : Ptr -> JniM E J Z := jni_fn_get_jint SignedPreKeyRecord.id.

Definition SignedPreKeyRecord_GetTimestamp (handle : Ptr) : JniM E J Z :=
  run_ffi_safe
    (let! spkr := native_handle_cast SignedPreKeyRecord handle in
     let! timestamp := evaluate (SignedPreKeyRecord.timestamp spkr) in
     jlong_from_u64 timestamp).

Definition SignedPreKeyRecord_GetPublicKey : Ptr -> JniM E J Ptr :=
  jni_fn_get_new_boxed_obj SignedPreKeyRecord.public_key.
Definition SignedPreKeyRecord_GetPrivateKey : Ptr -> JniM E J Ptr :=
  jni_fn_get_new_boxed_obj SignedPreKeyRecord.private_key.
Definition SignedPreKeyRecord_GetSignature : Ptr -> JniM E J jobject :=
  jni_fn_get_jbytearray SignedPreKeyRecord.signature.
Definition SignedPreKeyRecord_GetSerialized : Ptr -> JniM E J jobject :=
  jni_fn_get_jbytearray SignedPreKeyRecord.serialize.
Definition SignedPreKeyRecord_Destroy : Ptr -> JniM E J unit := jni_fn_destroy SignedPreKeyRecord.

(** * Pre-key records *)

Definition PreKeyRecord_New (id : Z) (pub_key_handle priv_key_handle : Ptr) : JniM E J Ptr :=
  run_ffi_safe
    (let! id := jint_to_u32 id in
     let! pub_key := native_handle_cast PublicKey pub_key_handle in
     let! priv_key := native_handle_cast PrivateKey priv_key_handle in
     let keypair := KeyPair.new pub_key priv_key in
     let pkr := PreKeyRecord.new id keypair in
     box_object (Ok pkr)).

Definition PreKeyRecord_Deserialize : jobject -> JniM E J Ptr :=
  jni_fn_deserialize PreKeyRecord.deserialize.
Definition PreKeyRecord_GetId : Ptr -> JniM E J Z := jni_fn_get_jint PreKeyRecord.id.
Definition PreKeyRecord_GetPublicKey : Ptr -> JniM E J Ptr :=
  jni_fn_get_new_boxed_obj PreKeyRecord.public_key.
Definition PreKeyRecord_GetPrivateKey : Ptr -> JniM E J Ptr :=
  jni_fn_get_new_boxed_obj PreKeyRecord.private_key.
Definition PreKeyRecord_GetSerialized : Ptr -> JniM E J jobject :=
  jni_fn_get_jbytearray PreKeyRecord.serialize.
Definition PreKeyRecord_Destroy : Ptr -> JniM E J unit := jni_fn_destroy PreKeyRecord.

(** * Sender key names and records *)

Definition SenderKeyName_New (group_id sender_name : jobject) (sender_device_id : Z)
    : JniM E J Ptr :=
  run_ffi_safe
    (let! group_id := jni (JNIEnv.get_string group_id) in
     let! sender_name := jni (JNIEnv.get_string sender_name) in
     let! sender_id := jint_to_u32 sender_device_id in
     let! name := evaluate (SenderKeyName.new group_id (ProtocolAddress.new sender_name sender_id)) in
     box_object name).

Definition SenderKeyName_Destroy : Ptr -> JniM E J unit := jni_fn_destroy SenderKeyName.
Definition SenderKeyName_GetGroupId : Ptr -> JniM E J jobject :=
  jni_fn_get_jstring SenderKeyName.group_id.
Definition SenderKeyName_GetSenderName : Ptr -> JniM E J jobject :=
  jni_fn_get_jstring (fun skn =>
    let? a := SenderKeyName.sender skn in Ok (ProtocolAddress.name a)).
Definition SenderKeyName_GetSenderDeviceId : Ptr -> JniM E J Z :=
  jni_fn_get_jint (fun m => let? a := SenderKeyName.sender m in Ok (ProtocolAddress.device_id a)).

Definition SenderKeyRecord_New : JniM E J Ptr :=
  run_ffi_safe (box_object (Ok SenderKeyRecord.new_empty)).
Definition SenderKeyRecord_Destroy : Ptr -> JniM E J unit := jni_fn_destroy SenderKeyRecord.
Definition SenderKeyRecord_Deserialize : jobject -> JniM E J Ptr :=
  jni_fn_deserialize SenderKeyRecord.deserialize.
Definition SenderKeyRecord_GetSerialized : Ptr -> JniM E J jobject :=
  jni_fn_get_jbytearray SenderKeyRecord.serialize.
End Entry.
End Native.
