(* ===== verification/JniSession.v ===== *)
(** The entry points of the Java interface that run on the stores of the Java
    program ([bridge/jni/src/lib.rs]), and the two that are there for its tests.  A
    function of the protocol crate runs on the shared state of the stores
    ([in_store]); the [Context] it passes on to them is [None]. *)

From S2P Require Import Prelude Error Crates Curve IdentityKey Proto Protocol RatchetKeys SessionState Ratchet PreKeys.
From S2P Require Import SenderKeys Storage StoreAccess Session SessionCipher GroupCipher BridgeMemory JniUtil JniStores.

Module NativeStores.
Section Sessions.
Context {E J : Type} `{!JNIEnv E J, Platform, BuildConfig, Crates, ProtoCodecs, !OsRng J}.

(** The structs of stores are classes, so that a function of the protocol crate
    finds the stores among the variables of its caller. *)

Definition SessionBuilder_ProcessPreKeyBundle (bundle protocol_address : Ptr)
    (session_store identity_key_store : jobject) : JniM E J unit :=
  run_ffi_safe
    (let! bundle := native_handle_cast PreKeyBundle bundle in
     let! protocol_address := native_handle_cast ProtocolAddress protocol_address in
     let! identity_key_store := JniIdentityKeyStore.new identity_key_store in
     let! session_store := JniSessionStore.new session_store in
     let! r := expect_ready (process_prekey_bundle protocol_address bundle None) in
     signal r).

Definition SessionCipher_EncryptMessage (message : jobject) (protocol_address : Ptr)
    (session_store identity_key_store : jobject) : JniM E J jobject :=
  run_ffi_safe
    (let! message := jni (JNIEnv.convert_byte_array message) in
     let! protocol_address := native_handle_cast ProtocolAddress protocol_address in
     let! identity_key_store := JniIdentityKeyStore.new identity_key_store in
     let! session_store := JniSessionStore.new session_store in
     let! ctext := expect_ready (message_encrypt message protocol_address None) in
     let! ctext := signal ctext in
     match ctext with
     | CiphertextMessage.SignalMessage m =>
         let! handle := box_object (Ok m) in
         jobject_from_native_handle "org/whispersystems/libsignal/protocol/SignalMessage" handle
     | CiphertextMessage.PreKeySignalMessage m =>
         let! handle := box_object (Ok m) in
         jobject_from_native_handle "org/whispersystems/libsignal/protocol/PreKeySignalMessage" handle
     | _ => fail (Signal (InternalError "Unexpected result type from message_encrypt"))
     end).

Definition SessionCipher_DecryptSignalMessage (message protocol_address : Ptr)
    (session_store identity_key_store : jobject) : JniM E J jobject :=
  run_ffi_safe
    (let! message := native_handle_cast SignalMessage message in
     let! protocol_address := native_handle_cast ProtocolAddress protocol_address in
     let! identity_key_store := JniIdentityKeyStore.new identity_key_store in
     let! session_store := JniSessionStore.new session_store in
     let! ptext := expect_ready (message_decrypt_signal message protocol_address None) in
     let! ptext := signal ptext in
     to_jbytearray (Ok ptext)).

Definition SessionCipher_DecryptPreKeySignalMessage (message protocol_address : Ptr)
    (session_store identity_key_store prekey_store signed_prekey_store : jobject)
    : JniM E J jobject :=
  run_ffi_safe
    (let! message := native_handle_cast PreKeySignalMessage message in
     let! protocol_address := native_handle_cast ProtocolAddress protocol_address in
     let! identity_key_store := JniIdentityKeyStore.new identity_key_store in
     let! session_store := JniSessionStore.new session_store in
     let! prekey_store := JniPreKeyStore.new prekey_store in
     let! signed_prekey_store := JniSignedPreKeyStore.new signed_prekey_store in
     let! ptext := expect_ready (message_decrypt_prekey message protocol_address None) in
     let! ptext := signal ptext in
     to_jbytearray (Ok ptext)).

(** * Groups *)

Definition GroupSessionBuilder_CreateSenderKeyDistributionMessage (sender_key_name : Ptr)
    (store : jobject) : JniM E J Ptr :=
  run_ffi_safe
    (let! sender_key_name := native_handle_cast SenderKeyName sender_key_name in
     let! sender_key_store := JniSenderKeyStore.new store in
     let! skdm := expect_ready (create_sender_key_distribution_message sender_key_name None) in
     let! skdm := signal skdm in
     box_object (Ok skdm)).

Definition GroupSessionBuilder_ProcessSenderKeyDistributionMessage
    (sender_key_name sender_key_distribution_message : Ptr) (store : jobject) : JniM E J unit :=
  run_ffi_safe
    (let! sender_key_name := native_handle_cast SenderKeyName sender_key_name in
     let! sender_key_distribution_message :=
       native_handle_cast SenderKeyDistributionMessage sender_key_distribution_message in
     let! sender_key_store := JniSenderKeyStore.new store in
     let! r := expect_ready (process_sender_key_distribution_message sender_key_name
       sender_key_distribution_message None) in
     signal r).

Definition GroupCipher_EncryptMessage (sender_key_name : Ptr) (message store : jobject)
    : JniM E J jobject :=
  run_ffi_safe
    (let! sender_key_name := native_handle_cast SenderKeyName sender_key_name in
     let! message := jni (JNIEnv.convert_byte_array message) in
     let! sender_key_store := JniSenderKeyStore.new store in
     let! ctext := expect_ready (group_encrypt sender_key_name message None) in
     let! ctext := signal ctext in
     to_jbytearray (Ok ctext)).

Definition GroupCipher_DecryptMessage (sender_key_name : Ptr) (message store : jobject)
    : JniM E J jobject :=
  run_ffi_safe
    (let! sender_key_name := native_handle_cast SenderKeyName sender_key_name in
     let! message := jni (JNIEnv.convert_byte_array message) in
     let! sender_key_store := JniSenderKeyStore.new store in
     let! ptext := expect_ready (group_decrypt message sender_key_name None) in
     let! ptext := signal ptext in
     to_jbytearray (Ok ptext)).

(** * Session initialisation, for the tests in Java *)

Definition SessionState_InitializeAliceSession (identity_key_private identity_key_public
    base_private base_public their_identity_key their_signed_prekey their_ratchet_key : Ptr)
    : JniM E J jobject :=
  run_ffi_safe
    (let! identity_key_private := native_handle_cast PrivateKey identity_key_private in
     let! identity_key_public := native_handle_cast PublicKey identity_key_public in
     let! base_private := native_handle_cast PrivateKey base_private in
     let! base_public := native_handle_cast PublicKey base_public in
     let! their_identity_key := native_handle_cast PublicKey their_identity_key in
     let! their_signed_prekey := native_handle_cast PublicKey their_signed_prekey in
     let! their_ratchet_key := native_handle_cast PublicKey their_ratchet_key in
     let our_identity_key_pair :=
       IdentityKeyPair.new (IdentityKey.new identity_key_public) identity_key_private in
     let our_base_key_pair := KeyPair.new base_public base_private in
     let their_identity_key := IdentityKey.new their_identity_key in
     let parameters := AliceSignalProtocolParameters.new our_identity_key_pair our_base_key_pair
       their_identity_key their_signed_prekey None their_ratchet_key in
     let! session := with_os_rng (initialize_alice_session parameters) in
     let! session := signal session in
     let! bits := evaluate (SessionState.serialize session) in
     to_jbytearray bits).

Definition SessionState_InitializeBobSession (identity_key_private identity_key_public
    signed_prekey_private signed_prekey_public eph_private eph_public their_identity_key
    their_base_key : Ptr) : JniM E J jobject :=
  run_ffi_safe
    (let! identity_key_private := native_handle_cast PrivateKey identity_key_private in
     let! identity_key_public := native_handle_cast PublicKey identity_key_public in
     let! signed_prekey_private := native_handle_cast PrivateKey signed_prekey_private in
     let! signed_prekey_public := native_handle_cast PublicKey signed_prekey_public in
     let! eph_private := native_handle_cast PrivateKey eph_private in
     let! eph_public := native_handle_cast PublicKey eph_public in
     let! their_identity_key := native_handle_cast PublicKey their_identity_key in
     let! their_base_key := native_handle_cast PublicKey their_base_key in
     let our_identity_key_pair :=
       IdentityKeyPair.new (IdentityKey.new identity_key_public) identity_key_private in
     let our_signed_pre_key_pair := KeyPair.new signed_prekey_public signed_prekey_private in
     let our_ratchet_key_pair := KeyPair.new eph_public eph_private in
     let their_identity_key := IdentityKey.new their_identity_key in
     let parameters := BobSignalProtocolParameters.new our_identity_key_pair
       our_signed_pre_key_pair None our_ratchet_key_pair their_identity_key their_base_key in
     let! session := signal (initialize_bob_session parameters) in
     let! bits := evaluate (SessionState.serialize session) in
     to_jbytearray bits).
End Sessions.
End NativeStores.
