(* ===== verification/JniSpec.v ===== *)
(** What the Java interface reports to its caller: the exception for each error, and
    the integers that Java sees. *)

From S2P Require Import Prelude Error Crates Proto Protocol PreKeys BridgeMemory FfiUtil FfiSpec JniUtil JniStores JniEntry.

(** * Errors *)

Section Errors.
Context {E J : Type} `{!JNIEnv E J}.

(** The two conversions to an error of the protocol crate are the same. *)
Lemma signal_from_jni_eq (e : SignalJniError E) : signal_from_jni e = to_signal_protocol_error e.
Proof. by destruct e. Qed.

(** A store does not change the errors of the protocol crate. *)
Lemma signal_from_jni_signal (e : SignalProtocolError) : signal_from_jni (E:=E) (Signal e) = e.
Proof. done. Qed.

(** The exception class of an error, by the code that the C interface reports. *)
Definition exception_of_code (c : SignalErrorCode) : string :=
  match c with
  | DuplicatedMessageCode => "org/whispersystems/libsignal/DuplicateMessageException"
  | InvalidKeyIdentifierCode => "org/whispersystems/libsignal/InvalidKeyIdException"
  | InvalidKeyCode | InvalidSignatureCode => "org/whispersystems/libsignal/InvalidKeyException"
  | SessionNotFoundCode => "org/whispersystems/libsignal/NoSessionException"
  | InvalidMessageCode | InvalidCiphertextCode | UnknownCiphertextVersionCode
  | UnrecognizedMessageVersionCode => "org/whispersystems/libsignal/InvalidMessageException"
  | LegacyCiphertextVersionCode => "org/whispersystems/libsignal/LegacyMessageException"
  | UntrustedIdentityCode => "org/whispersystems/libsignal/UntrustedIdentityException"
  | InvalidStateCode => "java/lang/IllegalStateException"
  | InvalidArgumentCode => "java/lang/IllegalArgumentException"
  | _ => "java/lang/RuntimeException"
  end.

Lemma exception_type_code e :
  exception_type (E:=E) (Signal e) = exception_of_code (error_code (BridgeMemory.Signal e)).
Proof. by destruct e. Qed.

Context `{Platform}.

Lemma throw_error_eq (e : SignalJniError E) (s : Memory * J) :
  (JNIEnv.throw_new (exception_type e) (error_string e) s).1 <> Panic ->
  throw_error e s = (Ok tt, (JNIEnv.throw_new (exception_type e) (error_string e) s).2).
Proof.
  intros Hnp. unfold throw_error, st_bind, result_ok, jni.
  destruct (JNIEnv.throw_new _ _ s) as [[]]; cbn in *; done.
Qed.

(** C22: what a call reports.  A native method that succeeds returns its result and
    throws nothing; one that fails returns the dummy value 0 and throws the
    exception of its error, with the text of the error or, for an untrusted
    identity, the name of the address, whatever becomes of the throw; a panic
    becomes an [AssertionError] and does not unwind into the virtual machine.  The
    exception of an error of the protocol crate is determined by the code that the C
    interface has for it, so the two interfaces tell errors apart alike; and an
    error that passes through a store of the Java program is not changed. *)
Theorem exceptions_are_thrown {R} `{!JniDummyValue R} (f : JniM E J R) (s : Memory * J) :
  (forall class msg s', (JNIEnv.throw_new (E:=E) (J:=J) class msg s').1 <> Panic) ->
  (let '(r, s') := f s in
   match r with
   | Ok r => run_ffi_safe f s = (Ok r, s')
   | Err Undefined => run_ffi_safe f s = (Err Undefined, s')
   | Err (Fail e) =>
       run_ffi_safe f s
         = (Ok dummy_value, (JNIEnv.throw_new (exception_type e) (error_string e) s').2)
   | Panic =>
       run_ffi_safe f s
         = (Ok dummy_value, (JNIEnv.throw_new "java/lang/AssertionError"
              (jni_error_display (E:=E) (UnexpectedPanic panic_payload)) s').2)
   end) /\
  (forall e, exception_type (E:=E) (Signal e)
     = exception_of_code (error_code (BridgeMemory.Signal e))) /\
  (forall e : SignalProtocolError, signal_from_jni (E:=E) (Signal e) = e).
Proof.
  intros Hnp. split; [|split; [apply exception_type_code|done]].
  unfold run_ffi_safe. destruct (f s) as [[r|[e|]|] s']; try done;
    unfold st_bind; by rewrite throw_error_eq.
Qed.
End Errors.

(** * Integers *)

Section Integers.
Context {E J : Type} `{!JNIEnv E J, Platform}.

Definition is_jint (v : Z) : Prop := (- 2147483648 <= v < 2147483648)%Z.

Lemma as_u32_id v : is_u32 v -> as_u32 v = v.
Proof. unfold is_u32, u32_max, as_u32. intros. apply Z.mod_small. lia. Qed.

Lemma signed_range bits v : (0 < bits)%Z ->
  (- 2 ^ (bits - 1) <= signed bits v < 2 ^ (bits - 1))%Z.
Proof.
  intros Hb. unfold signed. pose proof (Z.mod_pos_bound v (2 ^ bits) ltac:(lia)) as Hm.
  assert (2 ^ bits = 2 * 2 ^ (bits - 1))%Z as Heq.
  { rewrite <-Z.pow_succ_r by lia. f_equal. lia. }
  destruct (Z.ltb_spec (v mod 2 ^ bits) (2 ^ (bits - 1))); lia.
Qed.

Lemma signed_mod bits v : (0 < bits)%Z -> (signed bits v mod 2 ^ bits = v mod 2 ^ bits)%Z.
Proof.
  intros Hb. unfold signed. destruct (_ <? _)%Z; [by rewrite Z.mod_mod by lia|].
  rewrite Zminus_mod, Z_mod_same_full, Z.sub_0_r, !Z.mod_mod by lia. done.
Qed.

Lemma signed_id bits v : (0 < bits)%Z -> (0 <= v < 2 ^ (bits - 1))%Z -> signed bits v = v.
Proof.
  intros Hb Hv. unfold signed.
  assert (2 ^ bits = 2 * 2 ^ (bits - 1))%Z as Heq.
  { rewrite <-Z.pow_succ_r by lia. f_equal. lia. }
  rewrite Z.mod_small by lia. by rewrite (proj2 (Z.ltb_lt _ _)) by lia.
Qed.

Lemma signed_above bits v :
  (0 < bits)%Z -> (2 ^ (bits - 1) <= v < 2 ^ bits)%Z -> signed bits v = (v - 2 ^ bits)%Z.
Proof.
  intros Hb Hv. unfold signed. rewrite Z.mod_small by lia.
  by rewrite (proj2 (Z.ltb_ge _ _)) by lia.
Qed.

(** A number of 32 bits always gets through, as the number of the same bits. *)
Lemma jint_from_u32_ok v (s : Memory * J) :
  is_u32 v -> jint_from_u32 (E:=E) (Ok v) s = (Ok (as_jint v), s).
Proof.
  intros Hv. unfold jint_from_u32, as_jint, as_u32. cbv zeta.
  rewrite signed_mod by lia. rewrite (as_u32_id v Hv : v mod 2 ^ 32 = v)%Z. by rewrite Z.eqb_refl.
Qed.

Lemma jlong_from_u64_ok v (s : Memory * J) :
  is_u64 v -> jlong_from_u64 (E:=E) (Ok v) s = (Ok (as_jlong v), s).
Proof.
  intros Hv. unfold jlong_from_u64, as_jlong, as_u64. cbv zeta.
  rewrite signed_mod by lia. rewrite Z.mod_small by (unfold is_u64 in Hv; lia). by rewrite Z.eqb_refl.
Qed.

Lemma jint_to_u32_eq v (s : Memory * J) :
  is_jint v ->
  jint_to_u32 (E:=E) v s
    = if (v <? 0)%Z then (Err (Fail (IntegerOverflow (pretty.pretty v +:+ " to u32"))), s)
      else (Ok v, s).
Proof.
  intros Hv. unfold jint_to_u32. destruct (Z.ltb_spec v 0); [done|].
  rewrite as_u32_id; [done|]. unfold is_u32, u32_max, is_jint in *. lia.
Qed.

Lemma jint_to_u8_eq v (s : Memory * J) :
  is_jint v ->
  jint_to_u8 (E:=E) v s
    = if ((0 <=? v) && (v <=? 255))%Z then (Ok v, s)
      else (Err (Fail (IntegerOverflow (pretty.pretty v +:+ " to u8"))), s).
Proof. intros _. unfold jint_to_u8. by destruct (_ && _). Qed.

Lemma as_jint_cases n : is_u32 n -> as_jint n = if (n <? 2147483648)%Z then n else (n - 4294967296)%Z.
Proof.
  unfold is_u32, u32_max. intros Hn. unfold as_jint.
  destruct (Z.ltb_spec n 2147483648); [apply signed_id|apply (signed_above 32)]; lia.
Qed.

Lemma as_jlong_cases t : is_u64 t ->
  as_jlong t = if (t <? 9223372036854775808)%Z then t else (t - 18446744073709551616)%Z.
Proof.
  unfold is_u64. intros Ht. unfold as_jlong.
  destruct (Z.ltb_spec t 9223372036854775808); [apply signed_id|apply (signed_above 64)]; lia.
Qed.

Lemma jni_handle_cast_eq {T} `{Boxable T} m (j : J) p (x : T) :
  handle m p x -> native_handle_cast (E:=E) T p (m, j) = (Ok x, (m, j)).
Proof.
  intros Hx. unfold native_handle_cast. rewrite (proj2 (Z.eqb_neq _ _)) by apply Hx.
  by apply deref_object_eq.
Qed.

Lemma get_pre_key_id_eq `{BuildConfig, Crates, ProtoCodecs} m (j : J) p message :
  handle m p message -> opt_u32 (PreKeySignalMessage.pre_key_id message) ->
  Native.PreKeySignalMessage_GetPreKeyId (E:=E) p (m, j)
    = (Ok (from_option as_jint (-1)%Z (PreKeySignalMessage.pre_key_id message)), (m, j)).
Proof.
  intros Hp Hid. unfold Native.PreKeySignalMessage_GetPreKeyId, run_ffi_safe.
  rewrite (st_bind_eq _ _ _ _ _ (jni_handle_cast_eq m j p message Hp)).
  destruct (PreKeySignalMessage.pre_key_id message) as [id|]; [|done].
  by rewrite jint_from_u32_ok.
Qed.

Lemma as_u8_mod v : as_u8 (v mod 256) = as_u8 v.
Proof. apply Z.mod_mod. lia. Qed.
Lemma as_u64_mod v : as_u64 (v mod 18446744073709551616) = as_u64 v.
Proof. apply Z.mod_mod. lia. Qed.

(** What Java can pass back of the 32-bit numbers. *)
Lemma jint_back n (s : Memory * J) :
  is_u32 n -> (jint_to_u32 (E:=E) (as_jint n) s).1 = Ok n <-> (n < 2147483648)%Z.
Proof.
  intros Hn. assert (is_jint (as_jint n)) by (apply (signed_range 32); lia).
  rewrite jint_to_u32_eq, as_jint_cases by done. unfold is_u32, u32_max in Hn.
  destruct (Z.ltb_spec n 2147483648) as [Hlt|Hge].
  - rewrite (proj2 (Z.ltb_ge _ _)) by lia. by cbn.
  - rewrite (proj2 (Z.ltb_lt _ _)) by lia. cbn. split; [done|lia].
Qed.

Lemma pre_key_id_seen `{BuildConfig, Crates, ProtoCodecs} m (j : J) p message :
  handle m p message -> opt_u32 (PreKeySignalMessage.pre_key_id message) ->
  exists i, Native.PreKeySignalMessage_GetPreKeyId (E:=E) p (m, j) = (Ok i, (m, j)) /\
    (i = (-1)%Z <-> PreKeySignalMessage.pre_key_id message = None \/
                    PreKeySignalMessage.pre_key_id message = Some u32_max).
Proof.
  intros Hp Hid. eexists. split; [by apply get_pre_key_id_eq|].
  destruct (PreKeySignalMessage.pre_key_id message) as [id|]; cbn [from_option]; [|tauto].
  cbn [opt_u32 from_option] in Hid. rewrite as_jint_cases by done.
  unfold opt_u32, is_u32, u32_max in *. cbn in Hid. destruct (Z.ltb_spec id 2147483648); split.
  - lia.
  - intros [|[= ?]]; [done|lia].
  - intros. right. f_equal. lia.
  - intros [|[= ?]]; [done|lia].
Qed.

Lemma refused_at_once {A R} `{JniDummyValue R} (f : JniM E J A) (k : A -> JniM E J R) e s :
  f s = (Err (Fail e), s) -> run_ffi_safe (let! x := f in k x) s = run_ffi_safe (fail e) s.
Proof. intros Hf. unfold run_ffi_safe. by rewrite (st_bind_err_eq _ _ _ _ _ Hf). Qed.

End Integers.
