(* ===== verification/JniFrame.v ===== *)
(** What the native methods of the Java interface leave alone: an object that Java
    holds a handle to is there until Java destroys it, provided that the Java code
    that a method calls back does not. *)

From S2P Require Import Prelude Error Crates Crypto Curve IdentityKey Proto Protocol RatchetKeys SessionState Ratchet.
From S2P Require Import PreKeys SenderKeys Fingerprint Storage StoreAccess Session SessionCipher GroupCipher StoreSimulation.
From S2P Require Import BridgeMemory JniUtil JniStores JniEntry JniSession JniSpec.

(** The virtual machine does not panic when an exception is thrown. *)
Class ThrowsSafely (E : Type) {J : Type} `{!JNIEnv E J} : Prop := {
  throw_new_no_panic : forall k x s, (JNIEnv.throw_new (E:=E) (J:=J) k x s).1 <> Panic;
}.

(** Java code that is called back keeps the cell [c] at [p]. *)
Class JavaKeeps (E : Type) {J : Type} `{!JNIEnv E J} (p : Ptr) (c : Cell) : Prop := {
  keeps_get_string : forall o, preserves (fun s => s.1 !! p = Some c) (JNIEnv.get_string (E:=E) o);
  keeps_new_string : forall x, preserves (fun s => s.1 !! p = Some c) (JNIEnv.new_string (E:=E) x);
  keeps_convert_byte_array : forall o,
    preserves (fun s => s.1 !! p = Some c) (JNIEnv.convert_byte_array (E:=E) o);
  keeps_new_byte_array : forall n,
    preserves (fun s => s.1 !! p = Some c) (JNIEnv.new_byte_array (E:=E) n);
  keeps_set_byte_array_region : forall o n b,
    preserves (fun s => s.1 !! p = Some c) (JNIEnv.set_byte_array_region (E:=E) o n b);
  keeps_call_method : forall o f sig args,
    preserves (fun s => s.1 !! p = Some c) (JNIEnv.call_method (E:=E) o f sig args);
  keeps_find_class : forall x, preserves (fun s => s.1 !! p = Some c) (JNIEnv.find_class (E:=E) x);
  keeps_is_instance_of : forall o k,
    preserves (fun s => s.1 !! p = Some c) (JNIEnv.is_instance_of (E:=E) o k);
  keeps_new_object : forall k sig args,
    preserves (fun s => s.1 !! p = Some c) (JNIEnv.new_object (E:=E) k sig args);
  keeps_get_static_field : forall k f sig,
    preserves (fun s => s.1 !! p = Some c) (JNIEnv.get_static_field (E:=E) k f sig);
  keeps_exception_check : preserves (fun s => s.1 !! p = Some c) (JNIEnv.exception_check (E:=E));
  keeps_exception_occurred :
    preserves (fun s => s.1 !! p = Some c) (JNIEnv.exception_occurred (E:=E));
  keeps_exception_clear : preserves (fun s => s.1 !! p = Some c) (JNIEnv.exception_clear (E:=E));
  keeps_throw_new : forall k x,
    preserves (fun s => s.1 !! p = Some c) (JNIEnv.throw_new (E:=E) k x);
  keeps_throws :: ThrowsSafely E (J:=J);
}.

Create HintDb kept discriminated.

Section Frame.
Context {E J : Type} `{!JNIEnv E J, Platform, !AllocLaws}.
Context (p : Ptr) (c : Cell) `{!JavaKeeps E p c}.

(** A computation that keeps the cell. *)
Definition kept {A} (f : JniM E J A) : Prop := preserves (fun s => s.1 !! p = Some c) f.

Lemma kept_ret {A} (a : A) : kept (st_ret a).
Proof. apply preserves_ret. Qed.
Lemma kept_lift {A} (r : outcome (Stop (SignalJniError E)) A) : kept (st_lift r).
Proof. apply preserves_lift. Qed.
Lemma kept_fail {A} e : kept (fail e : JniM E J A).
Proof. apply kept_lift. Qed.
Lemma kept_undefined {A} : kept (undefined : JniM E J A).
Proof. apply kept_lift. Qed.
Lemma kept_bind {A B} (f : JniM E J A) (k : A -> JniM E J B) :
  kept f -> (forall a, kept (k a)) -> kept (st_bind f k).
Proof. apply preserves_bind. Qed.

Lemma kept_jni {A} (f : ST E (Memory * J) A) :
  preserves (fun s => s.1 !! p = Some c) f -> kept (jni f).
Proof. intros Hf s Hs. specialize (Hf s Hs). unfold jni. by destruct (f s) as [[] ?]. Qed.

Lemma kept_result_ok {A} (f : JniM E J A) : kept f -> kept (result_ok f).
Proof. intros Hf s Hs. specialize (Hf s Hs). unfold result_ok. by destruct (f s) as [[|[]|] ?]. Qed.

Lemma kept_signal {A} (r : Result A) : kept (signal r).
Proof. destruct r; apply kept_lift. Qed.
Lemma kept_evaluate {A} (r : Result A) : kept (evaluate r).
Proof. destruct r; apply kept_lift. Qed.
Lemma kept_deref q : kept (deref q).
Proof. unfold deref. destruct (is_null q); [apply kept_lift|apply preserves_gets]. Qed.
Lemma kept_alloc d : kept (alloc d).
Proof.
  intros s Hs. unfold alloc. cbn. rewrite lookup_insert_ne; [done|].
  intros Heq. pose proof (alloc_unused s.1) as Hn. congruence.
Qed.
Lemma kept_with_os_rng `{OsRng J} {A} (f : Csprng -> Result A * Csprng) : kept (with_os_rng f).
Proof.
  intros s Hs. unfold with_os_rng. destruct (f _) as [r d]. by destruct r.
Qed.
End Frame.

#[export] Hint Resolve kept_ret kept_lift kept_fail kept_undefined kept_jni kept_result_ok kept_signal
  kept_evaluate kept_deref kept_alloc kept_with_os_rng : kept.
#[export] Hint Resolve keeps_get_string keeps_new_string keeps_convert_byte_array
  keeps_new_byte_array keeps_set_byte_array_region keeps_call_method keeps_find_class
  keeps_is_instance_of keeps_new_object keeps_get_static_field keeps_exception_check
  keeps_exception_occurred keeps_exception_clear keeps_throw_new : kept.

Ltac kept_step :=
  match goal with
  | |- kept _ _ (st_bind _ _) => apply kept_bind; [|intros ?]
  | |- kept _ _ (match ?x with _ => _ end) => destruct x
  | |- kept _ _ _ => by auto with kept
  end.
Ltac kept := repeat (cbv zeta; kept_step).

Section FrameUtil.
Context {E J : Type} `{!JNIEnv E J, Platform, !AllocLaws}.
Context (p : Ptr) (c : Cell) `{!JavaKeeps E p c}.
Abbreviation Kept f := (kept (E:=E) (J:=J) p c f).

Lemma kept_deref_object T `{Boxable T} q : Kept (deref_object T q).
Proof. unfold deref_object. kept. Qed.
Lemma kept_box_object {T} `{Boxable T} (r : Result T) : Kept (box_object r).
Proof. unfold box_object, box_into_raw. kept. Qed.
Lemma kept_throw_error e : Kept (throw_error e).
Proof. unfold throw_error. kept. Qed.
Hint Resolve kept_deref_object kept_box_object kept_throw_error : kept.

Lemma kept_native_handle_cast T `{Boxable T} q : Kept (native_handle_cast T q).
Proof. unfold native_handle_cast. kept. Qed.
Lemma kept_native_handle_cast_optional T `{Boxable T} q : Kept (native_handle_cast_optional T q).
Proof. unfold native_handle_cast_optional. kept. Qed.
Lemma kept_to_jbytearray r : Kept (to_jbytearray r).
Proof. unfold to_jbytearray. kept. Qed.
Lemma kept_jint_to_u32 v : Kept (jint_to_u32 v).
Proof. unfold jint_to_u32. kept. Qed.
Lemma kept_jint_to_u8 v : Kept (jint_to_u8 v).
Proof. unfold jint_to_u8. kept. Qed.
Lemma kept_jint_from_u32 r : Kept (jint_from_u32 r).
Proof. unfold jint_from_u32. kept. Qed.
Lemma kept_jlong_from_u64 r : Kept (jlong_from_u64 r).
Proof. unfold jlong_from_u64. kept. Qed.
Hint Resolve kept_native_handle_cast kept_native_handle_cast_optional kept_to_jbytearray
  kept_jint_to_u32 kept_jint_to_u8 kept_jint_from_u32 kept_jlong_from_u64 : kept.

Lemma kept_exception_class_name o : Kept (exception_class_name o).
Proof. unfold exception_class_name. kept. Qed.
Hint Resolve kept_exception_class_name : kept.
Lemma kept_exception_check f : Kept (exception_check f).
Proof. unfold exception_check. kept. Qed.
Lemma kept_check_jobject_type o k : Kept (check_jobject_type o k).
Proof. unfold check_jobject_type. kept. Qed.
Hint Resolve kept_exception_check kept_check_jobject_type : kept.
Lemma kept_get_object_with_native_handle T `{Boxable T} o args sig f :
  Kept (get_object_with_native_handle T o args sig f).
Proof. unfold get_object_with_native_handle. kept. Qed.
Lemma kept_get_object_with_serialization o args sig f :
  Kept (get_object_with_serialization o args sig f).
Proof. unfold get_object_with_serialization. kept. Qed.
Lemma kept_jobject_from_serialized k b : Kept (jobject_from_serialized k b).
Proof. unfold jobject_from_serialized. kept. Qed.
Lemma kept_jobject_from_native_handle k q : Kept (jobject_from_native_handle k q).
Proof. unfold jobject_from_native_handle. kept. Qed.
Lemma kept_sender_key_name_to_jobject n : Kept (sender_key_name_to_jobject n).
Proof. unfold sender_key_name_to_jobject. kept. Qed.
Lemma kept_protocol_address_to_jobject a : Kept (protocol_address_to_jobject a).
Proof. unfold protocol_address_to_jobject. kept. Qed.
Lemma kept_bool_result f v : Kept (bool_result f v).
Proof. unfold bool_result. kept. Qed.
End FrameUtil.

#[export] Hint Resolve kept_deref_object kept_box_object kept_throw_error
  kept_native_handle_cast kept_native_handle_cast_optional kept_to_jbytearray
  kept_jint_to_u32 kept_jint_to_u8 kept_jint_from_u32 kept_jlong_from_u64
  kept_exception_check kept_check_jobject_type kept_get_object_with_native_handle
  kept_get_object_with_serialization kept_jobject_from_serialized kept_jobject_from_native_handle
  kept_sender_key_name_to_jobject kept_protocol_address_to_jobject kept_bool_result : kept.

(** ** The stores, and the functions of the protocol crate on them *)

Section FrameStores.
Context {E J : Type} `{!JNIEnv E J, Platform, !AllocLaws, BuildConfig, Crates, ProtoCodecs, !OsRng J}.
Context (p : Ptr) (c : Cell) `{!JavaKeeps E p c}.

(** Two equal states in which the cell is there. *)
Definition same_kept (w1 w2 : Memory * J * bool) : Prop := w1 = w2 /\ w1.1.1 !! p = Some c.

Lemma in_store_kept {A} (f : JniM E J A) : kept p c f -> related same_kept always (in_store f) (in_store f).
Proof.
  intros Hf. apply related_always. intros [s u] _ [<- Hs]. split; [done|]. specialize (Hf s Hs). unfold in_store.
  destruct (f s) as [[|[]|] s']; by split.
Qed.

Lemma kept_expect_ready {A} (f : StateResult (Memory * J * bool) A) :
  related same_kept always f f -> kept (E:=E) p c (expect_ready f).
Proof.
  intros Hf s Hs. destruct (proj2 Hf (s, false) (s, false) (conj eq_refl Hs) I) as [_ [_ Hs']].
  unfold expect_ready. destruct (f (s, false)) as [r [s' []]]; [done|]. by destruct r.
Qed.

#[export] Instance kept_rng : RelatedRng same_kept always.
Proof.
  split. intros A f. apply related_always. intros [[m j] u] _ [<- Hs]. split; [done|]. cbn. destruct (f (os_rng j)) as [r d]. by split.
Qed.

#[export] Instance kept_sessions `{JniSessionStore} : RelatedSessions same_kept always.
Proof.
  split; intros; apply in_store_kept.
  - unfold JniSessionStore.do_load_session. kept.
  - unfold JniSessionStore.do_store_session. kept.
Qed.

#[export] Instance kept_identities `{JniIdentityKeyStore} : RelatedIdentities same_kept always.
Proof.
  split; intros; apply in_store_kept.
  - unfold JniIdentityKeyStore.do_get_identity_key_pair. kept.
  - unfold JniIdentityKeyStore.do_get_local_registration_id. kept.
  - unfold JniIdentityKeyStore.do_save_identity. kept.
  - unfold JniIdentityKeyStore.do_is_trusted_identity. kept.
Qed.

#[export] Instance kept_pre_keys `{JniPreKeyStore} : RelatedPreKeys same_kept always.
Proof.
  split; intros; apply in_store_kept.
  - unfold JniPreKeyStore.do_get_pre_key. kept.
  - unfold JniPreKeyStore.do_remove_pre_key. kept.
Qed.

#[export] Instance kept_signed_pre_keys `{JniSignedPreKeyStore} : RelatedSignedPreKeys same_kept always.
Proof. split; intros; apply in_store_kept. unfold JniSignedPreKeyStore.do_get_signed_pre_key. kept. Qed.

#[export] Instance kept_sender_keys `{JniSenderKeyStore} : RelatedSenderKeys same_kept always.
Proof.
  split; intros; apply in_store_kept.
  - unfold JniSenderKeyStore.do_load_sender_key. kept.
  - unfold JniSenderKeyStore.do_store_sender_key. kept.
Qed.

Lemma kept_new_identity_store o : kept (E:=E) p c (JniIdentityKeyStore.new o).
Proof. unfold JniIdentityKeyStore.new. kept. Qed.
Lemma kept_new_session_store o : kept (E:=E) p c (JniSessionStore.new o).
Proof. unfold JniSessionStore.new. kept. Qed.
Lemma kept_new_pre_key_store o : kept (E:=E) p c (JniPreKeyStore.new o).
Proof. unfold JniPreKeyStore.new. kept. Qed.
Lemma kept_new_signed_pre_key_store o : kept (E:=E) p c (JniSignedPreKeyStore.new o).
Proof. unfold JniSignedPreKeyStore.new. kept. Qed.
Lemma kept_new_sender_key_store o : kept (E:=E) p c (JniSenderKeyStore.new o).
Proof. unfold JniSenderKeyStore.new. kept. Qed.
End FrameStores.

#[export] Hint Resolve kept_expect_ready kept_new_identity_store kept_new_session_store
  kept_new_pre_key_store kept_new_signed_pre_key_store kept_new_sender_key_store
  related_process_prekey_bundle related_message_encrypt related_message_decrypt_signal
  related_message_decrypt_prekey related_group_encrypt related_group_decrypt
  related_process_distribution related_create_distribution
  kept_rng kept_sessions kept_identities kept_pre_keys kept_signed_pre_keys
  kept_sender_keys : kept.

(** * The guard *)

Section Guard.
Context {E J R : Type} `{!JNIEnv E J, Platform, !JniDummyValue R}.

(** How a native method ends: with a value, or with undefined behaviour. *)
Definition returns (f : JniM E J R) : Prop :=
  forall s, (f s).1 = Err Undefined \/ exists v, (f s).1 = Ok v.

Lemma throw_and_return `{!ThrowsSafely E (J:=J)} e (s : Memory * J) :
  (let! _ := throw_error e in st_ret dummy_value) s
  = (Ok dummy_value : outcome (Stop (SignalJniError E)) R, (throw_error e s).2).
Proof.
  pose proof (throw_error_eq e s (throw_new_no_panic _ _ s)) as Ht.
  rewrite Ht. exact (st_bind_eq _ _ _ _ _ Ht).
Qed.

Lemma jni_run_ffi_safe_returns `{!ThrowsSafely E (J:=J)} (f : JniM E J R) : returns (run_ffi_safe f).
Proof.
  intros s. unfold run_ffi_safe. destruct (f s) as [[r|[e|]|] s'];
    [right; by eexists| |by left|]; right; exists dummy_value; by rewrite throw_and_return.
Qed.

(** A native method that keeps the cell [c] at [p]. *)
Definition contained (p : Ptr) (c : Cell) (f : JniM E J R) : Prop :=
  forall s v s', f s = (Ok v, s') -> s.1 !! p = Some c -> s'.1 !! p = Some c.

Lemma jni_run_ffi_safe_contained `{!AllocLaws} p c `{!JavaKeeps E p c} (f : JniM E J R) :
  kept p c f -> contained p c (run_ffi_safe f).
Proof.
  intros Hf s v s'' Hr Hs. specialize (Hf s Hs). revert Hr. unfold run_ffi_safe.
  destruct (f s) as [[r|[e|]|] s'] eqn:Heq; rewrite ?throw_and_return; intros [= _ <-]; [done|..];
    by apply kept_throw_error.
Qed.
End Guard.
