(* ===== verification/JniApi.v ===== *)
(** The Java interface as a whole: the native methods, the traces of a Java program
    that calls them, and what the objects it holds handles to go through. *)

From S2P Require Import Prelude Error Crates Crypto Curve IdentityKey Proto Protocol RatchetKeys SessionState Ratchet.
From S2P Require Import PreKeys SenderKeys Fingerprint Storage StoreAccess Session SessionCipher GroupCipher StoreSimulation.
From S2P Require Import BridgeMemory JniUtil JniStores JniEntry JniSession JniSpec JniFrame.

Section Api.
Context {E J : Type} `{!JNIEnv E J, Platform, BuildConfig, Crates, ProtoCodecs, !OsRng J}.

(** A constructor for each macro, with any type and function it is used at, and one
    for each native method that is written out; the list has the handles that the
    method destroys the object of. *)
Inductive native : list Ptr -> forall R : Type, JniM E J R -> Prop :=
  | native_destroy T `{Boxable T} p : native [p] unit (jni_fn_destroy T p)
  | native_deserialize T `{Boxable T} func data :
      native [] Z (jni_fn_deserialize (T:=T) func data)
  | native_new_boxed_obj R T `{Boxable R, Boxable T} body p :
      native [] Z (jni_fn_get_new_boxed_obj (R:=R) (T:=T) body p)
  | native_new_boxed_optional_obj R T `{Boxable R, Boxable T} body p :
      native [] Z (jni_fn_get_new_boxed_optional_obj (R:=R) (T:=T) body p)
  | native_get_jint T `{Boxable T} body p : native [] Z (jni_fn_get_jint (T:=T) body p)
  | native_get_jboolean T `{Boxable T} body p : native [] Z (jni_fn_get_jboolean (T:=T) body p)
  | native_get_jstring T `{Boxable T} body p : native [] Z (jni_fn_get_jstring (T:=T) body p)
  | native_get_jbytearray T `{Boxable T} body p :
      native [] Z (jni_fn_get_jbytearray (T:=T) body p)
  | native_protocol_address_new name device_id :
      native [] Z (Native.ProtocolAddress_New name device_id)
  | native_ec_public_key_deserialize data offset :
      native [] Z (Native.ECPublicKey_Deserialize data offset)
  | native_ec_public_key_compare key1 key2 :
      native [] Z (Native.ECPublicKey_Compare key1 key2)
  | native_ec_public_key_verify handle message signature :
      native [] Z (Native.ECPublicKey_Verify handle message signature)
  | native_ec_private_key_generate : native [] Z Native.ECPrivateKey_Generate
  | native_ec_private_key_sign handle message :
      native [] Z (Native.ECPrivateKey_Sign handle message)
  | native_ec_private_key_agree private_key_handle public_key_handle :
      native [] Z (Native.ECPrivateKey_Agree private_key_handle public_key_handle)
  | native_identity_key_pair_serialize public_key_handle private_key_handle :
      native [] Z (Native.IdentityKeyPair_Serialize public_key_handle private_key_handle)
  | native_displayable_fingerprint_format local remote :
      native [] Z (Native.DisplayableFingerprint_Format local remote)
  | native_numeric_fingerprint_generator_new iterations version local_identifier local_key
      remote_identifier remote_key :
      native [] Z (Native.NumericFingerprintGenerator_New iterations version local_identifier
          local_key remote_identifier remote_key)
  | native_scannable_fingerprint_compare fprint1 fprint2 :
      native [] Z (Native.ScannableFingerprint_Compare fprint1 fprint2)
  | native_hkdf_derive_secrets version input_key_material salt info output_length :
      native [] Z (Native.HKDF_DeriveSecrets version input_key_material salt info output_length)
  | native_signal_message_new message_version mac_key sender_ratchet_key counter previous_counter
      ciphertext sender_identity_key receiver_identity_key :
      native [] Z (Native.SignalMessage_New message_version mac_key sender_ratchet_key counter
          previous_counter ciphertext sender_identity_key receiver_identity_key)
  | native_signal_message_verify_mac handle sender_identity_key receiver_identity_key mac_key :
      native [] Z (Native.SignalMessage_VerifyMac handle sender_identity_key
          receiver_identity_key mac_key)
  | native_pre_key_signal_message_new message_version registration_id pre_key_id
      signed_pre_key_id base_key_handle identity_key_handle signal_message_handle :
      native [] Z (Native.PreKeySignalMessage_New message_version registration_id pre_key_id
          signed_pre_key_id base_key_handle identity_key_handle signal_message_handle)
  | native_pre_key_signal_message_get_pre_key_id handle :
      native [] Z (Native.PreKeySignalMessage_GetPreKeyId handle)
  | native_sender_key_message_new key_id iteration ciphertext pk_handle :
      native [] Z (Native.SenderKeyMessage_New key_id iteration ciphertext pk_handle)
  | native_sender_key_message_verify_signature handle pubkey_handle :
      native [] Z (Native.SenderKeyMessage_VerifySignature handle pubkey_handle)
  | native_sender_key_distribution_message_new key_id iteration chainkey pk_handle :
      native [] Z (Native.SenderKeyDistributionMessage_New key_id iteration chainkey pk_handle)
  | native_pre_key_bundle_new registration_id device_id prekey_id prekey_handle signed_prekey_id
      signed_prekey_handle signed_prekey_signature identity_key_handle :
      native [] Z (Native.PreKeyBundle_New registration_id device_id prekey_id prekey_handle
          signed_prekey_id signed_prekey_handle signed_prekey_signature identity_key_handle)
  | native_pre_key_bundle_get_pre_key_id handle :
      native [] Z (Native.PreKeyBundle_GetPreKeyId handle)
  | native_signed_pre_key_record_new id timestamp pub_key_handle priv_key_handle signature :
      native [] Z (Native.SignedPreKeyRecord_New id timestamp pub_key_handle priv_key_handle
          signature)
  | native_signed_pre_key_record_get_timestamp handle :
      native [] Z (Native.SignedPreKeyRecord_GetTimestamp handle)
  | native_pre_key_record_new id pub_key_handle priv_key_handle :
      native [] Z (Native.PreKeyRecord_New id pub_key_handle priv_key_handle)
  | native_sender_key_name_new group_id sender_name sender_device_id :
      native [] Z (Native.SenderKeyName_New group_id sender_name sender_device_id)
  | native_sender_key_record_new : native [] Z Native.SenderKeyRecord_New
  | native_session_builder_process_pre_key_bundle bundle protocol_address session_store
      identity_key_store :
      native [] unit (NativeStores.SessionBuilder_ProcessPreKeyBundle bundle protocol_address
          session_store identity_key_store)
  | native_session_cipher_encrypt_message message protocol_address session_store
      identity_key_store :
      native [] Z (NativeStores.SessionCipher_EncryptMessage message protocol_address
          session_store identity_key_store)
  | native_session_cipher_decrypt_signal_message message protocol_address session_store
      identity_key_store :
      native [] Z (NativeStores.SessionCipher_DecryptSignalMessage message protocol_address
          session_store identity_key_store)
  | native_session_cipher_decrypt_pre_key_signal_message message protocol_address session_store
      identity_key_store prekey_store signed_prekey_store :
      native [] Z (NativeStores.SessionCipher_DecryptPreKeySignalMessage message protocol_address
          session_store identity_key_store prekey_store signed_prekey_store)
  | native_group_session_builder_create_sender_key_distribution_message sender_key_name store :
      native [] Z (NativeStores.GroupSessionBuilder_CreateSenderKeyDistributionMessage
          sender_key_name store)
  | native_group_session_builder_process_sender_key_distribution_message sender_key_name
      sender_key_distribution_message store :
      native [] unit (NativeStores.GroupSessionBuilder_ProcessSenderKeyDistributionMessage
          sender_key_name sender_key_distribution_message store)
  | native_group_cipher_encrypt_message sender_key_name message store :
      native [] Z (NativeStores.GroupCipher_EncryptMessage sender_key_name message store)
  | native_group_cipher_decrypt_message sender_key_name message store :
      native [] Z (NativeStores.GroupCipher_DecryptMessage sender_key_name message store)
  | native_session_state_initialize_alice_session identity_key_private identity_key_public
      base_private base_public their_identity_key their_signed_prekey their_ratchet_key :
      native [] Z (NativeStores.SessionState_InitializeAliceSession identity_key_private
          identity_key_public base_private base_public their_identity_key their_signed_prekey
              their_ratchet_key)
  | native_session_state_initialize_bob_session identity_key_private identity_key_public
      signed_prekey_private signed_prekey_public eph_private eph_public their_identity_key
          their_base_key :
      native [] Z (NativeStores.SessionState_InitializeBobSession identity_key_private
          identity_key_public signed_prekey_private signed_prekey_public eph_private eph_public
              their_identity_key their_base_key).

Context `{!AllocLaws}.

#[local] Hint Extern 4 (RelatedRng _ _) => apply kept_rng : kept.

(** Destroying checks nothing but null. *)
Lemma destroy_cases T `{Boxable T} q (s : Memory * J) :
  jni_fn_destroy (E:=E) T q s = (Err Undefined, s) \/
  exists s', jni_fn_destroy (E:=E) T q s = (Ok tt, s') /\ (s' = s \/ s' = (delete q s.1, s.2)).
Proof.
  unfold jni_fn_destroy. destruct (q =? 0)%Z; cbn [negb]; [right; eexists; by split; [|left]|].
  unfold box_drop, st_bind, deref_object, deref, st_bind, st_gets, undefined, st_lift.
  destruct (is_null q); [by left|]. destruct (s.1 !! q) as [[o| | | |]|]; cbn; try by left.
  destruct (project o) as [x|]; cbn; [|by left]. right. eexists. by split; [|right].
Qed.

Lemma native_returns `{!ThrowsSafely E (J:=J)} ps R (f : JniM E J R) : native ps R f -> returns f.
Proof.
  intros Hf. destruct Hf; try apply jni_run_ffi_safe_returns.
  intros s. destruct (destroy_cases T p s) as [->|(s' & -> & _)]; [by left|right; by eexists].
Qed.

Lemma destroy_contained T `{Boxable T} q p c : q <> p -> contained p c (jni_fn_destroy (E:=E) (J:=J) T q).
Proof.
  intros Hq s v s'' Hs Hc. destruct (destroy_cases T q s) as [Hd|(s' & Hd & Hs')]; rewrite Hd in Hs; [done|].
  injection Hs as _ <-. destruct Hs' as [->| ->]; [done|]. cbn. by rewrite lookup_delete_ne.
Qed.

Lemma native_contained ps R (f : JniM E J R) p c :
  native ps R f -> JavaKeeps E p c -> p ∉ ps -> contained p c f.
Proof.
  intros Hf Hk Hp. destruct Hf; [apply destroy_contained; set_solver|..];
    (apply jni_run_ffi_safe_contained; [exact Hk|]); cbv zeta; kept.
Qed.

(** * Traces

    A Java program calls native methods, whose behaviour is defined, and does, in between, what does not concern
    the native memory; the list has the handles it destroys. *)
Inductive java_trace : list Ptr -> Memory * J -> Memory * J -> Prop :=
  | java_done s : java_trace [] s s
  | java_call ps qs R (f : JniM E J R) s1 v s2 s3 :
      native ps R f -> f s1 = (Ok v, s2) -> java_trace qs s2 s3 -> java_trace (ps ++ qs) s1 s3
  | java_step qs m j1 j2 s3 :
      java_trace qs (m, j2) s3 -> java_trace qs (m, j1) s3.

(** C20: no native method lets a panic into the virtual machine.  Called with any
    arguments it returns a value, or is undefined behaviour (a number that is no
    handle to an object of the type, about which nothing is said); this needs only
    that the machine can be told to throw.  And a handle stays good: along every
    trace of a Java program of such calls whose methods, when they are called back,
    keep the object, it is the same until the program destroys it. *)
Theorem java_handles_survive ps s s' p T `{Boxable T} (x : T) :
  (ThrowsSafely E (J:=J) -> forall qs R (f : JniM E J R) s1, native qs R f ->
     (f s1).1 = Err Undefined \/ exists v, (f s1).1 = Ok v) /\
  (JavaKeeps E p (Boxed (inject x)) ->
   java_trace ps s s' -> s.1 !! p = Some (Boxed (inject x)) -> p ∉ ps -> p <> 0%Z ->
   native_handle_cast (E:=E) T p s' = (Ok x, s')).
Proof.
  split; [intros Ht qs R f s1 Hf; by apply (native_returns qs)|].
  intros Hk Htr Hs Hp Hnull. assert (Hs' : s'.1 !! p = Some (Boxed (inject x))).
  { induction Htr as [s|qs rs R f s1 v s2 s3 Hf Heq _ IH|qs m j1 j2 s3 _ IH]; [done| |by apply IH].
    rewrite elem_of_app in Hp. apply IH; [|tauto].
    exact (native_contained _ _ f p _ Hf Hk ltac:(tauto) s1 v s2 Heq Hs). }
  destruct s' as [m' j']. by apply jni_handle_cast_eq.
Qed.
End Api.
