(* ===== verification/JniProgram.v ===== *)
(** What the Java interface relies on of the virtual machine and of a Java program
    and its stores, and the steps that the operations of the stores are made of. *)

From S2P Require Import Prelude Error Crates Curve IdentityKey Proto Protocol PreKeys SessionState SenderKeys Storage.
From S2P Require Import BridgeMemory FfiSpec JniUtil JniStores JniSpec.

(** * Classes and methods of the Java program *)

Definition address_class : string := "org/whispersystems/libsignal/SignalProtocolAddress".
Definition session_class : string := "org/whispersystems/libsignal/state/SessionRecord".
Definition identity_class : string := "org/whispersystems/libsignal/IdentityKey".
Definition direction_class : string :=
  "org/whispersystems/libsignal/state/IdentityKeyStore$Direction".

Definition sender_key_name_class : string := "org/whispersystems/libsignal/groups/SenderKeyName".
Definition sender_key_record_class : string :=
  "org/whispersystems/libsignal/groups/state/SenderKeyRecord".
Definition signal_message_class : string := "org/whispersystems/libsignal/protocol/SignalMessage".
Definition pre_key_message_class : string :=
  "org/whispersystems/libsignal/protocol/PreKeySignalMessage".

Definition pre_key_class : string := "org/whispersystems/libsignal/state/PreKeyRecord".
Definition signed_pre_key_class : string := "org/whispersystems/libsignal/state/SignedPreKeyRecord".
Definition key_pair_class : string := "org/whispersystems/libsignal/IdentityKeyPair".

(** The interface that each store object implements. *)
Definition store_classes (so io po spo ko : jobject) : list (jobject * string) :=
  [(so, "org/whispersystems/libsignal/state/SessionStore");
   (io, "org/whispersystems/libsignal/state/IdentityKeyStore");
   (po, "org/whispersystems/libsignal/state/PreKeyStore");
   (spo, "org/whispersystems/libsignal/state/SignedPreKeyStore");
   (ko, "org/whispersystems/libsignal/groups/state/SenderKeyStore")].

(** The classes that the native methods ask for and that the program has. *)
Definition program_classes : list string :=
  [address_class; session_class; identity_class; direction_class; sender_key_name_class;
   sender_key_record_class; signal_message_class; pre_key_message_class]
  ++ map snd (store_classes 0 0 0 0 0).

Lemma store_class_known so io po spo ko o class :
  (o, class) ∈ store_classes so io po spo ko -> class ∈ program_classes.
Proof.
  intros Ho. apply elem_of_app. right. change class with (o, class).2.
  change (map snd (store_classes 0 0 0 0 0)) with (map snd (store_classes so io po spo ko)).
  by apply list_elem_of_fmap_2.
Qed.

Ltac known_class := unfold program_classes; set_solver.

(** Types of Java, and the signature by which the virtual machine finds a method that
    is declared with such arguments and such a result. *)
Inductive JavaType := TypeVoid | TypeBoolean | TypeInt | TypeObject (class : string).

Definition descriptor (t : JavaType) : string :=
  match t with
  | TypeVoid => "V"
  | TypeBoolean => "Z"
  | TypeInt => "I"
  | TypeObject class => "L" +:+ class +:+ ";"
  end.

Definition method_sig (args : list JavaType) (result : JavaType) : string :=
  "(" +:+ String.concat "" (map descriptor args) +:+ ")" +:+ descriptor result.

(** * Objects *)

(** The Java objects that matter here.  A session record and an identity key are the
    bytes that they were made from; a pre-key, a record of sender keys, or a message is
    the native object that it has a handle to. *)
Inductive JavaObject :=
  | JavaClass (name : string)
  | JavaString (x : string)
  | JavaBytes (b : bytes)
  | JavaAddress (name : string) (device_id : Z)
  | JavaSession (b : bytes)
  | JavaIdentity (b : bytes)
  | JavaKeyPair (kp : IdentityKeyPair)
  | JavaDirection (d : Direction)
  | JavaPreKey (r : PreKeyRecord)
  | JavaSignedPreKey (r : SignedPreKeyRecord)
  | JavaSenderKeyName (group sender : string) (device_id : Z)
  | JavaSenderKeys (r : SenderKeyRecord)
  | JavaSignalMessage (m : SignalMessage)
  | JavaPreKeyMessage (m : PreKeySignalMessage).

(** What the constructor of a class makes of a handle. *)
Definition from_handle (m : Memory) (class : string) (h : Ptr) (v : JavaObject) : Prop :=
  match v with
  | JavaSenderKeys r => class = sender_key_record_class /\ handle m h r
  | JavaSignalMessage x => class = signal_message_class /\ handle m h x
  | JavaPreKeyMessage x => class = pre_key_message_class /\ handle m h x
  | _ => False
  end.

(** Native objects stay. *)
Definition objects_stay (m m' : Memory) : Prop := forall p c, m !! p = Some c -> m' !! p = Some c.

(** What the stores of a device keep apart from sessions and identities. *)
Record JavaDevice := mk_device {
  device_identity : IdentityKeyPair;
  device_registration_id : Z;
  device_pre_keys : gmap Z PreKeyRecord;
  device_signed_pre_keys : gmap Z SignedPreKeyRecord;
}.

Definition without_pre_key (id : Z) (d : JavaDevice) : JavaDevice :=
  mk_device (device_identity d) (device_registration_id d) (delete id (device_pre_keys d))
    (device_signed_pre_keys d).

(** What is seen of a state of the machine: the object behind a reference, what the
    stores keep, and whether no exception is pending. *)
Class JavaView (J : Type) := {
  look : Memory * J -> jobject -> option JavaObject;
  java_sessions : Memory * J -> string * Z -> option bytes;
  java_identities : Memory * J -> string * Z -> option bytes;
  java_sender_keys : Memory * J -> string * string * Z -> option bytes;
  java_device : Memory * J -> JavaDevice;
  quiet : Memory * J -> Prop;
}.

Section View.
Context {J : Type} `{!JavaView J, Crates, !OsRng J}.

(** What the stores keep stays as it is. *)
Definition same_sessions (s s' : Memory * J) : Prop := forall k, java_sessions s' k = java_sessions s k.
Definition same_identities (s s' : Memory * J) : Prop :=
  forall k, java_identities s' k = java_identities s k.
Definition same_sender_keys (s s' : Memory * J) : Prop :=
  forall k, java_sender_keys s' k = java_sender_keys s k.

(** Objects are there to stay, and nothing else of what is seen changes. *)
Record grows (s s' : Memory * J) : Prop := {
  grows_look : forall o v, look s o = Some v -> look s' o = Some v;
  grows_sessions : same_sessions s s';
  grows_identities : same_identities s s';
  grows_sender_keys : same_sender_keys s s';
  grows_device : java_device s' = java_device s;
  grows_random : os_rng s'.2 = os_rng s.2;
  grows_quiet : quiet s -> quiet s';
}.

#[export] Instance grows_preorder : PreOrder grows.
Proof.
  split; [by split|]. intros s1 s2 s3 [] []. unfold same_sessions, same_identities, same_sender_keys in *.
  split; [auto|intros k; congruence|intros k; congruence|intros k; congruence|congruence|congruence|auto].
Qed.
End View.

(** The unsigned numbers that are numbers of Java as well. *)
Definition fits_int (z : Z) : Prop := (0 <= z < 2147483648)%Z.

Lemma fits_int_u32 z : fits_int z -> is_u32 z.
Proof. unfold fits_int, is_u32, u32_max. lia. Qed.

Lemma as_jint_fits z : fits_int z -> as_jint z = z.
Proof.
  intros Hz. rewrite as_jint_cases by by apply fits_int_u32. unfold fits_int in Hz.
  destruct (Z.ltb_spec z 2147483648); lia.
Qed.

(** The record of a new Java [SessionRecord]: its current session has no field set. *)
Definition new_session : SessionState :=
  SessionState.new (SessionStructure.mk 0 [] [] [] 0 None [] None 0 0 false []).
Definition new_session_record : SessionRecord := SessionRecord.mk (Some new_session) [].

(** The virtual machine finds the classes of the program, and makes strings, arrays and
    objects.  The constructors of the
    Java classes keep what they are made from, and [serialize] gives bytes that parse
    to the same; the Java [SessionRecord] always has a current session, so this is so
    for a record that has one.  The constructors of an address and of a name of sender
    keys pass the device id to the native methods that make them, which refuse a negative
    one.  A pre-key, a record of sender keys, or a message has a handle to its native
    object.  An exception that is thrown, or that comes of throwing it, is gone when it
    is caught.  None of this takes
    random bytes, to find a class, to read an array and to catch an exception destroy no
    native object, and Java does not see that one is allocated. *)
Class JavaLaws (E : Type) {J : Type} `{!JNIEnv E J, !JavaView J, Crates, ProtoCodecs, !OsRng J}
    : Prop := {
  java_find_class : forall n (s : Memory * J), n ∈ program_classes -> exists o s',
    JNIEnv.find_class (E:=E) n s = (Ok o, s') /\ look s' o = Some (JavaClass n) /\ grows s s' /\
    objects_stay s.1 s'.1;
  java_new_string : forall x (s : Memory * J), exists o s',
    JNIEnv.new_string (E:=E) x s = (Ok o, s') /\ look s' o = Some (JavaString x) /\ grows s s';
  java_new_array : forall b (s : Memory * J), (Z.of_nat (length b) < 2147483648)%Z ->
    exists o s1 s2, o <> 0%Z /\
      JNIEnv.new_byte_array (E:=E) (Z.of_nat (length b)) s = (Ok o, s1) /\
      JNIEnv.set_byte_array_region (E:=E) o 0 (map (fun i => as_i8 (u8_val i)) b) s1
        = (Ok tt, s2) /\
      look s2 o = Some (JavaBytes b) /\ grows s s2;
  java_convert : forall o b (s : Memory * J), look s o = Some (JavaBytes b) -> exists s',
    JNIEnv.convert_byte_array (E:=E) o s = (Ok b, s') /\ grows s s' /\ objects_stay s.1 s'.1;
  java_new_address : forall k o n i (s : Memory * J),
    look s k = Some (JavaClass address_class) -> look s o = Some (JavaString n) -> (0 <= i)%Z ->
    exists a s', JNIEnv.new_object (E:=E) k "(Ljava/lang/String;I)V" [JObject o; JInt i] s
        = (Ok a, s') /\ look s' a = Some (JavaAddress n i) /\ grows s s';
  java_no_new_address : forall k o n i (s : Memory * J),
    look s k = Some (JavaClass address_class) -> look s o = Some (JavaString n) -> (i < 0)%Z ->
    exists e s', JNIEnv.new_object (E:=E) k "(Ljava/lang/String;I)V" [JObject o; JInt i] s = (Err e, s');
  java_new_session : forall k a b r (s : Memory * J),
    look s k = Some (JavaClass session_class) -> look s a = Some (JavaBytes b) ->
    SessionRecord.deserialize b = Ok r ->
    exists o s', JNIEnv.new_object (E:=E) k "([B)V" [JObject a] s = (Ok o, s') /\
      look s' o = Some (JavaSession b) /\ grows s s';
  java_new_identity : forall k a b i (s : Memory * J),
    look s k = Some (JavaClass identity_class) -> look s a = Some (JavaBytes b) ->
    IdentityKey.decode b = Ok i ->
    exists o s', JNIEnv.new_object (E:=E) k "([B)V" [JObject a] s = (Ok o, s') /\
      look s' o = Some (JavaIdentity b) /\ grows s s';
  java_quiet : forall (s : Memory * J), quiet s ->
    exists s', JNIEnv.exception_check (E:=E) s = (Ok false, s') /\ s'.1 = s.1 /\ grows s s';
  java_session_bytes : forall o b r (s : Memory * J), look s o = Some (JavaSession b) ->
    SessionRecord.deserialize b = Ok r -> is_Some (SessionRecord.current_session r) ->
    exists a b' s', JNIEnv.call_method (E:=E) o "serialize" "()[B" [] s = (Ok (JObject a), s') /\
      look s' a = Some (JavaBytes b') /\ SessionRecord.deserialize b' = Ok r /\ grows s s';
  java_key_pair_bytes : forall o kp (s : Memory * J), look s o = Some (JavaKeyPair kp) ->
    IdentityKeyPair.try_from (IdentityKeyPair.serialize kp) = Ok kp ->
    exists a b s', JNIEnv.call_method (E:=E) o "serialize" "()[B" [] s = (Ok (JObject a), s') /\
      look s' a = Some (JavaBytes b) /\ IdentityKeyPair.try_from b = Ok kp /\ grows s s';
  java_pre_key_handle : forall o r (s : Memory * J), look s o = Some (JavaPreKey r) ->
    exists h s', JNIEnv.call_method (E:=E) o "nativeHandle" "()J" [] s = (Ok (JLong h), s') /\
      handle s'.1 h r /\ grows s s';
  java_signed_pre_key_handle : forall o r (s : Memory * J), look s o = Some (JavaSignedPreKey r) ->
    exists h s', JNIEnv.call_method (E:=E) o "nativeHandle" "()J" [] s = (Ok (JLong h), s') /\
      handle s'.1 h r /\ grows s s';
  java_direction : forall k d (s : Memory * J), look s k = Some (JavaClass direction_class) ->
    exists o s', JNIEnv.get_static_field (E:=E) k
        match d with Sending => "SENDING" | Receiving => "RECEIVING" end
        "Lorg/whispersystems/libsignal/state/IdentityKeyStore$Direction;" s = (Ok (JObject o), s') /\
      look s' o = Some (JavaDirection d) /\ grows s s';
  java_identity_bytes : forall o b (s : Memory * J), look s o = Some (JavaIdentity b) ->
    exists a b' s', JNIEnv.call_method (E:=E) o "serialize" "()[B" [] s = (Ok (JObject a), s') /\
      look s' a = Some (JavaBytes b') /\
      IdentityKey.decode b' = IdentityKey.decode b /\ grows s s';
  java_new_sender_key_name : forall k g n group sender i (s : Memory * J),
    look s k = Some (JavaClass sender_key_name_class) ->
    look s g = Some (JavaString group) -> look s n = Some (JavaString sender) -> (0 <= i)%Z ->
    exists o s', JNIEnv.new_object (E:=E) k "(Ljava/lang/String;Ljava/lang/String;I)V"
        [JObject g; JObject n; JInt i] s = (Ok o, s') /\
      look s' o = Some (JavaSenderKeyName group sender i) /\ grows s s';
  java_new_from_handle : forall k class h v (s : Memory * J),
    look s k = Some (JavaClass class) -> from_handle s.1 class h v ->
    exists o s', JNIEnv.new_object (E:=E) k "(J)V" [JLong h] s = (Ok o, s') /\
      o <> 0%Z /\ look s' o = Some v /\ grows s s';
  java_sender_keys_handle : forall o r (s : Memory * J), look s o = Some (JavaSenderKeys r) ->
    exists h s', JNIEnv.call_method (E:=E) o "nativeHandle" "()J" [] s = (Ok (JLong h), s') /\
      handle s'.1 h r /\ grows s s';
  java_native_object : forall p c (m : Memory) (j : J), m !! p = None ->
    grows (m, j) (<[p := c]> m, j);
  java_throw_caught : forall class msg (s : Memory * J),
    (JNIEnv.throw_new (E:=E) class msg s).1 <> Panic /\
    exists s', JNIEnv.exception_clear (E:=E) (JNIEnv.throw_new (E:=E) class msg s).2 = (Ok tt, s') /\
      grows s s' /\ objects_stay s.1 s'.1;
  java_random_is_random : forall c (j : J), os_rng (set_os_rng c j) = c;
  java_random_is_apart : forall c (m : Memory) (j : J),
    (forall o, look (m, set_os_rng c j) o = look (m, j) o) /\
    same_sessions (m, j) (m, set_os_rng c j) /\ same_identities (m, j) (m, set_os_rng c j) /\
    same_sender_keys (m, j) (m, set_os_rng c j) /\
    java_device (m, set_os_rng c j) = java_device (m, j) /\
    (quiet (m, j) -> quiet (m, set_os_rng c j));
}.

(** The contracts of the store objects [so] (sessions), [io] (identities), [po]
    (pre-keys), [spo] (signed pre-keys) and [ko] (sender keys), as the Java interfaces
    declare and document them: a method is found by its name and the signature that it is
    declared with, and by no other; they are maps; for an address that it has no session for, a
    [SessionStore] answers with a new record, as does a [SenderKeyStore] for a name that
    it has no sender keys for, and an [IdentityKeyStore] with null; an identity is
    trusted on first use. *)
Class JavaStoreLaws (E : Type) {J : Type} `{!JNIEnv E J, !JavaView J, Crates, ProtoCodecs, !OsRng J}
    (so io po spo ko : jobject) : Prop := {
  java_store_class : forall o class k (s : Memory * J),
    (o, class) ∈ store_classes so io po spo ko -> look s k = Some (JavaClass class) ->
    o <> 0%Z /\ exists s', JNIEnv.is_instance_of (E:=E) o k s = (Ok true, s') /\ grows s s';
  java_store_session : forall a n i o b r (s : Memory * J),
    look s a = Some (JavaAddress n i) -> look s o = Some (JavaSession b) -> quiet s ->
    SessionRecord.deserialize b = Ok r -> is_Some (SessionRecord.current_session r) ->
    exists v b' s', JNIEnv.call_method (E:=E) so "storeSession"
        (method_sig [TypeObject address_class; TypeObject session_class] TypeVoid) [JObject a; JObject o] s
        = (Ok v, s') /\
      java_sessions s' (n, i) = Some b' /\ SessionRecord.deserialize b' = Ok r /\
      (forall k, k <> (n, i) -> java_sessions s' k = java_sessions s k) /\
      same_identities s s' /\ same_sender_keys s s' /\
      java_device s' = java_device s /\ os_rng s'.2 = os_rng s.2 /\ quiet s';
  java_load_session : forall a n i b (s : Memory * J),
    look s a = Some (JavaAddress n i) -> java_sessions s (n, i) = Some b ->
    exists o s', JNIEnv.call_method (E:=E) so "loadSession"
        (method_sig [TypeObject address_class] (TypeObject session_class)) [JObject a] s
        = (Ok (JObject o), s') /\ o <> 0%Z /\ look s' o = Some (JavaSession b) /\ grows s s';
  java_load_new_session : forall a n i (s : Memory * J),
    look s a = Some (JavaAddress n i) -> java_sessions s (n, i) = None ->
    exists o b s', JNIEnv.call_method (E:=E) so "loadSession"
        (method_sig [TypeObject address_class] (TypeObject session_class)) [JObject a] s
        = (Ok (JObject o), s') /\ o <> 0%Z /\ look s' o = Some (JavaSession b) /\
      SessionRecord.deserialize b = Ok new_session_record /\ grows s s';
  java_save_identity : forall a n i o b (s : Memory * J),
    look s a = Some (JavaAddress n i) -> look s o = Some (JavaIdentity b) -> quiet s ->
    exists v b' s', JNIEnv.call_method (E:=E) io "saveIdentity"
        (method_sig [TypeObject address_class; TypeObject identity_class] TypeBoolean) [JObject a; JObject o] s
        = (Ok (JBool v), s') /\
      (v <> 0%Z <-> exists b0, java_identities s (n, i) = Some b0 /\
         IdentityKey.decode b0 <> IdentityKey.decode b) /\
      java_identities s' (n, i) = Some b' /\ IdentityKey.decode b' = IdentityKey.decode b /\
      (forall k, k <> (n, i) -> java_identities s' k = java_identities s k) /\
      same_sessions s s' /\ same_sender_keys s s' /\
      java_device s' = java_device s /\ os_rng s'.2 = os_rng s.2 /\ quiet s';
  java_get_no_identity : forall a n i (s : Memory * J),
    look s a = Some (JavaAddress n i) -> java_identities s (n, i) = None ->
    exists s', JNIEnv.call_method (E:=E) io "getIdentity"
        (method_sig [TypeObject address_class] (TypeObject identity_class)) [JObject a] s
        = (Ok (JObject 0%Z), s') /\ grows s s';
  java_get_identity : forall a n i b (s : Memory * J),
    look s a = Some (JavaAddress n i) -> java_identities s (n, i) = Some b ->
    exists o s', JNIEnv.call_method (E:=E) io "getIdentity"
        (method_sig [TypeObject address_class] (TypeObject identity_class)) [JObject a] s
        = (Ok (JObject o), s') /\ o <> 0%Z /\ look s' o = Some (JavaIdentity b) /\ grows s s';
  java_is_trusted : forall a n i o b p d (s : Memory * J),
    look s a = Some (JavaAddress n i) -> look s o = Some (JavaIdentity b) ->
    look s p = Some (JavaDirection d) ->
    exists v s', JNIEnv.call_method (E:=E) io "isTrustedIdentity"
        (method_sig [TypeObject address_class; TypeObject identity_class; TypeObject direction_class] TypeBoolean) [JObject a; JObject o; JObject p] s
        = (Ok (JBool v), s') /\
      (v <> 0%Z <-> match java_identities s (n, i) with
                    | Some b0 => IdentityKey.decode b0 = IdentityKey.decode b
                    | None => True
                    end) /\ grows s s';
  java_own_identity : forall (s : Memory * J), exists o s',
    JNIEnv.call_method (E:=E) io "getIdentityKeyPair"
        (method_sig [] (TypeObject key_pair_class)) [] s = (Ok (JObject o), s') /\
    o <> 0%Z /\ look s' o = Some (JavaKeyPair (device_identity (java_device s))) /\ grows s s';
  java_own_registration_id : forall (s : Memory * J), exists s',
    JNIEnv.call_method (E:=E) io "getLocalRegistrationId"
        (method_sig [] TypeInt) [] s
      = (Ok (JInt (device_registration_id (java_device s))), s') /\ grows s s';
  java_load_pre_key : forall i r (s : Memory * J),
    device_pre_keys (java_device s) !! i = Some r ->
    exists o s', JNIEnv.call_method (E:=E) po "loadPreKey"
        (method_sig [TypeInt] (TypeObject pre_key_class)) [JInt i] s = (Ok (JObject o), s') /\
      o <> 0%Z /\ look s' o = Some (JavaPreKey r) /\ grows s s';
  java_remove_pre_key : forall i (s : Memory * J), quiet s ->
    exists v s', JNIEnv.call_method (E:=E) po "removePreKey"
        (method_sig [TypeInt] TypeVoid) [JInt i] s = (Ok v, s') /\
      same_sessions s s' /\ same_identities s s' /\ same_sender_keys s s' /\
      java_device s' = without_pre_key i (java_device s) /\ os_rng s'.2 = os_rng s.2 /\ quiet s';
  java_load_signed_pre_key : forall i r (s : Memory * J),
    device_signed_pre_keys (java_device s) !! i = Some r ->
    exists o s', JNIEnv.call_method (E:=E) spo "loadSignedPreKey"
        (method_sig [TypeInt] (TypeObject signed_pre_key_class)) [JInt i] s
        = (Ok (JObject o), s') /\
      o <> 0%Z /\ look s' o = Some (JavaSignedPreKey r) /\ grows s s';
  java_store_sender_keys : forall a g n i o r b (s : Memory * J),
    look s a = Some (JavaSenderKeyName g n i) -> look s o = Some (JavaSenderKeys r) -> quiet s ->
    SenderKeyRecord.serialize r = Ok b -> SenderKeyRecord.deserialize b = Ok r ->
    (Z.of_nat (length b) < 2147483648)%Z ->
    exists v b' s', JNIEnv.call_method (E:=E) ko "storeSenderKey"
        (method_sig [TypeObject sender_key_name_class; TypeObject sender_key_record_class] TypeVoid) [JObject a; JObject o] s
        = (Ok v, s') /\
      java_sender_keys s' (g, n, i) = Some b' /\ SenderKeyRecord.deserialize b' = Ok r /\
      (forall k, k <> (g, n, i) -> java_sender_keys s' k = java_sender_keys s k) /\
      same_sessions s s' /\ same_identities s s' /\
      java_device s' = java_device s /\ os_rng s'.2 = os_rng s.2 /\ quiet s';
  java_load_sender_keys : forall a g n i b r (s : Memory * J),
    look s a = Some (JavaSenderKeyName g n i) -> java_sender_keys s (g, n, i) = Some b ->
    SenderKeyRecord.deserialize b = Ok r ->
    exists o s', JNIEnv.call_method (E:=E) ko "loadSenderKey"
        (method_sig [TypeObject sender_key_name_class] (TypeObject sender_key_record_class)) [JObject a] s
        = (Ok (JObject o), s') /\ o <> 0%Z /\ look s' o = Some (JavaSenderKeys r) /\ grows s s';
  java_load_new_sender_keys : forall a g n i (s : Memory * J),
    look s a = Some (JavaSenderKeyName g n i) -> java_sender_keys s (g, n, i) = None ->
    exists o s', JNIEnv.call_method (E:=E) ko "loadSenderKey"
        (method_sig [TypeObject sender_key_name_class] (TypeObject sender_key_record_class)) [JObject a] s
        = (Ok (JObject o), s') /\ o <> 0%Z /\
      look s' o = Some (JavaSenderKeys SenderKeyRecord.new_empty) /\ grows s s';
}.

(** What a Java store has under an address, or a name of sender keys. *)
Definition java_key (a : ProtocolAddress) : string * Z :=
  (ProtocolAddress.name a, ProtocolAddress.device_id a).
Definition java_name (n : SenderKeyName) : string * string * Z :=
  (SenderKeyName.group_id_ n, ProtocolAddress.name (SenderKeyName.sender_ n),
   ProtocolAddress.device_id (SenderKeyName.sender_ n)).

Lemma java_key_inj a b : java_key a = java_key b -> a = b.
Proof. destruct a, b. by intros [= -> ->]. Qed.

Lemma java_name_inj n n' : java_name n = java_name n' -> n = n'.
Proof. destruct n as [? []], n' as [? []]. by intros [= -> -> ->]. Qed.

Section Program.
Context {E J : Type} `{!JNIEnv E J, !JavaView J, Platform, Crates, ProtoCodecs, !OsRng J}.
Context `{!JavaLaws E}.

Definition java_session (s : Memory * J) (a : ProtocolAddress) : option (Result SessionRecord) :=
  SessionRecord.deserialize <$> java_sessions s (java_key a).
Definition java_identity (s : Memory * J) (a : ProtocolAddress) : option (Result IdentityKey) :=
  IdentityKey.decode <$> java_identities s (java_key a).
Definition java_sender_record (s : Memory * J) (n : SenderKeyName) : option (Result SenderKeyRecord) :=
  SenderKeyRecord.deserialize <$> java_sender_keys s (java_name n).

Lemma jni_ok {A} (f : ST E (Memory * J) A) s x s' : f s = (Ok x, s') -> jni f s = (Ok x, s').
Proof. unfold jni. by intros ->. Qed.

(** ** The steps that the operations of the stores are made of *)

Lemma find_class_keeps n (s : Memory * J) : n ∈ program_classes -> exists o s',
  jni (JNIEnv.find_class (E:=E) n) s = (Ok o, s') /\ look s' o = Some (JavaClass n) /\ grows s s' /\
  objects_stay s.1 s'.1.
Proof.
  intros Hn. destruct (java_find_class (E:=E) n s Hn) as (o & s' & Hf & Hl & Hg & Hm).
  exists o, s'. split; [by apply jni_ok|done].
Qed.

Lemma find_class_step n (s : Memory * J) : n ∈ program_classes -> exists o s',
  jni (JNIEnv.find_class (E:=E) n) s = (Ok o, s') /\ look s' o = Some (JavaClass n) /\ grows s s'.
Proof. intros Hn. destruct (find_class_keeps n s Hn) as (o & s' & Hf & Hl & Hg & _). by exists o, s'. Qed.

Lemma to_jbytearray_step b (s : Memory * J) : (Z.of_nat (length b) < 2147483648)%Z ->
  exists o s', to_jbytearray (E:=E) (Ok b) s = (Ok o, s') /\ o <> 0%Z /\
    look s' o = Some (JavaBytes b) /\ grows s s'.
Proof.
  intros Hb. destruct (java_new_array (E:=E) b s Hb) as (o & s1 & s2 & Hnull & Hn & Hr & Hl & Hg).
  exists o, s2. split; [|done]. unfold to_jbytearray.
  rewrite (st_bind_eq _ _ s b s) by done.
  unfold as_jint. rewrite (signed_id 32) by lia.
  rewrite (st_bind_eq _ _ _ _ _ (jni_ok _ _ _ _ Hn)). cbv zeta.
  by rewrite (st_bind_eq _ _ _ _ _ (jni_ok _ _ _ _ Hr)).
Qed.

Lemma new_string_step x (s : Memory * J) : exists o s',
  jni (JNIEnv.new_string (E:=E) x) s = (Ok o, s') /\ look s' o = Some (JavaString x) /\ grows s s'.
Proof.
  destruct (java_new_string (E:=E) x s) as (o & s' & Hf & Hl & Hg).
  exists o, s'. split; [by apply jni_ok|done].
Qed.

Lemma address_step a (s : Memory * J) : fits_int (ProtocolAddress.device_id a) ->
  exists o s', protocol_address_to_jobject (E:=E) a s = (Ok o, s') /\
    look s' o = Some (JavaAddress (ProtocolAddress.name a) (ProtocolAddress.device_id a)) /\
    grows s s'.
Proof.
  intros Ha. unfold protocol_address_to_jobject.
  destruct (find_class_step address_class s) as (k & s1 & Hk & Hlk & Hg1); [known_class|].
  destruct (new_string_step (ProtocolAddress.name a) s1) as (x & s2 & Hx & Hlx & Hg2).
  destruct (java_new_address (E:=E) k x (ProtocolAddress.name a)
    (ProtocolAddress.device_id a) s2) as (o & s3 & Ho & Hlo & Hg3); [by apply Hg2|done|apply Ha|].
  exists o, s3. unfold address_class in Hk. rewrite (st_bind_eq _ _ _ _ _ Hk).
  rewrite (st_bind_eq _ _ _ _ _ Hx).
  rewrite (st_bind_eq _ _ _ _ _ (jint_from_u32_ok _ s2 (fits_int_u32 _ Ha))), as_jint_fits by done.
  split; [by apply jni_ok|]. split; [done|]. by rewrite Hg1, Hg2.
Qed.

(** There is no Java address with a device id from 2^31 on. *)
Lemma address_refused a (s : Memory * J) :
  is_u32 (ProtocolAddress.device_id a) -> ~ fits_int (ProtocolAddress.device_id a) ->
  exists e s', protocol_address_to_jobject (E:=E) a s = (Err (Fail (Jni e)), s').
Proof.
  intros Hu Ha. unfold protocol_address_to_jobject.
  destruct (find_class_step address_class s) as (k & s1 & Hk & Hlk & Hg1); [known_class|].
  destruct (new_string_step (ProtocolAddress.name a) s1) as (x & s2 & Hx & Hlx & Hg2).
  destruct (java_no_new_address (E:=E) k x (ProtocolAddress.name a)
    (as_jint (ProtocolAddress.device_id a)) s2) as (e & s3 & He); [by apply Hg2|done| |].
  { rewrite as_jint_cases by done. unfold fits_int, is_u32, u32_max in *.
    destruct (Z.ltb_spec (ProtocolAddress.device_id a) 2147483648); lia. }
  exists e, s3. unfold address_class in Hk. rewrite (st_bind_eq _ _ _ _ _ Hk).
  rewrite (st_bind_eq _ _ _ _ _ Hx).
  rewrite (st_bind_eq _ _ _ _ _ (jint_from_u32_ok _ s2 Hu)). unfold jni. by rewrite He.
Qed.

Lemma sender_key_name_step n (s : Memory * J) :
  fits_int (ProtocolAddress.device_id (SenderKeyName.sender_ n)) ->
  exists o s', sender_key_name_to_jobject (E:=E) n s = (Ok o, s') /\
    look s' o = Some (JavaSenderKeyName (SenderKeyName.group_id_ n)
      (ProtocolAddress.name (SenderKeyName.sender_ n))
      (ProtocolAddress.device_id (SenderKeyName.sender_ n))) /\ grows s s'.
Proof.
  intros Hn. unfold sender_key_name_to_jobject.
  destruct (find_class_step sender_key_name_class s) as (k & s1 & Hk & Hlk & Hg1); [known_class|].
  destruct (new_string_step (SenderKeyName.group_id_ n) s1) as (g & s2 & Hx & Hlx & Hg2).
  destruct (new_string_step (ProtocolAddress.name (SenderKeyName.sender_ n)) s2)
    as (x & s3 & Hx' & Hlx' & Hg3).
  pose proof (PreOrder_Transitive _ _ _ Hg2 Hg3) as Hg23.
  destruct (java_new_sender_key_name (E:=E) k g x (SenderKeyName.group_id_ n)
    (ProtocolAddress.name (SenderKeyName.sender_ n))
    (ProtocolAddress.device_id (SenderKeyName.sender_ n)) s3)
    as (o & s4 & Ho & Hlo & Hg4); [by apply (grows_look _ _ Hg23)|by apply Hg3|done|apply Hn|].
  exists o, s4. unfold sender_key_name_class in Hk. rewrite (st_bind_eq _ _ _ _ _ Hk).
  rewrite (st_bind_eq _ _ s1 (SenderKeyName.group_id_ n) s1) by done. rewrite (st_bind_eq _ _ _ _ _ Hx).
  rewrite (st_bind_eq _ _ s2 (ProtocolAddress.name (SenderKeyName.sender_ n)) s2) by done.
  rewrite (st_bind_eq _ _ _ _ _ Hx').
  rewrite (st_bind_eq _ _ _ _ _ (jint_from_u32_ok _ s3 (fits_int_u32 _ Hn))), as_jint_fits by done.
  split; [by apply jni_ok|]. split; [done|]. by rewrite Hg1, Hg23.
Qed.

(** A native object, and the Java object that it is given to. *)
Lemma native_object_step `{!AllocLaws} {T} `{!Boxable T} class (r : T) v (s : Memory * J) :
  class ∈ program_classes -> (forall m h, handle m h r -> from_handle m class h v) ->
  exists h s1 o s2, box_object (E:=E) (Ok r) s = (Ok h, s1) /\
    jobject_from_native_handle (E:=E) class h s1 = (Ok o, s2) /\ o <> 0%Z /\
    look s2 o = Some v /\ grows s s2.
Proof.
  intros Hclass Hfrom. destruct s as [m j]. set (p := alloc_address m). set (m1 := <[p := Boxed (inject r)]> m).
  pose proof (java_native_object (E:=E) p (Boxed (inject r)) m j (alloc_unused m)) as Hg1.
  destruct (find_class_keeps class (m1, j) Hclass) as (k & s2 & Hk & Hlk & Hg2 & Hkeep).
  destruct (java_new_from_handle (E:=E) k class p v s2) as (o & s3 & Ho & Hnull & Hlo & Hg3); [done| |].
  { apply Hfrom. split; [apply alloc_nonnull|]. apply Hkeep. apply lookup_insert_eq. }
  exists p, (m1, j), o, s3. split; [done|]. split; [|split; [done|split; [done|]]].
  - unfold jobject_from_native_handle. rewrite (st_bind_eq _ _ _ _ _ Hk). by apply jni_ok.
  - etrans; [exact Hg1|]. by etrans.
Qed.

(** A store object is checked for its class. *)
Lemma check_store_step `{!JavaStoreLaws E so io po spo ko} o class (s : Memory * J) :
  (o, class) ∈ store_classes so io po spo ko ->
  exists s', check_jobject_type (E:=E) o class s = (Ok tt, s') /\ grows s s'.
Proof.
  intros Ho. unfold check_jobject_type.
  destruct (find_class_step class s (store_class_known _ _ _ _ _ _ _ Ho)) as (k & s1 & Hk & Hlk & Hg1).
  destruct (java_store_class (E:=E) o class k s1 Ho Hlk) as (Hnull & s2 & Hi & Hg2).
  rewrite (proj2 (Z.eqb_neq _ _) Hnull), (st_bind_eq _ _ _ _ _ Hk).
  rewrite (st_bind_eq _ _ _ _ _ (jni_ok _ _ _ _ Hi)). exists s2. split; [done|]. by rewrite Hg1.
Qed.

Lemma serialized_step cls b obj (s : Memory * J) : cls ∈ program_classes ->
  (Z.of_nat (length b) < 2147483648)%Z ->
  (forall k a s1, look s1 k = Some (JavaClass cls) -> look s1 a = Some (JavaBytes b) ->
     exists o s', JNIEnv.new_object (E:=E) k "([B)V" [JObject a] s1 = (Ok o, s') /\
       look s' o = Some obj /\ grows s1 s') ->
  exists o s', jobject_from_serialized (E:=E) cls b s = (Ok o, s') /\ look s' o = Some obj /\
    grows s s'.
Proof.
  intros Hcls Hb Hnew. unfold jobject_from_serialized.
  destruct (find_class_step cls s Hcls) as (k & s1 & Hk & Hlk & Hg1).
  destruct (to_jbytearray_step b s1 Hb) as (a & s2 & Ha & _ & Hla & Hg2).
  destruct (Hnew k a s2) as (o & s3 & Ho & Hlo & Hg3); [by apply Hg2|done|].
  exists o, s3. rewrite (st_bind_eq _ _ _ _ _ Hk), (st_bind_eq _ _ _ _ _ Ha).
  split; [by apply jni_ok|]. split; [done|]. by rewrite Hg1, Hg2.
Qed.

Lemma quiet_step f (s : Memory * J) : quiet s ->
  exists s', exception_check (E:=E) f s = (Ok tt, s') /\ s'.1 = s.1 /\ grows s s'.
Proof.
  intros Hq. destruct (java_quiet (E:=E) s Hq) as (s' & Hc & Hmem & Hg).
  exists s'. unfold exception_check. by rewrite (st_bind_eq _ _ _ _ _ (jni_ok _ _ _ _ Hc)).
Qed.

(** An object that a store answers with, as its bytes. *)
Lemma serialization_step store args sig f (s : Memory * J) o s1 obj (good : bytes -> Prop) :
  quiet s ->
  JNIEnv.call_method (E:=E) store f sig args s = (Ok (JObject o), s1) -> o <> 0%Z ->
  look s1 o = Some obj -> grows s s1 ->
  (forall s2, look s2 o = Some obj -> exists a b s3,
     JNIEnv.call_method (E:=E) o "serialize" "()[B" [] s2 = (Ok (JObject a), s3) /\
     look s3 a = Some (JavaBytes b) /\ good b /\ grows s2 s3) ->
  exists b s', get_object_with_serialization (E:=E) store args sig f s = (Ok (Some b), s') /\
    good b /\ grows s s'.
Proof.
  intros Hq Hcall Ho Hlook Hg1 Hser. unfold get_object_with_serialization.
  rewrite (st_bind_eq _ _ _ _ _ (jni_ok _ _ _ _ Hcall)).
  destruct (quiet_step f s1) as (s2 & Hc2 & _ & Hg2); [by apply Hg1|].
  rewrite (st_bind_eq _ _ _ _ _ Hc2). rewrite (st_bind_eq _ _ s2 o s2) by done.
  rewrite (proj2 (Z.eqb_neq _ _) Ho).
  destruct (Hser s2) as (a & b & s3 & Hs & Hla & Hb & Hg3); [by apply Hg2|].
  rewrite (st_bind_eq _ _ _ _ _ (jni_ok _ _ _ _ Hs)).
  assert (Hq3 : quiet s3) by by apply Hg3, Hg2, Hg1.
  destruct (quiet_step "serialize" s3 Hq3) as (s4 & Hc4 & _ & Hg4).
  rewrite (st_bind_eq _ _ _ _ _ Hc4).
  destruct (java_convert (E:=E) a b s4) as (s5 & Hb5 & Hg5 & _); [by apply Hg4|].
  rewrite (st_bind_eq _ _ _ _ _ (jni_ok _ _ _ _ Hb5)).
  exists b, s5. split; [done|]. split; [done|]. by rewrite Hg1, Hg2, Hg3, Hg4.
Qed.


(** An object that a store answers with, as the native object that it has a handle
    to. *)
Lemma native_handle_step {T} `{!Boxable T} store args sig f (s : Memory * J) o s1 obj (r : T) :
  quiet s ->
  JNIEnv.call_method (E:=E) store f sig args s = (Ok (JObject o), s1) -> o <> 0%Z ->
  look s1 o = Some obj -> grows s s1 ->
  (forall s2, look s2 o = Some obj -> exists h s3,
     JNIEnv.call_method (E:=E) o "nativeHandle" "()J" [] s2 = (Ok (JLong h), s3) /\
     handle s3.1 h r /\ grows s2 s3) ->
  exists s', get_object_with_native_handle (E:=E) T store args sig f s = (Ok (Some r), s') /\
    grows s s'.
Proof.
  intros Hq Hcall Ho Hlook Hg1 Hnat. unfold get_object_with_native_handle.
  rewrite (st_bind_eq _ _ _ _ _ (jni_ok _ _ _ _ Hcall)).
  destruct (quiet_step f s1) as (s2 & Hc2 & _ & Hg2); [by apply Hg1|].
  rewrite (st_bind_eq _ _ _ _ _ Hc2). rewrite (st_bind_eq _ _ s2 o s2) by done.
  rewrite (proj2 (Z.eqb_neq _ _) Ho).
  destruct (Hnat s2) as (h & s3 & Hs & Hh & Hg3); [by apply Hg2|].
  rewrite (st_bind_eq _ _ _ _ _ (jni_ok _ _ _ _ Hs)).
  assert (Hq3 : quiet s3) by by apply Hg3, Hg2, Hg1.
  destruct (quiet_step "nativeHandle" s3 Hq3) as ([m4 j4] & Hc4 & Hmem & Hg4).
  rewrite (st_bind_eq _ _ _ _ _ Hc4). cbn in Hmem. rewrite <-Hmem in Hh.
  rewrite (proj2 (Z.eqb_neq _ _)) by apply Hh.
  rewrite (st_bind_eq _ _ _ _ _ (jni_handle_cast_eq m4 j4 h r Hh)).
  exists (m4, j4). split; [done|]. by rewrite Hg1, Hg2, Hg3.
Qed.
End Program.
