(* ===== verification/JniRecords.v ===== *)
(** The stores of a Java program as the protocol crate sees them: the sessions and
    identities that it saves there come back. *)

From S2P Require Import Prelude Error Crates Curve IdentityKey Proto Protocol PreKeys SessionState SenderKeys Storage.
From S2P Require Import SessionInvariant SessionRecordFacts StoreAccess SessionCipher BridgeMemory JniUtil JniStores.
From S2P Require Import JniSpec JniProgram.

Section Records.
Context {E J : Type} `{!JNIEnv E J, !JavaView J, Platform, Crates, ProtoCodecs, !OsRng J}.
Context {so io po spo ko : jobject} `{!JavaLaws E, !JavaStoreLaws E so io po spo ko}.
#[local] Instance program_sessions : JniSessionStore := {| session_store_object := so |}.
#[local] Instance program_identities : JniIdentityKeyStore := {| identity_store_object := io |}.
#[local] Instance program_sender_keys : JniSenderKeyStore := {| sender_key_store_object := ko |}.

(** ** The operations *)

(** What the protocol crate is told of a record that was found. *)
Definition found {A} (r : Result A) : outcome (Stop (SignalJniError E)) (option A) :=
  match r with
  | Ok x => Ok (Some x)
  | Err e => Err (Fail (Signal e))
  | Panic => Panic
  end.

Lemma signal_found {A} (r : Result A) (s : Memory * J) :
  (let! x := signal (E:=E) r in st_ret (Some x)) s = (found r, s).
Proof. by destruct r. Qed.

(** What a session store answers: the record it has, or a new one. *)
Definition session_answer (s : Memory * J) (a : ProtocolAddress) : Result SessionRecord :=
  default (Ok new_session_record) (java_session s a).

Lemma load_session_answer a r (s : Memory * J) :
  fits_int (ProtocolAddress.device_id a) -> quiet s ->
  session_answer s a = Ok r -> is_Some (SessionRecord.current_session r) ->
  exists s', JniSessionStore.do_load_session (E:=E) a s = (Ok (Some r), s') /\ grows s s'.
Proof.
  intros Ha Hq Hx Hcur. unfold JniSessionStore.do_load_session.
  destruct (address_step a s Ha) as (o & s1 & Ho & Hlo & Hg1). rewrite (st_bind_eq _ _ _ _ _ Ho).
  cbv zeta. match goal with |- context [get_object_with_serialization _ _ ?sig] =>
    assert (exists p b s2, JNIEnv.call_method (E:=E) so "loadSession" sig [JObject o] s1
      = (Ok (JObject p), s2) /\ p <> 0%Z /\ look s2 p = Some (JavaSession b) /\
      SessionRecord.deserialize b = Ok r /\ grows s1 s2) as (p & b & s2 & Hc & Hp & Hlp & Hb & Hg2)
  end.
  { unfold session_answer, java_session in Hx. rewrite <-(grows_sessions s s1 Hg1) in Hx.
    destruct (java_sessions s1 (java_key a)) as [b|] eqn:Hk; cbn in Hx.
    - edestruct (java_load_session (E:=E) (so:=so) (io:=io) (po:=po) (spo:=spo) (ko:=ko)) as (p & s2 & Hc & Hp & Hlp & Hg2);
        [exact Hlo|exact Hk|]. by exists p, b, s2.
    - edestruct (java_load_new_session (E:=E) (so:=so) (io:=io) (po:=po) (spo:=spo) (ko:=ko)) as (p & b & s2 & Hrest);
        [exact Hlo|exact Hk|]. injection Hx as <-. by exists p, b, s2. }
  match goal with |- context [get_object_with_serialization _ _ ?sig] =>
    destruct (serialization_step so [JObject o] sig "loadSession" s1 p s2 (JavaSession b)
      (fun b' => SessionRecord.deserialize b' = Ok r)) as (b' & s3 & Hs & Hb' & Hg3);
    [by eapply grows_quiet|exact Hc|done..| |] end.
  { intros s4 Hl4. exact (java_session_bytes (E:=E) _ _ r s4 Hl4 Hb Hcur). }
  rewrite (st_bind_eq _ _ _ _ _ Hs), signal_found, Hb'.
  exists s3. split; [done|]. by rewrite Hg1.
Qed.

Lemma get_no_identity a (s : Memory * J) :
  fits_int (ProtocolAddress.device_id a) -> quiet s -> java_identity s a = None ->
  exists s', JniIdentityKeyStore.do_get_identity (E:=E) a s = (Ok None, s') /\ grows s s'.
Proof.
  intros Ha Hq Hx. apply fmap_None in Hx. unfold JniIdentityKeyStore.do_get_identity.
  destruct (address_step a s Ha) as (o & s1 & Ho & Hlo & Hg1). rewrite (st_bind_eq _ _ _ _ _ Ho).
  cbv zeta. rewrite <-(grows_identities s s1 Hg1) in Hx.
  edestruct (java_get_no_identity (E:=E) (so:=so) (io:=io) (po:=po) (spo:=spo) (ko:=ko)) as (s2 & Hc & Hg2);
    [exact Hlo|exact Hx|].
  unfold get_object_with_serialization.
  rewrite st_bind_assoc_eq, (st_bind_eq _ _ _ _ _ (jni_ok _ _ _ _ Hc)).
  destruct (quiet_step "getIdentity" s2) as (s3 & Hc3 & _ & Hg3);
    [by apply (grows_quiet _ _ Hg2), (grows_quiet _ _ Hg1)|].
  rewrite st_bind_assoc_eq, (st_bind_eq _ _ _ _ _ Hc3).
  exists s3. split; [done|]. by rewrite Hg1, Hg2.
Qed.

Lemma get_identity_found a x (s : Memory * J) :
  fits_int (ProtocolAddress.device_id a) -> quiet s -> java_identity s a = Some x ->
  exists s', JniIdentityKeyStore.do_get_identity (E:=E) a s = (found x, s') /\ grows s s'.
Proof.
  intros Ha Hq Hx. apply fmap_Some in Hx as (b & Hb & ->).
  unfold JniIdentityKeyStore.do_get_identity.
  destruct (address_step a s Ha) as (o & s1 & Ho & Hlo & Hg1). rewrite (st_bind_eq _ _ _ _ _ Ho).
  cbv zeta. rewrite <-(grows_identities s s1 Hg1) in Hb.
  edestruct (java_get_identity (E:=E) (so:=so) (io:=io) (po:=po) (spo:=spo) (ko:=ko)) as (r & s2 & Hc & Hr & Hlr & Hg2);
    [exact Hlo|exact Hb|].
  match goal with |- context [get_object_with_serialization _ _ ?sig] =>
    destruct (serialization_step io [JObject o] sig "getIdentity" s1 r s2 (JavaIdentity b)
      (fun b' => IdentityKey.decode b' = IdentityKey.decode b)) as (b' & s3 & Hs & Hb' & Hg3);
    [by eapply grows_quiet|exact Hc|done..| |] end.
  { intros s4 Hl4. exact (java_identity_bytes (E:=E) _ _ s4 Hl4). }
  rewrite (st_bind_eq _ _ _ _ _ Hs), signal_found, Hb'.
  exists s3. split; [done|]. by rewrite Hg1.
Qed.

(** Only what is stored under the key of [a] may have changed in a map. *)
Definition others_kept {V} (a : ProtocolAddress) (f f' : string * Z -> V) : Prop :=
  forall k, k <> java_key a -> f' k = f k.

Lemma store_session_kept a r b (s : Memory * J) :
  fits_int (ProtocolAddress.device_id a) -> quiet s ->
  SessionRecord.serialize r = Ok b -> SessionRecord.deserialize b = Ok r ->
  is_Some (SessionRecord.current_session r) ->
  (Z.of_nat (length b) < 2147483648)%Z ->
  exists s', JniSessionStore.do_store_session (E:=E) a r s = (Ok tt, s') /\ quiet s' /\
    java_session s' a = Some (Ok r) /\
    others_kept a (java_sessions s) (java_sessions s') /\
    same_identities s s' /\ same_sender_keys s s' /\
    java_device s' = java_device s /\ os_rng s'.2 = os_rng s.2.
Proof.
  intros Ha Hq Hb Hr Hcur Hlen. unfold JniSessionStore.do_store_session.
  destruct (address_step a s Ha) as (o & s1 & Ho & Hlo & Hg1). rewrite (st_bind_eq _ _ _ _ _ Ho).
  rewrite Hb. rewrite (st_bind_eq _ _ s1 b s1) by done.
  destruct (serialized_step session_class b (JavaSession b) s1) as (j & s2 & Hj & Hlj & Hg2); [known_class|done| |].
  { intros k c s4 Hk Hc. by eapply java_new_session. }
  unfold session_class in Hj. rewrite (st_bind_eq _ _ _ _ _ Hj). cbv zeta.
  pose proof (PreOrder_Transitive _ _ _ Hg1 Hg2) as Hg.
  edestruct (java_store_session (E:=E) (so:=so) (io:=io) (po:=po) (spo:=spo) (ko:=ko) o (ProtocolAddress.name a)
    (ProtocolAddress.device_id a) j b)
    as (v & b' & s3 & Hc & Hs & Hr' & Hss & Hsi & Hsk & Hdev & Hrnd & Hq3);
    [by apply (grows_look _ _ Hg2)|done|by apply (grows_quiet _ _ Hg)|done..|].
  rewrite (st_bind_eq _ _ _ _ _ (jni_ok _ _ _ _ Hc)).
  destruct (quiet_step "storeSession" s3 Hq3) as (s4 & Hc4 & _ & Hg4). rewrite Hc4. exists s4.
  split; [done|]. split; [by apply (grows_quiet _ _ Hg4)|]. split_and!.
  - unfold java_session, java_key. rewrite (grows_sessions _ _ Hg4), Hs. cbn. by rewrite Hr'.
  - intros k Hk. by rewrite (grows_sessions _ _ Hg4), Hss, (grows_sessions _ _ Hg).
  - intros k. by rewrite (grows_identities _ _ Hg4), Hsi, (grows_identities _ _ Hg).
  - intros k. by rewrite (grows_sender_keys _ _ Hg4), Hsk, (grows_sender_keys _ _ Hg).
  - by rewrite (grows_device _ _ Hg4), Hdev, (grows_device _ _ Hg).
  - by rewrite (grows_random _ _ Hg4), Hrnd, (grows_random _ _ Hg).
Qed.

(** The Java identity key that is made of an identity key. *)
Lemma identity_step i (s : Memory * J) : IdentityKey.wf i ->
  exists o s', jobject_from_serialized (E:=E) identity_class (IdentityKey.serialize i) s = (Ok o, s') /\
    look s' o = Some (JavaIdentity (IdentityKey.serialize i)) /\ grows s s'.
Proof.
  intros Hi. pose proof (IdentityKey.decode_serialize i Hi) as Hd.
  apply serialized_step; [known_class|..].
  - unfold IdentityKey.serialize. by rewrite PublicKey.serialize_length.
  - intros k c s4 Hk Hc. by eapply java_new_identity.
Qed.

Lemma save_identity_kept a i (s : Memory * J) :
  fits_int (ProtocolAddress.device_id a) -> quiet s -> IdentityKey.wf i ->
  exists v s', JniIdentityKeyStore.do_save_identity (E:=E) a i s = (Ok v, s') /\ quiet s' /\
    (v = true <-> exists x, java_identity s a = Some x /\ x <> Ok i) /\
    java_identity s' a = Some (Ok i) /\
    others_kept a (java_identities s) (java_identities s') /\
    same_sessions s s' /\ same_sender_keys s s' /\
    java_device s' = java_device s /\ os_rng s'.2 = os_rng s.2.
Proof.
  intros Ha Hq Hi. pose proof (IdentityKey.decode_serialize i Hi) as Hd.
  unfold JniIdentityKeyStore.do_save_identity.
  destruct (address_step a s Ha) as (o & s1 & Ho & Hlo & Hg1). rewrite (st_bind_eq _ _ _ _ _ Ho).
  destruct (identity_step i s1 Hi) as (j & s2 & Hj & Hlj & Hg2).
  unfold identity_class in Hj. rewrite (st_bind_eq _ _ _ _ _ Hj). cbv zeta.
  pose proof (PreOrder_Transitive _ _ _ Hg1 Hg2) as Hg.
  edestruct (java_save_identity (E:=E) (so:=so) (io:=io) (po:=po) (spo:=spo) (ko:=ko) o (ProtocolAddress.name a)
    (ProtocolAddress.device_id a) j)
    as (v & b' & s3 & Hc & Hv & Hs & Hi' & Hss & Hsi & Hsk & Hdev & Hrnd & Hq3);
    [by apply (grows_look _ _ Hg2)|done|by apply (grows_quiet _ _ Hg)|].
  rewrite (st_bind_eq _ _ _ _ _ (jni_ok _ _ _ _ Hc)).
  destruct (quiet_step "saveIdentity" s3 Hq3) as (s4 & Hc4 & _ & Hg4).
  rewrite (st_bind_eq _ _ _ _ _ Hc4).
  exists (negb (v =? 0)%Z), s4. split; [done|]. split; [by apply (grows_quiet _ _ Hg4)|]. split_and!.
  - rewrite negb_true_iff, Z.eqb_neq, Hv, Hd. unfold java_identity, java_key.
    rewrite (grows_identities _ _ Hg). split.
    + intros (b0 & -> & Hb0). by exists (IdentityKey.decode b0).
    + intros (x & Hx & Hne). apply fmap_Some in Hx as (b0 & Hb0 & ->). by exists b0.
  - unfold java_identity, java_key. rewrite (grows_identities _ _ Hg4), Hs. cbn. by rewrite Hi', Hd.
  - intros k Hk. by rewrite (grows_identities _ _ Hg4), Hss, (grows_identities _ _ Hg).
  - intros k. by rewrite (grows_sessions _ _ Hg4), Hsi, (grows_sessions _ _ Hg).
  - intros k. by rewrite (grows_sender_keys _ _ Hg4), Hsk, (grows_sender_keys _ _ Hg).
  - by rewrite (grows_device _ _ Hg4), Hdev, (grows_device _ _ Hg).
  - by rewrite (grows_random _ _ Hg4), Hrnd, (grows_random _ _ Hg).
Qed.

(** ** Sender keys *)

(** What a store of sender keys answers: the record it has, or a new one. *)
Definition sender_keys_answer (s : Memory * J) (n : SenderKeyName) : Result SenderKeyRecord :=
  default (Ok SenderKeyRecord.new_empty) (java_sender_record s n).

Lemma load_sender_keys_answer n r (s : Memory * J) :
  fits_int (ProtocolAddress.device_id (SenderKeyName.sender_ n)) -> quiet s ->
  sender_keys_answer s n = Ok r ->
  exists s', JniSenderKeyStore.do_load_sender_key (E:=E) n s = (Ok (Some r), s') /\ grows s s'.
Proof.
  intros Ha Hq Hx. unfold JniSenderKeyStore.do_load_sender_key.
  destruct (sender_key_name_step n s Ha) as (o & s1 & Ho & Hlo & Hg1). rewrite (st_bind_eq _ _ _ _ _ Ho).
  cbv zeta. match goal with |- context [get_object_with_native_handle _ _ _ ?sig] =>
    assert (exists p s2, JNIEnv.call_method (E:=E) ko "loadSenderKey" sig [JObject o] s1
      = (Ok (JObject p), s2) /\ p <> 0%Z /\ look s2 p = Some (JavaSenderKeys r) /\ grows s1 s2)
      as (p & s2 & Hc & Hp & Hlp & Hg2)
  end.
  { unfold sender_keys_answer, java_sender_record in Hx. rewrite <-(grows_sender_keys s s1 Hg1) in Hx.
    destruct (java_sender_keys s1 (java_name n)) as [b|] eqn:Hk; cbn in Hx.
    - eapply (java_load_sender_keys (E:=E) (so:=so) (io:=io) (po:=po) (spo:=spo) (ko:=ko)); [exact Hlo|exact Hk|done].
    - injection Hx as <-.
      eapply (java_load_new_sender_keys (E:=E) (so:=so) (io:=io) (po:=po) (spo:=spo) (ko:=ko)); [exact Hlo|exact Hk]. }
  match goal with |- context [get_object_with_native_handle _ _ _ ?sig] =>
    destruct (native_handle_step (E:=E) ko [JObject o] sig "loadSenderKey" s1 p s2 (JavaSenderKeys r) r)
      as (s3 & Hs & Hg3); [by eapply grows_quiet|exact Hc|done..| |] end.
  { intros s4 Hl4. exact (java_sender_keys_handle (E:=E) p r s4 Hl4). }
  exists s3. split; [exact Hs|]. by rewrite Hg1.
Qed.

Lemma store_sender_keys_kept `{!AllocLaws} n r b (s : Memory * J) :
  fits_int (ProtocolAddress.device_id (SenderKeyName.sender_ n)) -> quiet s ->
  SenderKeyRecord.serialize r = Ok b -> SenderKeyRecord.deserialize b = Ok r ->
  (Z.of_nat (length b) < 2147483648)%Z ->
  exists s', JniSenderKeyStore.do_store_sender_key (E:=E) n r s = (Ok tt, s') /\ quiet s' /\
    java_sender_record s' n = Some (Ok r) /\
    (forall k, k <> java_name n -> java_sender_keys s' k = java_sender_keys s k) /\
    same_sessions s s' /\ same_identities s s' /\
    java_device s' = java_device s /\ os_rng s'.2 = os_rng s.2.
Proof.
  intros Ha Hq Hb Hr Hlen. unfold JniSenderKeyStore.do_store_sender_key.
  destruct (sender_key_name_step n s Ha) as (o & s1 & Ho & Hlo & Hg1). rewrite (st_bind_eq _ _ _ _ _ Ho).
  destruct (native_object_step sender_key_record_class r (JavaSenderKeys r) s1)
    as (h & s2 & j & s3 & Hh & Hj & _ & Hlj & Hg2); [known_class|done|].
  rewrite (st_bind_eq _ _ _ _ _ Hh). unfold sender_key_record_class in Hj.
  rewrite (st_bind_eq _ _ _ _ _ Hj). cbv zeta.
  pose proof (PreOrder_Transitive _ _ _ Hg1 Hg2) as Hg.
  edestruct (java_store_sender_keys (E:=E) (so:=so) (io:=io) (po:=po) (spo:=spo) (ko:=ko) o
    (SenderKeyName.group_id_ n) (ProtocolAddress.name (SenderKeyName.sender_ n))
    (ProtocolAddress.device_id (SenderKeyName.sender_ n)) j r b)
    as (v & b' & s4 & Hc & Hs & Hr' & Hsk & Hss & Hsi & Hdev & Hrnd & Hq4);
    [by apply (grows_look _ _ Hg2)|done|by apply (grows_quiet _ _ Hg)|done..|].
  rewrite (st_bind_eq _ _ _ _ _ (jni_ok _ _ _ _ Hc)).
  destruct (quiet_step "storeSenderKey" s4 Hq4) as (s5 & Hc5 & _ & Hg5). rewrite Hc5. exists s5.
  split; [done|]. split; [by apply (grows_quiet _ _ Hg5)|]. split_and!.
  - unfold java_sender_record, java_name. rewrite (grows_sender_keys _ _ Hg5), Hs. cbn. by rewrite Hr'.
  - intros k Hk. by rewrite (grows_sender_keys _ _ Hg5), Hsk, (grows_sender_keys _ _ Hg).
  - intros k. by rewrite (grows_sessions _ _ Hg5), Hss, (grows_sessions _ _ Hg).
  - intros k. by rewrite (grows_identities _ _ Hg5), Hsi, (grows_identities _ _ Hg).
  - by rewrite (grows_device _ _ Hg5), Hdev, (grows_device _ _ Hg).
  - by rewrite (grows_random _ _ Hg5), Hrnd, (grows_random _ _ Hg).
Qed.

(** ** Addresses that Java does not have *)

(** A computation that fails in the virtual machine. *)
Definition fails {A} (f : JniM E J A) (s : Memory * J) : Prop :=
  exists e s', f s = (Err (Fail (Jni e)), s').

Lemma fails_bind {A B} (f : JniM E J A) (k : A -> JniM E J B) s : fails f s -> fails (st_bind f k) s.
Proof. intros (e & s' & He). exists e, s'. by apply st_bind_err_eq. Qed.

Lemma no_session_operation a (s : Memory * J) :
  is_u32 (ProtocolAddress.device_id a) -> ~ fits_int (ProtocolAddress.device_id a) ->
  fails (JniSessionStore.do_load_session a) s /\
  (forall r, fails (JniSessionStore.do_store_session a r) s) /\
  (forall i, fails (JniIdentityKeyStore.do_save_identity a i) s) /\
  fails (JniIdentityKeyStore.do_get_identity a) s.
Proof.
  intros Hu Ha. pose proof (address_refused a s Hu Ha) as Hf.
  split_and!; intros; by apply fails_bind.
Qed.

(** No message can be encrypted for such an address. *)
Lemma no_encryption `{!BuildConfig} ptext a (s : Memory * J) :
  is_u32 (ProtocolAddress.device_id a) -> ~ fits_int (ProtocolAddress.device_id a) ->
  exists e s', expect_ready (E:=E) (message_encrypt ptext a None) s
    = (Ok (Err (signal_from_jni (E:=E) (Jni e))), s').
Proof.
  intros Hu Ha. destruct (no_session_operation a s Hu Ha) as [(e & [m j] & He) _].
  exists e, (m, j). unfold expect_ready, message_encrypt.
  rewrite (st_bind_err_eq _ _ _ (signal_from_jni (Jni e)) (m, j, false)); [done|].
  cbn. unfold in_store. by rewrite He.
Qed.

(** A session without a sender chain decrypts nothing. *)
Lemma new_session_refuses `{!BuildConfig} m c :
  decrypt_message_with_record m (new_session_record, c)
    = (Err (InvalidMessage "decryption failed; no matching session state"), (new_session_record, c)).
Proof. done. Qed.

Lemma decrypt_without_session `{!BuildConfig} m a (s : Memory * J) :
  fits_int (ProtocolAddress.device_id a) -> quiet s -> java_session s a = None ->
  exists s', expect_ready (E:=E) (message_decrypt_signal m a None) s
    = (Ok (Err (InvalidMessage "decryption failed; no matching session state")), s').
Proof.
  intros Ha Hq Hno. destruct (load_session_answer a new_session_record s) as ([m1 j1] & Hl & _);
    [done..|by unfold session_answer; rewrite Hno|by eexists|].
  eexists. unfold expect_ready, message_decrypt_signal.
  rewrite (st_bind_eq _ _ _ (Some new_session_record) (m1, j1, false)).
  - cbn. reflexivity.
  - cbn. unfold in_store. by rewrite Hl.
Qed.

(** A record that a Java [SessionRecord] keeps as it is. *)
Definition well_formed (r : SessionRecord) : Prop :=
  is_Some (SessionRecord.current_session r) /\
  Forall (fun s => well_typed (SessionState.session s)) (all_sessions r).
(** C21: the stores of a Java program, which are maps and keep records as bytes, and
    whose methods are found by the signatures that src/java declares, are maps for the
    protocol crate as well.  A session that it stores for an address, or
    an identity that it saves, is what the store object has under the address
    afterwards; what is stored under any other address stays as it is; no exception is
    pending, and loading answers with it.  For an address without an identity, loading
    answers [None].  For one without a session it answers with a record whose session
    is empty, never [None], so that a message from there is refused as an
    [InvalidMessage] and not for [SessionNotFound].  A device id from 2^31 on reaches
    Java as a negative number, which no Java address has: each operation fails, and
    nothing can be encrypted for that address. *)
Theorem java_stores_keep_records `{!BuildConfig, !ProtoLaws} a (s : Memory * J) :
  is_u32 (ProtocolAddress.device_id a) -> quiet s ->
  if bool_decide (ProtocolAddress.device_id a < 2147483648)%Z then
    (forall r, well_formed r ->
     (forall b, SessionRecord.serialize r = Ok b -> (Z.of_nat (length b) < 2147483648)%Z) ->
     exists s1, JniSessionStore.do_store_session (E:=E) a r s = (Ok tt, s1) /\ quiet s1 /\
       java_session s1 a = Some (Ok r) /\
       (forall b, b <> a -> java_session s1 b = java_session s b) /\
       (forall b, java_identity s1 b = java_identity s b) /\
       exists s2, JniSessionStore.do_load_session (E:=E) a s1 = (Ok (Some r), s2) /\ grows s1 s2) /\
    (forall i, IdentityKey.wf i ->
     exists v s1, JniIdentityKeyStore.do_save_identity (E:=E) a i s = (Ok v, s1) /\ quiet s1 /\
       java_identity s1 a = Some (Ok i) /\
       (forall b, b <> a -> java_identity s1 b = java_identity s b) /\
       (forall b, java_session s1 b = java_session s b) /\
       exists s2, JniIdentityKeyStore.do_get_identity (E:=E) a s1 = (Ok (Some i), s2) /\
         grows s1 s2) /\
    (java_identity s a = None ->
       exists s1, JniIdentityKeyStore.do_get_identity (E:=E) a s = (Ok None, s1) /\ grows s s1) /\
    (java_session s a = None ->
       (exists s1, JniSessionStore.do_load_session (E:=E) a s = (Ok (Some new_session_record), s1) /\
          grows s s1) /\
       forall m, exists s1, expect_ready (E:=E) (message_decrypt_signal m a None) s
         = (Ok (Err (InvalidMessage "decryption failed; no matching session state")), s1))
  else
    fails (JniSessionStore.do_load_session a) s /\
    (forall r, fails (JniSessionStore.do_store_session a r) s) /\
    (forall i, fails (JniIdentityKeyStore.do_save_identity a i) s) /\
    fails (JniIdentityKeyStore.do_get_identity a) s /\
    (forall ptext, exists e s', expect_ready (E:=E) (message_encrypt ptext a None) s
       = (Ok (Err (signal_from_jni (E:=E) (Jni e))), s')).
Proof.
  intros Hu Hq. case_bool_decide as Ha.
  2: { assert (~ fits_int (ProtocolAddress.device_id a)) as Hn by (unfold fits_int; lia).
       destruct (no_session_operation a s Hu Hn) as (? & ? & ? & ?).
       split_and!; try done. intros. by apply no_encryption. }
  assert (fits_int (ProtocolAddress.device_id a)) as Hf by (unfold fits_int, is_u32 in *; lia).
  assert (Hne : forall b, b <> a -> java_key b <> java_key a) by (by intros b Hba ?%java_key_inj).
  split_and!.
  - intros r [Hcur Hr] Hlen. destruct (session_record_roundtrip r Hr) as (b & Hs & Hd).
    destruct (store_session_kept a r b s) as (s1 & Hst & Hq1 & Hj & Ho & Hids & _); [auto..|].
    exists s1. split_and!; [done..| | |].
    + intros b' Hba. unfold java_session. by rewrite (Ho _ (Hne b' Hba)).
    + intros b'. unfold java_identity. by rewrite Hids.
    + apply load_session_answer; [done..|by unfold session_answer; rewrite Hj|done].
  - intros i Hi.
    destruct (save_identity_kept a i s) as (v & s1 & Hst & Hq1 & _ & Hj & Ho & Hss & _); [auto..|].
    exists v, s1. split_and!; [done..| | |by apply (get_identity_found a (Ok i))].
    + intros b' Hba. unfold java_identity. by rewrite (Ho _ (Hne b' Hba)).
    + intros b'. unfold java_session. by rewrite Hss.
  - intros Hno. by apply get_no_identity.
  - intros Hno. split; [|intros m; by apply decrypt_without_session].
    apply load_session_answer; [done..|by unfold session_answer; rewrite Hno|by eexists].
Qed.
End Records.
