(* ===== verification/JniNoted.v ===== *)
(** Stores that are maps, for what a Java program keeps, and what a run on them asks of
    the program.

    A Java program cannot keep everything that a map can: a record whose numbers are
    out of their ranges, or of 2^31 bytes, or anything for a device id from 2^31 on;
    and it may answer in a way of its own when a pre-key is not there.  A [Noted] state
    runs on maps and notes what the Java program is asked for, so that it can be
    decided whether a run asks for nothing of that kind. *)

From S2P Require Import Prelude Error Crates Curve IdentityKey Proto Protocol SessionState SessionInvariant PreKeys SenderKeys.
From S2P Require Import Storage StoreAccess StoreSimulation BridgeMemory JniProgram JniRecords.

(** * The stores as maps *)

(** Sessions, with a new record for an address that there is none for. *)
Record JavaSessions := { java_records : gmap ProtocolAddress SessionRecord }.

#[export] Instance java_session_store : SessionStore JavaSessions := {
  load_session a ctx s := Ok (Some (default new_session_record (java_records s !! a)));
  store_session a r ctx s := (Ok tt, {| java_records := <[a := r]> (java_records s) |});
}.

#[export] Program Instance java_session_store_laws : SessionStoreLaws JavaSessions := {
  session_store_map s a := Some (default new_session_record (java_records s !! a));
}.
Next Obligation. done. Qed.
Next Obligation.
  intros a r ctx s. eexists. split; [done|]. cbn. split; [by rewrite lookup_insert_eq|].
  intros b Hb. by rewrite lookup_insert_ne.
Qed.

(** Sender keys, with an empty record for a name that there is none for. *)
Record JavaGroups := { java_groups : gmap SenderKeyName SenderKeyRecord }.

#[export] Instance java_sender_key_store : SenderKeyStore JavaGroups := {
  load_sender_key n ctx s :=
    (Ok (Some (default SenderKeyRecord.new_empty (java_groups s !! n))), s);
  store_sender_key n r ctx s := (Ok tt, {| java_groups := <[n := r]> (java_groups s) |});
}.

#[export] Program Instance java_sender_key_store_laws : SenderKeyStoreLaws JavaGroups := {
  sender_key_store_map s n := Some (default SenderKeyRecord.new_empty (java_groups s !! n));
}.
Next Obligation. done. Qed.
Next Obligation.
  intros n r ctx s. eexists. split; [done|]. cbn. split; [by rewrite lookup_insert_eq|].
  intros m Hm. by rewrite lookup_insert_ne.
Qed.

Abbreviation JavaWorld :=
  (World JavaSessions InMemIdentityKeyStore InMemPreKeyStore InMemSignedPreKeyStore).

(** What a call asks a Java program to keep, or to have. *)
Inductive Demand `{Crates} :=
| ForAddress (a : ProtocolAddress)
| ForRecord (r : SessionRecord)
| ForSenderKeys (r : SenderKeyRecord)
| ForIdentity (i : IdentityKey.t)
| ForId (id : Z)
| NotThere.

Record Noted `{Crates} := mk_noted {
  noted_world : JavaWorld;
  noted_groups : JavaGroups;
  asked : list Demand;
}.
Arguments mk_noted {_} _ _ _.

Section Noted.
Context `{BuildConfig, Crates, ProtoCodecs}.

(** A call, with what it asks of a Java program. *)
Definition noting {A} (ds : JavaWorld -> list Demand) (m : StateResult JavaWorld A)
    : StateResult Noted A :=
  fun n => let '(r, w) := m (noted_world n) in
    (r, mk_noted w (noted_groups n) (ds (noted_world n) ++ asked n)).

(** A call on sender keys. *)
Definition noting_groups {A} (ds : list Demand) (m : StateResult (JavaGroups * Csprng) A)
    : StateResult Noted A :=
  fun n => let '(r, p) := m (noted_groups n, World.csprng (noted_world n)) in
    (r, mk_noted (World.with_csprng p.2 (noted_world n)) p.1 (ds ++ asked n)).

Definition there {A} (found : option A) : list Demand :=
  match found with Some _ => [] | None => [NotThere] end.

Definition good_address (a : ProtocolAddress) : Prop := fits_int (ProtocolAddress.device_id a).

(** What a Java [SessionRecord] keeps. *)
Definition storable (r : SessionRecord) : Prop :=
  well_formed r /\
  match SessionRecord.serialize r with Ok b => (Z.of_nat (length b) < 2147483648)%Z | _ => True end.

(** What a Java [SenderKeyRecord] keeps. *)
Definition storable_keys (r : SenderKeyRecord) : Prop :=
  Forall (fun s => well_typed (SenderKeyState.state s)) (SenderKeyRecord.states r) /\
  match SenderKeyRecord.serialize r with Ok b => (Z.of_nat (length b) < 2147483648)%Z | _ => True end.

Definition satisfied (d : Demand) : Prop :=
  match d with
  | ForAddress a => good_address a
  | ForRecord r => storable r
  | ForSenderKeys r => storable_keys r
  | ForIdentity i => IdentityKey.wf i
  | ForId id => is_u32 id
  | NotThere => False
  end.

Definition fine (n : Noted) : Prop := Forall satisfied (asked n).

#[export] Instance opt_dec {A} (P : A -> Prop) `{!forall x, Decision (P x)} (o : option A) :
  Decision (from_option P True o).
Proof. destruct o; cbn; apply _. Defined.

#[export] Instance chain_typed_dec (c : Chain.t) : Decision (well_typed c).
Proof. unfold well_typed, Chain_typed, well_typed, SessionMessageKey_typed, is_u32. apply _. Defined.

#[export] Instance pending_typed_dec (p : PendingPreKey.t) : Decision (well_typed p).
Proof. unfold well_typed, PendingPreKey_typed, is_u32, is_i32. apply _. Defined.

#[export] Instance session_typed_dec (s : SessionStructure.t) : Decision (well_typed s).
Proof. unfold well_typed at 1, SessionStructure_typed, is_u32. apply _. Defined.

#[export] Instance sender_state_typed_dec (s : SenderKeyStateStructure.t) : Decision (well_typed s).
Proof.
  unfold well_typed, SenderKeyStateStructure_typed. unfold is_u32.
  repeat apply and_dec; apply _.
Defined.

#[export] Instance within_dec {A} (P : A -> Prop) `{!forall x, Decision (P x)} (r : Result A) :
  Decision (match r with Ok x => P x | _ => True end).
Proof. destruct r; apply _. Defined.

#[export] Instance storable_dec r : Decision (storable r).
Proof. unfold storable, well_formed. apply _. Defined.

#[export] Instance storable_keys_dec r : Decision (storable_keys r).
Proof. unfold storable_keys. apply _. Defined.

#[export] Instance satisfied_dec d : Decision (satisfied d).
Proof.
  destruct d as [| | |i| |]; cbn;
    unfold good_address, fits_int, is_u32; try apply _.
  unfold IdentityKey.wf, PublicKey.wf. destruct (PublicKey.key (IdentityKey.public_key i)). apply _.
Defined.

#[export] Instance fine_dec n : Decision (fine n).
Proof. unfold fine. apply _. Defined.

#[export] Instance noted_sessions : Stores.Sessions Noted := {
  Stores.load_session a ctx := noting (fun _ => [ForAddress a]) (Stores.load_session a ctx);
  Stores.store_session a r ctx :=
    noting (fun _ => [ForAddress a; ForRecord r]) (Stores.store_session a r ctx);
}.

#[export] Instance noted_identities : Stores.Identities Noted := {
  Stores.get_identity_key_pair ctx := noting (fun _ => []) (Stores.get_identity_key_pair ctx);
  Stores.get_local_registration_id ctx :=
    noting (fun _ => []) (Stores.get_local_registration_id ctx);
  Stores.save_identity a i ctx :=
    noting (fun _ => [ForAddress a; ForIdentity i]) (Stores.save_identity a i ctx);
  Stores.is_trusted_identity a i d ctx :=
    noting (fun _ => [ForAddress a; ForIdentity i]) (Stores.is_trusted_identity a i d ctx);
  Stores.get_identity a ctx := noting (fun _ => [ForAddress a]) (Stores.get_identity a ctx);
}.

#[export] Instance noted_pre_keys : Stores.PreKeys Noted := {
  Stores.get_pre_key id ctx :=
    noting (fun w => ForId id :: there (InMemPreKeyStore.pre_keys (World.pre_key_store w) !! id))
      (Stores.get_pre_key id ctx);
  Stores.save_pre_key id r ctx := noting (fun _ => [NotThere]) (Stores.save_pre_key id r ctx);
  Stores.remove_pre_key id ctx := noting (fun _ => [ForId id]) (Stores.remove_pre_key id ctx);
}.

#[export] Instance noted_signed_pre_keys : Stores.SignedPreKeys Noted := {
  Stores.get_signed_pre_key id ctx :=
    noting (fun w => ForId id ::
        there (InMemSignedPreKeyStore.signed_pre_keys (World.signed_pre_key_store w) !! id))
      (Stores.get_signed_pre_key id ctx);
  Stores.save_signed_pre_key id r ctx := noting (fun _ => [NotThere]) (Stores.save_signed_pre_key id r ctx);
}.

#[export] Instance noted_sender_keys : Stores.SenderKeys Noted := {
  Stores.load_sender_key n ctx :=
    noting_groups [ForAddress (SenderKeyName.sender_ n)] (Stores.load_sender_key n ctx);
  Stores.store_sender_key n r ctx :=
    noting_groups [ForAddress (SenderKeyName.sender_ n); ForSenderKeys r]
      (Stores.store_sender_key n r ctx);
}.

#[export] Instance noted_rng : Stores.Rng Noted := {
  Stores.with_rng A f := noting (fun _ => []) (Stores.with_rng f);
}.

Lemma satisfied_one d : Forall satisfied [d] -> satisfied d.
Proof. apply Forall_inv. Qed.

Lemma satisfied_two d d' : Forall satisfied [d; d'] -> satisfied d /\ satisfied d'.
Proof. intros [Hd Hd']%Forall_cons_1. split; [done|by apply satisfied_one]. Qed.

Lemma satisfied_there {A} id (o : option A) :
  Forall satisfied (ForId id :: there o) -> is_u32 id /\ is_Some o.
Proof.
  intros [Hid Ho]%Forall_cons_1. split; [done|].
  destruct o; [by eexists|]. by apply satisfied_one in Ho.
Qed.

(** ** Noting changes nothing *)

(** What a call on sessions sees of a noted state, with sender keys that stay. *)
Definition noted_is (g : JavaGroups) (n : Noted) (w : JavaWorld) : Prop :=
  noted_world n = w /\ noted_groups n = g.

(** What a call on sender keys sees of it, with a world that stays. *)
Definition noted_groups_is (w : JavaWorld) (n : Noted) (p : JavaGroups * Csprng) : Prop :=
  noted_world n = World.with_csprng p.2 w /\ noted_groups n = p.1.

Lemma noting_is {A} g ds (m : StateResult JavaWorld A) : related (noted_is g) always (noting ds m) m.
Proof.
  apply related_always. intros n w [<- <-]. unfold noting, noted_is.
  by destruct (m (noted_world n)).
Qed.

Lemma noting_groups_is {A} w ds (m : StateResult (JavaGroups * Csprng) A) :
  related (noted_groups_is w) always (noting_groups ds m) m.
Proof.
  apply related_always. intros n [g c] [Hw Hg]. cbn in *. unfold noting_groups, noted_groups_is.
  rewrite Hw, Hg. cbn. by destruct (m (g, c)) as [r [g' c']].
Qed.

Section Is.
Context (g : JavaGroups) (w : JavaWorld).
#[export] Instance noted_is_sessions : RelatedSessions (noted_is g) always.
Proof. split; intros; apply noting_is. Qed.
#[export] Instance noted_is_identities : RelatedIdentities (noted_is g) always.
Proof. split; intros; apply noting_is. Qed.
#[export] Instance noted_is_pre_keys : RelatedPreKeys (noted_is g) always.
Proof. split; intros; apply noting_is. Qed.
#[export] Instance noted_is_signed_pre_keys : RelatedSignedPreKeys (noted_is g) always.
Proof. split; intros; apply noting_is. Qed.
#[export] Instance noted_is_rng : RelatedRng (noted_is g) always.
Proof. split; intros; apply noting_is. Qed.

#[export] Instance noted_groups_is_sender_keys : RelatedSenderKeys (noted_groups_is w) always.
Proof. split; intros; apply noting_groups_is. Qed.
#[export] Instance noted_groups_is_rng : RelatedRng (noted_groups_is w) always.
Proof.
  split. intros A f. apply related_always. intros n [g' c] [Hw Hg]. cbn in *.
  unfold noting, noted_groups_is, World.with_rng, with_rng. rewrite Hw. cbn. by destruct (f c).
Qed.
End Is.
End Noted.
