(* ===== verification/JniWorld.v ===== *)
(** The protocol crate on the stores of a Java program does what it does on stores
    that are maps: each operation of the stores simulates the one on maps, by the
    relation [mirrors]. *)

From S2P Require Import Prelude Error Crates Curve IdentityKey Proto Protocol SessionState SessionInvariant PreKeys SenderKeys.
From S2P Require Import Storage StoreAccess SessionRecordFacts GroupProofs StoreProofs StoreSimulation.
From S2P Require Import BridgeMemory FfiSpec JniUtil JniStores JniSpec JniProgram JniRecords JniNoted.

(** * Java stores and maps *)

Section Mirror.
Context {E J : Type} `{!JNIEnv E J, !JavaView J, Platform, BuildConfig, Crates, ProtoCodecs, !OsRng J}.

(** A Java program keeps what a world and a store of sender keys keep; pre-key ids are
    the Java numbers with the same bits. *)
Record mirrors (s : Memory * J) (w : JavaWorld) (g : JavaGroups) : Prop := {
  mirrors_quiet : quiet s;
  mirrors_sessions : forall a, good_address a ->
    java_session s a = Ok <$> java_records (World.session_store w) !! a;
  mirrors_current : forall a r, java_records (World.session_store w) !! a = Some r ->
    is_Some (SessionRecord.current_session r);
  mirrors_identities : forall a, good_address a ->
    java_identity s a = Ok <$> InMemIdentityKeyStore.known_keys (World.identity_store w) !! a;
  mirrors_sender_keys : forall n, good_address (SenderKeyName.sender_ n) ->
    java_sender_record s n = Ok <$> java_groups g !! n;
  mirrors_own : device_identity (java_device s) = InMemIdentityKeyStore.key_pair (World.identity_store w);
  mirrors_own_bytes : let kp := InMemIdentityKeyStore.key_pair (World.identity_store w) in
    IdentityKeyPair.try_from (IdentityKeyPair.serialize kp) = Ok kp;
  mirrors_registration :
    device_registration_id (java_device s) = InMemIdentityKeyStore.id (World.identity_store w);
  mirrors_registration_range :
    (0 <= InMemIdentityKeyStore.id (World.identity_store w) < 2147483648)%Z;
  mirrors_pre_keys : forall id, is_u32 id ->
    device_pre_keys (java_device s) !! as_jint id
      = InMemPreKeyStore.pre_keys (World.pre_key_store w) !! id;
  mirrors_signed_pre_keys : forall id, is_u32 id ->
    device_signed_pre_keys (java_device s) !! as_jint id
      = InMemSignedPreKeyStore.signed_pre_keys (World.signed_pre_key_store w) !! id;
  mirrors_random : os_rng s.2 = World.csprng w;
}.

(** The parts of [mirrors] about what a step leaves alone. *)
Ltac stays :=
  intros;
  match goal with
  | H : same_sessions ?s ?s', M : forall a, _ -> java_session ?s a = _ |- java_session ?s' _ = _ =>
      unfold java_session; rewrite H; by apply M
  | H : same_identities ?s ?s', M : forall a, _ -> java_identity ?s a = _ |- java_identity ?s' _ = _ =>
      unfold java_identity; rewrite H; by apply M
  | H : same_sender_keys ?s ?s', M : forall n, _ -> java_sender_record ?s n = _
      |- java_sender_record ?s' _ = _ => unfold java_sender_record; rewrite H; by apply M
  | H : java_device ?s' = java_device ?s |- _ (java_device ?s') !! _ = _ => rewrite H; by auto
  end.

Lemma mirrors_grows s s' w g : mirrors s w g -> grows s s' -> mirrors s' w g.
Proof. intros [] []. split; try done; try congruence; [by apply grows_quiet|stays..]. Qed.

Lemma as_jint_inj i j : is_u32 i -> is_u32 j -> as_jint i = as_jint j -> i = j.
Proof.
  intros Hi Hj. rewrite !as_jint_cases by done. unfold is_u32, u32_max in *.
  destruct (Z.ltb_spec i 2147483648), (Z.ltb_spec j 2147483648); lia.
Qed.

(** A call is free of undefined behaviour, and the states agree. *)
Definition agrees (c : Memory * J * bool) (n : Noted) : Prop :=
  c.2 = false /\ mirrors c.1 (noted_world n) (noted_groups n).

Lemma simulates {A} (f : JniM E J A) ds (m : StateResult JavaWorld A) :
  (forall s w g, mirrors s w g -> Forall satisfied (ds w) ->
     exists x s', f s = (Ok x, s') /\ (m w).1 = Ok x /\ mirrors s' (m w).2 g) ->
  related agrees fine (in_store f) (noting ds m).
Proof.
  intros Hf. split.
  - intros n. unfold noting. destruct (m (noted_world n)). cbn. unfold fine. cbn.
    rewrite Forall_app. tauto.
  - intros [s u] n [Hu Hs]. cbn in Hu, Hs. subst u. unfold noting.
    destruct (m (noted_world n)) as [r w'] eqn:Hm. cbn. unfold fine. cbn. intros [Hp _]%Forall_app.
    destruct (Hf s (noted_world n) (noted_groups n) Hs Hp) as (x & s' & Hx & Hr & Hs'). rewrite Hm in Hr, Hs'. cbn in Hr.
    unfold in_store. by rewrite Hx, Hr.
Qed.

Lemma simulates_groups {A} (f : JniM E J A) ds (m : StateResult (JavaGroups * Csprng) A) :
  (forall s w g, mirrors s w g -> Forall satisfied ds ->
     exists x s' g', f s = (Ok x, s') /\ m (g, World.csprng w) = (Ok x, (g', World.csprng w)) /\
       mirrors s' w g') ->
  related agrees fine (in_store f) (noting_groups ds m).
Proof.
  intros Hf. split.
  - intros n. unfold noting_groups. destruct (m _) as [r p]. cbn. unfold fine. cbn.
    rewrite Forall_app. tauto.
  - intros [s u] n [Hu Hs]. cbn in Hu, Hs. subst u. unfold noting_groups.
    intros Hp. destruct (Hf s (noted_world n) (noted_groups n) Hs) as (x & s' & g' & Hx & Hr & Hs').
    { destruct (m _) as [r p]. cbn in Hp. unfold fine in Hp. cbn in Hp. by apply Forall_app in Hp as [Hp _]. }
    rewrite Hr. unfold in_store. rewrite Hx. split; [done|]. split; [done|]. cbn.
    by destruct (noted_world n).
Qed.

Context {so io po spo ko : jobject} `{!JavaLaws E, !JavaStoreLaws E so io po spo ko}.
Context `{!AllocLaws, !ProtoLaws, !SubtleLaws}.
#[local] Instance world_session_object : JniSessionStore := {| session_store_object := so |}.
#[local] Instance world_identity_object : JniIdentityKeyStore := {| identity_store_object := io |}.
#[local] Instance world_pre_key_object : JniPreKeyStore := {| pre_key_store_object := po |}.
#[local] Instance world_signed_pre_key_object : JniSignedPreKeyStore :=
  {| signed_pre_key_store_object := spo |}.
#[local] Instance world_sender_key_object : JniSenderKeyStore := {| sender_key_store_object := ko |}.

(** ** Sessions *)

Lemma load_session_simulated a ctx :
  related agrees fine (Stores.load_session a ctx) (Stores.load_session (W:=Noted) a ctx).
Proof.
  apply simulates. intros s w g Hs Ha%satisfied_one.
  destruct (load_session_answer (E:=E) (so:=so) (io:=io) (po:=po) (spo:=spo) (ko:=ko) a
    (default new_session_record (java_records (World.session_store w) !! a)) s)
    as (s' & Hl & Hg); [done|apply Hs| | |].
  - unfold session_answer. rewrite (mirrors_sessions _ _ _ Hs a Ha).
    by destruct (java_records _ !! a).
  - destruct (java_records _ !! a) as [r|] eqn:Hr; cbn; [|by eexists].
    by apply (mirrors_current _ _ _ Hs a).
  - do 2 eexists. split; [exact Hl|]. split; [done|]. by eapply mirrors_grows.
Qed.

Lemma store_session_simulated a r ctx :
  related agrees fine (Stores.store_session a r ctx) (Stores.store_session (W:=Noted) a r ctx).
Proof.
  apply simulates. intros s w g Hs [Ha [[Hcur Hr] Hlen]]%satisfied_two.
  destruct (session_record_roundtrip r Hr) as (b & Hb & Hd). rewrite Hb in Hlen.
  destruct (store_session_kept (E:=E) (so:=so) (io:=io) (po:=po) (spo:=spo) (ko:=ko) a r b s)
    as (s' & Hst & Hq & Hk & Ho & Hids & Hgrp & Hdev & Hrnd); [done|apply Hs|auto..|].
  do 2 eexists. split; [exact Hst|]. split; [done|]. destruct Hs. split; cbn; try done; try congruence; try stays.
  - intros a' Ha'. destruct (decide (a' = a)) as [->|Hne].
    + by rewrite Hk, lookup_insert_eq.
    + rewrite lookup_insert_ne by done. rewrite <-mirrors_sessions0 by done.
      unfold java_session. rewrite Ho; [done|]. intros Heq. by apply Hne, java_key_inj.
  - intros a' r'. rewrite lookup_insert_Some. intros [[_ <-]|[_ Hr']]; [done|by eapply mirrors_current0].
Qed.

(** ** Identities *)

Lemma get_identity_key_pair_simulated ctx :
  related agrees fine (Stores.get_identity_key_pair ctx) (Stores.get_identity_key_pair (W:=Noted) ctx).
Proof.
  apply simulates. intros s w g Hs _. unfold JniIdentityKeyStore.do_get_identity_key_pair. cbv zeta.
  match goal with |- context [get_object_with_serialization _ _ ?sig] =>
    destruct (java_own_identity (E:=E) (so:=so) (io:=io) (po:=po) (spo:=spo) (ko:=ko) s)
      as (o & s1 & Hc & Hnull & Ho & Hg1);
    destruct (serialization_step io [] sig "getIdentityKeyPair" s o s1
      (JavaKeyPair (InMemIdentityKeyStore.key_pair (World.identity_store w)))
      (fun b => IdentityKeyPair.try_from b = Ok (InMemIdentityKeyStore.key_pair (World.identity_store w))))
      as (b & s2 & Hb & Hkp & Hg2); [apply Hs|done|done| |done| |]
  end.
  - by rewrite <-(mirrors_own _ _ _ Hs).
  - intros s2 Ho2. by apply java_key_pair_bytes; [|apply Hs].
  - do 2 eexists. rewrite (st_bind_eq _ _ _ _ _ Hb), Hkp. split; [done|]. split; [done|].
    by eapply mirrors_grows.
Qed.

Lemma get_local_registration_id_simulated ctx :
  related agrees fine (Stores.get_local_registration_id ctx)
    (Stores.get_local_registration_id (W:=Noted) ctx).
Proof.
  apply simulates. intros s w g Hs _. unfold JniIdentityKeyStore.do_get_local_registration_id. cbv zeta.
  destruct (java_own_registration_id (E:=E) (so:=so) (io:=io) (po:=po) (spo:=spo) (ko:=ko) s)
    as (s1 & Hc & Hg1).
  destruct (quiet_step (E:=E) "getLocalRegistrationId" s1) as (s2 & Hc2 & _ & Hg2);
    [by apply (grows_quiet _ _ Hg1), Hs|].
  exists (InMemIdentityKeyStore.id (World.identity_store w)), s2.
  rewrite (st_bind_eq _ _ _ _ _ (jni_ok _ _ _ _ Hc)), (st_bind_eq _ _ _ _ _ Hc2).
  pose proof (mirrors_registration_range _ _ _ Hs) as Hr. rewrite (mirrors_registration _ _ _ Hs).
  rewrite jint_to_u32_eq by (unfold is_jint; lia). rewrite (proj2 (Z.ltb_ge _ _)) by lia.
  split; [done|]. split; [done|]. eapply mirrors_grows; [done|]. by rewrite Hg1.
Qed.

Lemma is_trusted_identity_simulated a i d ctx :
  related agrees fine (Stores.is_trusted_identity a i d ctx)
    (Stores.is_trusted_identity (W:=Noted) a i d ctx).
Proof.
  apply simulates. intros s w g Hs [Ha Hi]%satisfied_two. unfold JniIdentityKeyStore.do_is_trusted_identity.
  destruct (address_step (E:=E) a s Ha) as (o & s1 & Ho & Hlo & Hg1). rewrite (st_bind_eq _ _ _ _ _ Ho).
  destruct (identity_step (E:=E) i s1 Hi) as (j & s2 & Hj & Hlj & Hg2).
  unfold identity_class in Hj. rewrite (st_bind_eq _ _ _ _ _ Hj).
  destruct (find_class_step (E:=E) direction_class s2) as (k & s3 & Hk & Hlk & Hg3); [known_class|].
  unfold direction_class in Hk. rewrite (st_bind_eq _ _ _ _ _ Hk). cbv zeta.
  destruct (java_direction (E:=E) k d s3 Hlk) as (p & s4 & Hp & Hlp & Hg4).
  rewrite (st_bind_eq _ _ _ _ _ (jni_ok _ _ _ _ Hp)).
  pose proof (PreOrder_Transitive _ _ _ Hg3 Hg4) as Hg34.
  assert (Hg : grows s s4) by by rewrite Hg1, Hg2.
  edestruct (java_is_trusted (E:=E) (so:=so) (io:=io) (po:=po) (spo:=spo) (ko:=ko) o (ProtocolAddress.name a)
    (ProtocolAddress.device_id a) j (IdentityKey.serialize i) p d)
    as (v & s5 & Hc & Hv & Hg5);
    [by apply (grows_look _ _ Hg34), (grows_look _ _ Hg2)|by apply (grows_look _ _ Hg34)|done|].
  rewrite (st_bind_eq _ _ _ _ _ (jni_ok _ _ _ _ Hc)).
  destruct (quiet_step (E:=E) "isTrustedIdentity" s5) as (s6 & Hc6 & _ & Hg6);
    [by apply (grows_quiet _ _ Hg5), (grows_quiet _ _ Hg), Hs|].
  rewrite (st_bind_eq _ _ _ _ _ Hc6).
  do 2 eexists. split; [done|]. split; [|eapply mirrors_grows; [done|]; by rewrite Hg, Hg5].
  rewrite (grows_identities _ _ Hg), (IdentityKey.decode_serialize i Hi) in Hv.
  pose proof (mirrors_identities _ _ _ Hs a Ha) as Hid. unfold java_identity, java_key in Hid.
  cbn. unfold World.identities, st_gets, is_trusted_identity. cbn. unfold InMemIdentityKeyStore.is_trusted.
  destruct (java_identities s _) as [b0|], (InMemIdentityKeyStore.known_keys _ !! a) as [i0|]; try done.
  - cbn in Hid. injection Hid as Hid. rewrite Hid in Hv. f_equal. apply eq_true_iff_eq.
    rewrite identity_eqb, negb_true_iff, Z.eqb_neq, Hv. split; [by intros ->|by intros [= ->]].
  - f_equal. symmetry. by apply negb_true_iff, Z.eqb_neq, Hv.
Qed.

Lemma save_identity_simulated a i ctx :
  related agrees fine (Stores.save_identity a i ctx) (Stores.save_identity (W:=Noted) a i ctx).
Proof.
  apply simulates. intros s w g Hs [Ha Hi]%satisfied_two.
  destruct (save_identity_kept (E:=E) (so:=so) (io:=io) (po:=po) (spo:=spo) (ko:=ko) a i s Ha (mirrors_quiet _ _ _ Hs) Hi)
    as (v & s' & Hsave & Hq & Hv & Hk & Ho & Hss & Hgrp & Hdev & Hrnd).
  exists v, s'. split; [exact Hsave|]. cbn. unfold World.on_identities, st_focus.
  destruct (in_mem_save_identity a i ctx (World.identity_store w))
    as (changed & is' & Hsave' & Hch & Hki & Hkp & Hidw).
  cbn in Hsave'. rewrite Hsave'. cbn. split.
  - f_equal. apply eq_true_iff_eq. rewrite Hch, Hv, (mirrors_identities _ _ _ Hs a Ha). split.
    + intros (j & -> & Hne). exists (Ok j). split; [done|]. congruence.
    + intros (x & Hx & Hne). apply fmap_Some in Hx as (j & Hj & ->). exists j. split; [done|]. congruence.
  - destruct Hs. split; cbn; rewrite ?Hkp, ?Hidw; try done; try congruence; try stays.
    intros a' Ha'. destruct (decide (a' = a)) as [->|Hne]; [by rewrite Hk, Hki, lookup_insert_eq|].
    rewrite Hki, lookup_insert_ne by done. rewrite <-mirrors_identities0 by done.
    unfold java_identity. rewrite Ho; [done|]. intros Heq. by apply Hne, java_key_inj.
Qed.

(** ** Sender keys *)

Lemma load_sender_key_simulated n ctx :
  related agrees fine (Stores.load_sender_key n ctx) (Stores.load_sender_key (W:=Noted) n ctx).
Proof.
  apply simulates_groups. intros s w g Hs Hn%satisfied_one.
  destruct (load_sender_keys_answer (E:=E) (so:=so) (io:=io) (po:=po) (spo:=spo) (ko:=ko) n
    (default SenderKeyRecord.new_empty (java_groups g !! n)) s) as (s' & Hl & Hg); [done|apply Hs| |].
  - unfold sender_keys_answer. rewrite (mirrors_sender_keys _ _ _ Hs n Hn). by destruct (java_groups g !! n).
  - do 3 eexists. split; [exact Hl|]. split; [done|]. by eapply mirrors_grows.
Qed.

Lemma store_sender_key_simulated n r ctx :
  related agrees fine (Stores.store_sender_key n r ctx) (Stores.store_sender_key (W:=Noted) n r ctx).
Proof.
  apply simulates_groups. intros s w g Hs [Hn [Hr Hlen]]%satisfied_two.
  destruct (sender_key_record_roundtrip r Hr) as (b & Hb & Hd). rewrite Hb in Hlen.
  destruct (store_sender_keys_kept (E:=E) (so:=so) (io:=io) (po:=po) (spo:=spo) (ko:=ko) n r b s)
    as (s' & Hst & Hq & Hk & Ho & Hss & Hids & Hdev & Hrnd); [done|apply Hs|auto..|].
  do 3 eexists. split; [exact Hst|]. split; [done|]. destruct Hs. split; try done; try congruence; try stays.
  intros n' Hn'. cbn. destruct (decide (n' = n)) as [->|Hne].
  - by rewrite Hk, lookup_insert_eq.
  - rewrite lookup_insert_ne by done. rewrite <-mirrors_sender_keys0 by done.
    unfold java_sender_record. rewrite Ho; [done|]. intros Heq. by apply Hne, java_name_inj.
Qed.

(** ** Pre-keys and the generator *)

Lemma jni_id_step id (s : Memory * J) : is_u32 id -> jint_from_u32 (E:=E) (Ok id) s = (Ok (as_jint id), s).
Proof. apply jint_from_u32_ok. Qed.

Lemma get_pre_key_simulated id ctx :
  related agrees fine (Stores.get_pre_key id ctx) (Stores.get_pre_key (W:=Noted) id ctx).
Proof.
  apply simulates. intros s w g Hs [Hid [r Hr]]%satisfied_there. unfold JniPreKeyStore.do_get_pre_key. cbv zeta.
  rewrite (st_bind_eq _ _ _ _ _ (jni_id_step id s Hid)).
  destruct (java_load_pre_key (E:=E) (so:=so) (io:=io) (po:=po) (spo:=spo) (ko:=ko) (as_jint id) r s)
    as (o & s1 & Hc & Hnull & Ho & Hg1); [by rewrite (mirrors_pre_keys _ _ _ Hs)|].
  destruct (native_handle_step (E:=E) po [JInt (as_jint id)]
    "(I)Lorg/whispersystems/libsignal/state/PreKeyRecord;" "loadPreKey" s o s1 (JavaPreKey r) r)
    as (s2 & Hn & Hg2); [apply Hs|done..| |].
  { intros s2 Ho2. exact (java_pre_key_handle (E:=E) o r s2 Ho2). }
  rewrite (st_bind_eq _ _ _ _ _ Hn).
  exists r, s2. split; [done|]. split; [|by eapply mirrors_grows].
  cbn. unfold World.pre_keys, st_gets. cbn. by rewrite Hr.
Qed.

Lemma get_signed_pre_key_simulated id ctx :
  related agrees fine (Stores.get_signed_pre_key id ctx) (Stores.get_signed_pre_key (W:=Noted) id ctx).
Proof.
  apply simulates. intros s w g Hs [Hid [r Hr]]%satisfied_there. unfold JniSignedPreKeyStore.do_get_signed_pre_key. cbv zeta.
  rewrite (st_bind_eq _ _ _ _ _ (jni_id_step id s Hid)).
  destruct (java_load_signed_pre_key (E:=E) (so:=so) (io:=io) (po:=po) (spo:=spo) (ko:=ko) (as_jint id) r s)
    as (o & s1 & Hc & Hnull & Ho & Hg1); [by rewrite (mirrors_signed_pre_keys _ _ _ Hs)|].
  destruct (native_handle_step (E:=E) spo [JInt (as_jint id)]
    "(I)Lorg/whispersystems/libsignal/state/SignedPreKeyRecord;" "loadSignedPreKey" s o s1
    (JavaSignedPreKey r) r) as (s2 & Hn & Hg2); [apply Hs|done..| |].
  { intros s2 Ho2. exact (java_signed_pre_key_handle (E:=E) o r s2 Ho2). }
  rewrite (st_bind_eq _ _ _ _ _ Hn).
  exists r, s2. split; [done|]. split; [|by eapply mirrors_grows].
  cbn. unfold World.signed_pre_keys, st_gets. cbn. by rewrite Hr.
Qed.

Lemma remove_pre_key_simulated id ctx :
  related agrees fine (Stores.remove_pre_key id ctx) (Stores.remove_pre_key (W:=Noted) id ctx).
Proof.
  apply simulates. intros s w g Hs Hid%satisfied_one. unfold JniPreKeyStore.do_remove_pre_key. cbv zeta.
  rewrite (st_bind_eq _ _ _ _ _ (jni_id_step id s Hid)).
  destruct (java_remove_pre_key (E:=E) (so:=so) (io:=io) (po:=po) (spo:=spo) (ko:=ko) (as_jint id) s)
    as (v & s1 & Hc & Hss & Hids & Hgrp & Hdev & Hrnd & Hq); [apply Hs|].
  rewrite (st_bind_eq _ _ _ _ _ (jni_ok _ _ _ _ Hc)).
  destruct (quiet_step (E:=E) "removePreKey" s1 Hq) as (s2 & Hc2 & _ & Hg2).
  exists tt, s2. split; [done|]. split; [done|]. eapply mirrors_grows; [|done].
  destruct Hs. split; cbn; try rewrite Hdev; try done; try congruence; try stays.
  intros id' Hid'. unfold without_pre_key. cbn. destruct (decide (id' = id)) as [->|Hne].
  - by rewrite !lookup_delete_eq.
  - rewrite !lookup_delete_ne; [by apply mirrors_pre_keys0|done|].
    intros Heq. by apply Hne, as_jint_inj.
Qed.

Lemma with_rng_simulated A (f : Csprng -> Result A * Csprng) :
  related agrees fine (Stores.with_rng f) (Stores.with_rng (W:=Noted) f).
Proof.
  split.
  - intros n. cbn. unfold noting. by destruct (World.with_rng f (noted_world n)).
  - intros [[m j] u] n [Hu Hs] _. cbn in Hu, Hs. subst u. cbn. unfold noting, World.with_rng.
    rewrite <-(mirrors_random _ _ _ Hs). cbn. destruct (f (os_rng j)) as [r c]. cbn.
    split; [done|]. split; [done|].
    destruct (java_random_is_apart (E:=E) c m j) as (_ & Hss & Hids & Hgrp & Hdev & Hq).
    destruct Hs. split; cbn; rewrite ?Hdev; auto; try stays.
    by apply (java_random_is_random (E:=E)).
Qed.

#[local] Instance java_sessions_simulated : RelatedSessions agrees fine.
Proof. split; [apply load_session_simulated|apply store_session_simulated]. Qed.
#[local] Instance java_identities_simulated : RelatedIdentities agrees fine.
Proof.
  split; [apply get_identity_key_pair_simulated|apply get_local_registration_id_simulated|
    apply save_identity_simulated|apply is_trusted_identity_simulated].
Qed.
#[local] Instance java_pre_keys_simulated : RelatedPreKeys agrees fine.
Proof. split; [apply get_pre_key_simulated|apply remove_pre_key_simulated]. Qed.
#[local] Instance java_signed_pre_keys_simulated : RelatedSignedPreKeys agrees fine.
Proof. split. apply get_signed_pre_key_simulated. Qed.
#[local] Instance java_sender_keys_simulated : RelatedSenderKeys agrees fine.
Proof. split; [apply load_sender_key_simulated|apply store_sender_key_simulated]. Qed.
#[local] Instance java_rng_simulated : RelatedRng agrees fine.
Proof. split. apply with_rng_simulated. Qed.

End Mirror.
