(* ===== verification/JniCalls.v ===== *)
(** The native methods that run sessions and groups, on the stores of a Java program:
    they answer what the protocol crate does on maps, as Java objects or exceptions. *)

From S2P Require Import Prelude Error Crates Curve IdentityKey Proto Protocol SessionState PreKeys SenderKeys.
From S2P Require Import Storage StoreAccess Session SessionCipher GroupCipher StoreSimulation.
From S2P Require Import BridgeMemory FfiSpec JniUtil JniStores JniEntry JniSession JniSpec JniProgram JniRecords JniNoted JniWorld.

(** * What [message_encrypt] gives *)

Definition is_message (c : CiphertextMessage) : Prop :=
  match c with
  | CiphertextMessage.SignalMessage _ | CiphertextMessage.PreKeySignalMessage _ => True
  | _ => False
  end.

Section Kinds.
Context `{BuildConfig, Crates, ProtoCodecs}.

Lemma encrypt_with_state_kind ptext s c i s' :
  encrypt_with_state ptext s = Ok (c, i, s') -> is_message c.
Proof.
  unfold encrypt_with_state. intros He.
  do 10 (apply obind_ok in He as (? & _ & He)). apply obind_ok in He as (c' & Hc & He).
  apply obind_ok in He as (? & _ & He). apply obind_ok in He as (? & _ & [= <- _ _]).
  destruct x8 as [items|].
  - do 3 (apply obind_ok in Hc as (? & _ & Hc)). by injection Hc as <-.
  - apply obind_ok in Hc as (? & _ & Hc). by injection Hc as <-.
Qed.

Lemma message_encrypt_kind {W : Type} `{!Stores.Sessions W, !Stores.Identities W} ptext a ctx (w : W) c :
  (message_encrypt ptext a ctx w).1 = Ok c -> is_message c.
Proof.
  intros Hc. destruct (message_encrypt ptext a ctx w) as [r w'] eqn:He. cbn in Hc. subst r.
  unfold message_encrypt in He.
  apply st_bind_ok in He as (? & ? & _ & He). apply st_bind_ok in He as (? & ? & _ & He).
  apply st_bind_ok in He as ([[c' i] r'] & ? & Henc & He).
  assert (is_message c') as Hk.
  { apply st_lift_ok in Henc as [Henc _]. unfold SessionRecord.session_state_mut in Henc.
    apply obind_ok in Henc as (st & _ & Henc). apply obind_ok in Henc as ([[] ?] & Henc & [= <- _ _]).
    by eapply encrypt_with_state_kind. }
  repeat (apply st_bind_ok in He as (? & ? & _ & He)).
  by apply st_ret_ok in He as [<- _].
Qed.
End Kinds.

Section Calls.
Context {E J : Type} `{!JNIEnv E J, !JavaView J, Platform, BuildConfig, Crates, ProtoCodecs, !OsRng J}.

(** * A function of the protocol crate *)

Lemma call_step {A} (f : StateResult (Memory * J * bool) A) (m : StateResult Noted A) s n :
  related agrees fine f m -> mirrors s (noted_world n) (noted_groups n) -> fine (m n).2 ->
  exists s', expect_ready (E:=E) f s = evaluate (m n).1 s' /\
    mirrors s' (noted_world (m n).2) (noted_groups (m n).2).
Proof.
  intros [_ Hf] Hs Hfine. destruct (Hf (s, false) n) as [Hr [Hu Hs']]; [by split|done|].
  unfold expect_ready. destruct (f (s, false)) as [r [s' u]]. cbn in *. subst u r. by exists s'.
Qed.

(** * A native method

    What a native method that runs a function with the answer [r] ends with: an object
    that shows the result, or, as the null reference, the exception for the error, in a
    state that is good but for the exception. *)
Definition ends {A R} `{!JniDummyValue R} (method : JniM E J R) (s : Memory * J) (r : Result A)
    (shows : A -> R -> Memory * J -> Prop) (good : Memory * J -> Prop) : Prop :=
  match r with
  | Ok x => exists v s', method s = (Ok v, s') /\ shows x v s' /\ good s'
  | Err e => exists s', good s' /\ method s
      = (Ok dummy_value,
         (JNIEnv.throw_new (exception_type (E:=E) (Signal e)) (error_string (E:=E) (Signal e)) s').2)
  | Panic => exists s', good s' /\ method s
      = (Ok dummy_value, (JNIEnv.throw_new "java/lang/AssertionError"
           (jni_error_display (E:=E) (UnexpectedPanic panic_payload)) s').2)
  end.

Context {so io po spo ko : jobject} `{!JavaLaws E, !JavaStoreLaws E so io po spo ko}.

Lemma throws (e : SignalJniError E) (s : Memory * J) :
  throw_error e s = (Ok tt, (JNIEnv.throw_new (exception_type e) (error_string e) s).2).
Proof. apply throw_error_eq, (java_throw_caught (E:=E)). Qed.

Lemma panic_bind {A B} (f : JniM E J A) (k : A -> JniM E J B) s s' :
  f s = (Panic, s') -> st_bind f k s = (Panic, s').
Proof. unfold st_bind. by intros ->. Qed.

Lemma ends_call {A R} `{!JniDummyValue R} (body : JniM E J R) (f : StateResult (Memory * J * bool) A)
    (m : StateResult Noted A) (post : A -> JniM E J R) s s0 n shows :
  body s = (let! r := expect_ready f in let! x := signal r in post x) s0 ->
  mirrors s0 (noted_world n) (noted_groups n) -> related agrees fine f m -> fine (m n).2 ->
  (forall x s1, (m n).1 = Ok x -> quiet s1 -> exists v s2, post x s1 = (Ok v, s2) /\ shows x v s2 /\ grows s1 s2) ->
  ends (run_ffi_safe body) s (m n).1 shows
    (fun s' => mirrors s' (noted_world (m n).2) (noted_groups (m n).2)).
Proof.
  intros Hb Hs Hf Hfine Hpost.
  destruct (call_step f m s0 n Hf Hs Hfine) as (s1 & He & Hs1).
  unfold ends, run_ffi_safe. rewrite Hb. destruct (m n).1 as [x|e|] eqn:Hr.
  - rewrite (st_bind_eq _ _ _ _ _ He), (st_bind_eq _ _ s1 x s1) by done.
    destruct (Hpost x s1 eq_refl) as (v & s2 & Hv & Hshow & Hg); [apply Hs1|].
    exists v, s2. rewrite Hv. split_and!; [done..|]. by eapply mirrors_grows.
  - rewrite (st_bind_eq _ _ _ _ _ He), (st_bind_err_eq _ _ s1 (Fail (Signal e)) s1) by done.
    exists s1. split; [done|]. by rewrite (st_bind_eq _ _ _ _ _ (throws _ _)).
  - exists s1. split; [done|].
    rewrite (panic_bind _ _ _ _ He). by rewrite (st_bind_eq _ _ _ _ _ (throws _ _)).
Qed.
(** ** The results, as Java objects *)

Definition shows_nothing (x v : unit) (s : Memory * J) : Prop := True.

Definition shows_bytes (b : bytes) (v : jobject) (s : Memory * J) : Prop :=
  v <> 0%Z /\ look s v = Some (JavaBytes b).

Definition shows_message (c : CiphertextMessage) (v : jobject) (s : Memory * J) : Prop :=
  v <> 0%Z /\
  match c with
  | CiphertextMessage.SignalMessage m => look s v = Some (JavaSignalMessage m)
  | CiphertextMessage.PreKeySignalMessage m => look s v = Some (JavaPreKeyMessage m)
  | _ => False
  end.

Definition shows_object {T} `{Boxable T} (x : T) (v : Ptr) (s : Memory * J) : Prop := handle s.1 v x.

Lemma gives_bytes b (s : Memory * J) : (Z.of_nat (length b) < 2147483648)%Z ->
  exists v s', to_jbytearray (E:=E) (Ok b) s = (Ok v, s') /\ shows_bytes b v s' /\ grows s s'.
Proof.
  intros Hb. destruct (to_jbytearray_step (E:=E) b s Hb) as (o & s' & Ho & Hnull & Hl & Hg).
  by exists o, s'.
Qed.

Lemma gives_nothing (x : unit) (s : Memory * J) :
  exists v s', st_ret (E:=Stop (SignalJniError E)) x s = (Ok v, s') /\ shows_nothing x v s' /\ grows s s'.
Proof. by exists x, s. Qed.

Context `{!AllocLaws}.

Lemma gives_object {T} `{Boxable T} (x : T) (s : Memory * J) :
  exists v s', box_object (E:=E) (Ok x) s = (Ok v, s') /\ shows_object x v s' /\ grows s s'.
Proof.
  destruct s as [m j]. exists (alloc_address m), (<[alloc_address m := Boxed (inject x)]> m, j).
  split; [done|]. split; [split; [apply alloc_nonnull|apply lookup_insert_eq]|].
  apply (java_native_object (E:=E)), alloc_unused.
Qed.

Lemma gives_handle_object {T} `{!Boxable T} class (x : T) (v : JavaObject) (s : Memory * J) :
  class ∈ program_classes -> (forall m h, handle m h x -> from_handle m class h v) ->
  exists o s', (let! h := box_object (Ok x) in jobject_from_native_handle (E:=E) class h) s = (Ok o, s') /\
    o <> 0%Z /\ look s' o = Some v /\ grows s s'.
Proof.
  intros Hclass Hfrom.
  destruct (native_object_step (E:=E) class x v s Hclass Hfrom) as (h & s1 & o & s2 & Hh & Ho & Hrest).
  exists o, s2. by rewrite (st_bind_eq _ _ _ _ _ Hh).
Qed.

(** ** The handles and stores that a method is given *)

Lemma cast_step {T} `{Boxable T} (x : T) h (s : Memory * J) :
  handle s.1 h x -> native_handle_cast (E:=E) T h s = (Ok x, s).
Proof. destruct s. apply jni_handle_cast_eq. Qed.

Lemma convert_step o b (s : Memory * J) : look s o = Some (JavaBytes b) ->
  exists s', jni (JNIEnv.convert_byte_array (E:=E) o) s = (Ok b, s') /\ grows s s' /\ objects_stay s.1 s'.1.
Proof.
  intros Ho. destruct (java_convert (E:=E) o b s Ho) as (s' & Hc & Hg).
  exists s'. split; [by apply jni_ok|done].
Qed.

Lemma new_identity_store_step (s : Memory * J) : exists s',
  JniIdentityKeyStore.new (E:=E) io s = (Ok {| identity_store_object := io |}, s') /\ grows s s'.
Proof.
  destruct (check_store_step (E:=E) (so:=so) (io:=io) (po:=po) (spo:=spo) (ko:=ko) io
    "org/whispersystems/libsignal/state/IdentityKeyStore" s) as (s' & Hc & Hg); [set_solver|].
  exists s'. unfold JniIdentityKeyStore.new. by rewrite (st_bind_eq _ _ _ _ _ Hc).
Qed.

Lemma new_session_store_step (s : Memory * J) : exists s',
  JniSessionStore.new (E:=E) so s = (Ok {| session_store_object := so |}, s') /\ grows s s'.
Proof.
  destruct (check_store_step (E:=E) (so:=so) (io:=io) (po:=po) (spo:=spo) (ko:=ko) so
    "org/whispersystems/libsignal/state/SessionStore" s) as (s' & Hc & Hg); [set_solver|].
  exists s'. unfold JniSessionStore.new. by rewrite (st_bind_eq _ _ _ _ _ Hc).
Qed.

Lemma new_pre_key_store_step (s : Memory * J) : exists s',
  JniPreKeyStore.new (E:=E) po s = (Ok {| pre_key_store_object := po |}, s') /\ grows s s'.
Proof.
  destruct (check_store_step (E:=E) (so:=so) (io:=io) (po:=po) (spo:=spo) (ko:=ko) po
    "org/whispersystems/libsignal/state/PreKeyStore" s) as (s' & Hc & Hg); [set_solver|].
  exists s'. unfold JniPreKeyStore.new. by rewrite (st_bind_eq _ _ _ _ _ Hc).
Qed.

Lemma new_signed_pre_key_store_step (s : Memory * J) : exists s',
  JniSignedPreKeyStore.new (E:=E) spo s = (Ok {| signed_pre_key_store_object := spo |}, s') /\ grows s s'.
Proof.
  destruct (check_store_step (E:=E) (so:=so) (io:=io) (po:=po) (spo:=spo) (ko:=ko) spo
    "org/whispersystems/libsignal/state/SignedPreKeyStore" s) as (s' & Hc & Hg); [set_solver|].
  exists s'. unfold JniSignedPreKeyStore.new. by rewrite (st_bind_eq _ _ _ _ _ Hc).
Qed.

Lemma new_sender_key_store_step (s : Memory * J) : exists s',
  JniSenderKeyStore.new (E:=E) ko s = (Ok {| sender_key_store_object := ko |}, s') /\ grows s s'.
Proof.
  destruct (check_store_step (E:=E) (so:=so) (io:=io) (po:=po) (spo:=spo) (ko:=ko) ko
    "org/whispersystems/libsignal/groups/state/SenderKeyStore" s) as (s' & Hc & Hg); [set_solver|].
  exists s'. unfold JniSenderKeyStore.new. by rewrite (st_bind_eq _ _ _ _ _ Hc).
Qed.

(** * The native methods *)

Context `{!ProtoLaws, !SubtleLaws}.
#[local] Instance calls_session_object : JniSessionStore := {| session_store_object := so |}.
#[local] Instance calls_identity_object : JniIdentityKeyStore := {| identity_store_object := io |}.
#[local] Instance calls_pre_key_object : JniPreKeyStore := {| pre_key_store_object := po |}.
#[local] Instance calls_signed_pre_key_object : JniSignedPreKeyStore :=
  {| signed_pre_key_store_object := spo |}.
#[local] Instance calls_sender_key_object : JniSenderKeyStore := {| sender_key_store_object := ko |}.
#[local] Existing Instances java_sessions_simulated java_identities_simulated java_pre_keys_simulated
  java_signed_pre_keys_simulated java_sender_keys_simulated java_rng_simulated.

(** Whether a run on maps asks for nothing that a Java program cannot keep. *)
Definition keepable {A} (m : StateResult Noted A) (w : JavaWorld) (g : JavaGroups) : Prop :=
  fine (m (mk_noted w g [])).2.

(** The state after a run, and the Java states that mirror it. *)
Definition after {A} (m : StateResult Noted A) (n : Noted) (s : Memory * J) : Prop :=
  mirrors s (noted_world (m n).2) (noted_groups (m n).2).

Lemma ends_grown {A R} `{!JniDummyValue R} (body : JniM E J R) (f : StateResult (Memory * J * bool) A)
    (m : StateResult Noted A) (post : A -> JniM E J R) s s0 n shows :
  body s = (let! r := expect_ready f in let! x := signal r in post x) s0 -> grows s s0 ->
  mirrors s (noted_world n) (noted_groups n) -> related agrees fine f m -> fine (m n).2 ->
  (forall x s1, (m n).1 = Ok x -> quiet s1 ->
     exists v s2, post x s1 = (Ok v, s2) /\ shows x v s2 /\ grows s1 s2) ->
  ends (run_ffi_safe body) s (m n).1 shows (after m n).
Proof. intros. eapply ends_call; [done|by eapply mirrors_grows|done..]. Qed.

(** What a method does with a world, or with sender keys, from what it does with a
    noted state. *)
Definition implements {A R} `{!JniDummyValue R} (method : JniM E J R) (m : StateResult JavaWorld A)
    (shows : A -> R -> Memory * J -> Prop) (s : Memory * J) (w : JavaWorld) (g : JavaGroups) : Prop :=
  ends method s (m w).1 shows (fun s' => mirrors s' (m w).2 g).

Definition implements_groups {A R} `{!JniDummyValue R} (method : JniM E J R)
    (m : StateResult (JavaGroups * Csprng) A) (shows : A -> R -> Memory * J -> Prop)
    (s : Memory * J) (w : JavaWorld) (g : JavaGroups) : Prop :=
  let '(r, (g', c')) := m (g, World.csprng w) in
  ends method s r shows (fun s' => mirrors s' (World.with_csprng c' w) g').

Lemma noted_result {A} (m : StateResult Noted A) (mw : StateResult JavaWorld A) w g :
  related (noted_is g) always m mw -> (m (mk_noted w g [])).1 = (mw w).1.
Proof. intros [_ Hm]. by destruct (Hm (mk_noted w g []) w (conj eq_refl eq_refl) I). Qed.

Lemma implements_noted {A R} `{!JniDummyValue R} (method : JniM E J R) (m : StateResult Noted A)
    (mw : StateResult JavaWorld A) shows s w g :
  related (noted_is g) always m mw ->
  ends method s (m (mk_noted w g [])).1 shows (after m (mk_noted w g [])) ->
  implements method mw shows s w g.
Proof.
  intros [_ Hm] He. unfold implements, after in *.
  destruct (Hm (mk_noted w g []) w (conj eq_refl eq_refl) I) as [Hr [Hw Hgr]].
  by rewrite Hr, Hw, Hgr in He.
Qed.

Lemma noted_groups_result {A} (m : StateResult Noted A) (mg : StateResult (JavaGroups * Csprng) A) n :
  related (noted_groups_is (noted_world n)) always m mg ->
  (m n).1 = (mg (noted_groups n, World.csprng (noted_world n))).1 /\
  noted_groups_is (noted_world n) (m n).2 (mg (noted_groups n, World.csprng (noted_world n))).2.
Proof. intros [_ Hm]. apply Hm; [|done]. split; [by destruct n as [[]]|done]. Qed.

Lemma implements_groups_noted {A R} `{!JniDummyValue R} (method : JniM E J R) (m : StateResult Noted A)
    (mg : StateResult (JavaGroups * Csprng) A) shows s w g :
  related (noted_groups_is w) always m mg ->
  ends method s (m (mk_noted w g [])).1 shows (after m (mk_noted w g [])) ->
  implements_groups method mg shows s w g.
Proof.
  intros Hm He. unfold implements_groups, after in *.
  destruct (noted_groups_result m mg (mk_noted w g []) Hm) as [Hr [Hw Hgr]]. cbn in Hr, Hw, Hgr.
  destruct (mg (g, World.csprng w)) as [r [g' c']]. by rewrite Hr, Hw, Hgr in He.
Qed.

Create HintDb simulated discriminated.
#[local] Hint Resolve related_process_prekey_bundle related_message_encrypt
  related_message_decrypt_signal related_message_decrypt_prekey related_group_encrypt
  related_group_decrypt related_process_distribution related_create_distribution
  java_sessions_simulated java_identities_simulated java_pre_keys_simulated
  java_signed_pre_keys_simulated java_sender_keys_simulated java_rng_simulated noted_is_sessions
  noted_is_identities noted_is_pre_keys noted_is_signed_pre_keys noted_is_rng
  noted_groups_is_sender_keys noted_groups_is_rng : simulated.

(** The stores of a method on sessions. *)
Lemma two_stores_step s : exists s', grows s s' /\
  forall R (k : JniIdentityKeyStore -> JniSessionStore -> JniM E J R),
    (let! i := JniIdentityKeyStore.new io in let! o := JniSessionStore.new so in k i o) s
    = k {| identity_store_object := io |} {| session_store_object := so |} s'.
Proof.
  destruct (new_identity_store_step s) as (s1 & Hi & Hg1).
  destruct (new_session_store_step s1) as (s2 & Ho & Hg2).
  exists s2. split; [by etrans|]. intros R k.
  by rewrite (st_bind_eq _ _ _ _ _ Hi), (st_bind_eq _ _ _ _ _ Ho).
Qed.

Lemma signal_last {A} (f : JniM E J (Result A)) s :
  (let! r := f in signal r) s = (let! r := f in let! x := signal r in st_ret x) s.
Proof. unfold st_bind. destruct (f s) as [[[]| |] s']; done. Qed.

Abbreviation calling op := (ends_grown _ op op) (only parsing).

Lemma process_prekey_bundle_ends pa pb a bundle s n0 :
  handle s.1 pa a -> handle s.1 pb bundle -> mirrors s (noted_world n0) (noted_groups n0) ->
  fine (process_prekey_bundle a bundle None n0).2 ->
  ends (NativeStores.SessionBuilder_ProcessPreKeyBundle (E:=E) pb pa so io) s
    (process_prekey_bundle a bundle None n0).1 shows_nothing
    (after (process_prekey_bundle a bundle None) n0).
Proof.
  intros Ha Hb Hs Hk. unfold NativeStores.SessionBuilder_ProcessPreKeyBundle.
  destruct (two_stores_step s) as (s0 & Hg & Hst).
  eapply (calling (process_prekey_bundle a bundle None) st_ret);
    [|exact Hg|done|eauto 9 with simulated|exact Hk|intros; apply gives_nothing].
  rewrite (st_bind_eq _ _ _ _ _ (cast_step _ _ _ Hb)), (st_bind_eq _ _ _ _ _ (cast_step _ _ _ Ha)).
  rewrite Hst. apply signal_last.
Qed.

(** The Java message that is made of a message. *)
Definition message_result (c : CiphertextMessage) : JniM E J jobject :=
  match c with
  | CiphertextMessage.SignalMessage m =>
      let! h := box_object (Ok m) in jobject_from_native_handle signal_message_class h
  | CiphertextMessage.PreKeySignalMessage m =>
      let! h := box_object (Ok m) in jobject_from_native_handle pre_key_message_class h
  | _ => fail (Signal (InternalError "Unexpected result type from message_encrypt"))
  end.

Lemma message_encrypt_ends o pa ptext a s n0 :
  look s o = Some (JavaBytes ptext) -> handle s.1 pa a -> mirrors s (noted_world n0) (noted_groups n0) ->
  fine (message_encrypt ptext a None n0).2 ->
  ends (NativeStores.SessionCipher_EncryptMessage (E:=E) o pa so io) s
    (message_encrypt ptext a None n0).1 shows_message
    (after (message_encrypt ptext a None) n0).
Proof.
  intros Ho Ha Hs Hk. unfold NativeStores.SessionCipher_EncryptMessage.
  destruct (convert_step o ptext s Ho) as (s1 & Hc & Hg1 & Hstay).
  assert (Ha1 : handle s1.1 pa a) by (split; [apply Ha|apply Hstay, Ha]).
  destruct (two_stores_step s1) as (s0 & Hg & Hst).
  eapply (calling (message_encrypt ptext a None) message_result);
    [|etrans; [exact Hg1|exact Hg]|done|eauto 9 with simulated|exact Hk|].
  - rewrite (st_bind_eq _ _ _ _ _ Hc), (st_bind_eq _ _ _ _ _ (cast_step _ _ _ Ha1)). apply Hst.
  - intros c s2 Hr _. apply message_encrypt_kind in Hr. unfold shows_message.
    destruct c as [m|m| |]; [| |done..].
    + destruct (gives_handle_object signal_message_class m (JavaSignalMessage m) s2)
        as (v & s3 & Hv & Hnull & Hl & Hg3); [known_class|done|]. by exists v, s3.
    + destruct (gives_handle_object pre_key_message_class m (JavaPreKeyMessage m) s2)
        as (v & s3 & Hv & Hnull & Hl & Hg3); [known_class|done|]. by exists v, s3.
Qed.

(** A plaintext that fits into a Java array. *)
Definition fits_array (r : Result bytes) : Prop :=
  forall b, r = Ok b -> (Z.of_nat (length b) < 2147483648)%Z.

Lemma message_decrypt_signal_ends pm pa m a s n0 :
  handle s.1 pm m -> handle s.1 pa a -> mirrors s (noted_world n0) (noted_groups n0) ->
  fine (message_decrypt_signal m a None n0).2 ->
  fits_array (message_decrypt_signal m a None n0).1 ->
  ends (NativeStores.SessionCipher_DecryptSignalMessage (E:=E) pm pa so io) s
    (message_decrypt_signal m a None n0).1 shows_bytes
    (after (message_decrypt_signal m a None) n0).
Proof.
  intros Hm Ha Hs Hk Hlen. unfold NativeStores.SessionCipher_DecryptSignalMessage.
  destruct (two_stores_step s) as (s0 & Hg & Hst).
  eapply (calling (message_decrypt_signal m a None) (fun b => to_jbytearray (Ok b)));
    [|exact Hg|done|eauto 9 with simulated|exact Hk|].
  - rewrite (st_bind_eq _ _ _ _ _ (cast_step _ _ _ Hm)), (st_bind_eq _ _ _ _ _ (cast_step _ _ _ Ha)).
    apply Hst.
  - intros b s2 Hr _. by apply gives_bytes, Hlen.
Qed.

Lemma message_decrypt_prekey_ends pm pa m a s n0 :
  handle s.1 pm m -> handle s.1 pa a -> mirrors s (noted_world n0) (noted_groups n0) ->
  fine (message_decrypt_prekey m a None n0).2 ->
  fits_array (message_decrypt_prekey m a None n0).1 ->
  ends (NativeStores.SessionCipher_DecryptPreKeySignalMessage (E:=E) pm pa so io po spo) s
    (message_decrypt_prekey m a None n0).1 shows_bytes
    (after (message_decrypt_prekey m a None) n0).
Proof.
  intros Hm Ha Hs Hk Hlen. unfold NativeStores.SessionCipher_DecryptPreKeySignalMessage.
  destruct (two_stores_step s) as (s1 & Hg1 & Hst).
  destruct (new_pre_key_store_step s1) as (s2 & Hp & Hg2).
  destruct (new_signed_pre_key_store_step s2) as (s3 & Hsp & Hg3).
  eapply (calling (message_decrypt_prekey m a None) (fun b => to_jbytearray (Ok b)));
    [|etrans; [exact Hg1|etrans; [exact Hg2|exact Hg3]]|done|eauto 9 with simulated|exact Hk|].
  - rewrite (st_bind_eq _ _ _ _ _ (cast_step _ _ _ Hm)), (st_bind_eq _ _ _ _ _ (cast_step _ _ _ Ha)).
    rewrite Hst. by rewrite (st_bind_eq _ _ _ _ _ Hp), (st_bind_eq _ _ _ _ _ Hsp).
  - intros b s4 Hr _. by apply gives_bytes, Hlen.
Qed.

(** ** Groups *)

Lemma create_distribution_ends pn n s n0 :
  handle s.1 pn n -> mirrors s (noted_world n0) (noted_groups n0) ->
  fine (create_sender_key_distribution_message n None n0).2 ->
  ends (NativeStores.GroupSessionBuilder_CreateSenderKeyDistributionMessage (E:=E) pn ko) s
    (create_sender_key_distribution_message n None n0).1
    shows_object (after (create_sender_key_distribution_message n None) n0).
Proof.
  intros Hn Hs Hk. unfold NativeStores.GroupSessionBuilder_CreateSenderKeyDistributionMessage.
  destruct (new_sender_key_store_step s) as (s0 & Hst & Hg).
  eapply (calling (create_sender_key_distribution_message n None) (fun x => box_object (Ok x)));
    [|exact Hg|done|eauto 9 with simulated|exact Hk|intros; apply gives_object].
  by rewrite (st_bind_eq _ _ _ _ _ (cast_step _ _ _ Hn)), (st_bind_eq _ _ _ _ _ Hst).
Qed.

Lemma process_distribution_ends pn pd n skdm s n0 :
  handle s.1 pn n -> handle s.1 pd skdm -> mirrors s (noted_world n0) (noted_groups n0) ->
  fine (process_sender_key_distribution_message n skdm None n0).2 ->
  ends (NativeStores.GroupSessionBuilder_ProcessSenderKeyDistributionMessage (E:=E) pn pd ko) s
    (process_sender_key_distribution_message n skdm None n0).1
    shows_nothing (after (process_sender_key_distribution_message n skdm None) n0).
Proof.
  intros Hn Hd Hs Hk. unfold NativeStores.GroupSessionBuilder_ProcessSenderKeyDistributionMessage.
  destruct (new_sender_key_store_step s) as (s0 & Hst & Hg).
  eapply (calling (process_sender_key_distribution_message n skdm None) st_ret);
    [|exact Hg|done|eauto 9 with simulated|exact Hk|intros; apply gives_nothing].
  rewrite (st_bind_eq _ _ _ _ _ (cast_step _ _ _ Hn)), (st_bind_eq _ _ _ _ _ (cast_step _ _ _ Hd)),
    (st_bind_eq _ _ _ _ _ Hst). apply signal_last.
Qed.

Lemma group_encrypt_ends pn o n ptext s n0 :
  handle s.1 pn n -> look s o = Some (JavaBytes ptext) -> mirrors s (noted_world n0) (noted_groups n0) ->
  fine (group_encrypt n ptext None n0).2 ->
  fits_array (group_encrypt n ptext None n0).1 ->
  ends (NativeStores.GroupCipher_EncryptMessage (E:=E) pn o ko) s (group_encrypt n ptext None n0).1
    shows_bytes (after (group_encrypt n ptext None) n0).
Proof.
  intros Hn Ho Hs Hk Hlen. unfold NativeStores.GroupCipher_EncryptMessage.
  destruct (convert_step o ptext s Ho) as (s1 & Hc & Hg1 & _).
  destruct (new_sender_key_store_step s1) as (s0 & Hst & Hg).
  eapply (calling (group_encrypt n ptext None) (fun b => to_jbytearray (Ok b)));
    [|etrans; [exact Hg1|exact Hg]|done|eauto 9 with simulated|exact Hk|].
  - by rewrite (st_bind_eq _ _ _ _ _ (cast_step _ _ _ Hn)), (st_bind_eq _ _ _ _ _ Hc),
      (st_bind_eq _ _ _ _ _ Hst).
  - intros b s2 Hr _. by apply gives_bytes, Hlen.
Qed.

Lemma group_decrypt_ends pn o n b s n0 :
  handle s.1 pn n -> look s o = Some (JavaBytes b) -> mirrors s (noted_world n0) (noted_groups n0) ->
  fine (group_decrypt b n None n0).2 ->
  fits_array (group_decrypt b n None n0).1 ->
  ends (NativeStores.GroupCipher_DecryptMessage (E:=E) pn o ko) s (group_decrypt b n None n0).1
    shows_bytes (after (group_decrypt b n None) n0).
Proof.
  intros Hn Ho Hs Hk Hlen. unfold NativeStores.GroupCipher_DecryptMessage.
  destruct (convert_step o b s Ho) as (s1 & Hc & Hg1 & _).
  destruct (new_sender_key_store_step s1) as (s0 & Hst & Hg).
  eapply (calling (group_decrypt b n None) (fun p => to_jbytearray (Ok p)));
    [|etrans; [exact Hg1|exact Hg]|done|eauto 9 with simulated|exact Hk|].
  - by rewrite (st_bind_eq _ _ _ _ _ (cast_step _ _ _ Hn)), (st_bind_eq _ _ _ _ _ Hc),
      (st_bind_eq _ _ _ _ _ Hst).
  - intros p s2 Hr _. by apply gives_bytes, Hlen.
Qed.
End Calls.
