(* ===== verification/JniProofs.v ===== *)
(** What a Java program gets from the native methods on sessions and groups: first
    contact, and a conversation in a group. *)

From S2P Require Import Prelude Error Crates Curve IdentityKey Proto Protocol SessionState SessionInvariant PreKeys SenderKeys.
From S2P Require Import Storage StoreAccess Session SessionCipher GroupCipher SessionRecordFacts SenderChain GroupProofs StoreProofs Conversation FirstContact.
From S2P Require Import StoreSimulation BridgeMemory FfiSpec JniUtil JniStores JniEntry JniSession JniSpec JniFrame JniApi.
From S2P Require Import JniProgram JniRecords JniNoted JniWorld JniCalls.

(** * Scripts of group calls *)

Section Scripts.
Context {W1 W2 : Type} (R : W1 -> W2 -> Prop) (good : W2 -> Prop) `{BuildConfig, Crates, ProtoCodecs}.
Context `{RelatedSenderKeys W1 W2 R good, !Stores.Rng W1, !Stores.Rng W2, !RelatedRng R good}.

Lemma related_group_send_all n ctx ps :
  related R good (group_send_all n ctx ps) (group_send_all n ctx ps).
Proof.
  induction ps as [|p ps IH]; cbn [group_send_all]; [apply related_ret|].
  apply related_bind; [by apply related_group_encrypt|intros b].
  apply related_bind; [done|intros bs; apply related_ret].
Qed.

Lemma related_group_receive_all n ctx bs :
  (forall w2, good (group_receive_all n ctx bs w2).2 -> good w2) /\
  forall w1 w2, R w1 w2 -> good (group_receive_all n ctx bs w2).2 ->
    (group_receive_all n ctx bs w1).1 = (group_receive_all n ctx bs w2).1 /\
    R (group_receive_all n ctx bs w1).2 (group_receive_all n ctx bs w2).2.
Proof.
  induction bs as [|b bs [IHg IH]]; cbn [group_receive_all]; [by split|].
  destruct (related_group_decrypt R good b n ctx) as [Hg Hr]. split.
  - intros w2. specialize (Hg w2). destruct (group_decrypt b n ctx w2) as [r w2'].
    specialize (IHg w2'). destruct (group_receive_all n ctx bs w2') as [l w2'']. auto.
  - intros w1 w2 Hw Hgood. specialize (Hr w1 w2 Hw).
    destruct (group_decrypt b n ctx w1) as [r1 w1'], (group_decrypt b n ctx w2) as [r2 w2'].
    specialize (IHg w2'). specialize (IH w1' w2').
    destruct (group_receive_all n ctx bs w1') as [l1 w1''], (group_receive_all n ctx bs w2') as [l2 w2''].
    cbn in *. destruct Hr as [-> Hw']; [by apply IHg|]. by destruct IH as [-> ?].
Qed.
End Scripts.

Section Proofs.
Context {E J : Type} `{!JNIEnv E J, !JavaView J, Platform, BuildConfig, Crates, ProtoCodecs, !OsRng J}.
Context {so io po spo ko : jobject} `{!JavaLaws E, !JavaStoreLaws E so io po spo ko}.
Context `{!AllocLaws, !ProtoLaws, !SubtleLaws}.
#[local] Instance proofs_sender_key_object : JniSenderKeyStore := {| sender_key_store_object := ko |}.
#[local] Existing Instances java_sender_keys_simulated java_rng_simulated.

(** * What a Java program does *)

(** Java code that encrypts for a group, with an array of its own. *)
Definition java_send (sender_key_name : Ptr) (p : bytes) : JniM E J bytes :=
  let! message := to_jbytearray (Ok p) in
  let! ctext := NativeStores.GroupCipher_EncryptMessage sender_key_name message ko in
  jni (JNIEnv.convert_byte_array ctext).

(** Java code that decrypts what it has received, and catches the exception. *)
Definition java_receive (sender_key_name : Ptr) (b : bytes) : JniM E J (option bytes) :=
  let! message := to_jbytearray (Ok b) in
  let! ptext := NativeStores.GroupCipher_DecryptMessage sender_key_name message ko in
  if (ptext =? 0)%Z
  then let! _ := jni JNIEnv.exception_clear in st_ret None
  else let! p := jni (JNIEnv.convert_byte_array ptext) in st_ret (Some p).

Fixpoint java_send_all (sender_key_name : Ptr) (ps : list bytes) : JniM E J (list bytes) :=
  match ps with
  | [] => st_ret []
  | p :: ps =>
      let! b := java_send sender_key_name p in
      let! bs := java_send_all sender_key_name ps in st_ret (b :: bs)
  end.

Fixpoint java_receive_all (sender_key_name : Ptr) (bs : list bytes) : JniM E J (list (option bytes)) :=
  match bs with
  | [] => st_ret []
  | b :: bs =>
      let! r := java_receive sender_key_name b in
      let! rs := java_receive_all sender_key_name bs in st_ret (r :: rs)
  end.

Definition is_short (b : bytes) : Prop := (Z.of_nat (length b) < 2147483648)%Z.

(** An array of the program's own, made next to an object that it holds. *)
Lemma array_step {T} `{Boxable T} b p (x : T) (s : Memory * J) :
  is_short b -> JavaKeeps E p (Boxed (inject x)) -> handle s.1 p x ->
  exists o s', to_jbytearray (E:=E) (Ok b) s = (Ok o, s') /\ look s' o = Some (JavaBytes b) /\
    grows s s' /\ handle s'.1 p x.
Proof.
  intros Hb Hk [Hnull Hp]. destruct (to_jbytearray_step (E:=E) b s Hb) as (o & s' & Ho & _ & Hl & Hg).
  exists o, s'. split_and!; [done..|]. split; [done|].
  pose proof (kept_to_jbytearray (E:=E) p (Boxed (inject x)) (Ok b) s Hp) as Hs. by rewrite Ho in Hs.
Qed.

(** A native method leaves an object that the program holds. *)
Lemma native_keeps {T} `{Boxable T} {R} (f : JniM E J R) p (x : T) s v s' :
  native [] R f -> JavaKeeps E p (Boxed (inject x)) -> handle s.1 p x -> f s = (Ok v, s') ->
  handle s'.1 p x.
Proof.
  intros Hf Hk [Hnull Hp] Hs. split; [done|].
  exact (native_contained [] R f p _ Hf Hk (not_elem_of_nil _) s v s' Hs Hp).
Qed.

(** ** A member of a group *)

Section Member.
Context (pn : Ptr) (n : SenderKeyName) (Hkeeps : JavaKeeps E pn (Boxed (inject n))).

Lemma java_send_step p b s n0 :
  handle s.1 pn n -> mirrors s (noted_world n0) (noted_groups n0) -> is_short p ->
  fine (group_encrypt n p None n0).2 -> (group_encrypt n p None n0).1 = Ok b -> is_short b ->
  exists s', java_send pn p s = (Ok b, s') /\ handle s'.1 pn n /\ after (group_encrypt n p None) n0 s'.
Proof.
  intros Hn Hs Hp Hfine Hr Hb. unfold java_send.
  destruct (array_step p pn n s Hp Hkeeps Hn) as (o & s1 & Ho & Hl & Hg1 & Hn1).
  pose proof (group_encrypt_ends pn o n p s1 n0 Hn1 Hl (mirrors_grows _ _ _ _ Hs Hg1) Hfine) as He.
  rewrite Hr in He. destruct He as (v & s2 & Hv & [_ Hlv] & Ha); [by intros ? [= <-]|].
  pose proof (native_keeps _ pn n s1 v s2 (native_group_cipher_encrypt_message pn o ko) Hkeeps Hn1 Hv)
    as Hn2.
  destruct (convert_step v b s2 Hlv) as (s3 & Hc & Hg3 & Hstay).
  exists s3. rewrite (st_bind_eq _ _ _ _ _ Ho), (st_bind_eq _ _ _ _ _ Hv). split_and!; [done| |].
  - split; [apply Hn2|apply Hstay, Hn2].
  - by eapply mirrors_grows.
Qed.

(** What is left of an answer when exceptions are caught. *)
Definition caught {A} (r : Result A) : option A := match r with Ok x => Some x | _ => None end.

Lemma catch_step class msg (s : Memory * J) n0 :
  handle (JNIEnv.throw_new (E:=E) class msg s).2.1 pn n ->
  mirrors s (noted_world n0) (noted_groups n0) ->
  exists s', jni (JNIEnv.exception_clear (E:=E)) (JNIEnv.throw_new (E:=E) class msg s).2 = (Ok tt, s') /\
    handle s'.1 pn n /\ mirrors s' (noted_world n0) (noted_groups n0).
Proof.
  intros [Hnull Hn] Hs. destruct (java_throw_caught (E:=E) class msg s) as (_ & s' & Hc & Hg & _).
  exists s'. split; [by apply jni_ok|]. split; [|by eapply mirrors_grows]. split; [done|].
  pose proof (keeps_exception_clear (E:=E) (p:=pn) (c:=Boxed (inject n)) _ Hn) as Hk. by rewrite Hc in Hk.
Qed.

Lemma java_receive_step b s n0 :
  handle s.1 pn n -> mirrors s (noted_world n0) (noted_groups n0) -> is_short b ->
  fine (group_decrypt b n None n0).2 -> fits_array (group_decrypt b n None n0).1 ->
  exists s', java_receive pn b s = (Ok (caught (group_decrypt b n None n0).1), s') /\
    handle s'.1 pn n /\ after (group_decrypt b n None) n0 s'.
Proof.
  intros Hn Hs Hb Hfine Hlen. unfold java_receive.
  destruct (array_step b pn n s Hb Hkeeps Hn) as (o & s1 & Ho & Hl & Hg1 & Hn1).
  pose proof (group_decrypt_ends pn o n b s1 n0 Hn1 Hl (mirrors_grows _ _ _ _ Hs Hg1) Hfine Hlen) as He.
  rewrite (st_bind_eq _ _ _ _ _ Ho). unfold ends in He.
  assert (Hkept : forall v s2, NativeStores.GroupCipher_DecryptMessage pn o ko s1 = (Ok v, s2) ->
    handle s2.1 pn n).
  { intros v s2. by apply native_keeps; [constructor|..]. }
  destruct (group_decrypt b n None n0).1 as [p|e|] eqn:Hr.
  - destruct He as (v & s2 & Hv & [Hnull Hlv] & Ha). specialize (Hkept v s2 Hv).
    destruct (convert_step v p s2 Hlv) as (s3 & Hc & Hg3 & Hstay).
    exists s3. rewrite (st_bind_eq _ _ _ _ _ Hv), (proj2 (Z.eqb_neq _ _) Hnull), (st_bind_eq _ _ _ _ _ Hc).
    split_and!; [done| |by eapply mirrors_grows]. split; [apply Hkept|apply Hstay, Hkept].
  - destruct He as (s2 & Ha & Hv). specialize (Hkept _ _ Hv).
    destruct (catch_step _ _ s2 (group_decrypt b n None n0).2 Hkept Ha) as (s3 & Hc & Hn3 & Ha3).
    exists s3. rewrite (st_bind_eq _ _ _ _ _ Hv). cbn [Z.eqb dummy_value dummy_number].
    by rewrite (st_bind_eq _ _ _ _ _ Hc).
  - destruct He as (s2 & Ha & Hv). specialize (Hkept _ _ Hv).
    destruct (catch_step _ _ s2 (group_decrypt b n None n0).2 Hkept Ha) as (s3 & Hc & Hn3 & Ha3).
    exists s3. rewrite (st_bind_eq _ _ _ _ _ Hv). cbn [Z.eqb dummy_value dummy_number].
    by rewrite (st_bind_eq _ _ _ _ _ Hc).
Qed.

Lemma java_send_all_ok ps : forall bs s n0,
  handle s.1 pn n -> mirrors s (noted_world n0) (noted_groups n0) -> Forall is_short ps ->
  fine (group_send_all n None ps n0).2 -> (group_send_all n None ps n0).1 = Ok bs -> Forall is_short bs ->
  exists s', java_send_all pn ps s = (Ok bs, s') /\ handle s'.1 pn n /\ after (group_send_all n None ps) n0 s'.
Proof.
  induction ps as [|p ps IH]; intros bs s n0 Hn Hs Hps Hfine Hr Hbs.
  { exists s. cbn in Hr. injection Hr as <-. by split. }
  apply Forall_cons_1 in Hps as [Hp Hps]. unfold after in *.
  destruct (group_send_all n None (p :: ps) n0) as [r n3] eqn:Hall. cbn in Hr. subst r.
  cbn [group_send_all] in Hall.
  apply st_bind_ok in Hall as (b & n1 & He & Hall). apply st_bind_ok in Hall as (bs' & n2 & Hrest & Hall).
  apply st_ret_ok in Hall as [<- <-]. apply Forall_cons_1 in Hbs as [Hb Hbs].
  assert (Hf1 : fine n1).
  { destruct (related_group_send_all agrees fine n None ps) as [Hmono _]. apply Hmono. by rewrite Hrest. }
  destruct (java_send_step p b s n0 Hn Hs Hp) as (s1 & Hv & Hn1 & Ha1); [by rewrite He..|done|].
  unfold after in Ha1. rewrite He in Ha1. cbn in Ha1.
  destruct (IH bs' s1 n1 Hn1 Ha1 Hps) as (s2 & Hv2 & Hn2 & Ha2); [by rewrite Hrest..|done|].
  rewrite Hrest in Ha2. exists s2. cbn [java_send_all].
  by rewrite (st_bind_eq _ _ _ _ _ Hv), (st_bind_eq _ _ _ _ _ Hv2).
Qed.

Lemma java_receive_all_ok bs : forall s n0,
  handle s.1 pn n -> mirrors s (noted_world n0) (noted_groups n0) -> Forall is_short bs ->
  fine (group_receive_all n None bs n0).2 -> Forall fits_array (group_receive_all n None bs n0).1 ->
  exists s', java_receive_all pn bs s = (Ok (caught <$> (group_receive_all n None bs n0).1), s').
Proof.
  induction bs as [|b bs IH]; intros s n0 Hn Hs Hbs Hfine Hfits; [by exists s|].
  apply Forall_cons_1 in Hbs as [Hb Hbs]. cbn [group_receive_all java_receive_all] in *.
  pose proof (java_receive_step b s n0 Hn Hs Hb) as Hstep. unfold after in Hstep.
  destruct (group_decrypt b n None n0) as [r n1].
  destruct (related_group_receive_all agrees fine n None bs) as [Hmono _]. specialize (Hmono n1).
  specialize (IH) with (n0 := n1). destruct (group_receive_all n None bs n1) as [rs n2].
  apply Forall_cons_1 in Hfits as [Hfit Hfits].
  destruct (Hstep (Hmono Hfine) Hfit) as (s1 & Hv & Hn1 & Ha1).
  destruct (IH s1 Hn1 Ha1 Hbs Hfine Hfits) as (s2 & Hv2).
  exists s2. by rewrite (st_bind_eq _ _ _ _ _ Hv), (st_bind_eq _ _ _ _ _ Hv2).
Qed.
End Member.

(** * The native methods *)

Create HintDb in_world discriminated.
#[local] Hint Resolve related_process_prekey_bundle related_message_encrypt
  related_message_decrypt_signal related_message_decrypt_prekey related_group_encrypt
  related_group_decrypt related_process_distribution related_create_distribution
  noted_is_sessions noted_is_identities noted_is_pre_keys noted_is_signed_pre_keys noted_is_rng
  noted_groups_is_sender_keys noted_groups_is_rng : in_world.

(** A native method does, on the stores of a Java program, what the function does on maps. *)
Ltac in_world :=
  first [eapply implements_noted; [by eauto 9 with in_world|]
        |eapply implements_groups_noted; [by eauto 9 with in_world|]].

(** C19: the native methods on the stores of a Java program do what the protocol crate does
    on maps.  Where the program keeps what a world and a store of sender keys keep, the
    handles and arrays given to the methods hold the arguments, and the run on maps asks
    for nothing that a Java program cannot keep, each of the eight methods that build
    sessions, encrypt and decrypt, for two parties and for groups, shows the result of
    the function as a Java object, or throws the exception of its error or panic, and the
    program then keeps what the maps hold after the run. *)
Theorem java_calls_implement_operations (s : Memory * J) w g :
  mirrors s w g ->
  (forall pa a, handle s.1 pa a ->
    (forall pb bundle, handle s.1 pb bundle -> keepable (process_prekey_bundle a bundle None) w g ->
      implements (NativeStores.SessionBuilder_ProcessPreKeyBundle (E:=E) pb pa so io)
        (process_prekey_bundle a bundle None) shows_nothing s w g) /\
    (forall o p, look s o = Some (JavaBytes p) -> keepable (message_encrypt p a None) w g ->
      implements (NativeStores.SessionCipher_EncryptMessage (E:=E) o pa so io)
        (message_encrypt p a None) shows_message s w g) /\
    (forall pm m, handle s.1 pm m -> keepable (message_decrypt_signal m a None) w g ->
      fits_array (message_decrypt_signal m a None w).1 ->
      implements (NativeStores.SessionCipher_DecryptSignalMessage (E:=E) pm pa so io)
        (message_decrypt_signal m a None) shows_bytes s w g) /\
    (forall pm m, handle s.1 pm m -> keepable (message_decrypt_prekey m a None) w g ->
      fits_array (message_decrypt_prekey m a None w).1 ->
      implements (NativeStores.SessionCipher_DecryptPreKeySignalMessage (E:=E) pm pa so io po spo)
        (message_decrypt_prekey m a None) shows_bytes s w g)) /\
  (forall pn n, handle s.1 pn n ->
    (keepable (create_sender_key_distribution_message n None) w g ->
      implements_groups (NativeStores.GroupSessionBuilder_CreateSenderKeyDistributionMessage (E:=E) pn ko)
        (create_sender_key_distribution_message n None) shows_object s w g) /\
    (forall pd skdm, handle s.1 pd skdm ->
      keepable (process_sender_key_distribution_message n skdm None) w g ->
      implements_groups (NativeStores.GroupSessionBuilder_ProcessSenderKeyDistributionMessage (E:=E) pn pd ko)
        (process_sender_key_distribution_message n skdm None) shows_nothing s w g) /\
    (forall o p, look s o = Some (JavaBytes p) -> keepable (group_encrypt n p None) w g ->
      fits_array (group_encrypt n p None (g, World.csprng w)).1 ->
      implements_groups (NativeStores.GroupCipher_EncryptMessage (E:=E) pn o ko)
        (group_encrypt n p None) shows_bytes s w g) /\
    (forall o b, look s o = Some (JavaBytes b) -> keepable (group_decrypt b n None) w g ->
      fits_array (group_decrypt b n None (g, World.csprng w)).1 ->
      implements_groups (NativeStores.GroupCipher_DecryptMessage (E:=E) pn o ko)
        (group_decrypt b n None) shows_bytes s w g)).
Proof.
  intros Hs. split; [intros pa a Ha|intros pn n Hn].
  - split_and!; intros.
    + in_world. by apply process_prekey_bundle_ends.
    + in_world. by apply message_encrypt_ends.
    + in_world. apply message_decrypt_signal_ends; try done.
      erewrite noted_result; [done|eauto 9 with in_world].
    + in_world. apply message_decrypt_prekey_ends; try done.
      erewrite noted_result; [done|eauto 9 with in_world].
  - split_and!; intros.
    + in_world. by apply create_distribution_ends.
    + in_world. by apply process_distribution_ends.
    + in_world. apply group_encrypt_ends; try done.
      edestruct (noted_groups_result (group_encrypt n p None)) as [-> _]; [eauto 9 with in_world|done].
    + in_world. apply group_decrypt_ends; try done.
      edestruct (noted_groups_result (group_decrypt b n None)) as [-> _]; [eauto 9 with in_world|done].
Qed.

(** ** Two parties *)

Context `{!HashLaws, !X25519Laws, !CbcLaws, !EdwardsLaws}.

(** Java code that processes a bundle and encrypts a first message. *)
Definition java_contact (bundle protocol_address : Ptr) (p : bytes) : JniM E J jobject :=
  let! _ := NativeStores.SessionBuilder_ProcessPreKeyBundle bundle protocol_address so io in
  let! message := to_jbytearray (Ok p) in
  NativeStores.SessionCipher_EncryptMessage message protocol_address so io.

Lemma java_contact_ok pb pa a bundle p m s w g w1 w2 :
  mirrors s w g -> handle s.1 pb bundle -> handle s.1 pa a -> JavaKeeps E pa (Boxed (inject a)) ->
  is_short p -> process_prekey_bundle a bundle None w = (Ok tt, w1) ->
  message_encrypt p a None w1 = (Ok (CiphertextMessage.PreKeySignalMessage m), w2) ->
  keepable (process_prekey_bundle a bundle None) w g -> keepable (message_encrypt p a None) w1 g ->
  exists o s', java_contact pb pa p s = (Ok o, s') /\ look s' o = Some (JavaPreKeyMessage m) /\
    mirrors s' w2 g.
Proof.
  intros Hs Hb Ha Hkeeps Hp Hproc Henc Hk1 Hk2. unfold java_contact.
  assert (implements (NativeStores.SessionBuilder_ProcessPreKeyBundle (E:=E) pb pa so io)
    (process_prekey_bundle a bundle None) shows_nothing s w g) as Hi1.
  { in_world. by apply process_prekey_bundle_ends. }
  unfold implements, ends in Hi1. rewrite Hproc in Hi1. destruct Hi1 as ([] & s1 & Hv1 & _ & Hs1).
  pose proof (native_keeps _ pa a s tt s1 (native_session_builder_process_pre_key_bundle pb pa so io)
    Hkeeps Ha Hv1) as Ha1.
  destruct (array_step p pa a s1 Hp Hkeeps Ha1) as (o & s2 & Ho & Hl & Hg & Ha2).
  assert (implements (NativeStores.SessionCipher_EncryptMessage (E:=E) o pa so io)
    (message_encrypt p a None) shows_message s2 w1 g) as Hi2.
  { in_world. apply message_encrypt_ends; try done. by eapply mirrors_grows. }
  unfold implements, ends in Hi2. rewrite Henc in Hi2. destruct Hi2 as (v & s3 & Hv & [_ Hm] & Hs3).
  exists v, s3. by rewrite (st_bind_eq _ _ _ _ _ Hv1), (st_bind_eq _ _ _ _ _ Ho).
Qed.

Lemma mirrors_answer s w g a r :
  mirrors s w g -> good_address a -> stored_session w a = Some r -> session_answer s a = Ok r.
Proof.
  intros Hs Ha [= <-]. unfold session_answer. rewrite (mirrors_sessions _ _ _ Hs a Ha).
  by destruct (java_records _ !! a).
Qed.

(** C17: first contact between two Java programs, by the native methods that they call.
    Bob has published a bundle with ids that fit, each side trusts the other's identity,
    the record Alice may have for Bob has at most forty archived sessions, no session that
    Bob may have with Alice was begun with the base key that her generator gives next, the
    key that his gives next is not his signed pre-key, and nothing that they store is more
    than a Java program keeps.  Then Alice's program, which processes the bundle and encrypts, gets a pre-key message that
    parses from its bytes; and Bob's program, given that message, gets an array with the
    plaintext.  The one-time pre-key is gone from his store, and the sessions that the
    stores of both programs have are in step. *)
Theorem first_contact_through_java (sa : Memory * J) wa ga wb gb pa pb alice_address bob_address bundle
    signed one_time ptext :
  mirrors sa wa ga -> handle sa.1 pb bundle -> handle sa.1 pa bob_address ->
  JavaKeeps E pa (Boxed (inject bob_address)) -> is_short ptext ->
  published wb bundle signed one_time -> contact_ids wa bundle ->
  IdentityKeyPair.matching (own_identity (World.identity_store wa)) ->
  trusted wa bob_address (IdentityKeyPair.identity_key (own_identity (World.identity_store wb))) ->
  trusted wb alice_address (IdentityKeyPair.identity_key (own_identity (World.identity_store wa))) ->
  record_bounded (loaded_record wa bob_address) ->
  open_to (loaded_record wb alice_address) (KeyPair.public_key (KeyPair.generate (World.csprng wa)).1) ->
  KeyPair.public_key (KeyPair.generate (World.csprng wb)).1 <> KeyPair.public_key signed ->
  good_address alice_address -> good_address bob_address ->
  keepable (process_prekey_bundle bob_address bundle None) wa ga ->
  (forall wa1 m wa2, process_prekey_bundle bob_address bundle None wa = (Ok tt, wa1) ->
     message_encrypt ptext bob_address None wa1 = (Ok (CiphertextMessage.PreKeySignalMessage m), wa2) ->
     keepable (message_encrypt ptext bob_address None) wa1 ga /\
     keepable (message_decrypt_prekey m alice_address None) wb gb) ->
  exists o sa1 m,
    java_contact pb pa ptext sa = (Ok o, sa1) /\ look sa1 o = Some (JavaPreKeyMessage m) /\
    PreKeySignalMessage.try_from (PreKeySignalMessage.serialized m) = Ok m /\
    forall sb pm pc, mirrors sb wb gb -> handle sb.1 pm m -> handle sb.1 pc alice_address ->
      exists o sb1,
        NativeStores.SessionCipher_DecryptPreKeySignalMessage (E:=E) pm pc so io po spo sb = (Ok o, sb1) /\
        shows_bytes ptext o sb1 /\
        (forall id, PreKeyBundle.pre_key_id_ bundle = Some id -> is_u32 id ->
           device_pre_keys (java_device sb1) !! as_jint id = None) /\
        exists a b olda oldb,
          session_answer sa1 bob_address = Ok (SessionRecord.mk (Some a) olda) /\
          session_answer sb1 alice_address = Ok (SessionRecord.mk (Some b) oldb) /\ ahead b a 0 0.
Proof.
  intros Hsa Hpb Hpa Hkeeps Hp Hpub Hids Hma Hta Htb Hbound Hopen Hfresh Hga Hgb Hk1 Hk.
  destruct (first_contact wa wb alice_address bob_address bundle signed one_time ptext None None)
    as (wa1 & m & wa2 & wb1 & Hproc & He & Hparse & Hd & Hgone & _ & _ & a & b & olda & oldb & Ha & Hb & Hahead);
    [done..|].
  destruct (Hk wa1 m wa2 Hproc He) as [Hk2 Hk3].
  destruct (java_contact_ok pb pa bob_address bundle ptext m sa wa ga wa1 wa2)
    as (o & sa1 & Ho & Hl & Hsa1); [done..|].
  exists o, sa1, m. split_and!; [done|done|auto|]. intros sb pm pc Hsb Hpm Hpc.
  assert (implements (NativeStores.SessionCipher_DecryptPreKeySignalMessage (E:=E) pm pc so io po spo)
    (message_decrypt_prekey m alice_address None) shows_bytes sb wb gb) as Hi3.
  { in_world. apply message_decrypt_prekey_ends; try done.
    erewrite noted_result; [|eauto 9 with in_world]. rewrite Hd. by intros ? [= <-]. }
  unfold implements, ends in Hi3. rewrite Hd in Hi3. destruct Hi3 as (o' & sb1 & Hv & Hshow & Hsb1).
  exists o', sb1. split_and!; [done|done| |].
  - intros id Hid Hu. rewrite (mirrors_pre_keys _ _ _ Hsb1) by done. by apply Hgone.
  - exists a, b, olda, oldb. split_and!; [by eapply mirrors_answer..|done].
Qed.

(** ** Groups *)

Context `{!RngLaws}.

(** What Java code gets for the [j]-th message: its plaintext, or an exception. *)
Definition reads (ps : list bytes) (j : nat) (res : option bytes) (a : Receiver.answer) : Prop :=
  match a with
  | Receiver.Deliver => exists p, ps !! j = Some p /\ res = Some p
  | _ => res = None
  end.

Lemma answered_reads ps js rs answers :
  Forall3 (answered ps) js rs answers -> Forall3 (reads ps) js (caught <$> rs) answers.
Proof.
  induction 1 as [|j r a js rs answers Hr _ IH]; [constructor|]. constructor; [|done].
  destruct a; cbn in *; [|by destruct Hr as [i ->]|done].
  destruct Hr as (p & Hp & ->). by exists p.
Qed.

Lemma answered_fits ps js rs answers :
  Forall is_short ps -> Forall3 (answered ps) js rs answers -> Forall fits_array rs.
Proof.
  intros Hps. induction 1 as [|j r a js rs answers Hr _ IH]; [constructor|]. constructor; [|done].
  intros p ->. destruct a; cbn in Hr; [|by destruct Hr|done].
  destruct Hr as (p' & Hp & [= <-]). by eapply (Forall_lookup_1 is_short).
Qed.

(** The noted states behind a member that has announced its key, and one that has
    processed the announcement. *)
Definition announced (n : SenderKeyName) (w : JavaWorld) (g : JavaGroups) : Noted :=
  (create_sender_key_distribution_message n None (mk_noted w g [])).2.
Definition introduced (n : SenderKeyName) skdm (w : JavaWorld) (g : JavaGroups) : Noted :=
  (process_sender_key_distribution_message n skdm None (mk_noted w g [])).2.

(** Announcing, on maps and by the native method. *)
Lemma announces_step n pn skdm g1 (s : Memory * J) w g :
  mirrors s w g -> handle s.1 pn n -> JavaKeeps E pn (Boxed (inject n)) ->
  create_sender_key_distribution_message n None (g, World.csprng w) = (Ok skdm, g1) ->
  (create_sender_key_distribution_message n None (mk_noted w g [])).1 = Ok skdm /\
  noted_groups_is w (announced n w g) g1 /\
  (fine (announced n w g) -> exists h s',
    NativeStores.GroupSessionBuilder_CreateSenderKeyDistributionMessage pn ko s = (Ok h, s') /\
    handle s'.1 h skdm /\ handle s'.1 pn n /\
    mirrors s' (noted_world (announced n w g)) (noted_groups (announced n w g))).
Proof.
  intros Hs Hn Hkeeps Hcreate.
  destruct (noted_groups_result (create_sender_key_distribution_message n None)
    (create_sender_key_distribution_message n None) (mk_noted w g [])) as [Hr Hg];
    [eauto 9 with in_world|]. cbn [noted_groups noted_world] in Hr, Hg. rewrite Hcreate in Hr, Hg.
  split; [exact Hr|]. split; [exact Hg|]. intros Hfine.
  pose proof (create_distribution_ends pn n s (mk_noted w g []) Hn Hs Hfine) as He.
  rewrite Hr in He. destruct He as (h & s' & Hv & Hh & Hs').
  exists h, s'. split_and!; [done..| |done].
  by eapply native_keeps, Hv; [constructor|..].
Qed.

(** Processing an announcement, on maps and by the native method. *)
Lemma introduces_step n pn pd skdm g1 (s : Memory * J) w g :
  mirrors s w g -> handle s.1 pn n -> JavaKeeps E pn (Boxed (inject n)) -> handle s.1 pd skdm ->
  process_sender_key_distribution_message n skdm None (g, World.csprng w) = (Ok tt, g1) ->
  noted_groups_is w (introduced n skdm w g) g1 /\
  (fine (introduced n skdm w g) -> exists s',
    NativeStores.GroupSessionBuilder_ProcessSenderKeyDistributionMessage pn pd ko s = (Ok tt, s') /\
    handle s'.1 pn n /\
    mirrors s' (noted_world (introduced n skdm w g)) (noted_groups (introduced n skdm w g))).
Proof.
  intros Hs Hn Hkeeps Hd Hproc.
  destruct (noted_groups_result (process_sender_key_distribution_message n skdm None)
    (process_sender_key_distribution_message n skdm None) (mk_noted w g [])) as [Hr Hg];
    [eauto 9 with in_world|]. cbn [noted_groups noted_world] in Hr, Hg. rewrite Hproc in Hr, Hg.
  split; [exact Hg|]. intros Hfine.
  pose proof (process_distribution_ends pn pd n skdm s (mk_noted w g []) Hn Hd Hs Hfine) as He.
  rewrite Hr in He. destruct He as ([] & s' & Hv & _ & Hs').
  exists s'. split_and!; [done| |done]. by eapply native_keeps, Hv; [constructor|..].
Qed.

(** What is delivered is as short as what was sent. *)
Lemma delivered_short bs js :
  Forall is_short bs -> (forall j, j ∈ js -> j < length bs) -> Forall is_short ((fun j => nth j bs []) <$> js).
Proof.
  intros Hbs Hjs. apply Forall_fmap, Forall_forall. intros j Hj%list_elem_of_In.
  destruct (lookup_lt_is_Some_2 bs j) as [b Hb]; [by apply Hjs|].
  cbn. rewrite (nth_lookup_Some _ _ _ _ Hb). by eapply (Forall_lookup_1 is_short), Hb.
Qed.

(** C18: a conversation in a group between two Java programs, by the native methods that
    they call.  A sender without a record announces a sender key; a receiver, whatever it
    had stored, processes the announcement.  Then the sender's program encrypts any at
    most 2000 plaintexts, without an exception, and whatever the network delivers, in any
    order and any number of times, the receiver's program reads every message the first
    time that it arrives, and catches an exception every further time: as long as the
    plaintexts and messages fit into Java arrays and the runs ask for nothing that a
    Java program cannot keep. *)
Theorem group_conversation_through_java (ss : Memory * J) ws gs pn n wr gr n' ps :
  mirrors ss ws gs -> handle ss.1 pn n -> JavaKeeps E pn (Boxed (inject n)) ->
  record_states (gs, World.csprng ws) n = [] ->
  length ps <= MAX_MESSAGE_KEYS -> Forall is_short ps ->
  let sent := group_send_all n None ps (announced n ws gs) in
  (forall bs, sent.1 = Ok bs -> Forall is_short bs) -> fine sent.2 ->
  exists h ss1 skdm bs ss2,
    NativeStores.GroupSessionBuilder_CreateSenderKeyDistributionMessage pn ko ss = (Ok h, ss1) /\
    handle ss1.1 h skdm /\
    (create_sender_key_distribution_message n None (mk_noted ws gs [])).1 = Ok skdm /\
    SenderKeyDistributionMessage.try_from (SenderKeyDistributionMessage.serialized skdm) = Ok skdm /\
    java_send_all pn ps ss1 = (Ok bs, ss2) /\ sent.1 = Ok bs /\ length bs = length ps /\
    forall sr pn' pd js, mirrors sr wr gr -> handle sr.1 pn' n' -> JavaKeeps E pn' (Boxed (inject n')) ->
      handle sr.1 pd skdm -> (forall j, j ∈ js -> j < length ps) ->
      let delivered := (fun j => nth j bs []) <$> js in
      fine (group_receive_all n' None delivered (introduced n' skdm wr gr)).2 ->
      exists sr1 rs sr2,
        NativeStores.GroupSessionBuilder_ProcessSenderKeyDistributionMessage pn' pd ko sr = (Ok tt, sr1) /\
        java_receive_all pn' delivered sr1 = (Ok rs, sr2) /\
        Forall3 (reads ps) js rs (Receiver.once [] (Z.of_nat <$> js)).
Proof.
  intros Hss Hn Hkeeps Hempty Hlen Hps sent Hbs Hfine.
  destruct (group_conversation n None (gs, World.csprng ws) n' None (gr, World.csprng wr) Hempty)
    as (skdm & gs1 & gr1 & Hcreate & Hparse & Hproc & Hall).
  destruct (Hall ps Hlen) as (bs & gs2 & Hsend & Hlbs & Hrecv).
  destruct (announces_step n pn skdm gs1 ss ws gs) as (Hskdm & Hns & Hannounce); [done..|].
  destruct (related_group_send_all (noted_groups_is ws) always n None ps) as [_ Hsends].
  destruct (Hsends _ _ Hns I) as [Hrs _]. rewrite Hsend in Hrs.
  destruct Hannounce as (h & ss1 & Hv1 & Hh & Hn1 & Hs1).
  { destruct (related_group_send_all agrees fine n None ps) as [Hmono _]. by apply Hmono. }
  specialize (Hbs bs Hrs).
  destruct (java_send_all_ok pn n Hkeeps ps bs ss1 (announced n ws gs)) as (ss2 & Hv2 & _); [done..|].
  exists h, ss1, skdm, bs, ss2. split_and!; [done..|].
  intros sr pn' pd js Hsr Hn' Hkeeps' Hd Hjs delivered Hfr.
  destruct (introduces_step n' pn' pd skdm gr1 sr wr gr) as [Hnr Hintroduce]; [done..|].
  specialize (Hrecv js Hjs). fold delivered in Hrecv.
  destruct (related_group_receive_all (noted_groups_is wr) always n' None delivered) as [_ Hreceives].
  destruct (Hreceives _ _ Hnr I) as [Hrr _]. rewrite <-Hrr in Hrecv.
  destruct Hintroduce as (sr1 & Hv3 & Hn3 & Hs3).
  { destruct (related_group_receive_all agrees fine n' None delivered) as [Hmono _]. by apply Hmono. }
  destruct (java_receive_all_ok pn' n' Hkeeps' delivered sr1 (introduced n' skdm wr gr))
    as (sr2 & Hv4); [done..| |done|by eapply answered_fits, Hrecv|].
  { apply delivered_short; [done|]. rewrite Hlbs. exact Hjs. }
  do 3 eexists. split_and!; [exact Hv3|exact Hv4|]. by apply answered_reads.
Qed.
End Proofs.
