(* ===== verification/JniInstances.v ===== *)
(** A virtual machine for the witnesses: a heap of objects, the maps of a session
    store, an identity store and a store of sender keys, the pending exception and a
    generator.  Its methods destroy no native object. *)

From S2P Require Import Prelude Error Crates IdentityKey Proto Protocol PreKeys SessionState SenderKeys Storage Instances.
From S2P Require Import SessionInvariant SessionRecordFacts BridgeMemory FfiSpec FfiInstances JniUtil JniStores JniSpec JniFrame JniProgram.

Section Machine.
Context `{Crates, ProtoCodecs}.

Record Jvm := mk_jvm {
  heap : gmap Z JavaObject;
  kept_sessions : gmap (string * Z) bytes;
  kept_identities : gmap (string * Z) bytes;
  kept_sender_keys : gmap (string * string * Z) bytes;
  device : JavaDevice;
  pending : option (string * string);
  generator : Csprng;
}.

Definition on_jvm {A} (f : Jvm -> outcome string A * Jvm) : ST string (Memory * Jvm) A :=
  fun s => let '(r, j) := f s.2 in (r, (s.1, j)).

Definition set_object (o : Z) (v : JavaObject) (j : Jvm) : Jvm :=
  mk_jvm (<[o := v]> (heap j)) (kept_sessions j) (kept_identities j) (kept_sender_keys j)
    (device j) (pending j) (generator j).
Definition set_sessions m (j : Jvm) : Jvm :=
  mk_jvm (heap j) m (kept_identities j) (kept_sender_keys j) (device j) (pending j) (generator j).
Definition set_identities m (j : Jvm) : Jvm :=
  mk_jvm (heap j) (kept_sessions j) m (kept_sender_keys j) (device j) (pending j) (generator j).
Definition set_sender_keys m (j : Jvm) : Jvm :=
  mk_jvm (heap j) (kept_sessions j) (kept_identities j) m (device j) (pending j) (generator j).
Definition set_device d (j : Jvm) : Jvm :=
  mk_jvm (heap j) (kept_sessions j) (kept_identities j) (kept_sender_keys j) d (pending j)
    (generator j).
Definition set_pending (e : option (string * string)) (j : Jvm) : Jvm :=
  mk_jvm (heap j) (kept_sessions j) (kept_identities j) (kept_sender_keys j) (device j) e
    (generator j).
Definition set_generator (c : Csprng) (j : Jvm) : Jvm :=
  mk_jvm (heap j) (kept_sessions j) (kept_identities j) (kept_sender_keys j) (device j)
    (pending j) c.

Definition toy_new (v : JavaObject) (j : Jvm) : outcome string Z * Jvm :=
  let o := toy_address (heap j) in (Ok o, set_object o v j).
#[local] Arguments toy_new : simpl never.

(** The store objects. *)
Definition toy_session_object : Z := 1%Z.
Definition toy_identity_object : Z := 2%Z.
Definition toy_pre_key_object : Z := 3%Z.
Definition toy_signed_pre_key_object : Z := 4%Z.
Definition toy_sender_key_object : Z := 5%Z.

Definition toy_construct (class : string) (args : list JavaObject) : option JavaObject :=
  if decide (class = address_class) then None
  else match args with
       | [JavaBytes b] =>
           if decide (class = session_class)
           then match SessionRecord.deserialize b with Ok _ => Some (JavaSession b) | _ => None end
           else if decide (class = identity_class)
           then match IdentityKey.decode b with Ok _ => Some (JavaIdentity b) | _ => None end
           else None
       | _ => None
       end.

(** The object with a handle to a native object. *)
Definition toy_wrap (m : Memory) (class : string) (h : Ptr) : option JavaObject :=
  match m !! h with
  | Some (Boxed o) =>
      if decide (class = sender_key_record_class) then JavaSenderKeys <$> project o
      else if decide (class = signal_message_class) then JavaSignalMessage <$> project o
      else if decide (class = pre_key_message_class) then JavaPreKeyMessage <$> project o
      else None
  | _ => None
  end.

(** An object by its constructor, or the exception that the constructor throws. *)
Definition toy_made (v : option JavaObject) (j : Jvm) : outcome string jobject * Jvm :=
  match v with
  | Some v => toy_new v j
  | None => (Err "constructor threw an exception", j)
  end.

Definition toy_new_object (m : Memory) (k : jobject) (args : list JValue) (j : Jvm)
    : outcome string jobject * Jvm :=
  match heap j !! k, args with
  | Some (JavaClass class), [JObject o; JInt i] =>
      toy_made match heap j !! o with
        | Some (JavaString n) =>
            if decide (class = address_class /\ 0 <= i)%Z then Some (JavaAddress n i) else None
        | _ => None
        end j
  | Some (JavaClass class), [JObject g; JObject o; JInt i] =>
      toy_made match heap j !! g, heap j !! o with
        | Some (JavaString g), Some (JavaString n) =>
            if decide (class = sender_key_name_class /\ 0 <= i)%Z
            then Some (JavaSenderKeyName g n i) else None
        | _, _ => None
        end j
  | Some (JavaClass class), [JObject o] =>
      toy_made (match heap j !! o with Some v => toy_construct class [v] | None => None end) j
  | Some (JavaClass class), [JLong h] => toy_made (toy_wrap m class h) j
  | _, _ => (Err "not a class", j)
  end.

(** A new record, as bytes. *)
Definition toy_new_session : bytes :=
  match SessionRecord.serialize new_session_record with Ok b => b | _ => [] end.
#[local] Arguments toy_new_session : simpl never.

Definition toy_get (now : gmap (string * Z) bytes) (a : option JavaObject) : option bytes :=
  match a with
  | Some (JavaAddress n i) => now !! (n, i)
  | _ => None
  end.

(** The sender keys under a name, or an empty record. *)
Definition toy_sender_keys (now : gmap (string * string * Z) bytes) (a : option JavaObject)
    : SenderKeyRecord :=
  match a with
  | Some (JavaSenderKeyName g n i) =>
      match SenderKeyRecord.deserialize <$> now !! (g, n, i) with
      | Some (Ok r) => r
      | _ => SenderKeyRecord.new_empty
      end
  | _ => SenderKeyRecord.new_empty
  end.

(** A method that answers with a new object, or with null. *)
Definition toy_found (v : option JavaObject) (j : Jvm) : outcome string JValue * Jvm :=
  match v with
  | Some v => let '(r, j) := toy_new v j in (let? o := r in Ok (JObject o), j)
  | None => (Ok (JObject 0%Z), j)
  end.

#[local] Arguments toy_found : simpl never.

Definition differs (now : gmap (string * Z) bytes) (n : string) (i : Z) (b : bytes) : bool :=
  match now !! (n, i) with
  | Some b0 => negb (bool_decide (IdentityKey.decode b0 = IdentityKey.decode b))
  | None => false
  end.

(** The methods that there are, with their signatures. *)
Definition toy_methods : list (string * string) :=
  [("serialize", "()[B");
   ("nativeHandle", "()J");
   ("loadSession", "(Lorg/whispersystems/libsignal/SignalProtocolAddress;)Lorg/whispersystems/libsignal/state/SessionRecord;");
   ("storeSession", "(Lorg/whispersystems/libsignal/SignalProtocolAddress;Lorg/whispersystems/libsignal/state/SessionRecord;)V");
   ("getIdentityKeyPair", "()Lorg/whispersystems/libsignal/IdentityKeyPair;");
   ("getLocalRegistrationId", "()I");
   ("saveIdentity", "(Lorg/whispersystems/libsignal/SignalProtocolAddress;Lorg/whispersystems/libsignal/IdentityKey;)Z");
   ("isTrustedIdentity", "(Lorg/whispersystems/libsignal/SignalProtocolAddress;Lorg/whispersystems/libsignal/IdentityKey;Lorg/whispersystems/libsignal/state/IdentityKeyStore$Direction;)Z");
   ("getIdentity", "(Lorg/whispersystems/libsignal/SignalProtocolAddress;)Lorg/whispersystems/libsignal/IdentityKey;");
   ("loadPreKey", "(I)Lorg/whispersystems/libsignal/state/PreKeyRecord;");
   ("storePreKey", "(ILorg/whispersystems/libsignal/state/PreKeyRecord;)V");
   ("removePreKey", "(I)V");
   ("loadSignedPreKey", "(I)Lorg/whispersystems/libsignal/state/SignedPreKeyRecord;");
   ("storeSignedPreKey", "(ILorg/whispersystems/libsignal/state/SignedPreKeyRecord;)V");
   ("loadSenderKey", "(Lorg/whispersystems/libsignal/groups/SenderKeyName;)Lorg/whispersystems/libsignal/groups/state/SenderKeyRecord;");
   ("storeSenderKey", "(Lorg/whispersystems/libsignal/groups/SenderKeyName;Lorg/whispersystems/libsignal/groups/state/SenderKeyRecord;)V")].

Definition toy_has_method (f sig : string) : bool :=
  existsb (fun '(g, sig') => String.eqb f g && String.eqb sig sig') toy_methods.
#[local] Arguments toy_has_method : simpl never.

(** The methods of the classes and of the five store objects, by their arguments. *)
Definition toy_call (o : jobject) (f : string) (args : list JValue) (j : Jvm)
    : outcome string JValue * Jvm :=
  match args with
  | [] =>
      if String.eqb f "serialize"
      then match heap j !! o with
           | Some (JavaSession b) | Some (JavaIdentity b) => toy_found (Some (JavaBytes b)) j
           | Some (JavaKeyPair kp) => toy_found (Some (JavaBytes (IdentityKeyPair.serialize kp))) j
           | _ => (Err "no such method", j)
           end
      else if String.eqb f "getLocalRegistrationId"
      then (Ok (JInt (device_registration_id (device j))), j)
      else toy_found (Some (JavaKeyPair (device_identity (device j)))) j
  | [JObject a] =>
      if (o =? toy_session_object)%Z
      then toy_found (Some (JavaSession
             (default toy_new_session (toy_get (kept_sessions j) (heap j !! a))))) j
      else if (o =? toy_sender_key_object)%Z
      then toy_found (Some (JavaSenderKeys (toy_sender_keys (kept_sender_keys j) (heap j !! a)))) j
      else toy_found (JavaIdentity <$> toy_get (kept_identities j) (heap j !! a)) j
  | [JInt i] =>
      if (o =? toy_signed_pre_key_object)%Z
      then toy_found (JavaSignedPreKey <$> device_signed_pre_keys (device j) !! i) j
      else if String.eqb f "loadPreKey"
           then toy_found (JavaPreKey <$> device_pre_keys (device j) !! i) j
           else (Ok (JOther "void"), set_device (without_pre_key i (device j)) j)
  | [JObject a; JObject v] =>
      match heap j !! a, heap j !! v with
      | Some (JavaAddress n i), Some (JavaSession b) =>
          (Ok (JOther "void"), set_sessions (<[(n, i) := b]> (kept_sessions j)) j)
      | Some (JavaAddress n i), Some (JavaIdentity b) =>
          (Ok (JBool (Z.b2z (differs (kept_identities j) n i b))),
           set_identities (<[(n, i) := b]> (kept_identities j)) j)
      | Some (JavaSenderKeyName g n i), Some (JavaSenderKeys r) =>
          match SenderKeyRecord.serialize r with
          | Ok b => (Ok (JOther "void"), set_sender_keys (<[(g, n, i) := b]> (kept_sender_keys j)) j)
          | _ => (Err "storeSenderKey threw an exception", j)
          end
      | _, _ => (Ok (JBool 0), set_pending (Some ("java/lang/RuntimeException", f)) j)
      end
  | [JObject a; JObject v; JObject _] =>
      match heap j !! a, heap j !! v with
      | Some (JavaAddress n i), Some (JavaIdentity b) =>
          (Ok (JBool (Z.b2z (negb (differs (kept_identities j) n i b)))), j)
      | _, _ => (Ok (JBool 0), set_pending (Some ("java/lang/RuntimeException", f)) j)
      end
  | _ => (Err "no such method", j)
  end.

(** A pre-key, or a record of sender keys, makes the native object that it has a handle to
    when it is asked. *)
Definition toy_handle (o : jobject) : ST string (Memory * Jvm) JValue :=
  fun '(m, j) =>
    match heap j !! o with
    | Some (JavaPreKey r) =>
        (Ok (JLong (toy_address m)), (<[toy_address m := Boxed (inject r)]> m, j))
    | Some (JavaSignedPreKey r) =>
        (Ok (JLong (toy_address m)), (<[toy_address m := Boxed (inject r)]> m, j))
    | Some (JavaSenderKeys r) =>
        (Ok (JLong (toy_address m)), (<[toy_address m := Boxed (inject r)]> m, j))
    | _ => (Err "no such method", (m, j))
    end.

#[local] Instance toy_jni : JNIEnv string Jvm := {|
  JNIEnv.display_error e := e;
  JNIEnv.type_name v :=
    match v with
    | JObject _ => "object" | JInt _ => "int" | JLong _ => "long" | JBool _ => "bool"
    | JOther ty => ty
    end;
  JNIEnv.get_string o := on_jvm (fun j =>
    match heap j !! o with Some (JavaString x) => (Ok x, j) | _ => (Err "not a string", j) end);
  JNIEnv.new_string x := on_jvm (toy_new (JavaString x));
  JNIEnv.convert_byte_array o := on_jvm (fun j =>
    match heap j !! o with Some (JavaBytes b) => (Ok b, j) | _ => (Err "not an array", j) end);
  JNIEnv.new_byte_array n := on_jvm (toy_new (JavaBytes (replicate (Z.to_nat n) Byte.x00)));
  JNIEnv.set_byte_array_region o start buf := on_jvm (fun j =>
    match heap j !! o with
    | Some (JavaBytes b) =>
        (Ok tt, set_object o (JavaBytes (take (Z.to_nat start) b ++ map u8_of buf ++
                  drop (Z.to_nat start + length buf) b)) j)
    | _ => (Err "not an array", j)
    end);
  JNIEnv.call_method o f sig args :=
    if toy_has_method f sig then
      if String.eqb f "nativeHandle" then toy_handle o else on_jvm (toy_call o f args)
    else on_jvm (fun j => (Err "java.lang.NoSuchMethodError",
                           set_pending (Some ("java/lang/NoSuchMethodError", f)) j));
  JNIEnv.find_class n :=
    if bool_decide (n ∈ program_classes) then on_jvm (toy_new (JavaClass n))
    else on_jvm (fun j => (Err "java.lang.NoClassDefFoundError",
                           set_pending (Some ("java/lang/NoClassDefFoundError", n)) j));
  JNIEnv.is_instance_of o k := on_jvm (fun j => (Ok true, j));
  JNIEnv.new_object k sig args := fun s => on_jvm (toy_new_object s.1 k args) s;
  JNIEnv.get_static_field k f sig :=
    on_jvm (toy_found (Some (JavaDirection (if String.eqb f "SENDING" then Sending else Receiving))));
  JNIEnv.exception_check := on_jvm (fun j => (Ok (bool_decide (is_Some (pending j))), j));
  JNIEnv.exception_occurred := on_jvm (fun j => (Ok 0%Z, j));
  JNIEnv.exception_clear := on_jvm (fun j => (Ok tt, set_pending None j));
  JNIEnv.throw_new class msg := on_jvm (fun j => (Ok tt, set_pending (Some (class, msg)) j));
|}.

#[local] Instance toy_os_rng : OsRng Jvm := {|
  os_rng := generator;
  set_os_rng := set_generator;
|}.

Lemma on_jvm_keeps {A} (f : Jvm -> outcome string A * Jvm) p c :
  preserves (fun s => s.1 !! p = Some c) (on_jvm f).
Proof. intros [m j] Hm. unfold on_jvm. cbn in *. by destruct (f j). Qed.

Lemma toy_handle_keeps o p c : preserves (fun s => s.1 !! p = Some c) (toy_handle o).
Proof.
  intros [m j] Hm. cbn in *. pose proof (toy_address_fresh m) as [_ Hnew].
  assert (toy_address m <> p) by congruence.
  destruct (heap j !! o) as [[]|]; cbn; try done; by rewrite lookup_insert_ne.
Qed.

Lemma toy_keeps p c : JavaKeeps string p c.
Proof.
  split; try (intros; apply on_jvm_keeps); [| | |done].
  - intros. cbn. destruct (toy_has_method _ _); [|apply on_jvm_keeps].
    destruct (String.eqb _ _); [apply toy_handle_keeps|apply on_jvm_keeps].
  - intros. cbn. destruct (bool_decide _); apply on_jvm_keeps.
  - intros. intros s Hs. by apply on_jvm_keeps.
Qed.

#[local] Instance toy_view : JavaView Jvm := {|
  look s o := heap s.2 !! o;
  java_sessions s k := kept_sessions s.2 !! k;
  java_identities s k := kept_identities s.2 !! k;
  java_sender_keys s k := kept_sender_keys s.2 !! k;
  java_device s := device s.2;
  quiet s := pending s.2 = None;
|}.

Lemma toy_new_step v (m : Memory) j : exists o j',
  toy_new v j = (Ok o, j') /\ o <> 0%Z /\ heap j' !! o = Some v /\ grows (m, j) (m, j').
Proof.
  destruct (toy_address_fresh (heap j)) as [Hnull Hnew].
  do 2 eexists. split; [reflexivity|]. split; [done|]. split; [apply lookup_insert_eq|].
  split; [|done..]. intros o w Ho. cbn in *. rewrite lookup_insert_ne; [done|]. congruence.
Qed.

(** A call that answers with a new object. *)
Lemma toy_found_step f v (m : Memory) j :
  f j = toy_found (Some v) j ->
  exists o s', on_jvm f (m, j) = (Ok (JObject o), s') /\ o <> 0%Z /\ look s' o = Some v /\
    grows (m, j) s'.
Proof.
  intros Hf. destruct (toy_new_step v m j) as (o & j' & Hj & Hnull & Ho & Hg).
  exists o, (m, j'). unfold on_jvm. cbn [snd fst]. rewrite Hf. unfold toy_found. by rewrite Hj.
Qed.

Lemma u8_of_signed b : u8_of (as_i8 (u8_val b)) = b.
Proof.
  transitivity (u8_of (u8_val b)); [|apply u8_of_val]. unfold u8_of, as_i8.
  change 256%Z with (2 ^ 8)%Z. by rewrite signed_mod by lia.
Qed.

Lemma toy_array b (m : Memory) j : (Z.of_nat (length b) < 2147483648)%Z ->
  exists o s1 s2, o <> 0%Z /\
    JNIEnv.new_byte_array (E:=string) (Z.of_nat (length b)) (m, j) = (Ok o, s1) /\
    JNIEnv.set_byte_array_region (E:=string) o 0 (map (fun i => as_i8 (u8_val i)) b) s1
      = (Ok tt, s2) /\
    look s2 o = Some (JavaBytes b) /\ grows (m, j) s2.
Proof.
  intros _.
  destruct (toy_new_step (JavaBytes (replicate (length b) Byte.x00)) m j)
    as (o & j1 & Hj & Hnull & Ho & Hg).
  exists o, (m, j1), (m, set_object o (JavaBytes b) j1).
  cbn. unfold on_jvm. cbn. rewrite Nat2Z.id, Hj. split_and!; [done|done| | |].
  - rewrite Ho. do 4 f_equal. cbn. rewrite drop_ge by (by rewrite length_replicate, length_map).
    rewrite app_nil_r, map_map. etrans; [|apply map_id]. apply map_ext, u8_of_signed.
  - apply lookup_insert_eq.
  - unfold toy_new in Hj. injection Hj as <- <-. split; [|done..]. intros q v Hq. cbn in *.
    pose proof (toy_address_fresh (heap j)) as [_ Hnew].
    rewrite !lookup_insert_ne; [done|congruence..].
Qed.

Lemma toy_construct_session b r : SessionRecord.deserialize b = Ok r ->
  toy_construct session_class [JavaBytes b] = Some (JavaSession b).
Proof.
  intros Hr. unfold toy_construct. rewrite decide_False, decide_True by done. by rewrite Hr.
Qed.

Lemma toy_construct_identity b i : IdentityKey.decode b = Ok i ->
  toy_construct identity_class [JavaBytes b] = Some (JavaIdentity b).
Proof.
  intros Hi. unfold toy_construct. rewrite !decide_False, decide_True by done. by rewrite Hi.
Qed.

Lemma toy_new_session_parses `{!ProtoLaws} :
  SessionRecord.deserialize toy_new_session = Ok new_session_record.
Proof.
  destruct (session_record_roundtrip new_session_record) as (b & Hs & Hd).
  { repeat constructor; done. }
  unfold toy_new_session. by rewrite Hs.
Qed.

(** The state after a pre-key has been asked for its handle. *)
Lemma toy_handle_step {T} `{!Boxable T} (r : T) (m : Memory) (j : Jvm) :
  handle (<[toy_address m := Boxed (inject r)]> m) (toy_address m) r /\
  grows (m, j) (<[toy_address m := Boxed (inject r)]> m, j).
Proof.
  destruct (toy_address_fresh m) as [Hnull _]. split; [|by split].
  split; [done|]. apply lookup_insert_eq.
Qed.

Ltac toy_new v m j :=
  let o := fresh "o" in let j' := fresh "j'" in let Hj := fresh "Hj" in
  destruct (toy_new_step v m j) as (o & j' & Hj & ? & ? & ?); exists o, (m, j').

(** A constructor that makes an object. *)
Lemma toy_new_object_step k sig args v (m : Memory) j :
  toy_new_object m k args j = toy_made (Some v) j ->
  exists o s', JNIEnv.new_object (E:=string) k sig args (m, j) = (Ok o, s') /\
    o <> 0%Z /\ look s' o = Some v /\ grows (m, j) s'.
Proof.
  intros Hk. toy_new v m j. cbn. unfold on_jvm. cbn [snd fst]. rewrite Hk. unfold toy_made. by rewrite Hj.
Qed.

Lemma toy_wrap_from_handle m class h v : from_handle m class h v -> toy_wrap m class h = Some v.
Proof.
  unfold toy_wrap. destruct v; try done; intros [-> [_ ->]].
  - by rewrite decide_True, project_inject.
  - by rewrite decide_False, decide_True, project_inject.
  - by rewrite decide_False, decide_False, decide_True, project_inject by done.
Qed.

(** Asking an object for its handle. *)
Lemma toy_native_handle {T} `{!Boxable T} o (r : T) (m : Memory) (j : Jvm) :
  toy_handle o (m, j) = (Ok (JLong (toy_address m)), (<[toy_address m := Boxed (inject r)]> m, j)) ->
  exists h s', JNIEnv.call_method (E:=string) o "nativeHandle" "()J" [] (m, j) = (Ok (JLong h), s') /\
    handle s'.1 h r /\ grows (m, j) s'.
Proof.
  intros Hh. exists (toy_address m), (<[toy_address m := Boxed (inject r)]> m, j).
  split; [exact Hh|]. apply toy_handle_step.
Qed.

Lemma toy_java_laws : JavaLaws string.
Proof.
  constructor.
  - intros n [m j] Hn. toy_new (JavaClass n) m j. cbn. rewrite bool_decide_true by done.
    unfold on_jvm. cbn. rewrite Hj. split_and!; [done..|by intros p c].
  - intros x [m j]. toy_new (JavaString x) m j. cbn. unfold on_jvm. cbn. by rewrite Hj.
  - intros b [m j]. apply toy_array.
  - intros o b [m j] Ho. exists (m, j). cbn in *. unfold on_jvm. cbn. rewrite Ho. split_and!; [done..|by intros p c].
  - intros k o n i [m j] Hk Ho Hi.
    destruct (toy_new_object_step k "(Ljava/lang/String;I)V" [JObject o; JInt i] (JavaAddress n i) m j)
      as (a & s' & Hc & _ & Ha); [|by exists a, s'].
    unfold toy_new_object. cbn in *. by rewrite Hk, Ho, decide_True.
  - intros k o n i [m j] Hk Ho Hi. do 2 eexists. cbn. unfold on_jvm, toy_new_object. cbn in *.
    by rewrite Hk, Ho, decide_False by lia.
  - intros k a b r [m j] Hk Ha Hr.
    destruct (toy_new_object_step k "([B)V" [JObject a] (JavaSession b) m j)
      as (o & s' & Hc & _ & Ho); [|by exists o, s'].
    unfold toy_new_object. cbn in *. by rewrite Hk, Ha, (toy_construct_session b r Hr).
  - intros k a b r [m j] Hk Ha Hr.
    destruct (toy_new_object_step k "([B)V" [JObject a] (JavaIdentity b) m j)
      as (o & s' & Hc & _ & Ho); [|by exists o, s'].
    unfold toy_new_object. cbn in *. by rewrite Hk, Ha, (toy_construct_identity b r Hr).
  - intros [m j] Hq. exists (m, j). cbn in *. unfold on_jvm. cbn. by rewrite Hq.
  - intros o b r [m j] Ho Hr _.
    destruct (toy_found_step (toy_call o "serialize" []) (JavaBytes b) m j)
      as (a & s' & Hc & _ & Ha & Hg); [cbn in *; by rewrite Ho|by exists a, b, s'].
  - intros o kp [m j] Ho Hkp.
    destruct (toy_found_step (toy_call o "serialize" [])
      (JavaBytes (IdentityKeyPair.serialize kp)) m j)
      as (a & s' & Hc & _ & Ha & Hg); [cbn in *; by rewrite Ho|].
    by exists a, (IdentityKeyPair.serialize kp), s'.
  - intros o r [m j] Ho. apply toy_native_handle. cbn in *. by rewrite Ho.
  - intros o r [m j] Ho. apply toy_native_handle. cbn in *. by rewrite Ho.
  - intros k d [m j] _. destruct (toy_found_step
      (toy_found (Some (JavaDirection d))) (JavaDirection d) m j) as (o & s' & Hc & _ & Ho & Hg); [done|].
    exists o, s'. by destruct d.
  - intros o b [m j] Ho.
    destruct (toy_found_step (toy_call o "serialize" []) (JavaBytes b) m j)
      as (a & s' & Hc & _ & Ha & Hg); [cbn in *; by rewrite Ho|by exists a, b, s'].
  - intros k g n group sender i [m j] Hk Hg Hn Hi.
    destruct (toy_new_object_step k "(Ljava/lang/String;Ljava/lang/String;I)V"
      [JObject g; JObject n; JInt i] (JavaSenderKeyName group sender i) m j)
      as (o & s' & Hc & _ & Ho); [|by exists o, s'].
    unfold toy_new_object. cbn in *. by rewrite Hk, Hg, Hn, decide_True.
  - intros k class h v [m j] Hk Hv.
    apply (toy_new_object_step k "(J)V" [JLong h] v m j).
    unfold toy_new_object. cbn in *. by rewrite Hk, (toy_wrap_from_handle m class h v Hv).
  - intros o r [m j] Ho. apply toy_native_handle. cbn in *. by rewrite Ho.
  - done.
  - intros class msg [m j]. split; [done|]. exists (m, set_pending None (set_pending (Some (class, msg)) j)).
    split_and!; [done|by split|by intros p c].
  - done.
  - done.
Qed.

(** A method that there is. *)
Lemma toy_call_eq o f sig args (s : Memory * Jvm) :
  toy_has_method f sig && negb (String.eqb f "nativeHandle") = true ->
  JNIEnv.call_method (E:=string) o f sig args s = on_jvm (toy_call o f args) s.
Proof.
  intros [Hf Hn]%andb_true_iff. apply negb_true_iff in Hn. cbn. by rewrite Hf, Hn.
Qed.

Lemma toy_store_laws `{!ProtoLaws} :
  JavaStoreLaws string toy_session_object toy_identity_object toy_pre_key_object
    toy_signed_pre_key_object toy_sender_key_object.
Proof.
  constructor.
  - intros o class k [m j] Ho _. split; [|by exists (m, j)].
    unfold store_classes in Ho. set_unfold in Ho. by destruct_or! Ho; simplify_eq.
  - intros a n i o b r [m j] Ha Ho Hq Hr _. rewrite toy_call_eq by reflexivity. cbn in *. unfold on_jvm, toy_call. cbn. rewrite Ha, Ho.
    do 3 eexists. split; [done|]. cbn. split_and!; [apply lookup_insert_eq|done| |done..].
    intros k Hk. by rewrite lookup_insert_ne.
  - intros a n i b [m j] Ha Hb. rewrite toy_call_eq by reflexivity.
    apply (toy_found_step (toy_call toy_session_object "loadSession" [JObject a]) (JavaSession b)).
    cbn in *. rewrite Ha. cbn. by rewrite Hb.
  - intros a n i [m j] Ha Hb. rewrite toy_call_eq by reflexivity.
    destruct (toy_found_step (toy_call toy_session_object "loadSession" [JObject a])
      (JavaSession toy_new_session) m j) as (o & s' & Hc & Hnull & Ho & Hg);
      [cbn in *; rewrite Ha; cbn; by rewrite Hb|].
    exists o, toy_new_session, s'. split_and!; [done..|apply toy_new_session_parses|done].
  - intros a n i o b [m j] Ha Ho Hq. rewrite toy_call_eq by reflexivity. cbn in *. unfold on_jvm, toy_call. cbn. rewrite Ha, Ho.
    do 3 eexists. split; [done|]. cbn. split_and!; [|apply lookup_insert_eq|done| |done..].
    + unfold differs. destruct (kept_identities j !! (n, i)) as [b0|]; cbn; [|by split; [|intros (? & [=] & _)]].
      case_bool_decide; cbn; split; try done.
      * by intros (? & [= <-] & ?).
      * intros _. by exists b0.
    + intros k Hk. by rewrite lookup_insert_ne.
  - intros a n i [m j] Ha Hb. rewrite toy_call_eq by reflexivity. cbn in *. unfold on_jvm, toy_call. cbn. rewrite Ha. cbn. rewrite Hb.
    by exists (m, j).
  - intros a n i b [m j] Ha Hb. rewrite toy_call_eq by reflexivity.
    apply (toy_found_step (toy_call toy_identity_object "getIdentity" [JObject a]) (JavaIdentity b)).
    cbn in *. rewrite Ha. cbn. by rewrite Hb.
  - intros a n i o b p d [m j] Ha Ho Hp. rewrite toy_call_eq by reflexivity. cbn in *. unfold on_jvm, toy_call. cbn. rewrite Ha, Ho.
    do 2 eexists. split; [done|]. split; [|done]. unfold differs.
    destruct (kept_identities j !! (n, i)) as [b0|]; cbn; [|done]. by case_bool_decide.
  - intros [m j]. rewrite toy_call_eq by reflexivity. by apply (toy_found_step (toy_call toy_identity_object "getIdentityKeyPair" [])).
  - intros [m j]. rewrite toy_call_eq by reflexivity. by exists (m, j).
  - intros i r [m j] Hr. rewrite toy_call_eq by reflexivity.
    apply (toy_found_step (toy_call toy_pre_key_object "loadPreKey" [JInt i]) (JavaPreKey r)).
    cbn in *. by rewrite Hr.
  - intros i [m j] Hq. rewrite toy_call_eq by reflexivity. by do 2 eexists.
  - intros i r [m j] Hr. rewrite toy_call_eq by reflexivity.
    apply (toy_found_step (toy_call toy_signed_pre_key_object "loadSignedPreKey" [JInt i])
      (JavaSignedPreKey r)).
    cbn in *. by rewrite Hr.
  - intros a g n i o r b [m j] Ha Ho Hq Hb Hd _. rewrite toy_call_eq by reflexivity. cbn in *. unfold on_jvm, toy_call. cbn.
    rewrite Ha, Ho, Hb. do 3 eexists. split; [done|]. cbn. split_and!; [apply lookup_insert_eq|done| |done..].
    intros k Hk. by rewrite lookup_insert_ne.
  - intros a g n i b r [m j] Ha Hb Hd. rewrite toy_call_eq by reflexivity.
    apply (toy_found_step (toy_call toy_sender_key_object "loadSenderKey" [JObject a]) (JavaSenderKeys r)).
    cbn in *. rewrite Ha. cbn. by rewrite Hb; cbn; rewrite Hd.
  - intros a g n i [m j] Ha Hb. rewrite toy_call_eq by reflexivity.
    apply (toy_found_step (toy_call toy_sender_key_object "loadSenderKey" [JObject a])
      (JavaSenderKeys SenderKeyRecord.new_empty)).
    cbn in *. rewrite Ha. cbn. by rewrite Hb.
Qed.
End Machine.
