(* ===== verification/NodeBridge.v ===== *)
(** The Node module ([bridge/node/src/lib.rs]): one class, whose objects hold a
    private key.

    The crate neon is a parameter, the class [Neon], over the state [N] of the
    JavaScript engine: a buffer is an object of the engine with bytes, which Rust code
    may borrow as a slice. *)

From S2P Require Import Prelude Error Crates Curve.

Module Neon.
Class t (Throw N JsBuffer : Type) := {
  buffer : Z -> ST Throw N JsBuffer;
  slice : JsBuffer -> N -> bytes;
  set_slice : JsBuffer -> bytes -> N -> N;
}.

(** A new buffer has the size that was asked for; what is written to the slice of a
    buffer is there. *)
Class Laws (Throw N JsBuffer : Type) `{!t Throw N JsBuffer} : Prop := {
  buffer_length : forall n b (s s' : N), (0 <= n)%Z ->
    buffer (Throw:=Throw) n s = (Ok b, s') -> length (slice b s') = Z.to_nat n;
  buffer_no_panic : forall n (s : N), (buffer (Throw:=Throw) (JsBuffer:=JsBuffer) n s).1 <> Panic;
  slice_set : forall b v (s : N), length v = length (slice b s) -> slice b (set_slice b v s) = v;
}.
End Neon.
Abbreviation Neon := Neon.t.

Section JsPrivateKey.
Context {Throw N JsBuffer : Type} `{!Neon Throw N JsBuffer, Crates}.

(** [borrow_this]: what [f] makes of the internals of [this]. *)
Definition borrow_this {V T} (this : V) (f : V -> T) : ST Throw N T := st_ret (f this).

(** [raw_buffer.as_mut_slice().copy_from_slice(&bytes)] under [borrow_mut]. *)
Definition copy_to_buffer (buffer : JsBuffer) (bytes : bytes) : ST Throw N unit :=
  fun s =>
    if (length (Neon.slice buffer s) =? length bytes)%nat
    then (Ok tt, Neon.set_slice buffer bytes s) else (Panic, s).

(** [init] of [JsPrivateKey], and its method [serialize]; the length of the buffer is
    cut to 32 bits. *)
Definition JsPrivateKey_init (csprng : Csprng) : outcome Throw PrivateKey * Csprng :=
  let '(keypair, csprng) := KeyPair.generate csprng in (Ok (KeyPair.private_key keypair), csprng).

Definition JsPrivateKey_serialize (this : PrivateKey) : ST Throw N JsBuffer :=
  let! bytes := borrow_this this PrivateKey.serialize in
  let! buffer := Neon.buffer (Z.of_nat (length bytes) mod 2 ^ 32)%Z in
  let! _ := copy_to_buffer buffer bytes in
  st_ret buffer.

(** The buffer has the 32 bytes of the key, which the protocol crate reads back; the
    only way to fail is that the engine has no buffer to give, and nothing panics. *)
Lemma js_private_key_serialize_correct `{!Neon.Laws Throw N JsBuffer} k (s : N) :
  PrivateKey.wf k ->
  match Neon.buffer (Throw:=Throw) 32 s with
  | (Ok b, s1) => exists s2, JsPrivateKey_serialize k s = (Ok b, s2) /\
      Neon.slice b s2 = PrivateKey.serialize k /\
      PrivateKey.deserialize (Neon.slice b s2) = Ok k
  | (Err e, s1) => JsPrivateKey_serialize k s = (Err e, s1)
  | (Panic, _) => False
  end.
Proof.
  intros Hk. assert (Hl : length (PrivateKey.serialize k) = 32) by (by destruct k as [[]]).
  destruct (Neon.buffer 32 s) as [[b|e|] s1] eqn:Hb.
  - pose proof (Neon.buffer_length 32 b s s1 ltac:(lia) Hb) as Hlen.
    assert (Hs : Neon.slice b (Neon.set_slice b (PrivateKey.serialize k) s1) = PrivateKey.serialize k)
      by (by apply (Neon.slice_set (Throw:=Throw)); rewrite Hl, Hlen).
    eexists. split.
    + unfold JsPrivateKey_serialize. rewrite (st_bind_eq _ _ s (PrivateKey.serialize k) s) by done.
      rewrite Hl. change (Z.of_nat 32 mod 2 ^ 32)%Z with 32%Z. rewrite (st_bind_eq _ _ _ _ _ Hb).
      unfold copy_to_buffer, st_bind. rewrite Hlen, Hl. cbn. reflexivity.
    + rewrite Hs. split; [done|]. by apply PrivateKey.private_key_deserialize_ok_iff.
  - unfold JsPrivateKey_serialize. rewrite (st_bind_eq _ _ s (PrivateKey.serialize k) s) by done.
    rewrite Hl. change (Z.of_nat 32 mod 2 ^ 32)%Z with 32%Z. by apply st_bind_err_eq.
  - apply (Neon.buffer_no_panic (Throw:=Throw) (JsBuffer:=JsBuffer) 32 s). by rewrite Hb.
Qed.

(** A new object holds a private key of 32 bytes. *)
Lemma js_private_key_init_wf `{!X25519Laws} csprng :
  exists k csprng', JsPrivateKey_init csprng = (Ok k, csprng') /\ PrivateKey.wf k.
Proof.
  unfold JsPrivateKey_init. pose proof (KeyPair.key_pair_generate_matching csprng) as Hm.
  destruct (KeyPair.generate csprng) as [kp c]. do 2 eexists. split; [done|].
  by apply KeyPair.matching_private_wf.
Qed.
End JsPrivateKey.

(** An engine whose buffers are the entries of a list. *)
#[local] Instance toy_neon : Neon unit (list bytes) nat := {|
  Neon.buffer n s := (Ok (length s), s ++ [replicate (Z.to_nat n) Byte.x00]);
  Neon.slice b s := nth b s [];
  Neon.set_slice b v s := <[b := v]> s;
|}.

Lemma toy_neon_laws : Neon.Laws unit (list bytes) nat.
Proof.
  split.
  - intros n b s s' Hn [= <- <-]. cbn. rewrite nth_middle. apply length_replicate.
  - done.
  - intros b v s Hv. cbn in *. destruct (decide (b < length s)) as [Hb|Hb].
    + rewrite nth_lookup, list_lookup_insert_eq by done. done.
    + rewrite nth_overflow in Hv by lia. apply length_zero_iff_nil in Hv as ->.
      rewrite list_insert_ge by lia. by rewrite nth_overflow by lia.
Qed.
