(* ===== verification/Witnesses.v ===== *)
(** Each theorem with a hypothesis, applied at a concrete input where the
    hypotheses hold: the crates and codecs of [Instances], the in-memory stores,
    and keys, messages and sessions computed from them. *)

From S2P Require Import Prelude Error Utils Crates Crypto Curve Proto IdentityKey Instances Protocol.
From S2P Require Import RatchetKeys SessionState SessionInvariant Ratchet PreKeys SenderKeys Storage StoreAccess Session SessionCipher GroupCipher.
From S2P Require Import SenderChain Fingerprint ReceiveChain Conversation EndToEnd SessionRecordFacts Replay StoreProofs GroupProofs FirstContact.
From S2P Require Import Loops Simd SivCommon Polyval Aes256 AesGcmSiv SivInstances.

#[local] Existing Instances toy_build toy_crates toy_codecs toy_hash_laws toy_subtle_laws toy_rng_laws
  toy_cbc_laws toy_x25519_laws toy_edwards_laws toy_proto_laws.

(** * Primitives and keys *)

Definition w_key : bytes := replicate 32 Byte.x07.
Definition w_iv : bytes := replicate 16 Byte.x09.
Definition w_text : bytes := string_bytes "attack at dawn".

Definition w_pair (b : Byte.byte) : KeyPair := KeyPair.of_secret b.
Lemma w_pair_matching b : KeyPair.matching (w_pair b).
Proof. by exists b. Qed.

Definition w_identity (b : Byte.byte) : IdentityKeyPair :=
  IdentityKeyPair.new (IdentityKey.new (KeyPair.public_key (w_pair b))) (KeyPair.private_key (w_pair b)).
Lemma w_identity_matching b : IdentityKeyPair.matching (w_identity b).
Proof. by exists b. Qed.

Definition w_rng : @Csprng toy_crates := 4%Z.

Lemma curve_keys_correct_witness :
  PublicKey.deserialize [] = Err NoKeyTypeIdentifier /\
  exists sig csprng', Curve.calculate_signature 5%Z (KeyPair.private_key (w_pair Byte.x11)) w_text
      = (Ok sig, csprng') /\
    length sig = 64 /\ Curve.verify_signature (KeyPair.public_key (w_pair Byte.x11)) w_text sig = Ok true.
Proof.
  destruct (curve_keys_correct w_text (KeyPair.public_key (w_pair Byte.x11))
    (KeyPair.private_key (w_pair Byte.x11)) (w_pair Byte.x11) (5%Z : @Csprng toy_crates) w_text (w_pair_matching _))
    as ((_ & _ & Hnil & _) & Hsign & _).
  exact (conj Hnil Hsign).
Defined.

Lemma hkdf_and_cbc_correct_witness :
  (exists k, HKDF.new 3 = Ok k /\
    length (HKDF.rfc5869 1 w_key w_iv w_text ((80 + 31) / 32) 80) = 80 /\
    HKDF.derive_salted_secrets k w_key w_iv w_text 80
      = Ok (HKDF.rfc5869 1 w_key w_iv w_text ((80 + 31) / 32) 80)) /\
  HKDF.derive_salted_secrets (HKDF.Build_t 1) w_key w_iv w_text (255 * 32 + 1) = Panic /\
  exists ctext, aes_256_cbc_encrypt w_text w_key w_iv = Ok ctext /\ length ctext = 16 /\
    aes_256_cbc_decrypt ctext w_key w_iv = Ok w_text.
Proof.
  destruct (hkdf_and_cbc_correct 3 w_key w_iv w_text 80 w_text w_key w_iv ltac:(lia))
    as ([Hok Hover] & Hcbc & _).
  split; [exact Hok|]. split; [by apply Hover|]. exact (Hcbc eq_refl eq_refl).
Defined.

(** * Messages *)

Definition w_point : PublicKey := KeyPair.public_key (w_pair Byte.x41).

Definition w_message : SignalMessage :=
  match SignalMessage.new 3 w_key w_point 4 2 w_text
      (IdentityKeyPair.identity_key (w_identity Byte.x42))
      (IdentityKeyPair.identity_key (w_identity Byte.x43)) with
  | Ok m => m
  | _ => SignalMessage.mk 0 w_point 0 0 [] []
  end.

Lemma signal_messages_authentic_witness :
  (exists b, SignalMessage.new 19 w_key w_point 4 2 w_text
      (IdentityKeyPair.identity_key (w_identity Byte.x42)) (IdentityKeyPair.identity_key (w_identity Byte.x43))
      = Ok (SignalMessage.mk 19 w_point 4 2 w_text b) /\
    SignalMessage.try_from b = Ok (SignalMessage.mk 3 w_point 4 2 w_text b)) /\
  SignalMessage.verify_mac w_message (IdentityKeyPair.identity_key (w_identity Byte.x43))
      (IdentityKeyPair.identity_key (w_identity Byte.x42)) w_key = Ok false /\
  SignalMessage.try_from [Byte.x33; Byte.x01] <> Panic.
Proof.
  destruct (SignalMessage.signal_messages_authentic 19 w_key w_point 4 2 w_text
      (IdentityKeyPair.identity_key (w_identity Byte.x42)) (IdentityKeyPair.identity_key (w_identity Byte.x43))
      [Byte.x33; Byte.x01]) as ((b & Hn & _ & Hp & _) & Hmac & Hs & _);
    [reflexivity|reflexivity|unfold is_u32, u32_max; lia..|].
  split; [exists b; exact (conj Hn Hp)|]. split; [|exact Hs].
  set (s := SignalMessage.serialized w_message).
  rewrite (Hmac w_message _ _ w_key (take (length s - 8) s) (drop (length s - 8) s));
    vm_compute; reflexivity.
Defined.

Lemma w_message_parses : SignalMessage.try_from (SignalMessage.serialized w_message) = Ok w_message.
Proof. vm_compute. reflexivity. Qed.

Lemma wire_messages_roundtrip_witness :
  (exists b, let m := PreKeySignalMessage.mk 3 77 (Some 5%Z) 6 w_point
      (IdentityKeyPair.identity_key (w_identity Byte.x42)) w_message b in
    PreKeySignalMessage.new 3 77 (Some 5%Z) 6 w_point
      (IdentityKeyPair.identity_key (w_identity Byte.x42)) w_message = Ok m /\
    PreKeySignalMessage.try_from b = Ok m) /\
  (exists m csprng', SenderKeyMessage.new 8 3 w_text w_rng (KeyPair.private_key (w_pair Byte.x51))
      = (Ok m, csprng') /\
    SenderKeyMessage.try_from (SenderKeyMessage.serialized m) = Ok m /\
    SenderKeyMessage.verify_signature m (KeyPair.public_key (w_pair Byte.x51)) = Ok true /\
    SenderKeyMessage.key_id m = 8%Z /\ SenderKeyMessage.iteration m = 3%Z /\
    SenderKeyMessage.ciphertext m = w_text) /\
  exists m, SenderKeyDistributionMessage.new 8 3 w_key w_point = Ok m /\
    SenderKeyDistributionMessage.try_from (SenderKeyDistributionMessage.serialized m) = Ok m.
Proof.
  destruct (wire_messages_roundtrip 3 77 (Some 5%Z) 6 w_point
    (IdentityKeyPair.identity_key (w_identity Byte.x42)) w_message 8 3 w_text w_rng (w_pair Byte.x51)
    w_key w_point [])
    as (((b & Hn & _ & Hp) & _) & (Hs & _) & Hd & _);
    try (unfold opt_u32, is_u32, u32_max; cbn [from_option]; lia);
    [reflexivity|reflexivity|exact w_message_parses|apply w_pair_matching|reflexivity|reflexivity|].
  split; [|exact (conj Hs Hd)]. exists b. split; [exact Hn|apply Hp; lia].
Defined.

(** * Fingerprints *)

Definition w_scannable : ScannableFingerprint := ScannableFingerprint.mk 1 w_key w_iv.

Lemma fingerprints_correct_witness :
  (exists fa fb, Fingerprint.new 1 2 w_text (IdentityKeyPair.identity_key (w_identity Byte.x42)) w_iv
      (IdentityKeyPair.identity_key (w_identity Byte.x43)) = Ok fa /\
    Fingerprint.new 1 2 w_iv (IdentityKeyPair.identity_key (w_identity Byte.x43)) w_text
      (IdentityKeyPair.identity_key (w_identity Byte.x42)) = Ok fb /\
    Fingerprint.display_string fa = Fingerprint.display_string fb) /\
  exists b, ScannableFingerprint.serialize w_scannable = Ok b /\
    ScannableFingerprint.compare (ScannableFingerprint.mk 1 w_iv w_key) b = Ok true.
Proof.
  assert (Hv : is_u32 (ScannableFingerprint.version w_scannable)) by (cbn; unfold is_u32, u32_max; lia).
  destruct (fingerprints_correct 1 2 w_text (IdentityKeyPair.identity_key (w_identity Byte.x42)) w_iv
    (IdentityKeyPair.identity_key (w_identity Byte.x43)) (ScannableFingerprint.mk 1 w_iv w_key) w_scannable Hv Hv)
    as (Hsym & _ & _ & b & Hb & _ & _ & Hiff).
  destruct Hsym as (fa & fb & _ & _ & Ha & Hbb & Hd & _); [split; lia|].
  split; [by exists fa, fb|]. exists b. split; [exact Hb|by apply Hiff].
Defined.

(** * Sessions *)

Definition w_root : RootKey := RootKey.mk (HKDF.Build_t 1) w_key.

Definition w_alice_id : IdentityKeyPair := w_identity Byte.x03.
Definition w_bob_id : IdentityKeyPair := w_identity Byte.x05.
Definition w_base : KeyPair := w_pair Byte.x07.
Definition w_signed : KeyPair := w_pair Byte.x0b.
Definition w_one_time : KeyPair := w_pair Byte.x0d.

Abbreviation w_alice_parameters :=
  (alice_parameters w_alice_id w_bob_id w_base w_signed w_signed (Some w_one_time)).
Abbreviation w_bob_parameters :=
  (bob_parameters w_alice_id w_bob_id w_base w_signed w_signed (Some w_one_time)).

Lemma w_parties : parties_matching w_alice_id w_bob_id w_base w_signed w_signed (Some w_one_time).
Proof. split_and!; first [apply w_identity_matching|apply w_pair_matching]. Qed.

Lemma x3dh_agreement_witness :
  exists sa sb, (initialize_alice_session w_alice_parameters w_rng).1 = Ok sa /\
    initialize_bob_session w_bob_parameters = Ok sb /\ ahead sa sb 0 0.
Proof. exact (x3dh_agreement w_alice_id w_bob_id w_base w_signed w_signed (Some w_one_time) w_rng w_parties). Defined.

Definition w_state (r : Result SessionState) : SessionState :=
  match r with Ok s => s | _ => SessionState.new (initial_structure [] [] []) end.
Definition w_alice : SessionState := w_state (initialize_alice_session w_alice_parameters w_rng).1.
Definition w_bob : SessionState := w_state (initialize_bob_session w_bob_parameters).

Lemma w_ahead : ahead w_alice w_bob 0 0.
Proof.
  destruct (x3dh_ahead w_alice_id w_bob_id w_base w_signed w_signed (Some w_one_time) w_rng w_parties)
    as (sa & sb & Hsa & Hsb & Hah & _).
  unfold w_alice, w_bob. by rewrite Hsa, Hsb.
Qed.

Definition w_script : list event :=
  [Delivered true w_text; Delivered false []; Lost true w_iv; Delivered true w_key].

Lemma conversation_delivers_witness :
  exists w, run w_script (Ends w_alice w_bob 5%Z 9%Z) = Ok ([w_text; []; w_key], w).
Proof.
  apply (conversation_delivers w_alice_id w_bob_id w_base w_signed w_signed (Some w_one_time) w_rng);
    [exact w_parties|vm_compute; reflexivity|vm_compute; reflexivity|vm_compute; congruence
    |vm_compute; congruence|].
  vm_compute. by split_and!.
Defined.

(** Two messages of Bob on the chain Alice follows. *)
Definition w_sent (p : bytes) (s : SessionState) : SignalMessage * SessionState :=
  match encrypt_with_state p s with
  | Ok (CiphertextMessage.SignalMessage m, _, s) => (m, s)
  | _ => (w_message, s)
  end.
Definition w_first : SignalMessage := (w_sent w_text w_bob).1.
Definition w_second : SignalMessage := (w_sent w_key (w_sent w_text w_bob).2).1.
Definition w_ratchet : PublicKey := KeyPair.public_key w_signed.
Definition w_chain : ChainKey :=
  default (ChainKey.mk (HKDF.Build_t 1) [] 0) (receiver_chain_key w_alice w_ratchet).
Definition w_sending : ChainKey :=
  default (ChainKey.mk (HKDF.Build_t 1) [] 0) (sender_chain_key w_alice).

Lemma w_chain_known : receiver_chain_key w_alice w_ratchet = Some w_chain.
Proof. vm_compute. reflexivity. Qed.

Lemma w_parsed_wf m :
  SignalMessage.try_from (SignalMessage.serialized m) = Ok m ->
  is_u32 (SignalMessage.counter m) -> message_wf m.
Proof.
  intros Hm Hc. destruct (SignalMessage.signal_message_parse_safe (SignalMessage.serialized m)) as [_ Hsafe].
  destruct (Hsafe m Hm) as (_ & _ & Hpk & _ & _ & Hnp). by split.
Qed.

Lemma w_first_wf : message_wf w_first.
Proof. apply w_parsed_wf; [vm_compute; reflexivity|vm_compute; by split]. Qed.
Lemma w_first_not_last : SignalMessage.counter w_first <> u32_max.
Proof. vm_compute. congruence. Qed.

Lemma get_or_create_message_key_correct_witness :
  exists r s', get_or_create_message_key w_ratchet w_chain 3 (w_alice, w_rng) = (r, (s', w_rng)) /\
    session_inv s' /\ r = Ok (ChainKey.keys (ChainKey.advanced w_chain 3)) /\
    receiver_chain_key s' w_ratchet = Some (ChainKey.advanced w_chain 4).
Proof.
  destruct (get_or_create_message_key_correct w_alice w_rng w_ratchet w_chain 3
    (ahead_inv_s _ _ _ _ w_ahead) w_chain_known ltac:(unfold is_u32, u32_max; lia))
    as (r & s' & Hr & _ & _ & Hcase).
  exists r, s'. split; [exact Hr|].
  change (exhausted w_chain 3) with false in Hcase.
  change (ChainKey.index w_chain) with 0%Z in Hcase.
  destruct Hcase as [Hs' Hcase]. split; [exact Hs'|].
  destruct Hcase as (Hkeys & Hchain & _). by split.
Defined.

Lemma decrypt_never_panics_and_no_replay_witness :
  (exists res r' c', decrypt_message_with_state w_first (w_alice, w_rng) = (res, (r', c')) /\
    res <> Panic /\ session_inv r' /\ identities r' = identities w_alice) /\
  exists r1 r2,
    decrypt_message_with_state w_second (w_alice, w_rng) = (Ok w_key, (r1, w_rng)) /\
    decrypt_message_with_state w_first (r1, w_rng) = (Ok w_text, (r2, w_rng)) /\
    decrypt_message_with_state w_first (r2, w_rng) = (Err (DuplicatedMessage 2 0), (r2, w_rng)) /\
    decrypt_message_with_state w_second (r2, w_rng) = (Err (DuplicatedMessage 2 1), (r2, w_rng)).
Proof.
  destruct (decrypt_never_panics_and_no_replay w_alice w_rng (ahead_inv_s _ _ _ _ w_ahead))
    as [Hany Hlate].
  split.
  - destruct (Hany w_first w_first_wf) as (res & r' & c' & Hd & Hp & Hid & Hrest).
    pose proof (not_last_exhausts w_first w_alice w_first_not_last) as Hn.
    exists res, r', c'. exact (conj Hd (conj (fun H => Hn (proj2 (proj1 Hp H)))
      (conj (proj1 (Hrest Hn)) Hid))).
  - apply (Hlate w_sending w_ratchet w_chain 1 0 w_second w_first w_key w_text
      (IdentityKeyPair.identity_key w_bob_id) (IdentityKeyPair.identity_key w_alice_id));
      try (split; vm_compute; reflexivity); try (vm_compute; reflexivity);
      first [lia|vm_compute; congruence].
Defined.

(** * Records *)

Definition w_record : SessionRecord := SessionRecord.mk (Some w_bob) [w_alice].

Lemma w_record_inv : record_inv w_record.
Proof.
  split; [|unfold record_bounded; cbn; unfold ARCHIVED_STATES_MAX_LENGTH; lia].
  constructor; [apply w_ahead|]. constructor; [apply w_ahead|constructor].
Qed.

Lemma session_records_correct_witness :
  (exists r', SessionRecord.promote_old_session w_record 0 w_bob = Ok r' /\ record_bounded r' /\
    SessionRecord.current_session r' = Some w_bob /\
    w_alice :: SessionRecord.previous_sessions r' ≡ₚ all_sessions w_record) /\
  exists res record' c', decrypt_message_with_record w_first (w_record, w_rng) = (res, (record', c')) /\
    res <> Panic /\ record_inv record' /\ (is_ok res = false -> record' = w_record).
Proof.
  destruct (session_records_correct w_first w_record w_rng 0 w_bob w_record_inv w_first_wf)
    as (_ & Hp & res & record' & c' & Hd & Hpanic & Hfail & _ & Hrest).
  assert (Hn : ~ Exists (exhausts w_first) (all_sessions w_record))
    by (intros [s [_ Hs]]%Exists_exists; by apply (not_last_exhausts w_first s w_first_not_last)).
  split; [exact Hp|]. exists res, record', c'.
  exact (conj Hd (conj (fun H => Hn (proj2 (Hpanic H))) (conj (proj1 (Hrest Hn)) Hfail))).
Defined.

Lemma w_record_typed : Forall (fun s => well_typed (SessionState.session s)) (all_sessions w_record).
Proof. repeat constructor; vm_compute; try done; try (by split_and!); by repeat constructor. Qed.

Lemma in_mem_trust_on_first_use_witness :
  let i := IdentityKeyPair.identity_key w_alice_id in
  is_trusted_identity (ProtocolAddress.new "+1555" 1) i Sending None
    (run_saves [(ProtocolAddress.new "+1555" 1, i)] (InMemIdentityKeyStore.new w_bob_id 7)) = Ok true.
Proof.
  exact (proj1 (in_mem_trust_on_first_use
    [(ProtocolAddress.new "+1555" 1, IdentityKeyPair.identity_key w_alice_id)] w_bob_id 7
    (ProtocolAddress.new "+1555" 1) (IdentityKeyPair.identity_key w_alice_id) Sending None)).
Defined.

(** * Sessions through the stores *)

Abbreviation w_world :=
  (@World InMemSessionStore InMemIdentityKeyStore InMemPreKeyStore InMemSignedPreKeyStore toy_crates).

Definition w_alice_address : ProtocolAddress := ProtocolAddress.new "+14151111111" 1.
Definition w_bob_address : ProtocolAddress := ProtocolAddress.new "+14151111112" 1.

Definition w_value {A} (r : Result A) (d : A) : A := match r with Ok a => a | _ => d end.

Definition w_bundle : PreKeyBundle := {|
  PreKeyBundle.registration_id_ := 9;
  PreKeyBundle.device_id_ := 1;
  PreKeyBundle.pre_key_id_ := Some 31%Z;
  PreKeyBundle.pre_key_public_ := Some (KeyPair.public_key w_one_time);
  PreKeyBundle.signed_pre_key_id_ := 22;
  PreKeyBundle.signed_pre_key_public_ := KeyPair.public_key w_signed;
  PreKeyBundle.signed_pre_key_signature_ :=
    w_value (Curve.calculate_signature 5%Z (IdentityKeyPair.private_key w_bob_id)
      (PublicKey.serialize (KeyPair.public_key w_signed))).1 [];
  PreKeyBundle.identity_key_ := IdentityKeyPair.identity_key w_bob_id;
|}.

Definition w_alice_with {SS} (sessions : SS)
    : World SS InMemIdentityKeyStore InMemPreKeyStore InMemSignedPreKeyStore :=
  World.mk sessions (InMemIdentityKeyStore.new w_alice_id 7) InMemPreKeyStore.new
    InMemSignedPreKeyStore.new 4%Z.
Definition w_alice_world : w_world := w_alice_with InMemSessionStore.new.

Definition w_bob_pre_keys : gmap Z PreKeyRecord := {[31%Z := PreKeyRecord.new 31 w_one_time]}.
Definition w_bob_signed_pre_keys : gmap Z SignedPreKeyRecord :=
  {[22%Z := SignedPreKeyRecord.new 22 1700000000000 w_signed w_text]}.
Definition w_bob_with {SS} (sessions : SS)
    : World SS InMemIdentityKeyStore InMemPreKeyStore InMemSignedPreKeyStore :=
  World.mk sessions (InMemIdentityKeyStore.new w_bob_id 9) (InMemPreKeyStore.mk w_bob_pre_keys)
    (InMemSignedPreKeyStore.mk w_bob_signed_pre_keys) 6%Z.

Definition w_bob_world : w_world := w_bob_with InMemSessionStore.new.

Lemma w_published {SS} (sessions : SS) : published (w_bob_with sessions) w_bundle w_signed (Some w_one_time).
Proof.
  constructor; try (vm_compute; reflexivity); try (vm_compute; congruence).
  - unfold is_u32, u32_max; cbn; lia.
  - eexists. split; [reflexivity|vm_compute; reflexivity].
  - cbn [PreKeyBundle.pre_key_id_ w_bundle]. eexists. split; [reflexivity|vm_compute; reflexivity].
  - split; [apply w_identity_matching|]. split; [apply w_pair_matching|cbn; apply w_pair_matching].
Qed.

(** Bob has had a session with Alice before. *)
Definition w_bob_again : w_world :=
  w_bob_with (InMemSessionStore.mk {[w_alice_address := SessionRecord.mk (Some w_bob) []]}).

Lemma w_bob_open :
  open_to (loaded_record w_bob_again w_alice_address)
    (KeyPair.public_key (KeyPair.generate (World.csprng w_alice_world)).1).
Proof. split; [apply Nat.leb_le; vm_compute; reflexivity|repeat constructor; vm_compute; congruence]. Qed.

Lemma first_message_delivers_witness :
  exists wa1 m wa2 wb1,
    process_prekey_bundle w_bob_address w_bundle None w_alice_world = (Ok tt, wa1) /\
    message_encrypt w_text w_bob_address None wa1
      = (Ok (CiphertextMessage.PreKeySignalMessage m), wa2) /\
    message_decrypt_prekey m w_alice_address None w_bob_again = (Ok w_text, wb1) /\
    pre_key_store_map (World.pre_key_store wb1) 31 = None.
Proof.
  destruct (first_message_delivers w_alice_world w_bob_again w_alice_address w_bob_address w_bundle
    w_signed (Some w_one_time) w_text None None (w_published _) (w_identity_matching _)
    (or_introl eq_refl) (or_introl eq_refl) ltac:(apply Nat.leb_le; vm_compute; reflexivity)
    w_bob_open ltac:(vm_compute; congruence)) as (wa1 & m & wa2 & wb1 & Hp & He & Hd & Hk & _).
  exists wa1, m, wa2, wb1. exact (conj Hp (conj He (conj Hd (Hk 31%Z eq_refl)))).
Defined.

Lemma process_prekey_bundle_correct_witness :
  exists w', process_prekey_bundle w_bob_address w_bundle None w_alice_world = (Ok tt, w') /\
    known w' w_bob_address = Some (IdentityKeyPair.identity_key w_bob_id).
Proof.
  destruct (process_prekey_bundle_correct w_bob_address w_bundle None w_alice_world
    ltac:(vm_compute; reflexivity) ltac:(vm_compute; reflexivity)
    ltac:(cbn; unfold is_u32, u32_max; lia) ltac:(intros ? [=]))
    as (res & w' & Hp & _ & _ & _ & _ & Hok & _ & Hsaved).
  assert (Hres : res = Ok tt) by (apply Hok; split; [by left|vm_compute; reflexivity]).
  subst res. exists w'. split; [exact Hp|].
  destruct (Hsaved eq_refl) as (s & old & _ & Hup & _). apply Hup.
Defined.

(** Stores in which Alice has a session with Bob, and Bob's message on it. *)
Definition w_alice_record : SessionRecord := SessionRecord.mk (Some w_alice) [].
Definition w_alice_session : w_world :=
  World.mk (InMemSessionStore.mk {[w_bob_address := w_alice_record]})
    (InMemIdentityKeyStore.new w_alice_id 7) InMemPreKeyStore.new InMemSignedPreKeyStore.new 4%Z.

Lemma w_alice_record_inv a record : stored_session w_alice_session a = Some record -> record_inv record.
Proof.
  unfold stored_session, w_alice_session. cbn. intros [<- <-]%lookup_singleton_Some.
  split; [by constructor; [apply w_ahead|constructor]|apply Nat.leb_le; vm_compute; reflexivity].
Qed.

(** The ratchet key pair that Alice's sending chain goes with. *)
Definition w_alice_ratchet : KeyPair :=
  KeyPair.new (w_value (SessionState.sender_ratchet_key w_alice) w_point)
    (w_value (SessionState.sender_ratchet_private_key w_alice) (KeyPair.private_key w_base)).


Lemma w_first_not_stored (w : w_world) a : ~ stored_exhausts w a w_first.
Proof.
  intros (r & _ & [s [_ Hs]]%Exists_exists). by apply (not_last_exhausts w_first s w_first_not_last).
Qed.

Lemma message_decrypt_signal_correct_witness :
  exists res w', message_decrypt_signal w_first w_bob_address None w_alice_session = (res, w') /\
    res <> Panic /\ (is_ok res = false -> same_stores w_alice_session w').
Proof.
  destruct (message_decrypt_signal_correct w_first w_bob_address None w_alice_session w_first_wf
    (w_alice_record_inv w_bob_address)) as (res & w' & Hd & Hnp & Hsame & _).
  exists res, w'. exact (conj Hd (conj (fun H => w_first_not_stored _ _ (proj2 (Hnp H))) Hsame)).
Defined.

(** Alice's first message to Bob, as a pre-key message. *)
Definition w_pre_key_message : PreKeySignalMessage :=
  match PreKeySignalMessage.new 3 7 (Some 31%Z) 22 (KeyPair.public_key w_base)
          (IdentityKeyPair.identity_key w_alice_id) w_first with
  | Ok m => m
  | _ => PreKeySignalMessage.mk 0 0 None 0 w_point (IdentityKeyPair.identity_key w_alice_id) w_first []
  end.

Lemma w_no_session (P : SessionRecord -> Prop) (w : w_world) a :
  stored_session w a = None -> forall record, stored_session w a = Some record -> P record.
Proof. by intros -> record [=]. Qed.

Lemma w_pre_key_message_inner : PreKeySignalMessage.message w_pre_key_message = w_first.
Proof. vm_compute. reflexivity. Qed.

Lemma w_pre_key_message_wf : pre_key_message_wf w_pre_key_message.
Proof.
  constructor; [vm_compute; reflexivity..|]. rewrite w_pre_key_message_inner. exact w_first_wf.
Qed.

Lemma message_decrypt_prekey_correct_witness :
  exists res w', message_decrypt_prekey w_pre_key_message w_alice_address None w_bob_world = (res, w') /\
    res <> Panic /\
    (is_ok res = false -> World.pre_key_store w' = World.pre_key_store w_bob_world).
Proof.
  destruct (message_decrypt_prekey_correct w_pre_key_message w_alice_address None w_bob_world
    w_pre_key_message_wf (w_no_session _ w_bob_world w_alice_address eq_refl)) as (res & w' & Hd & Hnp & _ & Hfail & _).
  rewrite w_pre_key_message_inner in Hnp. exists res, w'.
  exact (conj Hd (conj (fun H => w_first_not_stored _ _ (proj2 (Hnp H)))
    (fun H => proj1 (proj2 (Hfail H))))).
Defined.

(** * Groups *)

Abbreviation w_group := (InMemSenderKeyStore * @Csprng toy_crates)%type.

Definition w_name : SenderKeyName := SenderKeyName.mk "summer camp" w_alice_address.
Definition w_empty_group : w_group := (InMemSenderKeyStore.new, 4%Z).

(** A sender at iteration 2 of its chain, and a receiver of its announcement. *)
Definition w_sender_chain : SenderChainKey := SenderChainKey.mk 0 w_key.
Definition w_sender_state : SenderKeyState :=
  new_state 12 2 (SenderChainKey.chain_key_ (chain_at w_sender_chain 2)) (KeyPair.public_key w_base)
    (Some (KeyPair.private_key w_base)).
Definition w_received_state : SenderKeyState :=
  new_state 12 2 (SenderChainKey.chain_key_ (chain_at w_sender_chain 2)) (KeyPair.public_key w_base) None.
Definition w_group_with (s : SenderKeyState) : w_group :=
  (InMemSenderKeyStore.mk {[w_name := SenderKeyRecord.mk [s]]}, 4%Z).

Lemma w_stored s : stored_record (w_group_with s) w_name = Some (SenderKeyRecord.mk [s]).
Proof. reflexivity. Qed.

Lemma w_sends : sends w_sender_chain w_base 12 2 w_sender_state.
Proof. by constructor; vm_compute. Qed.

Lemma w_sender_state_typed : well_typed (SenderKeyState.state w_sender_state).
Proof. split_and!; [..|constructor]; unfold is_u32, u32_max; cbn; lia. Qed.

Lemma kept_records_roundtrip_witness :
  (exists b, SessionRecord.serialize w_record = Ok b /\ SessionRecord.deserialize b = Ok w_record) /\
  (exists b, SenderKeyRecord.serialize (SenderKeyRecord.mk [w_sender_state]) = Ok b /\
    SenderKeyRecord.deserialize b = Ok (SenderKeyRecord.mk [w_sender_state])) /\
  (exists b r, PreKeyRecord.serialize (PreKeyRecord.new 31 (w_pair Byte.x31)) = Ok b /\
    PreKeyRecord.deserialize b = Ok r /\
    PreKeyRecord.id r = Ok 31%Z /\ PreKeyRecord.key_pair r = Ok (w_pair Byte.x31)) /\
  IdentityKeyPair.try_from (IdentityKeyPair.serialize w_alice_id) = Ok w_alice_id.
Proof.
  destruct (kept_records_roundtrip w_record (SenderKeyRecord.mk [w_sender_state]) 31 22 1700000000000 (w_pair Byte.x31) (w_pair Byte.x32) w_text
    w_alice_id w_record_typed) as (Hr & Hg & Hp & _ & Hi);
    [constructor; [exact w_sender_state_typed|constructor]|unfold is_u32, is_u64, u32_max; lia..|apply w_pair_matching|apply w_pair_matching|
    apply w_identity_matching|]. exact (conj Hr (conj Hg (conj Hp Hi))).
Defined.

Lemma get_sender_key_refines_receiver_witness :
  exists s', get_sender_keys [4; 2; 4]%Z w_received_state
    = ((receiver_keys (SenderChainKey.mk 2 (SenderChainKey.chain_key_ (chain_at w_sender_chain 2)))
          [4; 2; 4]%Z (Receiver.start 2)).1, s').
Proof.
  destruct (get_sender_key_refines_receiver 12 2 (SenderChainKey.chain_key_ (chain_at w_sender_chain 2))
    (KeyPair.public_key w_base) None [4; 2; 4]%Z w_received_state (new_state_ok _ _ _ _ _)
    ltac:(unfold u32_max; lia) ltac:(unfold u32_max; set_solver by lia)) as (s' & Hs' & _).
  exists s'. exact Hs'.
Defined.

Lemma group_sending_correct_witness :
  (exists b w' s', group_encrypt w_name w_text None (w_group_with w_sender_state) = (Ok b, w') /\
    group_message w_sender_chain w_base 12 2 w_text b /\ sends w_sender_chain w_base 12 3 s') /\
  group_encrypt w_name w_text None (w_group_with w_received_state)
    = (Err (BadKeyLength KeyType.Djb 0), w_group_with w_received_state).
Proof.
  assert (Hu : is_u32 12) by (unfold is_u32, u32_max; lia).
  assert (Hi : (0 <= SenderChainKey.iteration_ w_sender_chain <= 2)%Z) by (cbn; lia).
  assert (Hm : (2 < u32_max)%Z) by (unfold u32_max; lia).
  pose proof (fun s => group_sending_correct w_name w_text None (w_group_with s) w_sender_chain w_base 12 2
    (w_pair_matching _) Hu Hi Hm) as Hc.
  split.
  - specialize (Hc w_sender_state). rewrite (w_stored w_sender_state) in Hc.
    destruct (proj1 Hc w_sends) as (b & w' & s' & He & Hg & Hs & _).
    exists b, w', s'. exact (conj He (conj Hg Hs)).
  - specialize (Hc w_received_state). rewrite (w_stored w_received_state) in Hc.
    exact (proj2 Hc _ _ _ _ eq_refl).
Defined.

Definition w_group_text : bytes := w_value (group_encrypt w_name w_text None (w_group_with w_sender_state)).1 [].

Lemma group_decrypt_correct_witness :
  exists res w', group_decrypt w_group_text w_name None (w_group_with w_received_state) = (res, w') /\
    res <> Panic /\ (is_ok res = false -> w' = w_group_with w_received_state).
Proof.
  destruct (group_decrypt_correct w_group_text w_name None (w_group_with w_received_state)) as
    (res & w' & Hd & Hnp & Hsame & _).
  - intros record. unfold stored_record, w_group_with. cbn. intros [_ <-]%lookup_singleton_Some.
    constructor; [|constructor]. apply new_state_inv. unfold u32_max; lia.
  - intros skm Hskm.
    assert (Hit : (let? m := SenderKeyMessage.try_from w_group_text in Ok (SenderKeyMessage.iteration m)) = Ok 2%Z)
      by (vm_compute; reflexivity).
    rewrite Hskm in Hit. injection Hit as ->. unfold u32_max; lia.
  - exists res, w'. exact (conj Hd (conj Hnp Hsame)).
Defined.

Definition w_announcement : SenderKeyDistributionMessage :=
  w_value (create_sender_key_distribution_message w_name None (w_group_with w_sender_state)).1
    (SenderKeyDistributionMessage.mk 0 0 0 [] w_point []).

Lemma distribution_correct_witness :
  (exists skdm w', create_sender_key_distribution_message w_name None w_empty_group = (Ok skdm, w')) /\
  exists w' r, process_sender_key_distribution_message w_name w_announcement None w_empty_group = (Ok tt, w') /\
    stored_under w_empty_group w' w_name r /\ sender_record_inv r.
Proof.
  destruct (distribution_correct w_name w_announcement None w_empty_group
    ltac:(vm_compute; congruence) ltac:(constructor)) as (Hc & w' & r & Hp & Hs & Hinv & _).
  split.
  - change (stored_record w_empty_group w_name) with (@None SenderKeyRecord) in Hc.
    destruct Hc as (skdm & w1 & _ & _ & _ & _ & Hc & _). by exists skdm, w1.
  - exists w', r. exact (conj Hp (conj Hs Hinv)).
Defined.

Lemma w_empty : record_states w_empty_group w_name = [].
Proof. unfold record_states, stored_record, w_empty_group. cbn. by rewrite lookup_empty. Qed.

Lemma group_conversation_delivers_witness :
  exists skdm ws1 wr1,
    create_sender_key_distribution_message w_name None w_empty_group = (Ok skdm, ws1) /\
    process_sender_key_distribution_message w_name skdm None w_empty_group = (Ok tt, wr1) /\
    exists bs ws2, group_send_all w_name None [w_text; w_iv] ws1 = (Ok bs, ws2) /\ length bs = 2.
Proof.
  destruct (group_conversation_delivers w_name None w_empty_group w_name None w_empty_group w_empty)
    as (skdm & ws1 & wr1 & Hc & _ & Hp & Hall).
  destruct (Hall [w_text; w_iv]) as (bs & ws2 & Hs & Hl & _); [apply Nat.leb_le; vm_compute; reflexivity|].
  exists skdm, ws1, wr1. exact (conj Hc (conj Hp (ex_intro _ bs (ex_intro _ ws2 (conj Hs Hl))))).
Defined.

(** * AES-GCM-SIV *)

Section Siv.
#[local] Opaque Fips197.cipher.
#[local] Existing Instances spec_polyval spec_polyval_laws spec_aes spec_aes_laws arm_machine.

Lemma skip_loops_terminate_witness :
  runs (skip_cond 2) (skip_body w_ratchet) w_chain (w_alice, w_rng)
    (skip_message_keys 2 w_ratchet w_chain 2 (w_alice, w_rng)).
Proof.
  refine (proj2 (proj1 (skip_loops_terminate 2 2 _) w_ratchet w_chain (w_alice, w_rng) _ _) eq_refl).
  - unfold is_u32, u32_max. lia.
  - vm_compute. lia.
Defined.

Lemma polyval_is_rfc8452_witness :
  (let? p := Polyval.new w_iv in let? p := run_updates [(true, w_text); (false, w_iv)] p in Polyval.finalize p)
  = Ok (le_bytes 16 (polyval_blocks (le_num w_iv) 0 (blocks_of [(true, w_text); (false, w_iv)]))).
Proof.
  refine (proj1 (proj1 (proj2 (polyval_is_rfc8452 w_iv [(true, w_text); (false, w_iv)])) eq_refl _)).
  constructor; [by left|]. constructor; [right; by apply whole_block|constructor].
Defined.

Lemma aes256_is_fips197_witness :
  (let? c := Aes256.new w_key in Aes256.encrypt c w_iv)
  = Ok (concat (map (Fips197.cipher w_key) (chunks 16 w_iv))).
Proof. exact (proj1 (proj2 (aes256_is_fips197 w_key w_iv)) eq_refl eq_refl). Defined.

Definition w_nonce : bytes := replicate 12 Byte.x03.

Lemma aes_gcm_siv_is_rfc8452_witness :
  exists c, Aes256GcmSiv.new w_key = Ok c /\
    Aes256GcmSiv.encrypt c w_nonce w_iv w_text
      = (let '(ct, tag) := Rfc8452.encrypt w_key w_nonce w_text w_iv in (Ok tag, ct)).
Proof.
  destruct (proj2 (aes_gcm_siv_is_rfc8452 w_key w_nonce w_iv w_iv w_text) eq_refl) as (c & Hc & He & _).
  exists c. exact (conj Hc He).
Defined.

End Siv.

Section SivRoundtrip.
#[local] Existing Instances spec_polyval spec_polyval_laws spec_aes spec_aes_laws plain_machine.

Definition w_siv : Aes256GcmSiv.t := Aes256GcmSiv.mk (Aes256.Soft (w_key : @CipherKey aes_soft)).
Definition w_sealed : bytes * bytes :=
  Eval vm_compute in
    match Aes256GcmSiv.encrypt w_siv w_nonce w_iv w_text with
    | (Ok tag, ct) => (tag, ct)
    | _ => ([], [])
    end.

Lemma aes_gcm_siv_roundtrip_witness :
  Aes256GcmSiv.decrypt w_siv w_nonce w_iv w_sealed.1 w_sealed.2 = (Ok tt, w_text).
Proof.
  refine (proj1 (aes_gcm_siv_roundtrip w_key w_siv w_nonce w_iv _) w_text w_sealed.1 w_sealed.2 _).
  - reflexivity.
  - vm_compute. reflexivity.
Defined.
End SivRoundtrip.
