(* ===== verification/FfiWitnesses.v ===== *)
(** The theorems on the C interface, applied to a C program with concrete memory
    and callbacks over finite maps. *)

From S2P Require Import Prelude Error Utils Crates Crypto Curve Proto IdentityKey Instances Protocol RatchetKeys.
From S2P Require Import SessionState SessionInvariant PreKeys SenderKeys Storage StoreAccess Session SessionCipher GroupCipher.
From S2P Require Import SessionRecordFacts Replay StoreProofs Conversation FirstContact Witnesses.
From S2P Require Import BridgeMemory FfiUtil FfiStores FfiLaws FfiEntry FfiSession FfiFrame FfiApi FfiSpec FfiProofs FfiInstances.

#[local] Existing Instances toy_build toy_crates toy_codecs toy_hash_laws toy_subtle_laws toy_rng_laws
  toy_cbc_laws toy_x25519_laws toy_edwards_laws toy_proto_laws toy_platform toy_alloc_laws
  toy_sessions toy_pre_keys toy_signed_pre_keys toy_sender_keys toy_identities
  toy_sessions_laws toy_pre_keys_laws toy_signed_pre_keys_laws toy_sender_keys_laws
  toy_identities_laws.

(** A memory with variables of each kind, a text, and the objects the calls use. *)
Definition w_group : SenderKeyName := SenderKeyName.mk "group" w_alice_address.

Definition w_memory : Memory :=
  list_to_map [
    (100%Z, Var PtrVar 0); (101%Z, Var PtrVar 0); (102%Z, Var SizeVar 0); (103%Z, Var PtrVar 0);
    (200%Z, Bytes w_text); (201%Z, Bytes (string_bytes "bob" ++ [Byte.x00]));
    (300%Z, Boxed (inject w_bob_address)); (301%Z, Boxed (inject w_alice_address));
    (302%Z, Boxed (inject w_bundle)); (303%Z, Boxed (inject w_group));
    (304%Z, Boxed (inject (KeyPair.public_key w_signed)))].

Lemma w_pointer p : p = 100%Z \/ p = 101%Z \/ p = 103%Z -> variable w_memory PtrVar p.
Proof. intros [->|[->| ->]]; (split; [done|by exists 0%Z]). Qed.
Lemma w_size : variable w_memory SizeVar 102.
Proof. split; [done|by exists 0%Z]. Qed.
Lemma w_bob_handle : handle w_memory 300 w_bob_address.
Proof. by split. Qed.
Lemma w_alice_handle : handle w_memory 301 w_alice_address.
Proof. by split. Qed.
Lemma w_bundle_handle : handle w_memory 302 w_bundle.
Proof. by split. Qed.
Lemma w_group_handle : handle w_memory 303 w_group.
Proof. by split. Qed.
Lemma w_text_bytes : bytes_at w_memory 200 w_text.
Proof. split; [done|]. right. by exists (Bytes w_text), []. Qed.

(** The first address the allocator gives out is the one after 4096. *)
Example w_address_new :
  let '(r, (m, _)) := signal_address_new (W:=unit) 100 201 7 (w_memory, tt) in
  r = Ok null /\ m !! 100%Z = Some (Var PtrVar 4097) /\
  m !! 4097%Z = Some (Boxed (inject (ProtocolAddress.new "bob" 7))).
Proof. vm_compute. split_and!; reflexivity. Qed.

(** A null name is an error object of type 4. *)
Example w_address_new_null :
  let '(r, s) := signal_address_new (W:=unit) 100 0 7 (w_memory, tt) in
  r = Ok 4097%Z /\ (signal_error_get_type 4097 s).1 = Ok 4%Z.
Proof. vm_compute. split; reflexivity. Qed.

Definition w_after_clone : Memory := (signal_address_clone (W:=unit) 100 300 (w_memory, tt)).2.1.

Lemma handles_survive_witness :
  (let '(r, (m', _)) := signal_address_new (W:=unit) 100 201 7 (w_memory, tt) in
   r = Err Undefined \/ m' !! 201%Z = w_memory !! 201%Z) /\
  (signal_error_get_message (W:=unit) 100 101 (w_memory, tt)).1 <> Panic /\
  native_handle_cast ProtocolAddress 300 (w_after_clone, tt)
    = (Ok w_bob_address, (w_after_clone, tt)).
Proof.
  destruct (handles_survive [100%Z] w_memory w_after_clone 300 ProtocolAddress w_bob_address)
    as (Hcalls & Hrest & Htrace).
  split; [|split].
  - pose proof (Hcalls unit [100%Z] (signal_address_new 100 201 7) tt (api_address_new _ _ _ _)) as Hc.
    destruct (signal_address_new (W:=unit) 100 201 7 (w_memory, tt)) as [r [m' w']].
    destruct Hc as [Hc|(q & _ & Hu & _)]; [left; exact Hc|right].
    exact (Hu 201%Z _ eq_refl ltac:(intros Hin; apply list_elem_of_singleton in Hin; discriminate Hin)).
  - pose proof (Hrest unit Ptr [101%Z] _ (signal_error_get_message 100 101) tt
      (unguarded_error_get_message unit 100 101)) as Hc.
    destruct (signal_error_get_message (W:=unit) 100 101 (w_memory, tt)) as [r [m' w']].
    intros Hr. destruct (proj1 (proj1 Hc) Hr) as (_ & _ & e & He & _). discriminate He.
  - exact (proj2 (Htrace (trace_step [100%Z] [] w_memory w_after_clone w_after_clone
      (step_call unit [100%Z] (signal_address_clone 100 300) w_memory tt null w_after_clone tt
        (api_clone _ ProtocolAddress _ _) eq_refl) (trace_nil _))
      eq_refl ltac:(intros Hin; apply list_elem_of_singleton in Hin; discriminate Hin)
      ltac:(discriminate)) unit tt).
Defined.

Lemma errors_are_reported_witness :
  exists q, q <> null /\
    signal_error_get_type q
      (<[q := Boxed (inject (UnexpectedPanic panic_payload))]> w_memory, tt)
    = (Ok 3%Z, (<[q := Boxed (inject (UnexpectedPanic panic_payload))]> w_memory, tt)).
Proof.
  destruct (errors_are_reported (st_lift Panic) w_memory tt) as [_ (q & Hq & _ & _ & Ht & _)].
  exists q. split; [exact Hq|exact Ht].
Defined.

(** A public key and its bytes. *)
Definition w_public : PublicKey := KeyPair.public_key w_signed.
Definition w_public_bytes : bytes := PublicKey.serialize w_public.

Lemma w_public_parses : PublicKey.deserialize w_public_bytes = Ok w_public.
Proof. vm_compute. reflexivity. Qed.

Lemma w_public_handle : handle w_memory 304 w_public.
Proof. split; [done|reflexivity]. Qed.

Lemma objects_survive_as_bytes_witness :
  exists q r m1 m2 m3,
    signal_publickey_serialize (W:=unit) 304 101 102 (w_memory, tt) = (Ok null, (m1, tt)) /\
    signal_publickey_deserialize 103 q (length w_public_bytes) (m1, tt) = (Ok null, (m2, tt)) /\
    handle m2 r w_public /\
    signal_free_buffer q (length w_public_bytes) (m2, tt) = (Ok tt, (m3, tt)) /\
    signal_publickey_destroy r (m3, tt) = (Ok null, (delete r m3, tt)).
Proof.
  destruct (objects_survive_as_bytes (fun k => Ok (PublicKey.serialize k)) PublicKey.deserialize
    w_public w_public_bytes w_memory tt
    304 101 102 103 eq_refl w_public_parses w_public_handle
    (w_pointer 101 ltac:(tauto)) w_size (w_pointer 103 ltac:(tauto)) ltac:(discriminate))
    as (q & r & m1 & m2 & m3 & Hget & _ & _ & Hdes & _ & _ & Hr & _ & Hfree & Hdestroy & _).
  exists q, r, m1, m2, m3. exact (conj Hget (conj Hdes (conj Hr (conj Hfree Hdestroy)))).
Defined.

(** * Sessions *)

Abbreviation w_c_world :=
  (@World (gmap ProtocolAddress SessionRecord) ToyIdentities (gmap Z PreKeyRecord)
     (gmap Z SignedPreKeyRecord) toy_crates).

Definition w_alice_c : w_c_world :=
  World.mk ∅ (Build_ToyIdentities (IdentityKeyPair.private_key w_alice_id) 7 ∅) ∅ ∅ 4%Z.
Definition w_bob_c : w_c_world :=
  World.mk ∅ (Build_ToyIdentities (IdentityKeyPair.private_key w_bob_id) 9 ∅)
    {[31%Z := PreKeyRecord.new 31 w_one_time]}
    {[22%Z := SignedPreKeyRecord.new 22 1700000000000 w_signed w_text]} 6%Z.

Lemma w_published_c : published w_bob_c w_bundle w_signed (Some w_one_time).
Proof.
  constructor; try (vm_compute; reflexivity); try (vm_compute; congruence).
  - unfold is_u32, u32_max; cbn; lia.
  - eexists. split; [reflexivity|vm_compute; reflexivity].
  - cbn [PreKeyBundle.pre_key_id_ w_bundle]. eexists. split; [reflexivity|vm_compute; reflexivity].
  - split; [apply (w_identity_matching Byte.x05)|].
    split; [apply w_pair_matching|cbn; apply w_pair_matching].
Qed.

Lemma calls_implement_operations_witness :
  outcome_reported [100%Z] (delivers_object 100) w_memory
    (message_encrypt w_text w_bob_address (Some 5%Z) w_alice_c)
    (signal_encrypt_message 100 200 (length w_text) 300 (Some toy_sessions) (Some toy_identities) 5
       (w_memory, w_alice_c)).
Proof.
  exact (proj1 (proj2 (calls_implement_operations w_memory w_alice_c
    ((∅ : gmap SenderKeyName SenderKeyRecord), 4%Z) 5 300 w_bob_address 303 w_group 200 w_text
    100 101 102 w_bob_handle w_group_handle w_text_bytes (w_pointer 100 ltac:(tauto))
    (w_pointer 101 ltac:(tauto)) w_size))).
Defined.

Lemma w_contact_ids : contact_ids w_alice_c w_bundle.
Proof. split; cbn; unfold is_u32, u32_max; lia. Qed.

Lemma first_contact_through_c_witness :
  exists wa1 wa2 wb1 ma1 ma2 msg_p b,
    signal_process_prekey_bundle 302 300 (Some toy_sessions) (Some toy_identities) 5
      (w_memory, w_alice_c) = (Ok null, (w_memory, wa1)) /\
    signal_encrypt_message 100 200 (length w_text) 300 (Some toy_sessions) (Some toy_identities) 5
      (w_memory, wa1) = (Ok null, (ma1, wa2)) /\
    signal_ciphertext_message_serialize 101 102 msg_p (ma1, wa2) = (Ok null, (ma2, wa2)) /\
    forall received, bytes_at w_memory received b ->
      exists mb1 mb2 message_p q,
        signal_decrypt_pre_key_message 101 102 message_p 301 (Some toy_sessions)
          (Some toy_identities) (Some toy_pre_keys) (Some toy_signed_pre_keys) 6 (mb1, w_bob_c)
          = (Ok null, (mb2, wb1)) /\ bytes_at mb2 q w_text.
Proof.
  destruct (first_contact_through_c w_alice_c w_bob_c w_memory w_alice_address w_bob_address w_bundle
    w_signed (Some w_one_time) w_text 5 6 302 300 200 100 101 102 w_published_c
    (w_identity_matching Byte.x03) (or_introl eq_refl) (or_introl eq_refl)
    ltac:(apply Nat.leb_le; vm_compute; reflexivity)
    ltac:(split; [apply Nat.leb_le; vm_compute; reflexivity|constructor]) ltac:(vm_compute; congruence)
    w_contact_ids w_bundle_handle w_bob_handle w_text_bytes (w_pointer 100 ltac:(tauto))
    (w_pointer 101 ltac:(tauto)) w_size ltac:(discriminate))
    as (wa1 & wa2 & wb1 & ma1 & ma2 & msg_p & b & H1 & H2 & _ & H3 & _ & Hrecv & _).
  exists wa1, wa2, wb1, ma1, ma2, msg_p, b. split; [exact H1|]. split; [exact H2|]. split; [exact H3|].
  intros received Hb.
  destruct (Hrecv w_memory received 301%Z 103%Z 101%Z 102%Z Hb w_alice_handle
    (w_pointer 103 ltac:(tauto)) (w_pointer 101 ltac:(tauto)) w_size ltac:(discriminate))
    as (mb1 & mb2 & message_p & q & _ & _ & Hd & _ & _ & Hq).
  exists mb1, mb2, message_p, q. exact (conj Hd Hq).
Defined.
