(* ===== verification/JniWitnesses.v ===== *)
(** The theorems on the Java interface, applied to a virtual machine with a heap and
    store objects that are finite maps. *)

From S2P Require Import Prelude Error Utils Crates Crypto Curve Proto IdentityKey Instances Protocol RatchetKeys.
From S2P Require Import SessionState SessionInvariant PreKeys SenderKeys Storage StoreAccess Session SessionCipher GroupCipher.
From S2P Require Import SessionRecordFacts SenderChain GroupProofs Replay StoreProofs Conversation FirstContact Witnesses.
From S2P Require Import BridgeMemory FfiSpec FfiUtil FfiInstances JniUtil JniStores JniEntry JniSession JniSpec JniFrame JniApi.
From S2P Require Import JniProgram JniRecords JniNoted JniWorld JniCalls JniProofs JniInstances.

#[local] Existing Instances toy_build toy_crates toy_codecs toy_hash_laws toy_subtle_laws toy_rng_laws
  toy_cbc_laws toy_x25519_laws toy_edwards_laws toy_proto_laws toy_platform toy_alloc_laws
  toy_jni toy_keeps toy_view toy_os_rng toy_java_laws toy_store_laws.

(** The device of Alice. *)
Definition w_jvm : Jvm := mk_jvm ∅ ∅ ∅ ∅ (mk_device w_alice_id 7 ∅ ∅) None (4%Z : @Csprng toy_crates).

(** A null handle is a [NullPointerException]. *)
Lemma exceptions_are_thrown_witness :
  run_ffi_safe (E:=string) (R:=Z) (fail NullHandle) (∅, w_jvm)
    = (Ok 0%Z, (∅, set_pending (Some ("java/lang/NullPointerException", "null handle")) w_jvm)).
Proof.
  destruct (exceptions_are_thrown (E:=string) (R:=Z) (fail NullHandle) (∅, w_jvm)) as [Hf _];
    [discriminate|exact Hf].
Defined.

(** A pre-key message that names the pre-key 2^32 - 1. *)
Definition w_last_pre_key : PreKeySignalMessage :=
  match PreKeySignalMessage.new 3 77 (Some u32_max) 6 w_point
      (IdentityKeyPair.identity_key (w_identity Byte.x42)) w_message with
  | Ok m => m
  | _ => PreKeySignalMessage.mk 0 0 None 0 w_point
           (IdentityKeyPair.identity_key (w_identity Byte.x42)) w_message []
  end.

Definition w_java_memory : Memory :=
  list_to_map [(300%Z, Boxed (inject w_last_pre_key)); (301%Z, Boxed (inject w_bob_address))].


Abbreviation w_get_name :=
  (jni_fn_get_jstring (E:=string) (J:=Jvm) (fun a => Ok (ProtocolAddress.name a)) 301).
Definition w_after_name : Memory * Jvm := (w_get_name (w_java_memory, w_jvm)).2.

Lemma java_handles_survive_witness :
  ((w_get_name (w_java_memory, w_jvm)).1 = Err Undefined \/
   exists v, (w_get_name (w_java_memory, w_jvm)).1 = Ok v) /\
  native_handle_cast (E:=string) ProtocolAddress 301 w_after_name = (Ok w_bob_address, w_after_name).
Proof.
  destruct (java_handles_survive (E:=string) [] (w_java_memory, w_jvm) w_after_name 301 ProtocolAddress
    w_bob_address) as [Hreturns Htrace].
  pose proof (toy_keeps 301 (Boxed (inject w_bob_address))) as Hkeeps.
  split.
  - exact (Hreturns keeps_throws [] Z w_get_name (w_java_memory, w_jvm)
      (native_get_jstring ProtocolAddress (fun a => Ok (ProtocolAddress.name a)) 301)).
  - exact (Htrace Hkeeps
      (java_call [] [] Z w_get_name (w_java_memory, w_jvm) 4097%Z w_after_name w_after_name
         (native_get_jstring ProtocolAddress (fun a => Ok (ProtocolAddress.name a)) 301) eq_refl
         (java_done _))
      eq_refl (not_elem_of_nil _) ltac:(discriminate)).
Defined.

(** The last device id of 32 bits, which no Java address has. *)
Definition w_last_device : ProtocolAddress := ProtocolAddress.new "+14151111112" u32_max.

Lemma w_record_short b :
  SessionRecord.serialize w_record = Ok b -> (Z.of_nat (length b) < 2147483648)%Z.
Proof.
  assert (Hl : match SessionRecord.serialize w_record with
    | Ok b => (Z.of_nat (length b) <? 2147483648)%Z | _ => true end = true)
    by (vm_compute; reflexivity).
  intros Hb. rewrite Hb in Hl. by apply Z.ltb_lt.
Qed.

Lemma w_record_well_formed : well_formed w_record.
Proof. split; [by eexists|exact w_record_typed]. Qed.

#[local] Instance w_session_object : JniSessionStore := {| session_store_object := toy_session_object |}.

Lemma java_stores_keep_records_witness :
  (exists s1 s2,
    JniSessionStore.do_store_session (E:=string) w_bob_address w_record (∅, w_jvm) = (Ok tt, s1) /\
    JniSessionStore.do_load_session (E:=string) w_bob_address s1 = (Ok (Some w_record), s2)) /\
  exists e s1, JniSessionStore.do_load_session (E:=string) w_last_device (∅, w_jvm)
    = (Err (Fail (Jni e)), s1).
Proof.
  split.
  - pose proof (java_stores_keep_records (E:=string) (so:=toy_session_object) (io:=toy_identity_object)
      (po:=toy_pre_key_object) (spo:=toy_signed_pre_key_object) (ko:=toy_sender_key_object)
      w_bob_address (∅, w_jvm)) as Hall.
    rewrite bool_decide_true in Hall by reflexivity.
    destruct Hall as (Hstore & _); [vm_compute; split; discriminate|reflexivity|].
    destruct (Hstore w_record w_record_well_formed w_record_short)
      as (s1 & Hs & _ & _ & _ & _ & s2 & Hl & _).
    exists s1, s2. exact (conj Hs Hl).
  - pose proof (java_stores_keep_records (E:=string) (so:=toy_session_object) (io:=toy_identity_object)
      (po:=toy_pre_key_object) (spo:=toy_signed_pre_key_object) (ko:=toy_sender_key_object)
      w_last_device (∅, w_jvm)) as Hall.
    rewrite bool_decide_false in Hall by (intros H; discriminate H).
    destruct Hall as (Hload & _); [vm_compute; split; discriminate|reflexivity|]. exact Hload.
Defined.

(** ** Two devices *)

Definition w_no_records : JavaSessions := {| java_records := ∅ |}.
Definition w_no_groups : JavaGroups := {| java_groups := ∅ |}.

(** What the device of Alice holds, and what the one of Bob is given. *)
Definition w_alice_memory : Memory :=
  list_to_map [(300%Z, Boxed (inject w_bob_address)); (301%Z, Boxed (inject w_bundle));
    (302%Z, Boxed (inject w_name))].

Lemma w_alice_holds_address : handle w_alice_memory 300 w_bob_address.
Proof. by split. Qed.
Lemma w_alice_holds_bundle : handle w_alice_memory 301 w_bundle.
Proof. by split. Qed.
Lemma w_alice_holds_name : handle w_alice_memory 302 w_name.
Proof. by split. Qed.

Lemma w_alice_mirrors : mirrors (w_alice_memory, w_jvm) (w_alice_with w_no_records) w_no_groups.
Proof. by split. Qed.

(** The device of Bob, with a one-time and a signed pre-key. *)
Definition w_bob_jvm : Jvm :=
  mk_jvm ∅ ∅ ∅ ∅ (mk_device w_bob_id 9 w_bob_pre_keys w_bob_signed_pre_keys) None
    (6%Z : @Csprng toy_crates).

Lemma w_java_id_kept {A} (v : A) i id : is_u32 i -> is_u32 id -> (i < 2147483648)%Z ->
  ({[i := v]} : gmap Z A) !! as_jint id = ({[i := v]} : gmap Z A) !! id.
Proof.
  intros Hi Hid Hs.
  assert (Hsame : as_jint i = i).
  { rewrite as_jint_cases by done. destruct (Z.ltb_spec i 2147483648); [done|lia]. }
  destruct (decide (id = i)) as [->|Hne]; [by rewrite Hsame|].
  rewrite !lookup_singleton_ne; [done..|]. intros Heq. apply Hne, as_jint_inj; [done..|congruence].
Qed.

Lemma w_bob_mirrors m : mirrors (m, w_bob_jvm) (w_bob_with w_no_records) w_no_groups.
Proof.
  split; try done; intros id Hid; (apply w_java_id_kept; [unfold is_u32, u32_max; lia|done|lia]).
Qed.

Lemma w_bundle_keepable :
  keepable (process_prekey_bundle w_bob_address w_bundle None) (w_alice_with w_no_records) w_no_groups.
Proof. apply (bool_decide_unpack _). vm_compute. exact I. Qed.

(** What Alice and Bob do with the first message. *)
Definition w_after_bundle : JavaWorld :=
  (process_prekey_bundle w_bob_address w_bundle None (w_alice_with w_no_records)).2.

Definition w_message_keepable : bool :=
  match (message_encrypt w_text w_bob_address None w_after_bundle).1 with
  | Ok (CiphertextMessage.PreKeySignalMessage m) =>
      bool_decide (fine (message_encrypt w_text w_bob_address None
        (mk_noted w_after_bundle w_no_groups [])).2) &&
      bool_decide (fine (message_decrypt_prekey m w_alice_address None
        (mk_noted (w_bob_with w_no_records) w_no_groups [])).2)
  | _ => true
  end.

Lemma w_message_is_keepable : w_message_keepable = true.
Proof. vm_compute. reflexivity. Qed.

Lemma java_calls_implement_operations_witness :
  exists s',
    NativeStores.SessionBuilder_ProcessPreKeyBundle (E:=string) 301 300 toy_session_object
      toy_identity_object (w_alice_memory, w_jvm) = (Ok tt, s') /\
    mirrors s' w_after_bundle w_no_groups.
Proof.
  pose proof (proj1 (proj1 (java_calls_implement_operations (E:=string) (so:=toy_session_object) (io:=toy_identity_object)
      (po:=toy_pre_key_object) (spo:=toy_signed_pre_key_object) (ko:=toy_sender_key_object)
      (w_alice_memory, w_jvm)
    (w_alice_with w_no_records) w_no_groups w_alice_mirrors) 300%Z w_bob_address
    w_alice_holds_address) 301%Z w_bundle w_alice_holds_bundle w_bundle_keepable) as Hall.
  unfold implements, ends in Hall.
  assert (Hr : (process_prekey_bundle w_bob_address w_bundle None (w_alice_with w_no_records)).1 = Ok tt)
    by (vm_compute; reflexivity).
  rewrite Hr in Hall. destruct Hall as ([] & s' & Hs & _ & Hm). exists s'. exact (conj Hs Hm).
Defined.

Lemma first_contact_through_java_witness :
  exists o sa1 m,
    java_contact (so:=toy_session_object) (io:=toy_identity_object) 301 300 w_text (w_alice_memory, w_jvm)
      = (Ok o, sa1) /\ look sa1 o = Some (JavaPreKeyMessage m) /\
    exists q sb1,
      NativeStores.SessionCipher_DecryptPreKeySignalMessage (E:=string) 400 401 toy_session_object
        toy_identity_object toy_pre_key_object toy_signed_pre_key_object
        (list_to_map [(400%Z, Boxed (inject m)); (401%Z, Boxed (inject w_alice_address))], w_bob_jvm)
        = (Ok q, sb1) /\
      look sb1 q = Some (JavaBytes w_text) /\ device_pre_keys (java_device sb1) !! 31%Z = None.
Proof.
  destruct (first_contact_through_java (E:=string) (so:=toy_session_object) (io:=toy_identity_object)
      (po:=toy_pre_key_object) (spo:=toy_signed_pre_key_object) (ko:=toy_sender_key_object)
      (w_alice_memory, w_jvm) (w_alice_with w_no_records)
    w_no_groups (w_bob_with w_no_records) w_no_groups 300%Z 301%Z
    w_alice_address w_bob_address w_bundle w_signed (Some w_one_time) w_text
    w_alice_mirrors w_alice_holds_bundle w_alice_holds_address (toy_keeps 300 _) eq_refl (w_published _)
    ltac:(split; cbn; unfold is_u32, u32_max; lia) (w_identity_matching _)
    (or_introl eq_refl) (or_introl eq_refl)) as (o & sa1 & m & Ho & Hl & _ & Hbob).
  - apply Nat.leb_le; vm_compute; reflexivity.
  - split; [apply Nat.leb_le; vm_compute; reflexivity|repeat constructor; vm_compute; congruence].
  - vm_compute; congruence.
  - vm_compute; split; [discriminate|reflexivity].
  - vm_compute; split; [discriminate|reflexivity].
  - exact w_bundle_keepable.
  - intros wa1 m wa2 Hp He. pose proof w_message_is_keepable as Hk. unfold w_message_keepable in Hk.
    assert (wa1 = w_after_bundle) as -> by (unfold w_after_bundle; by rewrite Hp).
    rewrite He in Hk. cbn [fst] in Hk. apply andb_true_iff in Hk as [H1 H2].
    split; [exact (bool_decide_eq_true_1 _ H1)|exact (bool_decide_eq_true_1 _ H2)].
  - exists o, sa1, m. split; [exact Ho|]. split; [exact Hl|].
    destruct (Hbob _ 400%Z 401%Z (w_bob_mirrors (list_to_map
      [(400%Z, Boxed (inject m)); (401%Z, Boxed (inject w_alice_address))])))
      as (q & sb1 & Hd & [_ Hq] & Hgone & _); [by split|by split|].
    exists q, sb1. split; [exact Hd|]. split; [exact Hq|].
    apply (Hgone 31%Z); [reflexivity|unfold is_u32, u32_max; lia].
Defined.

(** ** A group *)

Definition w_plaintexts : list bytes := [w_text; w_iv].
Definition w_deliveries : list nat := [1; 0; 1].

(** What Alice announces and sends, on maps. *)
Definition w_alice_noted : Noted := mk_noted (w_alice_with w_no_records) w_no_groups [].
Definition w_skdm : SenderKeyDistributionMessage :=
  w_value (create_sender_key_distribution_message w_name None w_alice_noted).1 w_announcement.
Definition w_sent : Result (list bytes) * Noted :=
  group_send_all w_name None w_plaintexts
    (announced w_name (w_alice_with w_no_records) w_no_groups).
Definition w_delivered : list bytes := (fun j => nth j (w_value w_sent.1 []) []) <$> w_deliveries.

Lemma w_sent_fine : fine w_sent.2.
Proof. apply (bool_decide_unpack _). vm_compute. exact I. Qed.

Lemma w_sent_short : Forall is_short (w_value w_sent.1 []).
Proof.
  eapply (list.Forall_impl (fun b : bytes => (Z.of_nat (length b) <? 2147483648)%Z = true)).
  - apply (bool_decide_unpack _). vm_compute. exact I.
  - intros b Hb. apply Z.ltb_lt. exact Hb.
Qed.

Lemma w_delivered_fine :
  fine (group_receive_all w_name None w_delivered
    (introduced w_name w_skdm (w_bob_with w_no_records) w_no_groups)).2.
Proof. apply (bool_decide_unpack _). vm_compute. exact I. Qed.

Definition w_bob_memory : Memory :=
  list_to_map [(302%Z, Boxed (inject w_name)); (303%Z, Boxed (inject w_skdm))].

Lemma group_conversation_through_java_witness :
  exists h ss1 bs ss2 sr1 sr2,
    NativeStores.GroupSessionBuilder_CreateSenderKeyDistributionMessage (E:=string) 302
      toy_sender_key_object (w_alice_memory, w_jvm) = (Ok h, ss1) /\
    java_send_all (ko:=toy_sender_key_object) 302 w_plaintexts ss1 = (Ok bs, ss2) /\
    NativeStores.GroupSessionBuilder_ProcessSenderKeyDistributionMessage (E:=string) 302 303
      toy_sender_key_object (w_bob_memory, w_bob_jvm) = (Ok tt, sr1) /\
    java_receive_all (ko:=toy_sender_key_object) 302 ((fun j => nth j bs []) <$> w_deliveries) sr1
      = (Ok [Some w_iv; Some w_text; None], sr2).
Proof.
  destruct (group_conversation_through_java (E:=string) (so:=toy_session_object) (io:=toy_identity_object)
      (po:=toy_pre_key_object) (spo:=toy_signed_pre_key_object) (ko:=toy_sender_key_object)
      (w_alice_memory, w_jvm) (w_alice_with w_no_records)
    w_no_groups 302%Z w_name (w_bob_with w_no_records) w_no_groups w_name w_plaintexts
    w_alice_mirrors w_alice_holds_name (toy_keeps 302 _) eq_refl)
    as (h & ss1 & skdm & bs & ss2 & Hc & _ & Hskdm & _ & Hs & Hbs & _ & Hrecv).
  - apply Nat.leb_le; vm_compute; reflexivity.
  - repeat constructor.
  - intros bs Hbs. pose proof w_sent_short as Hshort. unfold w_sent in Hshort.
    rewrite Hbs in Hshort. exact Hshort.
  - exact w_sent_fine.
  - assert (Hskdm' : w_skdm = skdm) by (unfold w_skdm, w_alice_noted; by rewrite Hskdm).
    assert (Hbs' : w_value w_sent.1 [] = bs) by (unfold w_sent; by rewrite Hbs).
    subst skdm bs.
    destruct (Hrecv (w_bob_memory, w_bob_jvm) 302%Z 303%Z w_deliveries (w_bob_mirrors _))
      as (sr1 & rs & sr2 & Hp & Hr & Hreads); [by split|apply toy_keeps|by split| |exact w_delivered_fine|].
    { intros j Hj. unfold w_deliveries in Hj. set_unfold in Hj. cbn. lia. }
    exists h, ss1, (w_value w_sent.1 []), ss2, sr1, sr2.
    split; [exact Hc|]. split; [exact Hs|]. split; [exact Hp|]. rewrite Hr.
    do 2 f_equal. clear -Hreads.
    repeat match goal with H : Forall3 _ _ _ _ |- _ => inversion H; clear H; subst end.
    cbn in *. destruct_and?. naive_solver.
Defined.
